(* ===== verification/_CoqProject ===== *)
-Q . S2P
Prelude.v
GoMem.v
Route.v
Text.v
Duration.v
Ext.v
NetipText.v
Toy.v
Key.v
PeerID.v
Multiaddr.v
MultiaddrText.v
Json.v
Dns.v
Tun.v
Packet.v
RingBuf.v
Routing.v
Forwarder.v
Network.v
SessionPacket.v
Ikpsk2.v
Session.v
Locks.v
Nonce.v
Hoare.v
SessionInv.v
Node.v
NodeInv.v
Routed.v
Connect.v
Overlay.v
Ping.v
Fcnet.v
Discovery.v
Api.v
FdPass.v
Announce.v
Config.v
Cmd.v
