(* ===== verification/Prelude.v ===== *)
(** * go-rovy: a verification development (root file)

    go-rovy is an overlay network. A node is known by an X25519 public key, its
    peer id, whose hash is also its IPv6 address in fc00::/8. Neighbours are
    connected by UDP and by an encrypted session (the lower session); packets
    travel further by source routing: a label of one byte per hop tells each
    node which of its neighbours comes next. The two ends of a route have an
    encrypted session of their own inside that (the upper session). On top of it
    the fcnet endpoint carries IPv6 packets between TUN devices.

    ** How the program fits together, and where it is modelled

    A packet to be sent is put into a buffer and goes down: [Node.Send] fills
    codec, route and payload (Packet), the upper session encrypts it (Session,
    over Ikpsk2 and SessionPacket), the forwarder writes the label (Forwarder),
    the lower session encrypts it again, and the transport writes one datagram.
    A datagram goes up the same way: the lower session decrypts, the lower
    multiplexer gives it to the forwarder, which passes it on to a neighbour or
    upwards, the upper session decrypts, and the upper multiplexer calls the
    handler of its codec. Between any two stages is a queue (RingBuf) and a
    goroutine that runs one handler per packet. Buffers are never copied on the
    way: every stage writes into the same array, which is why the model has a
    heap.

    - Prelude: byte strings with Go's integers, big-endian words, the tactics
      and hint databases of the development.
    - GoMem: the fragment of Go that is used. [M S A] is a computation on the
      state [S] that returns, panics or blocks; slices are references into
      shared arrays with length and capacity; lenses run a component's
      operations inside a larger state.
    - Text, Duration, NetipText: what is used of the standard library's strings,
      strconv, time.Duration and net/netip text forms, with their round trips.
    - Ext: third-party packages as classes of operations with classes of laws:
      golang.org/x/crypto, go-cid, go-multibase, go-varint, go-multiaddr; and
      net/netip, which as part of the standard library is modelled outright.
      Toy: concrete functions that satisfy all these laws together, used by the
      witnesses, so that no theorem holds for want of an instance.
    - Route (route.go), Key (key.go), PeerID (peerid.go), Multiaddr and
      MultiaddrText (multiaddr.go, binary and text form), Json (the JSON methods
      of both), Packet (packet.go): the data types.
    - RingBuf (node/util/ringbuf/ringbuf.go): the queues, once as the code one
      goroutine runs and once as interleaved steps of many.
    - Routing (node/routing/routing.go) and Forwarder
      (node/forwarder/forwarder.go): the two tables. The forwarder calls closures
      its host gave it; [FwdHost] is that interface, and both the recorder of
      Forwarder and the node of Node are instances.
    - Network: any number of forwarders connected to each other.
    - SessionPacket (node/session/packet.go), Ikpsk2 (node/session/ikpsk2/),
      Session (node/session/session.go, manager.go): handshake, ciphers and the
      session store. SessionInv: what holds of the store and of every session in
      it after any sequence of operations, by the triples of Hoare.
    - Locks: the mutexes of the routing table, the forwarder, the session manager
      and the waiters. A call is the sequence of its lock operations, its accesses
      and the queues it may have to wait at, and threads interleave them. Nonce:
      [MakeMessage] in the steps in which routines that share a session can
      interleave.
    - Node (node/node.go, recv.go, send.go, transport.go, peer.go): queues,
      handlers, routines, waiters and the transports. An operation [doX] of
      the code is [doX] here; [X_turn] is one turn of the loop of [XRoutine].
      NodeInv: the invariant of a node, for every interleaving of the turns of
      its routines with the calls of its API and the datagrams it receives.
    - Connect: two nodes that have never met, from [Connect] to the first
      message. Routed: whole nodes in a row, as many as a label can name.
      Overlay: the two together, [Connect] to a node behind such a row.
    - Ping and Fcnet (fcnet/ping.go, fcnet/fcnet.go): the IPv6 endpoint. Dns
      (fcnet/dns.go): the names of its peers. Tun (fcnet/tun.go, tun_nm.go,
      tun_netlink.go): how its device comes about, by NetworkManager or netlink.
    - Discovery (node/service/service.go, node/discovery/linklocal.go,
      node/discovery.go): services, and the one service there is; Announce: the
      announcements it sends and finds.
    - Api (api/interface.go, api/server/, api/client/, node/api.go,
      node/peer.go, node/discovery.go): the interface a node is controlled by,
      as a record of operations; the node is one instance, a client in front of
      a server another. FdPass: the three routines that hand the descriptor of
      the device from the client to the server (api/client/fcnet.go,
      api/server/fcnet.go).
    - Config (api/config/config.go, nodecfg/nodecfg.go): key file and
      configuration, and applying them through the interface. Cmd (cmd/rovy/):
      the commands.

    Definitions keep the names of the functions; a trailing underscore avoids a
    clash with a type of the same name ([Route_] is the method Route).

    ** What the theorems show

    - Delivery: a payload given to [Send] reaches the handler of the neighbour it
      is for, through all queues and both multiplexers (Node), and that of a
      distant node through all the nodes between them (Routed); a label of up to
      13 hops leads a packet to the end of its route and, reversed, back again,
      in any network (Network). A node may have several sessions with a peer, and
      [Find] picks one of them: these theorems ask that the one it picks is
      established at both ends, and Session shows what happens when a second
      hello has left one that is not. An IPv6 packet from one device comes out of the
      other unchanged (Fcnet).
    - Connection: two nodes without any session end up as neighbours of each
      other, with matching keys, slots and routes, and the caller of [Connect] is
      told (Connect); a node that has a route of 2 to 13 hops reaches the node at
      its end the same way, through relays that only see labels, and the far node
      learns the way back (Overlay).
    - Invariants: whatever order the routines run in, the queues stay within
      their bounds, the forwarder's two maps agree and every session under an
      index has the key of the peer it names, so that [CreateData] seals data for
      a peer with the send key of a session with that peer only; the callback
      after a handshake answers everyone who waits and finds room in their
      channels (NodeInv).
    - Concurrency: the map of routes, the map of peers, the map of sessions and
      the map of waiters are free of races under any number of threads; the locks
      alone never stop all of them, a full queue can, and the callback of a new
      connection waits behind a switch that stands at one with its lock held; the
      accesses that are not guarded are named (Locks); calls of [MakeMessage] that
      do not overlap use different nonces, and two that overlap can use the same
      (Nonce); the endpoint is started on the descriptor the client was given, in every interleaving
      of the hand-over (FdPass).
    - Sessions: the handshake ends with matching keys on both sides, at the level
      of the Noise state (Ikpsk2) and at that of packets and session stores
      (Session); messages open to what was sealed, in any number and in both
      directions, without reuse of a nonce; a refused handshake message changes
      nothing.
    - Tables and queues: the routing table refines a plain map from peers to
      their routes; every slot the forwarder hands out was free; the queue keeps
      the newest packets in order, sequentially and in every interleaving, in
      which every packet offered is delivered, dropped, queued or in the hands of
      a producer.
    - Data: round trips of packets, routes, peer ids and keys, with the bounds
      under which they hold; the text of an address is parsed back to it; names of
      peers resolve to their addresses.
    - Control over HTTP: a client behaves like the node itself, for every
      implementation behind the server (Api); the default configuration applied
      that way leaves the node listening and announcing, with its endpoint started
      and the handlers of the endpoint registered (Config); the command start ends
      with such a node running, what init writes start can use, and
      neither takes away what another process needs (Cmd).
    - Discovery: what a node announces its neighbours find (Announce). TUN
      devices: which descriptors stay open, and what NetworkManager is left with
      (Tun).
    - Control: start, stop and listen in any order; waiters are woken once;
      generating keys and session indexes terminates as soon as the random
      source allows it; at most one discovery service runs.
    - Safety of the endpoint: no peer can speak with another's address, and the
      ICMP answers a traceroute gets have the right addresses, length and
      checksum.
    - Where the code falls short of what it means to do, a theorem says exactly
      how: hellos that are too short, labels of 14 hops, labels that are used
      up, joins that share an array, session indexes that collide, the blocking
      [Put], and others. These are theorems about the code as it is.

    ** Bounds and fuel

    Integers that matter at their width wrap where the code wraps them: bytes,
    the 16-bit port, the 32-bit session index and ICMP sum, the 64-bit nonces
    and counters. Go's [int] is [Z]; the lengths it holds here are bounded by
    the buffers, 1500 bytes at most. Loops over data are structural recursion.
    The two loops that wait for a good random number take a list of random
    results and block when it is used up; their theorems give the result for any
    list that has a good one. The loops of the routines are single turns, and
    theorems put the turns in sequence.

    ** What is not modelled

    Logging; of the functions that print a table, Locks has the accesses. Outside
    Locks a call on one of the tables is one step, which its theorem on the
    guarded maps supports and its theorem on the unguarded ones qualifies. The
    sockets, devices, files, timers and clocks are the environment: what
    they deliver is an argument, what is written to them is recorded; so are the
    kernel, D-Bus and the home directory. Config and Cmd take the device that
    NetworkManager yields as given; how it comes about is the subject of Tun, and
    how its descriptor reaches the server that of FdPass. Cipher strength is outside the laws:
    they say that opening undoes sealing, not that nothing else opens. Documents
    in JSON are trees here, with Go's rules for filling a struct but without
    their grammar; TOML and CBOR are classes with laws. Accessors that return a
    field and constructors that only store their arguments are left out, as are
    the examples and the test steps: they put several nodes into one process,
    and what they have the nodes do is what Connect, Overlay and Routed prove of
    nodes with a memory each.

    ** Plan

    Next in order: the remaining fields of one session under concurrent routines,
    beyond the counter of the nonces; fairness of the routines, so that a packet in a
    queue is handled eventually and not only when its turn comes; the endpoint on
    top of Overlay, from a device over relays to the other device. *)

From Stdlib Require Export ZArith Lia.
From stdpp Require Export base list list_numbers gmap strings option numbers.
#[export] Set Warnings "-notation-overridden".

(** lia is taught about division and modulus, which every byte computation of
    the program goes through. *)
Ltac Zify.zify_post_hook ::= Z.div_mod_to_equations.

Global Open Scope Z_scope.

(** ** Lists addressed by Go integers *)

(** Length, sub-range and in-place replacement of a byte string, with Go's
    [int] offsets as [Z]. *)
Definition zlen {A} (l : list A) : Z := Z.of_nat (length l).
Definition sub {A} (l : list A) (i n : Z) : list A :=
  take (Z.to_nat n) (drop (Z.to_nat i) l).
Definition splice {A} (l : list A) (i : Z) (bs : list A) : list A :=
  take (Z.to_nat i) l ++ bs ++ drop (Z.to_nat i + length bs) l.
Definition getz (l : list Z) (i : Z) : Z := nth (Z.to_nat i) l 0.
Definition zeros (n : Z) : list Z := replicate (Z.to_nat n) 0.
#[global] Arguments zlen : simpl never.

(** The hint database of length facts, rewriting only. *)
Create HintDb rovy.
Create Rewrite HintDb zlen.

(** [zl]: a linear fact about lengths, after rewriting them with the database
    [zlen]. *)
Ltac zl := autorewrite with zlen; lia.

(** [llia]: arithmetic on lengths. *)
Ltac llia := unfold zlen in *; rewrite ?length_app, ?length_take, ?length_drop,
  ?length_replicate, ?length_insert, ?length_reverse in *; simpl length in *; lia.

Lemma zlen_nonneg {A} (l : list A) : 0 <= zlen l.
Proof. unfold zlen; lia. Qed.

Lemma zlen_nil {A} : zlen (@nil A) = 0.
Proof. reflexivity. Qed.

Lemma zlen_cons {A} (x : A) l : zlen (x :: l) = 1 + zlen l.
Proof. unfold zlen; simpl; lia. Qed.

Lemma zlen_1 {A} (x : A) : zlen [x] = 1.
Proof. reflexivity. Qed.

Lemma zlen_app {A} (l k : list A) : zlen (l ++ k) = zlen l + zlen k.
Proof. llia. Qed.

Lemma zlen_0_nil {A} (l : list A) : zlen l <= 0 -> l = [].
Proof. destruct l; [done|]. rewrite zlen_cons. pose proof (zlen_nonneg l). lia. Qed.

Lemma zlen_zeros n : 0 <= n -> zlen (zeros n) = n.
Proof. unfold zeros; llia. Qed.

Lemma zlen_reverse {A} (l : list A) : zlen (reverse l) = zlen l.
Proof. unfold zlen. rewrite length_reverse. reflexivity. Qed.

Lemma zlen_take {A} (l : list A) n : 0 <= n <= zlen l -> zlen (take (Z.to_nat n) l) = n.
Proof. intros. llia. Qed.

Lemma zlen_sub {A} (l : list A) i n :
  0 <= i -> 0 <= n -> i + n <= zlen l -> zlen (sub l i n) = n.
Proof. intros; unfold sub; llia. Qed.

Lemma zlen_splice {A} (l : list A) i bs :
  0 <= i -> i + zlen bs <= zlen l -> zlen (splice l i bs) = zlen l.
Proof. intros; unfold splice; llia. Qed.

#[export] Hint Rewrite @zlen_app @zlen_cons @zlen_nil @zlen_reverse : zlen.
#[export] Hint Rewrite @zlen_splice @zlen_sub zlen_zeros @zlen_take using zl : zlen.

(** Pointwise descriptions; every other fact of [sub] and [splice] is read off
    these two. *)
Lemma lookup_sub {A} (l : list A) i n k :
  0 <= i -> 0 <= n ->
  sub l i n !! k = if decide (Z.of_nat k < n) then l !! (Z.to_nat i + k)%nat else None.
Proof.
  intros. unfold sub. case_decide.
  - rewrite lookup_take_lt by lia. rewrite lookup_drop. reflexivity.
  - apply lookup_take_ge. lia.
Qed.

Lemma lookup_splice {A} (l : list A) i bs k :
  0 <= i -> i + zlen bs <= zlen l ->
  splice l i bs !! k =
    if decide (i <= Z.of_nat k < i + zlen bs)
    then bs !! (k - Z.to_nat i)%nat else l !! k.
Proof.
  intros Hi Hb. unfold splice.
  assert (Ht : length (take (Z.to_nat i) l) = Z.to_nat i) by llia.
  case_decide as Hd.
  - rewrite lookup_app_r by (rewrite Ht; lia). rewrite Ht.
    rewrite lookup_app_l by (unfold zlen in *; lia). reflexivity.
  - destruct (decide (Z.of_nat k < i)).
    + rewrite lookup_app_l by (rewrite Ht; lia). apply lookup_take_lt; lia.
    + rewrite lookup_app_r by (rewrite Ht; lia). rewrite Ht.
      rewrite lookup_app_r by (unfold zlen in *; lia).
      rewrite lookup_drop. f_equal. unfold zlen in *; lia.
Qed.

(** [by_lookup]: equality of two lists built from [sub] and [splice]. *)
Ltac by_lookup :=
  apply list_eq; intros ?k;
  repeat first
    [ rewrite lookup_sub by llia
    | rewrite lookup_splice by (rewrite ?zlen_splice, ?zlen_sub by llia; llia) ];
  repeat case_decide; try reflexivity; try lia; try (f_equal; lia).

Lemma sub_splice_in {A} (l : list A) i bs j n :
  0 <= i -> i + zlen bs <= zlen l -> i <= j -> 0 <= n -> j + n <= i + zlen bs ->
  sub (splice l i bs) j n = sub bs (j - i) n.
Proof.
  intros. apply list_eq; intros k.
  rewrite !lookup_sub by lia. rewrite lookup_splice by lia.
  repeat case_decide; try lia; try reflexivity. f_equal; lia.
Qed.

Lemma sub_all {A} (l : list A) : sub l 0 (zlen l) = l.
Proof. unfold sub, zlen. rewrite Nat2Z.id. simpl. rewrite drop_0. apply firstn_all. Qed.

Lemma sub_splice_eq {A} (l : list A) i bs n :
  0 <= i -> n = zlen bs -> i + n <= zlen l -> sub (splice l i bs) i n = bs.
Proof.
  intros ? -> ?. pose proof (zlen_nonneg bs).
  rewrite sub_splice_in by lia. rewrite Z.sub_diag. apply sub_all.
Qed.

Lemma sub_splice_lt {A} (l : list A) i bs j n :
  0 <= i -> i + zlen bs <= zlen l -> 0 <= j -> 0 <= n -> j + n <= i ->
  sub (splice l i bs) j n = sub l j n.
Proof. intros; by_lookup. Qed.

Lemma sub_splice_ge {A} (l : list A) i bs j n :
  0 <= i -> i + zlen bs <= zlen l -> i + zlen bs <= j -> 0 <= n ->
  sub (splice l i bs) j n = sub l j n.
Proof. intros. pose proof (zlen_nonneg bs). by_lookup. Qed.

Lemma sub_sub {A} (l : list A) i n j m :
  0 <= i -> 0 <= j -> 0 <= m -> j + m <= n -> sub (sub l i n) j m = sub l (i + j) m.
Proof. intros; by_lookup. Qed.

Lemma sub_0 {A} (l : list A) i : sub l i 0 = [].
Proof. reflexivity. Qed.

Lemma splice_nil {A} (l : list A) i : splice l i [] = l.
Proof.
  unfold splice. simpl. rewrite Nat.add_0_r. apply take_drop.
Qed.

Lemma splice_sub {A} (l : list A) i n :
  0 <= i -> 0 <= n -> i + n <= zlen l -> splice l i (sub l i n) = l.
Proof.
  intros. apply list_eq; intros k.
  rewrite lookup_splice by (rewrite ?zlen_sub by lia; lia).
  rewrite zlen_sub by lia. case_decide; [|reflexivity].
  rewrite lookup_sub by lia. case_decide; [f_equal; lia|lia].
Qed.

Lemma splice_splice_eq {A} (l : list A) i a b :
  0 <= i -> zlen a = zlen b -> i + zlen a <= zlen l ->
  splice (splice l i a) i b = splice l i b.
Proof.
  intros. apply list_eq; intros k.
  rewrite !lookup_splice by (rewrite ?zlen_splice by lia; lia).
  repeat case_decide; try reflexivity; lia.
Qed.

(** Writes to different places commute. *)
Lemma splice_comm {A} (l : list A) i a j b :
  0 <= i -> i + zlen a <= j -> j + zlen b <= zlen l ->
  splice (splice l i a) j b = splice (splice l j b) i a.
Proof.
  intros. pose proof (zlen_nonneg a). pose proof (zlen_nonneg b). apply list_eq; intros k.
  rewrite !lookup_splice by (rewrite ?zlen_splice by lia; lia).
  repeat case_decide; try reflexivity; lia.
Qed.

(** Writing two adjacent pieces is writing their concatenation. *)
Lemma splice_app {A} (l : list A) i a b :
  0 <= i -> i + zlen a + zlen b <= zlen l ->
  splice l i (a ++ b) = splice (splice l i a) (i + zlen a) b.
Proof.
  intros. pose proof (zlen_nonneg a). pose proof (zlen_nonneg b).
  apply list_eq; intros k.
  rewrite !lookup_splice by (rewrite ?zlen_app, ?zlen_splice by lia; lia).
  rewrite zlen_app. unfold zlen in *.
  repeat case_decide; try lia; try reflexivity.
  - rewrite lookup_app_r by lia. f_equal. lia.
  - rewrite lookup_app_l by lia. reflexivity.
Qed.

(** Writing inside a piece that was just written. *)
Lemma splice_splice_in {A} (l : list A) i a j b :
  0 <= i -> 0 <= j -> i + zlen a <= zlen l -> j + zlen b <= zlen a ->
  splice (splice l i a) (i + j) b = splice l i (splice a j b).
Proof.
  intros. pose proof (zlen_nonneg b). apply list_eq; intros k.
  rewrite !lookup_splice by (rewrite ?zlen_splice by lia; lia).
  rewrite zlen_splice by lia. repeat case_decide; try lia; try reflexivity.
  all: rewrite ?lookup_splice by lia; repeat case_decide; try lia; f_equal; lia.
Qed.

Lemma splice_single (l : list Z) i v :
  0 <= i < zlen l -> splice l i [v] = <[Z.to_nat i := v]> l.
Proof.
  intros Hi. apply list_eq; intros k. rewrite lookup_splice by (rewrite ?zlen_cons, ?zlen_nil; lia).
  rewrite zlen_cons, zlen_nil. case_decide.
  - replace k with (Z.to_nat i) by lia. rewrite Nat.sub_diag, list_lookup_insert_eq; [done|].
    unfold zlen in *. lia.
  - rewrite list_lookup_insert_ne by lia. done.
Qed.

Lemma getz_sub l i n j :
  0 <= i -> 0 <= j < n -> i + n <= zlen l -> getz (sub l i n) j = getz l (i + j).
Proof.
  intros. unfold getz. rewrite !nth_lookup. rewrite lookup_sub by lia.
  case_decide; [|lia]. do 2 f_equal. lia.
Qed.

Lemma getz_splice_in l i bs j :
  0 <= i -> i + zlen bs <= zlen l -> i <= j < i + zlen bs ->
  getz (splice l i bs) j = getz bs (j - i).
Proof.
  intros. unfold getz. rewrite !nth_lookup. rewrite lookup_splice by lia.
  case_decide; [|lia]. do 2 f_equal. lia.
Qed.

Lemma getz_splice_out l i bs j :
  0 <= i -> i + zlen bs <= zlen l -> 0 <= j -> (j < i \/ i + zlen bs <= j) ->
  getz (splice l i bs) j = getz l j.
Proof.
  intros. unfold getz. rewrite !nth_lookup. rewrite lookup_splice by lia.
  case_decide; [lia|reflexivity].
Qed.

Lemma sub_split {A} (l : list A) i n m :
  0 <= i -> 0 <= n -> 0 <= m -> i + n + m <= zlen l ->
  sub l i (n + m) = sub l i n ++ sub l (i + n) m.
Proof.
  intros. apply list_eq; intros k.
  assert (length (sub l i n) = Z.to_nat n) by (pose proof (zlen_sub l i n); unfold zlen in *; lia).
  destruct (decide (Z.of_nat k < n)).
  - rewrite lookup_app_l by lia. rewrite !lookup_sub by lia.
    repeat case_decide; try lia; reflexivity.
  - rewrite lookup_app_r by lia. rewrite !lookup_sub by lia.
    repeat case_decide; try lia; try reflexivity. f_equal. lia.
Qed.

Lemma sub_one l i : 0 <= i < zlen l -> sub l i 1 = [getz l i].
Proof.
  intros. apply list_eq; intros k. rewrite lookup_sub by lia.
  unfold getz. rewrite nth_lookup.
  destruct (lookup_lt_is_Some_2 l (Z.to_nat i)) as [x Hx]; [unfold zlen in *; lia|].
  rewrite Hx. case_decide.
  - replace k with 0%nat by lia. rewrite Nat.add_0_r, Hx. reflexivity.
  - destruct k; [lia|reflexivity].
Qed.

(** ** Bytes and machine integers *)

(** Go conversions to fixed-width unsigned integers truncate. *)
Definition u8 (z : Z) : Z := z mod 2 ^ 8.
Definition u16 (z : Z) : Z := z mod 2 ^ 16.
Definition u32 (z : Z) : Z := z mod 2 ^ 32.
Definition u64 (z : Z) : Z := z mod 2 ^ 64.

Definition is_byte (b : Z) : Prop := 0 <= b < 256.
Definition is_bytes (l : list Z) : Prop := Forall is_byte l.

#[export] Instance is_byte_dec b : Decision (is_byte b).
Proof. unfold is_byte. apply _. Defined.

#[export] Instance is_bytes_dec l : Decision (is_bytes l).
Proof. unfold is_bytes. apply _. Defined.

Lemma u8_byte z : is_byte (u8 z).
Proof. unfold u8, is_byte. change (2 ^ 8) with 256. lia. Qed.

Lemma u8_id b : is_byte b -> u8 b = b.
Proof. unfold u8, is_byte. change (2 ^ 8) with 256. lia. Qed.

Lemma is_bytes_splice l i bs : is_bytes l -> is_bytes bs -> is_bytes (splice l i bs).
Proof.
  unfold is_bytes, splice. intros.
  apply Forall_app; split; [by apply Forall_take|].
  apply Forall_app; split; [done|by apply Forall_drop].
Qed.

Lemma is_bytes_sub l i n : is_bytes l -> is_bytes (sub l i n).
Proof. intros. apply Forall_take, Forall_drop. done. Qed.

Lemma is_bytes_zeros n : is_bytes (zeros n).
Proof. apply Forall_replicate. unfold is_byte. lia. Qed.

Lemma getz_byte l i : is_bytes l -> is_byte (getz l i).
Proof.
  intros Hl. unfold getz. rewrite nth_lookup.
  destruct (l !! Z.to_nat i) eqn:E; simpl.
  - eapply Forall_lookup_1 in E; eauto.
  - unfold is_byte; lia.
Qed.

#[export] Hint Resolve u8_byte is_bytes_splice is_bytes_sub is_bytes_zeros getz_byte : rovy.

(** Little-endian value of a byte string, and its inverse: the byte string of
    a given width. *)
Fixpoint le_val (l : list Z) : Z :=
  match l with
  | [] => 0
  | b :: t => b + 256 * le_val t
  end.

Fixpoint le_bytes (n : nat) (v : Z) : list Z :=
  match n with
  | O => []
  | S n => u8 v :: le_bytes n (Z.shiftr v 8)
  end.

Definition be_val (l : list Z) : Z := le_val (reverse l).
Definition be_bytes (n : nat) (v : Z) : list Z := reverse (le_bytes n v).

Lemma length_le_bytes n v : length (le_bytes n v) = n.
Proof. revert v; induction n; simpl; auto. Qed.

Lemma zlen_le_bytes n v : zlen (le_bytes n v) = Z.of_nat n.
Proof. unfold zlen. by rewrite length_le_bytes. Qed.

Lemma zlen_be_bytes n v : zlen (be_bytes n v) = Z.of_nat n.
Proof. unfold be_bytes. rewrite zlen_reverse. apply zlen_le_bytes. Qed.

#[export] Hint Rewrite zlen_le_bytes zlen_be_bytes : zlen.

Lemma is_bytes_le n v : is_bytes (le_bytes n v).
Proof. revert v; induction n; simpl; constructor; auto using u8_byte. apply IHn. Qed.

Lemma is_bytes_reverse l : is_bytes l -> is_bytes (reverse l).
Proof. unfold is_bytes. by rewrite Forall_reverse. Qed.

Lemma is_bytes_be n v : is_bytes (be_bytes n v).
Proof. apply is_bytes_reverse, is_bytes_le. Qed.

#[export] Hint Resolve is_bytes_le is_bytes_be is_bytes_reverse : rovy.

Lemma pow256_succ n : 256 ^ Z.of_nat (S n) = 256 * 256 ^ Z.of_nat n.
Proof. rewrite Nat2Z.inj_succ, Z.pow_succ_r by lia. reflexivity. Qed.

Lemma le_val_bytes n v : le_val (le_bytes n v) = v mod 256 ^ Z.of_nat n.
Proof.
  revert v; induction n as [|n IH]; intros v; simpl le_bytes; simpl le_val.
  - rewrite Z.mod_1_r. reflexivity.
  - rewrite IH, pow256_succ. unfold u8. rewrite Z.shiftr_div_pow2 by lia.
    change (2 ^ 8) with 256.
    assert (0 < 256 ^ Z.of_nat n) by (apply Z.pow_pos_nonneg; lia).
    rewrite Z.rem_mul_r by lia. reflexivity.
Qed.

Lemma le_bytes_val l : is_bytes l -> le_bytes (length l) (le_val l) = l.
Proof.
  induction 1 as [|b l Hb Hl IH]; [reflexivity|]. unfold is_byte in Hb.
  cbn [length le_bytes le_val]. f_equal.
  - unfold u8. change (2 ^ 8) with 256. lia.
  - rewrite Z.shiftr_div_pow2 by lia. change (2 ^ 8) with 256.
    replace ((b + 256 * le_val l) / 256) with (le_val l) by lia. exact IH.
Qed.

Lemma le_val_bound l : is_bytes l -> 0 <= le_val l < 256 ^ zlen l.
Proof.
  induction 1 as [|b l Hb Hl IH]; [change (0 <= 0 < 1); lia|].
  unfold zlen in *. cbn [length le_val]. rewrite pow256_succ. unfold is_byte in Hb. lia.
Qed.

Lemma be_val_bytes n v : be_val (be_bytes n v) = v mod 256 ^ Z.of_nat n.
Proof. unfold be_val, be_bytes. rewrite reverse_involutive. apply le_val_bytes. Qed.

Lemma be_bytes_val l : is_bytes l -> be_bytes (length l) (be_val l) = l.
Proof.
  intros H. unfold be_val, be_bytes. rewrite <- (length_reverse l).
  rewrite le_bytes_val by auto with rovy. apply reverse_involutive.
Qed.

Lemma be_val_bound l : is_bytes l -> 0 <= be_val l < 256 ^ zlen l.
Proof.
  intros H. unfold be_val. rewrite <- (zlen_reverse l). apply le_val_bound; auto with rovy.
Qed.

(** Oring a value with one shifted above it is addition. *)
Lemma land_shiftl_0 a b k :
  0 <= k -> 0 <= a < 2 ^ k -> Z.land a (Z.shiftl b k) = 0.
Proof.
  intros Hk Ha. apply Z.bits_inj'. intros i Hi.
  rewrite Z.land_spec, Z.shiftl_spec, Z.bits_0 by lia.
  destruct (Z.ltb_spec i k).
  - rewrite (Z.testbit_neg_r b) by lia. apply andb_false_r.
  - rewrite <- (Z.mod_small a (2 ^ k)) by lia.
    rewrite Z.mod_pow2_bits_high by lia. reflexivity.
Qed.

Lemma lor_shiftl_add a b k :
  0 <= k -> 0 <= a < 2 ^ k -> Z.lor a (Z.shiftl b k) = a + b * 2 ^ k.
Proof.
  intros Hk Ha. rewrite <- Z.shiftl_mul_pow2 by lia.
  pose proof (land_shiftl_0 a b k Hk Ha) as H0.
  rewrite <- Z.lxor_lor by exact H0. symmetry. apply Z.add_nocarry_lxor, H0.
Qed.

(** ** Small automation *)

(** Split every hypothesis that is a conjunction or an existential. *)
Ltac deex :=
  repeat match goal with
  | H : _ /\ _ |- _ => destruct H
  | H : exists _, _ |- _ => destruct H
  end.
