(* ===== verification/GoMem.v ===== *)
(** * GoMem: the fragment of Go the program is written in

    A Go function body is a computation [M S A]: it takes the state [S] of the
    objects it can reach and returns a value and the new state, or panics (an
    out-of-range index or slice expression, a nil dereference, an explicit
    panic), or blocks (a send on a full channel, a receive from an empty one,
    a read from an exhausted source of randomness).  Go's [error] results are
    ordinary values and are modelled as such by each component.

    Byte slices are references into shared arrays, as in Go: a slice is an
    array together with an offset, a length and a capacity, [reslice] shares
    the array, [copy] and index assignments write through it, and [append]
    writes in place exactly when the capacity allows it.  The allocator's
    choice of capacity when an append has to grow is the parameter
    [growcap]. *)

From S2P Require Import Prelude.

(** ** Outcomes and the monad *)

Inductive res (A : Type) : Type :=
| Ok (a : A)
| Panic
| Block.
Arguments Ok {A} a.
Arguments Panic {A}.
Arguments Block {A}.

Definition M (S A : Type) : Type := S -> res (A * S).

#[export] Instance M_ret {S} : MRet (M S) := fun A a s => Ok (a, s).
#[export] Instance M_bind {S} : MBind (M S) := fun A B f m s =>
  match m s with
  | Ok (a, s') => f a s'
  | Panic => Panic
  | Block => Block
  end.

Definition panic {S A} : M S A := fun _ => Panic.
Definition block {S A} : M S A := fun _ => Block.
Definition assert_ {S} (b : bool) : M S unit := if b then mret tt else panic.
Definition gets {S A} (f : S -> A) : M S A := fun s => Ok (f s, s).
Definition modify {S} (f : S -> S) : M S unit := fun s => Ok (tt, f s).

(** Running a computation on a part of a larger state. *)
Record lens (T S : Type) : Type := Lens { view : T -> S; over : S -> T -> T }.
Arguments Lens {T S}.
Arguments view {T S}.
Arguments over {T S}.

Definition zoom {T S A} (l : lens T S) (m : M S A) : M T A := fun t =>
  match m (view l t) with
  | Ok (a, s) => Ok (a, over l s t)
  | Panic => Panic
  | Block => Block
  end.

Lemma bind_ok {S A B} (m : M S A) (f : A -> M S B) s a s' :
  m s = Ok (a, s') -> (m ≫= f) s = f a s'.
Proof. intros H. unfold mbind, M_bind. by rewrite H. Qed.

Lemma bind_panic {S A B} (m : M S A) (f : A -> M S B) s :
  m s = Panic -> (m ≫= f) s = Panic.
Proof. intros H. unfold mbind, M_bind. by rewrite H. Qed.

Lemma bind_block {S A B} (m : M S A) (f : A -> M S B) s :
  m s = Block -> (m ≫= f) s = Block.
Proof. intros H. unfold mbind, M_bind. by rewrite H. Qed.

Lemma bind_inv {S A B} (m : M S A) (f : A -> M S B) s r :
  (m ≫= f) s = Ok r -> exists a s', m s = Ok (a, s') /\ f a s' = Ok r.
Proof.
  unfold mbind, M_bind. destruct (m s) as [[a s']| |]; try done. eauto.
Qed.

Lemma assert_ok {S} b (s : S) : b = true -> assert_ b s = Ok (tt, s).
Proof. by intros ->. Qed.

Lemma assert_inv {S} b (s : S) r : assert_ b s = Ok r -> b = true /\ r = (tt, s).
Proof. destruct b; [|done]. by injection 1. Qed.

(** The laws of a field that can be read and replaced on its own. *)
Class LensLaws {T S} (l : lens T S) : Prop := {
  view_over : forall s t, view l (over l s t) = s;
  over_view : forall t, over l (view l t) t = t;
  over_over : forall s s' t, over l s' (over l s t) = over l s' t
}.

Lemma zoom_ok {T S A} (l : lens T S) (m : M S A) t a s :
  m (view l t) = Ok (a, s) -> zoom l m t = Ok (a, over l s t).
Proof. intros H. unfold zoom. by rewrite H. Qed.

(** Running a statement on the field [l] of a state that was last changed
    there. *)
Lemma bind_zoom {T S A B} (l : lens T S) `{!LensLaws l} (m : M S A) (f : A -> M T B) s t a s' :
  m s = Ok (a, s') -> (zoom l m ≫= f) (over l s t) = f a (over l s' t).
Proof.
  intros H. unfold mbind, M_bind, zoom. rewrite view_over, H. by rewrite over_over.
Qed.

Lemma bind_zoom_panic {T S A B} (l : lens T S) `{!LensLaws l} (m : M S A) (f : A -> M T B) s t :
  m s = Panic -> (zoom l m ≫= f) (over l s t) = Panic.
Proof. intros H. unfold mbind, M_bind, zoom. by rewrite view_over, H. Qed.

Lemma zoom_over {T S A} (l : lens T S) `{!LensLaws l} (m : M S A) s t a s' :
  m s = Ok (a, s') -> zoom l m (over l s t) = Ok (a, over l s' t).
Proof. intros H. unfold zoom. rewrite view_over, H. by rewrite over_over. Qed.

Definition fst_lens {S T} : lens (S * T) S := Lens fst (fun s p => (s, snd p)).
Definition snd_lens {S T} : lens (S * T) T := Lens snd (fun t p => (fst p, t)).

#[export] Instance fst_lens_laws {S T} : LensLaws (@fst_lens S T).
Proof. by split; intros; [|destruct t|]. Qed.
#[export] Instance snd_lens_laws {S T} : LensLaws (@snd_lens S T).
Proof. by split; intros; [|destruct t|]. Qed.

(** ** The heap of byte arrays *)

Abbreviation heap := (list (list Z)).

Definition arr (h : heap) (a : nat) : list Z := default [] (h !! a).
Definition upd (h : heap) (a : nat) (l : list Z) : heap := <[a := l]> h.

Record slice : Type := Slice {
  s_arr : nat;
  s_off : Z;
  s_len : Z;
  s_cap : Z
}.

(** The nil slice. *)
Definition nil_slice : slice := Slice 0 0 0 0.

(** The allocator: the capacity [append] gives to a grown slice of capacity
    [old] that needs [need] elements. The language only promises that it is
    sufficient. *)
Class GoRuntime : Type := {
  growcap : Z -> Z -> Z;
  growcap_ge : forall old need, need <= growcap old need
}.

(** [make([]byte, n)] and a composite literal of bytes. *)
Definition alloc (l : list Z) : M heap slice := fun h =>
  Ok (Slice (length h) 0 (zlen l) (zlen l), h ++ [l]).
Definition make_bytes (n : Z) : M heap slice :=
  _ ← assert_ (0 <=? n); alloc (zeros n).

(** [s[lo:hi]]: the upper bound is checked against the capacity. *)
Definition reslice (s : slice) (lo hi : Z) : M heap slice :=
  _ ← assert_ ((0 <=? lo) && (lo <=? hi) && (hi <=? s_cap s));
  mret (Slice (s_arr s) (s_off s + lo) (hi - lo) (s_cap s - lo)).

Definition s_get (s : slice) (i : Z) : M heap Z :=
  _ ← assert_ ((0 <=? i) && (i <? s_len s));
  gets (fun h => getz (arr h (s_arr s)) (s_off s + i)).

Definition s_set (s : slice) (i v : Z) : M heap unit :=
  _ ← assert_ ((0 <=? i) && (i <? s_len s));
  modify (fun h => upd h (s_arr s) (splice (arr h (s_arr s)) (s_off s + i) [v])).

(** The bytes a slice currently denotes. *)
Definition contents (h : heap) (s : slice) : list Z :=
  sub (arr h (s_arr s)) (s_off s) (s_len s).
Definition s_read (s : slice) : M heap (list Z) := gets (fun h => contents h s).

(** [copy(dst, src)] with the source bytes already read. *)
Definition s_copy (dst : slice) (src : list Z) : M heap unit :=
  modify (fun h => upd h (s_arr dst)
    (splice (arr h (s_arr dst)) (s_off dst) (take (Z.to_nat (s_len dst)) src))).

Definition s_append `{GoRuntime} (s : slice) (bs : list Z) : M heap slice :=
  let n := s_len s + zlen bs in
  if n <=? s_cap s then
    _ ← modify (fun h => upd h (s_arr s) (splice (arr h (s_arr s)) (s_off s + s_len s) bs));
    mret (Slice (s_arr s) (s_off s) n (s_cap s))
  else fun h =>
    let c := growcap (s_cap s) n in
    Ok (Slice (length h) 0 n c, h ++ [contents h s ++ bs ++ zeros (c - n)]).

(** encoding/binary, on the first bytes of a slice. *)
Definition get_le32 (s : slice) : M heap Z :=
  _ ← assert_ (4 <=? s_len s); gets (fun h => le_val (sub (contents h s) 0 4)).
Definition put_le32 (s : slice) (v : Z) : M heap unit :=
  _ ← assert_ (4 <=? s_len s); s_copy s (le_bytes 4 v).
Definition get_be32 (s : slice) : M heap Z :=
  _ ← assert_ (4 <=? s_len s); gets (fun h => be_val (sub (contents h s) 0 4)).
Definition put_be32 (s : slice) (v : Z) : M heap unit :=
  _ ← assert_ (4 <=? s_len s); s_copy s (be_bytes 4 v).
Definition get_be16 (s : slice) : M heap Z :=
  _ ← assert_ (2 <=? s_len s); gets (fun h => be_val (sub (contents h s) 0 2)).

(** The recurring statements [copy(b[lo:hi], bs)] and reading [b[lo:hi]]. *)
Definition buf_write (b : slice) (lo hi : Z) (bs : list Z) : M heap unit :=
  t ← reslice b lo hi; s_copy t bs.
Definition buf_read (b : slice) (lo hi : Z) : M heap (list Z) :=
  t ← reslice b lo hi; s_read t.

(** ** Well-formedness *)

(** A slice denotes a part of its array; the nil slice is one too. *)
Definition slice_ok (h : heap) (s : slice) : Prop :=
  0 <= s_off s /\ 0 <= s_len s <= s_cap s /\
  s_off s + s_cap s <= zlen (arr h (s_arr s)).

(** A packet buffer: a slice over the whole of its array, with bytes [l]. *)
Definition full (h : heap) (s : slice) (l : list Z) : Prop :=
  h !! s_arr s = Some l /\ s_off s = 0 /\ s_len s = zlen l /\ s_cap s = zlen l.

Lemma full_arr h s l : full h s l -> arr h (s_arr s) = l.
Proof. intros [H _]. unfold arr. by rewrite H. Qed.

Lemma full_contents h s l : full h s l -> contents h s = l.
Proof.
  intros H. unfold contents. rewrite (full_arr _ _ _ H).
  destruct H as (_ & -> & -> & _). apply sub_all.
Qed.

Lemma full_fun h s l l' : full h s l -> full h s l' -> l = l'.
Proof. intros [H _] [H' _]. congruence. Qed.

Lemma full_slice_ok h s l : full h s l -> slice_ok h s.
Proof.
  intros H. pose proof (full_arr _ _ _ H) as Ha. destruct H as (H & Ho & Hl & Hc).
  pose proof (zlen_nonneg l). unfold slice_ok. rewrite Ha.
  lia.
Qed.

Lemma upd_upd h a l l' : upd (upd h a l) a l' = upd h a l'.
Proof. unfold upd. apply list_insert_insert_eq. Qed.

Lemma upd_same h a l : h !! a = Some l -> upd h a l = h.
Proof. apply list_insert_id. Qed.

Lemma length_upd h a l : length (upd h a l) = length h.
Proof. apply length_insert. Qed.

Lemma full_upd h s l l' :
  full h s l -> zlen l' = zlen l -> full (upd h (s_arr s) l') s l'.
Proof.
  intros (H & Ho & Hl & Hc) Hz. unfold full, upd.
  rewrite list_lookup_insert_eq by (by eapply lookup_lt_Some). by rewrite Hz.
Qed.

Lemma full_upd_ne h s l a l' :
  full h s l -> a <> s_arr s -> full (upd h a l') s l.
Proof.
  intros (H & Ho) Hz. unfold full, upd. by rewrite list_lookup_insert_ne.
Qed.

Lemma full_app h s l k : full h s l -> full (h ++ k) s l.
Proof.
  intros (H & Ho). split; [|done]. by apply lookup_app_l_Some.
Qed.

Lemma alloc_full l h :
  exists s, alloc l h = Ok (s, h ++ [l]) /\ full (h ++ [l]) s l /\ s_arr s = length h.
Proof.
  eexists; split; [reflexivity|]. split; [|done]. split; [|done]. simpl.
  rewrite lookup_app_r by lia. by rewrite Nat.sub_diag.
Qed.

(** ** Appending *)

Lemma arr_app_l h k a : (a < length h)%nat -> arr (h ++ k) a = arr h a.
Proof. intros. unfold arr. by rewrite lookup_app_l. Qed.

Lemma arr_app_new h l : arr (h ++ [l]) (length h) = l.
Proof. unfold arr. rewrite lookup_app_r by lia. by rewrite Nat.sub_diag. Qed.

Lemma arr_upd_eq h a l : (a < length h)%nat -> arr (upd h a l) a = l.
Proof. intros. unfold arr, upd. by rewrite list_lookup_insert_eq. Qed.

Lemma arr_upd_ne h a b l : a <> b -> arr (upd h a l) b = arr h b.
Proof. intros. unfold arr, upd. by rewrite list_lookup_insert_ne. Qed.

Lemma upd_arr_id h a : upd h a (arr h a) = h.
Proof.
  unfold upd, arr. destruct (h !! a) eqn:E; simpl.
  - by apply list_insert_id.
  - apply list_insert_ge. by apply lookup_ge_None_1.
Qed.

Lemma slice_ok_nil h : slice_ok h nil_slice.
Proof. unfold slice_ok; simpl. pose proof (zlen_nonneg (arr h 0)). lia. Qed.

Lemma contents_nil h : contents h nil_slice = [].
Proof. reflexivity. Qed.

Lemma zlen_contents h s : slice_ok h s -> zlen (contents h s) = s_len s.
Proof. intros (?&?&?). unfold contents. apply zlen_sub; lia. Qed.

(** A slice of an array that is not allocated is empty. *)
Lemma slice_ok_old h s : slice_ok h s -> (s_arr s < length h)%nat \/ (s_off s = 0 /\ s_cap s = 0).
Proof.
  intros (?&?&Hl). destruct (decide (s_arr s < length h)%nat); [by left|right].
  unfold arr in Hl. rewrite lookup_ge_None_2 in Hl by lia.
  change (zlen (default [] None)) with 0 in Hl. lia.
Qed.

Lemma contents_app h k s : slice_ok h s -> contents (h ++ k) s = contents h s.
Proof.
  intros H. unfold contents. destruct (slice_ok_old _ _ H) as [?|[? ?]].
  - by rewrite arr_app_l.
  - destruct H as (?&?&?). by replace (s_len s) with 0 by lia.
Qed.

Lemma slice_ok_app h k s : slice_ok h s -> slice_ok (h ++ k) s.
Proof.
  intros H. destruct (slice_ok_old _ _ H) as [?|[? ?]].
  - unfold slice_ok. rewrite arr_app_l by done. exact H.
  - destruct H as (?&?&?). unfold slice_ok. pose proof (zlen_nonneg (arr (h ++ k) (s_arr s))). lia.
Qed.

Section append.
Context `{GoRuntime}.

Lemma s_append_inplace h s bs :
  slice_ok h s -> s_len s + zlen bs <= s_cap s ->
  s_append s bs h =
    Ok (Slice (s_arr s) (s_off s) (s_len s + zlen bs) (s_cap s),
        upd h (s_arr s) (splice (arr h (s_arr s)) (s_off s + s_len s) bs)).
Proof.
  intros Hs Hc. unfold s_append. by replace (s_len s + zlen bs <=? s_cap s) with true by lia.
Qed.

Lemma s_append_grow h s bs :
  s_cap s < s_len s + zlen bs ->
  s_append s bs h =
    Ok (Slice (length h) 0 (s_len s + zlen bs) (growcap (s_cap s) (s_len s + zlen bs)),
        h ++ [contents h s ++ bs ++ zeros (growcap (s_cap s) (s_len s + zlen bs) - (s_len s + zlen bs))]).
Proof.
  intros Hc. unfold s_append. by replace (s_len s + zlen bs <=? s_cap s) with false by lia.
Qed.

Lemma grow_ok h s bs (n := s_len s + zlen bs) (c := growcap (s_cap s) n) :
  slice_ok h s ->
  let h' := h ++ [contents h s ++ bs ++ zeros (c - n)] in
  slice_ok h' (Slice (length h) 0 n c) /\
  contents h' (Slice (length h) 0 n c) = contents h s ++ bs.
Proof.
  intros Hs h'. pose proof (growcap_ge (s_cap s) n) as Hg. fold c in Hg.
  pose proof (zlen_contents _ _ Hs). pose proof (zlen_nonneg bs). destruct Hs as (?&?&?).
  split.
  - unfold slice_ok, h'; simpl. rewrite arr_app_new, !zlen_app, zlen_zeros by lia. lia.
  - unfold contents at 1, h'; simpl. rewrite arr_app_new, app_assoc. unfold sub. simpl.
    rewrite drop_0. rewrite take_app_le by llia. apply take_ge. llia.
Qed.

(** [append] yields the concatenation, and leaves every slice alone that does
    not reach beyond the end of [s] in the array of [s]; when it has to grow it
    leaves every slice alone. *)
Lemma s_append_spec h s bs :
  slice_ok h s ->
  exists s' h', s_append s bs h = Ok (s', h') /\ slice_ok h' s' /\
    contents h' s' = contents h s ++ bs /\ (length h <= length h')%nat /\
    forall t, slice_ok h t ->
      (s_arr t <> s_arr s \/ s_off t + s_len t <= s_off s + s_len s \/ s_cap s < s_len s + zlen bs) ->
      slice_ok h' t /\ contents h' t = contents h t.
Proof.
  intros Hs. pose proof (zlen_nonneg bs).
  destruct (Z.le_gt_cases (s_len s + zlen bs) (s_cap s)) as [Hc|Hc].
  - rewrite s_append_inplace by done. eexists _, _; split; [reflexivity|].
    destruct (slice_ok_old _ _ Hs) as [Ha|[? ?]].
    + assert (Hz : zlen (splice (arr h (s_arr s)) (s_off s + s_len s) bs) = zlen (arr h (s_arr s)))
        by (destruct Hs as (?&?&?); apply zlen_splice; lia).
      destruct Hs as (?&?&?). split; [|split]; [| |split].
      * unfold slice_ok; simpl. rewrite arr_upd_eq by done. lia.
      * unfold contents; simpl. rewrite arr_upd_eq by done.
        rewrite sub_split by lia. rewrite sub_splice_lt by lia.
        f_equal. apply sub_splice_eq; lia.
      * rewrite length_upd. lia.
      * intros t (?&?&?) Hd. destruct (decide (s_arr t = s_arr s)) as [E|E].
        -- destruct Hd as [?|[Hd|?]]; [done| |lia]. unfold slice_ok, contents. rewrite E in *.
           rewrite arr_upd_eq by done. split; [lia|]. apply sub_splice_lt; lia.
        -- unfold slice_ok, contents. rewrite arr_upd_ne by done. split; [lia|done].
    + assert (bs = []) as -> by (apply zlen_0_nil; destruct Hs as (?&?&?); lia).
      rewrite splice_nil, upd_arr_id, app_nil_r, zlen_nil, Z.add_0_r.
      replace (Slice _ _ _ _) with s by (by destruct s). auto.
  - rewrite s_append_grow by done. eexists _, _; split; [reflexivity|].
    destruct (grow_ok h s bs Hs) as [Hok Hcont]. split; [exact Hok|]. split; [exact Hcont|].
    split; [rewrite length_app; lia|].
    intros t Ht _. split; [by apply slice_ok_app|by apply contents_app].
Qed.
End append.

(** ** Executing the recurring statements on a packet buffer *)

#[local] Ltac t_full :=
  repeat match goal with
  | H : full _ _ _ |- _ => destruct H as (? & ? & ? & ?)
  end.

Lemma reslice_ok (s : slice) lo hi h :
  0 <= lo -> lo <= hi -> hi <= s_cap s ->
  reslice s lo hi h = Ok (Slice (s_arr s) (s_off s + lo) (hi - lo) (s_cap s - lo), h).
Proof.
  intros. unfold reslice. erewrite bind_ok; [reflexivity|]. apply assert_ok. lia.
Qed.

Lemma buf_read_ok (s : slice) lo hi h :
  0 <= lo <= hi -> hi <= s_cap s ->
  buf_read s lo hi h = Ok (sub (arr h (s_arr s)) (s_off s + lo) (hi - lo), h).
Proof.
  intros. unfold buf_read. erewrite bind_ok by (apply reslice_ok; lia). reflexivity.
Qed.

Lemma reslice_panic (s : slice) lo hi h :
  (lo < 0 \/ hi < lo \/ s_cap s < hi) -> reslice s lo hi h = Panic.
Proof.
  intros. unfold reslice. apply bind_panic.
  replace ((0 <=? lo) && (lo <=? hi) && (hi <=? s_cap s)) with false by lia. reflexivity.
Qed.

Lemma s_get_full h s l i :
  full h s l -> 0 <= i < zlen l -> s_get s i h = Ok (getz l i, h).
Proof.
  intros H Hi. pose proof (full_arr _ _ _ H) as Ha. t_full.
  unfold s_get. erewrite bind_ok by (apply assert_ok; lia).
  unfold gets. rewrite Ha. by replace (s_off s + i) with i by lia.
Qed.

Lemma s_get_panic (s : slice) i h : (i < 0 \/ s_len s <= i) -> s_get s i h = Panic.
Proof.
  intros. unfold s_get. apply bind_panic.
  by replace ((0 <=? i) && (i <? s_len s)) with false by lia.
Qed.

Lemma s_set_full h s l i v :
  full h s l -> 0 <= i < zlen l ->
  s_set s i v h = Ok (tt, upd h (s_arr s) (splice l i [v])).
Proof.
  intros H Hi. pose proof (full_arr _ _ _ H) as Ha. t_full.
  unfold s_set. erewrite bind_ok by (apply assert_ok; lia).
  unfold modify. rewrite Ha. by replace (s_off s + i) with i by lia.
Qed.

(** Writing through a sub-slice [b[lo:hi]] of a packet buffer. *)
Definition window (b : slice) (lo hi : Z) : slice :=
  Slice (s_arr b) (s_off b + lo) (hi - lo) (s_cap b - lo).

Lemma reslice_window (s : slice) lo hi h l :
  full h s l -> 0 <= lo <= hi -> hi <= zlen l ->
  reslice s lo hi h = Ok (window s lo hi, h).
Proof. intros. t_full. apply reslice_ok; lia. Qed.

Lemma reslice_full_panic (s : slice) lo hi h l :
  full h s l -> (lo < 0 \/ hi < lo \/ zlen l < hi) -> reslice s lo hi h = Panic.
Proof. intros. t_full. apply reslice_panic; lia. Qed.

Lemma window_copy h b l lo hi bs :
  full h b l -> 0 <= lo <= hi -> hi <= zlen l -> zlen bs <= hi - lo ->
  s_copy (window b lo hi) bs h = Ok (tt, upd h (s_arr b) (splice l lo bs)).
Proof.
  intros H ? ? ?. pose proof (full_arr _ _ _ H) as Ha. t_full.
  unfold s_copy, modify, window; simpl. rewrite Ha.
  rewrite take_ge by llia. by replace (s_off b + lo) with lo by lia.
Qed.

Lemma window_contents h b l lo hi :
  full h b l -> 0 <= lo <= hi -> hi <= zlen l ->
  contents h (window b lo hi) = sub l lo (hi - lo).
Proof.
  intros H ? ?. pose proof (full_arr _ _ _ H) as Ha. t_full.
  unfold contents, window; simpl. rewrite Ha. by replace (s_off b + lo) with lo by lia.
Qed.

Lemma window_get h b l lo hi i :
  full h b l -> 0 <= lo <= hi -> hi <= zlen l -> 0 <= i < hi - lo ->
  s_get (window b lo hi) i h = Ok (getz l (lo + i), h).
Proof.
  intros H ? ? ?. pose proof (full_arr _ _ _ H) as Ha. t_full.
  unfold s_get. erewrite bind_ok by (apply assert_ok; simpl; lia).
  unfold gets; simpl. rewrite Ha. by replace (s_off b + lo + i) with (lo + i) by lia.
Qed.

Lemma window_get_panic b lo hi i h :
  (i < 0 \/ hi - lo <= i) -> s_get (window b lo hi) i h = Panic.
Proof. intros. apply s_get_panic. simpl. lia. Qed.

Lemma window_set h b l lo hi i v :
  full h b l -> 0 <= lo <= hi -> hi <= zlen l -> 0 <= i < hi - lo ->
  s_set (window b lo hi) i v h = Ok (tt, upd h (s_arr b) (splice l (lo + i) [v])).
Proof.
  intros H ? ? ?. pose proof (full_arr _ _ _ H) as Ha. t_full.
  unfold s_set. erewrite bind_ok by (apply assert_ok; simpl; lia).
  unfold modify; simpl. rewrite Ha. by replace (s_off b + lo + i) with (lo + i) by lia.
Qed.

Lemma buf_write_full h b l lo hi bs :
  full h b l -> 0 <= lo <= hi -> hi <= zlen l -> zlen bs <= hi - lo ->
  buf_write b lo hi bs h = Ok (tt, upd h (s_arr b) (splice l lo bs)).
Proof.
  intros. unfold buf_write. erewrite bind_ok by (by eapply reslice_window).
  by apply window_copy.
Qed.

Lemma buf_read_full h b l lo hi :
  full h b l -> 0 <= lo <= hi -> hi <= zlen l ->
  buf_read b lo hi h = Ok (sub l lo (hi - lo), h).
Proof.
  intros. unfold buf_read. erewrite bind_ok by (by eapply reslice_window).
  unfold s_read, gets. by erewrite window_contents.
Qed.

Lemma window_get_le32 h b l lo :
  full h b l -> 0 <= lo -> lo + 4 <= zlen l ->
  get_le32 (window b lo (lo + 4)) h = Ok (le_val (sub l lo 4), h).
Proof.
  intros. unfold get_le32. erewrite bind_ok by (apply assert_ok; simpl; lia).
  unfold gets. erewrite window_contents by (eauto; lia).
  replace (lo + 4 - lo) with 4 by lia. rewrite sub_sub by lia.
  by rewrite Z.add_0_r.
Qed.

Lemma window_put_le32 h b l lo v :
  full h b l -> 0 <= lo -> lo + 4 <= zlen l ->
  put_le32 (window b lo (lo + 4)) v h = Ok (tt, upd h (s_arr b) (splice l lo (le_bytes 4 v))).
Proof.
  intros. unfold put_le32. erewrite bind_ok by (apply assert_ok; simpl; lia).
  apply window_copy; auto; rewrite ?zlen_le_bytes; lia.
Qed.

Lemma window_get_be32 h b l lo :
  full h b l -> 0 <= lo -> lo + 4 <= zlen l ->
  get_be32 (window b lo (lo + 4)) h = Ok (be_val (sub l lo 4), h).
Proof.
  intros. unfold get_be32. erewrite bind_ok by (apply assert_ok; simpl; lia).
  unfold gets. erewrite window_contents by (eauto; lia).
  replace (lo + 4 - lo) with 4 by lia. rewrite sub_sub by lia.
  by rewrite Z.add_0_r.
Qed.

Lemma window_put_be32 h b l lo v :
  full h b l -> 0 <= lo -> lo + 4 <= zlen l ->
  put_be32 (window b lo (lo + 4)) v h = Ok (tt, upd h (s_arr b) (splice l lo (be_bytes 4 v))).
Proof.
  intros. unfold put_be32. erewrite bind_ok by (apply assert_ok; simpl; lia).
  apply window_copy; auto; rewrite ?zlen_be_bytes; lia.
Qed.

(** [fl]: the buffer facts that follow from those in the context. *)
Ltac fl :=
  first [ eassumption
        | eapply full_upd; [fl | zl]
        | eapply full_upd_ne; [fl | congruence] ].

(** [mstep]: execute the next statement of a body with a lemma of the database
    [mok]; its side conditions are arithmetic or buffer facts. [mlast] does the
    same for a statement in tail position. *)
Create HintDb mok.
#[export] Hint Resolve reslice_window window_copy window_get window_set s_get_full
  s_set_full buf_write_full buf_read_full window_get_le32 window_put_le32
  window_get_be32 window_put_be32 : mok.
#[export] Hint Extern 1 (full _ _ _) => fl : mok.
#[export] Hint Extern 3 (_ <= _) => zl : mok.
#[export] Hint Extern 3 (_ <= _ <= _) => zl : mok.
#[export] Hint Extern 3 (_ <= _ < _) => zl : mok.
#[export] Hint Extern 3 (assert_ _ _ = _) => (apply assert_ok; lia) : mok.

Ltac mstep := erewrite bind_ok by (solve [eauto 3 with mok]); rewrite ?upd_upd.
Ltac mlast := erewrite ?buf_write_full, ?s_set_full, ?window_copy by (eauto 3 with mok); rewrite ?upd_upd.
Ltac mzstep := erewrite bind_zoom by (solve [apply _ | first [eapply window_get | eapply window_set]; eauto 3 with mok
  | eauto 3 with mok]); rewrite ?upd_upd.

(** ** Reading a slice by its contents *)

Section reading.
Context (h : heap) (s : slice) (Hs : slice_ok h s).

Lemma slice_get i : 0 <= i < s_len s -> s_get s i h = Ok (getz (contents h s) i, h).
Proof.
  intros Hi. destruct Hs as (Ho & Hl & Ha). unfold s_get. erewrite bind_ok by (apply assert_ok; lia).
  unfold gets, contents. by rewrite getz_sub by lia.
Qed.

Lemma slice_read lo hi :
  0 <= lo <= hi -> hi <= s_len s -> buf_read s lo hi h = Ok (sub (contents h s) lo (hi - lo), h).
Proof.
  intros Hlo Hhi. destruct Hs as (Ho & Hl & Ha). rewrite buf_read_ok by lia.
  unfold contents. by rewrite sub_sub by lia.
Qed.

Lemma slice_be16 lo :
  0 <= lo -> lo + 2 <= s_len s ->
  (t ← reslice s lo (lo + 2); get_be16 t) h = Ok (be_val (sub (contents h s) lo 2), h).
Proof.
  intros Hlo Hhi. destruct Hs as (Ho & Hl & Ha). erewrite bind_ok by (apply reslice_ok; lia).
  unfold get_be16. erewrite bind_ok by (apply assert_ok; cbn; lia). unfold gets, contents. cbn [s_arr s_off s_len].
  replace (lo + 2 - lo) with 2 by lia. by rewrite !sub_sub, Z.add_0_r by lia.
Qed.

Lemma slice_reslice lo hi :
  0 <= lo <= hi -> hi <= s_len s ->
  exists t, reslice s lo hi h = Ok (t, h) /\ slice_ok h t /\ s_len t = hi - lo /\
    contents h t = sub (contents h s) lo (hi - lo).
Proof.
  intros Hlo Hhi. destruct Hs as (Ho & Hl & Ha). eexists. split; [apply reslice_ok; lia|].
  split; [unfold slice_ok; cbn; lia|]. split; [done|]. unfold contents. cbn. by rewrite sub_sub by lia.
Qed.
End reading.
