(* ===== verification/Route.v ===== *)
(** * Route: route labels (route.go)

    A route is a slice of hop bytes, one byte per hop. [NewRoute] is variadic:
    called with [s...] it keeps the caller's slice, called with explicit bytes
    it gets a fresh array. Both uses occur, so a [Route] here is the slice, and
    what two routes share is visible in the heap. *)

From S2P Require Import Prelude GoMem.
From Stdlib Require Ascii String.

Module Route.

Definition RouteSeparator : string := ".".

Record Route : Type := mkRoute { hops : slice }.

(** [NewRoute(s...)] and [NewRoute(b1, b2, ...)]. *)
Definition NewRoute (s : slice) : Route := mkRoute s.
Definition NewRouteOf (bs : list Z) : M heap Route :=
  match bs with
  | [] => mret (NewRoute nil_slice)
  | _ => s ← alloc bs; mret (NewRoute s)
  end.

Definition EmptyRoute : Route := mkRoute nil_slice.

(** [r.hops[:]]. *)
Definition Bytes (r : Route) : slice := hops r.

Definition Len (r : Route) : Z := s_len (hops r).

Definition Empty (r : Route) : bool := Len r =? 0.

Definition Equal (r other : Route) : M heap bool :=
  a ← s_read (Bytes r);
  b ← s_read (Bytes other);
  mret (bool_decide (a = b)).

Definition Join `{GoRuntime} (r other : Route) : M heap Route :=
  o ← s_read (Bytes other);
  s ← s_append (Bytes r) o;
  mret (NewRoute s).

(** [fmt.Sprintf("%.2x", b)]. *)
Definition hex_digit (d : Z) : Ascii.ascii :=
  Ascii.ascii_of_nat (Z.to_nat (if d <? 10 then 48 + d else 87 + d)).
Definition hex2 (b : Z) : string :=
  String.String (hex_digit (b / 16)) (String.String (hex_digit (b mod 16)) String.EmptyString).

(** [strings.Join(str, sep)]. *)
Fixpoint join (sep : string) (l : list string) : string :=
  match l with
  | [] => String.EmptyString
  | [s] => s
  | s :: t => String.append s (String.append sep (join sep t))
  end.

Definition String_ (r : Route) : M heap string :=
  bs ← s_read (hops r);
  mret (join RouteSeparator (map hex2 bs)).

(** The loop of [Reverse], for the indices [n-1, ..., 0]. *)
Fixpoint reverse_loop `{GoRuntime} (src : slice) (n : nat) (rev : slice) : M heap slice :=
  match n with
  | O => mret rev
  | S i =>
      b ← s_get src (Z.of_nat i);
      rev' ← s_append rev [b];
      reverse_loop src i rev'
  end.

Definition Reverse `{GoRuntime} (r : Route) : M heap Route :=
  s ← reverse_loop (hops r) (Z.to_nat (Len r)) nil_slice;
  mret (NewRoute s).

(** The hop bytes of a route: what the rest of the program observes. *)
Definition bytes_of (h : heap) (r : Route) : list Z := contents h (hops r).
Definition route_ok (h : heap) (r : Route) : Prop := slice_ok h (hops r).

End Route.
Import Route.

Lemma NewRouteOf_spec bs h :
  exists r h', NewRouteOf bs h = Ok (r, h') /\ route_ok h' r /\ bytes_of h' r = bs /\
    forall t, slice_ok h t -> slice_ok h' t /\ contents h' t = contents h t.
Proof.
  destruct bs as [|b bs]; simpl.
  - eexists _, _; split; [reflexivity|]. split; [apply slice_ok_nil|]. done.
  - destruct (alloc_full (b :: bs) h) as (s & Hs & Hf & _).
    unfold NewRouteOf. erewrite bind_ok by exact Hs. eexists _, _; split; [reflexivity|].
    split; [by eapply full_slice_ok|]. split; [by apply full_contents|].
    intros t Ht. split; [by apply slice_ok_app|by apply contents_app].
Qed.

Lemma getz_contents h s i :
  slice_ok h s -> 0 <= i < s_len s -> s_get s i h = Ok (getz (contents h s) i, h).
Proof.
  intros (?&?&?) Hi. unfold s_get. erewrite bind_ok by (apply assert_ok; lia).
  unfold gets. do 2 f_equal. unfold contents. rewrite getz_sub by lia. done.
Qed.

(** Reversing the first [S i] bytes starts with the byte at [i]. *)
Lemma reverse_take_S (l : list Z) i :
  (i < length l)%nat -> reverse (take (S i) l) = getz l (Z.of_nat i) :: reverse (take i l).
Proof.
  intros Hi. destruct (lookup_lt_is_Some_2 l i Hi) as [x Hx].
  rewrite (take_S_r _ _ _ Hx), reverse_snoc. f_equal.
  unfold getz. rewrite nth_lookup, Nat2Z.id, Hx. done.
Qed.

Section spec.
Context `{GoRuntime}.

(** The accumulator [rev] lives in an array allocated by the loop itself (or is
    still nil), so the loop changes no slice that existed before it. *)
Lemma reverse_loop_spec h0 src n : forall h rev,
  (length h0 <= length h)%nat ->
  (forall t, slice_ok h0 t -> slice_ok h t /\ contents h t = contents h0 t) ->
  slice_ok h0 src -> Z.of_nat n <= s_len src ->
  slice_ok h rev -> ((length h0 <= s_arr rev)%nat \/ s_cap rev = 0) ->
  exists s h', reverse_loop src n rev h = Ok (s, h') /\ slice_ok h' s /\
    contents h' s = contents h rev ++ reverse (take n (contents h0 src)) /\
    forall t, slice_ok h0 t -> slice_ok h' t /\ contents h' t = contents h0 t.
Proof.
  induction n as [|i IH]; intros h rev Hlen Hold Hsrc Hn Hrev Hnew.
  - eexists _, _. split; [reflexivity|]. rewrite take_0, reverse_nil, app_nil_r. auto.
  - destruct (Hold _ Hsrc) as [Hs Hc]. simpl reverse_loop.
    erewrite bind_ok by (apply getz_contents; [exact Hs|lia]).
    destruct (s_append_spec h rev [getz (contents h src) (Z.of_nat i)] Hrev)
      as (r' & h' & Ha & Hok & Hcont & Hl & Hfr).
    erewrite bind_ok by exact Ha.
    assert (Hfr0 : forall t, slice_ok h0 t -> slice_ok h' t /\ contents h' t = contents h0 t).
    { intros t Ht. destruct (Hold t Ht) as [Ht' Et]. rewrite <- Et. apply Hfr; [done|].
      destruct (slice_ok_old _ _ Ht) as [?|[? ?]]; destruct Ht as (?&?&?); destruct Hrev as (?&?&?);
        destruct Hnew; first [left; lia | right; left; lia | right; right; rewrite zlen_cons, zlen_nil; lia]. }
    assert (Hnew' : (length h0 <= s_arr r')%nat \/ s_cap r' = 0).
    { revert Ha. unfold s_append. case_match.
      - intros [= <- _]. simpl. destruct Hnew as [?|Hz]; [by left|].
        destruct Hrev as (?&?&?). unfold zlen in *; simpl in *. lia.
      - intros [= <- _]. simpl. by left. }
    destruct (IH h' r' ltac:(lia) Hfr0 Hsrc ltac:(lia) Hok Hnew') as (s & h'' & E & Es & Ec & Ef).
    exists s, h''. split; [exact E|]. split; [exact Es|]. split; [|exact Ef].
    rewrite Ec, Hcont, Hc. rewrite reverse_take_S.
    + rewrite <- app_assoc. done.
    + pose proof (zlen_contents _ _ Hsrc). unfold zlen in *. lia.
Qed.

Lemma Reverse_spec r h :
  route_ok h r ->
  exists r' h', Reverse r h = Ok (r', h') /\ route_ok h' r' /\
    bytes_of h' r' = reverse (bytes_of h r) /\
    forall t, slice_ok h t -> slice_ok h' t /\ contents h' t = contents h t.
Proof.
  intros Hr. unfold Reverse, Len. pose proof Hr as (?&?&?).
  destruct (reverse_loop_spec h (hops r) (Z.to_nat (s_len (hops r))) h nil_slice)
    as (s & h' & E & Es & Ec & Ef); eauto using slice_ok_nil.
  { lia. }
  erewrite bind_ok by exact E. eexists _, _; split; [reflexivity|]. split; [exact Es|].
  split; [|exact Ef]. unfold bytes_of; simpl. rewrite Ec, contents_nil. simpl.
  rewrite take_ge; [done|]. pose proof (zlen_contents _ _ Hr). unfold zlen in *. lia.
Qed.

(** [Reverse] only adds arrays to the heap. *)
Lemma reverse_loop_arrays src n : forall (h h1 : heap) rev s h',
  reverse_loop src n rev h1 = Ok (s, h') -> (length h <= length h1)%nat ->
  ((length h <= s_arr rev)%nat \/ s_cap rev <= s_len rev) ->
  forall a, (a < length h)%nat -> h' !! a = h1 !! a.
Proof.
  induction n as [|i IH]; intros h h1 rev s h' E Hl Hnew a Ha; cbn [reverse_loop] in E; [by injection E as <- <-|].
  apply bind_inv in E as (b & h2 & E1 & E). unfold s_get in E1.
  apply bind_inv in E1 as ([] & h3 & E0 & E1). apply assert_inv in E0 as [_ [= ->]]. injection E1 as _ <-.
  apply bind_inv in E as (rev' & h4 & E2 & E). unfold s_append in E2.
  destruct (Z.leb_spec (s_len rev + zlen [b]) (s_cap rev)) as [Hc|Hc].
  - injection E2 as <- <-. rewrite zlen_1 in Hc. destruct Hnew as [Hnew|]; [|lia].
    erewrite (IH h _ _ _ _ E) by (try (rewrite length_upd); auto).
    unfold upd. apply list_lookup_insert_ne. lia.
  - injection E2 as <- <-. erewrite (IH h _ _ _ _ E) by (rewrite ?length_app; cbn; auto; lia).
    apply lookup_app_l. lia.
Qed.

Lemma Reverse_arrays r h r' h' : Reverse r h = Ok (r', h') -> forall a, (a < length h)%nat -> h' !! a = h !! a.
Proof.
  unfold Reverse. intros (s & h1 & E & [= _ <-])%bind_inv. eapply reverse_loop_arrays; eauto. right. done.
Qed.

(** The reversed route is in an array of its own. *)
Lemma reverse_loop_fresh src n : forall (h h1 : heap) rev s h',
  reverse_loop src n rev h1 = Ok (s, h') -> (length h <= length h1)%nat -> slice_ok h1 rev ->
  ((length h <= s_arr rev)%nat \/ s_cap rev = 0 /\ (0 < n)%nat) -> (length h <= s_arr s)%nat.
Proof.
  induction n as [|i IH]; intros h h1 rev s h' E Hl Hrev Hnew; cbn [reverse_loop] in E; [injection E as <- <-; lia|].
  apply bind_inv in E as (b & h2 & E1 & E). unfold s_get in E1.
  apply bind_inv in E1 as ([] & h3 & E0 & E1). apply assert_inv in E0 as [_ [= ->]]. injection E1 as _ <-.
  apply bind_inv in E as (rev' & h4 & E2 & E). destruct (s_append_spec _ rev [b] Hrev) as (r' & h5 & Ha & Hok & _ & Hl' & _).
  rewrite Ha in E2. injection E2 as <- <-. eapply IH; [exact E|lia|exact Hok|]. left.
  revert Ha. unfold s_append. destruct (Z.leb_spec (s_len rev + zlen [b]) (s_cap rev)) as [Hc|Hc]; intros [= <- _]; cbn; [|lia].
  destruct Hrev as (? & ? & ?). rewrite zlen_1 in Hc. destruct Hnew as [?|[? _]]; [done|lia].
Qed.

Lemma Reverse_fresh r h r' h' :
  Reverse r h = Ok (r', h') -> 0 < Len r -> (length h <= s_arr (hops r'))%nat.
Proof.
  unfold Reverse. intros (s & h1 & E & [= <- _])%bind_inv Hl. cbn [hops].
  eapply reverse_loop_fresh; [exact E|done|apply slice_ok_nil|]. right. split; [done|lia].
Qed.

Lemma Join_spec r o h :
  route_ok h r -> route_ok h o ->
  exists r' h', Join r o h = Ok (r', h') /\ route_ok h' r' /\
    bytes_of h' r' = bytes_of h r ++ bytes_of h o /\
    forall t, slice_ok h t ->
      (s_arr t <> s_arr (hops r) \/ s_off t + s_len t <= s_off (hops r) + Len r \/
       s_cap (hops r) < Len r + Len o) ->
      slice_ok h' t /\ contents h' t = contents h t.
Proof.
  intros Hr Ho. unfold Join, s_read, Bytes.
  erewrite bind_ok by reflexivity.
  destruct (s_append_spec h (hops r) (contents h (hops o)) Hr) as (s & h' & E & Es & Ec & _ & Ef).
  erewrite bind_ok by exact E. eexists _, _; split; [reflexivity|].
  split; [exact Es|]. split; [exact Ec|].
  rewrite (zlen_contents _ _ Ho) in Ef. exact Ef.
Qed.

Lemma Join_inplace r o h :
  route_ok h r -> route_ok h o -> Len r + Len o <= s_cap (hops r) ->
  Join r o h =
    Ok (NewRoute (Slice (s_arr (hops r)) (s_off (hops r)) (Len r + Len o) (s_cap (hops r))),
        upd h (s_arr (hops r))
          (splice (arr h (s_arr (hops r))) (s_off (hops r) + Len r) (bytes_of h o))).
Proof.
  intros Hr Ho Hc. unfold Join, s_read, Bytes, Len in *.
  erewrite bind_ok by reflexivity.
  erewrite bind_ok by (apply s_append_inplace; [exact Hr|by rewrite (zlen_contents _ _ Ho)]).
  by rewrite (zlen_contents _ _ Ho).
Qed.

End spec.

Lemma Equal_spec r o h :
  Equal r o h = Ok (bool_decide (bytes_of h r = bytes_of h o), h).
Proof. reflexivity. Qed.

(** ** Properties *)

(** A runtime that rounds capacities up to a multiple of eight, as Go's
    allocator does for small byte slices; used to run examples. *)
Definition round8 : GoRuntime.
Proof.
  refine {| growcap := fun _ need => (need + 7) / 8 * 8 |}. intros. lia.
Defined.

#[export] Instance append_inj_l s : Inj (=) (=) (String.append s).
Proof. induction s; intros ? ? H; simpl in H; [done|]. injection H. apply IHs. Qed.

Lemma hex_digit_inj a b : 0 <= a < 16 -> 0 <= b < 16 -> hex_digit a = hex_digit b -> a = b.
Proof.
  intros Ha Hb E. unfold hex_digit in E.
  apply (f_equal Ascii.nat_of_ascii) in E.
  rewrite !Ascii.nat_ascii_embedding in E by (repeat case_match; lia).
  repeat case_match; lia.
Qed.

Lemma hex2_inj a b : is_byte a -> is_byte b -> hex2 a = hex2 b -> a = b.
Proof.
  unfold is_byte. intros Ha Hb E. injection E as E1 E2.
  apply hex_digit_inj in E1, E2; lia.
Qed.

(** Two labels of fixed-width items separated by the separator agree only if
    their items do. *)
Lemma join_hex2_inj l k :
  is_bytes l -> is_bytes k ->
  join RouteSeparator (map hex2 l) = join RouteSeparator (map hex2 k) -> l = k.
Proof.
  intros Hl. revert k. induction Hl as [|a l Ha Hl IH]; intros k Hk E.
  - destruct k as [|b [|]]; done.
  - destruct Hk as [|b k Hb Hk]; [destruct l; done|].
    destruct l as [|a' l], k as [|b' k]; try (simpl in E; injection E; done).
    + f_equal. by apply hex2_inj.
    + cbn [map join] in E.
      injection E as E1 E2 E3.
      assert (a = b) as -> by (apply hex2_inj; auto; unfold hex2; congruence).
      f_equal. apply IH; [done|]. exact E3.
Qed.

(** Reversing a route yields the route with its hops in the opposite order,
    and reversing that again yields the hops of the original; neither call
    disturbs the original route. *)
Theorem Reverse_involutive `{GoRuntime} (r : Route) (h : heap) :
  route_ok h r ->
  exists r1 h1 r2 h2,
    Reverse r h = Ok (r1, h1) /\ Reverse r1 h1 = Ok (r2, h2) /\
    bytes_of h1 r1 = reverse (bytes_of h r) /\
    bytes_of h2 r2 = bytes_of h r /\ bytes_of h2 r = bytes_of h r.
Proof.
  intros Hr. destruct (Reverse_spec r h Hr) as (r1 & h1 & E1 & K1 & B1 & F1).
  destruct (Reverse_spec r1 h1 K1) as (r2 & h2 & E2 & K2 & B2 & F2).
  exists r1, h1, r2, h2. repeat split; try done.
  - rewrite B2, B1. apply reverse_involutive.
  - destruct (F1 (hops r) Hr) as [Hr1 C1]. destruct (F2 (hops r) Hr1) as [_ C2].
    unfold bytes_of. congruence.
Qed.

Lemma Reverse_involutive_witness :
  let h := [[1; 2; 3]] in let r := NewRoute (Slice 0 0 3 3) in
  exists r1 h1 r2 h2,
    @Reverse round8 r h = Ok (r1, h1) /\ @Reverse round8 r1 h1 = Ok (r2, h2) /\
    bytes_of h1 r1 = reverse (bytes_of h r) /\
    bytes_of h2 r2 = bytes_of h r /\ bytes_of h2 r = bytes_of h r.
Proof.
  apply (@Reverse_involutive round8). unfold route_ok, slice_ok, zlen; simpl; lia.
Defined.

(** Joining never disturbs its arguments' hops, and the result lists the
    hops of the receiver followed by those of the argument, whatever the
    capacities involved. *)
Theorem Join_concat `{GoRuntime} (r o : Route) (h : heap) :
  route_ok h r -> route_ok h o ->
  (s_arr (hops o) <> s_arr (hops r) \/
   s_off (hops o) + Len o <= s_off (hops r) + Len r) ->
  exists r' h', Join r o h = Ok (r', h') /\
    bytes_of h' r' = bytes_of h r ++ bytes_of h o /\
    bytes_of h' r = bytes_of h r /\ bytes_of h' o = bytes_of h o /\
    Len r' = Len r + Len o.
Proof.
  intros Hr Ho Hd. destruct (Join_spec r o h Hr Ho) as (r' & h' & E & K & B & F).
  exists r', h'. split; [done|]. split; [done|].
  split; [apply F; [done|]; right; left; unfold Len; lia|].
  split; [apply F; [done|]; destruct Hd; auto|].
  unfold Len. rewrite <- (zlen_contents _ _ K), <- (zlen_contents _ _ Hr), <- (zlen_contents _ _ Ho).
  unfold bytes_of in B. rewrite B. apply zlen_app.
Qed.

Lemma Join_concat_witness :
  let h := [[5; 6; 0; 0]; [7]] in
  let r := NewRoute (Slice 0 0 2 4) in let o := NewRoute (Slice 1 0 1 1) in
  exists r' h', @Join round8 r o h = Ok (r', h') /\
    bytes_of h' r' = bytes_of h r ++ bytes_of h o /\
    bytes_of h' r = bytes_of h r /\ bytes_of h' o = bytes_of h o /\
    Len r' = Len r + Len o.
Proof.
  apply (@Join_concat round8); [unfold route_ok, slice_ok, zlen; simpl; lia..|]. simpl. lia.
Defined.

(** A route whose array has spare capacity hands that capacity to every
    route joined from it. After [p := r.Join(a)] and [q := r.Join(b)] with [a]
    and [b] of the same length, [p] reads as [r] followed by [b]: the second
    join has overwritten the first one's result. *)
Theorem Join_overwrites_sibling `{GoRuntime} (r a b : Route) (h : heap) :
  route_ok h r -> route_ok h a -> route_ok h b ->
  s_arr (hops a) <> s_arr (hops r) -> s_arr (hops b) <> s_arr (hops r) ->
  Len a = Len b -> Len r + Len a <= s_cap (hops r) ->
  exists p h1 q h2, Join r a h = Ok (p, h1) /\ Join r b h1 = Ok (q, h2) /\
    bytes_of h1 p = bytes_of h r ++ bytes_of h a /\
    bytes_of h2 p = bytes_of h r ++ bytes_of h b.
Proof.
  intros Hr Ha Hb Na Nb Hlen Hcap.
  destruct (Join_spec r a h Hr Ha) as (p & h1 & E1 & K1 & B1 & F1).
  assert (Hr1 : slice_ok h1 (hops r) /\ bytes_of h1 r = bytes_of h r) by (apply F1; [done|]; right; left; unfold Len; lia).
  assert (Hb1 : slice_ok h1 (hops b) /\ bytes_of h1 b = bytes_of h b) by (apply F1; auto).
  destruct (Join_spec r b h1 (proj1 Hr1) (proj1 Hb1)) as (q & h2 & E2 & K2 & B2 & F2).
  exists p, h1, q, h2. repeat split; try done.
  assert (p = q) as ->.
  { rewrite Join_inplace in E1 by auto. destruct Hr1 as [Kr _], Hb1 as [Kb _].
    rewrite Join_inplace in E2 by (auto; lia). congruence. }
  rewrite B2. destruct Hr1 as [_ ->], Hb1 as [_ ->]. done.
Qed.

Lemma Join_overwrites_sibling_witness :
  let h := [[5; 0; 0; 0]; [7]; [9]] in
  let r := NewRoute (Slice 0 0 1 4) in
  let a := NewRoute (Slice 1 0 1 1) in let b := NewRoute (Slice 2 0 1 1) in
  exists p h1 q h2, @Join round8 r a h = Ok (p, h1) /\ @Join round8 r b h1 = Ok (q, h2) /\
    bytes_of h1 p = bytes_of h r ++ bytes_of h a /\
    bytes_of h2 p = bytes_of h r ++ bytes_of h b.
Proof.
  apply (@Join_overwrites_sibling round8); unfold route_ok, slice_ok, zlen, Len; simpl; lia.
Defined.

(** The printed form of a route determines its hops. *)
Theorem String_injective (r r' : Route) (h : heap) s :
  is_bytes (bytes_of h r) -> is_bytes (bytes_of h r') ->
  String_ r h = Ok (s, h) -> String_ r' h = Ok (s, h) -> bytes_of h r = bytes_of h r'.
Proof.
  intros Hr Hr' E E'. apply join_hex2_inj; auto.
  cbn in E, E'. injection E as E. injection E' as E'. unfold bytes_of. congruence.
Qed.

Lemma String_injective_witness :
  let h := [[254; 1]; [254; 1]] in
  String_ (NewRoute (Slice 0 0 2 2)) h = Ok ("fe.01", h) /\
  bytes_of h (NewRoute (Slice 0 0 2 2)) = bytes_of h (NewRoute (Slice 1 0 2 2)).
Proof.
  split; [reflexivity|]. apply (String_injective _ _ _ "fe.01").
  - by apply (bool_decide_unpack _).
  - by apply (bool_decide_unpack _).
  - reflexivity.
  - reflexivity.
Defined.
