(* ===== verification/Text.v ===== *)
(** * Text: strings as the Go standard library handles them

    What the program uses of the packages strings, strconv and encoding/base32,
    on strings as sequences of bytes: splitting and joining, prefixes and
    suffixes, unsigned decimal numbers, and the lower-case base32 text that
    content identifiers are written in. Nothing here is code of the repository:
    it is the vocabulary of the files that model text forms. *)

From S2P Require Import Prelude.
From Stdlib Require Import Ascii String.

#[local] Abbreviation length := List.length.
#[global] Arguments String.append : simpl nomatch.

(** ** Characters and their codes *)

Definition code (c : ascii) : Z := Z.of_N (N_of_ascii c).
Definition chr (z : Z) : ascii := ascii_of_N (Z.to_N z).

Lemma code_chr z : 0 <= z < 256 -> code (chr z) = z.
Proof. intros. unfold code, chr. rewrite N_ascii_embedding by lia. lia. Qed.

Lemma code_inj c d : code c = code d -> c = d.
Proof.
  unfold code. intros E. rewrite <- (ascii_N_embedding c), <- (ascii_N_embedding d). f_equal. lia.
Qed.

Lemma eqb_char c d : Ascii.eqb c d = bool_decide (c = d).
Proof.
  destruct (Ascii.eqb_spec c d); symmetry; [by apply bool_decide_eq_true_2|by apply bool_decide_eq_false_2].
Qed.

Lemma string_app_assoc (a b c : string) : (a +:+ b) +:+ c = a +:+ (b +:+ c).
Proof. induction a; simpl; congruence. Qed.

Lemma string_app_nil (a : string) : a +:+ "" = a.
Proof. induction a; simpl; congruence. Qed.

Lemma string_app_length (a b : string) :
  String.length (a +:+ b) = (String.length a + String.length b)%nat.
Proof. induction a; simpl; congruence. Qed.

(** [[]byte(s)] and [string(b)]. *)
Fixpoint string_bytes (s : string) : list Z :=
  match s with
  | EmptyString => []
  | String c t => code c :: string_bytes t
  end.
Fixpoint bytes_string (b : list Z) : string :=
  match b with
  | [] => EmptyString
  | z :: t => String (chr z) (bytes_string t)
  end.

Lemma code_bound c : 0 <= code c < 256.
Proof. unfold code. pose proof (N_ascii_bounded c). lia. Qed.

Lemma chr_code c : chr (code c) = c.
Proof. apply code_inj, code_chr, code_bound. Qed.

Lemma string_bytes_bytes s : is_bytes (string_bytes s).
Proof. induction s; constructor; [apply code_bound|done]. Qed.

Lemma bytes_string_bytes s : bytes_string (string_bytes s) = s.
Proof. induction s as [|c s IH]; simpl; [done|]. by rewrite chr_code, IH. Qed.

Lemma string_bytes_string b : is_bytes b -> string_bytes (bytes_string b) = b.
Proof. induction 1 as [|z b Hz Hb IH]; simpl; [done|]. unfold is_byte in Hz. by rewrite code_chr, IH. Qed.

(** ** All characters of a string *)

Fixpoint allc (P : ascii -> bool) (s : string) : bool :=
  match s with
  | EmptyString => true
  | String c t => P c && allc P t
  end.

(** No occurrence of a character. *)
Definition free (c : ascii) (s : string) : bool := allc (fun d => negb (Ascii.eqb d c)) s.

Lemma allc_app P a b : allc P (a +:+ b) = allc P a && allc P b.
Proof. induction a as [|c a IH]; simpl; [done|]. by rewrite IH, andb_assoc. Qed.

Lemma allc_impl (P Q : ascii -> bool) s :
  (forall c, P c = true -> Q c = true) -> allc P s = true -> allc Q s = true.
Proof.
  intros HPQ. induction s as [|c s IH]; simpl; [done|].
  rewrite !andb_true_iff. intros [??]. auto.
Qed.

Lemma free_app c a b : free c (a +:+ b) = free c a && free c b.
Proof. apply allc_app. Qed.

(** A string all of whose characters are in a class that excludes [c]. *)
Lemma allc_free (P : ascii -> bool) c s : P c = false -> allc P s = true -> free c s = true.
Proof.
  intros Hc. apply allc_impl. intros d Hd. rewrite eqb_char, negb_true_iff.
  apply bool_decide_eq_false_2. congruence.
Qed.

(** ** strings.Split and strings.Join with a separator of one byte *)

Fixpoint Split (sep : ascii) (s : string) : list string :=
  match s with
  | EmptyString => [EmptyString]
  | String c t =>
      if Ascii.eqb c sep then EmptyString :: Split sep t
      else match Split sep t with
           | h :: r => String c h :: r
           | [] => [String c EmptyString]
           end
  end.

Fixpoint Join (sep : string) (l : list string) : string :=
  match l with
  | [] => EmptyString
  | [x] => x
  | x :: t => x +:+ sep +:+ Join sep t
  end.

Lemma Split_nonempty sep s : Split sep s <> [].
Proof. destruct s as [|c s]; simpl; [done|]. destruct (Ascii.eqb c sep); [done|]. by destruct (Split sep s). Qed.

Lemma Split_free sep s : free sep s = true -> Split sep s = [s].
Proof.
  induction s as [|c s IH]; simpl; [done|]. unfold free. simpl.
  rewrite andb_true_iff, negb_true_iff. intros [-> Hs]. by rewrite IH.
Qed.

Lemma Split_app sep a b :
  free sep a = true -> Split sep (a +:+ String sep b) = a :: Split sep b.
Proof.
  induction a as [|c a IH]; simpl; [by rewrite Ascii.eqb_refl|].
  unfold free. simpl. rewrite andb_true_iff, negb_true_iff. intros [-> Ha]. by rewrite IH.
Qed.

(** Splitting undoes joining when no part contains the separator. *)
Lemma Split_Join sep l :
  l <> [] -> Forall (fun s => free sep s = true) l -> Split sep (Join (String sep "") l) = l.
Proof.
  intros Hn Hl. induction Hl as [|x l Hx Hl IH]; [done|].
  destruct l as [|y l]; [by apply Split_free|].
  change (Join _ (x :: y :: l)) with (x +:+ String sep (Join (String sep "") (y :: l))).
  rewrite Split_app by done. by rewrite IH.
Qed.

(** Joining undoes splitting, always. *)
Lemma Join_Split sep s : Join (String sep "") (Split sep s) = s.
Proof.
  induction s as [|c s IH]; simpl; [done|]. pose proof (Split_nonempty sep s) as Hn.
  destruct (Ascii.eqb_spec c sep) as [->|].
  - destruct (Split sep s) as [|h r]; [done|].
    change (Join _ ("" :: h :: r)) with (String sep (Join (String sep "") (h :: r))). by rewrite IH.
  - destruct (Split sep s) as [|h [|r0 r]]; [done| |]; simpl in *; by rewrite <- IH.
Qed.

Lemma Split_parts_free sep s : Forall (fun x => free sep x = true) (Split sep s).
Proof.
  induction s as [|c s IH]; simpl; [by repeat constructor|].
  destruct (Ascii.eqb c sep) eqn:E; [by constructor|].
  pose proof (Split_nonempty sep s).
  destruct (Split sep s) as [|h r]; [done|]. inversion_clear IH. constructor; [|done].
  unfold free. simpl. by rewrite E.
Qed.

Lemma Join_cons2 sep x y l : Join sep (x :: y :: l) = x +:+ sep +:+ Join sep (y :: l).
Proof. done. Qed.

(** A slash before every component: the text form of paths and addresses. *)
Fixpoint slashed (l : list string) : string :=
  match l with
  | [] => EmptyString
  | x :: t => "/" +:+ x +:+ slashed t
  end.

Lemma slashed_app a b : slashed (a ++ b) = slashed a +:+ slashed b.
Proof. induction a as [|x a IH]; [done|]. cbn [app slashed]. by rewrite IH, !string_app_assoc. Qed.

Lemma slashed_Join l : l <> [] -> slashed l = "/" +:+ Join "/" l.
Proof.
  induction l as [|x l IH]; [done|]. intros _. destruct l as [|y l].
  - cbn [slashed Join]. by rewrite string_app_nil.
  - rewrite Join_cons2. cbn [slashed] in *. by rewrite IH.
Qed.

Lemma Split_slashed l : Forall (fun s => free "/" s = true) l -> Split "/" (slashed l) = EmptyString :: l.
Proof.
  intros Hl. destruct (decide (l = [])) as [->|Hn]; [done|].
  rewrite slashed_Join by done. change (Split "/" ("/" +:+ Join "/" l)) with (EmptyString :: Split "/" (Join "/" l)).
  by rewrite Split_Join.
Qed.

(** Every text that starts with a slash is of this form. *)
Lemma slashed_Split s : slashed (Split "/" s) = "/" +:+ s.
Proof. by rewrite slashed_Join, Join_Split by apply Split_nonempty. Qed.

(** ** Searching for a byte *)

(** Around the last occurrence: [strings.LastIndexByte]. *)
Fixpoint split_last (c : ascii) (s : string) : option (string * string) :=
  match s with
  | EmptyString => None
  | String d t =>
      match split_last c t with
      | Some (a, b) => Some (String d a, b)
      | None => if Ascii.eqb d c then Some (EmptyString, t) else None
      end
  end.

(** Around the first occurrence: [strings.IndexByte]. *)
Fixpoint split_first (c : ascii) (s : string) : option (string * string) :=
  match s with
  | EmptyString => None
  | String d t =>
      if Ascii.eqb d c then Some (EmptyString, t)
      else match split_first c t with
           | Some (a, b) => Some (String d a, b)
           | None => None
           end
  end.

Lemma split_last_free c s : free c s = true -> split_last c s = None.
Proof.
  induction s as [|d s IH]; simpl; [done|]. unfold free; simpl.
  rewrite andb_true_iff, negb_true_iff. intros [-> Hs]. by rewrite IH.
Qed.

Lemma split_last_app c a b : free c b = true -> split_last c (a +:+ String c b) = Some (a, b).
Proof.
  intros Hb. induction a as [|d a IH]; simpl.
  - by rewrite split_last_free, Ascii.eqb_refl.
  - by rewrite IH.
Qed.

Lemma split_first_free c s : free c s = true -> split_first c s = None.
Proof.
  induction s as [|d s IH]; simpl; [done|]. unfold free; simpl.
  rewrite andb_true_iff, negb_true_iff. intros [-> Hs]. by rewrite IH.
Qed.

Lemma split_first_app c a b : free c a = true -> split_first c (a +:+ String c b) = Some (a, b).
Proof.
  induction a as [|d a IH]; simpl; [by rewrite Ascii.eqb_refl|]. unfold free; simpl.
  rewrite andb_true_iff, negb_true_iff. intros [-> Ha]. by rewrite IH.
Qed.

(** The string before its last byte, when that byte is [c]. *)
Fixpoint trim_last (c : ascii) (s : string) : option string :=
  match s with
  | EmptyString => None
  | String d EmptyString => if Ascii.eqb d c then Some EmptyString else None
  | String d t =>
      match trim_last c t with
      | Some a => Some (String d a)
      | None => None
      end
  end.

Lemma trim_last_app c a : trim_last c (a +:+ String c "") = Some a.
Proof.
  induction a as [|d a IH]; [simpl; by rewrite Ascii.eqb_refl|].
  simpl. rewrite IH. destruct a; done.
Qed.

(** ** Prefixes and suffixes *)

Definition HasPrefix (s p : string) : bool := String.prefix p s.

Fixpoint HasSuffix (s suf : string) : bool :=
  String.eqb s suf || match s with EmptyString => false | String _ t => HasSuffix t suf end.

Fixpoint TrimSuffix (s suf : string) : string :=
  if String.eqb s suf then EmptyString
  else match s with EmptyString => EmptyString | String c t => String c (TrimSuffix t suf) end.

Lemma HasPrefix_app p s : HasPrefix (p +:+ s) p = true.
Proof.
  unfold HasPrefix. induction p as [|c p IH]; simpl; [by destruct s|].
  destruct (ascii_dec c c); [done|congruence].
Qed.

Lemma HasPrefix_iff p s : HasPrefix s p = true <-> exists t, s = p +:+ t.
Proof.
  unfold HasPrefix. split; [|intros [t ->]; apply HasPrefix_app].
  revert s. induction p as [|c p IH]; intros [|d s]; simpl; try done; eauto.
  destruct (ascii_dec c d) as [->|]; [|done]. intros [t ->]%IH. by exists t.
Qed.

Lemma HasSuffix_app s suf : HasSuffix (s +:+ suf) suf = true.
Proof.
  induction s as [|c s IH]; simpl.
  - destruct suf; simpl; by rewrite ?Ascii.eqb_refl, ?String.eqb_refl.
  - by rewrite IH, orb_true_r.
Qed.

Lemma string_longer (a b : string) : a +:+ b = b -> a = "".
Proof.
  intros E. apply (f_equal String.length) in E. rewrite string_app_length in E.
  destruct a; [done|simpl in E; lia].
Qed.

Lemma TrimSuffix_app s suf : TrimSuffix (s +:+ suf) suf = s.
Proof.
  induction s as [|c s IH].
  - simpl. destruct suf; simpl; by rewrite ?Ascii.eqb_refl, ?String.eqb_refl.
  - change (TrimSuffix (String c s +:+ suf) suf) with
      (if String.eqb (String c s +:+ suf) suf then EmptyString
       else String c (TrimSuffix (s +:+ suf) suf)).
    destruct (String.eqb_spec (String c s +:+ suf) suf) as [E|].
    + by apply string_longer in E.
    + by rewrite IH.
Qed.

(** ** strconv: unsigned decimal numbers *)

(** The digits of a number, most significant first; twenty are enough for 64
    bits. *)
Fixpoint digits_aux (fuel : nat) (n : Z) (acc : list Z) : list Z :=
  match fuel with
  | O => acc
  | S fuel => if n <? 10 then n :: acc else digits_aux fuel (n / 10) (n mod 10 :: acc)
  end.
Definition digits (n : Z) : list Z := digits_aux 20 n [].

Definition is_digit (c : ascii) : bool := (48 <=? code c) && (code c <=? 57).

Fixpoint digits_string (l : list Z) : string :=
  match l with
  | [] => EmptyString
  | d :: t => String (chr (48 + d)) (digits_string t)
  end.

(** [strconv.FormatUint(n, 10)]. *)
Definition FormatUint (n : Z) : string := digits_string (digits n).

(** The loop of [strconv.ParseUint(s, 10, bits)]; range and syntax errors are
    not told apart. *)
Fixpoint parse_digits (max v : Z) (s : string) : option Z :=
  match s with
  | EmptyString => Some v
  | String c t =>
      if is_digit c then
        let v := v * 10 + (code c - 48) in
        if max <? v then None else parse_digits max v t
      else None
  end.

Definition ParseUint (bits : Z) (s : string) : option Z :=
  match s with EmptyString => None | _ => parse_digits (2 ^ bits - 1) 0 s end.

Definition digit (d : Z) : Prop := 0 <= d < 10.
Definition dec_val (v : Z) (l : list Z) : Z := fold_left (fun v d => v * 10 + d) l v.

Lemma dec_val_ge l v : Forall digit l -> 0 <= v -> v <= dec_val v l.
Proof.
  intros Hl. revert v. induction Hl as [|d l Hd Hl IH]; intros v Hv; simpl; [lia|].
  unfold digit in Hd. etransitivity; [|apply IH]; lia.
Qed.

Lemma digits_aux_spec fuel n acc :
  (0 < fuel)%nat -> 0 <= n < 10 ^ Z.of_nat fuel -> Forall digit acc ->
  exists h t, digits_aux fuel n acc = h :: t ++ acc /\ Forall digit (h :: t) /\
    dec_val 0 (h :: t) = n /\ (h = 0 -> n = 0 /\ t = []).
Proof.
  revert n acc. induction fuel as [|fuel IH]; intros n acc Hf Hn Ha; [lia|].
  cbn [digits_aux]. destruct (Z.ltb_spec n 10).
  - exists n, []. split_and!; [done| |simpl; lia|auto]. constructor; [unfold digit; lia|done].
  - rewrite Nat2Z.inj_succ, Z.pow_succ_r in Hn by lia.
    destruct fuel as [|fuel]; [change (10 ^ Z.of_nat 0) with 1 in Hn; lia|].
    assert (Hd : digit (n mod 10)) by (unfold digit; lia).
    destruct (IH (n / 10) (n mod 10 :: acc)) as (h & t & E & Hdig & Hv & Hz);
      [lia|lia|by constructor|].
    exists h, (t ++ [n mod 10]). rewrite E, <- app_assoc. split; [done|].
    rewrite app_comm_cons. split; [apply Forall_app; by auto using Forall|].
    unfold dec_val in *. rewrite fold_left_app, Hv. simpl. split; [lia|].
    intros Hh. destruct (Hz Hh) as [H0 _]. lia.
Qed.

(** What is known of the printed digits of a number. *)
Lemma digits_spec n :
  0 <= n < 10 ^ 20 ->
  exists h t, digits n = h :: t /\ Forall digit (h :: t) /\ dec_val 0 (h :: t) = n /\
    (h = 0 -> n = 0 /\ t = []).
Proof.
  intros Hn. destruct (digits_aux_spec 20 n []) as (h & t & E & H); [lia|done|constructor|].
  exists h, t. rewrite app_nil_r in E. done.
Qed.

Lemma code_digit d : digit d -> code (chr (48 + d)) = 48 + d.
Proof. unfold digit. intros. apply code_chr. lia. Qed.

Lemma is_digit_chr d : digit d -> is_digit (chr (48 + d)) = true.
Proof. intros Hd. unfold is_digit. rewrite code_digit by done. unfold digit in Hd. lia. Qed.

Lemma digits_string_allc l : Forall digit l -> allc is_digit (digits_string l) = true.
Proof. induction 1 as [|d l Hd Hl IH]; simpl; [done|]. by rewrite is_digit_chr. Qed.

Lemma parse_digits_string max v l :
  Forall digit l -> 0 <= v -> dec_val v l <= max ->
  parse_digits max v (digits_string l) = Some (dec_val v l).
Proof.
  intros Hl. revert v. induction Hl as [|d l Hd Hl IH]; intros v Hv Hm; simpl in *; [done|].
  rewrite is_digit_chr, code_digit by done. unfold digit in Hd.
  replace (48 + d - 48) with d by lia.
  pose proof (dec_val_ge l (v * 10 + d) Hl ltac:(lia)).
  destruct (Z.ltb_spec max (v * 10 + d)); [lia|]. apply IH; lia.
Qed.

(** A number that fits in [bits] bits is read back from its decimal text. *)
Lemma ParseUint_FormatUint bits n :
  0 <= n < 2 ^ bits -> n < 10 ^ 20 -> ParseUint bits (FormatUint n) = Some n.
Proof.
  intros Hn Hd. destruct (digits_spec n ltac:(lia)) as (h & t & E & Hdig & Hv & _).
  unfold FormatUint, ParseUint. rewrite E. cbn [digits_string].
  change (String (chr (48 + h)) (digits_string t)) with (digits_string (h :: t)).
  rewrite parse_digits_string by (try done; lia). by rewrite Hv.
Qed.

Lemma FormatUint_digits n : 0 <= n < 10 ^ 20 -> allc is_digit (FormatUint n) = true.
Proof.
  intros Hn. destruct (digits_spec n Hn) as (h & t & E & Hd & _).
  unfold FormatUint. rewrite E. by apply digits_string_allc.
Qed.

Lemma FormatUint_nonempty n : 0 <= n < 10 ^ 20 -> FormatUint n <> EmptyString.
Proof. intros Hn. destruct (digits_spec n Hn) as (h & t & E & _). unfold FormatUint. by rewrite E. Qed.

(** ** base32, lower case, without padding *)

Fixpoint to_bits (n : nat) (v : Z) : list bool :=
  match n with
  | O => []
  | S n => Z.testbit v (Z.of_nat n) :: to_bits n v
  end.
Definition from_bits (l : list bool) : Z := fold_left (fun a b => 2 * a + Z.b2z b) l 0.

(** Groups of [n] bits, the last one filled up with zeros. *)
Fixpoint groups (fuel n : nat) (l : list bool) : list (list bool) :=
  match fuel, l with
  | S fuel, _ :: _ =>
      (take n l ++ replicate (n - length l) false) :: groups fuel n (drop n l)
  | _, _ => []
  end.

Definition b32_alphabet : string := "abcdefghijklmnopqrstuvwxyz234567".
Definition b32_char (v : Z) : ascii := default zero (String.get (Z.to_nat v) b32_alphabet).

Definition bytes_bits (b : list Z) : list bool := List.concat (map (to_bits 8) b).

Fixpoint chars_string (l : list ascii) : string :=
  match l with [] => EmptyString | c :: t => String c (chars_string t) end.

Definition b32_groups (b : list Z) : list (list bool) :=
  groups (length (bytes_bits b)) 5 (bytes_bits b).
Definition base32_encode (b : list Z) : string :=
  chars_string (map (fun g => b32_char (from_bits g)) (b32_groups b)).

(** Reading the text back; what is left of the last group is dropped. *)
Definition b32_value (c : ascii) : option Z :=
  if (97 <=? code c) && (code c <=? 122) then Some (code c - 97)
  else if (50 <=? code c) && (code c <=? 55) then Some (code c - 24)
  else None.

Fixpoint b32_bits (s : string) : option (list bool) :=
  match s with
  | EmptyString => Some []
  | String c t =>
      match b32_value c, b32_bits t with
      | Some v, Some l => Some (to_bits 5 v ++ l)
      | _, _ => None
      end
  end.

Fixpoint bits_bytes (fuel : nat) (l : list bool) : list Z :=
  match fuel with
  | O => []
  | S fuel => if (length l <? 8)%nat then [] else from_bits (take 8 l) :: bits_bytes fuel (drop 8 l)
  end.

Definition base32_decode (s : string) : option (list Z) :=
  l ← b32_bits s; Some (bits_bytes (length l) l).

Lemma length_to_bits n v : length (to_bits n v) = n.
Proof. induction n; simpl; congruence. Qed.

Lemma from_bits_acc l a :
  fold_left (fun a b => 2 * a + Z.b2z b) l a = a * 2 ^ zlen l + from_bits l.
Proof.
  unfold from_bits. revert a. induction l as [|b l IH]; intros a; cbn [fold_left].
  - rewrite zlen_nil. lia.
  - rewrite IH, (IH (2 * 0 + Z.b2z b)), zlen_cons, Z.pow_add_r by (pose proof (zlen_nonneg l); lia). lia.
Qed.

Lemma from_bits_cons b l : from_bits (b :: l) = Z.b2z b * 2 ^ zlen l + from_bits l.
Proof. unfold from_bits at 1. cbn [fold_left]. rewrite from_bits_acc. lia. Qed.

Lemma from_bits_bound l : 0 <= from_bits l < 2 ^ zlen l.
Proof.
  induction l as [|b l IH]; [done|]. rewrite from_bits_cons, zlen_cons, Z.pow_add_r by (pose proof (zlen_nonneg l); lia).
  destruct b; simpl Z.b2z; lia.
Qed.

Lemma to_from_bits l : to_bits (length l) (from_bits l) = l.
Proof.
  assert (G : forall l a, 0 <= a -> to_bits (length l) (a * 2 ^ zlen l + from_bits l) = l).
  { clear. induction l as [|b l IH]; intros a Ha; [done|]. cbn [length to_bits].
    rewrite from_bits_cons, zlen_cons, Z.pow_add_r by (pose proof (zlen_nonneg l); lia).
    replace (a * (2 ^ 1 * 2 ^ zlen l) + (Z.b2z b * 2 ^ zlen l + from_bits l))
      with ((2 * a + Z.b2z b) * 2 ^ zlen l + from_bits l) by lia.
    rewrite IH by (destruct b; simpl; lia). f_equal.
    pose proof (from_bits_bound l). change (Z.of_nat (length l)) with (zlen l).
    rewrite Z.testbit_odd, Z.shiftr_div_pow2 by apply zlen_nonneg.
    rewrite Z.div_add_l, Z.div_small, Z.add_0_r by lia.
    rewrite Z.odd_add, Z.odd_mul. by destruct b. }
  apply (G l 0). lia.
Qed.

Lemma from_to_bits n v : 0 <= v < 2 ^ Z.of_nat n -> from_bits (to_bits n v) = v.
Proof.
  intros Hv. revert v Hv. induction n as [|n IH]; intros v Hv.
  - change (2 ^ Z.of_nat 0) with 1 in Hv. simpl. unfold from_bits. simpl. lia.
  - cbn [to_bits]. rewrite from_bits_cons. unfold zlen. rewrite length_to_bits.
    rewrite Nat2Z.inj_succ, Z.pow_succ_r in Hv by lia.
    assert (E : to_bits n v = to_bits n (v mod 2 ^ Z.of_nat n)).
    { clear. remember (Z.of_nat n) as m. assert (Hm : Z.of_nat n <= m) by lia. clear Heqm.
      induction n as [|n IH]; [done|]. cbn [to_bits]. rewrite IH by lia.
      by rewrite Z.mod_pow2_bits_low by lia. }
    rewrite E, IH by (apply Z.mod_pos_bound; lia).
    rewrite Z.testbit_odd, Z.shiftr_div_pow2 by lia.
    assert (v / 2 ^ Z.of_nat n = 0 \/ v / 2 ^ Z.of_nat n = 1) as [E1|E1] by nia;
      rewrite E1; simpl Z.b2z; rewrite (Z.div_mod v (2 ^ Z.of_nat n)) at 2 by lia; lia.
Qed.

(** Concatenating the groups gives the bits back, with fewer than [n] zeros. *)
Lemma concat_groups fuel n l :
  (0 < n)%nat -> (length l <= fuel)%nat ->
  exists p, (p < n)%nat /\ List.concat (groups fuel n l) = l ++ replicate p false.
Proof.
  intros Hn. revert l. induction fuel as [|fuel IH]; intros [|b l] Hl; simpl length in Hl; try lia;
    try (exists 0%nat; split; [lia|done]).
  destruct (decide (S (length l) <= n)%nat).
  - exists (n - S (length l))%nat. split; [lia|]. cbn [groups].
    rewrite take_ge, drop_ge by (simpl; lia). destruct fuel; simpl; by rewrite app_nil_r.
  - destruct (IH (drop n (b :: l))) as (p & Hp & E); [rewrite length_drop; simpl; lia|].
    exists p. split; [done|]. cbn [groups List.concat]. rewrite E.
    replace (n - length (b :: l))%nat with 0%nat by (simpl; lia). simpl replicate.
    by rewrite app_nil_r, app_assoc, take_drop.
Qed.

Lemma groups_length fuel n l : Forall (fun g => length g = n) (groups fuel n l).
Proof.
  revert l. induction fuel as [|fuel IH]; intros [|b l]; cbn [groups]; constructor; [|apply IH].
  rewrite length_app, length_take, length_replicate. simpl. lia.
Qed.

Lemma length_bytes_bits b : length (bytes_bits b) = (8 * length b)%nat.
Proof.
  unfold bytes_bits. induction b as [|x b IH]; [done|]. cbn [map List.concat].
  rewrite length_app, length_to_bits, IH. simpl. lia.
Qed.

(** The alphabet and its inverse, checked on the thirty-two values. *)
Lemma b32_value_char v : 0 <= v < 32 -> b32_value (b32_char v) = Some v.
Proof.
  intros Hv. assert (Hf : Forall (fun k => b32_value (b32_char (Z.of_nat k)) = Some (Z.of_nat k)) (seq 0 32)).
  { by apply (bool_decide_unpack _). }
  rewrite Forall_forall in Hf. specialize (Hf (Z.to_nat v)). rewrite Z2Nat.id in Hf by lia.
  apply Hf, in_seq. lia.
Qed.

Lemma b32_bits_chars gs :
  Forall (fun g => length g = 5%nat) gs ->
  b32_bits (chars_string (map (fun g => b32_char (from_bits g)) gs)) = Some (List.concat gs).
Proof.
  induction 1 as [|g gs Hg Hgs IH]; [done|]. cbn [map chars_string b32_bits List.concat].
  pose proof (from_bits_bound g) as Hb. unfold zlen in Hb. rewrite Hg in Hb.
  change (2 ^ Z.of_nat 5) with 32 in Hb. rewrite b32_value_char by lia. rewrite IH.
  rewrite <- Hg at 1. by rewrite to_from_bits.
Qed.

Lemma bits_bytes_bits b fuel p :
  is_bytes b -> (p < 8)%nat -> (length b <= fuel)%nat ->
  bits_bytes fuel (bytes_bits b ++ replicate p false) = b.
Proof.
  intros Hb Hp. revert fuel. unfold bytes_bits. induction Hb as [|x b Hx Hb IH]; intros fuel Hf.
  - destruct fuel; simpl; [done|]. rewrite length_replicate.
    destruct (Nat.ltb_spec p 8); [done|lia].
  - destruct fuel as [|fuel]; [simpl in Hf; lia|]. cbn [map List.concat bits_bytes].
    rewrite !length_app, length_to_bits.
    destruct (Nat.ltb_spec (8 + length (List.concat (map (to_bits 8) b)) + length (replicate p false)) 8); [lia|].
    rewrite <- app_assoc, take_app_length', drop_app_length' by (by rewrite length_to_bits).
    rewrite from_to_bits by (unfold is_byte in Hx; change (2 ^ Z.of_nat 8) with 256; lia).
    by rewrite IH by (simpl in Hf; lia).
Qed.

(** Decoding undoes encoding. *)
Lemma base32_roundtrip b : is_bytes b -> base32_decode (base32_encode b) = Some b.
Proof.
  intros Hb. unfold base32_decode, base32_encode, b32_groups.
  rewrite b32_bits_chars by apply groups_length.
  destruct (concat_groups (length (bytes_bits b)) 5 (bytes_bits b)) as (p & Hp & ->); [lia|lia|].
  simpl. rewrite bits_bytes_bits; [done|done|lia|].
  rewrite length_app, length_bytes_bits. lia.
Qed.

(** The number of characters. *)
Lemma length_groups fuel n l :
  (0 < n)%nat -> (length l <= fuel)%nat ->
  (n * length (groups fuel n l) < length l + n)%nat /\ (length l <= n * length (groups fuel n l))%nat.
Proof.
  intros Hn Hl. destruct (concat_groups fuel n l Hn Hl) as (p & Hp & E).
  pose proof (groups_length fuel n l) as Hg.
  assert (L : length (List.concat (groups fuel n l)) = (n * length (groups fuel n l))%nat).
  { clear E. induction Hg as [|g gs Hg Hgs IH]; [simpl; lia|]. simpl. rewrite length_app, IH, Hg. lia. }
  rewrite E, length_app, length_replicate in L. lia.
Qed.

Lemma chars_string_length l : String.length (chars_string l) = length l.
Proof. induction l; simpl; congruence. Qed.

Lemma base32_length b :
  (5 * String.length (base32_encode b) < 8 * length b + 5)%nat /\
  (8 * length b <= 5 * String.length (base32_encode b))%nat.
Proof.
  unfold base32_encode. rewrite chars_string_length, length_map.
  pose proof (length_groups (length (bytes_bits b)) 5 (bytes_bits b)) as H.
  rewrite length_bytes_bits in H. unfold b32_groups. rewrite length_bytes_bits. apply H; lia.
Qed.

(** Every character is one of the alphabet. *)
Definition is_b32 (c : ascii) : bool := match b32_value c with Some _ => true | None => false end.

Lemma base32_chars b : allc is_b32 (base32_encode b) = true.
Proof.
  unfold base32_encode, b32_groups. pose proof (groups_length (length (bytes_bits b)) 5 (bytes_bits b)) as Hg.
  induction Hg as [|g gs Hg Hgs IH]; [done|]. cbn [map chars_string allc]. rewrite IH.
  pose proof (from_bits_bound g) as Hb. unfold zlen in Hb. rewrite Hg in Hb.
  unfold is_b32. by rewrite b32_value_char.
Qed.
