(* ===== verification/Duration.v ===== *)
(** * Duration: the text form of time spans (package time)

    Duration.String and ParseDuration of the standard library, which the
    configuration and the API use for the announcement interval. Durations are
    nanoseconds; the fractions that ParseDuration reads go through 64-bit
    floating point as they do there. *)

From S2P Require Import Prelude Text.
From Stdlib Require Import Ascii String SpecFloat.

Module Duration.

Definition Second : Z := 1000000000.

(** ** Printing *)

(** [fmtFrac]: the fraction of [v] with [prec] digits, without trailing zeros;
    returns it with what is left of [v]. *)
Fixpoint fmtFrac (prec : nat) (v : Z) (print : bool) (acc : string) : string * Z :=
  match prec with
  | O => (if print then "." +:+ acc else acc, v)
  | S prec =>
      let digit := v mod 10 in
      let print := print || negb (digit =? 0) in
      fmtFrac prec (v / 10) print (if print then String (chr (48 + digit)) acc else acc)
  end.

Definition fmtUnit (prec : nat) (u : Z) (unit : string) : string :=
  let '(frac, u) := fmtFrac prec u false unit in FormatUint u +:+ frac.

(** [Duration.String]. *)
Definition String_ (d : Z) : string :=
  let u := Z.abs d in
  if u =? 0 then "0s" else
  (if d <? 0 then "-" else "") +:+
  if u <? 1000 then fmtUnit 0 u "ns"
  else if u <? 1000000 then fmtUnit 3 u (String (chr 194) (String (chr 181) "s"))
  else if u <? Second then fmtUnit 6 u "ms"
  else
    let '(frac, u) := fmtFrac 9 u false "s" in
    let secs := FormatUint (u mod 60) +:+ frac in
    let u := u / 60 in
    if 0 <? u then
      let mins := FormatUint (u mod 60) +:+ "m" +:+ secs in
      let u := u / 60 in
      if 0 <? u then FormatUint u +:+ "h" +:+ mins else mins
    else secs.

(** ** Parsing *)

(** [leadingInt]: the number at the front and what follows; [None] when it
    passes 2^63. *)
Fixpoint leadingInt (s : string) (x : Z) : option (Z * string) :=
  match s with
  | EmptyString => Some (x, s)
  | String c t =>
      if is_digit c then
        if 2 ^ 63 / 10 <? x then None else
        let x := x * 10 + (code c - 48) in
        if 2 ^ 63 <? x then None else leadingInt t x
      else Some (x, s)
  end.

Definition float (z : Z) : spec_float := binary_normalize 53 1024 z 0 false.
Definition fmul : spec_float -> spec_float -> spec_float := SFmul 53 1024.
Definition fdiv : spec_float -> spec_float -> spec_float := SFdiv 53 1024.
Definition ftrunc (f : spec_float) : Z :=
  match f with
  | S754_finite s m e => (if s then -1 else 1) * Z.shiftl (Z.pos m) e
  | _ => 0
  end.

(** [leadingFraction]: digits after the point, with their scale; digits that do
    not fit are skipped. *)
Fixpoint leadingFraction (s : string) (x : Z) (scale : spec_float) (overflow : bool) : Z * spec_float * string :=
  match s with
  | EmptyString => (x, scale, s)
  | String c t =>
      if is_digit c then
        if overflow then leadingFraction t x scale true else
        if (2 ^ 63 - 1) / 10 <? x then leadingFraction t x scale true else
        let y := x * 10 + (code c - 48) in
        if 2 ^ 63 <? y then leadingFraction t x scale true
        else leadingFraction t y (fmul scale (float 10)) false
      else (x, scale, s)
  end.

(** The letters up to the next digit or point. *)
Fixpoint unit_text (s : string) : string * string :=
  match s with
  | EmptyString => (EmptyString, EmptyString)
  | String c t =>
      if is_digit c || Ascii.eqb c "." then (EmptyString, s)
      else let '(u, r) := unit_text t in (String c u, r)
  end.

Definition unitMap (u : string) : option Z :=
  if String.eqb u "ns" then Some 1
  else if String.eqb u "us" then Some 1000
  else if String.eqb u (String (chr 194) (String (chr 181) "s")) then Some 1000
  else if String.eqb u (String (chr 206) (String (chr 188) "s")) then Some 1000
  else if String.eqb u "ms" then Some 1000000
  else if String.eqb u "s" then Some Second
  else if String.eqb u "m" then Some (60 * Second)
  else if String.eqb u "h" then Some (3600 * Second)
  else None.

(** One number with its unit: its value, and what follows. *)
Definition segment (s : string) : option (Z * string) :=
  match s with
  | EmptyString => None
  | String c _ =>
      if negb (is_digit c || Ascii.eqb c ".") then None else
      match leadingInt s 0 with
      | None => None
      | Some (v, s1) =>
          let pre := negb (String.length s =? String.length s1)%nat in
          let '(f, scale, s2, post) :=
            match s1 with
            | String "." t =>
                let '(f, scale, r) := leadingFraction t 0 (float 1) false in
                (f, scale, r, negb (String.length t =? String.length r)%nat)
            | _ => (0, float 1, s1, false)
            end in
          if negb pre && negb post then None else
          let '(u, s3) := unit_text s2 in
          if String.eqb u "" then None else
          match unitMap u with
          | None => None
          | Some unit =>
              if 2 ^ 63 / unit <? v then None else
              let v := v * unit in
              let v := if 0 <? f then v + ftrunc (fmul (float f) (fdiv (float unit) scale)) else v in
              if 2 ^ 63 <? v then None else Some (v, s3)
          end
      end
  end.

Fixpoint segments (fuel : nat) (s : string) (d : Z) : option Z :=
  match s with
  | EmptyString => Some d
  | _ =>
      match fuel with
      | O => None
      | S fuel =>
          match segment s with
          | None => None
          | Some (v, r) => if 2 ^ 63 <? d + v then None else segments fuel r (d + v)
          end
      end
  end.

(** Every turn takes at least one character, so the length of the string is
    enough fuel. *)
Definition ParseDuration (s : string) : option Z :=
  let '(neg, s) :=
    match s with
    | String "-" t => (true, t)
    | String "+" t => (false, t)
    | _ => (false, s)
    end in
  if String.eqb s "0" then Some 0 else
  if String.eqb s "" then None else
  match segments (String.length s) s 0 with
  | None => None
  | Some d => if neg then Some (- d) else if 2 ^ 63 - 1 <? d then None else Some d
  end.

(** [Duration.Abs]: the smallest value has no opposite. *)
Definition Abs (d : Z) : Z :=
  if 0 <=? d then d else if d =? - 2 ^ 63 then 2 ^ 63 - 1 else - d.

End Duration.
Import Duration.

(** ** Whole seconds are read back *)

Definition not_digit (s : string) : Prop :=
  match s with EmptyString => True | String c _ => is_digit c = false end.

Lemma leadingInt_digits ds x r :
  Forall digit ds -> 0 <= x -> dec_val x ds <= 2 ^ 63 -> not_digit r ->
  leadingInt (digits_string ds +:+ r) x = Some (dec_val x ds, r).
Proof.
  intros Hd. revert x. induction Hd as [|d ds Hd Hds IH]; intros x Hx Hm Hr; cbn [digits_string String.append].
  - destruct r as [|c r]; [done|]. cbn in *. by rewrite Hr.
  - cbn [leadingInt]. rewrite is_digit_chr, code_digit by done.
    replace (48 + d - 48) with d by lia. unfold digit in Hd. cbn [dec_val fold_left] in Hm |- *.
    pose proof (dec_val_ge ds (x * 10 + d) Hds ltac:(lia)) as Hge. unfold dec_val in *.
    destruct (Z.ltb_spec (2 ^ 63 / 10) x); [lia|]. destruct (Z.ltb_spec (2 ^ 63) (x * 10 + d)); [lia|].
    apply IH; lia || done.
Qed.

Lemma leadingInt_FormatUint n r :
  0 <= n <= 2 ^ 63 -> not_digit r -> leadingInt (FormatUint n +:+ r) 0 = Some (n, r).
Proof.
  intros Hn Hr. destruct (digits_spec n ltac:(lia)) as (h & t & E & Hd & Hv & _).
  unfold FormatUint. rewrite E, leadingInt_digits by (try done; lia). by rewrite Hv.
Qed.

(** A unit of the list and what may follow it. *)
Definition is_unit (u : string) (unit : Z) : Prop :=
  unitMap u = Some unit /\ 0 < unit /\ u <> EmptyString /\
  allc (fun c => negb (is_digit c || Ascii.eqb c ".")) u = true.

Definition starts_number (s : string) : Prop :=
  match s with EmptyString => True | String c _ => is_digit c = true end.

Lemma unit_text_app u r :
  allc (fun c => negb (is_digit c || Ascii.eqb c ".")) u = true -> starts_number r ->
  unit_text (u +:+ r) = (u, r).
Proof.
  induction u as [|c u IH]; cbn [allc String.append unit_text].
  - intros _ Hr. destruct r as [|c r]; [done|]. cbn in *. by rewrite Hr.
  - rewrite andb_true_iff, negb_true_iff. intros [-> Hu] Hr. by rewrite IH.
Qed.

Lemma segment_FormatUint n u unit r :
  is_unit u unit -> starts_number r -> 0 <= n -> n * unit <= 2 ^ 63 ->
  segment (FormatUint n +:+ u +:+ r) = Some (n * unit, r).
Proof.
  intros (Hu & Hpos & Hne & Hch) Hr Hn Hm.
  assert (Hn63 : n <= 2 ^ 63) by nia.
  destruct (digits_spec n ltac:(lia)) as (h & t & E & Hd & Hv & _).
  inversion_clear Hd as [|? ? Hh Ht].
  assert (Hnd : not_digit (u +:+ r)).
  { destruct u as [|c u]; [done|]. cbn in *. apply andb_true_iff in Hch as [Hc _].
    rewrite negb_true_iff, orb_false_iff in Hc. apply Hc. }
  pose proof (leadingInt_FormatUint n (u +:+ r) ltac:(lia) Hnd) as Hl.
  assert (Hlen : (String.length (FormatUint n +:+ u +:+ r) =? String.length (u +:+ r))%nat = false).
  { unfold FormatUint. rewrite E. cbn [digits_string String.append String.length].
    rewrite !string_app_length. apply Nat.eqb_neq. lia. }
  assert (Hhd : exists s, FormatUint n +:+ u +:+ r = String (chr (48 + h)) s).
  { unfold FormatUint. rewrite E. by eexists. }
  destruct Hhd as [s0 Es]. unfold segment. rewrite Es in *. rewrite is_digit_chr by done. cbn [orb negb].
  rewrite Hl, Hlen. cbn [negb andb].
  assert (Hdot : forall X (f : string -> X) g, match u +:+ r with String "." t => f t | _ => g end = g).
  { intros X f g. destruct u as [|c u]; [done|]. cbn in *. apply andb_true_iff in Hch as [Hc _].
    rewrite negb_true_iff, orb_false_iff in Hc. destruct Hc as [_ Hc].
    destruct c as [[] [] [] [] [] [] [] []]; done. }
  rewrite Hdot. rewrite unit_text_app by done.
  destruct (String.eqb_spec u ""); [done|]. rewrite Hu. cbn [Z.ltb Z.compare].
  destruct (Z.ltb_spec (2 ^ 63 / unit) n) as [Hlt|_]; [|by destruct (Z.ltb_spec (2 ^ 63) (n * unit)); [lia|]].
  exfalso. assert (n <= 2 ^ 63 / unit) by (apply Z.div_le_lower_bound; lia). lia.
Qed.

Lemma FormatUint_head n r : 0 <= n < 10 ^ 20 -> starts_number (FormatUint n +:+ r).
Proof.
  intros Hn. pose proof (FormatUint_nonempty n Hn). pose proof (FormatUint_digits n Hn) as Hd.
  destruct (FormatUint n) as [|c t]; [done|]. cbn in *. by apply andb_true_iff in Hd as [Hd _].
Qed.

Lemma segments_step fuel n u unit r d :
  is_unit u unit -> starts_number r -> 0 <= n -> 0 <= d -> d + n * unit <= 2 ^ 63 ->
  segments (S fuel) (FormatUint n +:+ u +:+ r) d = segments fuel r (d + n * unit).
Proof.
  intros Hu Hr Hn Hd Hm. pose proof Hu as (_ & Hpos & Hne & _).
  pose proof (segment_FormatUint n u unit r Hu Hr Hn ltac:(lia)) as Hs.
  assert (0 <= n < 10 ^ 20) by nia. pose proof (FormatUint_nonempty n ltac:(lia)).
  destruct (FormatUint n) as [|c t] eqn:E; [done|]. cbn [String.append] in *. cbn [segments]. rewrite Hs.
  by destruct (Z.ltb_spec (2 ^ 63) (d + n * unit)); [lia|].
Qed.

Lemma fmtFrac_whole prec k acc : fmtFrac prec (k * 10 ^ Z.of_nat prec) false acc = (acc, k).
Proof.
  revert k. induction prec as [|prec IH]; intros k; cbn [fmtFrac].
  - change (10 ^ Z.of_nat 0) with 1. by rewrite Z.mul_1_r.
  - rewrite Nat2Z.inj_succ, Z.pow_succ_r, Z.mul_assoc, (Z.mul_comm k), <- Z.mul_assoc by lia.
    rewrite (Z.mul_comm 10), Z.mod_mul, Z.div_mul by lia. cbn [Z.eqb negb orb]. apply IH.
Qed.

Lemma unit_s : is_unit "s" Second. Proof. done. Qed.
Lemma unit_m : is_unit "m" (60 * Second). Proof. done. Qed.
Lemma unit_h : is_unit "h" (3600 * Second). Proof. done. Qed.

(** The text of a whole number of seconds. *)
Definition hms (k : Z) : string :=
  let secs := FormatUint (k mod 60) +:+ "s" in
  if k <? 60 then secs
  else if k <? 3600 then FormatUint (k / 60) +:+ "m" +:+ secs
  else FormatUint (k / 3600) +:+ "h" +:+ FormatUint (k / 60 mod 60) +:+ "m" +:+ secs.

Lemma String_seconds k : 0 <= k -> Duration.String_ (k * Second) = hms k.
Proof.
  intros Hk. unfold Duration.String_. rewrite Z.abs_eq by (unfold Second; lia).
  destruct (Z.eqb_spec (k * Second) 0) as [E|Hne].
  { unfold Second in E. assert (k = 0) as -> by lia. done. }
  assert (1 <= k) by (unfold Second in *; lia).
  replace (k * Second <? 0) with false by (symmetry; apply Z.ltb_ge; unfold Second; lia).
  replace (k * Second <? 1000) with false by (symmetry; apply Z.ltb_ge; unfold Second; lia).
  replace (k * Second <? 1000000) with false by (symmetry; apply Z.ltb_ge; unfold Second; lia).
  replace (k * Second <? Second) with false by (symmetry; apply Z.ltb_ge; unfold Second; lia).
  change (k * Second) with (k * 10 ^ Z.of_nat 9). rewrite fmtFrac_whole. cbn [String.append].
  unfold hms. rewrite Z.div_div by lia. change (60 * 60) with 3600.
  destruct (Z.ltb_spec 0 (k / 60)), (Z.ltb_spec k 60); try lia; [|done].
  destruct (Z.ltb_spec 0 (k / 3600)), (Z.ltb_spec k 3600); try lia; [done|].
  rewrite (Z.mod_small (k / 60)) by lia. done.
Qed.

Lemma segments_fuel fuel fuel' s d v :
  (fuel <= fuel')%nat -> segments fuel s d = Some v -> segments fuel' s d = Some v.
Proof.
  revert fuel' s d. induction fuel as [|fuel IH]; intros fuel' [|c s] d Hf; try done; [by destruct fuel'..|].
  destruct fuel' as [|fuel']; [lia|]. cbn [segments]. destruct (segment (String c s)) as [[x r]|]; [|done].
  destruct (2 ^ 63 <? d + x); [done|]. apply IH. lia.
Qed.

Lemma FormatUint_length n : 0 <= n < 10 ^ 20 -> (1 <= String.length (FormatUint n))%nat.
Proof. intros Hn. pose proof (FormatUint_nonempty n Hn). destruct (FormatUint n); [done|]. cbn. lia. Qed.

(** Hours, minutes and seconds of [k]. *)
Lemma hms_parts k :
  0 <= k -> k = 60 * (k / 60) + k mod 60 /\ 0 <= k mod 60 < 60 /\
    k / 60 = 60 * (k / 3600) + k / 60 mod 60 /\ 0 <= k / 60 mod 60 < 60 /\ 0 <= k / 3600 <= k /\ 0 <= k / 60 <= k.
Proof. intros Hk. pose proof (Z.div_div k 60 60 ltac:(lia) ltac:(lia)). lia. Qed.

Lemma hms_cases k (P : string -> Prop) :
  0 <= k ->
  (forall h m r, 0 <= h -> 0 <= m < 60 -> 0 <= r < 60 ->
    (k = r -> P (FormatUint r +:+ "s" +:+ "")) /\
    (k = 60 * m + r -> P (FormatUint m +:+ "m" +:+ FormatUint r +:+ "s" +:+ "")) /\
    (k = 3600 * h + 60 * m + r -> P (FormatUint h +:+ "h" +:+ FormatUint m +:+ "m" +:+ FormatUint r +:+ "s" +:+ ""))) ->
  P (hms k).
Proof.
  intros Hk HP. destruct (hms_parts k Hk) as (E1 & B1 & E2 & B2 & B3 & B4). unfold hms.
  destruct (HP (k / 3600) (k / 60 mod 60) (k mod 60)) as (P1 & P2 & P3); [lia..|].
  cbv zeta. rewrite <- (string_app_nil "s").
  destruct (Z.ltb_spec k 60); [|destruct (Z.ltb_spec k 3600)].
  - apply P1. lia.
  - replace (k / 60) with (k / 60 mod 60) by lia. apply P2. lia.
  - apply P3. lia.
Qed.

Lemma segments_hms k :
  0 <= k -> k * Second <= 2 ^ 63 -> segments (String.length (hms k)) (hms k) 0 = Some (k * Second).
Proof.
  intros Hk Hm. unfold Second in Hm.
  apply (hms_cases k (fun s => segments (String.length s) s 0 = Some (k * Second))); [done|].
  intros h m r Hh Hmm Hr. pose proof (FormatUint_length r ltac:(lia)). pose proof (FormatUint_length m ltac:(lia)).
  assert (Hsr : forall t, starts_number (FormatUint r +:+ t)) by (intros; apply FormatUint_head; lia).
  assert (Hsm : forall t, starts_number (FormatUint m +:+ t)) by (intros; apply FormatUint_head; lia).
  split_and!; intros ->.
  - apply (segments_fuel 1); [rewrite string_app_length; cbn [String.length String.append]; lia|].
    rewrite (segments_step _ _ "s" _ _ _ unit_s) by (unfold Second; try done; lia). done.
  - apply (segments_fuel 2); [rewrite !string_app_length; cbn [String.length String.append]; lia|].
    rewrite (segments_step _ _ "m" _ _ _ unit_m) by (unfold Second; try done; lia).
    rewrite (segments_step _ _ "s" _ _ _ unit_s) by (unfold Second; try done; lia).
    cbn [segments]. f_equal. lia.
  - apply (segments_fuel 3); [rewrite !string_app_length; cbn [String.length String.append]; lia|].
    rewrite (segments_step _ _ "h" _ _ _ unit_h) by (unfold Second; try done; lia).
    rewrite (segments_step _ _ "m" _ _ _ unit_m) by (unfold Second; try done; lia).
    rewrite (segments_step _ _ "s" _ _ _ unit_s) by (unfold Second; try done; lia).
    cbn [segments]. f_equal. lia.
Qed.

(** The text starts with a digit and has at least two characters. *)
Lemma hms_shape k : 0 <= k -> k * Second <= 2 ^ 63 -> starts_number (hms k) /\ (2 <= String.length (hms k))%nat.
Proof.
  intros Hk Hm. unfold Second in Hm.
  apply (hms_cases k (fun s => starts_number s /\ (2 <= String.length s)%nat)); [done|].
  intros h m r Hh Hmm Hr. pose proof (FormatUint_length r ltac:(lia)). pose proof (FormatUint_length m ltac:(lia)).
  split_and!; intros ->; (split; [apply FormatUint_head; lia|]);
    rewrite !string_app_length; cbn [String.length String.append]; lia.
Qed.

(** A whole number of seconds is read back from its text. *)
Lemma ParseDuration_seconds k :
  0 <= k -> k * Second < 2 ^ 63 -> ParseDuration (Duration.String_ (k * Second)) = Some (k * Second).
Proof.
  intros Hk Hm. rewrite String_seconds by done.
  destruct (hms_shape k Hk ltac:(lia)) as [Hd Hl]. pose proof (segments_hms k Hk ltac:(lia)) as Hs.
  unfold ParseDuration. destruct (hms k) as [|c [|c2 t]]; [cbn in Hl; lia..|].
  assert (Hneg : forall X (a b : string -> X) d,
    match String c (String c2 t) with String "-" t => a t | String "+" t => b t | _ => d end = d).
  { intros X a b d. cbn in Hd. destruct c as [[] [] [] [] [] [] [] []]; done. }
  rewrite (Hneg _ (fun t => (true, t)) (fun t => (false, t))).
  replace (String.eqb (String c (String c2 t)) "0") with false by (cbn; by destruct (Ascii.eqb c "0")).
  cbn [String.eqb]. rewrite Hs. by destruct (Z.ltb_spec (2 ^ 63 - 1) (k * Second)); [lia|].
Qed.
