(* ===== verification/Ext.v ===== *)
(** * Ext: what the program uses of code outside the repository

    Third-party packages are parameters of the model: one class per package
    group with the operations the sources call, and one class of laws with the
    documented behaviour the program relies on. The laws are hypotheses of the
    theorems that need them; [Toy] gives concrete functions that satisfy all of
    them at once.  The standard library is modelled, not assumed; [NetIP] holds
    what is used of net/netip. *)

From S2P Require Import Prelude Text.

(** ** golang.org/x/crypto: blake2s, curve25519, chacha20poly1305 *)

Class Crypto : Type := {
  blake2s_Sum256 : list Z -> list Z;
  curve25519_ScalarBaseMult : list Z -> list Z;
  curve25519_ScalarMult : list Z -> list Z -> list Z;
  AEAD : Type;
  chacha20poly1305_New : list Z -> option AEAD;
  aead_Seal : AEAD -> list Z -> list Z -> list Z -> list Z;
  aead_Open : AEAD -> list Z -> list Z -> list Z -> option (list Z)
}.

(** A value of a Go byte array type [[n]byte]. *)
Definition array (n : Z) (l : list Z) : Prop := zlen l = n /\ is_bytes l.

#[export] Instance array_dec n l : Decision (array n l).
Proof. unfold array. apply _. Defined.

(** Sizes are those of the packages' documented constants; Diffie-Hellman
    commutes; opening undoes sealing with the same key, nonce and additional
    data; a ciphertext is its plaintext and a 16-byte tag. *)
Class CryptoLaws `{Crypto} : Prop := {
  Sum256_array : forall d, array 32 (blake2s_Sum256 d);
  BaseMult_array : forall k, array 32 (curve25519_ScalarBaseMult k);
  ScalarMult_array : forall k p, array 32 (curve25519_ScalarMult k p);
  dh_comm : forall a b, array 32 a -> array 32 b ->
    curve25519_ScalarMult a (curve25519_ScalarBaseMult b) =
    curve25519_ScalarMult b (curve25519_ScalarBaseMult a);
  New_key32 : forall k, array 32 k -> is_Some (chacha20poly1305_New k);
  Open_Seal : forall a n pt ad, is_bytes pt -> aead_Open a n (aead_Seal a n pt ad) ad = Some pt;
  Seal_length : forall a n pt ad, zlen (aead_Seal a n pt ad) = zlen pt + 16;
  Seal_bytes : forall a n pt ad, is_bytes pt -> is_bytes (aead_Seal a n pt ad)
}.

(** ** multiformats: go-cid, go-multihash, go-multibase, go-varint *)

Record DecodedMultihash : Type := mkDecoded {
  mh_Code : Z;
  mh_Length : Z;
  mh_Digest : list Z
}.

Class CidLib : Type := {
  Cid : Type;
  cid_Type : Cid -> Z;
  cid_Hash : Cid -> list Z;
  cid_Bytes : Cid -> list Z;
  cid_String : Cid -> string;
  cid_NewCidV1 : Z -> list Z -> Cid;
  cid_Unmarshal : list Z -> option Cid;
  cid_Cast : list Z -> option Cid;
  cid_Decode : string -> option Cid;
  cid_Parse : string -> option Cid;
  mh_IDENTITY : Z;
  mh_Sum : list Z -> Z -> Z -> option (list Z);
  mh_Decode : list Z -> option DecodedMultihash
}.

Class CidLaws `{CidLib} : Prop := {
  cid_Type_V1 : forall t m, cid_Type (cid_NewCidV1 t m) = t;
  cid_Hash_V1 : forall t m, cid_Hash (cid_NewCidV1 t m) = m;
  cid_Unmarshal_Bytes : forall c, cid_Unmarshal (cid_Bytes c) = Some c;
  cid_Cast_Bytes : forall c, cid_Cast (cid_Bytes c) = Some c;
  cid_Decode_String : forall c, cid_Decode (cid_String c) = Some c;
  cid_Parse_String : forall c, cid_Parse (cid_String c) = Some c;
  mh_Decode_Sum : forall d, exists m, mh_Sum d mh_IDENTITY (zlen d) = Some m /\
    mh_Decode m = Some (mkDecoded mh_IDENTITY (zlen d) d);
  mh_Decode_length : forall m x, mh_Decode m = Some x -> mh_Length x = zlen (mh_Digest x)
}.

(** The documented formats: the identity multihash is its code, the length and
    the data; a version 1 identifier is the version, the codec and the multihash;
    its text is multibase base32 in lower case. One-byte varints only. *)
Class CidFormLaws `{CidLib} : Prop := {
  mh_Sum_identity : forall d, zlen d < 128 ->
    mh_Sum d mh_IDENTITY (zlen d) = Some (0 :: zlen d :: d);
  cid_Bytes_V1 : forall t m, 0 <= t < 128 -> cid_Bytes (cid_NewCidV1 t m) = 1 :: t :: m;
  cid_String_V1 : forall t m, is_bytes (cid_Bytes (cid_NewCidV1 t m)) ->
    cid_String (cid_NewCidV1 t m) =
      "b" +:+ base32_encode (cid_Bytes (cid_NewCidV1 t m))
}.

(** [multibase_Decode] returns the decoded bytes, and the bytes in the spare
    capacity of the slice that holds them. *)
Class Multibase : Type := {
  multibase_Encode64 : list Z -> string;
  multibase_Decode : string -> option (list Z * list Z)
}.

Class MultibaseLaws `{Multibase} : Prop := {
  multibase_Decode_Encode : forall b, exists spare,
    multibase_Decode (multibase_Encode64 b) = Some (b, spare)
}.

(** The characters of base64 text with its multibase prefix. *)
Definition is_b64 (c : Ascii.ascii) : bool :=
  is_digit c || ((65 <=? code c) && (code c <=? 90)) || ((97 <=? code c) && (code c <=? 122)) ||
  (code c =? 43) || (code c =? 47).

Class MultibaseFormLaws `{Multibase} : Prop := {
  multibase_Encode64_chars : forall b, allc is_b64 (multibase_Encode64 b) = true
}.

(** [varint_From] returns the value and the number of bytes it took. *)
Class Varint : Type := {
  varint_To : Z -> list Z;
  varint_From : list Z -> option (Z * Z)
}.

Class VarintLaws `{Varint} : Prop := {
  varint_From_To : forall v rest, 0 <= v < 2 ^ 63 ->
    varint_From (varint_To v ++ rest) = Some (v, zlen (varint_To v));
  varint_To_4 : forall v, 0 <= v < 2 ^ 28 -> zlen (varint_To v) <= 4;
  varint_To_bytes : forall v, is_bytes (varint_To v)
}.

(** ** go-multiaddr *)

(** What the program reads of a protocol description. *)
Record Protocol : Type := mkProtocol { proto_Name : string; proto_Code : Z }.

Class MaddrLib : Type := {
  Maddr : Type;
  maddr_Bytes : Maddr -> list Z;
  maddr_String : Maddr -> string;
  maddr_Protocols : Maddr -> list Protocol;
  maddr_ProtocolWithCode : Z -> Protocol;
  maddr_NewMultiaddr : string -> option Maddr;
  maddr_ValueForProtocol : Maddr -> Z -> option string
}.

Class MaddrLaws `{MaddrLib} : Prop := {
  (* the codes the program looks up are registered: ip4, ip6, udp *)
  ProtocolWithCode_Code : forall c, c = 4 \/ c = 41 \/ c = 273 ->
    proto_Code (maddr_ProtocolWithCode c) = c;
  maddr_Bytes_bytes : forall m, is_bytes (maddr_Bytes m);
  (* the text of an address starts with a slash and is read back *)
  maddr_String_slash : forall m, exists s, maddr_String m = "/" +:+ s;
  maddr_New_String : forall m, maddr_NewMultiaddr (maddr_String m) = Some m
}.

(** ** net/netip *)

Module NetIP.

(** [netip.Addr]: the zero address, an IPv4 address, an IPv6 address with its
    zone. *)
Inductive Addr : Type :=
| AddrZero
| Addr4 (b : list Z)
| Addr6 (b : list Z) (zone : string).

#[export] Instance Addr_eq_dec : EqDecision Addr.
Proof. solve_decision. Defined.

#[export] Instance Addr_countable : Countable Addr.
Proof.
  apply (inj_countable'
    (fun a => match a with AddrZero => inl tt | Addr4 b => inr (inl b) | Addr6 b z => inr (inr (b, z)) end)
    (fun x => match x with inl _ => AddrZero | inr (inl b) => Addr4 b | inr (inr (b, z)) => Addr6 b z end)).
  by intros [].
Defined.

(** [netip.AddrFromSlice], the boolean result as [option]. *)
Definition AddrFromSlice (b : list Z) : option Addr :=
  if zlen b =? 4 then Some (Addr4 b)
  else if zlen b =? 16 then Some (Addr6 b "")
  else None.

Definition IsValid (a : Addr) : bool :=
  match a with AddrZero => false | _ => true end.
Definition Is4 (a : Addr) : bool :=
  match a with Addr4 _ => true | _ => false end.
Definition Is6 (a : Addr) : bool :=
  match a with Addr6 _ _ => true | _ => false end.
Definition AsSlice (a : Addr) : list Z :=
  match a with AddrZero => [] | Addr4 b => b | Addr6 b _ => b end.

(** [Addr.As16]: an IPv4 address in its IPv4-mapped form; the zero address
    panics, here [None]. *)
Definition As16 (a : Addr) : option (list Z) :=
  match a with
  | AddrZero => None
  | Addr4 b => Some (zeros 10 ++ [255; 255] ++ b)
  | Addr6 b _ => Some b
  end.

End NetIP.
