(* ===== verification/NetipText.v ===== *)
(** * NetipText: the text forms of IP addresses (package net/netip)

    ParseAddr, ParseAddrPort and Addr.String as the standard library of the Go
    version in go.mod (1.19) has them, errors as [None], with the round trip
    that the text form of multiaddresses rests on. *)

From S2P Require Import Prelude Text Ext.
From Stdlib Require Import Ascii String.
Import NetIP.

#[local] Abbreviation length := List.length.

Module NetipText.

(** ** IPv4 *)

(** The loop of [parseIPv4]: the fields so far, the value and number of digits
    of the current one. A dot needs a digit before it and something after it. *)
Fixpoint v4_loop (s : string) (fields : list Z) (val : Z) (digLen : Z) : option (list Z) :=
  match s with
  | EmptyString => if zlen fields <? 3 then None else Some (fields ++ [val])
  | String c t =>
      if is_digit c then
        if (digLen =? 1) && (val =? 0) then None else
        let val := val * 10 + (code c - 48) in
        if 255 <? val then None else v4_loop t fields val (digLen + 1)
      else if Ascii.eqb c "." then
        if (digLen =? 0) || String.eqb t "" then None else
        if zlen fields =? 3 then None else
        v4_loop t (fields ++ [val]) 0 0
      else None
  end.

Definition parseIPv4 (s : string) : option (list Z) := v4_loop s [] 0 0.

Definition string4 (b : list Z) : string := Join "." (map FormatUint b).

(** ** IPv6 *)

Definition hex_value (c : ascii) : option Z :=
  if is_digit c then Some (code c - 48)
  else if (97 <=? code c) && (code c <=? 102) then Some (code c - 87)
  else if (65 <=? code c) && (code c <=? 70) then Some (code c - 55)
  else None.

(** The digits at the front: their value, how many there are, what follows;
    [None] when the value passes 16 bits. *)
Fixpoint hex_scan (s : string) (acc off : Z) : option (Z * Z * string) :=
  match s with
  | EmptyString => Some (acc, off, s)
  | String c t =>
      match hex_value c with
      | None => Some (acc, off, s)
      | Some d =>
          let acc := acc * 16 + d in
          if 65535 <? acc then None else hex_scan t acc (off + 1)
      end
  end.

Definition word_bytes (w : Z) : list Z := [w / 256; w mod 256].

(** The loop of [parseIPv6], at most eight turns; [ip] are the bytes so far and
    [ell] the position of the ellipsis. Returns the string that is left. *)
Fixpoint v6_loop (fuel : nat) (s : string) (ip : list Z) (ell : option Z)
  : option (list Z * option Z * string) :=
  match fuel with
  | O => Some (ip, ell, s)
  | S fuel =>
      match hex_scan s 0 0 with
      | None => None
      | Some (acc, off, rest) =>
          if off =? 0 then None else
          match rest with
          | EmptyString => Some (ip ++ word_bytes acc, ell, EmptyString)
          | String c r =>
              if Ascii.eqb c "." then
                if bool_decide (ell = None) && negb (zlen ip =? 12) then None else
                if 16 <? zlen ip + 4 then None else
                match parseIPv4 s with
                | None => None
                | Some b => Some (ip ++ b, ell, EmptyString)
                end
              else
                let ip := ip ++ word_bytes acc in
                if negb (Ascii.eqb c ":") then None else
                match r with
                | EmptyString => None
                | String d r' =>
                    if Ascii.eqb d ":" then
                      match ell with
                      | Some _ => None
                      | None =>
                          if String.eqb r' "" then Some (ip, Some (zlen ip), EmptyString)
                          else v6_loop fuel r' ip (Some (zlen ip))
                      end
                    else v6_loop fuel r ip ell
                end
          end
      end
  end.

(** After the loop: nothing is left over, and the ellipsis stands for at least
    one group of zeros. *)
Definition v6_finish (ip : list Z) (ell : option Z) (rest : string) : option (list Z) :=
  if negb (String.eqb rest "") then None else
  match ell with
  | None => if zlen ip <? 16 then None else Some ip
  | Some e =>
      if zlen ip <? 16
      then Some (sub ip 0 e ++ zeros (16 - zlen ip) ++ sub ip e (zlen ip - e))
      else None
  end.

Definition v6_parse (s : string) (ell : option Z) : option (list Z) :=
  match v6_loop 8 s [] ell with
  | Some (ip, ell, rest) => v6_finish ip ell rest
  | None => None
  end.

(** What follows a double colon at the front. *)
Definition after_ellipsis (s : string) : option string :=
  match s with
  | String a (String b t) => if Ascii.eqb a ":" && Ascii.eqb b ":" then Some t else None
  | _ => None
  end.

Definition parse_words (s : string) : option (list Z) :=
  match after_ellipsis s with
  | Some t => if String.eqb t "" then Some (zeros 16) else v6_parse t (Some 0)
  | None => v6_parse s None
  end.

Definition parseIPv6 (s : string) : option Addr :=
  match split_first "%" s with
  | None => b ← parse_words s; Some (Addr6 b "")
  | Some (s, zone) =>
      if String.eqb zone "" then None else b ← parse_words s; Some (Addr6 b zone)
  end.

(** The first of the three characters decides. *)
Fixpoint addr_kind (s : string) : option ascii :=
  match s with
  | EmptyString => None
  | String c t =>
      if Ascii.eqb c "." || Ascii.eqb c ":" || Ascii.eqb c "%" then Some c else addr_kind t
  end.

Definition ParseAddr (s : string) : option Addr :=
  match addr_kind s with
  | Some "."%char => b ← parseIPv4 s; Some (Addr4 b)
  | Some ":"%char => parseIPv6 s
  | _ => None
  end.

Definition hex_digit (d : Z) : ascii := if d <? 10 then chr (48 + d) else chr (87 + d).

(** [appendHex]: no leading zeros. *)
Definition hex_string (w : Z) : string :=
  (if 4096 <=? w then String (hex_digit (w / 4096)) "" else "") +:+
  (if 256 <=? w then String (hex_digit (w / 256 mod 16)) "" else "") +:+
  (if 16 <=? w then String (hex_digit (w / 16 mod 16)) "" else "") +:+
  String (hex_digit (w mod 16)) "".

Fixpoint words (b : list Z) : list Z :=
  match b with
  | h :: l :: t => (h * 256 + l) :: words t
  | _ => []
  end.

(** The end of the run of zeros that starts here. *)
Fixpoint zero_run (w : list Z) : nat :=
  match w with
  | 0 :: t => S (zero_run t)
  | _ => O
  end.

(** The first of the longest runs of at least two zeros: its start and end. *)
Fixpoint best_run (w : list Z) (i : nat) (best : option (nat * nat)) : option (nat * nat) :=
  match w with
  | [] => best
  | _ :: t =>
      let l := zero_run w in
      let longer := match best with Some (s, e) => (e - s <? l)%nat | None => true end in
      best_run t (S i) (if (2 <=? l)%nat && longer then Some (i, (i + l)%nat) else best)
  end.

(** [appendTo6] without the zone: the words with colons between them, the run
    replaced by a double colon. *)
Definition words_string (w : list Z) (run : option (nat * nat)) : string :=
  match run with
  | None => Join ":" (map hex_string w)
  | Some (s, e) =>
      Join ":" (map hex_string (take s w)) +:+ "::" +:+ Join ":" (map hex_string (drop e w))
  end.

Definition Is4In6 (b : list Z) : bool := bool_decide (take 12 b = zeros 10 ++ [255; 255]).

Definition string6 (b : list Z) : string :=
  if Is4In6 b then "::ffff:" +:+ string4 (drop 12 b)
  else words_string (words b) (best_run (words b) 0 None).

Definition String_ (a : Addr) : string :=
  match a with
  | AddrZero => "invalid IP"
  | Addr4 b => string4 b
  | Addr6 b zone => string6 b +:+ (if String.eqb zone "" then "" else "%" +:+ zone)
  end.

(** ** Address and port *)

Definition splitAddrPort (s : string) : option (string * string * bool) :=
  match split_last ":" s with
  | None => None
  | Some (ip, port) =>
      if String.eqb ip "" || String.eqb port "" then None else
      match ip with
      | String "[" t =>
          match trim_last "]" t with
          | Some ip => Some (ip, port, true)
          | None => None
          end
      | _ => Some (ip, port, false)
      end
  end.

Definition ParseAddrPort (s : string) : option (Addr * Z) :=
  match splitAddrPort s with
  | None => None
  | Some (ip, port, v6) =>
      match ParseUint 16 port with
      | None => None
      | Some port =>
          match ParseAddr ip with
          | None => None
          | Some a => if if v6 then Is4 a else Is6 a then None else Some (a, port)
          end
      end
  end.

End NetipText.
Import NetipText.

(** ** Reading back an IPv4 address *)

Lemma is_digit_not_dot c : is_digit c = true -> Ascii.eqb c "." = false.
Proof. rewrite eqb_char. intros Hc. apply bool_decide_eq_false_2. by intros ->. Qed.

(** The digits of one field. *)
Lemma v4_loop_digits ds rest fields v n :
  Forall digit ds -> 0 <= v -> 1 <= n -> (v = 0 -> ds = []) -> dec_val v ds <= 255 ->
  exists m, 1 <= m /\
    v4_loop (digits_string ds +:+ rest) fields v n = v4_loop rest fields (dec_val v ds) m.
Proof.
  intros Hd. revert v n. induction Hd as [|d ds Hd Hds IH]; intros v n Hv Hn Hz Hm; [by exists n|].
  simpl in *. rewrite is_digit_chr by done. destruct (Z.eqb_spec v 0); [by specialize (Hz e)|].
  rewrite andb_false_r, code_digit by done. replace (48 + d - 48) with d by lia. unfold digit in Hd.
  pose proof (dec_val_ge ds (v * 10 + d) Hds ltac:(lia)).
  destruct (Z.ltb_spec 255 (v * 10 + d)); [lia|]. apply IH; lia.
Qed.

Lemma v4_loop_field b rest fields :
  is_byte b ->
  exists m, 1 <= m /\ v4_loop (FormatUint b +:+ rest) fields 0 0 = v4_loop rest fields b m.
Proof.
  intros Hb. unfold is_byte in Hb. destruct (digits_spec b ltac:(lia)) as (h & t & E & Hd & Hv & Hz).
  inversion_clear Hd as [|? ? Hh Ht]. unfold FormatUint. rewrite E. simpl.
  rewrite is_digit_chr, code_digit by done. simpl. unfold digit in Hh.
  replace (48 + h - 48) with h by lia.
  change (dec_val 0 (h :: t)) with (dec_val (0 * 10 + h) t) in Hv.
  replace (0 * 10 + h) with h in * by lia. pose proof (dec_val_ge t h Ht ltac:(lia)).
  destruct (Z.ltb_spec 255 h); [lia|]. rewrite <- Hv.
  apply v4_loop_digits; [done|lia..|intros; by apply Hz|lia].
Qed.

Lemma v4_loop_dot x y fields m rest :
  is_byte y -> 1 <= m -> zlen fields < 3 ->
  v4_loop ("." +:+ FormatUint y +:+ rest) fields x m =
  v4_loop (FormatUint y +:+ rest) (fields ++ [x]) 0 0.
Proof.
  intros Hy Hm Hf. pose proof (FormatUint_nonempty y) as Hn. unfold is_byte in Hy.
  specialize (Hn ltac:(lia)). destruct (FormatUint y) as [|c s]; [done|].
  change (v4_loop ("." +:+ String c s +:+ rest) fields x m) with
    (if (m =? 0) || false then None else if zlen fields =? 3 then None
     else v4_loop (String c s +:+ rest) (fields ++ [x]) 0 0).
  destruct (Z.eqb_spec m 0); [lia|]. by destruct (Z.eqb_spec (zlen fields) 3); [lia|].
Qed.

Lemma parse_string4 b : array 4 b -> parseIPv4 (string4 b) = Some b.
Proof.
  intros [Hl Hb]. unfold zlen in Hl.
  do 4 (destruct b as [|? b]; [simpl in Hl; lia|]). destruct b; [|simpl in Hl; lia].
  unfold is_bytes in Hb. rewrite !Forall_cons_iff in Hb. destruct Hb as (H0 & H1 & H2 & H3 & _).
  unfold parseIPv4, string4. cbn [map Join]. rewrite <- (string_app_nil (FormatUint z2)).
  destruct (v4_loop_field z ("." +:+ FormatUint z0 +:+ "." +:+ FormatUint z1 +:+ "." +:+ FormatUint z2 +:+ "") [] H0)
    as (m0 & Hm0 & ->). rewrite v4_loop_dot by done.
  destruct (v4_loop_field z0 ("." +:+ FormatUint z1 +:+ "." +:+ FormatUint z2 +:+ "") ([] ++ [z]) H1)
    as (m1 & Hm1 & ->). rewrite v4_loop_dot by done.
  destruct (v4_loop_field z1 ("." +:+ FormatUint z2 +:+ "") (([] ++ [z]) ++ [z0]) H2)
    as (m2 & Hm2 & ->). rewrite v4_loop_dot by done.
  destruct (v4_loop_field z2 "" ((([] ++ [z]) ++ [z0]) ++ [z1]) H3) as (m3 & Hm3 & ->). done.
Qed.

(** ** Reading back an IPv6 address *)

Definition word (w : Z) : Prop := 0 <= w < 65536.

Lemma hex_value_digit d : 0 <= d < 16 -> hex_value (hex_digit d) = Some d.
Proof.
  intros Hd. assert (Hf : Forall (fun k => hex_value (hex_digit (Z.of_nat k)) = Some (Z.of_nat k)) (seq 0 16)).
  { by apply (bool_decide_unpack _). }
  rewrite List.Forall_forall in Hf. specialize (Hf (Z.to_nat d)). rewrite Z2Nat.id in Hf by lia.
  apply Hf, in_seq. lia.
Qed.

Definition not_hex (s : string) : Prop :=
  match s with EmptyString => True | String c _ => hex_value c = None end.

Lemma hex_scan_digit d t acc off :
  0 <= d < 16 -> acc * 16 + d <= 65535 ->
  hex_scan (String (hex_digit d) t) acc off = hex_scan t (acc * 16 + d) (off + 1).
Proof.
  intros Hd Ha. cbn [hex_scan]. rewrite hex_value_digit by done.
  by destruct (Z.ltb_spec 65535 (acc * 16 + d)); [lia|].
Qed.

Lemma hex_scan_stop s acc off : not_hex s -> hex_scan s acc off = Some (acc, off, s).
Proof. destruct s as [|c s]; [done|]. cbn. by intros ->. Qed.

(** Scanning the text of a word finds its value. *)
Lemma hex_scan_string w rest :
  word w -> not_hex rest ->
  exists n, 0 < n /\ hex_scan (hex_string w +:+ rest) 0 0 = Some (w, n, rest).
Proof.
  intros Hw Hr. unfold word in Hw. unfold hex_string.
  destruct (Z.leb_spec 4096 w); [|destruct (Z.leb_spec 256 w); [|destruct (Z.leb_spec 16 w)]];
    repeat match goal with |- context [?a <=? ?b] => destruct (Z.leb_spec a b); [|lia] end;
    cbn [String.append]; rewrite ?hex_scan_digit by lia; rewrite hex_scan_stop by done;
    eexists; (split; [|do 3 f_equal]); lia.
Qed.

Lemma hex_string_head w : word w -> exists d t, hex_string w = String (hex_digit d) t /\ 0 <= d < 16.
Proof.
  intros Hw. unfold word in Hw. unfold hex_string.
  destruct (4096 <=? w); [|destruct (256 <=? w); [|destruct (16 <=? w)]];
    cbn [String.append]; do 2 eexists; (split; [done|lia]).
Qed.

Lemma hex_digit_not_colon d : 0 <= d < 16 -> Ascii.eqb (hex_digit d) ":" = false.
Proof.
  intros Hd. rewrite eqb_char. apply bool_decide_eq_false_2. intros E.
  pose proof (hex_value_digit d Hd) as Hv. by rewrite E in Hv.
Qed.

Definition words_bytes (ws : list Z) : list Z := List.concat (map word_bytes ws).

(** One turn of the loop, by what follows the word. *)
Lemma v6_loop_end fuel w ip ell :
  word w -> v6_loop (S fuel) (hex_string w) ip ell = Some (ip ++ word_bytes w, ell, EmptyString).
Proof.
  intros Hw. destruct (hex_scan_string w "" Hw I) as (n & Hn & E).
  rewrite string_app_nil in E. cbn [v6_loop]. rewrite E. by destruct (Z.eqb_spec n 0); [lia|].
Qed.

Lemma v6_loop_colon fuel w w' r ip ell :
  word w -> word w' ->
  v6_loop (S fuel) (hex_string w +:+ ":" +:+ hex_string w' +:+ r) ip ell =
  v6_loop fuel (hex_string w' +:+ r) (ip ++ word_bytes w) ell.
Proof.
  intros Hw Hw'. destruct (hex_scan_string w (":" +:+ hex_string w' +:+ r) Hw eq_refl) as (n & Hn & E).
  cbn [v6_loop]. rewrite E. destruct (Z.eqb_spec n 0); [lia|].
  destruct (hex_string_head w' Hw') as (d & t & -> & Hd). cbn [String.append].
  by rewrite (hex_digit_not_colon d Hd).
Qed.

Lemma v6_loop_ellipsis fuel w r ip :
  word w ->
  v6_loop (S fuel) (hex_string w +:+ "::" +:+ r) ip None =
  let ip := ip ++ word_bytes w in
  if String.eqb r "" then Some (ip, Some (zlen ip), EmptyString) else v6_loop fuel r ip (Some (zlen ip)).
Proof.
  intros Hw. destruct (hex_scan_string w ("::" +:+ r) Hw eq_refl) as (n & Hn & E).
  cbn [v6_loop]. rewrite E. by destruct (Z.eqb_spec n 0); [lia|].
Qed.

Lemma v6_loop_words ws fuel ip ell :
  Forall word ws -> ws <> [] -> (length ws <= fuel)%nat ->
  v6_loop fuel (Join ":" (map hex_string ws)) ip ell = Some (ip ++ words_bytes ws, ell, EmptyString).
Proof.
  intros Hw. revert fuel ip. induction Hw as [|w ws Hw Hws IH]; intros fuel ip Hn Hf; [done|].
  destruct fuel as [|fuel]; [simpl in Hf; lia|]. unfold words_bytes. cbn [map List.concat].
  destruct ws as [|w' ws]; [cbn [map Join List.concat]; rewrite app_nil_r; by apply v6_loop_end|].
  inversion Hws as [|? ? Hw' _]; subst. cbn [map]. rewrite Join_cons2.
  specialize (IH fuel (ip ++ word_bytes w) ltac:(done) ltac:(simpl in *; lia)). cbn [map] in IH.
  destruct ws as [|w'' ws].
  - cbn [Join map] in *. rewrite <- (string_app_nil (hex_string w')), v6_loop_colon by done.
    rewrite string_app_nil, IH. by rewrite app_assoc.
  - cbn [map] in IH |- *. rewrite Join_cons2 in IH |- *. rewrite v6_loop_colon by done. rewrite IH. by rewrite app_assoc.
Qed.

Lemma v6_loop_to_ellipsis ws fuel ip r :
  Forall word ws -> ws <> [] -> (length ws <= fuel)%nat ->
  v6_loop fuel (Join ":" (map hex_string ws) +:+ "::" +:+ r) ip None =
  let ip := ip ++ words_bytes ws in
  if String.eqb r "" then Some (ip, Some (zlen ip), EmptyString)
  else v6_loop (fuel - length ws) r ip (Some (zlen ip)).
Proof.
  intros Hw. revert fuel ip. induction Hw as [|w ws Hw Hws IH]; intros fuel ip Hn Hf; [done|].
  destruct fuel as [|fuel]; [simpl in Hf; lia|]. unfold words_bytes. cbn [map List.concat].
  destruct ws as [|w' ws].
  { cbn [map Join List.concat length]. rewrite app_nil_r, Nat.sub_succ, Nat.sub_0_r. by apply v6_loop_ellipsis. }
  inversion Hws as [|? ? Hw' _]; subst. cbn [map]. rewrite Join_cons2.
  specialize (IH fuel (ip ++ word_bytes w) ltac:(done) ltac:(simpl in *; lia)). cbn [map] in IH.
  rewrite <- app_assoc in IH. rewrite !string_app_assoc. destruct ws as [|w'' ws].
  - cbn [Join map] in *. rewrite v6_loop_colon by done. rewrite IH. done.
  - cbn [map] in IH |- *. rewrite Join_cons2, !string_app_assoc in IH |- *. rewrite v6_loop_colon by done. rewrite IH. done.
Qed.

(** *** Words and bytes *)

Lemma words_spec n b :
  is_bytes b -> length b = (2 * n)%nat ->
  Forall word (words b) /\ length (words b) = n /\ words_bytes (words b) = b.
Proof.
  revert b. induction n as [|n IH]; intros [|x [|y b]] Hb Hl; simpl in Hl; try lia; [done|].
  unfold is_bytes in Hb. rewrite !Forall_cons_iff in Hb. destruct Hb as (Hx & Hy & Hb).
  destruct (IH b Hb ltac:(lia)) as (Hw & Hn & E). unfold is_byte in *. cbn [words length].
  split; [constructor; [unfold word; lia|done]|]. split; [lia|].
  unfold words_bytes in *. cbn [map List.concat]. rewrite E. unfold word_bytes. simpl. do 2 f_equal; lia.
Qed.

Lemma words_bytes_app a b : words_bytes (a ++ b) = words_bytes a ++ words_bytes b.
Proof. unfold words_bytes. by rewrite map_app, concat_app. Qed.

Lemma zlen_words_bytes w : zlen (words_bytes w) = 2 * zlen w.
Proof.
  unfold words_bytes. induction w as [|x w IH]; [done|]. cbn [map List.concat].
  rewrite zlen_app, IH, zlen_cons. change (zlen (word_bytes x)) with 2. lia.
Qed.

Lemma words_bytes_zeros n : words_bytes (replicate n 0) = zeros (2 * Z.of_nat n).
Proof.
  unfold zeros. replace (Z.to_nat (2 * Z.of_nat n)) with (n + n)%nat by lia.
  induction n as [|n IH]; [done|]. replace (S n + S n)%nat with (S (S (n + n))) by lia.
  unfold words_bytes in *. cbn [replicate map List.concat]. by rewrite IH.
Qed.

(** *** The run of zeros that is left out *)

(** A run of at least two zeros of [w]. *)
Definition run_ok (w : list Z) (r : nat * nat) : Prop :=
  (r.1 + 2 <= r.2 <= length w)%nat /\
  w = take r.1 w ++ replicate (r.2 - r.1) 0 ++ drop r.2 w.

Lemma zero_run_spec w :
  (zero_run w <= length w)%nat /\ w = replicate (zero_run w) 0 ++ drop (zero_run w) w.
Proof.
  induction w as [|x w [IH1 IH2]]; [done|]. destruct x; simpl; [|split; [lia|done]..].
  split; [lia|]. f_equal. exact IH2.
Qed.

Lemma best_run_ok w pre best r :
  (forall r, best = Some r -> run_ok (pre ++ w) r) ->
  best_run w (length pre) best = Some r -> run_ok (pre ++ w) r.
Proof.
  revert pre best. induction w as [|x w IH]; intros pre best Hb; cbn [best_run]; [auto|].
  intros E. replace (pre ++ x :: w) with ((pre ++ [x]) ++ w) in * by (by rewrite <- app_assoc).
  eapply IH; [|by rewrite length_app, Nat.add_comm]. intros r' Er.
  destruct (Nat.leb_spec 2 (zero_run (x :: w))) as [Hl|]; [|by apply Hb].
  destruct (match best with Some (s, e) => (e - s <? zero_run (x :: w))%nat | None => true end);
    [|by apply Hb]. injection Er as <-.
  destruct (zero_run_spec (x :: w)) as [Hle Hz]. unfold run_ok. cbn [fst snd].
  rewrite <- app_assoc. cbn [app]. rewrite length_app. split; [simpl in *; lia|].
  rewrite take_app_length, drop_app_add. rewrite Nat.add_comm, Nat.add_sub.
  f_equal. exact Hz.
Qed.

(** *** The whole address without its zone *)

Lemma Join_hex_head w ws :
  Forall word (w :: ws) ->
  exists d t, Join ":" (map hex_string (w :: ws)) = String (hex_digit d) t /\ 0 <= d < 16.
Proof.
  intros Hw. inversion_clear Hw as [|? ? Hw0 _]. destruct (hex_string_head w Hw0) as (d & t & E & Hd).
  exists d. cbn [map]. destruct ws as [|w' ws].
  - exists t. by rewrite E.
  - cbn [map]. rewrite Join_cons2, E. by eexists.
Qed.

Lemma after_ellipsis_digit d t : 0 <= d < 16 -> after_ellipsis (String (hex_digit d) t) = None.
Proof.
  intros Hd. unfold after_ellipsis. rewrite (hex_digit_not_colon d Hd). by destruct t.
Qed.

(** The tail after the ellipsis is parsed with the turns that are left. *)
Lemma v6_tail fuel ws ip e :
  Forall word ws -> (length ws <= fuel)%nat -> 0 <= e <= zlen ip -> zlen ip + 2 * zlen ws < 16 ->
  match (if String.eqb (Join ":" (map hex_string ws)) "" then Some (ip, Some e, EmptyString)
         else v6_loop fuel (Join ":" (map hex_string ws)) ip (Some e)) with
  | Some (ip, ell, rest) => v6_finish ip ell rest
  | None => None
  end = Some (sub (ip ++ words_bytes ws) 0 e ++ zeros (16 - zlen ip - 2 * zlen ws) ++
              sub (ip ++ words_bytes ws) e (zlen ip + 2 * zlen ws - e)).
Proof.
  intros Hw Hf He Hl. destruct ws as [|w ws].
  - change (words_bytes []) with (@nil Z). rewrite app_nil_r. cbn [map Join String.eqb].
    unfold v6_finish. cbn [String.eqb negb]. rewrite (@zlen_nil Z) in *.
    destruct (Z.ltb_spec (zlen ip) 16); [|lia]. do 4 f_equal; lia.
  - destruct (Join_hex_head w ws Hw) as (d & t & E & Hd).
    destruct (String.eqb_spec (Join ":" (map hex_string (w :: ws))) ""); [by rewrite E in *|].
    rewrite v6_loop_words by done. unfold v6_finish. cbn [String.eqb negb].
    rewrite zlen_app, zlen_words_bytes. destruct (Z.ltb_spec (zlen ip + 2 * zlen (w :: ws)) 16); [|lia].
    do 4 f_equal; lia.
Qed.

Lemma sub_parts {A} (a b : list A) n :
  n = zlen a -> sub (a ++ b) 0 n = a /\ sub (a ++ b) n (zlen a + zlen b - n) = b.
Proof.
  intros ->. unfold sub, zlen. rewrite Nat2Z.id. cbn [Z.to_nat]. rewrite drop_0, take_app_length, drop_app_length.
  split; [done|]. apply take_ge. lia.
Qed.

Lemma run_bytes w s e :
  run_ok w (s, e) -> length w = 8%nat ->
  words_bytes (take s w) ++ zeros (16 - 2 * zlen (take s w) - 2 * zlen (drop e w)) ++
    words_bytes (drop e w) = words_bytes w.
Proof.
  intros [Hr Hw] Hl. cbn [fst snd] in *. rewrite Hw at 5. rewrite !words_bytes_app, words_bytes_zeros.
  do 3 f_equal. unfold zlen. rewrite length_take, length_drop. lia.
Qed.

Lemma parse_words_string w run :
  Forall word w -> length w = 8%nat -> (forall r, run = Some r -> run_ok w r) ->
  parse_words (words_string w run) = Some (words_bytes w).
Proof.
  intros Hw Hl Hr. destruct run as [[s e]|]; unfold words_string, parse_words.
  - pose proof (Hr _ eq_refl) as Ho. pose proof (run_bytes w s e Ho Hl) as Hb.
    destruct Ho as [[Hse He] _]. cbn [fst snd] in *.
    assert (Ht : length (take s w) = s) by (rewrite length_take; lia).
    assert (Hd : length (drop e w) = (8 - e)%nat) by (rewrite length_drop; lia).
    pose proof (Forall_take word s w Hw) as Hwt. pose proof (Forall_drop word e w Hw) as Hwd.
    set (a := take s w) in *. set (c := drop e w) in *. clearbody a c. destruct a as [|x a].
    + cbn [map Join String.append after_ellipsis Ascii.eqb andb Bool.eqb].
      pose proof (v6_tail 8 c [] 0 Hwd ltac:(lia) ltac:(done) ltac:(rewrite zlen_nil; unfold zlen; lia)) as T.
      unfold v6_parse. rewrite <- Hb. cbn [app] in T.
      destruct (sub_parts [] (words_bytes c) 0 eq_refl) as [_ E]. cbn [app] in E.
      rewrite zlen_words_bytes in E. rewrite E in T.
      transitivity (Some (sub (words_bytes c) 0 0 ++ zeros (16 - zlen (@nil Z) - 2 * zlen c) ++ words_bytes c));
        [rewrite <- T|done].
      destruct (String.eqb_spec (Join ":" (map hex_string c)) "") as [E0|]; [|done].
      destruct c as [|y c]; [done|]. destruct (Join_hex_head y c Hwd) as (d & t & E1 & _). congruence.
    + destruct (Join_hex_head x a Hwt) as (d & t & E & Hdd). rewrite E. cbn [String.append].
      rewrite after_ellipsis_digit by done.
      change (String (hex_digit d) (t +:+ String ":" (String ":" (Join ":" (map hex_string c)))))
        with (String (hex_digit d) t +:+ "::" +:+ Join ":" (map hex_string c)). rewrite <- E.
      unfold v6_parse. rewrite v6_loop_to_ellipsis by (try done; lia). cbv zeta. cbn [app].
      rewrite v6_tail; [|done|lia|pose proof (zlen_nonneg (words_bytes (x :: a))); lia|
        rewrite zlen_words_bytes; unfold zlen; lia].
      destruct (sub_parts (words_bytes (x :: a)) (words_bytes c) _ eq_refl) as [E1 E2].
      rewrite (zlen_words_bytes c) in E2. rewrite E1, E2. f_equal. rewrite <- Hb.
      by rewrite zlen_words_bytes.
  - destruct w as [|x w]; [done|]. destruct (Join_hex_head x w Hw) as (d & t & E & Hd).
    rewrite E, after_ellipsis_digit by done. rewrite <- E. unfold v6_parse.
    rewrite v6_loop_words by (try done; lia). unfold v6_finish. cbn [String.eqb negb app].
    rewrite zlen_words_bytes. unfold zlen. rewrite Hl. done.
Qed.

(** *** IPv4-mapped addresses *)

Lemma hex_scan_app s rest acc off v n :
  hex_scan s acc off = Some (v, n, EmptyString) -> not_hex rest ->
  hex_scan (s +:+ rest) acc off = Some (v, n, rest).
Proof.
  intros Hs Hr. revert acc off Hs. induction s as [|c s IH]; intros acc off; cbn [hex_scan String.append].
  - injection 1 as -> ->. by apply hex_scan_stop.
  - destruct (hex_value c); [|done]. destruct (65535 <? _); [done|apply IH].
Qed.

(** A decimal byte is also a hexadecimal number of 16 bits; all are tried. *)
Lemma hex_scan_dec b rest :
  is_byte b -> not_hex rest ->
  exists v n, hex_scan (FormatUint b +:+ rest) 0 0 = Some (v, n, rest) /\ 0 < n.
Proof.
  intros Hb Hr. unfold is_byte in Hb.
  assert (Hf : Forall (fun k => match hex_scan (FormatUint (Z.of_nat k)) 0 0 with
    | Some (_, n, EmptyString) => 0 < n | _ => False end) (seq 0 256)).
  { apply List.Forall_forall. intros k Hk. apply in_seq in Hk. revert k Hk.
    assert (G : forallb (fun k => match hex_scan (FormatUint (Z.of_nat k)) 0 0 with
      | Some (_, n, EmptyString) => 0 <? n | _ => false end) (seq 0 256) = true) by (by vm_compute).
    rewrite forallb_forall in G. intros k Hk. specialize (G k ltac:(apply in_seq; lia)).
    destruct (hex_scan _ _ _) as [[[v n] [|]]|]; [lia|done..]. }
  rewrite List.Forall_forall in Hf. specialize (Hf (Z.to_nat b) ltac:(apply in_seq; lia)).
  rewrite Z2Nat.id in Hf by lia.
  destruct (hex_scan (FormatUint b) 0 0) as [[[v n] [|]]|] eqn:E; try done.
  exists v, n. split; [by apply hex_scan_app|done].
Qed.

Lemma v6_loop_v4 fuel b ip e :
  array 4 b -> zlen ip <= 12 ->
  v6_loop (S fuel) (string4 b) ip (Some e) = Some (ip ++ b, Some e, EmptyString).
Proof.
  intros Hb Hip. pose proof (parse_string4 b Hb) as Hp. destruct Hb as [Hl Hb]. unfold zlen in Hl.
  do 4 (destruct b as [|? b]; [simpl in Hl; lia|]). destruct b; [|simpl in Hl; lia].
  apply Forall_cons_iff in Hb as [H0 _].
  cbn [v6_loop]. rewrite Hp. unfold string4 at 1. cbn [map].
  rewrite Join_cons2. destruct (hex_scan_dec z ("." +:+ Join "." [FormatUint z0; FormatUint z1; FormatUint z2]) H0)
    as (v & n & -> & Hn); [done|]. destruct (Z.eqb_spec n 0); [lia|]. cbn [String.append].
  rewrite Ascii.eqb_refl, bool_decide_eq_false_2 by done. cbn [andb].
  by destruct (Z.ltb_spec 16 (zlen ip + 4)); [lia|].
Qed.

Lemma string4_head b :
  array 4 b -> exists c t, string4 b = String c t /\ is_digit c = true.
Proof.
  intros [Hl Hb]. unfold zlen in Hl. do 4 (destruct b as [|? b]; [simpl in Hl; lia|]).
  apply Forall_cons_iff in Hb as [H0 _]. unfold is_byte in H0. unfold string4. cbn [map].
  rewrite Join_cons2. pose proof (FormatUint_nonempty z ltac:(lia)) as Hn.
  pose proof (FormatUint_digits z ltac:(lia)) as Hd. destruct (FormatUint z) as [|c t]; [done|].
  do 2 eexists. split; [done|]. simpl in Hd. by apply andb_true_iff in Hd as [Hd _].
Qed.

Lemma parse_mapped b :
  array 16 b -> Is4In6 b = true -> parse_words ("::ffff:" +:+ string4 (drop 12 b)) = Some b.
Proof.
  intros [Hl Hb] Hm. unfold Is4In6 in Hm. apply bool_decide_eq_true_1 in Hm.
  rewrite <- (take_drop 12 b) at 2. rewrite Hm.
  assert (Hd : array 4 (drop 12 b)) by (split; [llia|by apply Forall_drop]).
  set (d := drop 12 b) in *. clearbody d. clear -Hd.
  assert (L : v6_loop 8 ("ffff:" +:+ string4 d) [] (Some 0) = Some ([255; 255] ++ d, Some 0, EmptyString)).
  { rewrite <- (v6_loop_v4 6 d [255; 255] 0 Hd) by done.
    destruct (string4_head d Hd) as (c & t & -> & Hdig).
    assert (Hc : Ascii.eqb c ":" = false).
    { rewrite eqb_char. apply bool_decide_eq_false_2. by intros ->. }
    cbn [String.append]. cbn -[Ascii.eqb v6_loop String.eqb].
    change (v6_loop 8 (String "f" (String "f" (String "f" (String "f" (String ":" (String c t)))))) [] (Some 0))
      with (if Ascii.eqb c ":" then None else v6_loop 7 (String c t) [255; 255] (Some 0)).
    by rewrite Hc. }
  change (parse_words ("::ffff:" +:+ string4 d)) with (v6_parse ("ffff:" +:+ string4 d) (Some 0)).
  unfold v6_parse. rewrite L. unfold v6_finish. cbn [String.eqb negb].
  destruct Hd as [Hl _]. assert (Hz : zlen ([255; 255] ++ d) = 6) by (rewrite zlen_app, Hl; done).
  rewrite Hz. cbn [Z.ltb Z.compare Pos.compare Pos.compare_cont]. rewrite sub_0, Z.sub_0_r. f_equal.
  rewrite <- app_assoc. cbn [app] in *. rewrite <- (sub_all (255 :: 255 :: d)) at 2. by rewrite Hz.
Qed.

Lemma parse_string6 b : array 16 b -> parse_words (string6 b) = Some b.
Proof.
  intros Hb. unfold string6. destruct (Is4In6 b) eqn:E; [by apply parse_mapped|].
  destruct Hb as [Hl Hb]. destruct (words_spec 8 b Hb) as (Hw & Hn & E2); [llia|].
  rewrite parse_words_string; [by rewrite E2|done..|].
  intros r. apply (best_run_ok (words b) [] None). done.
Qed.

(** *** Characters *)

(** The characters of an IPv6 address without its zone. *)
Definition v6_char (c : ascii) : bool :=
  match hex_value c with Some _ => true | None => Ascii.eqb c ":" || Ascii.eqb c "." end.

Lemma allc_Join P sep l :
  allc P sep = true -> Forall (fun s => allc P s = true) l -> allc P (Join sep l) = true.
Proof.
  intros Hs. induction 1 as [|x l Hx Hl IH]; [done|]. destruct l as [|y l]; [done|].
  rewrite Join_cons2, !allc_app, Hx, Hs. exact IH.
Qed.

Lemma string4_chars b : is_bytes b -> allc v6_char (string4 b) = true.
Proof.
  intros Hb. apply allc_Join; [done|]. induction Hb as [|x b Hx Hb IH]; constructor; [|done].
  eapply allc_impl; [|apply FormatUint_digits; unfold is_byte in Hx; lia].
  intros c Hc. unfold v6_char, hex_value. by rewrite Hc.
Qed.

Lemma hex_string_chars w : word w -> allc v6_char (hex_string w) = true.
Proof.
  intros Hw. unfold word in Hw. unfold hex_string, v6_char.
  rewrite !allc_app. repeat (rewrite andb_true_iff; split); try destruct (_ <=? w); cbn [allc];
    rewrite ?hex_value_digit by lia; done.
Qed.

Lemma string6_chars b : array 16 b -> allc v6_char (string6 b) = true.
Proof.
  intros [Hl Hb]. unfold string6. destruct (Is4In6 b).
  { rewrite allc_app, string4_chars; [done|by apply Forall_drop]. }
  destruct (words_spec 8 b Hb) as (Hw & _ & _); [llia|].
  assert (J : forall l, Forall word l -> allc v6_char (Join ":" (map hex_string l)) = true).
  { intros l Hwl. apply allc_Join; [done|].
    induction Hwl; constructor; [by apply hex_string_chars|done]. }
  unfold words_string. destruct (best_run (words b) 0 None) as [[s e]|]; [|by apply J].
  rewrite !allc_app, !J; [done|by apply Forall_drop|by apply Forall_take].
Qed.

(** ** Round trips *)

Definition special (c : ascii) : bool := Ascii.eqb c "." || Ascii.eqb c ":" || Ascii.eqb c "%".

Lemma addr_kind_skip a c t :
  allc (fun c => negb (special c)) a = true -> special c = true ->
  addr_kind (a +:+ String c t) = Some c.
Proof.
  intros Ha Hc. induction a as [|d a IH]; cbn [String.append addr_kind].
  - unfold special in Hc. by rewrite Hc.
  - cbn [allc] in Ha. apply andb_true_iff in Ha as [Hd Ha]. apply negb_true_iff in Hd.
    unfold special in Hd. rewrite Hd. by apply IH.
Qed.

Lemma hex_not_special c d : hex_value c = Some d -> special c = false.
Proof.
  intros Hv. unfold special. rewrite !eqb_char, !orb_false_iff.
  repeat split; apply bool_decide_eq_false_2; intros ->; discriminate Hv.
Qed.

Lemma hex_string_plain w : word w -> allc (fun c => negb (special c)) (hex_string w) = true.
Proof.
  intros Hw. unfold word in Hw. unfold hex_string. rewrite !allc_app.
  repeat (rewrite andb_true_iff; split); try destruct (_ <=? w); cbn [allc]; try done;
    erewrite hex_not_special by (apply hex_value_digit; lia); done.
Qed.

Lemma Join_hex_kind ws t :
  Forall word ws -> addr_kind (Join ":" (map hex_string ws) +:+ ":" +:+ t) = Some ":"%char.
Proof.
  intros Hw. destruct ws as [|w ws]; [done|]. inversion_clear Hw as [|? ? Hw0 _].
  destruct ws as [|w' ws].
  - cbn [map Join]. by apply addr_kind_skip; [apply hex_string_plain|].
  - cbn [map]. rewrite Join_cons2, !string_app_assoc.
    by apply addr_kind_skip; [apply hex_string_plain|].
Qed.

Lemma string6_kind b t : array 16 b -> addr_kind (string6 b +:+ t) = Some ":"%char.
Proof.
  intros [Hl Hb]. unfold string6. destruct (Is4In6 b); [done|].
  destruct (words_spec 8 b Hb) as (Hw & Hn & _); [llia|]. unfold words_string.
  destruct (best_run (words b) 0 None) as [[s e]|].
  - rewrite !string_app_assoc. apply (Join_hex_kind (take s (words b))). by apply Forall_take.
  - destruct (words b) as [|w [|w' ws]]; [done..|]. cbn [map]. rewrite Join_cons2, !string_app_assoc.
    inversion_clear Hw. by apply addr_kind_skip; [apply hex_string_plain|].
Qed.

Lemma ParseAddr_String4 b : array 4 b -> ParseAddr (NetipText.String_ (Addr4 b)) = Some (Addr4 b).
Proof.
  intros Hb. unfold ParseAddr. cbn [NetipText.String_].
  assert (K : addr_kind (string4 b) = Some "."%char).
  { destruct Hb as [Hl Hb]. unfold zlen in Hl. do 4 (destruct b as [|? b]; [simpl in Hl; lia|]).
    apply Forall_cons_iff in Hb as [H0 _]. unfold is_byte in H0.
    unfold string4. cbn [map]. rewrite Join_cons2. apply addr_kind_skip; [|done].
    eapply allc_impl; [|apply FormatUint_digits; lia]. intros c Hc.
    rewrite (hex_not_special c (code c - 48)); [done|]. unfold hex_value. by rewrite Hc. }
  by rewrite K, parse_string4.
Qed.

(** The zone is kept, whatever characters it has. *)
Lemma ParseAddr_String6 b zone :
  array 16 b -> ParseAddr (NetipText.String_ (Addr6 b zone)) = Some (Addr6 b zone).
Proof.
  intros Hb. unfold ParseAddr. cbn [NetipText.String_]. rewrite string6_kind by done.
  unfold parseIPv6. pose proof (string6_chars b Hb) as Hc.
  apply (allc_free _ "%") in Hc; [|done].
  destruct (String.eqb_spec zone "") as [->|Hz].
  - by rewrite string_app_nil, split_first_free, parse_string6.
  - change ("%" +:+ zone) with (String "%" zone). rewrite split_first_app by done.
    destruct (String.eqb_spec zone ""); [done|]. by rewrite parse_string6.
Qed.

Lemma FormatUint_free n c : 0 <= n < 10 ^ 20 -> is_digit c = false -> free c (FormatUint n) = true.
Proof. intros Hn Hc. eapply allc_free; [exact Hc|by apply FormatUint_digits]. Qed.

(** An IPv4 address and its port, separated by a colon. *)
Lemma ParseAddrPort_4 b port :
  array 4 b -> 0 <= port < 2 ^ 16 ->
  ParseAddrPort (NetipText.String_ (Addr4 b) +:+ ":" +:+ FormatUint port) = Some (Addr4 b, port).
Proof.
  intros Hb Hp. pose proof (ParseAddr_String4 b Hb) as Ha. cbn [NetipText.String_] in *.
  unfold ParseAddrPort, splitAddrPort.
  change (":" +:+ FormatUint port) with (String ":" (FormatUint port)).
  rewrite split_last_app by (apply FormatUint_free; [lia|done]).
  destruct (String.eqb_spec (FormatUint port) ""); [by destruct (FormatUint_nonempty port ltac:(lia))|].
  pose proof (string4_head b Hb) as (c & t & E & Hd). rewrite E in *. cbn [String.eqb orb].
  destruct c as [[] [] [] [] [] [] [] []]; try discriminate Hd;
    rewrite ParseUint_FormatUint by lia; by rewrite Ha.
Qed.

(** An IPv6 address in brackets and its port. *)
Lemma ParseAddrPort_6 b zone port :
  array 16 b -> 0 <= port < 2 ^ 16 ->
  ParseAddrPort ("[" +:+ NetipText.String_ (Addr6 b zone) +:+ "]:" +:+ FormatUint port) =
  Some (Addr6 b zone, port).
Proof.
  intros Hb Hp. pose proof (ParseAddr_String6 b zone Hb) as Ha.
  unfold ParseAddrPort, splitAddrPort. set (s := NetipText.String_ (Addr6 b zone)) in *.
  replace ("[" +:+ s +:+ "]:" +:+ FormatUint port)
    with (("[" +:+ s +:+ "]") +:+ String ":" (FormatUint port))
    by (by rewrite !string_app_assoc).
  rewrite split_last_app by (apply FormatUint_free; [lia|done]).
  destruct (String.eqb_spec (FormatUint port) ""); [by destruct (FormatUint_nonempty port ltac:(lia))|].
  cbn [String.append String.eqb orb]. rewrite trim_last_app.
  rewrite ParseUint_FormatUint by lia. by rewrite Ha.
Qed.

(** ** What parsing can return *)

Lemma is_digit_bound c : is_digit c = true -> 0 <= code c - 48 < 10.
Proof. unfold is_digit. rewrite andb_true_iff. lia. Qed.

Lemma is_bytes_snoc l x : is_bytes l -> 0 <= x < 256 -> is_bytes (l ++ [x]).
Proof. intros Hl Hx. apply Forall_app. split; [done|]. apply Forall_cons; [done|constructor]. Qed.

Lemma v4_loop_array s fields val n b :
  is_bytes fields -> zlen fields <= 3 -> 0 <= val < 256 ->
  v4_loop s fields val n = Some b -> array 4 b.
Proof.
  revert fields val n. induction s as [|c s IH]; intros fields val n Hf Hl Hv; cbn [v4_loop].
  - destruct (Z.ltb_spec (zlen fields) 3); [done|]. injection 1 as <-.
    split; [rewrite zlen_app, zlen_1; lia|]. by apply is_bytes_snoc.
  - destruct (is_digit c) eqn:Hc.
    + apply is_digit_bound in Hc. destruct (_ && _); [done|].
      destruct (Z.ltb_spec 255 (val * 10 + (code c - 48))); [done|]. apply IH; try done. lia.
    + destruct (Ascii.eqb c "."); [|done]. destruct (_ || _); [done|].
      destruct (Z.eqb_spec (zlen fields) 3); [done|].
      apply IH; [|rewrite zlen_app, zlen_1; lia|lia].
      by apply is_bytes_snoc.
Qed.

Lemma hex_value_bound c d : hex_value c = Some d -> 0 <= d < 16.
Proof.
  unfold hex_value, is_digit. destruct (_ && _) eqn:E1; [injection 1 as <-; lia|].
  destruct ((97 <=? _) && _) eqn:E2; [injection 1 as <-; lia|].
  destruct ((65 <=? _) && _) eqn:E3; [injection 1 as <-; lia|done].
Qed.

Lemma hex_scan_bound s acc off v n rest :
  word acc -> hex_scan s acc off = Some (v, n, rest) -> word v.
Proof.
  unfold word. revert acc off. induction s as [|c s IH]; intros acc off Ha; cbn [hex_scan].
  - by injection 1 as <- _ _.
  - destruct (hex_value c) as [d|] eqn:E; [|by injection 1 as <- _ _]. apply hex_value_bound in E.
    destruct (Z.ltb_spec 65535 (acc * 16 + d)); [done|]. apply IH. lia.
Qed.

Lemma word_bytes_bytes w : word w -> is_bytes (word_bytes w).
Proof. unfold word. intros. repeat constructor; lia. Qed.

(** The bytes read so far never pass sixteen, and the ellipsis is among them. *)
Definition v6_state (ip : list Z) (ell : option Z) : Prop :=
  is_bytes ip /\ zlen ip <= 16 /\ match ell with Some e => 0 <= e <= zlen ip | None => True end.

Lemma v6_state_grow ip ell b :
  v6_state ip ell -> is_bytes b -> zlen ip + zlen b <= 16 -> v6_state (ip ++ b) ell.
Proof.
  intros (Hi & Hl & He) Hb Hz. split; [by apply Forall_app|]. rewrite zlen_app.
  split; [done|]. destruct ell; [|done]. pose proof (zlen_nonneg b). lia.
Qed.

Lemma v6_loop_state fuel s ip ell ip' ell' rest :
  v6_state ip ell -> zlen ip + 2 * Z.of_nat fuel <= 16 ->
  v6_loop fuel s ip ell = Some (ip', ell', rest) -> v6_state ip' ell'.
Proof.
  revert s ip ell. induction fuel as [|fuel IH]; intros s ip ell Hs Hf; cbn [v6_loop].
  { by injection 1 as <- <- _. }
  destruct (hex_scan s 0 0) as [[[acc off] r]|] eqn:Eh; [|done].
  apply hex_scan_bound in Eh; [|unfold word; lia]. pose proof (word_bytes_bytes acc Eh) as Hb.
  assert (Hg : v6_state (ip ++ word_bytes acc) ell).
  { apply v6_state_grow; [done|done|]. change (zlen (word_bytes acc)) with 2. lia. }
  assert (Hz : zlen (ip ++ word_bytes acc) = zlen ip + 2) by (by rewrite zlen_app).
  destruct (off =? 0); [done|]. destruct r as [|c r]; [by injection 1 as <- <- _|].
  destruct (Ascii.eqb c ".").
  - destruct (_ && _); [done|]. destruct (Z.ltb_spec 16 (zlen ip + 4)); [done|].
    unfold parseIPv4. destruct (v4_loop s [] 0 0) as [b|] eqn:E4; [|done]. injection 1 as <- <- _.
    apply v4_loop_array in E4 as [Hl4 Hb4]; [|constructor|done|lia].
    apply v6_state_grow; [done|done|lia].
  - destruct (negb _); [done|]. destruct r as [|d r]; [done|]. destruct (Ascii.eqb d ":").
    + destruct ell; [done|]. assert (Hg' : v6_state (ip ++ word_bytes acc) (Some (zlen (ip ++ word_bytes acc)))).
      { destruct Hg as (?&?&?). split; [done|]. split; [done|]. pose proof (zlen_nonneg (ip ++ word_bytes acc)). lia. }
      destruct (String.eqb r ""); [by injection 1 as <- <- _|]. apply IH; [done|lia].
    + apply IH; [done|lia].
Qed.

Lemma v6_parse_array s ell b :
  v6_state [] ell -> v6_parse s ell = Some b -> array 16 b.
Proof.
  intros Hs. unfold v6_parse. destruct (v6_loop 8 s [] ell) as [[[ip e] rest]|] eqn:E; [|done].
  apply v6_loop_state in E as (Hb & Hl & He); [|done|rewrite zlen_nil; lia].
  unfold v6_finish. destruct (negb _); [done|]. destruct e as [e|].
  - destruct (Z.ltb_spec (zlen ip) 16); [|done]. injection 1 as <-. split.
    + rewrite !zlen_app, !zlen_sub, zlen_zeros by lia. lia.
    + unfold is_bytes. rewrite !Forall_app. split_and!; [by apply is_bytes_sub|apply is_bytes_zeros|by apply is_bytes_sub].
  - destruct (Z.ltb_spec (zlen ip) 16); [done|]. injection 1 as <-. split; [lia|done].
Qed.

Lemma parse_words_array s b : parse_words s = Some b -> array 16 b.
Proof.
  unfold parse_words. destruct (after_ellipsis s) as [t|].
  - destruct (String.eqb t ""); [by injection 1 as <-; apply (bool_decide_unpack _)|].
    apply v6_parse_array. split_and!; [constructor|done..].
  - apply v6_parse_array. split_and!; [constructor|done..].
Qed.

(** Parsing yields an address of four or of sixteen bytes. *)
Lemma ParseAddr_array s a :
  ParseAddr s = Some a ->
  match a with AddrZero => False | Addr4 b => array 4 b | Addr6 b _ => array 16 b end.
Proof.
  unfold ParseAddr, parseIPv6, parseIPv4. intros H.
  assert (H' : (exists b, v4_loop s [] 0 0 = Some b /\ a = Addr4 b) \/
               (exists t b z, parse_words t = Some b /\ a = Addr6 b z)).
  { destruct (addr_kind s) as [[[] [] [] [] [] [] [] []]|]; try discriminate H.
    - apply bind_Some in H as (b & Hb & [= <-]). eauto.
    - destruct (split_first "%" s) as [[t z]|]; [destruct (String.eqb z ""); [done|]|];
        apply bind_Some in H as (b & Hb & [= <-]); eauto 10. }
  destruct H' as [(b & Hb & ->)|(t & b & z & Hb & ->)].
  - eapply v4_loop_array; [| | |exact Hb]; [constructor|done|lia].
  - by eapply parse_words_array.
Qed.

Lemma parse_digits_bound max v s n : 0 <= v <= max -> parse_digits max v s = Some n -> 0 <= n <= max.
Proof.
  revert v. induction s as [|c s IH]; intros v Hv; cbn [parse_digits]; [by injection 1 as <-|].
  destruct (is_digit c) eqn:Hc; [|done]. apply is_digit_bound in Hc.
  destruct (Z.ltb_spec max (v * 10 + (code c - 48))); [done|]. apply IH. lia.
Qed.

Lemma ParseAddrPort_ok s a port :
  ParseAddrPort s = Some (a, port) ->
  match a with AddrZero => False | Addr4 b => array 4 b | Addr6 b _ => array 16 b end /\
  0 <= port < 2 ^ 16.
Proof.
  unfold ParseAddrPort. destruct (splitAddrPort s) as [[[ip p] v6]|]; [|done].
  destruct (ParseUint 16 p) as [n|] eqn:Hn; [|done]. destruct (ParseAddr ip) as [a'|] eqn:Ha; [|done].
  destruct (if v6 then _ else _); [done|]. injection 1 as -> ->. split; [by eapply ParseAddr_array|].
  unfold ParseUint in Hn. destruct p; [done|]. apply parse_digits_bound in Hn; lia.
Qed.
