(* ===== verification/Toy.v ===== *)
(** * Toy: concrete functions that satisfy the laws of [Ext]

    Each law class of [Ext] has an instance here, so that the theorems that
    assume the laws are known to be about something and can be run: a
    multiplicative key exchange modulo 2^256, a polynomial hash, a cipher that
    only authenticates, and the real LEB128 coding of unsigned integers. None
    of this is meant to be secure. *)

From S2P Require Import Prelude Text Ext.
From Stdlib Require Import Ascii.
From Stdlib Require String.

(** ** Hash, key exchange, cipher *)

Definition toy_hash (d : list Z) : list Z :=
  le_bytes 32 (fold_left (fun a b => (a * 65599 + b + 1) mod 2 ^ 256) d 5381).

Definition toy_base (k : list Z) : list Z := le_bytes 32 (9 * le_val k).
Definition toy_mult (k p : list Z) : list Z := le_bytes 32 (le_val k * le_val p).

Definition toy_tag (k n pt ad : list Z) : list Z := sub (toy_hash (k ++ n ++ ad ++ pt)) 0 16.
Definition toy_seal (k n pt ad : list Z) : list Z := pt ++ toy_tag k n pt ad.
Definition toy_open (k n ct ad : list Z) : option (list Z) :=
  let m := (length ct - 16)%nat in
  if bool_decide (drop m ct = toy_tag k n (take m ct) ad) then Some (take m ct) else None.

#[export] Instance toy_crypto : Crypto := {
  blake2s_Sum256 := toy_hash;
  curve25519_ScalarBaseMult := toy_base;
  curve25519_ScalarMult := toy_mult;
  AEAD := list Z;
  chacha20poly1305_New := fun k => if zlen k =? 32 then Some k else None;
  aead_Seal := toy_seal;
  aead_Open := toy_open
}.

Lemma array_le_bytes n v : array (Z.of_nat n) (le_bytes n v).
Proof. split; [apply zlen_le_bytes|apply is_bytes_le]. Qed.

Lemma zlen_toy_tag k n pt ad : zlen (toy_tag k n pt ad) = 16.
Proof. unfold toy_tag, toy_hash. apply zlen_sub; rewrite ?zlen_le_bytes; lia. Qed.

Lemma le_bytes_mod n v : le_bytes n (v mod 256 ^ Z.of_nat n) = le_bytes n v.
Proof.
  revert v. induction n as [|n IH]; intros v; [done|].
  cbn [le_bytes]. rewrite pow256_succ.
  assert (0 < 256 ^ Z.of_nat n) by (apply Z.pow_pos_nonneg; lia).
  rewrite Z.rem_mul_r by lia. f_equal.
  - unfold u8. change (2 ^ 8) with 256. rewrite (Z.mul_comm 256), Z.mod_add by lia. lia.
  - rewrite <- (IH (Z.shiftr v 8)). f_equal. rewrite !Z.shiftr_div_pow2 by lia.
    change (2 ^ 8) with 256.
    rewrite (Z.mul_comm 256), Z.div_add by lia.
    rewrite (Z.div_small (v mod 256)) by (apply Z.mod_pos_bound; lia). lia.
Qed.

Lemma toy_dh a b : toy_mult a (toy_base b) = toy_mult b (toy_base a).
Proof.
  unfold toy_mult, toy_base. rewrite !le_val_bytes.
  rewrite <- (le_bytes_mod _ (le_val a * _)), <- (le_bytes_mod _ (le_val b * _)).
  rewrite !Z.mul_mod_idemp_r by done. do 2 f_equal. lia.
Qed.

#[export] Instance toy_crypto_laws : CryptoLaws.
Proof.
  constructor; intros; cbn.
  - apply (array_le_bytes 32).
  - apply (array_le_bytes 32).
  - apply (array_le_bytes 32).
  - apply toy_dh.
  - destruct H as [-> _]. done.
  - unfold toy_open, toy_seal. pose proof (zlen_toy_tag a n pt ad).
    replace (length (pt ++ toy_tag a n pt ad) - 16)%nat with (length pt) by llia.
    rewrite drop_app_length, take_app_length. by rewrite bool_decide_eq_true_2.
  - unfold toy_seal. by rewrite zlen_app, zlen_toy_tag.
  - apply Forall_app. split; [done|]. apply is_bytes_sub, is_bytes_le.
Qed.

(** ** Content identifiers *)

Fixpoint pos_to_string (p : positive) : string :=
  match p with
  | xH => String.EmptyString
  | xO p => String.String "0" (pos_to_string p)
  | xI p => String.String "1" (pos_to_string p)
  end.

Fixpoint string_to_pos (s : string) : positive :=
  match s with
  | String.EmptyString => xH
  | String.String c s => if bool_decide (c = "0"%char) then xO (string_to_pos s) else xI (string_to_pos s)
  end.

Lemma string_to_pos_inv p : string_to_pos (pos_to_string p) = p.
Proof. induction p; simpl; by rewrite ?IHp. Qed.

Lemma pos_to_string_digits p : allc is_digit (pos_to_string p) = true.
Proof. by induction p. Qed.

Definition toy_print (c : Z * list Z) : string := pos_to_string (encode c).
Definition toy_parse (s : string) : option (Z * list Z) := decode (string_to_pos s).

Lemma toy_parse_print c : toy_parse (toy_print c) = Some c.
Proof. unfold toy_parse, toy_print. rewrite string_to_pos_inv. apply decode_encode. Qed.

(** The text is base32 where the bytes are bytes, and the coding above for the
    values Go does not have. *)
Definition toy_cid_bytes (c : Z * list Z) : list Z := 1 :: c.1 :: c.2.
Definition toy_cid_cast (b : list Z) : option (Z * list Z) :=
  match b with 1 :: t :: m => Some (t, m) | _ => None end.
Definition toy_cid_string (c : Z * list Z) : string :=
  if bool_decide (is_bytes (toy_cid_bytes c))
  then "b" +:+ (base32_encode (toy_cid_bytes c))
  else toy_print c.
Definition toy_cid_parse (s : string) : option (Z * list Z) :=
  match s with
  | String.String "b"%char t => base32_decode t ≫= toy_cid_cast
  | _ => toy_parse s
  end.

Lemma toy_cid_parse_string c : toy_cid_parse (toy_cid_string c) = Some c.
Proof.
  unfold toy_cid_string. case_bool_decide as Hb.
  - cbn [toy_cid_parse String.append]. rewrite base32_roundtrip by done. by destruct c.
  - rewrite <- (toy_parse_print c). unfold toy_cid_parse, toy_print. by destruct (encode c).
Qed.

#[export] Instance toy_cid : CidLib := {
  Cid := Z * list Z;
  cid_Type := fst;
  cid_Hash := snd;
  cid_Bytes := toy_cid_bytes;
  cid_String := toy_cid_string;
  cid_NewCidV1 := pair;
  cid_Unmarshal := toy_cid_cast;
  cid_Cast := toy_cid_cast;
  cid_Decode := toy_cid_parse;
  cid_Parse := toy_cid_parse;
  mh_IDENTITY := 0;
  mh_Sum := fun d c _ => Some (c :: zlen d :: d);
  mh_Decode := fun m =>
    match m with c :: n :: d => if n =? zlen d then Some (mkDecoded c n d) else None | _ => None end
}.

#[export] Instance toy_cid_laws : CidLaws.
Proof.
  constructor; cbn; try done; try (by intros []).
  - intros. apply toy_cid_parse_string.
  - intros. apply toy_cid_parse_string.
  - intros d. exists (0 :: zlen d :: d). by rewrite Z.eqb_refl.
  - intros [|c [|n d]] x; [done..|]. destruct (Z.eqb_spec n (zlen d)); [|done]. by injection 1 as <-.
Qed.

#[export] Instance toy_cid_form_laws : CidFormLaws.
Proof.
  constructor; cbn; try done. intros t m Hb. unfold toy_cid_string. by rewrite bool_decide_eq_true_2.
Qed.

#[export] Instance toy_multibase : Multibase := {
  multibase_Encode64 := fun b => toy_print (0, b);
  multibase_Decode := fun s => (fun c => (c.2, [])) <$> toy_parse s
}.

#[export] Instance toy_multibase_laws : MultibaseLaws.
Proof. constructor. intros b. exists []. cbn. by rewrite toy_parse_print. Qed.

#[export] Instance toy_multibase_form_laws : MultibaseFormLaws.
Proof.
  constructor. intros b. eapply allc_impl; [|apply pos_to_string_digits].
  intros c Hc. unfold is_b64. by rewrite Hc.
Qed.

(** ** LEB128 *)

Fixpoint leb_enc (n : nat) (v : Z) : list Z :=
  match n with
  | O => []
  | S n => if v <? 128 then [v] else (v mod 128 + 128) :: leb_enc n (v / 128)
  end.

Fixpoint leb_dec (n : nat) (l : list Z) : option (Z * Z) :=
  match n, l with
  | S n, b :: t =>
      if b <? 128 then Some (b, 1)
      else match leb_dec n t with
           | Some (v, k) => Some (b - 128 + 128 * v, 1 + k)
           | None => None
           end
  | _, _ => None
  end.

#[export] Instance toy_varint : Varint := {
  varint_To := fun v => leb_enc 10 (u64 v);
  varint_From := leb_dec 10
}.

Lemma leb_dec_enc n v rest :
  (0 < n)%nat -> 0 <= v < 128 ^ Z.of_nat n ->
  leb_dec n (leb_enc n v ++ rest) = Some (v, zlen (leb_enc n v)).
Proof.
  revert v. induction n as [|n IH]; intros v Hn Hv; [lia|].
  rewrite Nat2Z.inj_succ, Z.pow_succ_r in Hv by lia.
  cbn [leb_enc]. destruct (Z.ltb_spec v 128).
  - cbn [leb_dec app]. by destruct (Z.ltb_spec v 128); [|lia].
  - cbn [leb_dec app]. destruct (Z.ltb_spec (v mod 128 + 128) 128); [lia|].
    destruct n as [|n]; [change (128 ^ Z.of_nat 0) with 1 in Hv; lia|].
    rewrite IH by lia. rewrite zlen_cons. do 2 f_equal. lia.
Qed.

Lemma zlen_leb_enc n m v : 0 <= v < 128 ^ Z.of_nat m -> (0 < m)%nat -> zlen (leb_enc n v) <= Z.of_nat m.
Proof.
  revert m v. induction n as [|n IH]; intros m v Hv Hm; cbn [leb_enc]; [rewrite zlen_nil; lia|].
  destruct (Z.ltb_spec v 128); [rewrite zlen_cons, zlen_nil; lia|].
  destruct m as [|m]; [lia|]. rewrite Nat2Z.inj_succ, Z.pow_succ_r in Hv by lia.
  destruct m as [|m]; [change (128 ^ Z.of_nat 0) with 1 in Hv; lia|].
  rewrite zlen_cons. specialize (IH (S m) (v / 128) ltac:(lia) ltac:(lia)). lia.
Qed.

Lemma leb_enc_bytes n v : 0 <= v -> is_bytes (leb_enc n v).
Proof.
  revert v. induction n as [|n IH]; intros v Hv; [constructor|].
  cbn [leb_enc]. destruct (Z.ltb_spec v 128); constructor; unfold is_byte; try lia.
  - constructor.
  - apply IH. lia.
Qed.

#[export] Instance toy_varint_laws : VarintLaws.
Proof.
  constructor; cbn -[leb_enc leb_dec]; intros.
  - unfold u64. rewrite Z.mod_small by lia. apply leb_dec_enc; [lia|].
    change (128 ^ Z.of_nat 10) with (2 ^ 70). lia.
  - unfold u64. rewrite Z.mod_small by lia. apply (zlen_leb_enc 10 4); [|lia].
    change (128 ^ Z.of_nat 4) with (2 ^ 28). lia.
  - apply leb_enc_bytes. unfold u64. apply Z.mod_pos_bound. lia.
Qed.

(** ** Multiaddrs: what follows the first slash of their text *)

#[export] Instance toy_maddr : MaddrLib := {
  Maddr := string;
  maddr_Bytes := string_bytes;
  maddr_String := fun m => "/" +:+ m;
  maddr_Protocols := fun _ => [];
  maddr_ProtocolWithCode := fun c => mkProtocol "" c;
  maddr_NewMultiaddr := fun s =>
    match s with String.String "/"%char t => Some t | _ => None end;
  maddr_ValueForProtocol := fun _ _ => None
}.

#[export] Instance toy_maddr_laws : MaddrLaws.
Proof.
  constructor; cbn; [done| |by eexists|done].
  apply string_bytes_bytes.
Qed.
