(* ===== verification/Key.v ===== *)
(** * Key: private and public keys (key.go) *)

From S2P Require Import Prelude GoMem Ext Toy.
Import NetIP.

Module Key.

Definition PrivateKeySize : Z := 32.
Definition PublicKeySize : Z := 32.
Definition prefix : list Z := [252].

Record PrivateKey : Type := mkPrivateKey { priv_bytes : list Z }.
Record PublicKey : Type := mkPublicKey { pub_bytes : list Z }.

#[export] Instance PublicKey_eq_dec : EqDecision PublicKey.
Proof. solve_decision. Defined.

(** [copy(arr[:], b)] into a zeroed array of [n] bytes. *)
Definition copy_array (n : Z) (b : list Z) : list Z :=
  let t := take (Z.to_nat n) b in t ++ zeros (n - zlen t).

(** [b[:32]] is checked against the capacity of [b]. *)
Definition NewPrivateKey (b : slice) : M heap PrivateKey :=
  bs ← buf_read b 0 PrivateKeySize;
  mret (mkPrivateKey (copy_array 32 bs)).

Definition NewPublicKey (b : list Z) : PublicKey := mkPublicKey (copy_array 32 b).

(** [clamp] has a value receiver: this is what the receiver's copy becomes. *)
Definition clamp (privkey : PrivateKey) : PrivateKey :=
  let b := priv_bytes privkey in
  let b := splice b 0 [Z.land (getz b 0) 248] in
  let b := splice b 31 [Z.lor (Z.land (getz b 31) 127) 64] in
  mkPrivateKey b.

Definition Bytes (privkey : PrivateKey) : list Z := priv_bytes privkey.
Definition BytesSlice (privkey : PrivateKey) : list Z := priv_bytes privkey.

Section crypto.
Context `{Crypto}.

Definition PublicKey_ (privkey : PrivateKey) : PublicKey :=
  mkPublicKey (curve25519_ScalarBaseMult (priv_bytes privkey)).

Definition SharedSecret (privkey : PrivateKey) (remote : PublicKey) : list Z :=
  curve25519_ScalarMult (priv_bytes privkey) (pub_bytes remote).

(** Bytes 16 to 31 of the double hash of the key, as an address. *)
Definition IPAddr (pubkey : PublicKey) : Addr :=
  let h1 := blake2s_Sum256 (pub_bytes pubkey) in
  let h2 := blake2s_Sum256 h1 in
  default AddrZero (AddrFromSlice (sub h2 16 16)).

(** One result of [crypto/rand.Read]: the bytes, or an error. *)
Definition entropy : Type := list (option (list Z)).

(** [rand.Read(b)] for a buffer of [n] bytes fills all of it. *)
Definition rand_fill (n : Z) (bs : list Z) : list Z := copy_array n bs.

Inductive gen_result : Type :=
| GenKey (k : PrivateKey)
| GenErr.

(** [GeneratePrivateKey] calls itself until the address of the key has the
    prefix; each round takes one result of [rand.Read]. The call to [clamp]
    works on a copy of the key. *)
Fixpoint GeneratePrivateKey (e : entropy) : res (gen_result * entropy) :=
  match e with
  | [] => Block
  | None :: e' => Ok (GenErr, e')
  | Some bs :: e' =>
      let privkey := mkPrivateKey (rand_fill PrivateKeySize bs) in
      let _ := clamp privkey in
      match As16 (IPAddr (PublicKey_ privkey)) with
      | None => Panic
      | Some ipv6 =>
          if bool_decide (take (length prefix) ipv6 = prefix)
          then Ok (GenKey privkey, e')
          else GeneratePrivateKey e'
      end
  end.

Definition MustGeneratePrivateKey (e : entropy) : res (PrivateKey * entropy) :=
  match GeneratePrivateKey e with
  | Ok (GenKey k, e') => Ok (k, e')
  | Ok (GenErr, _) => Panic
  | Panic => Panic
  | Block => Block
  end.
End crypto.

Section multibase.
Context `{Multibase}.

Inductive parse_result : Type :=
| ParsedKey (k : PrivateKey)
| ParseErr.

Definition ParsePrivateKey (str : string) : M heap parse_result :=
  match multibase_Decode str with
  | None => mret ParseErr
  | Some (bs, spare) =>
      b ← (fun h => Ok (Slice (length h) 0 (zlen bs) (zlen (bs ++ spare)), h ++ [bs ++ spare]));
      k ← NewPrivateKey b;
      mret (ParsedKey k)
  end.

Definition MustParsePrivateKey (str : string) : M heap PrivateKey :=
  r ← ParsePrivateKey str;
  match r with
  | ParsedKey k => mret k
  | ParseErr => panic
  end.

Definition String_ (privkey : PrivateKey) : string := multibase_Encode64 (priv_bytes privkey).
End multibase.

(** Random results consist of bytes. *)
Definition entropy_ok (e : entropy) : Prop := Forall (fun x => is_bytes (default [] x)) e.

Definition privkey_ok (k : PrivateKey) : Prop := array 32 (priv_bytes k).
Definition pubkey_ok (k : PublicKey) : Prop := array 32 (pub_bytes k).

End Key.
Import Key.

Lemma zlen_copy_array n b : 0 <= n -> zlen (copy_array n b) = n.
Proof. intros. unfold copy_array, zeros. llia. Qed.

Lemma copy_array_id n b : zlen b = n -> copy_array n b = b.
Proof.
  intros <-. unfold copy_array. rewrite take_ge by llia.
  rewrite Z.sub_diag. apply app_nil_r.
Qed.

Lemma copy_array_bytes n b : is_bytes b -> is_bytes (copy_array n b).
Proof. intros. apply Forall_app. split; [by apply Forall_take|apply is_bytes_zeros]. Qed.

Lemma NewPublicKey_id k : pubkey_ok k -> NewPublicKey (pub_bytes k) = k.
Proof. intros [Hl _]. destruct k as [b]. unfold NewPublicKey. simpl in *. by rewrite copy_array_id. Qed.

Lemma NewPublicKey_array d : zlen d = 32 -> NewPublicKey d = mkPublicKey d.
Proof. intros. unfold NewPublicKey. by rewrite copy_array_id. Qed.

Section laws.
Context `{CryptoLaws}.

(** Every public key has an IPv6 address of sixteen bytes, without a zone. *)
Lemma IPAddr_Addr6 k :
  IPAddr k = Addr6 (sub (blake2s_Sum256 (blake2s_Sum256 (pub_bytes k))) 16 16) "".
Proof.
  unfold IPAddr, AddrFromSlice.
  rewrite zlen_sub by (rewrite ?(proj1 (Sum256_array _)); lia). reflexivity.
Qed.

Lemma PublicKey_ok k : pubkey_ok (PublicKey_ k).
Proof. apply BaseMult_array. Qed.

Definition in_prefix (k : PrivateKey) : bool :=
  bool_decide (take 1 (AsSlice (IPAddr (PublicKey_ k))) = prefix).

Lemma GeneratePrivateKey_step bs e :
  GeneratePrivateKey (Some bs :: e) =
    (let k := mkPrivateKey (rand_fill PrivateKeySize bs) in
     if in_prefix k then Ok (GenKey k, e) else GeneratePrivateKey e).
Proof. simpl. unfold in_prefix. rewrite IPAddr_Addr6. reflexivity. Qed.

Lemma GeneratePrivateKey_ok e k e' :
  entropy_ok e -> GeneratePrivateKey e = Ok (GenKey k, e') -> privkey_ok k /\ entropy_ok e'.
Proof.
  induction 1 as [|[bs|] e Hb He IH]; [done| |done]. rewrite GeneratePrivateKey_step. cbv zeta.
  destruct (in_prefix _); [|done]. intros [= <- <-]. split; [|done].
  split; cbn; [by apply zlen_copy_array|by apply copy_array_bytes].
Qed.
End laws.

Section properties.
Context `{CryptoLaws}.

(** The key made of the bytes of one [rand.Read]. *)
Definition key_of (bs : list Z) : PrivateKey := mkPrivateKey (rand_fill PrivateKeySize bs).

(** Every private key the generator returns has an address within
    fc00::/8, and its bytes are one of the random results as they were read: the
    call to [clamp] leaves no trace. *)
Theorem GeneratePrivateKey_sound (e e' : entropy) (k : PrivateKey) :
  GeneratePrivateKey e = Ok (GenKey k, e') ->
  take 1 (AsSlice (IPAddr (PublicKey_ k))) = prefix /\
  exists bs, Some bs ∈ e /\ k = key_of bs.
Proof.
  induction e as [|[bs|] e IH]; [done| |done].
  rewrite GeneratePrivateKey_step. cbv zeta.
  destruct (in_prefix _) eqn:E.
  - injection 1 as <- <-. split; [by apply bool_decide_eq_true_1 in E|].
    exists bs. split; [apply list_elem_of_here|done].
  - intros Hg. destruct (IH Hg) as (? & b & ? & ?). split; [done|].
    exists b. split; [by apply list_elem_of_further|done].
Qed.

(** The generator terminates as soon as the random source yields a key in
    the prefix, and returns the first such key; the results before it are
    consumed. *)
Theorem GeneratePrivateKey_first (e1 e2 : entropy) (bs : list Z) :
  Forall (fun x => exists b, x = Some b /\ in_prefix (key_of b) = false) e1 ->
  in_prefix (key_of bs) = true ->
  GeneratePrivateKey (e1 ++ Some bs :: e2) = Ok (GenKey (key_of bs), e2).
Proof.
  intros H1 Hb. induction H1 as [|x e1 (b & -> & Hx) H1 IH]; simpl app;
    rewrite GeneratePrivateKey_step; cbv zeta.
  - fold (key_of bs). by rewrite Hb.
  - fold (key_of b). by rewrite Hx.
Qed.
End properties.

(** Printing a private key and parsing it back yields the key. *)
Theorem ParsePrivateKey_String `{MultibaseLaws} (k : PrivateKey) (h : heap) :
  privkey_ok k -> exists h', ParsePrivateKey (Key.String_ k) h = Ok (ParsedKey k, h').
Proof.
  intros [Hl _]. unfold ParsePrivateKey, Key.String_.
  destruct (multibase_Decode_Encode (priv_bytes k)) as [spare ->].
  erewrite bind_ok by reflexivity. eexists.
  unfold NewPrivateKey. erewrite bind_ok.
  2: { erewrite bind_ok; [reflexivity|]. apply buf_read_ok; unfold PrivateKeySize; simpl;
       pose proof (zlen_nonneg spare); rewrite ?zlen_app; lia. }
  unfold mret, M_ret. do 3 f_equal. destruct k as [b]; simpl in *. f_equal.
  rewrite arr_app_new. unfold sub, PrivateKeySize. simpl. rewrite drop_0.
  rewrite take_app_le by llia. rewrite take_ge by llia. by apply copy_array_id.
Qed.

(** A text that decodes to fewer than 32 bytes, with no room for more in
    the decoder's slice, makes the parser panic instead of returning an
    error. *)
Theorem ParsePrivateKey_short_panics `{Multibase} (str : string) (bs spare : list Z) (h : heap) :
  multibase_Decode str = Some (bs, spare) -> zlen bs + zlen spare < 32 ->
  ParsePrivateKey str h = Panic.
Proof.
  intros E Hl. unfold ParsePrivateKey. rewrite E. erewrite bind_ok by reflexivity.
  apply bind_panic. unfold NewPrivateKey. apply bind_panic. unfold buf_read. apply bind_panic.
  apply reslice_panic. unfold PrivateKeySize. simpl. rewrite zlen_app. lia.
Qed.

(** *** Witnesses *)

Lemma GeneratePrivateKey_sound_witness :
  GeneratePrivateKey [Some [1; 1]; Some [1; 2]] = Ok (GenKey (key_of [1; 2]), []) /\
  take 1 (AsSlice (IPAddr (PublicKey_ (key_of [1; 2])))) = prefix /\
  exists bs, Some bs ∈ [Some [1; 1]; Some [1; 2]] /\ key_of [1; 2] = key_of bs.
Proof.
  split; [vm_compute; reflexivity|].
  apply (GeneratePrivateKey_sound _ []). vm_compute. reflexivity.
Defined.

Lemma GeneratePrivateKey_first_witness :
  GeneratePrivateKey ([Some [1; 1]] ++ Some [1; 2] :: [None]) = Ok (GenKey (key_of [1; 2]), [None]).
Proof.
  apply GeneratePrivateKey_first.
  - constructor; [|constructor]. exists [1; 1]. vm_compute. auto.
  - vm_compute. reflexivity.
Defined.

Lemma ParsePrivateKey_String_witness :
  exists h', ParsePrivateKey (Key.String_ (key_of [7; 8])) [] = Ok (ParsedKey (key_of [7; 8]), h').
Proof.
  apply ParsePrivateKey_String. by apply (bool_decide_unpack _).
Defined.

Lemma ParsePrivateKey_short_panics_witness :
  ParsePrivateKey (multibase_Encode64 [1; 2; 3]) [] = Panic.
Proof.
  apply (ParsePrivateKey_short_panics _ [1; 2; 3] []).
  - vm_compute. reflexivity.
  - unfold zlen; simpl; lia.
Defined.
