(* ===== verification/PeerID.v ===== *)
(** * PeerID: node identities (peerid.go)

    A peer id is a public key held as four big-endian 64-bit words, with
    conversions to and from public keys, raw bytes and content identifiers. *)

From S2P Require Import Prelude GoMem Text Ext Toy Key.
Import NetIP Key.

Module PeerID.

Definition RovyKeyMulticodec : Z := 0x73.

Record PeerID : Type := mkPeerID { b1 : Z; b2 : Z; b3 : Z; b4 : Z }.

Definition emptyPeerID : PeerID := mkPeerID 0 0 0 0.

#[export] Instance PeerID_eq_dec : EqDecision PeerID.
Proof. solve_decision. Defined.

#[export] Instance PeerID_countable : Countable PeerID.
Proof.
  apply (inj_countable' (fun p => (b1 p, b2 p, b3 p, b4 p))
    (fun '(a, b, c, d) => mkPeerID a b c d)).
  by intros [].
Defined.

Definition beUint64 (b : list Z) : Z :=
  Z.lor (Z.lor (Z.lor (Z.lor (Z.lor (Z.lor (Z.lor
    (getz b 7) (Z.shiftl (getz b 6) 8)) (Z.shiftl (getz b 5) 16)) (Z.shiftl (getz b 4) 24))
    (Z.shiftl (getz b 3) 32)) (Z.shiftl (getz b 2) 40)) (Z.shiftl (getz b 1) 48))
    (Z.shiftl (getz b 0) 56).

(** What [bePutUint64] stores into the first eight bytes of its argument. *)
Definition bePutUint64 (v : Z) : list Z :=
  [u8 (Z.shiftr v 56); u8 (Z.shiftr v 48); u8 (Z.shiftr v 40); u8 (Z.shiftr v 32);
   u8 (Z.shiftr v 24); u8 (Z.shiftr v 16); u8 (Z.shiftr v 8); u8 v].

Definition NewPeerID (pk : PublicKey) : PeerID :=
  let b := pub_bytes pk in
  mkPeerID (beUint64 (sub b 0 8)) (beUint64 (sub b 8 8))
           (beUint64 (sub b 16 8)) (beUint64 (sub b 24 8)).

Definition Empty (pid : PeerID) : bool := bool_decide (pid = emptyPeerID).
Definition Equal (pid other : PeerID) : bool := bool_decide (pid = other).

(** [RawBytesTo(b)]: the check [_ = b[31]], then four stores through slices of
    [b]. *)
Definition RawBytesTo (pid : PeerID) (b : slice) : M heap unit :=
  _ ← s_get b 31;
  _ ← buf_write b 0 8 (bePutUint64 (b1 pid));
  _ ← buf_write b 8 16 (bePutUint64 (b2 pid));
  _ ← buf_write b 16 24 (bePutUint64 (b3 pid));
  buf_write b 24 (s_len b) (bePutUint64 (b4 pid)).

Definition PublicKey_ (pid : PeerID) : PublicKey :=
  NewPublicKey (bePutUint64 (b1 pid) ++ bePutUint64 (b2 pid) ++
                bePutUint64 (b3 pid) ++ bePutUint64 (b4 pid)).

Section cid.
Context `{CidLib}.

Definition Cid_ (pid : PeerID) : Cid :=
  let mhash := default [] (mh_Sum (pub_bytes (PublicKey_ pid)) mh_IDENTITY PublicKeySize) in
  cid_NewCidV1 0x73 mhash.

Definition Bytes (pid : PeerID) : list Z := cid_Bytes (Cid_ pid).
Definition MarshalBinary (pid : PeerID) : list Z := cid_Bytes (Cid_ pid).

Definition String_ (pid : PeerID) : string :=
  if Empty pid then "<empty>" else cid_String (Cid_ pid).

Inductive peerid_err : Type :=
| ErrCidType (t : Z)
| ErrCidDecode
| ErrMultihash
| ErrMishashed (code : Z)
| ErrKeySize (len : Z).

Definition PeerIDFromCid (c : Cid) : PeerID + peerid_err :=
  if negb (cid_Type c =? RovyKeyMulticodec) then inr (ErrCidType (cid_Type c)) else
  match mh_Decode (cid_Hash c) with
  | None => inr ErrMultihash
  | Some mhash =>
      if negb (mh_Code mhash =? mh_IDENTITY) then inr (ErrMishashed (mh_Code mhash)) else
      if negb (mh_Length mhash =? PublicKeySize) then inr (ErrKeySize (mh_Length mhash)) else
      inl (NewPeerID (NewPublicKey (mh_Digest mhash)))
  end.

(** [UnmarshalBinary] assigns the receiver's words on success only; slicing the
    digest panics when it is shorter than its declared length. *)
Definition UnmarshalBinary (b : list Z) : res (PeerID + peerid_err) :=
  match cid_Unmarshal b with
  | None => Ok (inr ErrCidDecode)
  | Some c =>
      if negb (cid_Type c =? RovyKeyMulticodec) then Ok (inr (ErrCidType (cid_Type c))) else
      match mh_Decode (cid_Hash c) with
      | None => Ok (inr ErrMultihash)
      | Some mhash =>
          if negb (mh_Code mhash =? mh_IDENTITY) then Ok (inr (ErrMishashed (mh_Code mhash))) else
          if negb (mh_Length mhash =? PublicKeySize) then Ok (inr (ErrKeySize (mh_Length mhash))) else
          let d := mh_Digest mhash in
          if zlen d <? 32 then Panic else
          Ok (inl (mkPeerID (beUint64 (sub d 0 8)) (beUint64 (sub d 8 8))
                            (beUint64 (sub d 16 8)) (beUint64 (sub d 24 (zlen d - 24)))))
      end
  end.
End cid.

Definition peerid_ok (p : PeerID) : Prop :=
  0 <= b1 p < 2 ^ 64 /\ 0 <= b2 p < 2 ^ 64 /\ 0 <= b3 p < 2 ^ 64 /\ 0 <= b4 p < 2 ^ 64.

#[export] Instance peerid_ok_dec p : Decision (peerid_ok p).
Proof. unfold peerid_ok. apply _. Defined.

#[global] Arguments bePutUint64 : simpl never.
#[global] Arguments beUint64 : simpl never.

End PeerID.
Import PeerID.

(** ** The byte order *)

Lemma bePutUint64_be v : bePutUint64 v = be_bytes 8 v.
Proof.
  unfold be_bytes. cbn [le_bytes]. rewrite !Z.shiftr_shiftr by lia. reflexivity.
Qed.

Lemma zlen_bePutUint64 v : zlen (bePutUint64 v) = 8.
Proof. reflexivity. Qed.

#[export] Hint Rewrite zlen_bePutUint64 : zlen.

Lemma bytes8_cases (b : list Z) :
  array 8 b -> exists x0 x1 x2 x3 x4 x5 x6 x7,
    b = [x0; x1; x2; x3; x4; x5; x6; x7] /\ is_byte x0 /\ is_byte x1 /\ is_byte x2 /\
    is_byte x3 /\ is_byte x4 /\ is_byte x5 /\ is_byte x6 /\ is_byte x7.
Proof.
  intros [Hl Hb]. unfold zlen in Hl.
  do 8 (destruct b as [|? b]; [simpl in Hl; lia|]). destruct b; [|simpl in Hl; lia].
  do 8 eexists. split; [reflexivity|].
  unfold is_bytes in Hb. rewrite !Forall_cons_iff in Hb. tauto.
Qed.

Lemma beUint64_be b : array 8 b -> beUint64 b = be_val b.
Proof.
  intros Hb. destruct (bytes8_cases b Hb)
    as (x0 & x1 & x2 & x3 & x4 & x5 & x6 & x7 & -> & H0 & H1 & H2 & H3 & H4 & H5 & H6 & H7).
  unfold is_byte in *. unfold beUint64.
  change (be_val [x0; x1; x2; x3; x4; x5; x6; x7]) with
    (x7 + 256 * (x6 + 256 * (x5 + 256 * (x4 + 256 * (x3 + 256 * (x2 + 256 * (x1 + 256 * (x0 + 256 * 0)))))))).
  change (getz _ 7) with x7. change (getz _ 6) with x6. change (getz _ 5) with x5.
  change (getz _ 4) with x4. change (getz _ 3) with x3. change (getz _ 2) with x2.
  change (getz _ 1) with x1. change (getz _ 0) with x0.
  rewrite (lor_shiftl_add x7) by lia. rewrite (lor_shiftl_add _ x5 16) by lia.
  rewrite (lor_shiftl_add _ x4 24) by lia. rewrite (lor_shiftl_add _ x3 32) by lia.
  rewrite (lor_shiftl_add _ x2 40) by lia. rewrite (lor_shiftl_add _ x1 48) by lia.
  rewrite (lor_shiftl_add _ x0 56) by lia. lia.
Qed.

Lemma beUint64_put v : 0 <= v < 2 ^ 64 -> beUint64 (bePutUint64 v) = v.
Proof.
  intros Hv. rewrite bePutUint64_be, beUint64_be.
  - rewrite be_val_bytes. apply Z.mod_small. change (256 ^ Z.of_nat 8) with (2 ^ 64). lia.
  - split; [apply zlen_be_bytes|apply is_bytes_be].
Qed.

Lemma bePut_Uint64 b : array 8 b -> bePutUint64 (beUint64 b) = b.
Proof.
  intros Hb. rewrite bePutUint64_be, beUint64_be by done. destruct Hb as [Hl Hb].
  pose proof (be_bytes_val b Hb) as E. by replace (length b) with 8%nat in E by (unfold zlen in Hl; lia).
Qed.

Lemma beUint64_bound b : array 8 b -> 0 <= beUint64 b < 2 ^ 64.
Proof.
  intros Hb. rewrite beUint64_be by done. destruct Hb as [Hl Hb].
  pose proof (be_val_bound b Hb) as E. rewrite Hl in E. exact E.
Qed.

Lemma array_sub n l i m : array n l -> 0 <= i -> 0 <= m -> i + m <= n -> array m (sub l i m).
Proof. intros [? ?] ? ? ?. split; [apply zlen_sub; lia|by apply is_bytes_sub]. Qed.

Lemma array_bePut v : array 8 (bePutUint64 v).
Proof. rewrite bePutUint64_be. split; [apply zlen_be_bytes|apply is_bytes_be]. Qed.

(** ** Keys and peer ids *)

Definition peerid_bytes (p : PeerID) : list Z :=
  bePutUint64 (b1 p) ++ bePutUint64 (b2 p) ++ bePutUint64 (b3 p) ++ bePutUint64 (b4 p).

Lemma peerid_bytes_array p : array 32 (peerid_bytes p).
Proof.
  split; [reflexivity|]. unfold peerid_bytes, is_bytes. rewrite !Forall_app.
  repeat split; apply array_bePut.
Qed.

Lemma PublicKey_bytes p : pub_bytes (PeerID.PublicKey_ p) = peerid_bytes p.
Proof. unfold PeerID.PublicKey_, NewPublicKey. simpl. by apply copy_array_id. Qed.

Lemma PublicKey_pid_ok p : pubkey_ok (PeerID.PublicKey_ p).
Proof. unfold pubkey_ok. rewrite PublicKey_bytes. apply peerid_bytes_array. Qed.

Lemma split_words (b : list Z) :
  zlen b = 32 -> b = sub b 0 8 ++ sub b 8 8 ++ sub b 16 8 ++ sub b 24 8.
Proof.
  intros Hb. rewrite <- (sub_all b) at 1. rewrite Hb.
  change 32 with (8 + (8 + (8 + 8))). rewrite !sub_split by lia. done.
Qed.

Lemma NewPeerID_ok k : pubkey_ok k -> peerid_ok (NewPeerID k).
Proof.
  intros Hk. unfold NewPeerID, peerid_ok; simpl.
  repeat split; apply beUint64_bound; eapply array_sub; try apply Hk; lia.
Qed.

Lemma PublicKey_NewPeerID k : pubkey_ok k -> PeerID.PublicKey_ (NewPeerID k) = k.
Proof.
  intros Hk. destruct k as [b]. pose proof Hk as [Hl Hb]. simpl in *.
  unfold PeerID.PublicKey_, NewPeerID; cbn [b1 b2 b3 b4 pub_bytes].
  rewrite !bePut_Uint64 by (eapply array_sub; [exact Hk|lia..]).
  rewrite <- split_words by done. by apply (NewPublicKey_id (mkPublicKey b)).
Qed.

Lemma sub_app_here {A} (a b : list A) n : n = zlen a -> sub (a ++ b) 0 n = a.
Proof. intros ->. unfold sub, zlen. rewrite Nat2Z.id. simpl. rewrite drop_0. apply take_app_length. Qed.

Lemma sub_app_skip {A} (a b : list A) i n :
  zlen a <= i -> sub (a ++ b) i n = sub b (i - zlen a) n.
Proof.
  intros. unfold sub. rewrite drop_app_ge by (unfold zlen in *; lia). do 2 f_equal. unfold zlen; lia.
Qed.

Lemma sub_words (a b c d : list Z) :
  zlen a = 8 -> zlen b = 8 -> zlen c = 8 -> zlen d = 8 ->
  sub (a ++ b ++ c ++ d) 0 8 = a /\ sub (a ++ b ++ c ++ d) 8 8 = b /\
  sub (a ++ b ++ c ++ d) 16 8 = c /\ sub (a ++ b ++ c ++ d) 24 8 = d.
Proof.
  intros Ha Hb Hc Hd. split; [by apply sub_app_here|].
  rewrite !(sub_app_skip a), Ha by lia. split; [by apply sub_app_here|].
  rewrite !(sub_app_skip b), Hb by lia. split; [by apply sub_app_here|].
  rewrite (sub_app_skip c), Hc by lia.
  change (24 - 8 - 8 - 8) with 0. by replace 8 with (zlen d); apply sub_all.
Qed.

Lemma NewPeerID_PublicKey p : peerid_ok p -> NewPeerID (PeerID.PublicKey_ p) = p.
Proof.
  intros (H1 & H2 & H3 & H4). unfold NewPeerID. rewrite PublicKey_bytes. unfold peerid_bytes.
  destruct p as [p1 p2 p3 p4]; cbn [b1 b2 b3 b4] in *.
  destruct (sub_words (bePutUint64 p1) (bePutUint64 p2) (bePutUint64 p3) (bePutUint64 p4))
    as (-> & -> & -> & ->); [done..|]. by rewrite !beUint64_put.
Qed.

(** Peer ids and public keys determine each other: the four words of a peer
    id are the thirty-two bytes of the key, and back. *)
Theorem PeerID_PublicKey_bijection :
  (forall k, pubkey_ok k -> peerid_ok (NewPeerID k) /\ PeerID.PublicKey_ (NewPeerID k) = k) /\
  (forall p, peerid_ok p -> pubkey_ok (PeerID.PublicKey_ p) /\ NewPeerID (PeerID.PublicKey_ p) = p).
Proof.
  split.
  - intros k Hk. split; [by apply NewPeerID_ok|by apply PublicKey_NewPeerID].
  - intros p Hp. split; [apply PublicKey_pid_ok|by apply NewPeerID_PublicKey].
Qed.

(** Storing a peer id writes exactly the bytes of its public key at the
    front of the buffer and nothing else, and panics when the buffer has fewer
    than thirty-two bytes. *)
Theorem RawBytesTo_spec (pid : PeerID) (b : slice) (l : list Z) (h : heap) :
  full h b l ->
  RawBytesTo pid b h =
    if 32 <=? zlen l
    then Ok (tt, upd h (s_arr b) (splice l 0 (pub_bytes (PeerID.PublicKey_ pid))))
    else Panic.
Proof.
  intros Hf. rewrite PublicKey_bytes. pose proof Hf as (_ & _ & Hlen & _). unfold RawBytesTo.
  destruct (Z.leb_spec 32 (zlen l)).
  - do 4 mstep. rewrite Hlen. mlast. do 3 f_equal. unfold peerid_bytes.
    rewrite !splice_app by zl. reflexivity.
  - apply bind_panic, s_get_panic. lia.
Qed.

Section cid_properties.
Context `{CidLaws}.

Lemma PeerIDFromCid_Cid pid : peerid_ok pid -> PeerIDFromCid (Cid_ pid) = inl pid.
Proof.
  intros Hp. unfold PeerIDFromCid, Cid_. rewrite cid_Type_V1, cid_Hash_V1.
  pose proof (PublicKey_pid_ok pid) as [Hl Hb]. pose proof (NewPeerID_PublicKey pid Hp) as Hk.
  destruct (PeerID.PublicKey_ pid) as [d]; simpl in Hl, Hb.
  destruct (mh_Decode_Sum d) as (m & Hm & Hd). rewrite Hl in Hm, Hd.
  cbn [pub_bytes]. unfold PublicKeySize. rewrite Hm. simpl. rewrite Hd; simpl.
  rewrite Z.eqb_refl; simpl. rewrite NewPublicKey_array by done. by rewrite Hk.
Qed.

Lemma UnmarshalBinary_eq b :
  UnmarshalBinary b =
    Ok (match cid_Unmarshal b with Some c => PeerIDFromCid c | None => inr ErrCidDecode end).
Proof.
  unfold UnmarshalBinary, PeerIDFromCid.
  destruct (cid_Unmarshal b) as [c|] eqn:Hc; [|done].
  destruct (negb _); [done|].
  destruct (mh_Decode (cid_Hash c)) as [m|] eqn:Hm; [|done].
  destruct (negb _); [done|]. unfold PublicKeySize.
  destruct (Z.eqb_spec (mh_Length m) 32) as [Hlen|]; [|done]. simpl.
  rewrite (mh_Decode_length _ _ Hm) in Hlen. rewrite Hlen. simpl.
  by rewrite NewPublicKey_array.
Qed.

(** Converting a peer id to a content identifier and back, in memory or
    through the binary form, yields the peer id. *)
Theorem PeerID_Cid_roundtrip (pid : PeerID) :
  peerid_ok pid ->
  PeerIDFromCid (Cid_ pid) = inl pid /\ UnmarshalBinary (MarshalBinary pid) = Ok (inl pid).
Proof.
  intros Hp. rewrite UnmarshalBinary_eq. unfold MarshalBinary.
  rewrite cid_Unmarshal_Bytes, PeerIDFromCid_Cid by done. done.
Qed.

(** A content identifier is accepted as a peer id exactly when it carries
    the rovy-key codec and an identity multihash of thirty-two bytes, and then
    the peer id's public key is the digest. *)
Theorem PeerIDFromCid_accepts (c : Cid) (p : PeerID) :
  PeerIDFromCid c = inl p <->
  cid_Type c = RovyKeyMulticodec /\
  exists d, mh_Decode (cid_Hash c) = Some (mkDecoded mh_IDENTITY 32 d) /\
            p = NewPeerID (NewPublicKey d).
Proof.
  unfold PeerIDFromCid, PublicKeySize. split.
  - destruct (Z.eqb_spec (cid_Type c) RovyKeyMulticodec); [|done]. simpl.
    destruct (mh_Decode (cid_Hash c)) as [[code len d]|]; [|done]. simpl.
    destruct (Z.eqb_spec code mh_IDENTITY); [|done]. destruct (Z.eqb_spec len 32); [|done].
    simpl. injection 1 as <-. subst. split; [done|]. by exists d.
  - intros (-> & d & -> & ->). rewrite Z.eqb_refl. simpl. by rewrite Z.eqb_refl.
Qed.

(** The two decoders agree: unmarshalling the binary form gives what
    converting the decoded identifier gives, errors included, and never
    panics. *)
Theorem UnmarshalBinary_PeerIDFromCid (b : list Z) :
  UnmarshalBinary b =
    Ok (match cid_Unmarshal b with Some c => PeerIDFromCid c | None => inr ErrCidDecode end).
Proof. apply UnmarshalBinary_eq. Qed.
End cid_properties.

(** ** The text form *)

Section text.
Context `{CidLib, !CidFormLaws}.

Lemma Cid_V1 pid : Cid_ pid = cid_NewCidV1 0x73 (0 :: 32 :: peerid_bytes pid).
Proof.
  unfold Cid_. rewrite PublicKey_bytes. pose proof (peerid_bytes_array pid) as [Hl _].
  pose proof (mh_Sum_identity (peerid_bytes pid)) as E. rewrite Hl in E. unfold PublicKeySize.
  by rewrite E.
Qed.

Lemma PeerID_Bytes_eq pid : PeerID.Bytes pid = [1; 0x73; 0; 32] ++ peerid_bytes pid.
Proof. unfold PeerID.Bytes. rewrite Cid_V1. by apply cid_Bytes_V1. Qed.

Lemma PeerID_Bytes_bytes pid : is_bytes (PeerID.Bytes pid).
Proof.
  rewrite PeerID_Bytes_eq. apply Forall_app. split; [|apply peerid_bytes_array].
  by apply (bool_decide_unpack _).
Qed.

Lemma String_base32 pid :
  pid <> emptyPeerID -> PeerID.String_ pid = "b" +:+ base32_encode (PeerID.Bytes pid).
Proof.
  intros Hp. unfold PeerID.String_, PeerID.Empty. rewrite bool_decide_eq_false_2 by done.
  pose proof (PeerID_Bytes_bytes pid) as Hb. unfold PeerID.Bytes in *. rewrite Cid_V1 in *.
  by apply cid_String_V1.
Qed.

Lemma String_plain pid c : pid <> emptyPeerID -> is_b32 c = false -> free c (PeerID.String_ pid) = true.
Proof.
  intros Hp Hc. rewrite String_base32, free_app by done. apply andb_true_iff. split.
  - apply (allc_free is_b32); [done|reflexivity].
  - apply (allc_free is_b32); [done|apply base32_chars].
Qed.

(** The first thirty bits are those of the header. *)
Lemma base32_header (l : list Z) :
  exists t, base32_encode (1 :: 0x73 :: 0 :: 32 :: l) = "afzqai" +:+ t.
Proof.
  unfold base32_encode, b32_groups, bytes_bits. cbn [map List.concat app to_bits List.length].
  set (r := List.concat _). clearbody r. cbn. eexists. reflexivity.
Qed.

(** Every peer id that is not empty is written as fifty-nine characters of
    base32 that start with bafzqai, and is thirty-six bytes in binary form. *)
Theorem PeerID_text_form (pid : PeerID) :
  pid <> emptyPeerID ->
  HasPrefix (PeerID.String_ pid) "bafzqai" = true /\
  String.length (PeerID.String_ pid) = 59%nat /\
  zlen (PeerID.Bytes pid) = 36.
Proof.
  intros Hp. rewrite String_base32 by done.
  assert (Hl : zlen (PeerID.Bytes pid) = 36) by (by rewrite PeerID_Bytes_eq).
  split_and!; [| |done].
  - rewrite PeerID_Bytes_eq. cbn [app]. destruct (base32_header (peerid_bytes pid)) as [t ->].
    apply (HasPrefix_app "bafzqai" t).
  - pose proof (base32_length (PeerID.Bytes pid)). unfold zlen in Hl.
    rewrite string_app_length. cbn [String.length]. lia.
Qed.
End text.

(** *** Witnesses *)


Definition pid0 : PeerID := mkPeerID 1 2 3 4.

Lemma RawBytesTo_spec_witness :
  RawBytesTo pid0 (Slice 0 0 33 33) [zeros 33] =
    if 32 <=? zlen (zeros 33)
    then Ok (tt, upd [zeros 33] 0 (splice (zeros 33) 0 (pub_bytes (PeerID.PublicKey_ pid0))))
    else Panic.
Proof. apply RawBytesTo_spec. repeat split. Defined.

Lemma PeerID_Cid_roundtrip_witness :
  PeerIDFromCid (Cid_ pid0) = inl pid0 /\ UnmarshalBinary (MarshalBinary pid0) = Ok (inl pid0).
Proof. apply PeerID_Cid_roundtrip. by apply (bool_decide_unpack _). Defined.

Lemma PeerIDFromCid_accepts_witness :
  PeerIDFromCid (Cid_ pid0) = inl pid0 <->
  cid_Type (Cid_ pid0) = RovyKeyMulticodec /\
  exists d, mh_Decode (cid_Hash (Cid_ pid0)) = Some (mkDecoded mh_IDENTITY 32 d) /\
            pid0 = NewPeerID (NewPublicKey d).
Proof. apply PeerIDFromCid_accepts. Defined.

Lemma UnmarshalBinary_PeerIDFromCid_witness :
  UnmarshalBinary (MarshalBinary pid0) =
    Ok (match cid_Unmarshal (MarshalBinary pid0) with Some c => PeerIDFromCid c | None => inr ErrCidDecode end).
Proof. apply UnmarshalBinary_PeerIDFromCid. Defined.

Lemma PeerID_text_form_witness :
  HasPrefix (PeerID.String_ pid0) "bafzqai" = true /\
  String.length (PeerID.String_ pid0) = 59%nat /\
  zlen (PeerID.Bytes pid0) = 36.
Proof. by apply PeerID_text_form. Defined.
