(* ===== verification/Multiaddr.v ===== *)
(** * Multiaddr: transport addresses (multiaddr.go)

    An address is an IP address and port, a peer id and the rest of a
    multiaddr the program has no field for. The textual form (ParseMultiaddr,
    String, ValueForProtocol) is in MultiaddrText. *)

From S2P Require Import Prelude GoMem Ext Toy Key PeerID.
Import NetIP PeerID.

Module Multiaddr.

Definition RovyMultiaddrCodec : Z := 0x1a6.
Definition ProtoMultiaddrCodec : Z := 0x34.
Definition IP4MultiaddrCodec : Z := 0x4.
Definition IP6MultiaddrCodec : Z := 0x29.
Definition UDPMultiaddrCodec : Z := 0x111.

Section maddr.
Context `{MaddrLib}.

Record Multiaddr : Type := mkMultiaddr {
  IP : Addr;
  Port : Z;
  PeerID_ : PeerID;
  More : option Maddr
}.

(** [netip.AddrPort]. *)
Definition AddrPort_ : Type := Addr * Z.

Definition zeroMultiaddr : Multiaddr := mkMultiaddr AddrZero 0 emptyPeerID None.

Definition udp4protocols : list Protocol :=
  [maddr_ProtocolWithCode IP4MultiaddrCodec; maddr_ProtocolWithCode UDPMultiaddrCodec].
Definition udp6protocols : list Protocol :=
  [maddr_ProtocolWithCode IP6MultiaddrCodec; maddr_ProtocolWithCode UDPMultiaddrCodec].
Definition rovyProtocol : Protocol := mkProtocol "rovy" RovyMultiaddrCodec.
Definition protoProtocol : Protocol := mkProtocol "proto" ProtoMultiaddrCodec.

Definition FromAddrPort (ip : AddrPort_) : Multiaddr := mkMultiaddr ip.1 ip.2 emptyPeerID None.
Definition AddrPort (ma : Multiaddr) : AddrPort_ := (IP ma, Port ma).

(** [ma == Multiaddr{}]: comparing the interface field with nil. *)
Definition Empty (ma : Multiaddr) : bool :=
  bool_decide (IP ma = AddrZero) && (Port ma =? 0) && bool_decide (PeerID_ ma = emptyPeerID) &&
  match More ma with None => true | Some _ => false end.

(** The length computed first. *)
Definition bytes_len (ma : Multiaddr) : Z :=
  (if IsValid (IP ma) then if Is4 (IP ma) then 9 else 21 else 0) +
  match More ma with Some m => zlen (maddr_Bytes m) | None => 0 end +
  (if bool_decide (PeerID_ ma = emptyPeerID) then 0 else 36).

(** [copy(buf[lo:hi], src)] on a buffer that nothing else refers to. *)
Definition copy_at (buf : list Z) (lo hi : Z) (src : list Z) : list Z :=
  splice buf lo (take (Z.to_nat (hi - lo)) src).

(** [Bytes]: the buffer is filled from the front, [n] counts what is written.
    Calling a method of the nil interface [ma.More] panics. *)
Definition Bytes (ma : Multiaddr) : res (list Z) :=
  let l := bytes_len ma in
  let buf := zeros l in
  let '(buf, n) :=
    if IsValid (IP ma) then
      let '(buf, n) :=
        if Is4 (IP ma)
        then (copy_at (splice buf 0 [0x4]) 1 5 (AsSlice (IP ma)), 5)
        else (copy_at (splice buf 0 [0x29]) 1 17 (AsSlice (IP ma)), 17) in
      (splice buf n [0x91; 0x02; u8 (Z.shiftr (Port ma) 8); u8 (Port ma)], n + 4)
    else (buf, 0) in
  let '(buf, n) :=
    match More ma with
    | Some m => let mb := maddr_Bytes m in (copy_at buf n (n + zlen mb) mb, n + zlen mb)
    | None => (buf, n)
    end in
  let finish buf n := if l =? n then Ok (sub buf 0 n) else Panic in
  if bool_decide (PeerID_ ma = emptyPeerID) then finish buf n
  else match More ma with
       | None => Panic
       | Some m => finish (copy_at buf n (n + 36) (maddr_Bytes m)) (n + 36)
       end.

(** [Equal] takes any implementation of the library's interface. *)
Definition Equal (ma : Multiaddr) (other : Maddr) : res bool :=
  match Bytes ma with
  | Ok a => Ok (bool_decide (a = maddr_Bytes other))
  | Panic => Panic
  | Block => Block
  end.

Definition Protocols (ma : Multiaddr) : list Protocol :=
  let protos :=
    if IsValid (IP ma) then if Is4 (IP ma) then udp4protocols else udp6protocols else [] in
  let protos :=
    match More ma with Some m => protos ++ maddr_Protocols m | None => protos end in
  if bool_decide (PeerID_ ma = emptyPeerID) then protos else protos ++ [rovyProtocol].

(** An address as the standard library builds them, and a 16-bit port. *)
Definition addr_ok (a : Addr) : Prop :=
  match a with AddrZero => True | Addr4 b => array 4 b | Addr6 b _ => array 16 b end.
Definition multiaddr_ok (ma : Multiaddr) : Prop := addr_ok (IP ma) /\ 0 <= Port ma < 2 ^ 16.
End maddr.

End Multiaddr.
Import Multiaddr.

#[global] Instance addr_ok_dec a : Decision (addr_ok a).
Proof. destruct a; simpl; apply _. Defined.

#[global] Instance multiaddr_ok_dec `{MaddrLib} ma : Decision (multiaddr_ok ma).
Proof. unfold multiaddr_ok. apply _. Defined.

Section spec.
Context `{MaddrLib}.

(** The binary form of the IP and port part. *)
Definition ip_bytes (ma : Multiaddr) : list Z :=
  match IP ma with
  | AddrZero => []
  | Addr4 b => 0x4 :: b ++ 0x91 :: 0x02 :: be_bytes 2 (Port ma)
  | Addr6 b _ => 0x29 :: b ++ 0x91 :: 0x02 :: be_bytes 2 (Port ma)
  end.

Definition more_bytes (ma : Multiaddr) : list Z :=
  match More ma with Some m => maddr_Bytes m | None => [] end.

Lemma zlen_ip_bytes ma :
  multiaddr_ok ma ->
  zlen (ip_bytes ma) = if IsValid (IP ma) then if Is4 (IP ma) then 9 else 21 else 0.
Proof.
  intros [Ha _]. unfold ip_bytes. destruct (IP ma) as [|b|b z]; simpl; [done| |];
    destruct Ha as [Hl _]; rewrite zlen_cons, zlen_app, !zlen_cons, zlen_be_bytes, Hl; done.
Qed.

Lemma bytes_len_eq ma :
  multiaddr_ok ma ->
  bytes_len ma = zlen (ip_bytes ma) + zlen (more_bytes ma) +
    (if bool_decide (PeerID_ ma = emptyPeerID) then 0 else 36).
Proof.
  intros Hok. unfold bytes_len. rewrite (zlen_ip_bytes _ Hok). unfold more_bytes.
  destruct (More ma); rewrite ?zlen_nil; done.
Qed.

(** Filling a buffer front to back is writing one prefix. *)
Lemma splice_prefix (l a b : list Z) n :
  n = zlen a -> zlen a + zlen b <= zlen l -> splice (splice l 0 a) n b = splice l 0 (a ++ b).
Proof. intros -> Hl. rewrite splice_app by (pose proof (zlen_nonneg a); lia). done. Qed.

Lemma splice_whole (l a : list Z) : zlen a = zlen l -> splice l 0 a = a.
Proof.
  intros Hz. unfold splice. simpl. rewrite drop_ge by (unfold zlen in *; lia). apply app_nil_r.
Qed.

Lemma copy_at_exact buf lo hi src : zlen src = hi - lo -> copy_at buf lo hi src = splice buf lo src.
Proof. intros Hz. unfold copy_at. by rewrite take_ge by (unfold zlen in *; lia). Qed.

(** The header written for an address of [k] bytes. *)
Lemma header_bytes (buf b : list Z) (code port k : Z) :
  zlen b = k -> 0 <= k -> 0 <= port < 2 ^ 16 -> k + 5 <= zlen buf ->
  splice (copy_at (splice buf 0 [code]) 1 (k + 1) b) (k + 1)
    [0x91; 0x02; u8 (Z.shiftr port 8); u8 port] =
  splice buf 0 (code :: b ++ 0x91 :: 0x02 :: be_bytes 2 port).
Proof.
  intros Hb Hk Hp Hl. rewrite copy_at_exact by lia.
  rewrite (splice_prefix buf [code] b) by (rewrite ?zlen_cons, ?zlen_nil; lia).
  rewrite splice_prefix; [reflexivity|simpl app; rewrite zlen_cons; lia|].
  simpl app. rewrite !zlen_cons, zlen_nil. lia.
Qed.

(** The IP part of [Bytes]. *)
Lemma ip_part (ma : Multiaddr) (buf : list Z) :
  multiaddr_ok ma -> zlen (ip_bytes ma) <= zlen buf ->
  (if IsValid (IP ma) then
      let '(buf, n) :=
        if Is4 (IP ma)
        then (copy_at (splice buf 0 [0x4]) 1 5 (AsSlice (IP ma)), 5)
        else (copy_at (splice buf 0 [0x29]) 1 17 (AsSlice (IP ma)), 17) in
      (splice buf n [0x91; 0x02; u8 (Z.shiftr (Port ma) 8); u8 (Port ma)], n + 4)
    else (buf, 0)) = (splice buf 0 (ip_bytes ma), zlen (ip_bytes ma)).
Proof.
  intros [Ha Hp] Hl. rewrite zlen_ip_bytes in Hl |- * by done. unfold ip_bytes.
  destruct (IP ma) as [|b|b z]; simpl in *.
  - by rewrite splice_nil.
  - destruct Ha as [Hb _]. pose proof (header_bytes buf b 4 (Port ma) 4) as E.
    change (4 + 1) with 5 in E. by rewrite E by lia.
  - destruct Ha as [Hb _]. pose proof (header_bytes buf b 41 (Port ma) 16) as E.
    change (16 + 1) with 17 in E. by rewrite E by lia.
Qed.

(** The binary form of an address without a peer id is the IP and port part
    followed by the rest: the codec bytes, the address, the udp codec and the
    port in network order, with exactly the length announced. *)
Theorem Bytes_no_peerid (ma : Multiaddr) :
  multiaddr_ok ma -> PeerID_ ma = emptyPeerID ->
  Multiaddr.Bytes ma = Ok (ip_bytes ma ++ more_bytes ma).
Proof.
  intros Hok Hp. unfold Multiaddr.Bytes. rewrite (bytes_len_eq ma Hok).
  rewrite (bool_decide_eq_true_2 _ Hp), Z.add_0_r.
  pose proof (zlen_nonneg (ip_bytes ma)). pose proof (zlen_nonneg (more_bytes ma)).
  rewrite ip_part by (try done; zl).
  unfold more_bytes in *. destruct (More ma) as [m|].
  - rewrite Z.eqb_refl, copy_at_exact by lia.
    rewrite splice_prefix, splice_whole by zl. f_equal. rewrite <- zlen_app. apply sub_all.
  - rewrite zlen_nil, Z.add_0_r, Z.eqb_refl, splice_whole by zl. rewrite app_nil_r. f_equal. apply sub_all.
Qed.

(** An address with a peer id and no further components cannot be turned
    into bytes: the method panics. *)
Theorem Bytes_peerid_panics (ma : Multiaddr) :
  PeerID_ ma <> emptyPeerID -> More ma = None -> Multiaddr.Bytes ma = Panic.
Proof.
  intros Hp Hm. unfold Multiaddr.Bytes. rewrite Hm, (bool_decide_eq_false_2 _ Hp).
  repeat case_match; try done.
Qed.

(** With a peer id and further components, the thirty-six bytes reserved
    for the peer id hold the further components a second time: two addresses
    that differ in their peer ids only have the same bytes. *)
Theorem Bytes_ignores_peerid (ma : Multiaddr) (m : Maddr) (pid : PeerID) :
  More ma = Some m -> PeerID_ ma <> emptyPeerID -> pid <> emptyPeerID ->
  Multiaddr.Bytes ma = Multiaddr.Bytes (mkMultiaddr (IP ma) (Port ma) pid (Some m)).
Proof.
  intros Hm Hp Hq. unfold Multiaddr.Bytes, bytes_len. simpl. rewrite Hm.
  by rewrite (bool_decide_eq_false_2 _ Hp), (bool_decide_eq_false_2 _ Hq).
Qed.

(** The addresses accepted for listening are those with exactly an IP
    address and a port: their protocol list has the IP code and the udp code and
    nothing else. *)
Theorem Protocols_udp `{!MaddrLaws} (ma : Multiaddr) :
  IsValid (IP ma) = true -> More ma = None -> PeerID_ ma = emptyPeerID ->
  proto_Code <$> Protocols ma =
    [if Is4 (IP ma) then IP4MultiaddrCodec else IP6MultiaddrCodec; UDPMultiaddrCodec].
Proof.
  intros Hv Hm Hp. unfold Protocols. rewrite Hv, Hm, (bool_decide_eq_true_2 _ Hp).
  destruct (Is4 (IP ma)); simpl; rewrite !ProtocolWithCode_Code; auto.
Qed.
End spec.

Definition ma0 : Multiaddr := mkMultiaddr (Addr4 [127; 0; 0; 1]) 1312 emptyPeerID None.

Lemma Bytes_no_peerid_witness :
  Multiaddr.Bytes ma0 = Ok (ip_bytes ma0 ++ more_bytes ma0) /\
  ip_bytes ma0 = [4; 127; 0; 0; 1; 145; 2; 5; 32].
Proof.
  split; [|reflexivity]. apply Bytes_no_peerid; [|done]. by apply (bool_decide_unpack _).
Defined.

Lemma Bytes_peerid_panics_witness :
  Multiaddr.Bytes (mkMultiaddr (Addr4 [127; 0; 0; 1]) 1312 pid0 None) = Panic.
Proof. by apply Bytes_peerid_panics. Defined.

Definition more0 : @Maddr toy_maddr := "http"%string.
Definition ma1 : Multiaddr := mkMultiaddr (Addr4 [127; 0; 0; 1]) 1312 pid0 (Some more0).

Lemma Bytes_ignores_peerid_witness :
  Multiaddr.Bytes ma1 =
  Multiaddr.Bytes (mkMultiaddr (IP ma1) (Port ma1) (mkPeerID 9 9 9 9) (Some more0)).
Proof. by apply Bytes_ignores_peerid. Defined.

Lemma Protocols_udp_witness :
  proto_Code <$> Protocols ma0 =
    [if Is4 (IP ma0) then IP4MultiaddrCodec else IP6MultiaddrCodec; UDPMultiaddrCodec].
Proof. by apply Protocols_udp. Defined.
