(* ===== verification/MultiaddrText.v ===== *)
(** * MultiaddrText: the text form of transport addresses (multiaddr.go)

    ParseMultiaddr, String, ValueForProtocol, the text marshalling and the two
    protocols the program registers with the multiaddr library. *)

From S2P Require Import Prelude GoMem Text Ext NetipText Toy Key PeerID Multiaddr.
From Stdlib Require Import Ascii String.
Import NetIP PeerID Multiaddr.

#[local] Abbreviation length := List.length.

Module MultiaddrText.
Section text.
Context `{CidLib, MaddrLib}.

Inductive maddr_err : Type :=
| ErrAddrPort
| ErrCid
| ErrCodec (ty : Z)
| ErrPeerID (e : peerid_err)
| ErrMore
| ErrNoValue (code : Z).

(** ** The registered protocols *)

Definition maddrStr2b (s : string) : list Z + maddr_err :=
  match cid_Decode s with
  | None => inr ErrCid
  | Some c =>
      let ty := cid_Type c in
      if ty =? RovyKeyMulticodec then inl (cid_Bytes c) else inr (ErrCodec ty)
  end.

Definition maddrB2Str (b : list Z) : string + maddr_err :=
  match cid_Cast b with
  | None => inr ErrCid
  | Some c =>
      match PeerIDFromCid c with
      | inr e => inr (ErrPeerID e)
      | inl pid => inl (PeerID.String_ pid)
      end
  end.

Definition maddrValid (b : list Z) : option maddr_err :=
  match cid_Cast b with None => Some ErrCid | Some _ => None end.

Definition protoMaddrStr2b (s : string) : list Z + maddr_err := inl (string_bytes s).
Definition protoMaddrB2Str (b : list Z) : string + maddr_err := inl (bytes_string b).

(** ** Parsing *)

(** [len(a) >= 4 && a[0] == proto && a[2] == "udp"]: the value of the protocol,
    the port, and the components after them. *)
Definition udp_part (proto : string) (a : list string) : option (string * string * list string) :=
  match a with
  | p :: ip :: u :: port :: rest =>
      if String.eqb p proto && String.eqb u "udp" then Some (ip, port, rest) else None
  | _ => None
  end.

Definition rovy_part (a : list string) : option (string * list string) :=
  match a with
  | p :: c :: rest => if String.eqb p "rovy" then Some (c, rest) else None
  | _ => None
  end.

(** The value returned beside an error is the address as filled so far. *)
Definition parse_more (ma : Multiaddr) (a : list string) : Multiaddr * option maddr_err :=
  if 0 <? zlen a then
    match maddr_NewMultiaddr ("/" +:+ Join "/" a) with
    | None => (mkMultiaddr (IP ma) (Port ma) (PeerID_ ma) None, Some ErrMore)
    | Some m => (mkMultiaddr (IP ma) (Port ma) (PeerID_ ma) (Some m), None)
    end
  else (ma, None).

Definition parse_rovy (ma : Multiaddr) (a : list string) : Multiaddr * option maddr_err :=
  match rovy_part a with
  | None => parse_more ma a
  | Some (s, rest) =>
      match cid_Parse s with
      | None => (ma, Some ErrCid)
      | Some c =>
          match PeerIDFromCid c with
          | inr e => (mkMultiaddr (IP ma) (Port ma) emptyPeerID (More ma), Some (ErrPeerID e))
          | inl pid => parse_more (mkMultiaddr (IP ma) (Port ma) pid (More ma)) rest
          end
      end
  end.

Definition parse_ip4 (ma : Multiaddr) (a : list string) : Multiaddr * option maddr_err :=
  match udp_part "ip4" a with
  | None => parse_rovy ma a
  | Some (ip, port, rest) =>
      match NetipText.ParseAddrPort (ip +:+ ":" +:+ port) with
      | None => (ma, Some ErrAddrPort)
      | Some (ip, port) => parse_rovy (mkMultiaddr ip port (PeerID_ ma) (More ma)) rest
      end
  end.

Definition ParseMultiaddr (addr : string) : Multiaddr * option maddr_err :=
  let a := drop 1 (Split "/" addr) in
  let ma := zeroMultiaddr in
  match udp_part "ip6" a with
  | None => parse_ip4 ma a
  | Some (ip, port, rest) =>
      match NetipText.ParseAddrPort ("[" +:+ ip +:+ "]:" +:+ port) with
      | None => (ma, Some ErrAddrPort)
      | Some (ip, port) => parse_ip4 (mkMultiaddr ip port (PeerID_ ma) (More ma)) rest
      end
  end.

Definition MustParseMultiaddr (addr : string) : res Multiaddr :=
  match ParseMultiaddr addr with
  | (ma, None) => Ok ma
  | (_, Some _) => Panic
  end.

(** ** Printing *)

Definition String_ (ma : Multiaddr) : string :=
  let out :=
    if IsValid (IP ma) then
      (if Is4 (IP ma) then "/ip4/" +:+ NetipText.String_ (IP ma)
       else "/ip6/" +:+ NetipText.String_ (IP ma)) +:+
      (if 0 <? Port ma then "/udp/" +:+ FormatUint (Port ma) else "")
    else "" in
  let out := match More ma with Some m => out +:+ maddr_String m | None => out end in
  if bool_decide (PeerID_ ma = emptyPeerID) then out
  else out +:+ "/rovy/" +:+ PeerID.String_ (PeerID_ ma).

Definition ValueForProtocol (ma : Multiaddr) (code : Z) : string + maddr_err :=
  if (code =? IP4MultiaddrCodec) && Is4 (IP ma) then inl (NetipText.String_ (IP ma))
  else if (code =? IP6MultiaddrCodec) && Is6 (IP ma) then inl (NetipText.String_ (IP ma))
  else if (code =? UDPMultiaddrCodec) && IsValid (IP ma) then inl (FormatUint (Port ma))
  else if (code =? RovyMultiaddrCodec) && negb (bool_decide (PeerID_ ma = emptyPeerID))
  then inl (PeerID.String_ (PeerID_ ma))
  else match More ma with
       | Some m => match maddr_ValueForProtocol m code with Some v => inl v | None => inr (ErrNoValue code) end
       | None => inr (ErrNoValue code)
       end.

(** ** encoding.TextMarshaler *)

Definition MarshalText (ma : Multiaddr) : list Z := string_bytes (String_ ma).

(** The receiver is assigned on success only. *)
Definition UnmarshalText (old : Multiaddr) (data : list Z) : Multiaddr * option maddr_err :=
  match ParseMultiaddr (bytes_string data) with
  | (new, None) => (new, None)
  | (_, Some e) => (old, Some e)
  end.
End text.
End MultiaddrText.
Import MultiaddrText.

(** ** The components of the text *)

Section spec.
Context `{CidLib, MaddrLib}.

Definition ip_parts (ma : Multiaddr) : list string :=
  if IsValid (IP ma) then
    [if Is4 (IP ma) then "ip4"%string else "ip6"%string; NetipText.String_ (IP ma)] ++
    (if 0 <? Port ma then ["udp"%string; FormatUint (Port ma)] else [])
  else [].

Definition more_parts (ma : Multiaddr) : list string :=
  match More ma with Some m => drop 1 (Split "/" (maddr_String m)) | None => [] end.

Definition pid_parts (ma : Multiaddr) : list string :=
  if bool_decide (PeerID_ ma = emptyPeerID) then []
  else ["rovy"%string; PeerID.String_ (PeerID_ ma)].

(** A zone name that can be part of the text. *)
Definition zone_ok (a : Addr) : bool := match a with Addr6 _ z => free "/" z | _ => true end.

Lemma drop_Split_slash s : drop 1 (Split "/" ("/" +:+ s)) = Split "/" s.
Proof. done. Qed.

Lemma more_slashed `{!MaddrLaws} m : slashed (drop 1 (Split "/" (maddr_String m))) = maddr_String m.
Proof. destruct (maddr_String_slash m) as [s ->]. rewrite drop_Split_slash. apply slashed_Split. Qed.

Lemma String_parts `{!MaddrLaws} ma :
  MultiaddrText.String_ ma = slashed (ip_parts ma ++ more_parts ma ++ pid_parts ma).
Proof.
  rewrite !slashed_app. unfold MultiaddrText.String_, ip_parts, more_parts, pid_parts.
  assert (E : forall s, slashed ["rovy"%string; s] = "/rovy/" +:+ s).
  { intros s. cbn [slashed String.append]. by rewrite string_app_nil. }
  assert (Hm : match More ma with Some m => maddr_String m | None => "" end =
    slashed (match More ma with Some m => drop 1 (Split "/" (maddr_String m)) | None => [] end)).
  { destruct (More ma); [by rewrite more_slashed|done]. }
  rewrite <- Hm. set (ip := if IsValid (IP ma) then _ else ""). set (ps := if IsValid (IP ma) then _ else []).
  assert (Hi : ip = slashed ps).
  { subst ip ps. destruct (IsValid (IP ma)); [|done].
    destruct (Is4 (IP ma)), (0 <? Port ma); cbn [app slashed String.append];
      rewrite ?string_app_nil; done. }
  rewrite <- Hi. destruct (More ma); case_bool_decide; cbn [slashed];
    rewrite ?E, ?string_app_nil, ?string_app_assoc; done.
Qed.

Lemma addr_free_slash (a : Addr) :
  addr_ok a -> zone_ok a = true -> IsValid a = true -> free "/" (NetipText.String_ a) = true.
Proof.
  destruct a as [|b|b z]; cbn [addr_ok zone_ok IsValid NetipText.String_]; [done| |]; intros Hb Hz _.
  - eapply allc_free; [|apply string4_chars; apply Hb]. done.
  - rewrite free_app. rewrite (allc_free v6_char) by (try done; by apply string6_chars).
    destruct (String.eqb_spec z ""); [done|]. exact Hz.
Qed.

(** What makes an address survive being written down: a zone without a slash, a
    port when there is an IP address. *)
Definition printable (ma : Multiaddr) : Prop :=
  multiaddr_ok ma /\ zone_ok (IP ma) = true /\ peerid_ok (PeerID_ ma) /\
  (IsValid (IP ma) = true -> 0 < Port ma) /\ (IsValid (IP ma) = false -> Port ma = 0).

#[export] Instance printable_dec ma : Decision (printable ma).
Proof. unfold printable. apply _. Defined.

(** Components that the parser leaves to the multiaddr library. *)
Definition opaque_parts (a : list string) : Prop :=
  udp_part "ip6" a = None /\ udp_part "ip4" a = None /\ rovy_part a = None.

#[export] Instance opaque_parts_dec a : Decision (opaque_parts a).
Proof. unfold opaque_parts. apply _. Defined.

Lemma parts_free `{!CidFormLaws} ma :
  multiaddr_ok ma -> zone_ok (IP ma) = true ->
  Forall (fun s => free "/" s = true) (ip_parts ma ++ more_parts ma ++ pid_parts ma).
Proof.
  intros [Ha Hp] Hz. rewrite !Forall_app. unfold ip_parts, more_parts, pid_parts. split_and!.
  - destruct (IsValid (IP ma)) eqn:Hv; [|constructor]. cbn [app].
    constructor; [by destruct (Is4 (IP ma))|]. constructor; [by apply addr_free_slash|].
    destruct (0 <? Port ma); [|constructor]. repeat constructor. apply FormatUint_free; [lia|done].
  - destruct (More ma) as [m|]; [|constructor]. apply Forall_drop, Split_parts_free.
  - case_bool_decide; [constructor|]. repeat constructor. by apply String_plain.
Qed.

Lemma Split_String `{!CidFormLaws, !MaddrLaws} ma :
  multiaddr_ok ma -> zone_ok (IP ma) = true ->
  drop 1 (Split "/" (MultiaddrText.String_ ma)) = ip_parts ma ++ more_parts ma ++ pid_parts ma.
Proof. intros Ha Hz. rewrite String_parts, Split_slashed by (by apply parts_free). done. Qed.

(** ** Reading the text back *)

(** The address part is read back, and what follows is left. *)
Lemma parse_address s ma rest :
  printable ma -> drop 1 (Split "/" s) = ip_parts ma ++ rest ->
  udp_part "ip6" rest = None -> udp_part "ip4" rest = None ->
  ParseMultiaddr s = parse_rovy (mkMultiaddr (IP ma) (Port ma) emptyPeerID None) rest.
Proof.
  intros ((Ha & Hp) & Hz & _ & Hv & Hn) Hs H6 H4. unfold ParseMultiaddr. rewrite Hs. unfold ip_parts.
  destruct (IP ma) as [|b|b z] eqn:E; cbn [IsValid Is4 addr_ok] in *.
  - cbn [app]. rewrite H6. unfold parse_ip4. rewrite H4. by rewrite Hn.
  - destruct (Z.ltb_spec 0 (Port ma)); [|lia].
    cbn [app udp_part String.eqb Ascii.eqb Bool.eqb andb]. unfold parse_ip4.
    cbn [app udp_part String.eqb Ascii.eqb Bool.eqb andb].
    by rewrite ParseAddrPort_4.
  - destruct (Z.ltb_spec 0 (Port ma)); [|lia].
    cbn [app udp_part String.eqb Ascii.eqb Bool.eqb andb].
    rewrite ParseAddrPort_6 by done. unfold parse_ip4. by rewrite H4.
Qed.

Lemma parse_peerid `{!CidLaws} ma pid :
  peerid_ok pid -> pid <> emptyPeerID ->
  parse_rovy ma ["rovy"%string; PeerID.String_ pid] =
  (mkMultiaddr (IP ma) (Port ma) pid (More ma), None).
Proof.
  intros Hp He. unfold parse_rovy. cbn [rovy_part String.eqb Ascii.eqb Bool.eqb andb].
  unfold PeerID.String_, PeerID.Empty. rewrite bool_decide_eq_false_2 by done. rewrite cid_Parse_String.
  rewrite (PeerIDFromCid_Cid pid Hp). done.
Qed.

Lemma parse_opaque ma a m :
  opaque_parts a -> a <> [] -> maddr_NewMultiaddr (slashed a) = Some m ->
  parse_rovy ma a = (mkMultiaddr (IP ma) (Port ma) (PeerID_ ma) (Some m), None).
Proof.
  intros (_ & _ & Hr) Hn Hm. unfold parse_rovy, parse_more. rewrite Hr.
  rewrite slashed_Join in Hm by done. rewrite Hm.
  destruct a; [done|]. rewrite zlen_cons. pose proof (zlen_nonneg a).
  by destruct (Z.ltb_spec 0 (1 + zlen a)); [|lia].
Qed.

Lemma pid_parts_udp ma p : udp_part p (pid_parts ma) = None.
Proof. unfold pid_parts. by case_bool_decide. Qed.

Lemma Parse_String `{!CidLaws, !CidFormLaws, !MaddrLaws} (ma : Multiaddr) :
  printable ma ->
  More ma = None \/ (PeerID_ ma = emptyPeerID /\ opaque_parts (more_parts ma)) ->
  ParseMultiaddr (MultiaddrText.String_ ma) = (ma, None).
Proof.
  intros Hp Hm. pose proof Hp as (Hok & Hz & Hpid & _). pose proof (Split_String ma Hok Hz) as Hs.
  destruct Hm as [Hm|[He Ho]].
  - unfold more_parts in Hs. rewrite Hm in Hs. cbn [app] in Hs.
    rewrite (parse_address _ ma (pid_parts ma)) by (try done; apply pid_parts_udp).
    unfold pid_parts. destruct ma as [ip port pid more]; cbn in *; subst more. case_bool_decide; [by subst|].
    by rewrite parse_peerid.
  - unfold pid_parts in Hs. rewrite bool_decide_eq_true_2, app_nil_r in Hs by done.
    rewrite (parse_address _ ma (more_parts ma)) by (try done; apply Ho).
    destruct ma as [ip port pid [m|]]; cbn [more_parts More PeerID_ IP Port] in *; subst; [|done].
    rewrite (parse_opaque _ _ m); [done|done| |].
    + destruct (maddr_String_slash m) as [s ->]. rewrite drop_Split_slash. apply Split_nonempty.
    + rewrite more_slashed. apply maddr_New_String.
Qed.

(** C23: the text of an address is parsed back to that address. The address has a
    port if it has an IP address, its zone has no slash, and it has a peer id or
    further components but not both; the further components do not start like
    an address or a peer id of their own. *)
Theorem ParseMultiaddr_String `{!CidLaws, !CidFormLaws, !MaddrLaws} (ma : Multiaddr) :
  printable ma ->
  More ma = None \/ (PeerID_ ma = emptyPeerID /\ opaque_parts (more_parts ma)) ->
  ParseMultiaddr (MultiaddrText.String_ ma) = (ma, None).
Proof. apply Parse_String. Qed.

(** The text of an address without a port is left to the library as a whole. *)
Lemma Parse_no_port `{!CidFormLaws, !MaddrLaws} ma :
  multiaddr_ok ma -> zone_ok (IP ma) = true -> IsValid (IP ma) = true -> Port ma = 0 -> More ma = None ->
  PeerID_ ma = emptyPeerID ->
  ParseMultiaddr (MultiaddrText.String_ ma) =
  match maddr_NewMultiaddr (MultiaddrText.String_ ma) with
  | Some m => (mkMultiaddr AddrZero 0 emptyPeerID (Some m), None)
  | None => (zeroMultiaddr, Some ErrMore)
  end.
Proof.
  intros Hok Hz Hv Hp Hm He. pose proof (Split_String ma Hok Hz) as Hs. unfold ParseMultiaddr. rewrite Hs, String_parts.
  unfold ip_parts, more_parts, pid_parts. rewrite Hm, (bool_decide_eq_true_2 _ He), Hp, Hv.
  cbn [Z.ltb Z.compare app udp_part]. unfold parse_ip4. cbn [udp_part]. unfold parse_rovy. cbn [rovy_part].
  replace (String.eqb _ "rovy") with false by (by destruct (Is4 (IP ma))).
  unfold parse_more. rewrite <- slashed_Join by done. done.
Qed.

(** An address without a port loses its IP address on the way through the
    text: what comes back has none, whatever the library makes of the rest. *)
Theorem ParseMultiaddr_no_port `{!CidFormLaws, !MaddrLaws} (ma : Multiaddr) :
  multiaddr_ok ma -> zone_ok (IP ma) = true -> IsValid (IP ma) = true -> Port ma = 0 -> More ma = None ->
  PeerID_ ma = emptyPeerID -> IP (ParseMultiaddr (MultiaddrText.String_ ma)).1 = AddrZero.
Proof. intros. rewrite Parse_no_port by done. by destruct (maddr_NewMultiaddr _). Qed.

(** Further components are written before the peer id but are read after it:
    of an address with both, the peer id is not read back. *)
Theorem ParseMultiaddr_more_peerid `{!CidFormLaws, !MaddrLaws} (ma : Multiaddr) (p : string) (ps : list string) :
  printable ma -> PeerID_ ma <> emptyPeerID ->
  more_parts ma = p :: ps -> p <> "ip4"%string -> p <> "ip6"%string -> p <> "rovy"%string ->
  PeerID_ (ParseMultiaddr (MultiaddrText.String_ ma)).1 = emptyPeerID.
Proof.
  intros Hp He Hm H4 H6 Hr. pose proof Hp as (Hok & Hz & _). pose proof (Split_String ma Hok Hz) as Hs.
  assert (U : forall q l, p <> q -> udp_part q (p :: l) = None).
  { intros q l Hq. cbn. apply String.eqb_neq in Hq. rewrite Hq. by repeat case_match. }
  rewrite Hm in Hs. rewrite (parse_address _ ma _ Hp Hs) by (by apply U).
  cbn [app]. unfold parse_rovy. apply String.eqb_neq in Hr.
  replace (rovy_part _) with (@None (string * list string)) by (cbn; rewrite Hr; by repeat case_match).
  unfold parse_more. rewrite zlen_cons. pose proof (zlen_nonneg (ps ++ pid_parts ma)).
  destruct (Z.ltb_spec 0 (1 + zlen (ps ++ pid_parts ma))); [|lia].
  by destruct (maddr_NewMultiaddr _).
Qed.

(** ** The value of a protocol *)

(** Every protocol an address lists has a value, if the library gives one for
    those it knows. *)
Theorem ValueForProtocol_listed `{!MaddrLaws} (ma : Multiaddr) (pr : Protocol) :
  (forall m q, More ma = Some m -> q ∈ maddr_Protocols m ->
    is_Some (maddr_ValueForProtocol m (proto_Code q))) ->
  pr ∈ Protocols ma -> exists v, ValueForProtocol ma (proto_Code pr) = inl v.
Proof.
  intros Hmore Hin. unfold ValueForProtocol.
  destruct ((proto_Code pr =? IP4MultiaddrCodec) && Is4 (IP ma)) eqn:C4; [by eexists|].
  destruct ((proto_Code pr =? IP6MultiaddrCodec) && Is6 (IP ma)) eqn:C6; [by eexists|].
  destruct ((proto_Code pr =? UDPMultiaddrCodec) && IsValid (IP ma)) eqn:CU; [by eexists|].
  destruct ((proto_Code pr =? RovyMultiaddrCodec) && negb (bool_decide (PeerID_ ma = emptyPeerID))) eqn:CR;
    [by eexists|].
  assert (Hm : exists m, More ma = Some m /\ pr ∈ maddr_Protocols m).
  { unfold Protocols, udp4protocols, udp6protocols in Hin.
    destruct (IP ma) as [|b|b z], (More ma) as [m|], (bool_decide (PeerID_ ma = emptyPeerID)); cbn in *;
      rewrite ?elem_of_cons, ?elem_of_app, ?elem_of_cons, ?elem_of_nil in Hin;
      destruct_or?; try (by exists m); try done; subst pr;
      rewrite ?ProtocolWithCode_Code in * by (unfold IP4MultiaddrCodec, IP6MultiaddrCodec, UDPMultiaddrCodec; auto);
      done. }
  destruct Hm as (m & Hm & Hpr). rewrite Hm. destruct (Hmore m pr Hm Hpr) as [v ->]. by eexists.
Qed.

(** ** The registered protocols *)

(** The rovy protocol's transcoder: the text and the bytes of a peer id
    are turned into each other, and the bytes are valid. *)
Theorem rovy_transcoder `{!CidLaws} (pid : PeerID) :
  peerid_ok pid -> pid <> emptyPeerID ->
  maddrStr2b (PeerID.String_ pid) = inl (PeerID.Bytes pid) /\
  maddrB2Str (PeerID.Bytes pid) = inl (PeerID.String_ pid) /\
  maddrValid (PeerID.Bytes pid) = None.
Proof.
  intros Hp He. unfold maddrStr2b, maddrB2Str, maddrValid, PeerID.Bytes.
  unfold PeerID.String_ at 1, PeerID.Empty. rewrite bool_decide_eq_false_2 by done.
  rewrite cid_Decode_String, cid_Cast_Bytes, PeerIDFromCid_Cid by done.
  unfold Cid_ at 1. by rewrite cid_Type_V1.
Qed.

Theorem proto_transcoder (s : string) :
  exists b, protoMaddrStr2b s = inl b /\ protoMaddrB2Str b = inl s.
Proof. eexists. split; [done|]. unfold protoMaddrB2Str. by rewrite bytes_string_bytes. Qed.

(** Text marshalling round trip, for the same addresses as printing. *)
Theorem UnmarshalText_MarshalText `{!CidLaws, !CidFormLaws, !MaddrLaws} (old ma : Multiaddr) :
  ParseMultiaddr (MultiaddrText.String_ ma) = (ma, None) ->
  UnmarshalText old (MarshalText ma) = (ma, None).
Proof. intros E. unfold UnmarshalText, MarshalText. rewrite bytes_string_bytes, E. done. Qed.
End spec.

(** *** Witnesses *)

Definition ma_v6 : Multiaddr :=
  mkMultiaddr (Addr6 ([254; 128] ++ zeros 13 ++ [1]) "eth0") 1312 pid0 None.

Lemma ParseMultiaddr_String_witness : ParseMultiaddr (MultiaddrText.String_ ma_v6) = (ma_v6, None).
Proof. apply ParseMultiaddr_String; [by apply (bool_decide_unpack _)|by left]. Defined.

Lemma ParseMultiaddr_no_port_witness :
  IP (ParseMultiaddr (MultiaddrText.String_ (mkMultiaddr (Addr4 [127; 0; 0; 1]) 0 emptyPeerID None))).1 = AddrZero.
Proof. apply ParseMultiaddr_no_port; by apply (bool_decide_unpack _). Defined.

Lemma ParseMultiaddr_more_peerid_witness :
  PeerID_ (ParseMultiaddr (MultiaddrText.String_ ma1)).1 = emptyPeerID.
Proof. apply (ParseMultiaddr_more_peerid ma1 "http" []); by apply (bool_decide_unpack _). Defined.

Lemma ValueForProtocol_listed_witness :
  exists v, ValueForProtocol ma0 (proto_Code (mkProtocol "" 4)) = inl v.
Proof. apply ValueForProtocol_listed; [done|]. apply list_elem_of_here. Defined.

Lemma rovy_transcoder_witness :
  maddrStr2b (PeerID.String_ pid0) = inl (PeerID.Bytes pid0) /\
  maddrB2Str (PeerID.Bytes pid0) = inl (PeerID.String_ pid0) /\
  maddrValid (PeerID.Bytes pid0) = None.
Proof. by apply rovy_transcoder; apply (bool_decide_unpack _). Defined.
