(* ===== verification/Json.v ===== *)
(** * Json: values as encoding/json documents (peerid.go, multiaddr.go)

    The API and the marshalling methods exchange JSON. Here a JSON text is the
    document it denotes; that both ends agree on the grammar is the standard
    library's business. What the package does with a document is modelled: how
    keys find struct fields, what null does, which documents a Go type refuses.
    Strings are kept as they are, which is what the package does for text that
    is valid UTF-8. *)

From S2P Require Import Prelude GoMem Text Ext NetipText Toy Key PeerID Multiaddr MultiaddrText.
From Stdlib Require Import Ascii String.
Import NetIP PeerID Multiaddr.

#[local] Set Warnings "-register-all".

Inductive json : Type :=
| JNull
| JBool (b : bool)
| JNum (z : Z)
| JStr (s : string)
| JArr (l : list json)
| JObj (fields : list (string * json)).

(** A byte string given to the decoder: no bytes at all, something that is not
    JSON, or a document. *)
Inductive json_text : Type :=
| NoData
| Malformed
| Doc (j : json).

(** Keys are compared without regard to case: ASCII letters, and the two
    characters outside ASCII that fold to one (long s and the Kelvin sign). *)
Definition lower (c : ascii) : ascii :=
  if (65 <=? code c) && (code c <=? 90) then chr (code c + 32) else c.

Fixpoint fold_key (s : string) : string :=
  match s with
  | String "197" (String "191" t) => String "s" (fold_key t)
  | String "226" (String "132" (String "170" t)) => String "k" (fold_key t)
  | String c t => String (lower c) (fold_key t)
  | EmptyString => EmptyString
  end.

Definition key_is (name key : string) : bool := String.eqb (fold_key key) (fold_key name).

(** Decoding into a string variable: null leaves it as it is. *)
Definition string_of_json (old : string) (j : json) : option string :=
  match j with JStr s => Some s | JNull => Some old | _ => None end.

Definition Unmarshal_string (data : json_text) : option string :=
  match data with Doc j => string_of_json "" j | _ => None end.

(** Decoding one value into a variable: it fits; it has the wrong kind, which is
    reported at the end while decoding goes on; or a method of the target
    refused it, which ends decoding. The variable keeps what was stored. *)
Inductive outcome : Type := Fits | WrongKind | Refused.

(** Decoding an object into a struct: every key that names a field is decoded
    into it, in order; other keys are skipped. [set] decodes one field. The
    boolean says whether there was an error. *)
Fixpoint decode_fields {T} (set : string -> json -> T -> T * outcome) (fields : list (string * json)) (t : T) (err : bool)
  : T * bool :=
  match fields with
  | [] => (t, err)
  | (k, j) :: fields =>
      match set k j t with
      | (t, Fits) => decode_fields set fields t err
      | (t, WrongKind) => decode_fields set fields t true
      | (t, Refused) => (t, true)
      end
  end.

Definition decode_struct {T} (set : string -> json -> T -> T * outcome) (t : T) (data : json_text) : T * bool :=
  match data with
  | Doc (JObj fields) => decode_fields set fields t false
  | Doc JNull => (t, false)
  | _ => (t, true)
  end.

Definition string_field (old : string) (j : json) : string * outcome :=
  match string_of_json old j with Some s => (s, Fits) | None => (old, WrongKind) end.

Definition bool_field (old : bool) (j : json) : bool * outcome :=
  match j with JBool b => (b, Fits) | JNull => (old, Fits) | _ => (old, WrongKind) end.

(** ** netip.Addr is an encoding.TextMarshaler *)

Definition addr_text (a : Addr) : string :=
  match a with AddrZero => "" | _ => NetipText.String_ a end.
Definition addr_of_text (s : string) : option Addr :=
  if String.eqb s "" then Some AddrZero else NetipText.ParseAddr s.

Definition addr_field (old : Addr) (j : json) : Addr * outcome :=
  match j with
  | JStr s => match addr_of_text s with Some a => (a, Fits) | None => (AddrZero, Refused) end
  | JNull => (old, Fits)
  | _ => (old, WrongKind)
  end.

Lemma string4_nonempty b : array 4 b -> NetipText.string4 b <> "".
Proof. intros Hb. by destruct (string4_head b Hb) as (c & t & -> & _). Qed.

Lemma addr_of_text_text a : addr_ok a -> addr_of_text (addr_text a) = Some a.
Proof.
  intros Ha. unfold addr_of_text. destruct a as [|b|b z]; [done| |]; cbn [addr_text addr_ok] in *.
  - pose proof (ParseAddr_String4 b Ha) as E. cbn [NetipText.String_] in *.
    destruct (String.eqb_spec (NetipText.string4 b) ""); [by destruct (string4_nonempty b Ha)|done].
  - pose proof (ParseAddr_String6 b z Ha) as E.
    destruct (String.eqb_spec (NetipText.String_ (Addr6 b z)) "") as [E0|]; [by rewrite E0 in E|done].
Qed.

(** ** The JSON methods of the program's own types *)

Module Json.
Section methods.
Context `{CidLib, MaddrLib}.

Inductive json_err : Type :=
| ErrJson
| ErrJsonCid
| ErrJsonPeerID (e : peerid_err)
| ErrJsonMaddr (e : MultiaddrText.maddr_err).

Definition PeerID_MarshalJSON (pid : PeerID) : json_text := Doc (JStr (PeerID.String_ pid)).

(** The receiver is assigned on success only. *)
Definition PeerID_UnmarshalJSON (old : PeerID) (b : json_text) : PeerID * option json_err :=
  match Unmarshal_string b with
  | None => (old, Some ErrJson)
  | Some b32cid =>
      match cid_Parse b32cid with
      | None => (old, Some ErrJsonCid)
      | Some c =>
          match PeerIDFromCid c with
          | inr e => (old, Some (ErrJsonPeerID e))
          | inl pid2 => (mkPeerID (b1 pid2) (b2 pid2) (b3 pid2) (b4 pid2), None)
          end
      end
  end.

Definition Multiaddr_MarshalJSON (ma : Multiaddr) : json_text := Doc (JStr (MultiaddrText.String_ ma)).

(** The receiver is assigned what the parser returns, with or without error. *)
Definition Multiaddr_UnmarshalJSON (old : Multiaddr) (data : json_text) : Multiaddr * option json_err :=
  match data with
  | NoData => (zeroMultiaddr, None)
  | _ =>
      match Unmarshal_string data with
      | None => (old, Some ErrJson)
      | Some v =>
          let '(ma, err) := MultiaddrText.ParseMultiaddr v in
          (ma, match err with Some e => Some (ErrJsonMaddr e) | None => None end)
      end
  end.

(** A field whose type has an UnmarshalJSON method. *)
Definition method_field {T} (r : T * option json_err) : T * outcome :=
  match r with (t, None) => (t, Fits) | (t, Some _) => (t, Refused) end.
End methods.
End Json.
Import Json.

Section roundtrip.
Context `{CidLib, MaddrLib}.

Lemma PeerID_json `{!CidLaws} pid old :
  peerid_ok pid -> pid <> emptyPeerID -> PeerID_UnmarshalJSON old (PeerID_MarshalJSON pid) = (pid, None).
Proof.
  intros Hp He. unfold PeerID_UnmarshalJSON, PeerID_MarshalJSON. cbn [Unmarshal_string string_of_json].
  unfold PeerID.String_, PeerID.Empty. rewrite bool_decide_eq_false_2 by done.
  rewrite cid_Parse_String, PeerIDFromCid_Cid by done. by destruct pid.
Qed.

Lemma Multiaddr_json ma old :
  MultiaddrText.ParseMultiaddr (MultiaddrText.String_ ma) = (ma, None) ->
  Multiaddr_UnmarshalJSON old (Multiaddr_MarshalJSON ma) = (ma, None).
Proof. intros E. unfold Multiaddr_UnmarshalJSON, Multiaddr_MarshalJSON. cbn [Unmarshal_string string_of_json]. by rewrite E. Qed.
End roundtrip.
