(* ===== verification/Dns.v ===== *)
(** * Dns: the name server of the IPv6 endpoint (fcnet/dns.go)

    Names are peer ids under the domain rovy: the handler computes the address
    from the name, there is no table. The message type is that of the package
    miekg/dns. *)

From S2P Require Import Prelude GoMem Text Ext Toy Key PeerID.
From Stdlib Require Import String.
Import NetIP Key PeerID.

(** ** github.com/miekg/dns *)

Record Question : Type := mkQuestion { Name : string; Qtype : Z }.

(** An AAAA record with its header. *)
Record RR : Type := mkAAAA {
  rr_Name : string;
  rr_Rrtype : Z;
  rr_Class : Z;
  rr_Ttl : Z;
  rr_AAAA : list Z
}.

Class DnsLib : Type := {
  Msg : Type;
  msg_Question : Msg -> list Question;
  msg_Answer : Msg -> list RR;
  msg_Rcode : Msg -> Z;
  with_Answer : list RR -> Msg -> Msg;      (* assignment to the field *)
  new_Msg : Msg;
  msg_SetReply : Msg -> Msg -> Msg;
  msg_SetRcode : Msg -> Msg -> Z -> Msg;
  TypeAAAA : Z;
  ClassINET : Z;
  RcodeSuccess : Z;
  RcodeNameError : Z;
  RcodeBadName : Z
}.

(** A reply to a request has no answers and reports success until an answer is
    added or another code is set. *)
Class DnsLaws `{DnsLib} : Prop := {
  SetReply_Answer : forall r, msg_Answer (msg_SetReply new_Msg r) = [];
  SetReply_Rcode : forall r, msg_Rcode (msg_SetReply new_Msg r) = RcodeSuccess;
  SetRcode_Rcode : forall m r c, msg_Rcode (msg_SetRcode m r c) = c;
  SetRcode_Answer : forall m r c, msg_Answer (msg_SetRcode m r c) = msg_Answer m;
  with_Answer_Answer : forall l m, msg_Answer (with_Answer l m) = l;
  with_Answer_Rcode : forall l m, msg_Rcode (with_Answer l m) = msg_Rcode m
}.

Module Dns.
Section handler.
Context `{Crypto, CidLib, DnsLib}.

Record DNSHandler : Type := mkDNSHandler { LocalPeerID : PeerID }.

(** The record for a peer's address. *)
Definition answer (qname : string) (pid : PeerID) : RR :=
  mkAAAA qname TypeAAAA ClassINET 0 (AsSlice (IPAddr (PeerID.PublicKey_ pid))).

(** [ServeDNS]: the message it writes. The first question is read without
    looking whether there is one. *)
Definition ServeDNS (h : DNSHandler) (r : Msg) : res Msg :=
  match msg_Question r with
  | [] => Panic
  | q :: _ =>
      let qtype := Qtype q in
      let qname := Name q in
      let m := msg_SetReply new_Msg r in
      if String.eqb qname "localhost.rovy." then
        Ok (with_Answer (msg_Answer m ++ [answer qname (LocalPeerID h)]) m)
      else if negb (qtype =? TypeAAAA) || negb (HasPrefix qname "bafzqai") || negb (HasSuffix qname ".rovy.") then
        Ok (msg_SetRcode m r RcodeNameError)
      else
        match cid_Decode (TrimSuffix qname ".rovy.") with
        | None => Ok (msg_SetRcode m r RcodeBadName)
        | Some c =>
            match PeerIDFromCid c with
            | inr _ => Ok (msg_SetRcode m r RcodeBadName)
            | inl pid => Ok (with_Answer (msg_Answer m ++ [answer qname pid]) m)
            end
        end
  end.
End handler.
End Dns.
Import Dns.

Section spec.
Context `{Crypto, CidLib, DnsLib}.

(** The name of a peer. *)
Definition peer_name (pid : PeerID) : string := PeerID.String_ pid +:+ ".rovy.".

Lemma peer_name_prefix `{!CidFormLaws} pid :
  pid <> emptyPeerID -> HasPrefix (peer_name pid) "bafzqai" = true.
Proof.
  intros Hp. unfold peer_name. rewrite String_base32 by done. rewrite PeerID_Bytes_eq. cbn [app].
  destruct (base32_header (peerid_bytes pid)) as [t ->]. rewrite !string_app_assoc.
  apply (HasPrefix_app "bafzqai").
Qed.

Lemma not_localhost s : HasPrefix s "bafzqai" = true -> String.eqb s "localhost.rovy." = false.
Proof. intros [t ->]%HasPrefix_iff. done. Qed.

(** C33: the name of any peer resolves to its address: a query for the address
    record of a peer id under rovy is answered with exactly one record, which
    holds the address derived from that peer's public key. *)
Theorem ServeDNS_peer `{!CidLaws, !CidFormLaws, !DnsLaws} (h : DNSHandler) (r : Msg) (pid : PeerID) (qs : list Question) :
  peerid_ok pid -> pid <> emptyPeerID ->
  msg_Question r = mkQuestion (peer_name pid) TypeAAAA :: qs ->
  exists m, ServeDNS h r = Ok m /\ msg_Rcode m = RcodeSuccess /\
    msg_Answer m = [mkAAAA (peer_name pid) TypeAAAA ClassINET 0 (AsSlice (IPAddr (PeerID.PublicKey_ pid)))].
Proof.
  intros Hok Hp Hq. unfold ServeDNS. rewrite Hq. cbn [Name Qtype].
  pose proof (peer_name_prefix pid Hp) as Hpre. rewrite (not_localhost _ Hpre), Hpre, Z.eqb_refl.
  unfold peer_name at 1 2. rewrite HasSuffix_app, TrimSuffix_app. cbn [negb orb].
  unfold PeerID.String_, PeerID.Empty. rewrite bool_decide_eq_false_2 by done.
  rewrite cid_Decode_String, PeerIDFromCid_Cid by done. eexists. split; [done|].
  rewrite with_Answer_Rcode, with_Answer_Answer, SetReply_Rcode, SetReply_Answer. done.
Qed.

(** Nothing else is answered: a reply has at most one record; when it has one
    the question was for localhost, or its name is the text of an identifier of
    the peer whose address is given. All other replies carry an error code. *)
Theorem ServeDNS_answers `{!DnsLaws} (h : DNSHandler) (r m : Msg) :
  ServeDNS h r = Ok m ->
  exists q qs, msg_Question r = q :: qs /\
    ((msg_Answer m = [] /\ (msg_Rcode m = RcodeNameError \/ msg_Rcode m = RcodeBadName)) \/
     (Name q = "localhost.rovy."%string /\ msg_Answer m = [answer (Name q) (LocalPeerID h)]) \/
     (exists c pid, Qtype q = TypeAAAA /\ cid_Decode (TrimSuffix (Name q) ".rovy.") = Some c /\
        PeerIDFromCid c = inl pid /\ msg_Answer m = [answer (Name q) pid])).
Proof.
  unfold ServeDNS. destruct (msg_Question r) as [|q qs]; [done|]. intros E. exists q, qs. split; [done|].
  destruct (String.eqb_spec (Name q) "localhost.rovy.").
  { injection E as <-. right; left. rewrite with_Answer_Answer, SetReply_Answer. done. }
  destruct (negb _ || _ || _) eqn:Hn.
  { injection E as <-. left. rewrite SetRcode_Answer, SetReply_Answer, SetRcode_Rcode. auto. }
  assert (Ht : Qtype q = TypeAAAA) by (rewrite !orb_false_iff, negb_false_iff in Hn; lia).
  destruct (cid_Decode _) as [c|] eqn:Hc;
    [|injection E as <-; left; rewrite SetRcode_Answer, SetReply_Answer, SetRcode_Rcode; auto].
  destruct (PeerIDFromCid c) as [pid|] eqn:Hp; injection E as <-.
  - right; right. exists c, pid. rewrite with_Answer_Answer, SetReply_Answer. done.
  - left. rewrite SetRcode_Answer, SetReply_Answer, SetRcode_Rcode. auto.
Qed.

(** The query type is not looked at for localhost: a question of any type gets
    an address record. *)
Theorem ServeDNS_localhost_any_type `{!DnsLaws} (h : DNSHandler) (r : Msg) (t : Z) (qs : list Question) :
  msg_Question r = mkQuestion "localhost.rovy." t :: qs ->
  exists m, ServeDNS h r = Ok m /\ msg_Rcode m = RcodeSuccess /\
    rr_Rrtype <$> msg_Answer m = [TypeAAAA].
Proof.
  intros Hq. unfold ServeDNS. rewrite Hq. eexists. split; [done|].
  rewrite with_Answer_Rcode, with_Answer_Answer, SetReply_Rcode, SetReply_Answer. done.
Qed.
End spec.

(** *** Witnesses *)

(** Messages as question, answer and code. *)
#[export] Instance toy_dns : DnsLib := {
  Msg := list Question * list RR * Z;
  msg_Question := fun m => m.1.1;
  msg_Answer := fun m => m.1.2;
  msg_Rcode := snd;
  with_Answer := fun l m => (m.1.1, l, m.2);
  new_Msg := ([], [], 0);
  msg_SetReply := fun m r => (r.1.1, m.1.2, 0);
  msg_SetRcode := fun m r c => (r.1.1, m.1.2, c);
  TypeAAAA := 28;
  ClassINET := 1;
  RcodeSuccess := 0;
  RcodeNameError := 3;
  RcodeBadName := 20
}.

#[export] Instance toy_dns_laws : DnsLaws.
Proof. by constructor. Qed.

Definition dns_query (name : string) (t : Z) : Msg := ([mkQuestion name t], [], 0).

Lemma ServeDNS_peer_witness :
  exists m, ServeDNS (mkDNSHandler pid0) (dns_query (peer_name pid0) TypeAAAA) = Ok m /\
    msg_Rcode m = RcodeSuccess /\
    msg_Answer m = [mkAAAA (peer_name pid0) TypeAAAA ClassINET 0 (AsSlice (IPAddr (PeerID.PublicKey_ pid0)))].
Proof. by eapply (ServeDNS_peer _ _ pid0 []); [apply (bool_decide_unpack _)|..]. Defined.

Lemma ServeDNS_answers_witness :
  exists q qs, msg_Question (dns_query "example." 28) = q :: qs /\
    ((msg_Answer (dns_query "example." 28) = [] /\
      (msg_Rcode (([mkQuestion "example." 28], [], 3) : Msg) = RcodeNameError \/
       msg_Rcode (([mkQuestion "example." 28], [], 3) : Msg) = RcodeBadName)) \/
     (Name q = "localhost.rovy."%string /\ msg_Answer (dns_query "example." 28) = [answer (Name q) pid0]) \/
     (exists c pid, Qtype q = TypeAAAA /\ cid_Decode (TrimSuffix (Name q) ".rovy.") = Some c /\
        PeerIDFromCid c = inl pid /\ msg_Answer (dns_query "example." 28) = [answer (Name q) pid])).
Proof.
  apply (ServeDNS_answers (mkDNSHandler pid0) (dns_query "example." 28) ([mkQuestion "example." 28], [], 3)).
  reflexivity.
Defined.

Lemma ServeDNS_localhost_any_type_witness :
  exists m, ServeDNS (mkDNSHandler pid0) (dns_query "localhost.rovy." 1) = Ok m /\
    msg_Rcode m = RcodeSuccess /\ rr_Rrtype <$> msg_Answer m = [TypeAAAA].
Proof. by eapply ServeDNS_localhost_any_type. Defined.
