(* ===== verification/Tun.v ===== *)
(** * Tun: how the TUN device comes about (fcnet/tun.go, tun_nm.go,
    tun_netlink.go)

    Binding a descriptor to an interface, the NetworkManager connection that
    goes with it, and the direct way by netlink. The kernel answers are
    parameters; what matters is which descriptors stay open, and what is asked
    for. NetworkManager is reached over D-Bus and is an interface. *)

From S2P Require Import Prelude GoMem Text Ext NetipText Toy.
From Stdlib Require Import Ascii String.
Import NetIP.

(** ** tun.go *)

Module Tun.

Definition IFNAMSIZ : Z := 16.
Definition ifReqSize : Z := IFNAMSIZ + 64.
Definition IFF_TUN : Z := 0x1.
Definition IFF_NO_PI : Z := 0x1000.

Inductive error : Type :=
| EOpen
| ENameTooLong
| EIoctl
| ENonblock
| EInterface
| ECreate
| EDbus
| ECall (method : string)
| ENetlink (step : string).

(** What the kernel answers: opening the clone device, the TUNSETIFF request,
    setting a descriptor non-blocking, and looking up an interface: there, not
    there, or an error. *)
Class Kernel : Type := {
  tun_Open : option Z;
  tun_Ioctl : Z -> list Z -> bool;
  tun_SetNonblock : Z -> bool;
  InterfaceByName : string -> option bool;
  CreateTUNFromFD : Z -> bool
}.

Section tun.
Context `{Kernel}.

Definition checkTunExists (ifname : string) : bool + error :=
  match InterfaceByName ifname with
  | None => inr EInterface
  | Some b => inl b
  end.

(** The request: the name, padded with zeros, and the flags after it. *)
Definition ifreq (ifname : string) : list Z :=
  splice (splice (zeros ifReqSize) 0 (string_bytes ifname)) IFNAMSIZ (le_bytes 2 (Z.lor IFF_TUN IFF_NO_PI)).

(** The state is the set of open descriptors. *)
Definition bindTun (ifname : string) : M (gset Z) (Z + error) :=
  match tun_Open with
  | None => mret (inr EOpen)
  | Some nfd =>
      _ ← modify (fun s => {[nfd]} ∪ s);
      if IFNAMSIZ <=? zlen (string_bytes ifname) then
        _ ← modify (fun s => s ∖ {[nfd]}); mret (inr ENameTooLong)
      else if negb (tun_Ioctl nfd (ifreq ifname)) then
        _ ← modify (fun s => s ∖ {[nfd]}); mret (inr EIoctl)
      else if negb (tun_SetNonblock nfd) then
        _ ← modify (fun s => s ∖ {[nfd]}); mret (inr ENonblock)
      else mret (inl nfd)
  end.

(** [FileTUN]: the device on a descriptor. *)
Definition FileTUN (fd : Z) : Z + error := if CreateTUNFromFD fd then inl fd else inr ECreate.

Definition PreconfiguredTUN (ifname : string) : M (gset Z) (Z + error) :=
  r ← bindTun ifname;
  match r with
  | inr e => mret (inr e)
  | inl fd => mret (FileTUN fd)
  end.
End tun.

(** ** tun_nm.go *)

(** The values that go into a connection. *)
Inductive variant : Type :=
| VStr (s : string)
| VU32 (z : Z)
| VBool (b : bool)
| VPrefixes (key : string) (l : list (string * Z))  (* maps from the key to the address and from "prefix" to the length *)
| VBytes (l : list (list Z))
| VStrs (l : list string).

Abbreviation settings := (gmap string (gmap string variant)).
Abbreviation settings_map := (gmap string (gmap string (gmap string variant))).

(** The methods of NetworkManager that are called; [None] is a D-Bus error. The
    result of GetSettings may be of another type, here an inner [None]. *)
Class NetworkManager (W : Type) : Type := {
  nm_SystemBus : M W bool;
  nm_ListConnections : M W (option (list string));
  nm_GetSettings : string -> M W (option (option (settings)));
  nm_AddConnectionUnsaved : settings -> M W (option string);
  nm_UpdateUnsaved : string -> settings -> M W bool;
  nm_GetDeviceByIpIface : string -> M W (option string);
  nm_ActivateConnection : string -> string -> M W bool
}.

Section nm.
Context `{NetworkManager W}.

Definition prepareConn (ifname : string) (ip : Addr) (mtu : Z) : settings :=
  {[ "connection"%string := {[ "id"%string := VStr ifname; "interface-name"%string := VStr ifname; "type"%string := VStr "tun" ]};
     "802-3-ethernet"%string := {[ "mtu"%string := VU32 (u32 mtu) ]};
     "tun"%string := {[ "pi"%string := VBool false ]};
     "ipv6"%string := {[ "method"%string := VStr "manual";
                         "address-data"%string := VPrefixes "address" [(NetipText.String_ ip, 128)];
                         "route-data"%string := VPrefixes "dest" [("fc00::"%string, 8)];
                         "dns"%string := VBytes [0xfc :: zeros 14 ++ [1]];
                         "dns-search"%string := VStrs ["~rovy."%string] ]};
     "ipv4"%string := {[ "method"%string := VStr "disabled" ]} ]}.

(** The interface name in a connection; a value that is not a string panics. *)
Definition conn_ifname (cfg : settings) : res (option string) :=
  match cfg !! "connection"%string with
  | None => Ok None
  | Some c =>
      match c !! "interface-name"%string with
      | None => Ok None
      | Some (VStr s) => Ok (Some s)
      | Some _ => Panic
      end
  end.

(** The loop of [findConn]: the last connection that matches is kept. *)
Fixpoint find_loop (ifname : string) (paths : list string) (connPath : string) (conn : option (settings))
  : M W (string * option (settings) * option error) :=
  match paths with
  | [] => mret (connPath, conn, None)
  | path :: paths =>
      r ← nm_GetSettings path;
      match r with
      | None => mret (connPath, None, Some (ECall "GetSettings"))
      | Some None => panic
      | Some (Some cfg) =>
          match conn_ifname cfg with
          | Panic => panic
          | Block => block
          | Ok (Some name) =>
              if String.eqb name ifname then find_loop ifname paths path (Some cfg)
              else find_loop ifname paths connPath conn
          | Ok None => find_loop ifname paths connPath conn
          end
      end
  end.

Definition findConn (ifname : string) : M W (string * option (settings) * option error) :=
  r ← nm_ListConnections;
  match r with
  | None => mret (""%string, None, Some (ECall "ListConnections"))
  | Some paths => find_loop ifname paths "" None
  end.

Definition createConn (cfg : settings) : M W (string * option error) :=
  r ← nm_AddConnectionUnsaved cfg;
  match r with
  | None => mret (""%string, Some (ECall "AddConnectionUnsaved"))
  | Some path => mret (path, None)
  end.

Definition updateConn (path : string) (cfg : settings) : M W (option error) :=
  ok ← nm_UpdateUnsaved path cfg;
  mret (if ok : bool then None else Some (ECall "UpdateUnsaved")).

(** [connCfg[k] = newCfg[k]]: reading a missing key gives a nil map, which is
    stored. *)
Definition replace_section (k : string) (new old : settings) : settings :=
  <[k := default ∅ (new !! k)]> old.

(** An error of [findConn] is not passed on. *)
Definition updateOrCreateConn (ifname : string) (ip : Addr) (mtu : Z) : M W (string * option error) :=
  let newCfg := prepareConn ifname ip mtu in
  '(connPath, connCfg, err) ← findConn ifname;
  match err with
  | Some _ => mret (connPath, None)
  | None =>
      match connCfg with
      | Some cfg =>
          let cfg := replace_section "802-3-ethernet" newCfg cfg in
          let cfg := replace_section "tun" newCfg cfg in
          let cfg := replace_section "ipv6" newCfg cfg in
          let cfg := replace_section "ipv4" newCfg cfg in
          err ← updateConn connPath cfg;
          mret (connPath, err)
      | None => createConn newCfg
      end
  end.

Definition getDevice (ifname : string) : M W (string * option error) :=
  r ← nm_GetDeviceByIpIface ifname;
  match r with
  | None => mret (""%string, Some (ECall "GetDeviceByIpIface"))
  | Some devpath => mret (devpath, None)
  end.

Definition activateConn (conn device : string) : M W (option error) :=
  ok ← nm_ActivateConnection conn device;
  mret (if ok : bool then None else Some (ECall "ActivateConnection")).

Context `{Kernel}.

(** [NMTUN.Start]: the descriptors beside NetworkManager. A descriptor of 0
    means that none was bound yet. *)
Definition Start (ifname : string) (ip : Addr) (mtu : Z) : M (gset Z * W) (Z + error) :=
  bus ← zoom snd_lens nm_SystemBus;
  if negb bus then mret (inr EDbus) else
  match checkTunExists ifname with
  | inr e => mret (inr e)
  | inl devPresent =>
      r ← (if devPresent : bool then zoom fst_lens (bindTun ifname) else mret (inl 0));
      match r with
      | inr e => mret (inr e)
      | inl tunfd =>
          '(settingspath, err) ← zoom snd_lens (updateOrCreateConn ifname ip mtu);
          match err with
          | Some e => mret (inr e)
          | None =>
              '(devpath, err) ← zoom snd_lens (getDevice ifname);
              match err with
              | Some e => mret (inr e)
              | None =>
                  err ← zoom snd_lens (activateConn settingspath devpath);
                  match err with
                  | Some e => mret (inr e)
                  | None =>
                      r ← (if tunfd =? 0 then zoom fst_lens (bindTun ifname) else mret (inl tunfd));
                      match r with
                      | inr e => mret (inr e)
                      | inl tunfd => mret (FileTUN tunfd)
                      end
                  end
              end
          end
      end
  end.
End nm.

(** ** tun_netlink.go *)

Inductive nl_op : Type :=
| LinkSetMTU (mtu : Z)
| AddrAdd (addr : string)
| LinkSetUp
| RouteAdd (dst : string).

Class Netlink : Type := {
  nl_LinkByName : string -> bool;
  nl_ParseAddr : string -> bool;
  nl_do : nl_op -> bool
}.

Section netlink.
Context `{Kernel, Netlink}.

(** The descriptors and what was done to the link so far. *)
Definition nl (op : nl_op) : M (gset Z * list nl_op) bool :=
  if nl_do op then _ ← zoom snd_lens (modify (fun l => l ++ [op])); mret true else mret false.

Definition Close (fd : Z) : M (gset Z * list nl_op) unit := zoom fst_lens (modify (fun s => s ∖ {[fd]})).

Definition fail (fd : Z) (step : string) : M (gset Z * list nl_op) (Z + error) :=
  _ ← Close fd; mret (inr (ENetlink step)).

(** [ip6] is the text of the address. A route that cannot be added is only
    logged. *)
Definition NetlinkTun (ifname ip6 : string) (mtu : Z) : M (gset Z * list nl_op) (Z + error) :=
  r ← zoom fst_lens (bindTun ifname);
  match r with
  | inr e => mret (inr e)
  | inl fd =>
      if negb (CreateTUNFromFD fd) then mret (inr ECreate) else
      if negb (nl_LinkByName ifname) then fail fd "LinkByName" else
      ok ← nl (LinkSetMTU mtu);
      if negb ok then fail fd "LinkSetMTU" else
      if negb (nl_ParseAddr (ip6 +:+ "/128")) then fail fd "ParseAddr" else
      ok ← nl (AddrAdd (ip6 +:+ "/128"));
      if negb ok then fail fd "AddrAdd" else
      ok ← nl LinkSetUp;
      if negb ok then fail fd "LinkSetUp" else
      _ ← nl (RouteAdd "fc00::/8");
      mret (inl fd)
  end.

(** The namespace the thread is in, beside the rest: [netns.New] makes one and
    enters it, and the result of going back is not looked at. *)
Definition NetlinkTunWithNamespace (ns_Get : bool) (ns_New : option Z) (ns_Set : Z -> bool)
    (ifname ip6 : string) (mtu : Z) : M (Z * (gset Z * list nl_op)) (Z + error) :=
  origns ← gets fst;
  if negb ns_Get then mret (inr (ENetlink "netns.Get")) else
  match ns_New with
  | None => mret (inr (ENetlink "netns.New"))
  | Some newns =>
      _ ← zoom fst_lens (modify (fun _ => newns));
      dev ← zoom snd_lens (NetlinkTun ifname ip6 mtu);
      _ ← zoom fst_lens (modify (fun ns => if ns_Set origns then origns else ns));
      mret dev
  end.
End netlink.
End Tun.
Import Tun.

(** ** Descriptors *)

Lemma undo_open (fd : Z) (s : gset Z) : fd ∉ s -> ({[fd]} ∪ s) ∖ {[fd]} = s.
Proof. intros Hf. apply set_eq. intros x. set_unfold. naive_solver. Qed.

Section bind_spec.
Context `{Kernel}.

Lemma bindTun_cases (ifname : string) (s : gset Z) :
  (forall fd, tun_Open = Some fd -> fd ∉ s) ->
  exists r s', bindTun ifname s = Ok (r, s') /\
    match r with
    | inl fd => tun_Open = Some fd /\ s' = {[fd]} ∪ s /\ zlen (string_bytes ifname) < IFNAMSIZ /\
        tun_Ioctl fd (ifreq ifname) = true
    | inr e => s' = s /\ e <> ECreate
    end.
Proof.
  intros Hf. unfold bindTun. destruct tun_Open as [fd|] eqn:Eo; [|by eexists _, _].
  specialize (Hf fd eq_refl). pose proof (undo_open fd s Hf) as Hback.
  destruct (Z.leb_spec IFNAMSIZ (zlen (string_bytes ifname))).
  { eexists _, _. split; [reflexivity|]. by split. }
  destruct (tun_Ioctl fd (ifreq ifname)) eqn:Ei; [|eexists _, _; split; [reflexivity|]; by split].
  destruct (tun_SetNonblock fd); [|eexists _, _; split; [reflexivity|]; by split].
  eexists _, _. split; [reflexivity|]. done.
Qed.

(** Binding leaves no descriptor behind: an error leaves the open
    descriptors as they were, success adds exactly the new one, and the name
    was short enough for the request. *)
Theorem bindTun_descriptors (ifname : string) (s : gset Z) :
  (forall fd, tun_Open = Some fd -> fd ∉ s) ->
  exists r s', bindTun ifname s = Ok (r, s') /\
    match r with
    | inl fd => tun_Open = Some fd /\ s' = {[fd]} ∪ s /\ zlen (string_bytes ifname) < IFNAMSIZ /\
        tun_Ioctl fd (ifreq ifname) = true
    | inr _ => s' = s
    end.
Proof.
  intros Hf. destruct (bindTun_cases ifname s Hf) as (r & s' & E & Hr). exists r, s'. split; [done|].
  destruct r; [done|apply Hr].
Qed.

(** The request has the name at the front, padded to sixteen bytes, and the
    flags for a TUN device without packet information after it. *)
Theorem ifreq_layout (ifname : string) :
  zlen (string_bytes ifname) < IFNAMSIZ ->
  ifreq ifname = string_bytes ifname ++ zeros (IFNAMSIZ - zlen (string_bytes ifname)) ++ [0x01; 0x10] ++ zeros 62.
Proof.
  intros Hl. unfold ifreq, ifReqSize, IFNAMSIZ in *. set (b := string_bytes ifname) in *. clearbody b.
  change (le_bytes 2 (Z.lor IFF_TUN IFF_NO_PI)) with [0x01; 0x10].
  assert (E1 : splice (zeros (16 + 64)) 0 b = b ++ zeros (16 - zlen b) ++ zeros 64).
  { unfold splice. change (Z.to_nat 0) with 0%nat. rewrite take_0. cbn [Nat.add app]. f_equal. unfold zeros.
    rewrite drop_replicate, <- replicate_add. f_equal. unfold zlen in *. lia. }
  rewrite E1. unfold splice. rewrite !(app_assoc b (zeros (16 - zlen b)) _).
  assert (E2 : List.length (b ++ zeros (16 - zlen b)) = 16%nat) by (unfold zeros, zlen in *; rewrite length_app, length_replicate; lia).
  rewrite take_app_length' by (rewrite E2; done). rewrite drop_app_ge by (rewrite E2; cbn; lia). rewrite E2.
  done.
Qed.
End bind_spec.

Section netlink_spec.
Context `{Kernel, Netlink}.

(** C34: setting up the device by netlink: on success the link has the MTU, the
    address and is up, in this order, with the route if it could be added; on
    failure the descriptor is closed again; only when the device cannot be made
    from it, it is left to the library that was given it. *)
Theorem NetlinkTun_spec (ifname ip6 : string) (mtu : Z) (s : gset Z) :
  (forall fd, tun_Open = Some fd -> fd ∉ s) ->
  exists r s' l, NetlinkTun ifname ip6 mtu (s, []) = Ok (r, (s', l)) /\
    match r with
    | inl fd => s' = {[fd]} ∪ s /\
        exists route, l = [LinkSetMTU mtu; AddrAdd (ip6 +:+ "/128"); LinkSetUp] ++ route /\
          (route = [] \/ route = [RouteAdd "fc00::/8"])
    | inr ECreate => exists fd, tun_Open = Some fd /\ s' = {[fd]} ∪ s
    | inr _ => s' = s
    end.
Proof.
  intros Hf. destruct (bindTun_cases ifname s Hf) as (r & s1 & E & Hr). unfold NetlinkTun.
  erewrite bind_ok by (unfold zoom; cbn [view fst_lens fst]; rewrite E; reflexivity). cbn [over fst_lens snd].
  destruct r as [fd|e].
  2: { eexists _, _, _. split; [reflexivity|]. destruct Hr as [-> He]. by destruct e. }
  destruct Hr as (Ho & -> & _). specialize (Hf fd Ho).
  pose proof (undo_open fd s Hf) as Hback.
  assert (Hfail : forall step l, fail fd step ({[fd]} ∪ s, l) = Ok (inr (ENetlink step), (s, l))).
  { intros step l. unfold fail, Close. erewrite bind_ok by reflexivity. cbn. by rewrite Hback. }
  assert (Hnl : forall op x l, nl op (x, l) = Ok (nl_do op, (x, if nl_do op then l ++ [op] else l))).
  { intros op x l. unfold nl. by destruct (nl_do op). }
  destruct (CreateTUNFromFD fd); cbn [negb]; [|eexists _, _, _; split; [reflexivity|]; by exists fd].
  destruct (nl_LinkByName ifname); cbn [negb]; [|rewrite Hfail; by eexists _, _, _].
  erewrite bind_ok by apply Hnl. destruct (nl_do (LinkSetMTU mtu)); cbn [negb]; [|rewrite Hfail; by eexists _, _, _].
  destruct (nl_ParseAddr _); cbn [negb]; [|rewrite Hfail; by eexists _, _, _].
  erewrite bind_ok by apply Hnl. destruct (nl_do (AddrAdd _)); cbn [negb]; [|rewrite Hfail; by eexists _, _, _].
  erewrite bind_ok by apply Hnl. destruct (nl_do LinkSetUp); cbn [negb]; [|rewrite Hfail; by eexists _, _, _].
  erewrite bind_ok by apply Hnl. eexists _, _, _. split; [reflexivity|]. split; [done|].
  destruct (nl_do (RouteAdd "fc00::/8")); [exists [RouteAdd "fc00::/8"]; auto|exists []; auto].
Qed.

(** A thread that can go back is in the namespace it started in, whatever
    became of the device. *)
Theorem NetlinkTunWithNamespace_returns (ns_Get : bool) (ns_New : option Z) (ns_Set : Z -> bool)
    (ifname ip6 : string) (mtu ns : Z) (s : gset Z * list nl_op) r s' :
  ns_Set ns = true ->
  NetlinkTunWithNamespace ns_Get ns_New ns_Set ifname ip6 mtu (ns, s) = Ok (r, s') -> fst s' = ns.
Proof.
  intros Hs. unfold NetlinkTunWithNamespace. erewrite bind_ok by reflexivity. cbn [fst].
  destruct ns_Get; cbn [negb]; [|by intros [= <- <-]]. destruct ns_New as [newns|]; [|by intros [= <- <-]].
  erewrite bind_ok by reflexivity. unfold mbind, M_bind, zoom. cbn [view over fst_lens snd_lens fst snd].
  destruct (NetlinkTun _ _ _ _) as [[dev x]| |]; [|done|done]. cbn. rewrite Hs. by intros [= <- <-].
Qed.
End netlink_spec.

(** ** The NetworkManager connection *)

(** A NetworkManager that answers every call: [conns] are its connections. *)
Class NMAnswers `{NetworkManager W} (conns : W -> settings_map) : Prop := {
  nm_list : forall w, exists l w', nm_ListConnections w = Ok (Some l, w') /\ conns w' = conns w /\
    forall p, p ∈ l <-> is_Some (conns w !! p);
  nm_get : forall w p cfg, conns w !! p = Some cfg ->
    exists w', nm_GetSettings p w = Ok (Some (Some cfg), w') /\ conns w' = conns w;
  nm_add : forall w cfg, exists p w', nm_AddConnectionUnsaved cfg w = Ok (Some p, w') /\
    conns w !! p = None /\ conns w' = <[p := cfg]> (conns w);
  nm_update : forall w p cfg, is_Some (conns w !! p) ->
    exists w', nm_UpdateUnsaved p cfg w = Ok (true, w') /\ conns w' = <[p := cfg]> (conns w)
}.

Section nm_spec.
Context `{NetworkManager W} (conns : W -> settings_map) `{!NMAnswers conns}.

(** Interface names are strings. *)
Definition well_typed (w : W) : Prop := forall p cfg, conns w !! p = Some cfg -> exists o, conn_ifname cfg = Ok o.

(** What [findConn] may have found so far. *)
Definition found (w : W) (ifname path : string) (conn : option settings) : Prop :=
  forall cfg, conn = Some cfg -> conns w !! path = Some cfg /\ conn_ifname cfg = Ok (Some ifname).

Lemma find_conns_spec ifname l w path conn :
  well_typed w -> (forall p, p ∈ l -> is_Some (conns w !! p)) -> found w ifname path conn ->
  exists path' conn' w', find_loop ifname l path conn w = Ok ((path', conn', None), w') /\ conns w' = conns w /\
    found w ifname path' conn' /\
    (conn' = None -> conn = None /\ forall p cfg, p ∈ l -> conns w !! p = Some cfg -> conn_ifname cfg <> Ok (Some ifname)).
Proof.
  revert w path conn. induction l as [|p l IH]; intros w path conn Ht Hl Hf; cbn [find_loop].
  { eexists _, _, _. split; [reflexivity|]. split; [done|]. split; [done|]. intros ->. split; [done|].
    intros p cfg Hp. by apply not_elem_of_nil in Hp. }
  destruct (Hl p (list_elem_of_here _ _)) as [cfg Hp]. destruct (nm_get w p cfg Hp) as (w1 & E1 & Hw1).
  erewrite bind_ok by exact E1. destruct (Ht p cfg Hp) as [o Ho]. rewrite Ho.
  assert (Ht1 : well_typed w1) by (unfold well_typed; by rewrite Hw1).
  assert (Hl1 : forall q, q ∈ l -> is_Some (conns w1 !! q)).
  { intros q Hq. rewrite Hw1. apply Hl. by apply list_elem_of_further. }
  assert (Step : forall path conn, found w ifname path conn ->
    (conn = None -> o <> Some ifname) ->
    exists path' conn' w', find_loop ifname l path conn w1 = Ok ((path', conn', None), w') /\ conns w' = conns w /\
      found w ifname path' conn' /\
      (conn' = None -> conn = None /\ forall q c, q ∈ p :: l -> conns w !! q = Some c -> conn_ifname c <> Ok (Some ifname))).
  { intros path0 conn0 Hf0 Ho0. destruct (IH w1 path0 conn0 Ht1 Hl1) as (path' & conn' & w' & E & Hw' & Hf' & Hn').
    { unfold found. by rewrite Hw1. }
    exists path', conn', w'. split; [done|]. split; [congruence|]. unfold found in *. rewrite Hw1 in *. split; [done|].
    intros Hc. destruct (Hn' Hc) as [Hc0 Hnone]. split; [done|]. intros q c [->|Hq]%elem_of_cons Hq'; [|by eapply Hnone].
    rewrite Hp in Hq'. injection Hq' as <-. rewrite Ho. intros [= Heq]. by apply Ho0. }
  destruct o as [name|]; [|by apply Step].
  destruct (String.eqb_spec name ifname) as [->|Hne]; [|by apply Step; [|congruence]].
  destruct (Step p (Some cfg)) as (path' & conn' & w' & E & Hw' & Hf' & Hn'); [by intros ? [= <-]|done|].
  exists path', conn', w'. split; [done|]. split; [done|]. split; [done|]. intros Hc. by destruct (Hn' Hc).
Qed.

(** The sections that are written. *)
Definition our_sections : list string := ["802-3-ethernet"; "tun"; "ipv6"; "ipv4"]%string.

Definition replace_sections (new cfg : settings) : settings :=
  replace_section "ipv4" new (replace_section "ipv6" new (replace_section "tun" new (replace_section "802-3-ethernet" new cfg))).

Lemma replace_sections_ours ifname ip mtu cfg k :
  k ∈ our_sections -> replace_sections (prepareConn ifname ip mtu) cfg !! k = prepareConn ifname ip mtu !! k.
Proof.
  unfold our_sections. rewrite !elem_of_cons, elem_of_nil. intros Hk.
  unfold replace_sections, replace_section. destruct_or! Hk; subst k; try done; by simplify_map_eq.
Qed.

Lemma replace_sections_other new cfg k : k ∉ our_sections -> replace_sections new cfg !! k = cfg !! k.
Proof.
  unfold our_sections. rewrite !elem_of_cons, elem_of_nil. intros Hk.
  unfold replace_sections, replace_section. rewrite !lookup_insert_ne by (intros <-; tauto). done.
Qed.

(** After the connection was set up there is one for the interface with our
    address, routes, DNS and MTU: it is found under the path that is returned,
    a connection of that name is used again if there is one, keeping its other
    sections, and all other connections stay as they are. *)
Theorem updateOrCreateConn_spec (ifname : string) (ip : Addr) (mtu : Z) (w : W) :
  well_typed w ->
  exists path w' cfg, updateOrCreateConn ifname ip mtu w = Ok ((path, None), w') /\
    conns w' !! path = Some cfg /\ conn_ifname cfg = Ok (Some ifname) /\
    (forall k, k ∈ our_sections -> cfg !! k = prepareConn ifname ip mtu !! k) /\
    (forall q, q <> path -> conns w' !! q = conns w !! q) /\
    match conns w !! path with
    | Some old => conn_ifname old = Ok (Some ifname) /\ forall k, k ∉ our_sections -> cfg !! k = old !! k
    | None => forall q old, conns w !! q = Some old -> conn_ifname old <> Ok (Some ifname)
    end.
Proof.
  intros Ht. destruct (nm_list w) as (l & w1 & El & Hw1 & Hl).
  destruct (find_conns_spec ifname l w1 "" None) as (path & conn & w2 & Ef & Hw2 & Hf & Hn).
  { unfold well_typed. by rewrite Hw1. }
  { intros p Hp. rewrite Hw1. by apply Hl. }
  { done. }
  unfold updateOrCreateConn. erewrite bind_ok by (unfold findConn; erewrite bind_ok by exact El; exact Ef). cbv iota beta.
  unfold found in Hf. rewrite Hw1 in *. destruct conn as [old|].
  - destruct (Hf old eq_refl) as [Hp Hi]. cbv zeta. fold (replace_sections (prepareConn ifname ip mtu) old).
    set (cfg := replace_sections (prepareConn ifname ip mtu) old).
    destruct (nm_update w2 path cfg) as (w3 & Eu & Hw3); [rewrite Hw2; by eexists|].
    exists path, w3, cfg. split; [erewrite bind_ok by (unfold updateConn; erewrite bind_ok by exact Eu; reflexivity); done|].
    rewrite Hw3, Hw2, lookup_insert_eq, Hp. split; [done|].
    assert (Hk : forall k, k ∉ our_sections -> cfg !! k = old !! k) by (intros; by apply replace_sections_other).
    split; [|split; [intros; by apply replace_sections_ours|split; [intros q Hq; by rewrite lookup_insert_ne|done]]].
    rewrite <- Hi. unfold conn_ifname. rewrite Hk; [done|]. by apply (bool_decide_unpack _).
  - destruct (nm_add w2 (prepareConn ifname ip mtu)) as (p & w3 & Ea & Hp & Hw3).
    exists p, w3, (prepareConn ifname ip mtu).
    split; [unfold createConn; erewrite bind_ok by exact Ea; done|]. rewrite Hw2 in *.
    rewrite Hw3, lookup_insert_eq, Hp. split; [done|]. split; [done|]. split; [done|].
    split; [intros q Hq; by rewrite lookup_insert_ne|]. intros q old Hq. destruct (Hn eq_refl) as [_ Hno].
    eapply Hno; [|exact Hq]. apply Hl. by eexists.
Qed.
End nm_spec.

(** An error while looking for the connection is not passed on: the caller gets
    an empty path and no error, and activates that. *)
Theorem updateOrCreateConn_swallows `{NetworkManager W} (ifname : string) (ip : Addr) (mtu : Z) (w w' : W) :
  nm_ListConnections w = Ok (None, w') -> updateOrCreateConn ifname ip mtu w = Ok ((""%string, None), w').
Proof.
  intros E. unfold updateOrCreateConn. erewrite bind_ok by (unfold findConn; erewrite bind_ok by exact E; reflexivity). done.
Qed.

(** When the device was there and a later step fails, the descriptor that was
    bound to it stays open. *)
Theorem Start_leaks `{NetworkManager W, Kernel} (ifname : string) (ip : Addr) (mtu fd : Z) (s : gset Z) (w w1 w2 w3 : W) (path : string) :
  nm_SystemBus w = Ok (true, w1) -> checkTunExists ifname = inl true ->
  bindTun ifname s = Ok (inl fd, {[fd]} ∪ s) ->
  updateOrCreateConn ifname ip mtu w1 = Ok ((path, None), w2) -> nm_GetDeviceByIpIface ifname w2 = Ok (None, w3) ->
  Start ifname ip mtu (s, w) = Ok (inr (ECall "GetDeviceByIpIface"), ({[fd]} ∪ s, w3)).
Proof.
  intros Eb Ec Ebind Eu Eg. unfold Start.
  erewrite bind_ok by (unfold zoom; cbn [view snd_lens snd]; rewrite Eb; reflexivity). cbn [negb over snd_lens fst].
  rewrite Ec. erewrite bind_ok by (unfold zoom; cbn [view fst_lens fst]; rewrite Ebind; reflexivity). cbn [over fst_lens snd].
  erewrite bind_ok by (unfold zoom; cbn [view snd_lens snd]; rewrite Eu; reflexivity). cbn [over snd_lens fst].
  erewrite bind_ok; [|unfold zoom, getDevice; cbn [view snd_lens snd]; erewrite bind_ok by exact Eg; reflexivity].
  reflexivity.
Qed.

(** *** Witnesses *)

#[export] Instance toy_kernel : Kernel := {
  tun_Open := Some 5;
  tun_Ioctl := fun _ _ => true;
  tun_SetNonblock := fun _ => true;
  InterfaceByName := fun _ => Some true;
  CreateTUNFromFD := fun _ => true
}.
#[export] Instance toy_netlink : Netlink := {
  nl_LinkByName := fun _ => true;
  nl_ParseAddr := fun _ => true;
  nl_do := fun _ => true
}.

(** Connections in a map. *)

#[export] Instance toy_nm : NetworkManager settings_map := {
  nm_SystemBus := mret true;
  nm_ListConnections := gets (fun m => Some (map fst (map_to_list m)));
  nm_GetSettings := fun p m => Ok (Some <$> (m !! p), m);
  nm_AddConnectionUnsaved := fun cfg m => let p := fresh (dom m) in Ok (Some p, <[p := cfg]> m);
  nm_UpdateUnsaved := fun p cfg m => Ok (true, <[p := cfg]> m);
  nm_GetDeviceByIpIface := fun _ => mret None;
  nm_ActivateConnection := fun _ _ => mret true
}.

#[export] Instance toy_nm_answers : NMAnswers id.
Proof.
  constructor.
  - intros w. eexists _, _. split; [reflexivity|]. split; [done|]. intros p. unfold id. change (map fst (map_to_list w)) with ((map_to_list w).*1).
    rewrite list_elem_of_fmap. split.
    + intros [[q cfg] [-> Hq%elem_of_map_to_list]]. by eexists.
    + intros [cfg Hp]. exists (p, cfg). split; [done|]. by apply elem_of_map_to_list.
  - intros w p cfg E. exists w. cbn in *. unfold id in *. by rewrite E.
  - intros w cfg. eexists _, _. split; [reflexivity|]. split; [|done]. apply not_elem_of_dom, is_fresh.
  - intros w p cfg _. by eexists.
Qed.

Lemma bindTun_descriptors_witness :
  exists r s', bindTun "rovy0" ∅ = Ok (r, s') /\
    match r with
    | inl fd => tun_Open = Some fd /\ s' = {[fd]} ∪ ∅ /\ zlen (string_bytes "rovy0") < IFNAMSIZ /\
        tun_Ioctl fd (ifreq "rovy0") = true
    | inr _ => s' = ∅
    end.
Proof. apply bindTun_descriptors. intros fd _. apply not_elem_of_empty. Defined.

Lemma ifreq_layout_witness :
  ifreq "rovy0" = string_bytes "rovy0" ++ zeros (IFNAMSIZ - zlen (string_bytes "rovy0")) ++ [0x01; 0x10] ++ zeros 62.
Proof. by apply ifreq_layout. Defined.

Lemma NetlinkTun_spec_witness :
  exists r s' l, NetlinkTun "rovy0" "fc00::7" 1400 (∅, []) = Ok (r, (s', l)) /\
    match r with
    | inl fd => s' = {[fd]} ∪ ∅ /\
        exists route, l = [LinkSetMTU 1400; AddrAdd ("fc00::7" +:+ "/128"); LinkSetUp] ++ route /\
          (route = [] \/ route = [RouteAdd "fc00::/8"])
    | inr ECreate => exists fd, tun_Open = Some fd /\ s' = {[fd]} ∪ ∅
    | inr _ => s' = ∅
    end.
Proof. apply NetlinkTun_spec. intros fd _. apply not_elem_of_empty. Defined.

Definition fc7 : Addr := Addr6 (0xfc :: zeros 14 ++ [7]) "".

Lemma updateOrCreateConn_spec_witness :
  exists path w' cfg, updateOrCreateConn "rovy0" fc7 1400 (∅ : settings_map) = Ok ((path, None), w') /\
    id w' !! path = Some cfg /\ conn_ifname cfg = Ok (Some "rovy0"%string) /\
    (forall k, k ∈ our_sections -> cfg !! k = prepareConn "rovy0" fc7 1400 !! k) /\
    (forall q, q <> path -> id w' !! q = id (∅ : settings_map) !! q) /\
    match id (∅ : settings_map) !! path with
    | Some old => conn_ifname old = Ok (Some "rovy0"%string) /\ forall k, k ∉ our_sections -> cfg !! k = old !! k
    | None => forall q old, id (∅ : settings_map) !! q = Some old -> conn_ifname old <> Ok (Some "rovy0"%string)
    end.
Proof. apply (updateOrCreateConn_spec id). intros p cfg E. unfold id in E. by rewrite lookup_empty in E. Defined.

Lemma Start_leaks_witness :
  exists w, Start "rovy0" fc7 1400 (∅, (∅ : settings_map)) = Ok (inr (ECall "GetDeviceByIpIface"), ({[5]} ∪ ∅, w)).
Proof. eexists. eapply Start_leaks; reflexivity. Defined.
