(* ===== verification/Packet.v ===== *)
(** * Packet: the packet buffer and its two views (packet.go)

    A packet is a buffer, shared by every copy of the struct, together with
    by-value bookkeeping: a length and the addresses of each layer. [UpperPacket]
    and [LowerPacket] are the same buffer seen by the upper and the lower
    session layer. Setters write through the buffer; those that change the
    length return the changed struct. *)

From S2P Require Import Prelude GoMem Route Ext Toy Key PeerID Multiaddr.
Import Route PeerID Multiaddr.

Module Packet.

Definition LowerOffset : Z := 0.
Definition LowerPadding : Z := 0.
Definition FwdOffset : Z := 20.
Definition UpperOffset : Z := 16 + 4 + 16.
Definition UpperPadding : Z := 16.
Definition UpperMTU : Z := 1500 - 48 - 20 - 16 - 20 - 16 - 16.
Definition TptMTU : Z := 1500 - 48.

Section packet.
Context `{MaddrLib}.

Record Packet : Type := mkPacket {
  Buf : slice;
  Length : Z;
  TptSrc : Multiaddr;
  TptDst : Multiaddr;
  LowerSrc : PeerID;
  LowerDst : PeerID;
  UpperSrc : PeerID;
  UpperDst : PeerID
}.

(** Field assignments. *)
Definition set_Length (n : Z) (p : Packet) : Packet :=
  mkPacket (Buf p) n (TptSrc p) (TptDst p) (LowerSrc p) (LowerDst p) (UpperSrc p) (UpperDst p).
Definition set_TptSrc (a : Multiaddr) (p : Packet) : Packet :=
  mkPacket (Buf p) (Length p) a (TptDst p) (LowerSrc p) (LowerDst p) (UpperSrc p) (UpperDst p).
Definition set_TptDst (a : Multiaddr) (p : Packet) : Packet :=
  mkPacket (Buf p) (Length p) (TptSrc p) a (LowerSrc p) (LowerDst p) (UpperSrc p) (UpperDst p).
Definition set_LowerSrc (i : PeerID) (p : Packet) : Packet :=
  mkPacket (Buf p) (Length p) (TptSrc p) (TptDst p) i (LowerDst p) (UpperSrc p) (UpperDst p).
Definition set_LowerDst (i : PeerID) (p : Packet) : Packet :=
  mkPacket (Buf p) (Length p) (TptSrc p) (TptDst p) (LowerSrc p) i (UpperSrc p) (UpperDst p).
Definition set_UpperSrc (i : PeerID) (p : Packet) : Packet :=
  mkPacket (Buf p) (Length p) (TptSrc p) (TptDst p) (LowerSrc p) (LowerDst p) i (UpperDst p).
Definition set_UpperDst (i : PeerID) (p : Packet) : Packet :=
  mkPacket (Buf p) (Length p) (TptSrc p) (TptDst p) (LowerSrc p) (LowerDst p) (UpperSrc p) i.

Definition NewPacket (buf : slice) : Packet :=
  mkPacket buf (s_len buf) zeroMultiaddr zeroMultiaddr emptyPeerID emptyPeerID emptyPeerID emptyPeerID.

(** [pkt.Buf[:pkt.Length]]. *)
Definition Bytes (pkt : Packet) : M heap slice := reslice (Buf pkt) 0 (Length pkt).

Definition MsgType (pkt : Packet) : M heap Z :=
  t ← reslice (Buf pkt) 0 4; get_le32 t.

Definition SetMsgType (pkt : Packet) (msgt : Z) : M heap unit :=
  t ← reslice (Buf pkt) 0 4; put_le32 t msgt.
End packet.

(** ** The upper view *)

Module UpperPacket.
Section upper.
Context `{MaddrLib}.

Record UpperPacket : Type := mkUpper {
  Offset : Z;
  Padding : Z;
  pkt : Packet
}.

Definition NewUpperPacket (basepkt : Packet) : UpperPacket := mkUpper (UpperOffset + 16) 32 basepkt.

Definition Route_ (u : UpperPacket) : M heap Route :=
  let o := FwdOffset in
  length ← s_get (Buf (pkt u)) (o + 1);
  t ← reslice (Buf (pkt u)) (o + 2) (o + 2 + length);
  mret (NewRoute t).

Definition RouteLen (u : UpperPacket) : M heap Z := s_get (Buf (pkt u)) (FwdOffset + 1).

(** [for i := i0; i < 16; i++ { pkt.Buf[o+i] = 0x0 }], [n] iterations from [i]. *)
Fixpoint zero_loop (buf : slice) (o i : Z) (n : nat) : M heap unit :=
  match n with
  | O => mret tt
  | S n => _ ← s_set buf (o + i) 0; zero_loop buf o (i + 1) n
  end.

Definition SetRoute (u : UpperPacket) (rt : Route) : M heap unit :=
  let o := FwdOffset in
  let length := Len rt in
  _ ← s_set (Buf (pkt u)) (o + 0) 0x0;
  _ ← s_set (Buf (pkt u)) (o + 1) (u8 length);
  dst ← reslice (Buf (pkt u)) (o + 2) (o + 2 + length);
  src ← s_read (Route.Bytes rt);
  _ ← s_copy dst src;
  zero_loop (Buf (pkt u)) o (2 + length) (Z.to_nat (16 - (2 + length))).

(** The codec, or [None] for a varint error. *)
Definition Codec `{Varint} (u : UpperPacket) : M heap (option Z) :=
  let o := Offset u + 0 in
  b ← buf_read (Buf (pkt u)) (o + 0) (o + 4);
  mret (fst <$> varint_From b).

Definition SetCodec `{Varint} (u : UpperPacket) (codec : Z) : M heap unit :=
  let o := Offset u + 0 in
  let buf := varint_To codec in
  if 4 <? zlen buf then panic else buf_write (Buf (pkt u)) (o + 0) (o + 4) buf.

Definition Payload (u : UpperPacket) : M heap slice :=
  let o := Offset u + 4 in
  reslice (Buf (pkt u)) o (Length (pkt u) - Padding u).

Definition SetPayload (u : UpperPacket) (pl : list Z) : M heap UpperPacket :=
  let o := Offset u + 4 in
  let p := set_Length (o + zlen pl + Padding u) (pkt u) in
  _ ← buf_write (Buf p) o (Length p - Padding u) pl;
  mret (mkUpper (Offset u) (Padding u) p).
End upper.
End UpperPacket.

(** ** The lower view *)

Module LowerPacket.
Section lower.
Context `{MaddrLib}.

Record LowerPacket : Type := mkLower {
  Offset : Z;
  pkt : Packet
}.

Definition NewLowerPacket (basepkt : Packet) : LowerPacket := mkLower 16 basepkt.

Definition Codec `{Varint} (p : LowerPacket) : M heap (option Z) :=
  let o := Offset p + 0 in
  b ← buf_read (Buf (pkt p)) (o + 0) (o + 4);
  mret (fst <$> varint_From b).

Definition SetCodec `{Varint} (p : LowerPacket) (codec : Z) : M heap unit :=
  let o := Offset p + 0 in
  let buf := varint_To codec in
  if 4 <? zlen buf then panic else buf_write (Buf (pkt p)) (o + 0) (o + 4) buf.

Definition Payload (p : LowerPacket) : M heap slice :=
  let o := Offset p + 4 in
  reslice (Buf (pkt p)) o (Length (pkt p) - 16).

Definition SetPayload (p : LowerPacket) (pl : list Z) : M heap LowerPacket :=
  let o := Offset p + 4 in
  let q := set_Length (o + zlen pl + 16) (pkt p) in
  _ ← buf_write (Buf q) o (Length q - 16) pl;
  mret (mkLower (Offset p) q).
End lower.
End LowerPacket.

End Packet.
Import Packet.

Section spec.
Context `{MaddrLib}.
Implicit Types (p : Packet) (h : heap) (l : list Z).

Lemma MsgType_full p h l :
  full h (Buf p) l -> 4 <= zlen l -> MsgType p h = Ok (le_val (sub l 0 4), h).
Proof. intros. unfold MsgType. mstep. eapply (window_get_le32 _ _ _ 0); eauto; lia. Qed.

Lemma SetMsgType_full p h l v :
  full h (Buf p) l -> 4 <= zlen l ->
  SetMsgType p v h = Ok (tt, upd h (s_arr (Buf p)) (splice l 0 (le_bytes 4 v))).
Proof. intros. unfold SetMsgType. mstep. eapply (window_put_le32 _ _ _ 0); eauto; lia. Qed.

Lemma zero_loop_full buf o n : forall h l i,
  full h buf l -> 0 <= o + i -> o + i + Z.of_nat n <= zlen l ->
  UpperPacket.zero_loop buf o i n h = Ok (tt, upd h (s_arr buf) (splice l (o + i) (zeros (Z.of_nat n)))).
Proof.
  induction n as [|n IH]; intros h l i Hf H0 H1; cbn [UpperPacket.zero_loop].
  - change (zeros (Z.of_nat 0)) with (@nil Z). rewrite splice_nil.
    rewrite upd_same by apply Hf. reflexivity.
  - mstep. erewrite IH; [|fl|lia|zl]. rewrite upd_upd.
    assert (Hz : zeros (Z.of_nat (S n)) = [0] ++ zeros (Z.of_nat n))
      by (unfold zeros; by rewrite !Nat2Z.id).
    rewrite Hz, splice_app by zl. change (zlen [0]) with 1.
    by rewrite <- Z.add_assoc.
Qed.

(** The forwarder header written for a route of at most fourteen hops. *)
Definition route_header (pos : Z) (hops : list Z) : list Z :=
  pos :: zlen hops :: hops ++ zeros (14 - zlen hops).

Lemma zlen_route_header pos hops : zlen hops <= 14 -> zlen (route_header pos hops) = 16.
Proof. intros. unfold route_header. pose proof (zlen_nonneg hops). zl. Qed.

Lemma route_header_pos pos pos' hops :
  splice (route_header pos hops) 0 [pos'] = route_header pos' hops.
Proof. reflexivity. Qed.

Lemma route_header_hop pos hops i v :
  0 <= i < zlen hops -> zlen hops <= 14 ->
  splice (route_header pos hops) (2 + i) [v] = route_header pos (<[Z.to_nat i := v]> hops).
Proof.
  intros Hi Hh. rewrite splice_single by (rewrite zlen_route_header; lia). unfold route_header.
  replace (Z.to_nat (2 + i)) with (S (S (Z.to_nat i))) by lia.
  assert (Hz : zlen (<[Z.to_nat i := v]> hops) = zlen hops) by llia. rewrite Hz.
  change (<[S (S (Z.to_nat i)) := v]> (pos :: zlen hops :: ?x)) with (pos :: zlen hops :: <[Z.to_nat i := v]> x).
  rewrite insert_app_l by (unfold zlen in *; lia). done.
Qed.

Lemma route_header_get pos hops i :
  0 <= i < zlen hops -> getz (route_header pos hops) (2 + i) = getz hops i.
Proof.
  intros Hi. unfold route_header, getz. replace (Z.to_nat (2 + i)) with (S (S (Z.to_nat i))) by lia.
  cbn [nth]. apply app_nth1. unfold zlen in *. lia.
Qed.

Lemma is_bytes_route_header pos hops :
  is_byte pos -> is_bytes hops -> zlen hops <= 14 -> is_bytes (route_header pos hops).
Proof.
  intros. pose proof (zlen_nonneg hops). unfold route_header. repeat constructor; unfold is_byte in *; try lia.
  apply Forall_app; split; [done|apply is_bytes_zeros].
Qed.

Lemma SetRoute_full (u : UpperPacket.UpperPacket) rt h l :
  full h (Buf (UpperPacket.pkt u)) l -> 36 <= zlen l ->
  route_ok h rt -> Len rt <= 14 -> s_arr (hops rt) <> s_arr (Buf (UpperPacket.pkt u)) ->
  UpperPacket.SetRoute u rt h =
    Ok (tt, upd h (s_arr (Buf (UpperPacket.pkt u))) (splice l 20 (route_header 0 (bytes_of h rt)))).
Proof.
  intros Hf Hl Hr Hlen Hne. pose proof Hr as (?&[? ?]&?). pose proof (zlen_contents _ _ Hr) as Hz.
  unfold UpperPacket.SetRoute, FwdOffset, Len in *.
  do 3 mstep. erewrite bind_ok by reflexivity.
  assert (Hc : forall l', contents (upd h (s_arr (Buf (UpperPacket.pkt u))) l') (Route.Bytes rt) = bytes_of h rt)
    by (intros l'; unfold contents, bytes_of, Route.Bytes; by rewrite arr_upd_ne).
  rewrite Hc. erewrite bind_ok by (eapply window_copy; [fl|zl|zl|unfold bytes_of; lia]).
  rewrite upd_upd. unfold bytes_of in *.
  erewrite zero_loop_full; [|fl|lia|zl]. rewrite upd_upd. do 3 f_equal.
  unfold route_header. rewrite Hz.
  change (0 :: s_len (hops rt) :: ?x) with ([0] ++ [s_len (hops rt)] ++ x).
  rewrite !splice_app by zl. autorewrite with zlen. rewrite Hz.
  rewrite u8_id by (unfold is_byte; lia).
  replace (Z.of_nat (Z.to_nat (16 - (2 + s_len (hops rt))))) with (14 - s_len (hops rt)) by lia.
  by replace (20 + (2 + s_len (hops rt))) with (20 + (1 + 0) + (1 + 0) + s_len (hops rt)) by lia.
Qed.

(** Reading the fields of an upper packet from the bytes of its buffer. *)
Lemma Route_window (u : UpperPacket.UpperPacket) h l :
  full h (Buf (UpperPacket.pkt u)) l -> 0 <= getz l 21 -> 22 + getz l 21 <= zlen l ->
  exists rt, UpperPacket.Route_ u h = Ok (rt, h) /\ route_ok h rt /\
    s_arr (hops rt) = s_arr (Buf (UpperPacket.pkt u)) /\
    bytes_of h rt = sub l 22 (getz l 21).
Proof.
  intros Hf Hg Hl.
  unfold UpperPacket.Route_, FwdOffset. change (20 + 1) with 21. change (20 + 2) with 22.
  do 2 mstep. eexists; split; [reflexivity|]. split; [|split]; [|reflexivity|].
  - unfold route_ok, slice_ok; simpl. rewrite (full_arr _ _ _ Hf). destruct Hf as (_&?&?&?). lia.
  - unfold bytes_of, NewRoute; simpl. erewrite window_contents by (eauto; lia). f_equal. lia.
Qed.

Lemma Route_full (u : UpperPacket.UpperPacket) h l :
  full h (Buf (UpperPacket.pkt u)) l -> is_bytes l -> 22 + getz l 21 <= zlen l ->
  exists rt, UpperPacket.Route_ u h = Ok (rt, h) /\ route_ok h rt /\
    s_arr (hops rt) = s_arr (Buf (UpperPacket.pkt u)) /\
    bytes_of h rt = sub l 22 (getz l 21).
Proof.
  intros Hf Hb. pose proof (getz_byte l 21 Hb) as Hg. unfold is_byte in Hg. apply Route_window; [done|lia].
Qed.

Lemma Payload_full (u : UpperPacket.UpperPacket) h l (o := UpperPacket.Offset u + 4)
    (e := Length (UpperPacket.pkt u) - UpperPacket.Padding u) :
  full h (Buf (UpperPacket.pkt u)) l -> 0 <= o <= e -> e <= zlen l ->
  UpperPacket.Payload u h = Ok (window (Buf (UpperPacket.pkt u)) o e, h).
Proof. intros. unfold UpperPacket.Payload. by eapply reslice_window. Qed.

Section varint.
Context `{VarintLaws}.

Lemma SetCodec_full (u : UpperPacket.UpperPacket) codec h l :
  full h (Buf (UpperPacket.pkt u)) l -> 0 <= UpperPacket.Offset u -> UpperPacket.Offset u + 4 <= zlen l ->
  0 <= codec < 2 ^ 28 ->
  UpperPacket.SetCodec u codec h =
    Ok (tt, upd h (s_arr (Buf (UpperPacket.pkt u))) (splice l (UpperPacket.Offset u) (varint_To codec))).
Proof.
  intros. pose proof (varint_To_4 codec). unfold UpperPacket.SetCodec.
  replace (4 <? zlen (varint_To codec)) with false by lia.
  rewrite Z.add_0_r. erewrite buf_write_full by (eauto; rewrite ?Z.add_0_r; lia).
  by rewrite Z.add_0_r.
Qed.

(** The codec is read from the four bytes at the offset, whatever follows it
    there. *)
Lemma varint_read l o codec :
  0 <= o -> o + 4 <= zlen l -> 0 <= codec < 2 ^ 28 ->
  varint_From (sub (splice l o (varint_To codec)) o 4) = Some (codec, zlen (varint_To codec)).
Proof.
  intros. pose proof (varint_To_4 codec). pose proof (zlen_nonneg (varint_To codec)).
  replace 4 with (zlen (varint_To codec) + (4 - zlen (varint_To codec))) by lia.
  rewrite sub_split by zl. rewrite sub_splice_eq by lia. apply varint_From_To. lia.
Qed.

Lemma Codec_full (u : UpperPacket.UpperPacket) h l :
  full h (Buf (UpperPacket.pkt u)) l -> 0 <= UpperPacket.Offset u -> UpperPacket.Offset u + 4 <= zlen l ->
  UpperPacket.Codec u h = Ok (fst <$> varint_From (sub l (UpperPacket.Offset u) 4), h).
Proof.
  intros. unfold UpperPacket.Codec. rewrite !Z.add_0_r. mstep.
  unfold mret, M_ret. do 5 f_equal. lia.
Qed.

(** The bytes of a freshly built upper packet. *)
Definition upper_image (l : list Z) (codec : Z) (hops pl : list Z) : list Z :=
  splice (splice (splice l 52 (varint_To codec)) 20 (route_header 0 hops)) 56 pl.

Lemma build_upper_full basepkt rt codec pl h l (u := UpperPacket.NewUpperPacket basepkt) :
  full h (Buf basepkt) l -> 56 + zlen pl <= zlen l ->
  route_ok h rt -> Len rt <= 14 -> s_arr (hops rt) <> s_arr (Buf basepkt) -> 0 <= codec < 2 ^ 28 ->
  (_ ← UpperPacket.SetCodec u codec; _ ← UpperPacket.SetRoute u rt; UpperPacket.SetPayload u pl) h =
    Ok (UpperPacket.mkUpper 52 32 (set_Length (88 + zlen pl) basepkt),
        upd h (s_arr (Buf basepkt)) (upper_image l codec (bytes_of h rt) pl)).
Proof.
  intros Hf Hl Hr Hn Ha Hc. pose proof (varint_To_4 codec Hc). pose proof (zlen_nonneg pl).
  pose proof Hr as (?&?&?). pose proof (zlen_contents _ _ Hr) as Hz.
  assert (Hrh : zlen (route_header 0 (bytes_of h rt)) = 16)
    by (apply zlen_route_header; unfold bytes_of, Len in *; lia).
  change u with (UpperPacket.mkUpper 52 32 basepkt). clear u.
  erewrite bind_ok by (eapply SetCodec_full; eauto; simpl; lia). simpl.
  assert (Hb : bytes_of (upd h (s_arr (Buf basepkt)) (splice l 52 (varint_To codec))) rt = bytes_of h rt)
    by (unfold bytes_of, contents; by rewrite arr_upd_ne).
  erewrite bind_ok; [|eapply SetRoute_full; simpl; [fl|zl| |done|done]].
  2: { unfold route_ok, slice_ok. rewrite arr_upd_ne by done. done. }
  simpl. rewrite upd_upd, Hb. unfold UpperPacket.SetPayload. simpl.
  erewrite bind_ok by (eapply buf_write_full; [fl|lia|zl|lia]).
  rewrite upd_upd. unfold upper_image. change (52 + 4) with 56.
  by replace (56 + zlen pl + 32) with (88 + zlen pl) by lia.
Qed.

(** The length of the bytes, and what the accessors read from them. *)
Lemma zlen_upper_image l codec hops pl :
  zlen l = TptMTU -> zlen pl <= UpperMTU -> zlen hops <= 14 -> 0 <= codec < 2 ^ 28 ->
  zlen (upper_image l codec hops pl) = zlen l.
Proof.
  intros Hl Hpl Hh Hc. change TptMTU with 1452 in *. change UpperMTU with 1364 in *.
  pose proof (varint_To_4 codec Hc). pose proof (zlen_nonneg pl). pose proof (zlen_route_header 0 hops Hh).
  unfold upper_image. zl.
Qed.

Lemma upper_image_reads p h l codec hops pl (u := UpperPacket.mkUpper 52 32 p) (l' := upper_image l codec hops pl) :
  full h (Buf p) l' -> zlen l = TptMTU -> is_bytes l -> zlen pl <= UpperMTU -> is_bytes pl ->
  is_bytes hops -> zlen hops <= 14 -> 0 <= codec < 2 ^ 28 -> Length p = 88 + zlen pl ->
  UpperPacket.RouteLen u h = Ok (zlen hops, h) /\
  UpperPacket.Codec u h = Ok (Some codec, h) /\
  (exists rt', UpperPacket.Route_ u h = Ok (rt', h) /\ bytes_of h rt' = hops) /\
  (exists s, UpperPacket.Payload u h = Ok (s, h) /\ contents h s = pl).
Proof.
  intros Hf Hl Hb Hpl Hbp Hbr Hn Hc HL. pose proof (zlen_upper_image l codec hops pl Hl Hpl Hn Hc) as Hl'. fold l' in Hl'.
  pose proof (varint_To_4 codec Hc). pose proof (varint_To_bytes codec). pose proof (zlen_nonneg pl). pose proof (zlen_nonneg hops).
  change TptMTU with 1452 in *. change UpperMTU with 1364 in *.
  assert (Hrh : zlen (route_header 0 hops) = 16) by (apply zlen_route_header; lia).
  assert (Hbh : is_bytes (route_header 0 hops)) by (apply is_bytes_route_header; [done|done|lia]).
  assert (Hlen : getz l' 21 = zlen hops).
  { unfold l', upper_image. rewrite getz_splice_out by zl. rewrite getz_splice_in by zl. done. }
  assert (Hb' : is_bytes l') by (unfold l', upper_image; auto with rovy).
  split; [|split]; [| |split].
  - unfold UpperPacket.RouteLen, FwdOffset. erewrite s_get_full by (simpl; eauto; lia).
    by change (20 + 1) with 21; rewrite Hlen.
  - erewrite Codec_full by (simpl; eauto; lia). simpl. unfold l', upper_image.
    rewrite sub_splice_lt, sub_splice_ge by zl. rewrite varint_read by lia. done.
  - edestruct (Route_full u) as (rt'&Hrt&_&_&Hby); simpl; [exact Hf|done|lia|].
    exists rt'; split; [exact Hrt|]. rewrite Hby, Hlen. unfold l', upper_image.
    rewrite sub_splice_lt by zl. rewrite sub_splice_in by zl.
    change (22 - 20) with 2. unfold sub, route_header. change (Z.to_nat 2) with 2%nat. cbn [skipn]. rewrite drop_0.
    rewrite take_app_le by (unfold zlen in *; lia). apply take_ge. unfold zlen in *; lia.
  - eexists; split; [eapply Payload_full; simpl; eauto; lia|].
    erewrite window_contents by (simpl; eauto; lia). simpl. rewrite HL.
    unfold l', upper_image. apply sub_splice_eq; [lia|lia|]. zl.
Qed.

(** The codec may as well be written after the route. *)
Lemma build_upper_route_first basepkt rt codec pl h l (u := UpperPacket.NewUpperPacket basepkt) :
  full h (Buf basepkt) l -> 56 + zlen pl <= zlen l ->
  route_ok h rt -> Len rt <= 14 -> s_arr (hops rt) <> s_arr (Buf basepkt) -> 0 <= codec < 2 ^ 28 ->
  exists h1, (_ ← UpperPacket.SetRoute u rt; UpperPacket.SetCodec u codec) h = Ok (tt, h1) /\
    (forall a, a <> s_arr (Buf basepkt) -> h1 !! a = h !! a) /\
    UpperPacket.SetPayload u pl h1 =
    Ok (UpperPacket.mkUpper 52 32 (set_Length (88 + zlen pl) basepkt),
        upd h (s_arr (Buf basepkt)) (upper_image l codec (bytes_of h rt) pl)).
Proof.
  intros Hf Hl Hr Hn Ha Hc. pose proof (varint_To_4 codec Hc). pose proof (zlen_nonneg pl).
  pose proof (zlen_contents _ _ Hr) as Hz.
  assert (Hrh : zlen (route_header 0 (bytes_of h rt)) = 16)
    by (apply zlen_route_header; unfold bytes_of, Len in *; lia).
  change u with (UpperPacket.mkUpper 52 32 basepkt). clear u. eexists. split; [|split].
  - erewrite bind_ok by (eapply SetRoute_full; simpl; eauto; lia). simpl. eapply SetCodec_full; simpl; [fl|lia|zl|exact Hc].
  - intros a Hne. unfold upd. by rewrite !list_lookup_insert_ne.
  - rewrite upd_upd. unfold UpperPacket.SetPayload. simpl.
    erewrite bind_ok by (eapply buf_write_full; [fl|lia|zl|lia]).
    rewrite upd_upd. unfold upper_image. change (52 + 4) with 56. rewrite (splice_comm l 20) by zl.
    by replace (56 + zlen pl + 32) with (88 + zlen pl) by lia.
Qed.
End varint.
End spec.

(** ** Properties *)

Section fields.
Context `{MaddrLib, VarintLaws}.

(** C25: a packet filled the way [Node.Send] fills it (codec, route, payload)
    in a buffer of [TptMTU] bytes reads back exactly: the route, its length,
    the codec and the payload are the ones written, whatever the buffer held
    before, for routes of up to 14 hops, codecs below 2^28 and payloads up to
    [UpperMTU]; the final length never exceeds [TptMTU], and no other array is
    touched. *)
Theorem UpperPacket_roundtrip (basepkt : Packet) (rt : Route) (codec : Z) (pl : list Z) (h : heap)
    (l : list Z) (u := UpperPacket.NewUpperPacket basepkt) :
  full h (Buf basepkt) l -> zlen l = TptMTU -> is_bytes l -> zlen pl <= UpperMTU -> is_bytes pl ->
  route_ok h rt -> is_bytes (bytes_of h rt) -> Len rt <= 14 -> s_arr (hops rt) <> s_arr (Buf basepkt) ->
  0 <= codec < 2 ^ 28 ->
  exists u' h',
    (_ ← UpperPacket.SetCodec u codec; _ ← UpperPacket.SetRoute u rt; UpperPacket.SetPayload u pl) h
      = Ok (u', h') /\
    Length (UpperPacket.pkt u') <= TptMTU /\
    (forall a, a <> s_arr (Buf basepkt) -> h' !! a = h !! a) /\
    UpperPacket.RouteLen u' h' = Ok (Len rt, h') /\
    UpperPacket.Codec u' h' = Ok (Some codec, h') /\
    (exists rt', UpperPacket.Route_ u' h' = Ok (rt', h') /\ bytes_of h' rt' = bytes_of h rt) /\
    (exists s, UpperPacket.Payload u' h' = Ok (s, h') /\ contents h' s = pl).
Proof.
  intros Hf Hl Hb Hpl Hbp Hr Hbr Hn Ha Hc. pose proof (zlen_nonneg pl). pose proof (zlen_contents _ _ Hr) as Hz.
  fold (bytes_of h rt) in Hz. change TptMTU with 1452 in *. change UpperMTU with 1364 in *. unfold Len in *.
  eexists _, _; split; [eapply build_upper_full; eauto; lia|]. rewrite <- Hz.
  split; [simpl; lia|]. split; [intros a ?; unfold upd; by rewrite list_lookup_insert_ne|].
  apply (upper_image_reads (set_Length (88 + zlen pl) basepkt) _ l); try done; [|lia].
  eapply full_upd; [exact Hf|]. by rewrite zlen_upper_image by (done || lia).
Qed.
End fields.

(** A buffer of [TptMTU] bytes and a route of two hops. *)
Definition pkt_heap : heap := [zeros 1452; [7; 9]].
Definition pkt_buf : slice := Slice 0 0 1452 1452.
Definition pkt_route : Route := mkRoute (Slice 1 0 2 2).

Lemma pkt_buf_full : full pkt_heap pkt_buf (zeros 1452).
Proof. repeat split. Qed.

Lemma UpperPacket_roundtrip_witness :
  exists u' h',
    (_ ← UpperPacket.SetCodec (UpperPacket.NewUpperPacket (NewPacket pkt_buf)) 0x42001;
     _ ← UpperPacket.SetRoute (UpperPacket.NewUpperPacket (NewPacket pkt_buf)) pkt_route;
     UpperPacket.SetPayload (UpperPacket.NewUpperPacket (NewPacket pkt_buf)) [1; 2; 3]) pkt_heap
      = Ok (u', h') /\
    UpperPacket.Codec u' h' = Ok (Some 0x42001, h').
Proof.
  destruct (UpperPacket_roundtrip (NewPacket pkt_buf) pkt_route 0x42001 [1; 2; 3] pkt_heap (zeros 1452))
    as (u' & h' & Hok & _ & _ & _ & Hc & _);
    [exact pkt_buf_full|reflexivity|apply is_bytes_zeros|by vm_compute|by apply (bool_decide_unpack _)
    |by apply (bool_decide_unpack _)|by apply (bool_decide_unpack _)|by vm_compute|done|done|].
  by exists u', h'.
Defined.

(** C26: the bounds of [SetPayload] on a [TptMTU] buffer: a payload of up to
    [UpperMTU] bytes fits with room for both authentication tags; one that is
    longer either overruns the buffer at once or leaves a length beyond the
    buffer, so that the next access to the packet's bytes panics. *)
Theorem SetPayload_bounds `{MaddrLib} (basepkt : Packet) (pl : list Z) (h : heap) (l : list Z)
    (u := UpperPacket.NewUpperPacket basepkt) :
  full h (Buf basepkt) l -> zlen l = TptMTU ->
  (zlen pl <= UpperMTU ->
    exists u' h' s, UpperPacket.SetPayload u pl h = Ok (u', h') /\ Bytes (UpperPacket.pkt u') h' = Ok (s, h')
      /\ s_len s = 88 + zlen pl) /\
  (UpperMTU < zlen pl ->
    (x ← UpperPacket.SetPayload u pl; Bytes (UpperPacket.pkt x)) h = Panic).
Proof.
  intros Hf Hl. change TptMTU with 1452 in *. change UpperMTU with 1364 in *.
  pose proof (zlen_nonneg pl). unfold UpperPacket.SetPayload.
  change (UpperPacket.Offset u + 4) with 56. change (UpperPacket.Padding u) with 32. simpl.
  split; intros Hp.
  - eexists _, _, _. erewrite bind_ok by (eapply buf_write_full; [exact Hf|lia|lia|lia]).
    split; [reflexivity|]. unfold Bytes. simpl.
    split; [eapply reslice_window; [eapply full_upd; [exact Hf|zl]|lia|zl]|simpl; lia].
  - destruct (Z.le_gt_cases (zlen pl) 1396).
    + erewrite bind_ok by (erewrite bind_ok by (eapply buf_write_full; [exact Hf|lia|lia|lia]); reflexivity).
      unfold Bytes. simpl. eapply reslice_full_panic; [eapply full_upd; [exact Hf|zl]|]. zl.
    + apply bind_panic, bind_panic. unfold buf_write. apply bind_panic.
      eapply reslice_full_panic; [exact Hf|]. lia.
Qed.

Lemma SetPayload_bounds_witness :
  (x ← UpperPacket.SetPayload (UpperPacket.NewUpperPacket (NewPacket pkt_buf)) (zeros 1365);
   Bytes (UpperPacket.pkt x)) pkt_heap = Panic.
Proof.
  apply (SetPayload_bounds (NewPacket pkt_buf) (zeros 1365) pkt_heap (zeros 1452));
    [exact pkt_buf_full|reflexivity|by vm_compute].
Defined.
