(* ===== verification/RingBuf.v ===== *)
(** * RingBuf: the packet queues between the node's routines
    (node/util/ringbuf/ringbuf.go)

    A ring buffer is a buffered channel and a counter. [RingBuf] holds the
    operations as one goroutine executes them; [Conc] the same bodies as
    interleaved steps of several producers and a consumer, every channel
    operation and every access of the unprotected counter a step of its own. *)

From S2P Require Import Prelude GoMem.

Module RingBuf.
Section ringbuf.
Context {A : Type}.

Record RingBuffer : Type := mkRing {
  ch : list A;
  cap : Z;
  dropped : Z
}.

(** [make(chan T, capacity)] panics on a negative capacity. *)
Definition NewRingBuffer (capacity : Z) : res RingBuffer :=
  if capacity <? 0 then Panic else Ok (mkRing [] capacity 0).

(** Channel operations of a goroutine with no other one to pair with. *)
Definition chan_send (x : A) : M RingBuffer unit := fun rb =>
  if zlen (ch rb) <? cap rb then Ok (tt, mkRing (ch rb ++ [x]) (cap rb) (dropped rb)) else Block.
Definition chan_recv : M RingBuffer A := fun rb =>
  match ch rb with
  | [] => Block
  | x :: t => Ok (x, mkRing t (cap rb) (dropped rb))
  end.
Definition incr_dropped : M RingBuffer unit :=
  modify (fun rb => mkRing (ch rb) (cap rb) (u64 (dropped rb + 1))).

Definition Put (pkt : A) : M RingBuffer unit := fun rb =>
  match chan_send pkt rb with
  | Ok r => Ok r
  | _ => (_ ← chan_recv; _ ← incr_dropped; chan_send pkt) rb
  end.

Definition PutWithBackpressure (pkt : A) : M RingBuffer unit := chan_send pkt.
Definition Get : M RingBuffer A := chan_recv.
Definition Capacity (rb : RingBuffer) : Z := cap rb.
Definition Length (rb : RingBuffer) : Z := zlen (ch rb).
Definition Dropped (rb : RingBuffer) : Z := dropped rb.
Definition Channel (rb : RingBuffer) : list A := ch rb.

Definition ring_ok (rb : RingBuffer) : Prop := 0 <= Length rb <= cap rb.

(** A sequence of [Put]s. *)
Fixpoint puts (l : list A) : M RingBuffer unit :=
  match l with
  | [] => mret tt
  | x :: t => _ ← Put x; puts t
  end.
End ringbuf.
Arguments RingBuffer A : clear implicits.
End RingBuf.

(** ** Interleavings *)

Module Conc.
Import RingBuf.
Section conc.
Context {A : Type}.

(** Where a producer is in the body of [Put], or of [PutWithBackpressure], which
    is a send that may have to wait. *)
Inductive pc : Type :=
| Idle
| AtDrop (pkt : A)             (* in the default branch, before [<-rb.ch] *)
| AtLoad (pkt : A)             (* before reading [rb.dropped] *)
| AtStore (pkt : A) (n : Z)    (* before writing [rb.dropped = n + 1] *)
| AtSend (pkt : A).            (* before a [rb.ch <- pkt] that waits for room *)

(** The shared buffer, the producers, and the history: the packets the two
    functions were called with, the packets that entered the channel, and those
    that left it, to the consumer ([true]) or dropped ([false]). *)
Record sys : Type := mkSys {
  rb : RingBuffer A;
  producers : list pc;
  offered : list A;
  sent : list A;
  left : list (bool * A)
}.

(** The packet a producer has in hand. *)
Definition in_hand (q : pc) : list A :=
  match q with Idle => [] | AtDrop pkt | AtLoad pkt | AtStore pkt _ | AtSend pkt => [pkt] end.

Definition delivered (s : sys) : list A := (filter (fun x => x.1 = true) (left s)).*2.
Definition drops (s : sys) : list A := (filter (fun x => x.1 = false) (left s)).*2.

(** Channel operations on the shared buffer. [call] is the entry into one of the
    two functions. A channel with a buffer, the only kind the program makes,
    passes every packet through it, also when the consumer is already waiting. *)
Definition room (s : sys) : Prop := zlen (ch (rb s)) < cap (rb s).
Definition call (x : A) (s : sys) : sys := mkSys (rb s) (producers s) (offered s ++ [x]) (sent s) (left s).
Definition enq (i : nat) (q : pc) (x : A) (s : sys) : sys :=
  mkSys (mkRing (ch (rb s) ++ [x]) (cap (rb s)) (dropped (rb s)))
    (<[i := q]> (producers s)) (offered s) (sent s ++ [x]) (left s).
Definition goto (i : nat) (q : pc) (s : sys) : sys :=
  mkSys (rb s) (<[i := q]> (producers s)) (offered s) (sent s) (left s).

Inductive step : sys -> sys -> Prop :=
| step_put i pkt s :
    producers s !! i = Some Idle -> room s -> step s (enq i Idle pkt (call pkt s))
| step_default i pkt s :
    producers s !! i = Some Idle -> ~ room s -> step s (goto i (AtDrop pkt) (call pkt s))
| step_backpressure i pkt s :
    producers s !! i = Some Idle -> step s (goto i (AtSend pkt) (call pkt s))
| step_drop i pkt s x t :
    producers s !! i = Some (AtDrop pkt) -> ch (rb s) = x :: t ->
    step s (mkSys (mkRing t (cap (rb s)) (dropped (rb s)))
              (<[i := AtLoad pkt]> (producers s)) (offered s) (sent s) (left s ++ [(false, x)]))
| step_load i pkt s :
    producers s !! i = Some (AtLoad pkt) -> step s (goto i (AtStore pkt (dropped (rb s))) s)
| step_store i pkt n s :
    producers s !! i = Some (AtStore pkt n) ->
    step s (mkSys (mkRing (ch (rb s)) (cap (rb s)) (u64 (n + 1)))
              (<[i := AtSend pkt]> (producers s)) (offered s) (sent s) (left s))
| step_send i pkt s :
    producers s !! i = Some (AtSend pkt) -> room s -> step s (enq i Idle pkt s)
| step_get s x t :
    ch (rb s) = x :: t ->
    step s (mkSys (mkRing t (cap (rb s)) (dropped (rb s))) (producers s) (offered s) (sent s) (left s ++ [(true, x)])).

Definition init (capacity : Z) (n : nat) : sys :=
  mkSys (mkRing [] capacity 0) (replicate n Idle) [] [] [].

Definition reachable (capacity : Z) (n : nat) : sys -> Prop := rtc step (init capacity n).

(** Producers that took a packet out and have not accounted for it yet. *)
Definition unaccounted (q : pc) : bool :=
  match q with AtLoad _ | AtStore _ _ => true | _ => false end.
Definition pending (s : sys) : Z := zlen (filter (fun q => unaccounted q = true) (producers s)).

(** The invariant: what was offered was sent or is in somebody's hands, the
    channel is the part of what was sent that has not left, within its
    capacity, and the counter never runs ahead of the drops. *)
Record inv (s : sys) : Prop := {
  inv_offered : offered s ≡ₚ sent s ++ (producers s ≫= in_hand);
  inv_fifo : sent s = (left s).*2 ++ ch (rb s);
  inv_cap : zlen (ch (rb s)) <= cap (rb s);
  inv_dropped : 0 <= dropped (rb s) /\ dropped (rb s) + pending s <= zlen (drops s);
  inv_store : forall i pkt n, producers s !! i = Some (AtStore pkt n) -> 0 <= n /\ n + pending s <= zlen (drops s)
}.
End conc.
Arguments sys A : clear implicits.
Arguments pc A : clear implicits.
End Conc.
Import RingBuf.

Section seq.
Context {A : Type}.
Implicit Types (rb : RingBuffer A) (x : A).

Lemma Put_room rb x :
  Length rb < cap rb -> Put x rb = Ok (tt, mkRing (ch rb ++ [x]) (cap rb) (dropped rb)).
Proof. intros H. unfold Put, chan_send, Length in *. by replace (zlen (ch rb) <? cap rb) with true by lia. Qed.

Lemma Put_full c d x y t :
  zlen (y :: t) = c -> Put x (mkRing (y :: t) c d) = Ok (tt, mkRing (t ++ [x]) c (u64 (d + 1))).
Proof.
  intros H. unfold Put, chan_send; cbn [ch cap]. replace (zlen (y :: t) <? c) with false by lia.
  cbn. unfold mbind, M_bind, chan_recv, modify, chan_send; cbn.
  rewrite zlen_cons in H. by replace (zlen t <? c) with true by lia.
Qed.

Lemma u64_add_l a b : u64 (u64 a + b) = u64 (a + b).
Proof. unfold u64. by rewrite Zplus_mod_idemp_l. Qed.

(** Any sequence of [Put]s runs to the end and keeps the newest packets. *)
Lemma puts_spec (l : list A) : forall q c d,
  1 <= c -> zlen q <= c -> d = u64 d ->
  puts l (mkRing q c d) =
    Ok (tt, mkRing (drop (Z.to_nat (zlen q + zlen l - c)) (q ++ l)) c
              (u64 (d + Z.max 0 (zlen q + zlen l - c)))).
Proof.
  induction l as [|x l IH]; intros q c d Hc Hq Hd; cbn [puts].
  - rewrite zlen_nil, app_nil_r. rewrite Z.add_0_r. rewrite Z.max_l by lia.
    replace (Z.to_nat (zlen q - c)) with 0%nat by lia. by rewrite drop_0, Z.add_0_r, <- Hd.
  - destruct (decide (zlen q < c)).
    + erewrite bind_ok by (by apply Put_room). cbn [ch cap dropped].
      rewrite IH by (zl || done). rewrite <- app_assoc. cbn [app].
      by replace (zlen (q ++ [x]) + zlen l) with (zlen q + zlen (x :: l)) by zl.
    + destruct q as [|y t]; [rewrite zlen_nil in *; lia|].
      erewrite bind_ok by (by apply Put_full; lia). rewrite zlen_cons in Hq.
      rewrite IH; [|lia|zl|unfold u64; by rewrite Zmod_mod].
      rewrite <- app_assoc. cbn [app]. rewrite u64_add_l.
      autorewrite with zlen. pose proof (zlen_nonneg l). pose proof (zlen_nonneg t).
      rewrite zlen_cons in *.
      replace (Z.to_nat (1 + zlen t + (1 + zlen l) - c)) with (S (Z.to_nat (zlen t + (1 + 0) + zlen l - c))) by lia.
      cbn [skipn]. do 3 f_equal. f_equal. lia.
Qed.
End seq.

(** ** The invariant of the interleavings *)

Module ConcInv.
Import Conc.
Section conc_inv.
Context {A : Type}.
Implicit Types (s : sys A) (q : pc A).

Definition weight q : Z := if unaccounted q then 1 else 0.

(** Moving one producer changes the number of unaccounted ones by the
    difference of the two positions. *)
Lemma pending_goto (ps : list (pc A)) i q q' :
  ps !! i = Some q ->
  zlen (filter (fun q => unaccounted q = true) (<[i := q']> ps)) =
  zlen (filter (fun q => unaccounted q = true) ps) - weight q + weight q'.
Proof.
  revert i. induction ps as [|p ps IH]; intros [|i] H; try done; cbn in H.
  - injection H as ->. change (<[0%nat := q']> (q :: ps)) with (q' :: ps). rewrite !filter_cons. unfold weight.
    repeat case_decide; destruct (unaccounted q), (unaccounted q'); try done; rewrite ?zlen_cons; lia.
  - specialize (IH i H). change (<[S i := q']> (p :: ps)) with (p :: <[i := q']> ps). rewrite !filter_cons. case_decide; rewrite ?zlen_cons; lia.
Qed.

(** Moving one producer exchanges the packets it has in hand. *)
Lemma in_hand_goto (ps : list (pc A)) i q q' :
  ps !! i = Some q -> in_hand q ++ (<[i := q']> ps ≫= in_hand) ≡ₚ in_hand q' ++ (ps ≫= in_hand).
Proof.
  revert i. induction ps as [|p ps IH]; intros [|i] H; try done; cbn in H.
  - injection H as ->. change (<[0%nat := q']> (q :: ps)) with (q' :: ps). rewrite !bind_cons. solve_Permutation.
  - change (<[S i := q']> (p :: ps)) with (p :: <[i := q']> ps). rewrite !bind_cons.
    by rewrite (Permutation_app_swap_app (in_hand q)), (Permutation_app_swap_app (in_hand q')), (IH i H).
Qed.

(** So that what was offered stays accounted for when the producer hands [x]
    over to the channel, or nothing. *)
Lemma offered_move s o i q q' x :
  inv s -> producers s !! i = Some q -> o ++ in_hand q ≡ₚ offered s ++ in_hand q' ++ x ->
  o ≡ₚ (sent s ++ x) ++ (<[i := q']> (producers s) ≫= in_hand).
Proof.
  intros Hi Hq Ho. apply (Permutation_app_inv_r (in_hand q)). rewrite Ho, (inv_offered _ Hi).
  pose proof (in_hand_goto _ _ _ q' Hq) as Hg. rewrite (Permutation_app_comm _ (in_hand q)). rewrite <- !(assoc_L (++)).
  rewrite (Permutation_app_swap_app (in_hand q)). f_equiv. rewrite (Permutation_app_swap_app (in_hand q)), Hg. solve_Permutation.
Qed.

Lemma drops_snoc s b x r ps :
  zlen (drops (mkSys r ps (offered s) (sent s) (left s ++ [(b, x)]))) = zlen (drops s) + (if b then 0 else 1).
Proof.
  unfold drops; cbn [left]. rewrite list.filter_app, fmap_app, zlen_app. f_equal.
  destruct b; reflexivity.
Qed.

(** Every step keeps the invariant: the store clause follows from how the
    step moves the producer and the two counts. *)
Lemma inv_store_move s s' i q q' :
  inv s -> producers s !! i = Some q -> producers s' = <[i := q']> (producers s) ->
  pending s' - zlen (drops s') <= pending s - zlen (drops s) ->
  (forall pkt n, q' = AtStore pkt n -> 0 <= n /\ n + pending s' <= zlen (drops s')) ->
  forall j pkt n, producers s' !! j = Some (AtStore pkt n) -> 0 <= n /\ n + pending s' <= zlen (drops s').
Proof.
  intros Hi Hq Hp Hle Hnew j pkt n Hj. rewrite Hp in Hj.
  destruct (decide (i = j)) as [<-|Hne].
  - rewrite list_lookup_insert_eq in Hj by (by eapply lookup_lt_Some). injection Hj as Hj. by eapply Hnew.
  - rewrite list_lookup_insert_ne in Hj by done. destruct (inv_store _ Hi _ _ _ Hj). lia.
Qed.

Lemma inv_enq s o i q x :
  inv s -> producers s !! i = Some q -> unaccounted q = false -> room s -> o ++ in_hand q ≡ₚ offered s ++ [x] ->
  inv (mkSys (mkRing (ch (rb s) ++ [x]) (cap (rb s)) (dropped (rb s))) (<[i := Idle]> (producers s)) o (sent s ++ [x]) (left s)).
Proof.
  intros Hi Hq Hu Hr Ho. pose proof Hi as [_ Hf Hc Hd _]. set (s' := mkSys _ _ _ _ _).
  assert (Hp : pending s' = pending s).
  { unfold pending, s'; cbn. erewrite pending_goto by exact Hq. unfold weight. rewrite Hu. cbn. lia. }
  assert (Hdr : drops s' = drops s) by done.
  split.
  - by eapply offered_move.
  - cbn. by rewrite Hf, app_assoc.
  - unfold room in Hr. unfold s'; cbn [rb ch cap]. zl.
  - by rewrite Hp, Hdr.
  - eapply inv_store_move; [exact Hi|exact Hq|reflexivity|rewrite Hp, Hdr; lia|done].
Qed.

Lemma inv_goto s o i q q' :
  inv s -> producers s !! i = Some q -> unaccounted q = unaccounted q' -> o ++ in_hand q ≡ₚ offered s ++ in_hand q' ->
  (forall pkt n, q' = AtStore pkt n -> n = dropped (rb s)) -> inv (mkSys (rb s) (<[i := q']> (producers s)) o (sent s) (left s)).
Proof.
  intros Hi Hq Hu Ho Hn. pose proof Hi as [_ Hf Hc Hd _]. set (s' := mkSys _ _ _ _ _).
  assert (Hp : pending s' = pending s).
  { unfold pending, s'; cbn. erewrite pending_goto by exact Hq. unfold weight. rewrite Hu. lia. }
  split; [|done|done|by rewrite Hp|].
  - cbn. rewrite <- (app_nil_r (sent s)). apply (offered_move s o i q q' [] Hi Hq). by rewrite app_nil_r.
  - eapply inv_store_move; [exact Hi|exact Hq|reflexivity|rewrite Hp; change (drops s') with (drops s); lia|].
    intros pkt n E. rewrite (Hn _ _ E), Hp. apply Hd.
Qed.

Lemma inv_step s s' : inv s -> step s s' -> inv s'.
Proof.
  intros Hi Hs. pose proof Hi as [Ho Hf Hc Hd _].
  assert (Hsame : forall i q q', producers s !! i = Some q -> in_hand q = in_hand q' ->
    offered s ≡ₚ sent s ++ (<[i := q']> (producers s) ≫= in_hand)).
  { intros i q q' Hq E. rewrite <- (app_nil_r (sent s)). apply (offered_move s _ i q q' [] Hi Hq). by rewrite E, app_nil_r. }
  destruct Hs as [i pkt s Hq Hr|i pkt s Hq Hr|i pkt s Hq|i pkt s x t Hq Hch|i pkt s Hq|i pkt n s Hq|i pkt s Hq Hr|s x t Hch].
  - apply (inv_enq s (offered s ++ [pkt]) i Idle pkt Hi Hq); [done|done|]. by rewrite app_nil_r.
  - apply (inv_goto s (offered s ++ [pkt]) i Idle (AtDrop pkt) Hi Hq); [done| |done]. by rewrite app_nil_r.
  - apply (inv_goto s (offered s ++ [pkt]) i Idle (AtSend pkt) Hi Hq); [done| |done]. by rewrite app_nil_r.
  - assert (Hp : pending (mkSys (mkRing t (cap (rb s)) (dropped (rb s))) (<[i:=AtLoad pkt]> (producers s))
        (offered s) (sent s) (left s ++ [(false, x)])) = pending s + 1)
      by (unfold pending; cbn; erewrite pending_goto by exact Hq; cbn; lia).
    rewrite Hch in *. rewrite zlen_cons in Hc. split.
    + by eapply Hsame.
    + cbn. rewrite fmap_app. cbn. by rewrite <- app_assoc.
    + cbn. lia.
    + rewrite Hp, drops_snoc. cbn. lia.
    + eapply inv_store_move; [exact Hi|exact Hq|reflexivity|rewrite Hp, drops_snoc; lia|done].
  - eapply inv_goto; eauto. by intros ? ? [=].
  - pose proof (inv_store _ Hi _ _ _ Hq) as [Hn0 Hn].
    assert (Hp : pending (mkSys (mkRing (ch (rb s)) (cap (rb s)) (u64 (n + 1))) (<[i:=AtSend pkt]> (producers s))
        (offered s) (sent s) (left s)) = pending s - 1)
      by (unfold pending; cbn; erewrite pending_goto by exact Hq; cbn; lia).
    split; [by eapply Hsame|done|done| |].
    + rewrite Hp. change (drops _) with (drops s). cbn. unfold u64.
      pose proof (Z.mod_le (n + 1) (2 ^ 64)). pose proof (Z.mod_pos_bound (n + 1) (2 ^ 64)). lia.
    + eapply inv_store_move; [exact Hi|exact Hq|reflexivity|rewrite Hp; change (drops _) with (drops s) at 1; lia|done].
  - by eapply inv_enq.
  - rewrite Hch in *. rewrite zlen_cons in Hc. split.
    + done.
    + cbn. rewrite fmap_app. cbn. by rewrite <- app_assoc.
    + cbn. lia.
    + rewrite drops_snoc. change (pending _) with (pending s). cbn. lia.
    + intros j pkt n Hj. rewrite drops_snoc. change (pending _) with (pending s).
      pose proof (inv_store _ Hi _ _ _ Hj). lia.
Qed.

Lemma inv_init c n : 0 <= c -> inv (@init A c n).
Proof.
  intros. assert (Hp : pending (@init A c n) = 0).
  { unfold pending, init; cbn [producers]. induction n; [done|]. cbn [replicate].
    by rewrite filter_cons_False. }
  split; [|done|done|rewrite Hp; change (0 <= 0 /\ 0 + 0 <= 0); lia|].
  { cbn. clear. induction n as [|n IH]; [done|exact IH]. }
  intros i pkt k Hk. cbn in Hk. apply lookup_replicate in Hk as [? _]. done.
Qed.

Lemma inv_reachable c n s : 0 <= c -> reachable c n s -> inv s.
Proof.
  intros Hc. apply (rtc_ind_r (fun s => inv s)); [by apply inv_init|].
  intros s1 s2 _ Hs Hi. by eapply inv_step.
Qed.

(** With one producer nobody else writes the counter between its load and its
    store, and it is exact. *)
Definition solo s : Prop :=
  exists q, producers s = [q] /\ 0 <= dropped (rb s) < 2 ^ 64 /\
    dropped (rb s) = u64 (zlen (drops s) - weight q) /\ forall pkt n, q = AtStore pkt n -> n = dropped (rb s).

Lemma solo_step s s' : solo s -> step s s' -> solo s'.
Proof.
  intros (q & Hq & Hr & Hd & Hn) Hs.
  assert (H1 : forall i x, producers s !! i = Some x -> i = 0%nat /\ x = q).
  { intros [|i] x Hx; rewrite Hq in Hx; [by injection Hx as <-|done]. }
  destruct Hs as [i pkt s Hp _|i pkt s Hp _|i pkt s Hp|i pkt s x t Hp _|i pkt s Hp|i pkt n s Hp|i pkt s Hp _|s x t _];
    try (destruct (H1 _ _ Hp) as [-> <-]); unfold solo; cbn [producers rb dropped enq goto call];
    rewrite ?Hq; try (eexists; split; [reflexivity|]); try rewrite drops_snoc; cbn [weight unaccounted] in *.
  1-3,7: (split; [exact Hr|]; split; [exact Hd|intros ? ? [=]]).
  - split; [exact Hr|]. split; [unfold u64 in *; lia|intros ? ? [=]].
  - split; [exact Hr|]. split; [exact Hd|by intros ? ? [= _ <-]].
  - pose proof (Hn _ _ eq_refl) as ->. change (drops _) with (drops s). split; [unfold u64; lia|]. split; [unfold u64 in *; lia|intros ? ? [=]].
  - rewrite Z.add_0_r. done.
Qed.

Lemma solo_reachable c s : reachable c 1 s -> solo s.
Proof.
  apply (rtc_ind_r (fun s => solo s)); [by exists Idle|]. intros s1 s2 _ Hs Hi. by eapply solo_step.
Qed.

(** What left the channel is what was delivered and what was dropped. *)
Lemma left_split s : (left s).*2 ≡ₚ delivered s ++ drops s.
Proof.
  unfold delivered, drops. induction (left s) as [|[[] x] l IH]; [done| |];
    rewrite !filter_cons; repeat case_decide; try done; rewrite !fmap_cons; cbn; rewrite IH; solve_Permutation.
Qed.
End conc_inv.
End ConcInv.

(** ** Properties *)

(** A ring buffer of positive capacity never blocks its producer when
    nobody else is at the queue: any sequence of [Put]s completes and leaves
    exactly the newest packets in order, at most [capacity] of them; the counter
    is the number of the ones dropped, modulo 2^64. *)
Theorem puts_keep_newest {A} (capacity : Z) (l : list A) rb :
  1 <= capacity -> NewRingBuffer capacity = Ok rb ->
  exists rb', puts l rb = Ok (tt, rb') /\
    Channel rb' = drop (Z.to_nat (zlen l - capacity)) l /\
    Length rb' = Z.min (zlen l) capacity /\ Length rb' <= Capacity rb' /\
    Dropped rb' = u64 (Z.max 0 (zlen l - capacity)).
Proof.
  intros Hc Hn. unfold NewRingBuffer in Hn. replace (capacity <? 0) with false in Hn by lia.
  injection Hn as <-. eexists. split; [apply puts_spec; [lia|rewrite zlen_nil; lia|done]|].
  rewrite zlen_nil, Z.add_0_l. unfold Length, Capacity, Dropped, Channel; cbn [ch cap dropped app].
  pose proof (zlen_nonneg l).
  assert (zlen (drop (Z.to_nat (zlen l - capacity)) l) = Z.min (zlen l) capacity) by llia.
  repeat split; lia.
Qed.

Lemma puts_keep_newest_witness :
  exists rb', puts [1; 2; 3; 4] (mkRing [] 3 0) = Ok (tt, rb') /\ Channel rb' = [2; 3; 4].
Proof.
  destruct (puts_keep_newest 3 [1; 2; 3; 4] (mkRing [] 3 0)) as (rb' & H & Hc & _); [lia|done|].
  by exists rb'.
Defined.

(** C21: in every interleaving of any number of producers, calling [Put] and
    [PutWithBackpressure], with the consumer: no packet is lost and none is made
    up, that is, the packets the two were called with are, each as often as it
    was given, the delivered ones, the dropped ones, those in the channel and
    those a producer still has in hand; packets come out in the order they went
    in, the consumer seeing a subsequence of them; the channel never exceeds its
    capacity, the counter never exceeds the number of drops, and with one
    producer it is that number, modulo 2^64, whenever the producer is not in the
    middle of a [Put]. *)
Theorem ring_interleaved {A} (capacity : Z) (n : nat) (s : Conc.sys A) :
  1 <= capacity -> Conc.reachable capacity n s ->
  Conc.offered s ≡ₚ Conc.delivered s ++ Conc.drops s ++ Channel (Conc.rb s) ++ (Conc.producers s ≫= Conc.in_hand) /\
  Conc.sent s = (Conc.left s).*2 ++ Channel (Conc.rb s) /\
  Conc.delivered s `sublist_of` Conc.sent s /\
  Length (Conc.rb s) <= Capacity (Conc.rb s) /\
  0 <= Dropped (Conc.rb s) <= zlen (Conc.drops s) /\
  (Conc.producers s = [Conc.Idle] -> n = 1%nat -> Dropped (Conc.rb s) = u64 (zlen (Conc.drops s))).
Proof.
  intros Hc Hr. destruct (ConcInv.inv_reachable capacity n s ltac:(lia) Hr) as [Ho Hf Hcap Hd _].
  unfold Channel, Length, Capacity, Dropped.
  pose proof (zlen_nonneg (filter (fun q => Conc.unaccounted q = true) (Conc.producers s))).
  split; [by rewrite Ho, Hf, ConcInv.left_split, <- !(assoc_L (++))|]. split; [done|]. split; [|split; [done|]].
  - rewrite Hf. apply sublist_inserts_r. unfold Conc.delivered. apply fmap_sublist, sublist_filter.
  - split; [unfold Conc.pending in Hd; lia|]. intros Hp ->. destruct (ConcInv.solo_reachable _ _ Hr) as (q & Hq & _ & -> & _).
    rewrite Hp in Hq. injection Hq as <-. cbn [ConcInv.weight Conc.unaccounted]. by rewrite Z.sub_0_r.
Qed.

(** A run of one producer and the consumer on a queue of capacity one: the
    producer finds the queue full, the consumer empties it, and the producer
    has already committed to the branch that drops a packet. *)
Definition stuck_sys : Conc.sys Z := Conc.mkSys (mkRing [] 1 0) [Conc.AtDrop 2] [1; 2] [1] [(true, 1)].

Lemma stuck_reachable : Conc.reachable 1 1 stuck_sys.
Proof.
  eapply rtc_l; [by apply (Conc.step_put 0 1)|].
  eapply rtc_l; [by apply (Conc.step_default 0 2)|].
  eapply rtc_l; [by eapply (Conc.step_get _ 1 [])|]. apply rtc_refl.
Qed.

Lemma ring_interleaved_witness :
  Conc.offered stuck_sys ≡ₚ Conc.delivered stuck_sys ++ Conc.drops stuck_sys ++ [] ++ [2].
Proof. apply (ring_interleaved 1 1 stuck_sys); [lia|exact stuck_reachable]. Defined.

(** C38: [Put] is not atomic against the consumer: with one producer, one
    consumer and a queue of capacity one a state is reachable in which the
    producer still holds its packet and waits for one to drop, the queue is
    empty, and no step of the producer or of the consumer is possible any more. *)
Theorem Put_can_deadlock :
  exists s : Conc.sys Z, Conc.reachable 1 1 s /\ Channel (Conc.rb s) = [] /\
    Conc.producers s = [Conc.AtDrop 2] /\ forall s', ~ Conc.step s s'.
Proof.
  exists stuck_sys. split; [exact stuck_reachable|]. split; [done|]. split; [done|].
  intros s' Hs. inversion Hs as [i ? ? Hq|i ? ? Hq|i ? ? Hq|i ? ? ? ? ? Hq|i ? ? Hq|i ? ? ? Hq|i ? ? Hq|? ? ? Hq];
    subst; try (destruct i as [|[|i]]; done); done.
Qed.
