(* ===== verification/Routing.v ===== *)
(** * Routing: the table of known routes (node/routing/routing.go)

    Routes are references into the shared heap, so the operations run on the
    table together with the heap. [Spec] is the abstract table: for every peer
    the hop strings known for it, oldest first and without repetition. *)

From S2P Require Import Prelude GoMem Route Ext Toy Key PeerID.
Import NetIP Route Key PeerID.

Module Routing.

Record Routing : Type := mkRouting {
  table : gmap PeerID (list Route);
  ipv6 : gmap Addr PeerID
}.

Inductive error : Type :=
| ErrUnknownPeerID
| ErrUnknownAddress.

Definition NewRouting : Routing := mkRouting ∅ ∅.

(** The loop over the known routes: is one of them equal to [route]? *)
Fixpoint known (routes : list Route) (route : Route) : M heap bool :=
  match routes with
  | [] => mret false
  | l :: t => e ← Route.Equal l route; if (e : bool) then mret true else known t route
  end.

Section crypto.
Context `{Crypto}.

Definition AddRoute (peerid : PeerID) (route : Route) : M (Routing * heap) unit :=
  r ← gets fst;
  let set_ipv6 : M (Routing * heap) unit :=
    zoom fst_lens (modify (fun r => mkRouting (table r)
      (<[IPAddr (PublicKey_ peerid) := peerid]> (ipv6 r)))) in
  match table r !! peerid with
  | Some routes =>
      k ← zoom snd_lens (known routes route);
      if (k : bool) then mret tt else
      _ ← zoom fst_lens (modify (fun r => mkRouting (<[peerid := routes ++ [route]]> (table r)) (ipv6 r)));
      set_ipv6
  | None =>
      _ ← zoom fst_lens (modify (fun r => mkRouting (<[peerid := [route]]> (table r)) (ipv6 r)));
      set_ipv6
  end.
End crypto.

Definition GetRoute (peerid : PeerID) (r : Routing) : Route + error :=
  match table r !! peerid with
  | Some (rt :: _) => inl rt
  | _ => inr ErrUnknownPeerID
  end.

Definition MustGetRoute (peerid : PeerID) (r : Routing) : res Route :=
  match GetRoute peerid r with
  | inl rt => Ok rt
  | inr _ => Panic
  end.

Definition LookupIPv6 (ipaddr : Addr) (r : Routing) : PeerID + error :=
  match ipv6 r !! ipaddr with
  | Some pid => inl pid
  | None => inr ErrUnknownAddress
  end.

End Routing.
Import Routing.

(** ** The abstract table *)

Module Spec.
Abbreviation table := (gmap PeerID (list (list Z))).
Definition add (p : PeerID) (rt : list Z) (t : table) : table :=
  let l := default [] (t !! p) in
  if decide (rt ∈ l) then t else <[p := l ++ [rt]]> t.
Definition get (p : PeerID) (t : table) : option (list Z) := t !! p ≫= head.
End Spec.

(** What the concrete table means in a heap. *)
Definition table_view (r : Routing) (h : heap) : Spec.table :=
  fmap (map (bytes_of h)) (table r).

Section spec.
Context `{Crypto}.

Lemma known_spec routes rt h :
  known routes rt h = Ok (bool_decide (bytes_of h rt ∈ map (bytes_of h) routes), h).
Proof.
  induction routes as [|l t IH]; cbn [known map]; [done|].
  erewrite bind_ok by apply Equal_spec.
  destruct (bool_decide_reflect (bytes_of h l = bytes_of h rt)) as [E|E].
  - rewrite bool_decide_eq_true_2; [done|]. rewrite E. apply list_elem_of_here.
  - rewrite IH. do 2 f_equal. apply bool_decide_ext. rewrite elem_of_cons.
    split; [by right|intros [?|?]; [congruence|done]].
Qed.

(** The invariant: no peer has an empty or repeating list of routes, and the
    address table and the route table know the same peers. *)
Record routing_ok (r : Routing) (h : heap) : Prop := {
  ok_nonempty : forall p l, table r !! p = Some l -> l <> [] /\ NoDup (map (bytes_of h) l);
  ok_ipv6 : forall a p, ipv6 r !! a = Some p -> a = IPAddr (PublicKey_ p) /\ is_Some (table r !! p);
  ok_total : forall p, is_Some (table r !! p) -> is_Some (ipv6 r !! IPAddr (PublicKey_ p))
}.

Lemma AddRoute_cases p rt r h :
  AddRoute p rt (r, h) = Ok (tt, (
    match table r !! p with
    | Some l => if bool_decide (bytes_of h rt ∈ map (bytes_of h) l) then r
                else mkRouting (<[p := l ++ [rt]]> (table r)) (<[IPAddr (PublicKey_ p) := p]> (ipv6 r))
    | None => mkRouting (<[p := [rt]]> (table r)) (<[IPAddr (PublicKey_ p) := p]> (ipv6 r))
    end, h)).
Proof.
  unfold AddRoute. erewrite bind_ok by reflexivity. cbn [fst].
  destruct (table r !! p) as [l|] eqn:E.
  - erewrite bind_ok by (apply zoom_ok, known_spec). cbn. case_bool_decide; reflexivity.
  - reflexivity.
Qed.

(** Both writing branches insert one non-empty list without repetitions. *)
Lemma routing_ok_insert p l r h :
  routing_ok r h -> l <> [] -> NoDup (map (bytes_of h) l) ->
  routing_ok (mkRouting (<[p := l]> (table r)) (<[IPAddr (PublicKey_ p) := p]> (ipv6 r))) h.
Proof.
  intros [Hn Hi Ht] Hl Hd. split; cbn.
  - intros q k. rewrite lookup_insert_Some. intros [[<- <-]|[_ ?]]; eauto.
  - intros a q. rewrite lookup_insert_Some. intros [[<- <-]|[_ Hq]].
    + split; [done|]. rewrite lookup_insert_eq. eauto.
    + destruct (Hi _ _ Hq) as [-> [k Hk]]. split; [done|].
      rewrite lookup_insert. case_decide; eauto.
  - intros q. rewrite !lookup_insert. intros Hq. case_decide as E1; case_decide as E2; eauto. by subst.
Qed.

Lemma AddRoute_ok p rt r h r' h' :
  routing_ok r h -> AddRoute p rt (r, h) = Ok (tt, (r', h')) -> h' = h /\ routing_ok r' h.
Proof.
  intros Hr. rewrite AddRoute_cases. intros [= <- <-]. split; [done|].
  destruct (table r !! p) as [l|] eqn:E; [case_bool_decide as Hin; [done|]|].
  - apply routing_ok_insert; [done|by destruct l|]. rewrite map_app. cbn.
    apply list.NoDup_app. split; [by eapply ok_nonempty|]. split; [|by apply NoDup_singleton].
    intros x Hx ->%list_elem_of_singleton. done.
  - apply routing_ok_insert; [done|done|apply NoDup_singleton].
Qed.

(** The concrete operation is the abstract one. *)
Lemma AddRoute_refines p rt r h :
  exists r', AddRoute p rt (r, h) = Ok (tt, (r', h)) /\
    table_view r' h = Spec.add p (bytes_of h rt) (table_view r h).
Proof.
  rewrite AddRoute_cases. eexists; split; [reflexivity|].
  unfold table_view, Spec.add. cbv zeta. rewrite lookup_fmap.
  destruct (table r !! p) as [l|] eqn:E; cbn; [case_bool_decide as Hin|].
  - rewrite decide_True by done. done.
  - rewrite decide_False by done. cbn. rewrite fmap_insert, map_app. done.
  - rewrite decide_False by apply not_elem_of_nil. cbn. by rewrite fmap_insert.
Qed.

Lemma GetRoute_refines p r h :
  match GetRoute p r with
  | inl rt => Spec.get p (table_view r h) = Some (bytes_of h rt)
  | inr e => e = ErrUnknownPeerID /\ Spec.get p (table_view r h) = None
  end.
Proof.
  unfold GetRoute, Spec.get, table_view. rewrite lookup_fmap.
  destruct (table r !! p) as [[|rt l]|]; done.
Qed.

(** The meaning of the table only depends on the hops of its routes. *)
Lemma table_view_frame r h h' :
  (forall p l, table r !! p = Some l -> Forall (route_ok h) l) ->
  (forall t, slice_ok h t -> contents h' t = contents h t) ->
  table_view r h' = table_view r h.
Proof.
  intros Hok Hfr. unfold table_view. apply map_fmap_ext. intros p l Hp.
  specialize (Hok p l Hp). apply map_ext_Forall. eapply Forall_impl; [|exact Hok].
  intros rt Hrt. apply Hfr, Hrt.
Qed.

(** A history of discovered routes. *)
Fixpoint add_all (l : list (PeerID * Route)) : M (Routing * heap) unit :=
  match l with
  | [] => mret tt
  | (p, rt) :: t => _ ← AddRoute p rt; add_all t
  end.

Lemma routing_ok_new h : routing_ok NewRouting h.
Proof. split; cbn; intros *; rewrite lookup_empty; [done|done|by intros []]. Qed.

Lemma GetRoute_add p q rt r h r' h' :
  AddRoute q rt (r, h) = Ok (tt, (r', h')) -> routing_ok r h ->
  GetRoute p r' = match GetRoute p r with
                  | inl x => inl x
                  | inr e => if decide (p = q) then inl rt else inr e
                  end.
Proof.
  rewrite AddRoute_cases. intros [= <- <-] Hr. unfold GetRoute.
  destruct (decide (p = q)) as [->|Hq].
  - destruct (table r !! q) as [l|] eqn:E.
    + destruct (ok_nonempty _ _ Hr _ _ E) as [Hl _].
      case_bool_decide; [rewrite E|cbn; rewrite lookup_insert_eq]; by destruct l.
    + cbn. by rewrite lookup_insert_eq.
  - destruct (table r !! q) as [l|] eqn:E; [case_bool_decide|];
      cbn; rewrite ?lookup_insert_ne by done; by repeat case_match.
Qed.

Lemma add_all_spec l : forall r h,
  routing_ok r h ->
  exists r', add_all l (r, h) = Ok (tt, (r', h)) /\ routing_ok r' h /\
    table_view r' h = foldl (fun t '(p, rt) => Spec.add p (bytes_of h rt) t) (table_view r h) l /\
    forall p, GetRoute p r' = match GetRoute p r with
                              | inl x => inl x
                              | inr e => match list_find (fun x => x.1 = p) l with
                                         | Some (_, x) => inl x.2
                                         | None => inr e
                                         end
                              end.
Proof.
  induction l as [|[q rt] l IH]; intros r h Hr; cbn [add_all foldl].
  - exists r. do 3 (split; [done|]). intros q. by case_match.
  - destruct (AddRoute_refines q rt r h) as (r1 & E & Hv).
    destruct (AddRoute_ok _ _ _ _ _ _ Hr E) as [_ Hr1].
    destruct (IH r1 h Hr1) as (r2 & E2 & Hr2 & Hv2 & Hg). exists r2.
    erewrite bind_ok by exact E. split; [exact E2|]. split; [exact Hr2|].
    split; [by rewrite Hv2, Hv|]. intros p. rewrite Hg, (GetRoute_add p _ _ _ _ _ _ E Hr).
    destruct (GetRoute p r); [done|]. cbn [list_find fst].
    case_decide as H1; case_decide as H2; try congruence; [done|].
    by destruct (list_find _ l) as [[? ?]|].
Qed.
End spec.

(** ** Properties *)

(** C22: the table after any history of discoveries is the abstract one, where
    each peer has its distinct routes oldest first; the invariant holds; and
    [GetRoute] answers with the first route ever discovered for the peer, or
    with [ErrUnknownPeerID] exactly when there was none. *)
Theorem routing_refines `{Crypto} (l : list (PeerID * Route)) (h : heap) :
  exists r, add_all l (NewRouting, h) = Ok (tt, (r, h)) /\ routing_ok r h /\
    table_view r h = foldl (fun t '(p, rt) => Spec.add p (bytes_of h rt) t) ∅ l /\
    forall p, GetRoute p r = match list_find (fun x => x.1 = p) l with
                             | Some (_, x) => inl x.2
                             | None => inr ErrUnknownPeerID
                             end.
Proof.
  destruct (add_all_spec l NewRouting h (routing_ok_new h)) as (r & E & Hr & Hv & Hg).
  exists r. split; [exact E|]. split; [exact Hr|]. split; [|exact Hg].
  rewrite Hv. unfold table_view. cbn. by rewrite fmap_empty.
Qed.

(** An address lookup is consistent with the route table: it answers for
    exactly the addresses of peers that have a route, and the peer it names has
    the address asked for and can be routed to. *)
Theorem LookupIPv6_routable `{Crypto} (a : Addr) (r : Routing) (h : heap) :
  routing_ok r h ->
  match LookupIPv6 a r with
  | inl p => a = IPAddr (PublicKey_ p) /\ exists rt, GetRoute p r = inl rt
  | inr e => e = ErrUnknownAddress /\
             forall p, a = IPAddr (PublicKey_ p) -> GetRoute p r = inr ErrUnknownPeerID
  end.
Proof.
  intros [Hn Hi Ht]. unfold LookupIPv6. destruct (ipv6 r !! a) as [p|] eqn:E.
  - destruct (Hi _ _ E) as [-> [l Hl]]. split; [done|]. unfold GetRoute. rewrite Hl.
    destruct (Hn _ _ Hl) as [Hne _]. destruct l; [done|eauto].
  - split; [done|]. intros p ->. unfold GetRoute. destruct (table r !! p) as [l|] eqn:El; [|done].
    destruct (Ht p) as [? ?]; [eauto|congruence].
Qed.

(** One peer, known by one route of two hops. *)
Definition rt_pid : PeerID := mkPeerID 1 2 3 4.
Definition rt_heap : heap := [[5; 6]].
Definition rt_route : Route := mkRoute (Slice 0 0 2 2).

Lemma LookupIPv6_routable_witness :
  exists r, AddRoute rt_pid rt_route (NewRouting, rt_heap) = Ok (tt, (r, rt_heap)) /\
    exists rt, GetRoute rt_pid r = inl rt.
Proof.
  destruct (AddRoute_refines rt_pid rt_route NewRouting rt_heap) as (r & E & _).
  exists r. split; [exact E|].
  destruct (AddRoute_ok _ _ _ _ _ _ (routing_ok_new rt_heap) E) as [_ Hr].
  pose proof (LookupIPv6_routable (IPAddr (PublicKey_ rt_pid)) r rt_heap Hr) as H.
  assert (HL : LookupIPv6 (IPAddr (PublicKey_ rt_pid)) r = inl rt_pid)
    by (rewrite AddRoute_cases in E; injection E as <-; by vm_compute).
  rewrite HL in H. exact (proj2 H).
Defined.
