(* ===== verification/Forwarder.v ===== *)
(** * Forwarder: the label switch (node/forwarder/forwarder.go)

    A forwarder has 256 slots, each free or holding a peer and the closure that
    sends to it. The closures belong to whoever hosts the forwarder, so the
    model is parametric in them: [FwdHost] says what a host provides, a state
    that contains a forwarder and the heap, and the meaning of its closures. *)

From S2P Require Import Prelude GoMem Route Ext Toy Key PeerID Multiaddr Packet.
Import Route PeerID Packet.

Module Forwarder.

Definition NumSlots : Z := 256.
Definition HopLength : Z := 1.
Definition DataMulticodec : Z := 0x12345.

Inductive error : Type :=
| ErrPrevHopUnknown
| ErrNextHopUnknown
| ErrSelfUnknown
| ErrZeroLenRoute
| ErrRouteTooLong
| ErrLoopRoute
| ErrDropped          (* the null slot's closure *)
| ErrNoFreeSlots
| ErrSlotNotFound.

#[export] Instance error_eq_dec : EqDecision error.
Proof. solve_decision. Defined.

(** [nullSlotEntry] is one shared entry, recognised by its address; every other
    entry is allocated by [Attach]. *)
Inductive slotentry (F : Type) : Type :=
| nullSlotEntry
| Entry (peerid : PeerID) (send : F).
Arguments nullSlotEntry {F}.
Arguments Entry {F}.

Definition entry_peerid {F} (se : slotentry F) : PeerID :=
  match se with nullSlotEntry => emptyPeerID | Entry p _ => p end.
Definition is_null {F} (se : slotentry F) : bool :=
  match se with nullSlotEntry => true | Entry _ _ => false end.

Record Forwarder (F : Type) : Type := mkForwarder {
  slots : gmap Z (slotentry F);
  bypeer : gmap PeerID Z
}.
Arguments mkForwarder {F}.
Arguments slots {F}.
Arguments bypeer {F}.

Section table.
Context {F : Type}.

Definition NewForwarder : Forwarder F :=
  mkForwarder (list_to_map ((fun i => (i, nullSlotEntry)) <$> seqZ 0 NumSlots)) ∅.

(** The loop of [Attach]: [n] more slots from [i] on; [fwd.slots[i]] is nil for
    a slot that is not there. *)
Fixpoint first_free (fwd : Forwarder F) (i : Z) (n : nat) : option Z :=
  match n with
  | O => None
  | S n => match slots fwd !! i with
           | Some nullSlotEntry => Some i
           | _ => first_free fwd (i + 1) n
           end
  end.

Definition Attach (peerid : PeerID) (send : F) : M (Forwarder F * heap) (Route * option error) :=
  fwd ← gets fst;
  match first_free fwd 0 (Z.to_nat NumSlots) with
  | Some i =>
      _ ← zoom fst_lens (modify (fun fwd =>
            mkForwarder (<[i := Entry peerid send]> (slots fwd)) (<[peerid := i]> (bypeer fwd))));
      r ← zoom snd_lens (NewRouteOf [u8 i]);
      mret (r, None)
  | None =>
      r ← zoom snd_lens (NewRouteOf []);
      mret (r, Some ErrNoFreeSlots)
  end.

(** The loop of [Detach]; dereferencing a missing slot panics. *)
Fixpoint first_of (fwd : Forwarder F) (peerid : PeerID) (i : Z) (n : nat) : res (option Z) :=
  match n with
  | O => Ok None
  | S n => match slots fwd !! i with
           | None => Panic
           | Some se => if PeerID.Equal (entry_peerid se) peerid then Ok (Some i)
                        else first_of fwd peerid (i + 1) n
           end
  end.

Definition Detach (peerid : PeerID) : M (Forwarder F) (option error) := fun fwd =>
  match first_of fwd peerid 0 (Z.to_nat NumSlots) with
  | Ok (Some i) =>
      Ok (None, mkForwarder (<[i := nullSlotEntry]> (slots fwd)) (delete peerid (bypeer fwd)))
  | Ok None => Ok (Some ErrSlotNotFound, fwd)
  | Panic => Panic
  | Block => Block
  end.
End table.

(** What a host of a forwarder provides. *)
Class FwdHost `{MaddrLib} (F W : Type) : Type := {
  host_fwd : W -> Forwarder F;
  host_heap : lens W heap;
  host_heap_laws :: LensLaws host_heap;
  host_fwd_over : forall h w, host_fwd (over host_heap h w) = host_fwd w;
  host_run : F -> LowerPacket.LowerPacket -> M W (option error)
}.

Section switch.
Context `{FwdHost F W}.

Definition set_LowerDst (i : PeerID) (p : LowerPacket.LowerPacket) : LowerPacket.LowerPacket :=
  LowerPacket.mkLower (LowerPacket.Offset p) (Packet.set_LowerDst i (LowerPacket.pkt p)).

(** [fwd.slots[i]], dereferenced at once. *)
Definition slot (i : Z) : M W (slotentry F) :=
  fwd ← gets host_fwd;
  match slots fwd !! i with Some se => mret se | None => panic end.

(** Calling an entry's closure; the null entry's formats the packet into an
    error. *)
Definition send (se : slotentry F) (pkt : LowerPacket.LowerPacket) : M W (option error) :=
  match se with
  | Entry _ f => host_run f pkt
  | nullSlotEntry =>
      _ ← zoom host_heap (UpperPacket.Route_ (UpperPacket.NewUpperPacket (LowerPacket.pkt pkt)));
      _ ← zoom host_heap (Packet.Bytes (LowerPacket.pkt pkt));
      mret (Some ErrDropped)
  end.

Definition HandlePacket (pkt : LowerPacket.LowerPacket) : M W (option error) :=
  buf ← zoom host_heap (reslice (Buf (LowerPacket.pkt pkt)) FwdOffset (FwdOffset + 16));
  length ← zoom host_heap (s_get buf 1);
  if length =? 0 then mret (Some ErrZeroLenRoute) else
  pos ← zoom host_heap (s_get buf 0);
  if length <? pos then mret (Some ErrLoopRoute) else
  next ← zoom host_heap (s_get buf (2 + pos + 1));
  fwd ← gets host_fwd;
  match bypeer fwd !! LowerSrc (LowerPacket.pkt pkt) with
  | None => mret (Some ErrPrevHopUnknown)
  | Some prev =>
      _ ← zoom host_heap (s_set buf (2 + pos) (u8 prev));
      if pos =? length - 1 then
        se ← slot 0; send se pkt
      else
        _ ← zoom host_heap (s_set buf 0 (u8 (pos + 1)));
        se ← slot next;
        send se (set_LowerDst (entry_peerid se) pkt)
  end.

Definition SendRaw (lpkt : LowerPacket.LowerPacket) : M W (option error) :=
  buf ← zoom host_heap (LowerPacket.Payload lpkt);
  b0 ← zoom host_heap (s_get buf 0);
  next ← zoom host_heap (s_get buf (u8 (2 + b0)));
  se ← slot next;
  send se (set_LowerDst (entry_peerid se) lpkt).

Definition SendPacket `{Varint} (upkt : UpperPacket.UpperPacket) : M W (option error) :=
  rt ← zoom host_heap (UpperPacket.Route_ upkt);
  let length := Len rt in
  if length =? 0 then mret (Some ErrZeroLenRoute) else
  if 14 <? length then mret (Some ErrRouteTooLong) else
  let lpkt := LowerPacket.NewLowerPacket (UpperPacket.pkt upkt) in
  _ ← zoom host_heap (LowerPacket.SetCodec lpkt DataMulticodec);
  SendRaw lpkt.
End switch.

(** The invariant: all slots exist, and the index by peer points at a slot of
    that peer. *)
Record fwd_ok {F} (fwd : Forwarder F) : Prop := {
  fwd_total : forall i, 0 <= i < NumSlots <-> is_Some (slots fwd !! i);
  fwd_bypeer : forall p i, bypeer fwd !! p = Some i -> exists f, slots fwd !! i = Some (Entry p f)
}.
End Forwarder.
Import Forwarder.

(** ** What the switch does to the bytes of a packet *)

(** The outcome of the switching decision on the bytes [l] of a packet from
    [src]: an error, delivery to the upper layer (slot 0), or forwarding to
    slot [next], the last two with the rewritten bytes. *)
Inductive verdict : Type :=
| VPanic
| VErr (e : error)
| VDeliver (l' : list Z)
| VForward (next : Z) (l' : list Z).

Definition verdict_of (by_ : gmap PeerID Z) (src : PeerID) (l : list Z) : verdict :=
  let length := getz l 21 in
  let pos := getz l 20 in
  if length =? 0 then VErr ErrZeroLenRoute else
  if length <? pos then VErr ErrLoopRoute else
  if 13 <=? pos then VPanic else
  match by_ !! src with
  | None => VErr ErrPrevHopUnknown
  | Some prev =>
      let l1 := splice l (22 + pos) [u8 prev] in
      if pos =? length - 1 then VDeliver l1
      else VForward (getz l (23 + pos)) (splice l1 20 [u8 (pos + 1)])
  end.

Section switch_spec.
Context `{FwdHost F W}.

Lemma slot_ok i h (w : W) se :
  slots (host_fwd w) !! i = Some se -> slot i (over host_heap h w) = Ok (se, over host_heap h w).
Proof. intros E. unfold slot, mbind, M_bind, gets. rewrite host_fwd_over, E. done. Qed.

Lemma HandlePacket_verdict (pkt : LowerPacket.LowerPacket) h l (w : W) (b := Buf (LowerPacket.pkt pkt)) :
  full h b l -> is_bytes l -> 36 <= zlen l ->
  HandlePacket pkt (over host_heap h w) =
    match verdict_of (bypeer (host_fwd w)) (LowerSrc (LowerPacket.pkt pkt)) l with
    | VPanic => Panic
    | VErr e => Ok (Some e, over host_heap h w)
    | VDeliver l' => (se ← slot 0; send se pkt) (over host_heap (upd h (s_arr b) l') w)
    | VForward next l' =>
        (se ← slot next; send se (set_LowerDst (entry_peerid se) pkt))
          (over host_heap (upd h (s_arr b) l') w)
    end.
Proof.
  intros Hf Hb Hl. unfold HandlePacket, verdict_of, FwdOffset, b in *. cbv zeta.
  pose proof (getz_byte l 20 Hb) as Hp. pose proof (getz_byte l 21 Hb) as Hn. unfold is_byte in Hp, Hn.
  do 2 mzstep. change (20 + 1) with 21. destruct (Z.eqb_spec (getz l 21) 0); [done|].
  mzstep. change (20 + 0) with 20. destruct (Z.ltb_spec (getz l 21) (getz l 20)); [done|].
  destruct (Z.leb_spec 13 (getz l 20)).
  { apply bind_zoom_panic; [apply _|]. apply window_get_panic. lia. }
  mzstep. unfold gets. erewrite bind_ok by reflexivity. rewrite host_fwd_over.
  destruct (bypeer (host_fwd w) !! _) as [prev|]; [|done].
  mzstep. replace (20 + (2 + getz l 20)) with (22 + getz l 20) by lia.
  destruct (Z.eqb_spec (getz l 20) (getz l 21 - 1)); [done|].
  mzstep. replace (20 + (2 + getz l 20 + 1)) with (23 + getz l 20) by lia. done.
Qed.

(** Delivery and forwarding through a slot that is taken. *)
Lemma verdict_deliver (pkt : LowerPacket.LowerPacket) h l l' (w : W) p f :
  full h (Buf (LowerPacket.pkt pkt)) l -> is_bytes l -> 36 <= zlen l ->
  verdict_of (bypeer (host_fwd w)) (LowerSrc (LowerPacket.pkt pkt)) l = VDeliver l' ->
  slots (host_fwd w) !! 0 = Some (Entry p f) ->
  HandlePacket pkt (over host_heap h w) =
    host_run f pkt (over host_heap (upd h (s_arr (Buf (LowerPacket.pkt pkt))) l') w).
Proof.
  intros Hf Hb Hl Hv Hs. rewrite (HandlePacket_verdict pkt h l w) by done. rewrite Hv.
  by erewrite bind_ok by (by apply slot_ok).
Qed.

Lemma verdict_forward (pkt : LowerPacket.LowerPacket) h l next l' (w : W) p f :
  full h (Buf (LowerPacket.pkt pkt)) l -> is_bytes l -> 36 <= zlen l ->
  verdict_of (bypeer (host_fwd w)) (LowerSrc (LowerPacket.pkt pkt)) l = VForward next l' ->
  slots (host_fwd w) !! next = Some (Entry p f) ->
  HandlePacket pkt (over host_heap h w) =
    host_run f (set_LowerDst p pkt)
      (over host_heap (upd h (s_arr (Buf (LowerPacket.pkt pkt))) l') w).
Proof.
  intros Hf Hb Hl Hv Hs. rewrite (HandlePacket_verdict pkt h l w) by done. rewrite Hv.
  by erewrite bind_ok by (by apply slot_ok).
Qed.
End switch_spec.

(** ** Slots *)

Section slots_spec.
Context {F : Type}.
Implicit Types (fwd : Forwarder F) (p : PeerID).

Lemma NewForwarder_slot i :
  slots (@NewForwarder F) !! i = if decide (0 <= i < NumSlots) then Some nullSlotEntry else None.
Proof.
  unfold NewForwarder; cbn [slots]. case_decide as Hi.
  - apply elem_of_list_to_map_1.
    + rewrite <- list_fmap_compose. apply NoDup_fmap_2; [by intros ? ? ?|]. apply NoDup_seqZ.
    + apply list_elem_of_fmap. exists i. split; [done|]. apply elem_of_seqZ. unfold NumSlots in *. lia.
  - apply not_elem_of_list_to_map_1. rewrite <- list_fmap_compose. intros (x & -> & Hx)%list_elem_of_fmap.
    apply elem_of_seqZ in Hx. unfold NumSlots in *. cbn in Hi. lia.
Qed.

Lemma NewForwarder_ok : fwd_ok (@NewForwarder F).
Proof.
  split.
  - intros i. rewrite NewForwarder_slot. case_decide; (split; [intros ?; try done; eauto|intros [? ?]; done]).
  - intros p i. cbn. by rewrite lookup_empty.
Qed.

Lemma first_free_spec fwd n : forall i,
  match first_free fwd i n with
  | Some k => i <= k < i + Z.of_nat n /\ slots fwd !! k = Some nullSlotEntry /\
              forall j, i <= j < k -> slots fwd !! j <> Some nullSlotEntry
  | None => forall j, i <= j < i + Z.of_nat n -> slots fwd !! j <> Some nullSlotEntry
  end.
Proof.
  induction n as [|n IH]; intros i; cbn [first_free]; [intros j ?; lia|].
  specialize (IH (i + 1)).
  assert (Hrest : slots fwd !! i <> Some nullSlotEntry ->
    match first_free fwd (i + 1) n with
    | Some k => i <= k < i + Z.of_nat (S n) /\ slots fwd !! k = Some nullSlotEntry /\
                forall j, i <= j < k -> slots fwd !! j <> Some nullSlotEntry
    | None => forall j, i <= j < i + Z.of_nat (S n) -> slots fwd !! j <> Some nullSlotEntry
    end).
  { intros Hi. destruct (first_free fwd (i + 1) n) as [k|].
    - destruct IH as (? & ? & IH). split; [lia|]. split; [done|]. intros j Hj.
      destruct (decide (j = i)) as [->|]; [done|]. apply IH. lia.
    - intros j Hj. destruct (decide (j = i)) as [->|]; [done|]. apply IH. lia. }
  destruct (slots fwd !! i) as [[|]|] eqn:E; [|by apply Hrest..].
  split; [lia|]. split; [done|]. intros j ?. lia.
Qed.

Lemma first_of_spec fwd p n : forall i,
  (forall j, i <= j < i + Z.of_nat n -> is_Some (slots fwd !! j)) ->
  match first_of fwd p i n with
  | Ok (Some k) => i <= k < i + Z.of_nat n /\ entry_peerid <$> slots fwd !! k = Some p
  | Ok None => forall j, i <= j < i + Z.of_nat n -> entry_peerid <$> slots fwd !! j <> Some p
  | _ => False
  end.
Proof.
  induction n as [|n IH]; intros i Hs; cbn [first_of]; [intros j ?; lia|].
  destruct (Hs i) as [se E]; [lia|]. rewrite E. unfold PeerID.Equal. case_bool_decide as Hp.
  - rewrite E. cbn. split; [lia|by rewrite Hp].
  - specialize (IH (i + 1) ltac:(intros; apply Hs; lia)).
    destruct (first_of fwd p (i + 1) n) as [[k|]| |]; [|..|done|done].
    + destruct IH. split; [lia|done].
    + intros j Hj. destruct (decide (j = i)) as [->|]; [rewrite E; cbn; congruence|]. apply IH. lia.
Qed.

(** Freeing or taking one slot keeps all slots in place. *)
Lemma slots_insert_total fwd i se j :
  fwd_ok fwd -> 0 <= i < NumSlots ->
  (0 <= j < NumSlots <-> is_Some (<[i := se]> (slots fwd) !! j)).
Proof.
  intros Hf Hi. rewrite lookup_insert. case_decide; [subst; split; [eauto|done]|apply (fwd_total _ Hf)].
Qed.

Lemma Attach_cases p f fwd h :
  fwd_ok fwd ->
  (exists i r h', 0 <= i < NumSlots /\ slots fwd !! i = Some nullSlotEntry /\
    Attach p f (fwd, h) = Ok ((r, None),
      (mkForwarder (<[i := Entry p f]> (slots fwd)) (<[p := i]> (bypeer fwd)), h')) /\
    route_ok h' r /\ bytes_of h' r = [i] /\
    (forall t, slice_ok h t -> slice_ok h' t /\ contents h' t = contents h t)) \/
  ((forall i, 0 <= i < NumSlots -> slots fwd !! i <> Some nullSlotEntry) /\
   Attach p f (fwd, h) = Ok ((EmptyRoute, Some ErrNoFreeSlots), (fwd, h))).
Proof.
  intros Hf. pose proof (first_free_spec fwd (Z.to_nat NumSlots) 0) as Hff.
  unfold Attach. erewrite bind_ok by reflexivity. cbn [fst].
  destruct (first_free fwd 0 (Z.to_nat NumSlots)) as [i|]; [left|right].
  - destruct Hff as (Hi & Hs & _). unfold NumSlots in *.
    destruct (NewRouteOf_spec [u8 i] h) as (r & h' & E & Hok & Hby & Hfr).
    exists i, r, h'. split; [lia|]. split; [exact Hs|]. split.
    + erewrite bind_ok by reflexivity. erewrite bind_ok by (by apply zoom_ok). done.
    + split; [done|]. split; [|done]. rewrite Hby. f_equal. apply u8_id. unfold is_byte. lia.
  - split; [|done]. intros i Hi. apply Hff. unfold NumSlots in *. lia.
Qed.

Lemma Detach_cases p fwd :
  fwd_ok fwd ->
  (exists i, 0 <= i < NumSlots /\ entry_peerid <$> slots fwd !! i = Some p /\
    Detach p fwd = Ok (None, mkForwarder (<[i := nullSlotEntry]> (slots fwd)) (delete p (bypeer fwd)))) \/
  ((forall i, 0 <= i < NumSlots -> entry_peerid <$> slots fwd !! i <> Some p) /\
   Detach p fwd = Ok (Some ErrSlotNotFound, fwd)).
Proof.
  intros Hf. unfold Detach. unfold NumSlots in *.
  assert (Hs : forall j, 0 <= j < 0 + Z.of_nat (Z.to_nat 256) -> is_Some (slots fwd !! j))
    by (intros j Hj; apply (fwd_total _ Hf); unfold NumSlots; lia).
  pose proof (first_of_spec fwd p (Z.to_nat 256) 0 Hs) as Hff.
  destruct (first_of fwd p 0 (Z.to_nat 256)) as [[i|]| |]; [left|right|done|done].
  - destruct Hff as [? ?]. exists i. split; [lia|done].
  - split; [|done]. intros i Hi. apply Hff. lia.
Qed.

Lemma Attach_ok p f fwd h r e fwd' h' :
  fwd_ok fwd -> Attach p f (fwd, h) = Ok ((r, e), (fwd', h')) -> fwd_ok fwd'.
Proof.
  intros Hf. destruct (Attach_cases p f fwd h Hf) as [(i & r0 & h0 & Hi & Hs & -> & _)|[_ ->]].
  - intros [= <- <- <- <-]. split; cbn.
    + intros j. by apply slots_insert_total.
    + intros q k. rewrite lookup_insert_Some. intros [[<- <-]|[Hne Hq]].
      * rewrite lookup_insert_eq. eauto.
      * destruct (fwd_bypeer _ Hf _ _ Hq) as [g Hg]. rewrite lookup_insert_ne by congruence. eauto.
  - by intros [= <- <- <- <-].
Qed.

Lemma Detach_ok p fwd e fwd' : fwd_ok fwd -> Detach p fwd = Ok (e, fwd') -> fwd_ok fwd'.
Proof.
  intros Hf. destruct (Detach_cases p fwd Hf) as [(i & Hi & Hs & ->)|[_ ->]].
  - intros [= <- <-]. split; cbn.
    + intros j. by apply slots_insert_total.
    + intros q k. rewrite lookup_delete_Some. intros [Hne Hq].
      destruct (fwd_bypeer _ Hf _ _ Hq) as [g Hg]. rewrite lookup_insert_ne; [eauto|].
      intros ->. rewrite Hg in Hs. injection Hs as Hs. cbn in Hs. congruence.
  - by intros [= <- <-].
Qed.
End slots_spec.

(** ** Labels *)

(** A packet whose label has the hops [hops] and stands at [pos]. *)
Definition labelled (l : list Z) (pos : Z) (hops : list Z) : Prop :=
  36 <= zlen l /\ is_bytes l /\ sub l 20 16 = route_header pos hops /\ 1 <= zlen hops <= 14.

Lemma labelled_get l pos hops i :
  labelled l pos hops -> 0 <= i < 16 -> getz l (20 + i) = getz (route_header pos hops) i.
Proof. intros (Hl & _ & <- & _) Hi. rewrite getz_sub by lia. done. Qed.

Lemma labelled_bytes l pos hops : labelled l pos hops -> is_byte pos /\ is_bytes hops.
Proof.
  intros (Hl & Hb & Hs & _). apply (is_bytes_sub l 20 16) in Hb. rewrite Hs in Hb.
  unfold route_header in Hb. apply Forall_cons_iff in Hb as [? Hb].
  apply Forall_cons_iff in Hb as [_ Hb]. by apply Forall_app in Hb as [? _].
Qed.

Lemma labelled_splice l pos hops pos' hops' :
  labelled l pos hops -> is_byte pos' -> is_bytes hops' -> 1 <= zlen hops' <= 14 ->
  labelled (splice l 20 (route_header pos' hops')) pos' hops'.
Proof.
  intros (Hl & Hb & Hs & ?) ? ? ?. pose proof (zlen_route_header pos' hops').
  split; [zl|]. split; [apply is_bytes_splice; [done|apply is_bytes_route_header; auto; lia]|].
  split; [apply sub_splice_eq; lia|done].
Qed.

(** The label standing at one of its hops, seen by the switch. *)
Lemma verdict_labelled by_ src l pos hops prev :
  labelled l pos hops -> 0 <= pos < zlen hops -> pos <= 12 -> by_ !! src = Some prev -> is_byte prev ->
  verdict_of by_ src l =
    if pos =? zlen hops - 1
    then VDeliver (splice l 20 (route_header pos (<[Z.to_nat pos := prev]> hops)))
    else VForward (getz hops (pos + 1)) (splice l 20 (route_header (pos + 1) (<[Z.to_nat pos := prev]> hops))).
Proof.
  intros Hlab Hpos H12 Hby Hpr. pose proof Hlab as (Hl & Hb & Hs & Hn).
  pose proof (labelled_get l pos hops 0 Hlab ltac:(lia)) as Hp.
  pose proof (labelled_get l pos hops 1 Hlab ltac:(lia)) as Hlen.
  change (20 + 0) with 20 in Hp. change (20 + 1) with 21 in Hlen.
  change (getz (route_header pos hops) 0) with pos in Hp.
  change (getz (route_header pos hops) 1) with (zlen hops) in Hlen.
  unfold verdict_of. rewrite Hp, Hlen, Hby. cbv zeta.
  replace (zlen hops =? 0) with false by lia. replace (zlen hops <? pos) with false by lia.
  replace (13 <=? pos) with false by lia. rewrite u8_id by done.
  pose proof (zlen_route_header pos hops ltac:(lia)) as Hz.
  assert (H1 : splice l (22 + pos) [prev] = splice l 20 (route_header pos (<[Z.to_nat pos := prev]> hops))).
  { rewrite <- (splice_sub l 20 16) at 1 by lia. rewrite Hs.
    replace (22 + pos) with (20 + (2 + pos)) by lia.
    rewrite splice_splice_in by (rewrite ?zlen_1; lia).
    rewrite route_header_hop by lia. done. }
  rewrite H1. destruct (Z.eqb_spec pos (zlen hops - 1)) as [_|Hne]; [done|]. f_equal.
  - replace (23 + pos) with (20 + (2 + (pos + 1))) by lia.
    rewrite (labelled_get l pos hops) by (done || lia). apply route_header_get. lia.
  - assert (Hz' : zlen (<[Z.to_nat pos := prev]> hops) = zlen hops) by llia.
    pose proof (zlen_route_header pos (<[Z.to_nat pos := prev]> hops) ltac:(lia)).
    replace 20 with (20 + 0) at 2 by lia.
    rewrite splice_splice_in by (rewrite ?zlen_1; lia).
    rewrite route_header_pos. rewrite u8_id by (unfold is_byte; lia). done.
Qed.

(** ** Sending *)

Section send_spec.
Context `{FwdHost F W, VarintLaws}.

Lemma LowerSetCodec_full (p : LowerPacket.LowerPacket) codec h l :
  full h (Buf (LowerPacket.pkt p)) l -> 0 <= LowerPacket.Offset p -> LowerPacket.Offset p + 4 <= zlen l ->
  0 <= codec < 2 ^ 28 ->
  LowerPacket.SetCodec p codec h =
    Ok (tt, upd h (s_arr (Buf (LowerPacket.pkt p))) (splice l (LowerPacket.Offset p) (varint_To codec))).
Proof.
  intros. pose proof (varint_To_4 codec). unfold LowerPacket.SetCodec.
  replace (4 <? zlen (varint_To codec)) with false by lia.
  rewrite Z.add_0_r. erewrite buf_write_full by (eauto; rewrite ?Z.add_0_r; lia).
  by rewrite Z.add_0_r.
Qed.

Lemma SendRaw_labelled (lpkt : LowerPacket.LowerPacket) h l hops (w : W) p f
    (b := Buf (LowerPacket.pkt lpkt)) (n := Length (LowerPacket.pkt lpkt)) :
  LowerPacket.Offset lpkt = 16 -> full h b l -> labelled l 0 hops -> 39 <= n <= zlen l + 16 ->
  slots (host_fwd w) !! getz hops 0 = Some (Entry p f) ->
  SendRaw lpkt (over host_heap h w) = host_run f (set_LowerDst p lpkt) (over host_heap h w).
Proof.
  intros Ho Hf Hlab Hn Hs. pose proof Hlab as (Hl & Hb & _ & Hh).
  unfold SendRaw, LowerPacket.Payload. rewrite Ho. change (16 + 4) with 20. fold b n.
  mzstep. mzstep. rewrite (labelled_get l 0 hops) by (done || lia).
  change (u8 (2 + getz (route_header 0 hops) 0)) with 2. mzstep.
  rewrite (labelled_get l 0 hops 2) by (done || lia).
  change 2 with (2 + 0). rewrite (route_header_get 0 hops 0) by lia.
  by erewrite bind_ok by (by apply slot_ok).
Qed.

Lemma labelled_frame l l' pos hops :
  labelled l pos hops -> zlen l' = zlen l -> is_bytes l' -> sub l' 20 16 = sub l 20 16 -> labelled l' pos hops.
Proof. intros (? & ? & ? & ?) Hz Hb Hs. unfold labelled. rewrite Hz, Hs. done. Qed.

Lemma SendPacket_labelled (upkt : UpperPacket.UpperPacket) h l hops (w : W) p f
    (b := Buf (UpperPacket.pkt upkt)) (n := Length (UpperPacket.pkt upkt)) :
  full h b l -> labelled l 0 hops -> 39 <= n <= zlen l + 16 ->
  slots (host_fwd w) !! getz hops 0 = Some (Entry p f) ->
  SendPacket upkt (over host_heap h w) =
    host_run f (set_LowerDst p (LowerPacket.NewLowerPacket (UpperPacket.pkt upkt)))
      (over host_heap (upd h (s_arr b) (splice l 16 (varint_To DataMulticodec))) w).
Proof.
  intros Hf Hlab Hn Hs. pose proof Hlab as (Hl & Hb & Hsub & Hh).
  pose proof (varint_To_4 DataMulticodec) as H4. pose proof (varint_To_bytes DataMulticodec).
  assert (Hlen : getz l 21 = zlen hops) by exact (labelled_get l 0 hops 1 Hlab ltac:(lia)).
  destruct (Route_full upkt h l Hf Hb) as (rt & E & Hok & _ & Hby); [lia|].
  assert (HL : Len rt = zlen hops).
  { pose proof (zlen_contents _ _ Hok) as Hz. fold (bytes_of h rt) in Hz.
    rewrite Hby, zlen_sub in Hz by lia. unfold Len. lia. }
  unfold SendPacket. erewrite bind_zoom by (apply _ || exact E). rewrite HL.
  replace (zlen hops =? 0) with false by lia. replace (14 <? zlen hops) with false by lia.
  erewrite bind_zoom; [|apply _|eapply (LowerSetCodec_full (LowerPacket.NewLowerPacket (UpperPacket.pkt upkt)));
    [exact Hf|cbn; lia|cbn; lia|unfold DataMulticodec; lia]].
  cbn [LowerPacket.NewLowerPacket LowerPacket.Offset LowerPacket.pkt].
  specialize (H4 ltac:(unfold DataMulticodec; lia)). fold b.
  eapply SendRaw_labelled; cbn [LowerPacket.NewLowerPacket LowerPacket.Offset LowerPacket.pkt];
    [done|fl| |rewrite zlen_splice by lia; exact Hn|exact Hs].
  eapply labelled_frame; [exact Hlab|zl|by apply is_bytes_splice|apply sub_splice_ge; lia].
Qed.
End send_spec.

(** ** A host that records what its closures are given *)

Module Recorder.
Section recorder.
Context `{MaddrLib} {F : Type}.

Record host : Type := mkHost {
  r_fwd : Forwarder F;
  r_heap : heap;
  r_out : list (F * LowerPacket.LowerPacket)
}.

Definition r_lens : lens host heap := Lens r_heap (fun h w => mkHost (r_fwd w) h (r_out w)).

#[export] Instance r_lens_laws : LensLaws r_lens.
Proof. by split; intros; [|destruct t|]. Qed.

#[export] Program Instance recorder_host : FwdHost F host := {
  host_fwd := r_fwd;
  host_heap := r_lens;
  host_run := fun f pkt w => Ok (None, mkHost (r_fwd w) (r_heap w) (r_out w ++ [(f, pkt)]))
}.
Next Obligation. done. Qed.
End recorder.
Arguments host {_} F.
End Recorder.
Import (notations, coercions) Recorder.
#[export] Existing Instances Recorder.recorder_host Recorder.r_lens_laws.

Lemma bypeer_byte {F} (fwd : Forwarder F) p i : fwd_ok fwd -> bypeer fwd !! p = Some i -> is_byte i.
Proof.
  intros Hf Hp. destruct (fwd_bypeer _ Hf _ _ Hp) as [f Hs].
  destruct (proj2 (fwd_total _ Hf i)) as [? ?]; [eauto|]. unfold is_byte, NumSlots in *. lia.
Qed.

(** ** Properties *)

Section properties.
Context `{FwdHost F W}.

(** C18: the switch, on a well-formed label of up to 14 hops standing at [pos]
    (up to the 13th hop), from a known neighbour: the byte at [pos] is replaced
    by this node's slot for that neighbour; at the last hop the packet goes to
    slot 0, otherwise [pos] advances and the packet goes to the peer in the slot
    the next byte names; nothing else in the packet changes. *)
Theorem HandlePacket_switches (pkt : LowerPacket.LowerPacket) (h : heap) (l hops : list Z) (pos prev : Z)
    (w : W) (b := Buf (LowerPacket.pkt pkt)) (hops' := <[Z.to_nat pos := prev]> hops) :
  fwd_ok (host_fwd w) -> full h b l -> labelled l pos hops -> pos < zlen hops -> pos <= 12 ->
  bypeer (host_fwd w) !! LowerSrc (LowerPacket.pkt pkt) = Some prev ->
  (pos = zlen hops - 1 -> forall p f, slots (host_fwd w) !! 0 = Some (Entry p f) ->
     HandlePacket pkt (over host_heap h w) =
       host_run f pkt (over host_heap (upd h (s_arr b) (splice l 20 (route_header pos hops'))) w)) /\
  (pos < zlen hops - 1 -> forall p f, slots (host_fwd w) !! getz hops (pos + 1) = Some (Entry p f) ->
     HandlePacket pkt (over host_heap h w) =
       host_run f (set_LowerDst p pkt)
         (over host_heap (upd h (s_arr b) (splice l 20 (route_header (pos + 1) hops'))) w)).
Proof.
  intros Hok Hf Hlab Hp H12 Hby. pose proof (bypeer_byte _ _ _ Hok Hby) as Hprev.
  pose proof Hlab as (Hl & Hb & _ & Hn). destruct (labelled_bytes _ _ _ Hlab) as [Hpb _]. unfold is_byte in Hpb.
  pose proof (verdict_labelled _ _ l pos hops prev Hlab ltac:(lia) H12 Hby Hprev) as Hv.
  split; intros Hpos p f Hs.
  - rewrite Hpos, Z.eqb_refl, <- Hpos in Hv. by eapply verdict_deliver.
  - replace (pos =? zlen hops - 1) with false in Hv by lia. by eapply verdict_forward.
Qed.


(** A label of 14 hops, which [SendPacket] accepts, cannot be delivered:
    the switch at its last hop reads the byte after the label's 16 bytes and
    panics, whatever the tables hold. *)
Theorem HandlePacket_hop14_panics (pkt : LowerPacket.LowerPacket) (h : heap) (l hops : list Z) (w : W) :
  full h (Buf (LowerPacket.pkt pkt)) l -> labelled l 13 hops -> zlen hops = 14 ->
  HandlePacket pkt (over host_heap h w) = Panic.
Proof.
  intros Hf Hlab H14. pose proof Hlab as (Hl & Hb & _ & _).
  rewrite (HandlePacket_verdict pkt h l w Hf Hb Hl). unfold verdict_of. cbv zeta.
  change 20 with (20 + 0). change 21 with (20 + 1).
  rewrite !(labelled_get l 13 hops) by (done || lia). cbn [getz route_header Z.to_nat nth Pos.to_nat].
  change (getz (route_header 13 hops) 1) with (zlen hops). by rewrite H14.
Qed.

(** A label that has already been consumed ([pos] equal to its length) is
    not refused: the packet is forwarded once more, to the slot named by the
    second byte after the route, and the byte after the route is overwritten. *)
Theorem HandlePacket_past_end (pkt : LowerPacket.LowerPacket) (h : heap) (l : list Z) (w : W) (prev : Z) p f
    (b := Buf (LowerPacket.pkt pkt)) (n := getz l 21) :
  full h b l -> is_bytes l -> 36 <= zlen l -> 0 < n <= 12 -> getz l 20 = n ->
  bypeer (host_fwd w) !! LowerSrc (LowerPacket.pkt pkt) = Some prev ->
  slots (host_fwd w) !! getz l (23 + n) = Some (Entry p f) ->
  HandlePacket pkt (over host_heap h w) =
    host_run f (set_LowerDst p pkt)
      (over host_heap (upd h (s_arr b) (splice (splice l (22 + n) [u8 prev]) 20 [u8 (n + 1)])) w).
Proof.
  intros Hf Hb Hl Hn Hp Hby Hs. eapply verdict_forward; [exact Hf|done|done| |exact Hs].
  unfold verdict_of. cbv zeta. rewrite Hp, Hby. fold n.
  replace (n =? 0) with false by lia. replace (n <? n) with false by lia.
  replace (13 <=? n) with false by lia. by replace (n =? n - 1) with false by lia.
Qed.
End properties.

(** A forwarder with ourselves in slot 0 and two neighbours. *)
Definition fw_self : PeerID := mkPeerID 9 9 9 9.
Definition fw_a : PeerID := mkPeerID 1 1 1 1.
Definition fw_b : PeerID := mkPeerID 2 2 2 2.
Definition fw_tab : Forwarder Z :=
  mkForwarder (<[2 := Entry fw_b 2]> (<[1 := Entry fw_a 1]> (<[0 := Entry fw_self 0]> (slots NewForwarder))))
    (<[fw_b := 2]> (<[fw_a := 1]> (<[fw_self := 0]> ∅))).
Definition fw_bytes (pos : Z) (hops : list Z) : list Z := zeros 20 ++ route_header pos hops ++ zeros 30.
Definition fw_pkt (src : PeerID) : LowerPacket.LowerPacket :=
  LowerPacket.NewLowerPacket (set_LowerSrc src (NewPacket (Slice 0 0 66 66))).
Definition fw_host (l : list Z) : Recorder.host Z := Recorder.mkHost fw_tab [l] [].

Lemma fw_tab_ok : fwd_ok fw_tab.
Proof.
  assert (Hs : forall i, slots fw_tab !! i =
    if decide (i = 2) then Some (Entry fw_b 2) else if decide (i = 1) then Some (Entry fw_a 1)
    else if decide (i = 0) then Some (Entry fw_self 0) else slots NewForwarder !! i).
  { intros i. unfold fw_tab. cbn [slots]. rewrite !lookup_insert.
    repeat case_decide; try done; congruence. }
  split.
  - intros i. rewrite Hs, NewForwarder_slot. unfold NumSlots.
    repeat case_decide; split; intros Hx; try done; try lia; try (by destruct Hx).
  - intros p i Hp. unfold fw_tab in Hp; cbn [bypeer] in Hp.
    rewrite !lookup_insert_Some, lookup_empty in Hp.
    destruct Hp as [[<- <-]|[_ [[<- <-]|[_ [[<- <-]|[_ ?]]]]]]; [..|done]; rewrite Hs; eexists; reflexivity.
Qed.

(** The bytes of a packet labelled [hops] at [pos] are well formed. *)
Lemma fw_labelled pos hops :
  1 <= zlen hops <= 14 -> is_byte pos -> is_bytes hops -> labelled (fw_bytes pos hops) pos hops.
Proof.
  intros Hz Hp Hh. pose proof (zlen_route_header pos hops ltac:(lia)) as Hr.
  unfold fw_bytes. split; [autorewrite with zlen; lia|]. split; [|split; [|done]].
  - repeat (apply Forall_app; split); try apply is_bytes_zeros. apply is_bytes_route_header; [done|done|lia].
  - unfold sub. change (Z.to_nat 20) with (length (zeros 20)). rewrite drop_app_length.
    rewrite take_app_le by (unfold zlen in Hr; lia). apply take_ge. unfold zlen in Hr; lia.
Qed.

Lemma fw_full l src : zlen l = 66 -> full [l] (Buf (LowerPacket.pkt (fw_pkt src))) l.
Proof. intros H. repeat split; cbn; lia. Qed.

Lemma HandlePacket_switches_witness :
  HandlePacket (fw_pkt fw_a) (over host_heap [fw_bytes 0 [7; 2; 5]] (fw_host [])) =
    host_run 2 (set_LowerDst fw_b (fw_pkt fw_a))
      (over host_heap (upd [fw_bytes 0 [7; 2; 5]] 0 (splice (fw_bytes 0 [7; 2; 5]) 20 (route_header 1 [1; 2; 5])))
         (fw_host [])).
Proof.
  apply (HandlePacket_switches (fw_pkt fw_a) [fw_bytes 0 [7; 2; 5]] (fw_bytes 0 [7; 2; 5]) [7; 2; 5] 0 1 (fw_host []));
    [exact fw_tab_ok|by apply fw_full|by apply fw_labelled; apply (bool_decide_unpack _)|by vm_compute..].
Defined.


Definition fw_hops14 : list Z := [1;2;3;4;5;6;7;8;9;10;11;12;13;14].

Lemma HandlePacket_hop14_panics_witness :
  HandlePacket (fw_pkt fw_a) (over host_heap [fw_bytes 13 fw_hops14] (fw_host [])) = Panic.
Proof.
  apply (HandlePacket_hop14_panics (fw_pkt fw_a) [fw_bytes 13 fw_hops14] (fw_bytes 13 fw_hops14) fw_hops14);
    [by apply fw_full|by apply fw_labelled; apply (bool_decide_unpack _)|done].
Defined.

Lemma HandlePacket_past_end_witness :
  HandlePacket (fw_pkt fw_a) (over host_heap [fw_bytes 1 [7]] (fw_host [])) =
    host_run 0 (set_LowerDst fw_self (fw_pkt fw_a))
      (over host_heap (upd [fw_bytes 1 [7]] 0 (splice (splice (fw_bytes 1 [7]) (22 + getz (fw_bytes 1 [7]) 21) [u8 1])
         20 [u8 (getz (fw_bytes 1 [7]) 21 + 1)])) (fw_host [])).
Proof.
  apply (HandlePacket_past_end (fw_pkt fw_a) [fw_bytes 1 [7]] (fw_bytes 1 [7]) (fw_host []) 1 fw_self 0);
    [by apply fw_full|by apply (bool_decide_unpack _)|by vm_compute..].
Defined.

(** ** Histories of attachments *)

(** The states of a forwarder: new, or after one more [Attach] or [Detach]. *)
Inductive fwd_reach {F} : Forwarder F * heap -> Prop :=
| reach_new h : fwd_reach (NewForwarder, h)
| reach_attach p f r s s' : fwd_reach s -> Attach p f s = Ok (r, s') -> fwd_reach s'
| reach_detach p e fwd h fwd' : fwd_reach (fwd, h) -> Detach p fwd = Ok (e, fwd') -> fwd_reach (fwd', h).

Lemma fwd_reach_ok {F} (s : Forwarder F * heap) : fwd_reach s -> fwd_ok (fst s).
Proof.
  induction 1 as [h|p f [r e] [fwd h] [fwd' h'] _ IH E|p e fwd h fwd' _ IH E]; cbn in *.
  - apply NewForwarder_ok.
  - by eapply Attach_ok.
  - by eapply Detach_ok.
Qed.

(** C20: after any history of attachments and detachments, [Attach] returns: on
    success the route is one byte, naming a slot that was free and now sends to
    the peer, which is also the slot recorded for packets that come from it, and
    every other slot is as it was; it fails only when all 256 slots are taken,
    and then changes nothing. [Detach] returns too, and removes the peer's
    index entry when it finds a slot of it. *)
Theorem forwarder_slots {F} (fwd : Forwarder F) (h : heap) (p : PeerID) (f : F) :
  fwd_reach (fwd, h) ->
  (exists e fwd', Detach p fwd = Ok (e, fwd') /\ (e = None -> bypeer fwd' !! p = None)) /\
  ((exists i r fwd' h',
     Attach p f (fwd, h) = Ok ((r, None), (fwd', h')) /\ bytes_of h' r = [i] /\
     slots fwd !! i = Some nullSlotEntry /\ slots fwd' !! i = Some (Entry p f) /\
     bypeer fwd' !! p = Some i /\ forall j, j <> i -> slots fwd' !! j = slots fwd !! j) \/
  ((forall i, 0 <= i < NumSlots -> slots fwd !! i <> Some nullSlotEntry) /\
   Attach p f (fwd, h) = Ok ((EmptyRoute, Some ErrNoFreeSlots), (fwd, h)))).
Proof.
  intros Hr. pose proof (fwd_reach_ok _ Hr) as Hok. cbn in Hok. split.
  { destruct (Detach_cases p fwd Hok) as [(i & _ & _ & E)|[_ E]]; eexists _, _; (split; [exact E|]); [|done].
    intros _. apply lookup_delete_eq. }
  destruct (Attach_cases p f fwd h Hok) as [(i & r & h' & Hi & Hs & E & _ & Hby & _)|[Hfull E]]; [left|by right].
  eexists i, r, _, h'. split; [exact E|]. split; [exact Hby|]. split; [exact Hs|]. cbn.
  rewrite !lookup_insert_eq. split; [done|]. split; [done|].
  intros j Hj. by rewrite lookup_insert_ne by congruence.
Qed.

Lemma forwarder_slots_witness :
  exists i r fwd' h', Attach fw_a 1 (NewForwarder, []) = Ok ((r, None), (fwd', h')) /\
    slots fwd' !! i = Some (Entry fw_a 1).
Proof.
  destruct (forwarder_slots NewForwarder [] fw_a 1 (reach_new [])) as [_ [(i & r & fwd' & h' & E & _ & _ & Hs & _)|[Hfull _]]].
  - by exists i, r, fwd', h'.
  - destruct (Hfull 0); [unfold NumSlots; lia|]. by vm_compute.
Defined.

(** A peer attached twice, as every new session with it does, is only half
    removed by [Detach]: packets from it are then refused as coming from an
    unknown neighbour, while a slot still sends to it. *)
Theorem Detach_leaves_stale_slot {F} (fwd : Forwarder F) (h : heap) (p : PeerID) (f g : F) (i j : Z) :
  fwd_ok fwd -> 0 <= i < NumSlots -> 0 <= j < NumSlots -> i <> j ->
  slots fwd !! i = Some nullSlotEntry -> slots fwd !! j = Some nullSlotEntry ->
  exists r1 r2 fwd1 h1 fwd2 h2 fwd3,
    Attach p f (fwd, h) = Ok ((r1, None), (fwd1, h1)) /\
    Attach p g (fwd1, h1) = Ok ((r2, None), (fwd2, h2)) /\
    Detach p fwd2 = Ok (None, fwd3) /\
    bypeer fwd3 !! p = None /\ exists k, entry_peerid <$> slots fwd3 !! k = Some p /\ slots fwd3 !! k <> Some nullSlotEntry.
Proof.
  intros Hok Hi Hj Hij Hsi Hsj.
  destruct (Attach_cases p f fwd h Hok) as [(a & r1 & h1 & Ha & Hsa & E1 & _)|[Hfull _]]; [|by destruct (Hfull i)].
  pose proof (Attach_ok _ _ _ _ _ _ _ _ Hok E1) as Hok1.
  match type of E1 with _ = Ok (_, (?x, _)) => set (fwd1 := x) in * end.
  destruct (Attach_cases p g fwd1 h1 Hok1) as [(b & r2 & h2 & Hb & Hsb & E2 & _)|[Hfull _]].
  2: { destruct (decide (a = i)) as [->|Hai]; [destruct (Hfull j)|destruct (Hfull i)]; try done;
       cbn; by rewrite lookup_insert_ne by congruence. }
  assert (Hab : a <> b) by (intros ->; cbn in Hsb; by rewrite lookup_insert_eq in Hsb).
  pose proof (Attach_ok _ _ _ _ _ _ _ _ Hok1 E2) as Hok2.
  match type of E2 with _ = Ok (_, (?x, _)) => set (fwd2 := x) in * end.
  assert (Hs2a : slots fwd2 !! a = Some (Entry p f))
    by (cbn; rewrite lookup_insert_ne by congruence; apply lookup_insert_eq).
  assert (Hs2b : slots fwd2 !! b = Some (Entry p g)) by apply lookup_insert_eq.
  destruct (Detach_cases p fwd2 Hok2) as [(k & Hk & _ & E3)|[Hno _]].
  2: { destruct (Hno a Ha). by rewrite Hs2a. }
  eexists r1, r2, fwd1, h1, fwd2, h2, _. split; [exact E1|]. split; [exact E2|]. split; [exact E3|].
  cbn [bypeer slots]. split; [apply lookup_delete_eq|].
  destruct (decide (k = a)) as [->|Hka]; [exists b|exists a];
    rewrite lookup_insert_ne by congruence; rewrite ?Hs2a, ?Hs2b; done.
Qed.

Lemma Detach_leaves_stale_slot_witness :
  exists r1 r2 fwd1 h1 fwd2 h2 fwd3,
    Attach fw_a 1 (NewForwarder, []) = Ok ((r1, None), (fwd1, h1)) /\
    Attach fw_a 1 (fwd1, h1) = Ok ((r2, None), (fwd2, h2)) /\
    Detach fw_a fwd2 = Ok (None, fwd3) /\
    bypeer fwd3 !! fw_a = None /\
    exists k, entry_peerid <$> slots fwd3 !! k = Some fw_a /\ slots fwd3 !! k <> Some nullSlotEntry.
Proof.
  apply (Detach_leaves_stale_slot NewForwarder [] fw_a 1 1 0 1);
    [exact NewForwarder_ok|by vm_compute|by vm_compute|done|by vm_compute|by vm_compute].
Defined.
