(* ===== verification/Network.v ===== *)
(** * Network: labels travelling through several forwarders

    The package comment of node/forwarder/forwarder.go describes what the label
    achieves across nodes: it leads the packet along the route, and at the end
    it is the way back. Here that is a theorem about any number of nodes, each
    running [Forwarder.HandlePacket] on the bytes it receives. Between two nodes
    a packet is encrypted, sent and decrypted, which carries the bytes and names
    the sending peer as [LowerSrc]. *)

From S2P Require Import Prelude GoMem Route Ext Toy Key PeerID Multiaddr Packet Forwarder.
Import Route PeerID Packet Forwarder.

Module Network.
Section network.
Context `{MaddrLib}.

(** Nodes are numbered; a node's closures are the numbers of the nodes they
    send to, its own number for the closure that hands packets to itself. *)
Context (pid : nat -> PeerID) (net : nat -> Forwarder nat).

(** The packet a node works on: the received bytes in a buffer of their size. *)
Definition received (src : PeerID) (l : list Z) : LowerPacket.LowerPacket :=
  LowerPacket.NewLowerPacket (set_LowerSrc src (NewPacket (Slice 0 0 (zlen l) (zlen l)))).

(** What the node sent, and to whom. *)
Definition emitted (r : res (option error * Recorder.host nat)) : option (nat * list Z) :=
  match r with
  | Ok (_, w) =>
      match Recorder.r_out w with
      | [(f, p)] => Some (f, contents (Recorder.r_heap w) (Buf (LowerPacket.pkt p)))
      | _ => None
      end
  | _ => None
  end.

Definition host_of (n : nat) (l : list Z) : Recorder.host nat := Recorder.mkHost (net n) [l] [].

Definition switch (n : nat) (src : PeerID) (l : list Z) : option (nat * list Z) :=
  emitted (HandlePacket (received src l) (host_of n l)).

Definition launch (n : nat) (l : list Z) : option (nat * list Z) :=
  emitted (SendRaw (received (pid n) l) (host_of n l)).

(** A packet sent by [from] arrives at [at_] and travels on until a node hands
    it to itself. *)
Fixpoint travel (fuel : nat) (from at_ : nat) (l : list Z) : option (nat * list Z) :=
  match fuel with
  | O => None
  | S fuel =>
      match switch at_ (pid from) l with
      | Some (f, l') => if bool_decide (f = at_) then Some (at_, l') else travel fuel at_ f l'
      | None => None
      end
  end.

(** Sending along the label of [l]; a label has at most 14 hops. *)
Definition transmit (n : nat) (l : list Z) : option (nat * list Z) :=
  match launch n l with
  | Some (f, l') => travel 14 n f l'
  | None => None
  end.

(** A node whose tables are in order: it can hand packets to itself, and its
    closures are those of the peers in the slots. *)
Record node_ok (n : nat) : Prop := {
  node_fwd : fwd_ok (net n);
  node_self : slots (net n) !! 0 = Some (Entry (pid n) n);
  node_slots : forall i p f, slots (net n) !! i = Some (Entry p f) -> p = pid f
}.

(** [path a hops b back]: from [a] the slots [hops] lead to [b], every node on
    the way knows the one before it, and [back] are their slots for it. *)
Inductive path : nat -> list Z -> nat -> list Z -> Prop :=
| path_nil a : path a [] a []
| path_cons a s c hops b r back :
    slots (net a) !! s = Some (Entry (pid c) c) -> a <> c ->
    bypeer (net c) !! pid a = Some r ->
    path c hops b back ->
    path a (s :: hops) b (r :: back).

Lemma path_length a hops b back : path a hops b back -> length back = length hops.
Proof. induction 1; cbn; congruence. Qed.

Lemma path_snoc a hops b back c s r :
  path a hops b back -> slots (net b) !! s = Some (Entry (pid c) c) -> b <> c ->
  bypeer (net c) !! pid b = Some r -> path a (hops ++ [s]) c (back ++ [r]).
Proof.
  induction 1; intros; cbn; econstructor; eauto. constructor.
Qed.

(** The slots recorded on the way lead back, through the same nodes. *)
Lemma path_back a hops b back :
  (forall n, node_ok n) -> (forall m n, pid m = pid n -> m = n) ->
  (forall m n s, slots (net m) !! s = Some (Entry (pid n) n) -> m <> n -> is_Some (bypeer (net n) !! pid m)) ->
  path a hops b back -> exists fwd, path b (reverse back) a (reverse fwd) /\ length fwd = length hops.
Proof.
  intros Hok Hinj Hsym. induction 1 as [a|a s c hops b r back Hs Hne Hr Hp (fwd & IH & Hl)].
  - exists []. split; [constructor|done].
  - destruct (fwd_bypeer _ (node_fwd _ (Hok c)) _ _ Hr) as [f Hf].
    pose proof (node_slots _ (Hok c) _ _ _ Hf) as E. apply Hinj in E. subst f.
    destruct (Hsym c a r Hf) as [s' Hs']; [congruence|].
    exists (s' :: fwd). rewrite !reverse_cons. split; [|cbn; lia].
    eapply path_snoc; eauto.
Qed.

(** One step of the switch on a label. *)
Lemma full_received src l : full [l] (Buf (LowerPacket.pkt (received src l))) l.
Proof. repeat split. Qed.

Lemma host_of_over n l : host_of n l = over host_heap [l] (Recorder.mkHost (net n) [] []).
Proof. reflexivity. Qed.

Lemma emitted_run (n : nat) l l' f p :
  zlen l' = zlen l -> Buf (LowerPacket.pkt p) = Slice 0 0 (zlen l) (zlen l) ->
  emitted (host_run f p (over host_heap (upd [l] 0 l') (Recorder.mkHost (net n) [] []))) = Some (f, l').
Proof.
  intros Hz Hb. cbn. rewrite Hb. unfold contents; cbn. by rewrite <- Hz, sub_all.
Qed.

Lemma switch_step n src l hops pos prev :
  node_ok n -> labelled l pos hops -> 0 <= pos < zlen hops -> pos <= 12 ->
  bypeer (net n) !! src = Some prev ->
  let hops' := <[Z.to_nat pos := prev]> hops in
  (pos = zlen hops - 1 -> switch n src l = Some (n, splice l 20 (route_header pos hops'))) /\
  (pos < zlen hops - 1 -> forall c, slots (net n) !! getz hops (pos + 1) = Some (Entry (pid c) c) ->
    switch n src l = Some (c, splice l 20 (route_header (pos + 1) hops'))).
Proof.
  intros Hn Hlab Hp H12 Hby hops'. pose proof Hlab as (Hl & Hb & _ & Hh).
  assert (Hz : zlen hops' = zlen hops) by (unfold hops'; llia).
  assert (Hz' : forall k, zlen (splice l 20 (route_header k hops')) = zlen l)
    by (intros k; pose proof (zlen_route_header k hops'); apply zlen_splice; lia).
  pose proof (verdict_labelled _ src l pos hops prev Hlab Hp H12 Hby
    (bypeer_byte _ _ _ (node_fwd _ Hn) Hby)) as Hv. fold hops' in Hv.
  unfold switch. rewrite host_of_over. split.
  - intros Hpos. replace (pos =? zlen hops - 1) with true in Hv by lia.
    erewrite verdict_deliver; [|apply full_received|done|done|exact Hv|apply (node_self _ Hn)].
    by apply emitted_run.
  - intros Hpos c Hc. replace (pos =? zlen hops - 1) with false in Hv by lia.
    erewrite verdict_forward; [|apply full_received|done|done|exact Hv|exact Hc].
    by apply emitted_run.
Qed.

(** Where the label's byte at the current position is, and its replacement. *)
Lemma hop_at done_ s rest :
  getz (done_ ++ s :: rest) (zlen done_) = s /\
  forall r, <[Z.to_nat (zlen done_) := r]> (done_ ++ s :: rest) = done_ ++ r :: rest.
Proof.
  unfold getz, zlen. rewrite Nat2Z.id. split.
  - rewrite app_nth2 by lia. by rewrite Nat.sub_diag.
  - intros r. rewrite insert_app_r_alt by lia. by rewrite Nat.sub_diag.
Qed.

(** The journey from the node [c] on, which the packet reached from [a]. *)
Lemma travel_path c rest b back :
  (forall n, node_ok n) -> path c rest b back ->
  forall a done_ s l r fuel,
  labelled l (zlen done_) (done_ ++ s :: rest) -> zlen (done_ ++ s :: rest) <= 13 ->
  bypeer (net c) !! pid a = Some r -> (length rest < fuel)%nat ->
  travel fuel a c l =
    Some (b, splice l 20 (route_header (zlen (done_ ++ s :: rest) - 1) (done_ ++ r :: back))).
Proof.
  intros Hok. induction 1 as [c|c s2 c2 rest b r2 back Hs2 Hne Hr2 Hp IH];
    intros a done_ s l r fuel Hlab H13 Hr Hfuel; (destruct fuel as [|fuel]; [cbn in Hfuel; lia|]); cbn [travel];
    pose proof (zlen_nonneg done_) as Hd; try pose proof (zlen_nonneg rest) as Hrest;
    (destruct (switch_step c (pid a) l _ _ r (Hok c) Hlab ltac:(zl) ltac:(autorewrite with zlen in H13; lia) Hr)
      as [Hlast Hmid]).
  - rewrite Hlast by zl. rewrite bool_decide_eq_true_2 by done.
    rewrite (proj2 (hop_at done_ s [])). do 4 f_equal. zl.
  - assert (Hget : getz (done_ ++ s :: s2 :: rest) (zlen done_ + 1) = s2).
    { pose proof (proj1 (hop_at (done_ ++ [s]) s2 rest)) as E. rewrite <- app_assoc in E. cbn in E.
      by rewrite zlen_app, zlen_1 in E. }
    rewrite (Hmid ltac:(zl) c2) by (by rewrite Hget).
    rewrite bool_decide_eq_false_2 by congruence. rewrite (proj2 (hop_at done_ s (s2 :: rest))).
    pose proof Hlab as (Hl & Hb & _ & Hn). destruct (labelled_bytes _ _ _ Hlab) as [Hpb Hhb].
    assert (Hrb : is_byte r) by (eapply bypeer_byte; [apply (node_fwd _ (Hok c))|exact Hr]).
    assert (Hz : zlen ((done_ ++ [r]) ++ s2 :: rest) = zlen (done_ ++ s :: s2 :: rest)) by zl.
    erewrite (IH c (done_ ++ [r]) s2 _ r2 fuel); [|..|done|cbn in Hfuel; lia].
    + rewrite splice_splice_eq; [|lia| |].
      * rewrite Hz, <- app_assoc. done.
      * rewrite !zlen_route_header; [done|..]; pose proof (path_length _ _ _ _ Hp);
          rewrite <- ?app_assoc; unfold zlen in *; rewrite ?length_app in *; cbn in *; lia.
      * rewrite zlen_route_header; [lia|]. unfold zlen in *. rewrite ?length_app in *. cbn in *. lia.
    + rewrite <- app_assoc. cbn [app]. rewrite zlen_app, zlen_1.
      eapply labelled_splice; [exact Hlab| | |].
      * unfold is_byte in *. pose proof (zlen_nonneg rest). autorewrite with zlen in H13. lia.
      * apply Forall_app in Hhb as [? Hhb]. apply Forall_cons_iff in Hhb as [_ ?].
        apply Forall_app. split; [done|]. by constructor.
      * autorewrite with zlen in *. lia.
    + by rewrite Hz.
Qed.

Lemma launch_step n c s rest l :
  labelled l 0 (s :: rest) -> 39 <= zlen l ->
  slots (net n) !! s = Some (Entry (pid c) c) -> launch n l = Some (c, l).
Proof.
  intros Hlab Hl Hs. unfold launch. rewrite host_of_over.
  erewrite SendRaw_labelled; [|done|apply full_received|exact Hlab|cbn; lia|exact Hs].
  rewrite <- (upd_same [l] 0 l) at 1 by done. by apply emitted_run.
Qed.

Lemma transmit_path a hops b back l :
  (forall n, node_ok n) -> path a hops b back -> hops <> [] -> zlen hops <= 13 ->
  labelled l 0 hops -> 39 <= zlen l ->
  transmit a l = Some (b, splice l 20 (route_header (zlen hops - 1) back)).
Proof.
  intros Hok Hp Hne H13 Hlab Hl. destruct Hp as [|a s c hops b r back Hs Hac Hr Hp]; [done|].
  unfold transmit. rewrite (launch_step a c s hops l) by done.
  erewrite (travel_path c hops b back Hok Hp a [] s l r); [done|exact Hlab|done|exact Hr|].
  rewrite zlen_cons in H13. unfold zlen in H13. lia.
Qed.
End network.
End Network.
Import Network.

(** ** Properties *)

Section properties.
Context `{MaddrLib} (pid : nat -> PeerID) (net : nat -> Forwarder nat).

(** Every node's tables are in order, peer ids are distinct, and a node that is
    a neighbour's neighbour knows that neighbour. *)
Context (net_ok : forall n, node_ok pid net n).
Context (pid_inj : forall m n, pid m = pid n -> m = n).
Context (net_sym : forall m n s, slots (net m) !! s = Some (Entry (pid n) n) -> m <> n ->
                                 is_Some (bypeer (net n) !! pid m)).

(** C15: routing by labels works end to end, for any network and any route of up
    to 13 hops: a packet labelled with the slots of a path is delivered to the
    node at its end with its content intact, and the label it arrives with,
    reversed, leads a reply back to the sender. *)
Theorem label_delivers_and_returns (a b : nat) (hops back l m : list Z) :
  path pid net a hops b back -> hops <> [] -> zlen hops <= 13 ->
  labelled l 0 hops -> 39 <= zlen l ->
  labelled m 0 (reverse back) -> 39 <= zlen m ->
  exists l' m',
    transmit pid net a l = Some (b, l') /\
    sub l' 20 16 = route_header (zlen hops - 1) back /\
    sub l' 36 (zlen l - 36) = sub l 36 (zlen l - 36) /\
    transmit pid net b m = Some (a, m') /\
    sub m' 36 (zlen m - 36) = sub m 36 (zlen m - 36).
Proof.
  intros Hp Hne H13 Hlab Hl Hlm Hm.
  pose proof (path_length _ _ _ _ _ _ Hp) as Hbl.
  destruct (path_back pid net a hops b back net_ok pid_inj net_sym Hp) as (fwd & Hq & Hfl).
  pose proof (transmit_path pid net _ _ _ _ l net_ok Hp Hne H13 Hlab Hl) as E1.
  assert (Hrb : reverse back <> []).
  { intros E. apply (f_equal length) in E. rewrite length_reverse in E. by destruct back, hops. }
  assert (Hzb : zlen (reverse back) <= 13) by (rewrite zlen_reverse; unfold zlen in *; lia).
  pose proof (transmit_path pid net _ _ _ _ m net_ok Hq Hrb Hzb Hlm Hm) as E2.
  assert (Hz1 : zlen (route_header (zlen hops - 1) back) = 16)
    by (apply zlen_route_header; unfold zlen in *; lia).
  assert (Hz2 : zlen (route_header (zlen (reverse back) - 1) (reverse fwd)) = 16)
    by (apply zlen_route_header; rewrite zlen_reverse; unfold zlen in *; lia).
  eexists _, _. split; [exact E1|]. split; [apply sub_splice_eq; lia|].
  split; [apply sub_splice_ge; lia|]. split; [exact E2|]. apply sub_splice_ge; lia.
Qed.
End properties.

(** A line of nodes: slot 1 of each leads to the next, slot 2 to the previous. *)
Definition line_pid (n : nat) : PeerID := mkPeerID (Z.of_nat n) 1 1 1.
Definition line_net (n : nat) : Forwarder nat :=
  let s1 := <[1 := Entry (line_pid (S n)) (S n)]> (<[0 := Entry (line_pid n) n]> (slots NewForwarder)) in
  let b1 := <[line_pid (S n) := 1]> {[line_pid n := 0]} in
  match n with
  | O => mkForwarder s1 b1
  | S m => mkForwarder (<[2 := Entry (line_pid m) m]> s1) (<[line_pid m := 2]> b1)
  end.

Lemma line_pid_inj m n : line_pid m = line_pid n -> m = n.
Proof. intros [=]. lia. Qed.

Lemma line_slot n i : slots (line_net n) !! i =
  if decide (i = 0) then Some (Entry (line_pid n) n)
  else if decide (i = 1) then Some (Entry (line_pid (S n)) (S n))
  else if decide (i = 2 /\ n <> 0%nat) then Some (Entry (line_pid (pred n)) (pred n))
  else slots (@NewForwarder nat) !! i.
Proof.
  unfold line_net. destruct n; cbn [slots pred]; rewrite !lookup_insert;
    repeat case_decide; subst; try done; try lia; naive_solver.
Qed.

Lemma line_bypeer n m : bypeer (line_net n) !! line_pid m =
  if decide (m = n) then Some 0 else if decide (m = S n) then Some 1
  else if decide (S m = n) then Some 2 else None.
Proof.
  assert (Hl : forall x y, line_pid x = line_pid y <-> x = y) by (split; [apply line_pid_inj|congruence]).
  unfold line_net. destruct n; cbn [bypeer]; rewrite ?lookup_insert, ?lookup_singleton;
    repeat case_decide; rewrite ?Hl in *; try done; lia.
Qed.

Lemma line_ok n : node_ok line_pid line_net n.
Proof.
  split.
  - split.
    + intros i. rewrite line_slot, NewForwarder_slot. unfold NumSlots.
      repeat case_decide; split; intros Hx; try done; try lia; try (by destruct Hx); eauto.
    + intros p i Hp.
      assert (exists m, p = line_pid m) as [m ->].
      { unfold line_net in Hp. destruct n; cbn [bypeer] in Hp;
          rewrite ?lookup_insert_Some, ?lookup_singleton_Some in Hp; repeat (destruct_or? || destruct_and?); eauto. }
      rewrite line_bypeer in Hp. rewrite line_slot.
      repeat case_decide; simplify_eq; try lia; try (eexists; reflexivity).
  - by rewrite line_slot.
  - intros i p f. rewrite line_slot, NewForwarder_slot. repeat case_decide; intros Hx; by simplify_eq.
Qed.

Lemma line_sym m n s :
  slots (line_net m) !! s = Some (Entry (line_pid n) n) -> m <> n -> is_Some (bypeer (line_net n) !! line_pid m).
Proof.
  rewrite line_slot, NewForwarder_slot, line_bypeer. intros Hs Hmn.
  repeat case_decide; simplify_eq; try done; try (eexists; reflexivity); lia.
Qed.

Lemma label_delivers_and_returns_witness :
  exists l' m', transmit line_pid line_net 0 (fw_bytes 0 [1; 1]) = Some (2%nat, l') /\
    transmit line_pid line_net 2 (fw_bytes 0 [2; 2]) = Some (0%nat, m').
Proof.
  destruct (label_delivers_and_returns line_pid line_net line_ok line_pid_inj line_sym 0 2 [1; 1] [2; 2]
              (fw_bytes 0 [1; 1]) (fw_bytes 0 [2; 2])) as (l' & m' & E1 & _ & _ & E2 & _).
  { eapply path_cons; [by rewrite line_slot|done|by rewrite line_bypeer|].
    eapply path_cons; [by rewrite line_slot|done|by rewrite line_bypeer|]. apply path_nil. }
  { discriminate. }
  { by vm_compute. }
  { apply fw_labelled; by apply (bool_decide_unpack _). }
  { by vm_compute. }
  { apply (fw_labelled 0 [2; 2]); by apply (bool_decide_unpack _). }
  { by vm_compute. }
  exists l', m'. split; [exact E1|exact E2].
Defined.
