(* ===== verification/SessionPacket.v ===== *)
(** * SessionPacket: the packets of a session (node/session/packet.go)

    Hello, response, data and plaintext packets are views of the same buffer at
    a given offset: [LowerOffset] for the session between neighbours,
    [UpperOffset] for the one between the ends of a route, whose packets leave
    [Padding] bytes at the end for the lower session's tag. The four structs have
    the same fields, [SPacket]; each module holds the methods of one. *)

From S2P Require Import Prelude GoMem Route Ext Toy Key PeerID Multiaddr Packet.
Import Key PeerID Packet.

Module SessionPacket.

Definition HelloMsgType : Z := 0x1.
Definition ResponseMsgType : Z := 0x2.
Definition DataMsgType : Z := 0x4.
Definition PlaintextMsgType : Z := 0x5.

Section fields.
Context `{MaddrLib}.

Record SPacket : Type := mkSPacket {
  Offset : Z;
  Padding : Z;
  pkt : Packet
}.

Definition set_pkt (q : Packet) (p : SPacket) : SPacket := mkSPacket (Offset p) (Padding p) q.
Definition set_len (n : Z) (p : SPacket) : SPacket := set_pkt (set_Length n (pkt p)) p.

(** The statements the accessors consist of, on [pkt.Buf[pkt.Offset+lo : pkt.Offset+hi]]. *)
Definition le32_at (p : SPacket) (lo hi : Z) : M heap Z :=
  t ← reslice (Buf (pkt p)) (Offset p + lo) (Offset p + hi); get_le32 t.
Definition put_le32_at (p : SPacket) (lo hi v : Z) : M heap unit :=
  t ← reslice (Buf (pkt p)) (Offset p + lo) (Offset p + hi); put_le32 t v.
Definition be32_at (p : SPacket) (lo hi : Z) : M heap Z :=
  t ← reslice (Buf (pkt p)) (Offset p + lo) (Offset p + hi); get_be32 t.
Definition put_be32_at (p : SPacket) (lo hi v : Z) : M heap unit :=
  t ← reslice (Buf (pkt p)) (Offset p + lo) (Offset p + hi); put_be32 t v.
Definition bytes_at (p : SPacket) (lo hi : Z) : M heap (list Z) :=
  buf_read (Buf (pkt p)) (Offset p + lo) (Offset p + hi).
Definition put_bytes_at (p : SPacket) (lo hi : Z) (bs : list Z) : M heap unit :=
  buf_write (Buf (pkt p)) (Offset p + lo) (Offset p + hi) bs.
End fields.

Definition emptyTag : list Z := zeros 16.

Module HelloPacket.
Section hello.
Context `{MaddrLib}.

Definition MsgType (p : SPacket) : M heap Z := le32_at p 0 4.
Definition SetMsgType (p : SPacket) (msgt : Z) : M heap unit := put_le32_at p 0 4 msgt.

Definition NewHelloPacket (basepkt : Packet) (offset padding : Z) : M heap SPacket :=
  let p := mkSPacket offset padding basepkt in
  _ ← SetMsgType p HelloMsgType; mret p.

Definition SenderIndex (p : SPacket) : M heap Z := be32_at p 4 8.
Definition SetSenderIndex (p : SPacket) (idx : Z) : M heap unit := put_be32_at p 4 8 idx.

Definition EphemeralKey (p : SPacket) : M heap PublicKey :=
  b ← bytes_at p 8 40; mret (NewPublicKey b).
Definition SetEphemeralKey (p : SPacket) (key : PublicKey) : M heap unit :=
  put_bytes_at p 8 40 (pub_bytes key).

Definition StaticKey (p : SPacket) : M heap (list Z) := b ← bytes_at p 40 88; mret (copy_array 48 b).
Definition SetStaticKey (p : SPacket) (k : list Z) : M heap unit := put_bytes_at p 40 88 k.

Definition Timestamp (p : SPacket) : M heap (list Z) := b ← bytes_at p 88 116; mret (copy_array 28 b).
Definition SetTimestamp (p : SPacket) (ts : list Z) : M heap unit := put_bytes_at p 88 116 ts.

Definition Plaintext (p : SPacket) : M heap slice :=
  reslice (Buf (pkt p)) (Offset p + 116) (Length (pkt p) - Padding p - 16).

Definition SetPlaintext (p : SPacket) (pt : list Z) : M heap SPacket :=
  let p := set_len (Offset p + 116 + zlen pt + 16 + Padding p) p in
  _ ← buf_write (Buf (pkt p)) (Offset p + 116) (Length (pkt p) - Padding p) pt;
  _ ← buf_write (Buf (pkt p)) (Length (pkt p) - 16) (Length (pkt p) - Padding p) emptyTag;
  mret p.

Definition Ciphertext (p : SPacket) : M heap slice :=
  reslice (Buf (pkt p)) (Offset p + 116) (Length (pkt p) - Padding p).

Definition SetCiphertext (p : SPacket) (ct : list Z) : M heap SPacket :=
  let p := set_len (Offset p + 116 + zlen ct + Padding p) p in
  _ ← buf_write (Buf (pkt p)) (Offset p + 116) (Length (pkt p) - Padding p) ct;
  mret p.
End hello.
End HelloPacket.

Module ResponsePacket.
Section response.
Context `{MaddrLib}.

Definition MsgType (p : SPacket) : M heap Z := le32_at p 0 4.
Definition SetMsgType (p : SPacket) (msgt : Z) : M heap unit := put_le32_at p 0 4 msgt.

Definition NewResponsePacket (basepkt : Packet) (offset padding : Z) : M heap SPacket :=
  let p := mkSPacket offset padding basepkt in
  _ ← SetMsgType p ResponseMsgType; mret p.

Definition SenderIndex (p : SPacket) : M heap Z := be32_at p 4 8.
Definition SetSenderIndex (p : SPacket) (idx : Z) : M heap unit := put_be32_at p 4 8 idx.
Definition SessionIndex (p : SPacket) : M heap Z := be32_at p 8 12.
Definition SetSessionIndex (p : SPacket) (idx : Z) : M heap unit := put_be32_at p 8 12 idx.

Definition EphemeralKey (p : SPacket) : M heap PublicKey :=
  b ← bytes_at p 12 44; mret (NewPublicKey b).
Definition SetEphemeralKey (p : SPacket) (key : PublicKey) : M heap unit :=
  put_bytes_at p 12 44 (pub_bytes key).

Definition Empty (p : SPacket) : M heap (list Z) := b ← bytes_at p 44 60; mret (copy_array 16 b).
Definition SetEmpty (p : SPacket) (e : list Z) : M heap unit := put_bytes_at p 44 60 e.

Definition Plaintext (p : SPacket) : M heap slice :=
  reslice (Buf (pkt p)) (Offset p + 60) (Length (pkt p) - Padding p - 16).

Definition SetPlaintext (p : SPacket) (pt : list Z) : M heap SPacket :=
  let p := set_len (Offset p + 60 + zlen pt + 16 + Padding p) p in
  _ ← buf_write (Buf (pkt p)) (Offset p + 60) (Length (pkt p) - Padding p) pt;
  _ ← buf_write (Buf (pkt p)) (Length (pkt p) - Padding p - 16) (Length (pkt p) - Padding p) emptyTag;
  mret p.

Definition Ciphertext (p : SPacket) : M heap slice :=
  reslice (Buf (pkt p)) (Offset p + 60) (Length (pkt p) - Padding p).

Definition SetCiphertext (p : SPacket) (ct : list Z) : M heap SPacket :=
  let p := set_len (Offset p + 60 + zlen ct + Padding p) p in
  _ ← buf_write (Buf (pkt p)) (Offset p + 60) (Length (pkt p) - Padding p) ct;
  mret p.
End response.
End ResponsePacket.

Module DataPacket.
Section data.
Context `{MaddrLib}.

Definition MsgType (p : SPacket) : M heap Z := le32_at p 0 4.
Definition SetMsgType (p : SPacket) (msgt : Z) : M heap unit := put_le32_at p 0 4 msgt.

Definition NewDataPacket (basepkt : Packet) (offset padding : Z) : M heap SPacket :=
  let p := mkSPacket offset padding basepkt in
  _ ← SetMsgType p DataMsgType; mret p.

Definition SessionIndex (p : SPacket) : M heap Z := be32_at p 4 8.
Definition SetSessionIndex (p : SPacket) (idx : Z) : M heap unit := put_be32_at p 4 8 idx.

Definition Nonce (p : SPacket) : M heap (list Z) := b ← bytes_at p 8 16; mret (copy_array 8 b).
Definition SetNonce (p : SPacket) (nonce : list Z) : M heap unit := put_bytes_at p 8 16 nonce.

Definition Plaintext (p : SPacket) : M heap slice :=
  reslice (Buf (pkt p)) (Offset p + 16) (Length (pkt p) - Padding p - 16).

Definition SetPlaintext (p : SPacket) (pt : list Z) : M heap SPacket :=
  let p := set_len (Offset p + 16 + zlen pt + 16 + Padding p) p in
  _ ← buf_write (Buf (pkt p)) (Offset p + 16) (Length (pkt p) - Padding p) pt;
  _ ← buf_write (Buf (pkt p)) (Length (pkt p) - Padding p - 16) (Length (pkt p) - Padding p) emptyTag;
  mret p.

Definition Ciphertext (p : SPacket) : M heap slice :=
  reslice (Buf (pkt p)) (Offset p + 16) (Length (pkt p) - Padding p).

Definition SetCiphertext (p : SPacket) (ct : list Z) : M heap SPacket :=
  let p := set_len (Offset p + 16 + zlen ct + Padding p) p in
  _ ← buf_write (Buf (pkt p)) (Offset p + 16) (Length (pkt p) - Padding p) ct;
  mret p.
End data.
End DataPacket.

Module PlaintextPacket.
Definition SignatureSize : Z := 8.
Definition RandomizerSize : Z := 8.
Definition PlaintextPacketSize : Z := 4 + SignatureSize + RandomizerSize + PublicKeySize.
Definition stubSignature : list Z := replicate 8 0x42.
Definition stubRandomizer : list Z := replicate 8 0x23.

Section plaintext.
Context `{MaddrLib}.

Definition MsgType (p : SPacket) : M heap Z := le32_at p 0 4.
Definition SetMsgType (p : SPacket) (msgt : Z) : M heap unit := put_le32_at p 0 4 msgt.

Definition Signature (p : SPacket) : M heap (list Z) :=
  b ← bytes_at p 4 (4 + SignatureSize); mret (copy_array SignatureSize b).
Definition SetSignature (p : SPacket) (sig : list Z) : M heap unit := put_bytes_at p 4 (4 + SignatureSize) sig.

Definition Randomizer (p : SPacket) : M heap (list Z) :=
  b ← bytes_at p 12 (12 + RandomizerSize); mret (copy_array RandomizerSize b).
Definition SetRandomizer (p : SPacket) (rnd : list Z) : M heap unit := put_bytes_at p 12 (12 + RandomizerSize) rnd.

Definition Sender (p : SPacket) : M heap PublicKey :=
  b ← bytes_at p 20 (20 + PublicKeySize); mret (NewPublicKey b).
Definition SetSender (p : SPacket) (key : PublicKey) : M heap unit :=
  put_bytes_at p 20 (20 + PublicKeySize) (pub_bytes key).

Definition NewPlaintextPacket (basepkt : Packet) (offset padding : Z) : M heap SPacket :=
  let p := mkSPacket offset padding basepkt in
  _ ← SetMsgType p PlaintextMsgType;
  _ ← SetSignature p stubSignature;
  _ ← SetRandomizer p stubRandomizer;
  mret p.

Definition Plaintext (p : SPacket) : M heap slice :=
  reslice (Buf (pkt p)) (Offset p + 52) (Length (pkt p) - Padding p).

Definition SetPlaintext (p : SPacket) (pt : list Z) : M heap SPacket :=
  let p := set_len (Offset p + 52 + zlen pt + Padding p) p in
  _ ← buf_write (Buf (pkt p)) (Offset p + 52) (Length (pkt p) - Padding p) pt;
  mret p.
End plaintext.
End PlaintextPacket.

End SessionPacket.
Import SessionPacket.

(** ** Accessors on a packet buffer *)

Section access.
Context `{MaddrLib}.
Implicit Types (p : SPacket) (h : heap) (l : list Z).

Lemma le32_at_full p lo h l :
  full h (Buf (pkt p)) l -> 0 <= Offset p + lo -> Offset p + lo + 4 <= zlen l ->
  le32_at p lo (lo + 4) h = Ok (le_val (sub l (Offset p + lo) 4), h).
Proof.
  intros. unfold le32_at. rewrite Z.add_assoc. mstep. by apply window_get_le32.
Qed.

Lemma put_le32_at_full p lo v h l :
  full h (Buf (pkt p)) l -> 0 <= Offset p + lo -> Offset p + lo + 4 <= zlen l ->
  put_le32_at p lo (lo + 4) v h = Ok (tt, upd h (s_arr (Buf (pkt p))) (splice l (Offset p + lo) (le_bytes 4 v))).
Proof.
  intros. unfold put_le32_at. rewrite Z.add_assoc. mstep. by apply window_put_le32.
Qed.

Lemma be32_at_full p lo h l :
  full h (Buf (pkt p)) l -> 0 <= Offset p + lo -> Offset p + lo + 4 <= zlen l ->
  be32_at p lo (lo + 4) h = Ok (be_val (sub l (Offset p + lo) 4), h).
Proof.
  intros. unfold be32_at. rewrite Z.add_assoc. mstep. by apply window_get_be32.
Qed.

Lemma put_be32_at_full p lo v h l :
  full h (Buf (pkt p)) l -> 0 <= Offset p + lo -> Offset p + lo + 4 <= zlen l ->
  put_be32_at p lo (lo + 4) v h = Ok (tt, upd h (s_arr (Buf (pkt p))) (splice l (Offset p + lo) (be_bytes 4 v))).
Proof.
  intros. unfold put_be32_at. rewrite Z.add_assoc. mstep. by apply window_put_be32.
Qed.

Lemma bytes_at_full p lo hi h l :
  full h (Buf (pkt p)) l -> 0 <= Offset p + lo -> lo <= hi -> Offset p + hi <= zlen l ->
  bytes_at p lo hi h = Ok (sub l (Offset p + lo) (hi - lo), h).
Proof.
  intros. unfold bytes_at. erewrite buf_read_full by (eauto; lia). do 3 f_equal. lia.
Qed.

Lemma put_bytes_at_full p lo hi bs h l :
  full h (Buf (pkt p)) l -> 0 <= Offset p + lo -> Offset p + hi <= zlen l -> zlen bs = hi - lo ->
  put_bytes_at p lo hi bs h = Ok (tt, upd h (s_arr (Buf (pkt p))) (splice l (Offset p + lo) bs)).
Proof.
  intros. unfold put_bytes_at. pose proof (zlen_nonneg bs). erewrite buf_write_full by (eauto; lia). done.
Qed.
End access.

(** [subs]: read through writes that do not overlap, or that are the field. *)
Ltac subs :=
  repeat first [ rewrite sub_splice_eq by zl | rewrite sub_splice_lt by zl | rewrite sub_splice_ge by zl ].

(** ** Layouts

    The bytes of a hello, a response and a data packet at the offset [o] of a
    buffer, up to the end [e] of the session's part of it. *)

Record hello_layout (l : list Z) (o e idx : Z) (eph static ts ct : list Z) : Prop := {
  hl_type : sub l o 4 = le_bytes 4 HelloMsgType;
  hl_index : sub l (o + 4) 4 = be_bytes 4 idx;
  hl_eph : sub l (o + 8) 32 = eph;
  hl_static : sub l (o + 40) 48 = static;
  hl_ts : sub l (o + 88) 28 = ts;
  hl_ct : sub l (o + 116) (e - (o + 116)) = ct
}.

Record response_layout (l : list Z) (o e sender idx : Z) (eph empty ct : list Z) : Prop := {
  rl_type : sub l o 4 = le_bytes 4 ResponseMsgType;
  rl_sender : sub l (o + 4) 4 = be_bytes 4 sender;
  rl_index : sub l (o + 8) 4 = be_bytes 4 idx;
  rl_eph : sub l (o + 12) 32 = eph;
  rl_empty : sub l (o + 44) 16 = empty;
  rl_ct : sub l (o + 60) (e - (o + 60)) = ct
}.

Record data_layout (l : list Z) (o e idx : Z) (nonce ct : list Z) : Prop := {
  dl_type : sub l o 4 = le_bytes 4 DataMsgType;
  dl_index : sub l (o + 4) 4 = be_bytes 4 idx;
  dl_nonce : sub l (o + 8) 8 = nonce;
  dl_ct : sub l (o + 16) (e - (o + 16)) = ct
}.

Lemma be_val_index idx : 0 <= idx < 2 ^ 32 -> be_val (be_bytes 4 idx) = idx.
Proof. intros. rewrite be_val_bytes. apply Z.mod_small. exact H. Qed.

Section wire.
Context `{MaddrLib}.
Implicit Types (p : SPacket) (h : heap) (l : list Z).

(** The part of a buffer outside of a packet's own bytes. *)
Definition same_outside (l l' : list Z) (o e : Z) : Prop :=
  zlen l' = zlen l /\ sub l' 0 o = sub l 0 o /\ sub l' e (zlen l - e) = sub l e (zlen l - e).

Lemma hello_write p h l idx eph static ts ct (o := Offset p) (e := o + 116 + zlen ct) :
  full h (Buf (pkt p)) l -> 0 <= o -> e <= zlen l ->
  pubkey_ok eph -> zlen static = 48 -> zlen ts = 28 ->
  sub l o 4 = le_bytes 4 HelloMsgType -> sub l (o + 4) 4 = be_bytes 4 idx ->
  exists l',
    (_ ← HelloPacket.SetEphemeralKey p eph; _ ← HelloPacket.SetStaticKey p static;
     _ ← HelloPacket.SetTimestamp p ts; HelloPacket.SetCiphertext p ct) h =
      Ok (set_len (e + Padding p) p, upd h (s_arr (Buf (pkt p))) l') /\
    hello_layout l' o e idx (pub_bytes eph) static ts ct /\ same_outside l l' o e /\
    (is_bytes l -> is_bytes (pub_bytes eph) -> is_bytes static -> is_bytes ts -> is_bytes ct -> is_bytes l').
Proof.
  intros Hf Ho He [Hk _] Hs Ht Ht1 Hi. pose proof (zlen_nonneg ct). subst e. subst o.
  unfold HelloPacket.SetEphemeralKey, HelloPacket.SetStaticKey, HelloPacket.SetTimestamp, HelloPacket.SetCiphertext.
  erewrite bind_ok by (eapply put_bytes_at_full; [exact Hf|lia|lia|lia]).
  erewrite bind_ok by (eapply put_bytes_at_full; [fl|lia|zl|lia]). rewrite upd_upd.
  erewrite bind_ok by (eapply put_bytes_at_full; [fl|lia|zl|lia]). rewrite upd_upd. cbn.
  erewrite bind_ok by (eapply buf_write_full; [fl|lia|zl|lia]). rewrite upd_upd.
  eexists. split; [reflexivity|]. split; [|split].
  - split; subs; try done.
  - split; [zl|]. split; subs; done.
  - intros. repeat apply is_bytes_splice; done.
Qed.

Lemma hello_read p h l idx eph static ts ct (o := Offset p) (e := Length (pkt p) - Padding p) :
  full h (Buf (pkt p)) l -> 0 <= o -> o + 116 <= e <= zlen l -> 0 <= idx < 2 ^ 32 ->
  hello_layout l o e idx eph static ts ct ->
  HelloPacket.SenderIndex p h = Ok (idx, h) /\
  HelloPacket.EphemeralKey p h = Ok (mkPublicKey eph, h) /\
  HelloPacket.StaticKey p h = Ok (static, h) /\
  HelloPacket.Timestamp p h = Ok (ts, h) /\
  exists s, HelloPacket.Ciphertext p h = Ok (s, h) /\ contents h s = ct.
Proof.
  intros Hf Ho He Hidx [_ Hi Hk Hs Ht Hc]. subst o e.
  split; [|split; [|split; [|split]]].
  - unfold HelloPacket.SenderIndex. erewrite (be32_at_full p 4) by (eauto; lia). by rewrite Hi, be_val_index.
  - unfold HelloPacket.EphemeralKey. erewrite bind_ok by (eapply bytes_at_full; [exact Hf|lia|lia|lia]).
    change (40 - 8) with 32. rewrite Hk, NewPublicKey_array; [done|]. rewrite <- Hk. apply zlen_sub; lia.
  - unfold HelloPacket.StaticKey. erewrite bind_ok by (eapply bytes_at_full; [exact Hf|lia|lia|lia]).
    change (88 - 40) with 48. rewrite Hs, copy_array_id; [done|]. rewrite <- Hs. apply zlen_sub; lia.
  - unfold HelloPacket.Timestamp. erewrite bind_ok by (eapply bytes_at_full; [exact Hf|lia|lia|lia]).
    change (116 - 88) with 28. rewrite Ht, copy_array_id; [done|]. rewrite <- Ht. apply zlen_sub; lia.
  - eexists. split; [unfold HelloPacket.Ciphertext; eapply reslice_window; [exact Hf|lia|lia]|].
    erewrite window_contents by (eauto; lia). exact Hc.
Qed.

(** The session index of a response is written last. *)
Lemma response_write p h l sender eph empty ct (o := Offset p) (e := o + 60 + zlen ct) :
  full h (Buf (pkt p)) l -> 0 <= o -> e <= zlen l -> pubkey_ok eph -> zlen empty = 16 ->
  sub l o 4 = le_bytes 4 ResponseMsgType -> sub l (o + 4) 4 = be_bytes 4 sender ->
  exists l',
    (_ ← ResponsePacket.SetEphemeralKey p eph; _ ← ResponsePacket.SetEmpty p empty;
     ResponsePacket.SetCiphertext p ct) h =
      Ok (set_len (e + Padding p) p, upd h (s_arr (Buf (pkt p))) l') /\ zlen l' = zlen l /\
    (forall idx, response_layout (splice l' (o + 8) (be_bytes 4 idx)) o e sender idx (pub_bytes eph) empty ct /\
       same_outside l (splice l' (o + 8) (be_bytes 4 idx)) o e) /\
    (is_bytes l -> is_bytes (pub_bytes eph) -> is_bytes empty -> is_bytes ct -> is_bytes l').
Proof.
  intros Hf Ho He [Hk _] Hs Ht1 Hi. pose proof (zlen_nonneg ct). subst e. subst o.
  unfold ResponsePacket.SetEphemeralKey, ResponsePacket.SetEmpty, ResponsePacket.SetCiphertext.
  erewrite bind_ok by (eapply put_bytes_at_full; [exact Hf|lia|lia|lia]).
  erewrite bind_ok by (eapply put_bytes_at_full; [fl|lia|zl|lia]). rewrite upd_upd. cbn.
  erewrite bind_ok by (eapply buf_write_full; [fl|lia|zl|lia]). rewrite upd_upd.
  eexists. split; [reflexivity|]. split; [zl|]. split.
  - intros idx. split; [split; subs; done|]. split; [zl|]. split; subs; done.
  - intros. repeat apply is_bytes_splice; done.
Qed.

Lemma response_read p h l sender idx eph empty ct (o := Offset p) (e := Length (pkt p) - Padding p) :
  full h (Buf (pkt p)) l -> 0 <= o -> o + 60 <= e <= zlen l -> 0 <= sender < 2 ^ 32 -> 0 <= idx < 2 ^ 32 ->
  response_layout l o e sender idx eph empty ct ->
  ResponsePacket.SenderIndex p h = Ok (sender, h) /\
  ResponsePacket.SessionIndex p h = Ok (idx, h) /\
  ResponsePacket.EphemeralKey p h = Ok (mkPublicKey eph, h) /\
  ResponsePacket.Empty p h = Ok (empty, h) /\
  exists s, ResponsePacket.Ciphertext p h = Ok (s, h) /\ contents h s = ct.
Proof.
  intros Hf Ho He Hsnd Hidx [_ Hs Hi Hk Hem Hc]. subst o e.
  split; [|split; [|split; [|split]]].
  - unfold ResponsePacket.SenderIndex. erewrite (be32_at_full p 4) by (eauto; lia). by rewrite Hs, be_val_index.
  - unfold ResponsePacket.SessionIndex. erewrite (be32_at_full p 8) by (eauto; lia). by rewrite Hi, be_val_index.
  - unfold ResponsePacket.EphemeralKey. erewrite bind_ok by (eapply bytes_at_full; [exact Hf|lia|lia|lia]).
    change (44 - 12) with 32. rewrite Hk, NewPublicKey_array; [done|]. rewrite <- Hk. apply zlen_sub; lia.
  - unfold ResponsePacket.Empty. erewrite bind_ok by (eapply bytes_at_full; [exact Hf|lia|lia|lia]).
    change (60 - 44) with 16. rewrite Hem, copy_array_id; [done|]. rewrite <- Hem. apply zlen_sub; lia.
  - eexists. split; [unfold ResponsePacket.Ciphertext; eapply reslice_window; [exact Hf|lia|lia]|].
    erewrite window_contents by (eauto; lia). exact Hc.
Qed.

Lemma data_write p h l idx nonce ct (o := Offset p) (e := o + 16 + zlen ct) :
  full h (Buf (pkt p)) l -> 0 <= o -> e <= zlen l -> zlen nonce = 8 ->
  exists l',
    (_ ← DataPacket.SetMsgType p DataMsgType; _ ← DataPacket.SetSessionIndex p idx;
     _ ← DataPacket.SetNonce p nonce; DataPacket.SetCiphertext p ct) h =
      Ok (set_len (e + Padding p) p, upd h (s_arr (Buf (pkt p))) l') /\
    data_layout l' o e idx nonce ct /\ same_outside l l' o e /\
    (is_bytes l -> is_bytes nonce -> is_bytes ct -> is_bytes l').
Proof.
  intros Hf Ho He Hn. pose proof (zlen_nonneg ct). subst e. subst o.
  unfold DataPacket.SetMsgType, DataPacket.SetSessionIndex, DataPacket.SetNonce, DataPacket.SetCiphertext.
  erewrite bind_ok by (eapply (put_le32_at_full p 0); [exact Hf|lia|lia]).
  erewrite bind_ok by (eapply (put_be32_at_full p 4); [fl|lia|zl]). rewrite upd_upd.
  erewrite bind_ok by (eapply put_bytes_at_full; [fl|lia|zl|lia]). rewrite upd_upd. cbn.
  erewrite bind_ok by (eapply buf_write_full; [fl|lia|zl|lia]). rewrite upd_upd.
  eexists. split; [reflexivity|]. rewrite Z.add_0_r. split; [|split].
  - split; subs; done.
  - split; [zl|]. split; subs; done.
  - intros. repeat apply is_bytes_splice; auto with rovy; repeat constructor; apply u8_byte.
Qed.

Lemma data_read p h l idx nonce ct (o := Offset p) (e := Length (pkt p) - Padding p) :
  full h (Buf (pkt p)) l -> 0 <= o -> o + 16 <= e <= zlen l -> 0 <= idx < 2 ^ 32 ->
  data_layout l o e idx nonce ct ->
  DataPacket.SessionIndex p h = Ok (idx, h) /\
  DataPacket.Nonce p h = Ok (nonce, h) /\
  exists s, DataPacket.Ciphertext p h = Ok (s, h) /\ contents h s = ct.
Proof.
  intros Hf Ho He Hidx [_ Hi Hn Hc]. subst o e. split; [|split].
  - unfold DataPacket.SessionIndex. erewrite (be32_at_full p 4) by (eauto; lia). by rewrite Hi, be_val_index.
  - unfold DataPacket.Nonce. erewrite bind_ok by (eapply bytes_at_full; [exact Hf|lia|lia|lia]).
    change (16 - 8) with 8. rewrite Hn, copy_array_id; [done|]. rewrite <- Hn. apply zlen_sub; lia.
  - eexists. split; [unfold DataPacket.Ciphertext; eapply reslice_window; [exact Hf|lia|lia]|].
    erewrite window_contents by (eauto; lia). exact Hc.
Qed.
End wire.

(** ** Properties *)

(** [SetPlaintext] of a response or data packet stores the plaintext where
    [Plaintext] finds it and zeroes the 16 bytes of the tag after it, and
    nothing else, for any offset and padding that fit the buffer. *)
Theorem SetPlaintext_roundtrip `{MaddrLib} (p : SPacket) (h : heap) (l pt : list Z)
    (o := Offset p) (d := Padding p) :
  full h (Buf (pkt p)) l -> 0 <= o -> 0 <= d -> o + 16 + zlen pt + 16 + d <= zlen l ->
  exists p' l' s,
    DataPacket.SetPlaintext p pt h = Ok (p', upd h (s_arr (Buf (pkt p))) l') /\
    Length (pkt p') = o + 16 + zlen pt + 16 + d /\
    DataPacket.Plaintext p' (upd h (s_arr (Buf (pkt p))) l') = Ok (s, upd h (s_arr (Buf (pkt p))) l') /\
    contents (upd h (s_arr (Buf (pkt p))) l') s = pt /\
    sub l' (o + 16 + zlen pt) 16 = zeros 16 /\
    same_outside l l' (o + 16) (o + 16 + zlen pt + 16).
Proof.
  intros Hf Ho Hd Hl. pose proof (zlen_nonneg pt). subst o d. unfold DataPacket.SetPlaintext. cbn.
  assert (Hz : zlen emptyTag = 16) by done.
  erewrite bind_ok by (eapply buf_write_full; [exact Hf|lia|lia|lia]).
  erewrite bind_ok by (eapply buf_write_full; [fl|lia|zl|lia]). rewrite upd_upd.
  replace (Offset p + 16 + zlen pt + 16 + Padding p - Padding p - 16) with (Offset p + 16 + zlen pt) by lia.
  eexists _, _, _. split; [reflexivity|]. split; [done|]. unfold DataPacket.Plaintext. cbn.
  split; [eapply reslice_window; [fl|lia|zl]|].
  split; [erewrite window_contents by (fl || zl); replace (_ - _ - 16 - _) with (zlen pt) by lia; by subs|].
  split; [by subs|]. split; [zl|]. split; subs; done.
Qed.

(** The tag that [HelloPacket.SetPlaintext] zeroes is misplaced as soon as
    there is padding: for a hello inside a lower packet (16 bytes of padding)
    it clears nothing, and the 16 bytes after the plaintext keep what the
    buffer held. *)
Theorem HelloSetPlaintext_tag `{MaddrLib} (p : SPacket) (h : heap) (l pt : list Z) (o := Offset p) :
  full h (Buf (pkt p)) l -> 0 <= o -> Padding p = UpperPadding -> o + 116 + zlen pt + 32 <= zlen l ->
  exists p' l', HelloPacket.SetPlaintext p pt h = Ok (p', upd h (s_arr (Buf (pkt p))) l') /\
    sub l' (o + 116) (zlen pt) = pt /\
    sub l' (o + 116 + zlen pt) 16 = sub l (o + 116 + zlen pt) 16.
Proof.
  intros Hf Ho Hd Hl. pose proof (zlen_nonneg pt). subst o. unfold HelloPacket.SetPlaintext. cbn. rewrite Hd.
  change UpperPadding with 16. change emptyTag with (zeros 16).
  erewrite bind_ok by (eapply buf_write_full; [exact Hf|lia|lia|lia]).
  set (l1 := splice l (Offset p + 116) pt).
  assert (Hf1 : full (upd h (s_arr (Buf (pkt p))) l1) (Buf (pkt p)) l1) by (unfold l1; fl).
  assert (Hl1 : zlen l1 = zlen l) by (unfold l1; zl).
  unfold buf_write at 1. erewrite bind_ok; [|erewrite bind_ok by (eapply reslice_window; [exact Hf1|lia|lia]); reflexivity].
  replace (s_len _) with 0 by (cbn; lia). change (take (Z.to_nat 0) (zeros 16)) with (@nil Z).
  cbn [s_arr window]. rewrite splice_nil, upd_arr_id.
  eexists _, _. split; [reflexivity|]. unfold l1. split; subs; done.
Qed.

Definition sp_packet (o d : Z) : SPacket := mkSPacket o d (NewPacket (Slice 0 0 200 200)).

Lemma sp_full o d : full [zeros 200] (Buf (pkt (sp_packet o d))) (zeros 200).
Proof. repeat split. Qed.

Lemma SetPlaintext_roundtrip_witness :
  exists p' h', DataPacket.SetPlaintext (sp_packet 36 16) [1; 2; 3] [zeros 200] = Ok (p', h') /\
    Length (pkt p') = 87.
Proof.
  destruct (SetPlaintext_roundtrip (sp_packet 36 16) [zeros 200] (zeros 200) [1; 2; 3]
    (sp_full 36 16)) as (p' & l' & s & E & Hl & _); [by vm_compute..|].
  eexists _, _. split; [exact E|exact Hl].
Defined.

Lemma HelloSetPlaintext_tag_witness :
  exists p' l', HelloPacket.SetPlaintext (sp_packet 36 16) [1; 2; 3] [zeros 200] = Ok (p', upd [zeros 200] 0 l') /\
    sub l' 155 16 = zeros 16.
Proof.
  destruct (HelloSetPlaintext_tag (sp_packet 36 16) [zeros 200] (zeros 200) [1; 2; 3] (sp_full 36 16))
    as (p' & l' & E & _ & Hs); [by vm_compute..|].
  exists p', l'. split; [exact E|]. etrans; [exact Hs|]. by vm_compute.
Defined.
