(* ===== verification/Ikpsk2.v ===== *)
(** * Ikpsk2: the Noise IKpsk2 handshake (node/session/ikpsk2)

    The handshake state is the Go struct; every operation returns the state it
    leaves behind next to its result, since several of them change the state
    before they fail. The clock reading of [tai64n.Now] and the random results
    behind the ephemeral keys are arguments. *)

From S2P Require Import Prelude GoMem Ext Toy Key.
Import Key.

Module Ikpsk2.

(** ** util.go *)

(** [isZero]: the accumulator of constant-time comparisons. *)
Definition isZero (val : list Z) : bool :=
  foldl (fun acc b => Z.land acc (if b =? 0 then 1 else 0)) 1 val =? 1.

Section util.
Context `{Crypto}.

Definition mixHash (h data : list Z) : list Z := blake2s_Sum256 (h ++ data).

(** crypto/hmac over blake2s, whose block size is 64. *)
Definition hmac (key msg : list Z) : list Z :=
  let k := if 64 <? zlen key then blake2s_Sum256 key else key in
  let k := copy_array 64 k in
  let opad := map (fun b => Z.lxor b 0x5c) k in
  let ipad := map (fun b => Z.lxor b 0x36) k in
  blake2s_Sum256 (opad ++ blake2s_Sum256 (ipad ++ msg)).

Definition HMAC1 (key in0 : list Z) : list Z := hmac key in0.
Definition HMAC2 (key in0 in1 : list Z) : list Z := hmac key (in0 ++ in1).

Definition KDF1 (key input : list Z) : list Z :=
  let t0 := HMAC1 key input in HMAC1 t0 [0x1].
Definition mixKey (c data : list Z) : list Z := KDF1 c data.
Definition KDF2 (key input : list Z) : list Z * list Z :=
  let prk := HMAC1 key input in
  let t0 := HMAC1 prk [0x1] in
  let t1 := HMAC2 prk t0 [0x2] in
  (t0, t1).
Definition KDF3 (key input : list Z) : list Z * list Z * list Z :=
  let prk := HMAC1 key input in
  let t0 := HMAC1 prk [0x1] in
  let t1 := HMAC2 prk t0 [0x2] in
  let t2 := HMAC2 prk t1 [0x3] in
  (t0, t1, t2).
End util.

Definition setZero (arr : list Z) : list Z := map (fun _ => 0) arr.

Definition paddingMultiple : Z := 16.

(** Go's [%] truncates; both operands are sizes. *)
Definition calculatePaddingSize (packetSize mtu : Z) : Z :=
  let lastUnit := packetSize in
  let round n := Z.land (n + paddingMultiple - 1) (Z.lnot (paddingMultiple - 1)) in
  if mtu =? 0 then round lastUnit - lastUnit else
  let lastUnit := if mtu <? lastUnit then Z.rem lastUnit mtu else lastUnit in
  let paddedSize := round lastUnit in
  let paddedSize := if mtu <? paddedSize then mtu else paddedSize in
  paddedSize - lastUnit.

(** ** handshake.go *)

(** The bytes of the two constants. *)
Definition NoiseConstruction : list Z :=
  [78;111;105;115;101;95;73;75;112;115;107;50;95;50;53;53;49;57;95;67;104;97;67;104;97;80;111;108;121;95;66;76;65;75;69;50;115].
Definition RovyIdentifier : list Z :=
  [114;111;118;121;46;110;101;116;47;115;101;115;115;105;111;110;32;118;48].

Definition zeroNonce : list Z := zeros 12.

Inductive error : Type :=
| ErrRand
| ErrZeroECDH
| ErrAEADOpen
| ErrOpen          (* the cipher's own error, returned as it is *)
| ErrCipher        (* chacha20poly1305.New *)
| ErrRole
| ErrNotFinished.

Record HelloHeader : Type := mkHelloHeader {
  hh_Ephemeral : PublicKey;
  hh_Static : list Z;
  hh_Timestamp : list Z
}.
Record ResponseHeader : Type := mkResponseHeader {
  rh_Ephemeral : PublicKey;
  rh_Empty : list Z
}.
Record MessageHeader : Type := mkMessageHeader { mh_Nonce : list Z }.

(** [append] into the empty slice [arr[:0]] of an array of [n] bytes: the
    array receives the bytes when they fit and stays zero when they do not. *)
Definition into (n : Z) (bs : list Z) : list Z :=
  if zlen bs <=? n then bs ++ zeros (n - zlen bs) else zeros n.

Section handshake.
Context `{Crypto}.

Definition initialChainKey : list Z := blake2s_Sum256 NoiseConstruction.
Definition initialHash : list Z := mixHash initialChainKey RovyIdentifier.

Record Handshake : Type := mkHandshake {
  hash : list Z;
  chainKey : list Z;
  presharedKey : list Z;
  localStatic : PrivateKey;
  localEphemeral : PrivateKey;
  remoteStatic : PublicKey;
  remoteEphemeral : PublicKey;
  precStaticStatic : list Z;
  send : option AEAD;
  receive : option AEAD;
  sendNonce : Z;
  initiator : bool
}.

Definition zeroKey : PublicKey := mkPublicKey (zeros 32).

(** Field assignments. *)
Definition set_hash (x : list Z) (hs : Handshake) : Handshake :=
  mkHandshake x (chainKey hs) (presharedKey hs) (localStatic hs) (localEphemeral hs) (remoteStatic hs)
    (remoteEphemeral hs) (precStaticStatic hs) (send hs) (receive hs) (sendNonce hs) (initiator hs).
Definition set_chainKey (x : list Z) (hs : Handshake) : Handshake :=
  mkHandshake (hash hs) x (presharedKey hs) (localStatic hs) (localEphemeral hs) (remoteStatic hs)
    (remoteEphemeral hs) (precStaticStatic hs) (send hs) (receive hs) (sendNonce hs) (initiator hs).
Definition set_remote (rs re : PublicKey) (pss : list Z) (hs : Handshake) : Handshake :=
  mkHandshake (hash hs) (chainKey hs) (presharedKey hs) (localStatic hs) (localEphemeral hs) rs
    re pss (send hs) (receive hs) (sendNonce hs) (initiator hs).
Definition set_send (x : option AEAD) (hs : Handshake) : Handshake :=
  mkHandshake (hash hs) (chainKey hs) (presharedKey hs) (localStatic hs) (localEphemeral hs) (remoteStatic hs)
    (remoteEphemeral hs) (precStaticStatic hs) x (receive hs) (sendNonce hs) (initiator hs).
Definition set_receive (x : option AEAD) (hs : Handshake) : Handshake :=
  mkHandshake (hash hs) (chainKey hs) (presharedKey hs) (localStatic hs) (localEphemeral hs) (remoteStatic hs)
    (remoteEphemeral hs) (precStaticStatic hs) (send hs) x (sendNonce hs) (initiator hs).
Definition set_sendNonce (x : Z) (hs : Handshake) : Handshake :=
  mkHandshake (hash hs) (chainKey hs) (presharedKey hs) (localStatic hs) (localEphemeral hs) (remoteStatic hs)
    (remoteEphemeral hs) (precStaticStatic hs) (send hs) (receive hs) x (initiator hs).

Definition NewHandshakeInitiator (localStatic : PrivateKey) (remoteStatic : PublicKey) (e : entropy)
    : res ((Handshake + error) * entropy) :=
  match GeneratePrivateKey e with
  | Ok (GenErr, e') => Ok (inr ErrRand, e')
  | Ok (GenKey epriv, e') =>
      let hs := mkHandshake initialHash initialChainKey (zeros 32) localStatic epriv remoteStatic zeroKey
                  (SharedSecret localStatic remoteStatic) None None 0 true in
      if isZero (precStaticStatic hs) then Ok (inr ErrZeroECDH, e') else Ok (inl hs, e')
  | Panic => Panic
  | Block => Block
  end.

Definition NewHandshakeResponder (localStatic : PrivateKey) (e : entropy)
    : res ((Handshake + error) * entropy) :=
  match GeneratePrivateKey e with
  | Ok (GenErr, e') => Ok (inr ErrRand, e')
  | Ok (GenKey epriv, e') =>
      Ok (inl (mkHandshake initialHash initialChainKey (zeros 32) localStatic epriv zeroKey zeroKey
                 (zeros 32) None None 0 false), e')
  | Panic => Panic
  | Block => Block
  end.

Definition RemotePublicKey (hs : Handshake) : PublicKey := remoteStatic hs.

Definition plNonce : list Z := [0; 0; 0; 0; 0x42; 0; 0; 0; 0; 0; 0; 0].

Definition MakeHello (timestamp payload : list Z) (hs : Handshake)
    : Handshake * ((HelloHeader * list Z) + error) :=
  if negb (initiator hs) then (hs, inr ErrRole) else
  let hs := set_hash (mixHash (hash hs) (pub_bytes (remoteStatic hs))) hs in
  let ephemeral := PublicKey_ (localEphemeral hs) in
  let hs := set_chainKey (mixKey (chainKey hs) (pub_bytes ephemeral)) hs in
  let hs := set_hash (mixHash (hash hs) (pub_bytes ephemeral)) hs in
  let ss := SharedSecret (localEphemeral hs) (remoteStatic hs) in
  if isZero ss then (hs, inr ErrZeroECDH) else
  let '(ck, key) := KDF2 (chainKey hs) ss in
  let hs := set_chainKey ck hs in
  match chacha20poly1305_New key with
  | None => (hs, inr ErrCipher)
  | Some aead =>
      let static := into 48 (aead_Seal aead zeroNonce (pub_bytes (PublicKey_ (localStatic hs))) (hash hs)) in
      let hs := set_hash (mixHash (hash hs) static) hs in
      let '(ck, key) := KDF2 (chainKey hs) (precStaticStatic hs) in
      let hs := set_chainKey ck hs in
      match chacha20poly1305_New key with
      | None => (hs, inr ErrCipher)
      | Some aead =>
          let ts := into 28 (aead_Seal aead zeroNonce timestamp (hash hs)) in
          let hs := set_hash (mixHash (hash hs) ts) hs in
          let payload2 := aead_Seal aead plNonce payload (hash hs) in
          let hs := set_hash (mixHash (hash hs) payload2) hs in
          (hs, inl (mkHelloHeader ephemeral static ts, payload2))
      end
  end.

Definition ConsumeHello (hdr : HelloHeader) (payload2 : list Z) (hs : Handshake)
    : Handshake * (list Z + error) :=
  if initiator hs then (hs, inr ErrRole) else
  let h := mixHash initialHash (pub_bytes (PublicKey_ (localStatic hs))) in
  let h := mixHash h (pub_bytes (hh_Ephemeral hdr)) in
  let ck := mixKey initialChainKey (pub_bytes (hh_Ephemeral hdr)) in
  let ss := SharedSecret (localStatic hs) (hh_Ephemeral hdr) in
  if isZero ss then (hs, inr ErrZeroECDH) else
  let '(ck, key) := KDF2 ck ss in
  match chacha20poly1305_New key with
  | None => (hs, inr ErrCipher)
  | Some aead =>
      match aead_Open aead zeroNonce (hh_Static hdr) h with
      | None => (hs, inr ErrOpen)
      | Some rs =>
          let h := mixHash h (hh_Static hdr) in
          let rstatic := NewPublicKey (into 32 rs) in
          let pss := SharedSecret (localStatic hs) rstatic in
          if isZero pss then (hs, inr ErrZeroECDH) else
          let '(ck, key) := KDF2 ck pss in
          match chacha20poly1305_New key with
          | None => (hs, inr ErrCipher)
          | Some aead =>
              match aead_Open aead zeroNonce (hh_Timestamp hdr) h with
              | None => (hs, inr ErrAEADOpen)
              | Some _ =>
                  let h := mixHash h (hh_Timestamp hdr) in
                  match aead_Open aead plNonce payload2 h with
                  | None => (hs, inr ErrAEADOpen)
                  | Some payload =>
                      let h := mixHash h payload2 in
                      let hs := set_hash h hs in
                      let hs := set_chainKey ck hs in
                      let hs := set_remote rstatic (hh_Ephemeral hdr) pss hs in
                      (hs, inl payload)
                  end
              end
          end
      end
  end.

Definition MakeResponse (payload : list Z) (hs : Handshake)
    : Handshake * ((ResponseHeader * list Z) + error) :=
  if initiator hs then (hs, inr ErrRole) else
  let ephemeral := PublicKey_ (localEphemeral hs) in
  let hs := set_hash (mixHash (hash hs) (pub_bytes ephemeral)) hs in
  let hs := set_chainKey (mixKey (chainKey hs) (pub_bytes ephemeral)) hs in
  let sse := SharedSecret (localEphemeral hs) (remoteEphemeral hs) in
  let hs := set_chainKey (mixKey (chainKey hs) sse) hs in
  let sss := SharedSecret (localEphemeral hs) (remoteStatic hs) in
  let hs := set_chainKey (mixKey (chainKey hs) sss) hs in
  let '(ck, tau, key) := KDF3 (chainKey hs) (presharedKey hs) in
  let hs := set_chainKey ck hs in
  let hs := set_hash (mixHash (hash hs) tau) hs in
  match chacha20poly1305_New key with
  | None => (hs, inr ErrCipher)
  | Some aead =>
      let empty := into 16 (aead_Seal aead zeroNonce [] (hash hs)) in
      let hs := set_hash (mixHash (hash hs) empty) hs in
      let payload2 := aead_Seal aead plNonce payload (hash hs) in
      let hs := set_hash (mixHash (hash hs) payload2) hs in
      let '(recvKey, sendKey) := KDF2 (chainKey hs) [] in
      let hs := set_send (chacha20poly1305_New sendKey) hs in
      match send hs with
      | None => (hs, inr ErrCipher)
      | Some _ =>
          let hs := set_receive (chacha20poly1305_New recvKey) hs in
          match receive hs with
          | None => (hs, inr ErrCipher)
          | Some _ => (hs, inl (mkResponseHeader ephemeral empty, payload2))
          end
      end
  end.

Definition ConsumeResponse (hdr : ResponseHeader) (payload2 : list Z) (hs : Handshake)
    : Handshake * (list Z + error) :=
  if negb (initiator hs) then (hs, inr ErrRole) else
  let h := mixHash (hash hs) (pub_bytes (rh_Ephemeral hdr)) in
  let ck := mixKey (chainKey hs) (pub_bytes (rh_Ephemeral hdr)) in
  let sse := SharedSecret (localEphemeral hs) (rh_Ephemeral hdr) in
  let ck := mixKey ck sse in
  let sss := SharedSecret (localStatic hs) (rh_Ephemeral hdr) in
  let ck := mixKey ck sss in
  let '(ck, tau, key) := KDF3 ck (presharedKey hs) in
  let h := mixHash h tau in
  match chacha20poly1305_New key with
  | None => (hs, inr ErrCipher)
  | Some aead =>
      match aead_Open aead zeroNonce (rh_Empty hdr) h with
      | None => (hs, inr ErrAEADOpen)
      | Some _ =>
          let h := mixHash h (rh_Empty hdr) in
          match aead_Open aead plNonce payload2 h with
          | None => (hs, inr ErrAEADOpen)
          | Some payload =>
              let h := mixHash h payload2 in
              let hs := set_hash h hs in
              let hs := set_chainKey ck hs in
              let '(sendKey, recvKey) := KDF2 (chainKey hs) [] in
              let hs := set_send (chacha20poly1305_New sendKey) hs in
              match send hs with
              | None => (hs, inr ErrCipher)
              | Some _ =>
                  let hs := set_receive (chacha20poly1305_New recvKey) hs in
                  match receive hs with
                  | None => (hs, inr ErrCipher)
                  | Some _ => (hs, inl payload)
                  end
              end
          end
      end
  end.

(** The eight bytes of the counter, after four zero bytes. *)
Definition nonce_of (n : list Z) : list Z :=
  [0; 0; 0; 0; getz n 0; getz n 1; getz n 2; getz n 3; getz n 4; getz n 5; getz n 6; getz n 7].

Definition MakeMessage (payload : list Z) (hs : Handshake)
    : Handshake * ((MessageHeader * list Z) + error) :=
  match send hs with
  | None => (hs, inr ErrNotFinished)
  | Some aead =>
      let hs := set_sendNonce (u64 (sendNonce hs + 1)) hs in
      let nonce := be_bytes 8 (sendNonce hs) in
      (hs, inl (mkMessageHeader nonce, aead_Seal aead (nonce_of nonce) payload []))
  end.

Definition ConsumeMessage (hdr : MessageHeader) (payload : list Z) (hs : Handshake) : list Z + error :=
  match receive hs with
  | None => inr ErrNotFinished
  | Some aead =>
      match aead_Open aead (nonce_of (mh_Nonce hdr)) payload [] with
      | None => inr ErrOpen
      | Some payload2 => inl payload2
      end
  end.
End handshake.
End Ikpsk2.
Import Ikpsk2.

(** ** Sizes *)

Lemma into_exact n bs : zlen bs = n -> into n bs = bs.
Proof. intros <-. unfold into. rewrite Z.leb_refl, Z.sub_diag. apply app_nil_r. Qed.

Section laws.
Context `{CryptoLaws}.

Lemma hmac_array key msg : array 32 (hmac key msg).
Proof. apply Sum256_array. Qed.

Lemma KDF2_arrays key input : array 32 (fst (KDF2 key input)) /\ array 32 (snd (KDF2 key input)).
Proof. split; apply hmac_array. Qed.

Lemma KDF3_array key input : array 32 (snd (KDF3 key input)).
Proof. apply hmac_array. Qed.

Lemma dh_agree a b : privkey_ok a -> privkey_ok b ->
  SharedSecret a (PublicKey_ b) = SharedSecret b (PublicKey_ a).
Proof. intros. by apply dh_comm. Qed.

Lemma into_Seal m a n pt ad : zlen pt + 16 = m -> into m (aead_Seal a n pt ad) = aead_Seal a n pt ad.
Proof. intros. apply into_exact. by rewrite Seal_length. Qed.

(** The key halves of a derivation always make a cipher. *)
Lemma New_KDF2 key input :
  exists a b, chacha20poly1305_New (fst (KDF2 key input)) = Some a /\
              chacha20poly1305_New (snd (KDF2 key input)) = Some b.
Proof.
  destruct (KDF2_arrays key input) as [H1 H2].
  destruct (New_key32 _ H1) as [a Ha]. destruct (New_key32 _ H2) as [b Hb]. by exists a, b.
Qed.

Lemma New_KDF3 key input : exists a, chacha20poly1305_New (snd (KDF3 key input)) = Some a.
Proof. apply New_key32, KDF3_array. Qed.

(** ** Agreement *)

(** The states right after construction. *)
Definition start_initiator (si ei : PrivateKey) (rs : PublicKey) : Handshake :=
  mkHandshake initialHash initialChainKey (zeros 32) si ei rs zeroKey (SharedSecret si rs) None None 0 true.
Definition start_responder (sr er : PrivateKey) : Handshake :=
  mkHandshake initialHash initialChainKey (zeros 32) sr er zeroKey zeroKey (zeros 32) None None 0 false.

(** After the hello: both sides have the same transcript, and the responder
    knows the initiator's keys. *)
Record halfway (hi hr : Handshake) : Prop := {
  half_hash : hash hi = hash hr;
  half_chain : chainKey hi = chainKey hr;
  half_psk : presharedKey hi = presharedKey hr;
  half_roles : initiator hi = true /\ initiator hr = false;
  half_static : remoteStatic hr = PublicKey_ (localStatic hi) /\ remoteStatic hi = PublicKey_ (localStatic hr);
  half_eph : remoteEphemeral hr = PublicKey_ (localEphemeral hi);
  half_nonces : sendNonce hi = 0 /\ sendNonce hr = 0;
  half_keys : privkey_ok (localStatic hi) /\ privkey_ok (localEphemeral hi) /\
              privkey_ok (localStatic hr) /\ privkey_ok (localEphemeral hr)
}.

(** After the response: same transcript, and each side receives with the other
    side's sending key. *)
Record established (h1 h2 : Handshake) : Prop := {
  est_hash : hash h1 = hash h2;
  est_chain : chainKey h1 = chainKey h2;
  est_12 : exists a, send h1 = Some a /\ receive h2 = Some a;
  est_21 : exists b, send h2 = Some b /\ receive h1 = Some b
}.

Lemma established_sym h1 h2 : established h1 h2 -> established h2 h1.
Proof. intros []. by split. Qed.

(** Up to the counters, which every message moves on. *)
Definition same_keys (h h' : Handshake) : Prop :=
  hash h' = hash h /\ chainKey h' = chainKey h /\ send h' = send h /\ receive h' = receive h.

#[export] Instance same_keys_equivalence : Equivalence same_keys.
Proof.
  unfold same_keys. split; [done|by intros h1 h2 (? & ? & ? & ?)|].
  intros h1 h2 h3 (A1 & A2 & A3 & A4) (B1 & B2 & B3 & B4). by rewrite B1, B2, B3, B4.
Qed.

#[export] Instance established_proper : Proper (same_keys ==> same_keys ==> iff) established.
Proof.
  intros h1 h1' (A1 & A2 & A3 & A4) h2 h2' (B1 & B2 & B3 & B4). split; intros []; split;
    by rewrite ?A1, ?A2, ?A3, ?A4, ?B1, ?B2, ?B3, ?B4 in *.
Qed.

Lemma MakeMessage_keys payload h h' x : MakeMessage payload h = (h', x) -> same_keys h h'.
Proof. unfold MakeMessage. destruct (send h) eqn:E; intros [= <- _]; [|done]. by repeat split. Qed.

Lemma ConsumeMessage_keys hdr ct h h' : receive h' = receive h -> ConsumeMessage hdr ct h' = ConsumeMessage hdr ct h.
Proof. unfold ConsumeMessage. by intros ->. Qed.

Lemma hello_agrees si ei sr er ts payload :
  privkey_ok si -> privkey_ok ei -> privkey_ok sr -> privkey_ok er ->
  zlen ts = 12 -> is_bytes ts -> is_bytes payload ->
  isZero (SharedSecret ei (PublicKey_ sr)) = false ->
  isZero (SharedSecret si (PublicKey_ sr)) = false ->
  exists hi hr hdr ct,
    MakeHello ts payload (start_initiator si ei (PublicKey_ sr)) = (hi, inl (hdr, ct)) /\
    ConsumeHello hdr ct (start_responder sr er) = (hr, inl payload) /\ halfway hi hr /\
    localStatic hi = si /\ localStatic hr = sr /\ localEphemeral hr = er /\
    hh_Ephemeral hdr = PublicKey_ ei /\ array 48 (hh_Static hdr) /\ array 28 (hh_Timestamp hdr) /\
    zlen ct = zlen payload + 16 /\ is_bytes ct.
Proof.
  intros Hsi Hei Hsr Her Hts Hbts Hbp Hz1 Hz2.
  unfold MakeHello, ConsumeHello, start_initiator, start_responder. cbn [initiator negb].
  cbn [set_hash set_chainKey hash chainKey localEphemeral localStatic remoteStatic precStaticStatic].
  rewrite Hz1.
  set (h1 := mixHash (mixHash initialHash _) _). set (ck1 := mixKey initialChainKey _).
  set (ss := SharedSecret ei (PublicKey_ sr)) in *.
  destruct (New_KDF2 ck1 ss) as (_ & a1 & _ & Ha1). destruct (KDF2 ck1 ss) as [ck2 key1] eqn:EK0. cbn [snd] in Ha1.
  rewrite Ha1. cbn [set_hash set_chainKey hash chainKey localEphemeral localStatic remoteStatic precStaticStatic].
  destruct (PublicKey_ok si) as [Hpl Hpb].
  rewrite into_Seal by lia. set (static := aead_Seal a1 zeroNonce _ h1).
  set (pss := SharedSecret si (PublicKey_ sr)) in *.
  destruct (New_KDF2 ck2 pss) as (_ & a2 & _ & Ha2). destruct (KDF2 ck2 pss) as [ck3 key2] eqn:EK. cbn [snd] in Ha2.
  rewrite Ha2. cbn [set_hash set_chainKey hash chainKey localEphemeral localStatic remoteStatic precStaticStatic].
  rewrite into_Seal by lia. set (h2 := mixHash h1 static). set (tsx := aead_Seal a2 zeroNonce ts h2).
  set (h3 := mixHash h2 tsx). set (ct := aead_Seal a2 plNonce payload h3).
  eexists _, _, _, _. split; [reflexivity|]. cbn [hh_Ephemeral hh_Static hh_Timestamp].
  rewrite (dh_agree sr ei) by done. fold h1 ck1 ss. rewrite Hz1, EK0, Ha1.
  unfold static at 1. rewrite Open_Seal by exact Hpb. rewrite into_exact by exact Hpl.
  rewrite NewPublicKey_id by apply PublicKey_ok. rewrite (dh_agree sr si) by done. fold pss. rewrite Hz2.
  rewrite EK, Ha2. fold h2. unfold tsx at 1. rewrite Open_Seal by exact Hbts.
  fold h3. unfold ct at 1. rewrite Open_Seal by exact Hbp.
  split; [reflexivity|]. split; [by split|]. do 4 (split; [done|]).
  split; [split; [unfold static; by rewrite Seal_length, Hpl|by apply Seal_bytes]|].
  split; [split; [unfold tsx; by rewrite Seal_length, Hts|by apply Seal_bytes]|].
  split; [apply Seal_length|by apply Seal_bytes].
Qed.

Lemma response_agrees hi hr payload :
  halfway hi hr -> is_bytes payload ->
  exists hr' hi' hdr ct,
    MakeResponse payload hr = (hr', inl (hdr, ct)) /\
    ConsumeResponse hdr ct hi = (hi', inl payload) /\ established hi' hr' /\
    remoteStatic hr' = remoteStatic hr /\ remoteStatic hi' = remoteStatic hi /\
    sendNonce hi' = 0 /\ sendNonce hr' = 0 /\
    pubkey_ok (rh_Ephemeral hdr) /\ array 16 (rh_Empty hdr) /\ zlen ct = zlen payload + 16 /\ is_bytes ct.
Proof.
  intros [Hh Hc Hp [Ri Rr] [Sr Si] Er [Ni Nr] (Ki1 & Ki2 & Kr1 & Kr2)] Hb.
  unfold MakeResponse, ConsumeResponse. rewrite Ri, Rr. cbn [negb].
  cbn [set_hash set_chainKey hash chainKey localEphemeral localStatic remoteStatic remoteEphemeral presharedKey].
  rewrite Sr, Er. set (h1 := mixHash (hash hr) _).
  set (ck1 := mixKey (mixKey (mixKey (chainKey hr) _) _) _).
  destruct (New_KDF3 ck1 (presharedKey hr)) as [a Ha].
  destruct (KDF3 ck1 (presharedKey hr)) as [[ck2 tau] key] eqn:EK. cbn [snd] in Ha. rewrite Ha.
  cbn [set_hash set_chainKey hash chainKey]. set (h2 := mixHash h1 tau). rewrite into_Seal by reflexivity.
  set (empty := aead_Seal a zeroNonce [] h2). set (h3 := mixHash h2 empty). set (ct := aead_Seal a plNonce payload h3).
  destruct (New_KDF2 ck2 []) as (x & y & Hx & Hy). destruct (KDF2 ck2 []) as [k1 k2] eqn:EK2. cbn [fst snd] in Hx, Hy.
  rewrite Hy. cbn [set_send send set_receive receive]. rewrite Hx.
  eexists _, _, _, _. split; [reflexivity|]. cbn [rh_Ephemeral rh_Empty].
  rewrite Hh, Hc, Hp, (dh_agree (localEphemeral hi)), (dh_agree (localStatic hi)) by done.
  fold h1 ck1. rewrite EK, Ha. fold h2. unfold empty at 1. rewrite Open_Seal by constructor.
  fold h3. unfold ct at 1. rewrite Open_Seal by exact Hb. cbn [set_hash set_chainKey chainKey].
  rewrite EK2, Hx. cbn [set_send send set_receive receive]. rewrite Hy.
  split; [reflexivity|]. split; [split; cbn; eauto|]. do 4 (split; [done|]).
  split; [apply PublicKey_ok|]. split; [split; [apply Seal_length|by apply Seal_bytes; constructor]|].
  split; [apply Seal_length|by apply Seal_bytes].
Qed.

(** ** Messages *)

Lemma getz_be8 v : map (getz (be_bytes 8 v)) [0; 1; 2; 3; 4; 5; 6; 7] = be_bytes 8 v.
Proof. reflexivity. Qed.

Lemma nonce_of_be8 v : nonce_of (be_bytes 8 v) = [0; 0; 0; 0] ++ be_bytes 8 v.
Proof. reflexivity. Qed.

Lemma message_agrees h1 h2 payload :
  established h1 h2 -> is_bytes payload ->
  exists h1' hdr ct,
    MakeMessage payload h1 = (h1', inl (hdr, ct)) /\
    ConsumeMessage hdr ct h2 = inl payload /\ established h1' h2 /\
    sendNonce h1' = u64 (sendNonce h1 + 1) /\ mh_Nonce hdr = be_bytes 8 (sendNonce h1') /\
    remoteStatic h1' = remoteStatic h1 /\ zlen ct = zlen payload + 16 /\ is_bytes ct.
Proof.
  intros [Hh Hc (a & Ha & Ha') Hb] Hp. unfold MakeMessage, ConsumeMessage. rewrite Ha, Ha'.
  eexists _, _, _. split; [reflexivity|]. cbn [mh_Nonce]. rewrite Open_Seal by done.
  split; [done|]. split; [split; cbn; eauto|]. do 3 (split; [done|]).
  split; [apply Seal_length|by apply Seal_bytes].
Qed.

(** Messages in one direction, in order; each is opened as it arrives. *)
Fixpoint exchange (ps : list (list Z)) (h1 h2 : Handshake) : option (Handshake * list (list Z) * list (list Z)) :=
  match ps with
  | [] => Some (h1, [], [])
  | p :: ps =>
      match MakeMessage p h1 with
      | (h1, inl (hdr, ct)) =>
          match ConsumeMessage hdr ct h2, exchange ps h1 h2 with
          | inl q, Some (h1, qs, ns) => Some (h1, q :: qs, mh_Nonce hdr :: ns)
          | _, _ => None
          end
      | (_, inr _) => None
      end
  end.

Lemma exchange_agrees ps : forall h1 h2,
  established h1 h2 -> Forall is_bytes ps -> 0 <= sendNonce h1 -> sendNonce h1 + zlen ps < 2 ^ 64 ->
  exists h1', exchange ps h1 h2 =
      Some (h1', ps, map (fun i => be_bytes 8 i) (seqZ (sendNonce h1 + 1) (zlen ps))) /\
    established h1' h2.
Proof.
  induction ps as [|p ps IH]; intros h1 h2 He Hb Hpos Hn; cbn [exchange]; [by exists h1|].
  apply Forall_cons_iff in Hb as [Hp Hb].
  destruct (message_agrees h1 h2 p He Hp) as (h1' & hdr & ct & -> & -> & He' & Hs & Hnn & _).
  rewrite zlen_cons in Hn. pose proof (zlen_nonneg ps).
  assert (Hs' : sendNonce h1' = sendNonce h1 + 1) by (rewrite Hs; unfold u64; apply Z.mod_small; lia).
  destruct (IH h1' h2 He' Hb ltac:(lia) ltac:(lia)) as (h1'' & -> & He''). exists h1''.
  split; [|exact He'']. rewrite Hnn, Hs', zlen_cons, (seqZ_cons (sendNonce h1 + 1)) by lia.
  cbn [map]. do 4 f_equal. f_equal; lia.
Qed.
End laws.

Lemma foldl_land0 val :
  foldl (fun acc b => Z.land acc (if b =? 0 then 1 else 0)) 0 val = 0.
Proof. induction val as [|b val IH]; [done|]. cbn. by rewrite Z.land_0_l. Qed.

Lemma isZero_spec val : isZero val = true <-> Forall (eq 0) val.
Proof.
  unfold isZero. induction val as [|b val IH]; [by split; [constructor|]|]. cbn [foldl].
  destruct (Z.eqb_spec b 0) as [->|Hb].
  - change (Z.land 1 1) with 1. rewrite IH. split; [by constructor|by intros [_ ?]%Forall_cons_iff].
  - change (Z.land 1 0) with 0. rewrite foldl_land0. split; [done|]. intros [? _]%Forall_cons_iff. congruence.
Qed.

(** ** Properties *)

Section properties.
Context `{CryptoLaws}.

Lemma NewHandshakeInitiator_start si rs e hs e' :
  entropy_ok e -> NewHandshakeInitiator si rs e = Ok (inl hs, e') ->
  privkey_ok (localEphemeral hs) /\ hs = start_initiator si (localEphemeral hs) rs /\
  isZero (SharedSecret si rs) = false /\ entropy_ok e'.
Proof.
  intros He. unfold NewHandshakeInitiator.
  destruct (GeneratePrivateKey e) as [[[k|] e1]| |] eqn:E; [|done..]. cbn [precStaticStatic].
  destruct (isZero (SharedSecret si rs)) eqn:Ez; [done|]. intros [= <- <-].
  destruct (GeneratePrivateKey_ok _ _ _ He E). done.
Qed.

Lemma NewHandshakeResponder_start sr e hs e' :
  entropy_ok e -> NewHandshakeResponder sr e = Ok (inl hs, e') ->
  privkey_ok (localEphemeral hs) /\ hs = start_responder sr (localEphemeral hs) /\ entropy_ok e'.
Proof.
  intros He. unfold NewHandshakeResponder.
  destruct (GeneratePrivateKey e) as [[[k|] e1]| |] eqn:E; [|done..]. intros [= <- <-].
  destruct (GeneratePrivateKey_ok _ _ _ He E). done.
Qed.

(** C12: the handshake works: whatever the keys, the random ephemeral keys, the
    clock and the two payloads, the responder recovers the initiator's payload
    and static key from the hello, the initiator recovers the responder's
    payload from the response, and both end with the same transcript hash and
    chaining key and with matching ciphers in both directions. *)
Theorem handshake_agreement (si sr : PrivateKey) (e1 e1' e2 e2' : entropy) (hi hr : Handshake)
    (ts p1 p2 : list Z) :
  privkey_ok si -> privkey_ok sr -> entropy_ok e1 -> entropy_ok e2 ->
  array 12 ts -> is_bytes p1 -> is_bytes p2 ->
  NewHandshakeInitiator si (PublicKey_ sr) e1 = Ok (inl hi, e1') ->
  NewHandshakeResponder sr e2 = Ok (inl hr, e2') ->
  isZero (SharedSecret (localEphemeral hi) (PublicKey_ sr)) = false ->
  exists hi1 hr1 hr2 hi2 hdr ct rhdr rct,
    MakeHello ts p1 hi = (hi1, inl (hdr, ct)) /\
    ConsumeHello hdr ct hr = (hr1, inl p1) /\ RemotePublicKey hr1 = PublicKey_ si /\
    MakeResponse p2 hr1 = (hr2, inl (rhdr, rct)) /\
    ConsumeResponse rhdr rct hi1 = (hi2, inl p2) /\ RemotePublicKey hi2 = PublicKey_ sr /\
    established hi2 hr2.
Proof.
  intros Hsi Hsr He1 He2 [Ht Htb] Hp1 Hp2 E1 E2 Hz.
  destruct (NewHandshakeInitiator_start _ _ _ _ _ He1 E1) as (Kei & Ehi & Hz' & _).
  destruct (NewHandshakeResponder_start _ _ _ _ He2 E2) as (Ker & Ehr & _).
  rewrite Ehi, Ehr in *. cbn [localEphemeral start_initiator start_responder] in Kei, Ker, Hz.
  destruct (hello_agrees si (localEphemeral hi) sr (localEphemeral hr) ts p1)
    as (hi1 & hr1 & hdr & ct & E3 & E4 & Hhalf & Hl1 & Hl2 & _ & _); [done..|].
  destruct (response_agrees hi1 hr1 p2 Hhalf Hp2) as (hr2 & hi2 & rhdr & rct & E5 & E6 & Hest & Hr1 & Hr2 & _).
  exists hi1, hr1, hr2, hi2, hdr, ct, rhdr, rct. destruct (half_static _ _ Hhalf) as [S1 S2].
  unfold RemotePublicKey. rewrite Hr2, S1, S2, Hl1, Hl2. done.
Qed.

(** C13: after the handshake each side can send any number of messages (short of
    2^64), which the other side opens to exactly the payloads sent, in both
    directions; no nonce is used twice with a key. *)
Theorem messages_roundtrip (h1 h2 : Handshake) (ps qs : list (list Z)) :
  established h1 h2 -> Forall is_bytes ps -> Forall is_bytes qs ->
  sendNonce h1 = 0 -> sendNonce h2 = 0 -> zlen ps < 2 ^ 64 -> zlen qs < 2 ^ 64 ->
  exists h1' ns h2' ms,
    exchange ps h1 h2 = Some (h1', ps, ns) /\ NoDup ns /\
    exchange qs h2 h1' = Some (h2', qs, ms) /\ NoDup ms /\ established h1' h2'.
Proof.
  intros He Hps Hqs H1 H2 Hn1 Hn2.
  destruct (exchange_agrees ps h1 h2 He Hps ltac:(lia) ltac:(lia)) as (h1' & E1 & He1).
  destruct (exchange_agrees qs h2 h1' (established_sym _ _ He1) Hqs ltac:(lia) ltac:(lia)) as (h2' & E2 & He2).
  eexists h1', _, h2', _. split; [exact E1|].
  assert (Hnd : forall n, n < 2 ^ 64 -> NoDup (map (fun i => be_bytes 8 i) (seqZ (0 + 1) n))).
  { intros n Hn. apply NoDup_fmap_2_strong; [|apply NoDup_seqZ].
    intros x y Hx%elem_of_seqZ Hy%elem_of_seqZ E. apply (f_equal be_val) in E.
    rewrite !be_val_bytes in E. change (256 ^ Z.of_nat 8) with (2 ^ 64) in E.
    rewrite !Z.mod_small in E by lia. exact E. }
  split; [rewrite H1; by apply Hnd|]. split; [exact E2|]. split; [rewrite H2; by apply Hnd|].
  by apply established_sym.
Qed.

(** C35: a hello or response that is refused leaves no trace: the two consuming
    operations work on copies and assign the state only when every check has
    passed, so a forged packet cannot disturb a handshake in progress. *)
Theorem consume_atomic (hs : Handshake) (hdr : HelloHeader) (rhdr : ResponseHeader) (ct : list Z) (e : error) :
  (snd (ConsumeHello hdr ct hs) = inr e -> fst (ConsumeHello hdr ct hs) = hs) /\
  (snd (ConsumeResponse rhdr ct hs) = inr e -> fst (ConsumeResponse rhdr ct hs) = hs).
Proof.
  split.
  - unfold ConsumeHello. by repeat case_match.
  - unfold ConsumeResponse. destruct (negb (initiator hs)); [done|].
    destruct (KDF3 _ _) as [[ck tau] key]. destruct (chacha20poly1305_New key) as [a|]; [|done].
    destruct (aead_Open a _ _ _); [|done]. destruct (aead_Open a _ _ _); [|done].
    cbn [set_hash set_chainKey chainKey].
    destruct (New_KDF2 ck []) as (x & y & Hx & Hy). destruct (KDF2 ck []) as [k1 k2]. cbn [fst snd] in Hx, Hy.
    rewrite Hx. cbn [set_send send set_receive receive]. by rewrite Hy.
Qed.
End properties.

(** The padding rule brings a packet up to the next multiple of 16, by less
    than 16 bytes, except that it never pads beyond the MTU. *)
Theorem calculatePaddingSize_spec (packetSize mtu : Z) :
  0 <= packetSize -> 0 <= mtu ->
  let p := calculatePaddingSize packetSize mtu in
  let last := if (mtu =? 0) || (packetSize <=? mtu) then packetSize else packetSize mod mtu in
  0 <= p < 16 /\ ((last + p) mod 16 = 0 \/ last + p = mtu) /\ (mtu <> 0 -> last + p <= mtu).
Proof.
  intros Hp Hm p last.
  assert (Hr : forall n, Z.land (n + 16 - 1) (Z.lnot (16 - 1)) = (n + 15) / 16 * 16).
  { intros n. change (Z.lnot (16 - 1)) with (Z.lnot (Z.ones 4)). rewrite <- Z.ldiff_land.
    rewrite Z.ldiff_ones_r, Z.shiftl_mul_pow2, Z.shiftr_div_pow2 by lia.
    change (2 ^ 4) with 16. by replace (n + 16 - 1) with (n + 15) by lia. }
  unfold p, calculatePaddingSize, paddingMultiple. rewrite !Hr. unfold last. clear Hr p last.
  destruct (Z.eqb_spec mtu 0) as [->|Hne]; cbn [orb]; [lia|].
  assert (Hlast : 0 <= (if mtu <? packetSize then Z.rem packetSize mtu else packetSize) <= mtu /\
    (if mtu <? packetSize then Z.rem packetSize mtu else packetSize) =
    (if packetSize <=? mtu then packetSize else packetSize mod mtu)).
  { destruct (Z.ltb_spec mtu packetSize), (Z.leb_spec packetSize mtu); try lia.
    rewrite Z.rem_mod_nonneg by lia. split; [|done]. pose proof (Z.mod_pos_bound packetSize mtu). lia. }
  destruct Hlast as [Hb <-].
  generalize dependent (if mtu <? packetSize then Z.rem packetSize mtu else packetSize). intros u Hu.
  destruct (Z.ltb_spec mtu ((u + 15) / 16 * 16)); lia.
Qed.

(** *** Witnesses *)

Definition hs_si : PrivateKey := key_of [7].
Definition hs_sr : PrivateKey := key_of [9].
Definition hs_eph : PrivateKey := key_of [1; 2].
Definition hs_rand : entropy := [Some [1; 2]].
Definition hs_ts : list Z := [64; 0; 0; 0; 1; 2; 3; 4; 0; 0; 0; 5].
Definition hs_i : Handshake := start_initiator hs_si hs_eph (PublicKey_ hs_sr).
Definition hs_r : Handshake := start_responder hs_sr hs_eph.

Lemma handshake_agreement_witness :
  exists hi1 hr1 hr2 hi2 hdr ct rhdr rct,
    MakeHello hs_ts [1; 2; 3] hs_i = (hi1, inl (hdr, ct)) /\
    ConsumeHello hdr ct hs_r = (hr1, inl [1; 2; 3]) /\ RemotePublicKey hr1 = PublicKey_ hs_si /\
    MakeResponse [4; 5] hr1 = (hr2, inl (rhdr, rct)) /\
    ConsumeResponse rhdr rct hi1 = (hi2, inl [4; 5]) /\ RemotePublicKey hi2 = PublicKey_ hs_sr /\
    established hi2 hr2.
Proof.
  apply (handshake_agreement hs_si hs_sr hs_rand [] hs_rand [] hs_i hs_r hs_ts [1; 2; 3] [4; 5]);
    [by apply (bool_decide_unpack _)|by apply (bool_decide_unpack _)|by repeat constructor
    |by repeat constructor|by apply (bool_decide_unpack _)|by apply (bool_decide_unpack _)
    |by apply (bool_decide_unpack _)|reflexivity|reflexivity|vm_compute; reflexivity].
Defined.

(** Two sides that share a pair of ciphers. *)
Definition hs_done (s r : list Z) (i : bool) : Handshake :=
  mkHandshake [1] [2] (zeros 32) hs_si hs_eph zeroKey zeroKey [] (Some s) (Some r) 0 i.

Lemma hs_done_established : established (hs_done [5] [6] true) (hs_done [6] [5] false).
Proof. by split; [| |exists [5]|exists [6]]. Qed.

Lemma messages_roundtrip_witness :
  exists h1' ns h2' ms,
    exchange [[1; 2]; [3]; []] (hs_done [5] [6] true) (hs_done [6] [5] false) = Some (h1', [[1; 2]; [3]; []], ns) /\
    NoDup ns /\ exchange [[9]] (hs_done [6] [5] false) h1' = Some (h2', [[9]], ms) /\ NoDup ms /\
    established h1' h2'.
Proof.
  apply messages_roundtrip; [exact hs_done_established|by apply (bool_decide_unpack _)..|done|done|done|done].
Defined.

Lemma consume_atomic_witness :
  fst (ConsumeHello (mkHelloHeader zeroKey (zeros 48) (zeros 28)) [] hs_r) = hs_r.
Proof.
  apply (proj1 (consume_atomic hs_r (mkHelloHeader zeroKey (zeros 48) (zeros 28)) (mkResponseHeader zeroKey []) []
                  ErrZeroECDH)).
  reflexivity.
Defined.

Lemma calculatePaddingSize_spec_witness : 0 <= calculatePaddingSize 100 1420 < 16.
Proof. apply (calculatePaddingSize_spec 100 1420); lia. Defined.
