(* ===== verification/Session.v ===== *)
(** * Session: sessions and their manager (node/session/session.go, manager.go)

    Sessions are Go objects that the store refers to by pointer and that
    operations keep changing after they were stored, so the model has an object
    table and the store maps indexes to references, which may be nil. The
    manager runs in a [world] with the heap of packet buffers, the random
    source, the clock, and the order in which the next map iteration visits the
    keys. [Session.waiters] is never assigned in the program: the loops over it
    do nothing and are left out. *)

From S2P Require Import Prelude GoMem Route Ext Toy Key PeerID Multiaddr Packet SessionPacket Ikpsk2.
Import Key PeerID Multiaddr Packet SessionPacket Ikpsk2.

Module Session.

Section session.
Context `{Crypto, MaddrLib}.

Record Session : Type := mkSession {
  initiator : bool;
  stage : Z;
  handshake : Handshake;
  remoteAddr : Multiaddr;
  remotePeerID : PeerID
}.

Record SessionManager : Type := mkManager {
  privkey : PrivateKey;
  pubkey : PublicKey;
  peerid : PeerID;
  store : gmap Z (option nat)
}.

(** A choice of iteration order for maps: at every range statement, any
    arrangement of the entries. *)
Definition map_order : Type := nat -> gmap Z (option nat) -> list (Z * option nat).
Definition order_ok (ord : map_order) : Prop := forall n m, ord n m ≡ₚ map_to_list m.

Record world : Type := mkWorld {
  sm : SessionManager;
  objs : list Session;
  rand : entropy;
  now : list Z;
  order : map_order;
  ranges : nat;
  mem : heap
}.

Inductive error : Type :=
| UnknownIndexError
| SessionStateError
| ErrHandshake (e : Ikpsk2.error)
| ErrPeerIDMismatch
| ErrNoSession.

Definition set_sm (m : SessionManager) (w : world) : world :=
  mkWorld m (objs w) (rand w) (now w) (order w) (ranges w) (mem w).
Definition set_store (s : gmap Z (option nat)) (w : world) : world :=
  set_sm (mkManager (privkey (sm w)) (pubkey (sm w)) (peerid (sm w)) s) w.
Definition set_objs (o : list Session) (w : world) : world :=
  mkWorld (sm w) o (rand w) (now w) (order w) (ranges w) (mem w).
Definition set_rand (e : entropy) (w : world) : world :=
  mkWorld (sm w) (objs w) e (now w) (order w) (ranges w) (mem w).
Definition set_ranges (n : nat) (w : world) : world :=
  mkWorld (sm w) (objs w) (rand w) (now w) (order w) n (mem w).
Definition mem_lens : lens world heap :=
  Lens mem (fun h w => mkWorld (sm w) (objs w) (rand w) (now w) (order w) (ranges w) h).

(** ** Objects *)

Definition new_obj (s : Session) : M world nat := fun w =>
  Ok (length (objs w), set_objs (objs w ++ [s]) w).
(** Reading through a pointer; nil panics. *)
Definition deref (r : option nat) : M world Session := fun w =>
  match r ≫= (objs w !!.) with Some s => Ok (s, w) | None => Panic end.
Definition assign (r : nat) (s : Session) : M world unit :=
  modify (fun w => set_objs (<[r := s]> (objs w)) w).

Definition set_handshake (hs : Handshake) (s : Session) : Session :=
  mkSession (initiator s) (stage s) hs (remoteAddr s) (remotePeerID s).
Definition set_stage (n : Z) (s : Session) : Session :=
  mkSession (initiator s) n (handshake s) (remoteAddr s) (remotePeerID s).
Definition set_remoteAddr (a : Multiaddr) (s : Session) : Session :=
  mkSession (initiator s) (stage s) (handshake s) a (remotePeerID s).
Definition set_remotePeerID (p : PeerID) (s : Session) : Session :=
  mkSession (initiator s) (stage s) (handshake s) (remoteAddr s) p.

Definition newSession (peerid : PeerID) (hs : Handshake) : Session :=
  mkSession true 0x01 hs zeroMultiaddr peerid.
Definition newSessionIncoming (hs : Handshake) : Session :=
  mkSession false 0x02 hs zeroMultiaddr emptyPeerID.

Definition RemotePeerID (s : Session) : PeerID := remotePeerID s.
Definition RemoteAddr (s : Session) : Multiaddr := remoteAddr s.

Definition SetRemoteAddr (r : nat) (raddr : Multiaddr) : M world unit :=
  s ← deref (Some r); assign r (set_remoteAddr raddr s).

(** ** session.go *)

Definition on_mem {A} (m : M heap A) : M world A := zoom mem_lens m.

(** Runs an operation of the handshake the session holds. *)
Definition run_handshake {A} (r : nat) (f : Handshake -> Handshake * A) : M world A :=
  s ← deref (Some r);
  let '(hs, a) := f (handshake s) in
  _ ← assign r (set_handshake hs s);
  mret a.

Definition CreateHello (r : nat) (pkt : SPacket) : M world (SPacket * option error) :=
  s ← deref (Some r);
  if negb (initiator s) then mret (pkt, Some SessionStateError) else
  pt ← on_mem (t ← HelloPacket.Plaintext pkt; s_read t);
  ts ← gets now;
  x ← run_handshake r (MakeHello ts pt);
  match x with
  | inr e => mret (pkt, Some (ErrHandshake e))
  | inl (hdr, ct) =>
      pkt ← on_mem (
        _ ← HelloPacket.SetEphemeralKey pkt (hh_Ephemeral hdr);
        _ ← HelloPacket.SetStaticKey pkt (hh_Static hdr);
        _ ← HelloPacket.SetTimestamp pkt (hh_Timestamp hdr);
        HelloPacket.SetCiphertext pkt ct);
      mret (pkt, None)
  end.

Definition HandleHello (r : nat) (pkt : SPacket) : M world (SPacket * option error) :=
  s ← deref (Some r);
  if initiator s then mret (pkt, Some SessionStateError) else
  eph ← on_mem (HelloPacket.EphemeralKey pkt);
  static ← on_mem (HelloPacket.StaticKey pkt);
  ts ← on_mem (HelloPacket.Timestamp pkt);
  ct ← on_mem (t ← HelloPacket.Ciphertext pkt; s_read t);
  x ← run_handshake r (ConsumeHello (mkHelloHeader eph static ts) ct);
  match x with
  | inr e => mret (pkt, Some (ErrHandshake e))
  | inl pt =>
      pkt ← on_mem (HelloPacket.SetPlaintext pkt pt);
      s ← deref (Some r);
      _ ← assign r (set_remotePeerID (NewPeerID (RemotePublicKey (handshake s))) s);
      mret (pkt, None)
  end.

Definition CreateResponse (r : nat) (pkt : SPacket) : M world (SPacket * option error) :=
  s ← deref (Some r);
  if initiator s then mret (pkt, Some SessionStateError) else
  pt ← on_mem (t ← ResponsePacket.Plaintext pkt; s_read t);
  x ← run_handshake r (MakeResponse pt);
  match x with
  | inr e => mret (pkt, Some (ErrHandshake e))
  | inl (hdr, ct) =>
      pkt ← on_mem (
        _ ← ResponsePacket.SetEphemeralKey pkt (rh_Ephemeral hdr);
        _ ← ResponsePacket.SetEmpty pkt (rh_Empty hdr);
        ResponsePacket.SetCiphertext pkt ct);
      mret (pkt, None)
  end.

Definition HandleHelloResponse (r : option nat) (pkt : SPacket) : M world (SPacket * option error) :=
  s ← deref r;
  if negb (initiator s) || negb (stage s =? 0x01) then mret (pkt, Some SessionStateError) else
  match r with
  | None => panic
  | Some r =>
      eph ← on_mem (ResponsePacket.EphemeralKey pkt);
      empty ← on_mem (ResponsePacket.Empty pkt);
      ct ← on_mem (t ← ResponsePacket.Ciphertext pkt; s_read t);
      x ← run_handshake r (ConsumeResponse (mkResponseHeader eph empty) ct);
      match x with
      | inr e => mret (pkt, Some (ErrHandshake e))
      | inl pt =>
          pkt ← on_mem (ResponsePacket.SetPlaintext pkt pt);
          s ← deref (Some r);
          if negb (bool_decide (NewPeerID (RemotePublicKey (handshake s)) = remotePeerID s))
          then mret (pkt, Some ErrPeerIDMismatch) else
          _ ← assign r (set_stage 0x03 s);
          mret (pkt, None)
      end
  end.
End session.
End Session.

Module Manager.
Import Session.
Section manager.
Context `{Crypto, MaddrLib}.

Definition NewSessionManager (privkey : PrivateKey) : SessionManager :=
  let pubkey := Key.PublicKey_ privkey in
  mkManager privkey pubkey (NewPeerID pubkey) ∅.

(** A failed read is retried after a pause. *)
Fixpoint randUint32 (e : entropy) : res (Z * entropy) :=
  match e with
  | [] => Block
  | None :: e => randUint32 e
  | Some bs :: e => Ok (le_val (rand_fill 4 bs), e)
  end.

(** The loop of [Insert]; every round takes a random result, so the number of
    results left bounds the rounds. *)
Fixpoint insert_loop (fuel : nat) (st : gmap Z (option nat)) (e : entropy) : res (Z * entropy) :=
  match fuel with
  | O => Block
  | S fuel =>
      match randUint32 e with
      | Ok (idx, e) =>
          match st !! idx with
          | Some _ => insert_loop fuel st e
          | None => Ok (idx, e)
          end
      | Panic => Panic
      | Block => Block
      end
  end.

Definition Insert (r : nat) : M world Z := fun w =>
  match insert_loop (S (length (rand w))) (store (sm w)) (rand w) with
  | Ok (idx, e) => Ok (idx, set_rand e (set_store (<[idx := Some r]> (store (sm w))) w))
  | Panic => Panic
  | Block => Block
  end.

Definition Get (idx : Z) (w : world) : option (option nat) := store (sm w) !! idx.

(** The body of the range statement; a nil entry panics. *)
Fixpoint find_loop (p : PeerID) (es : list (Z * option nat)) : M world (option (nat * Z)) :=
  match es with
  | [] => mret None
  | (idx, r) :: es =>
      s ← deref r;
      match r with
      | Some r => if bool_decide (remotePeerID s = p) then mret (Some (r, idx)) else find_loop p es
      | None => panic
      end
  end.

Definition Find (p : PeerID) : M world (option (nat * Z)) :=
  w ← gets id;
  _ ← modify (set_ranges (S (ranges w)));
  find_loop p (order w (ranges w) (store (sm w))).

(** [s] is nil when there is no session at [idx1]. *)
Definition Swap (idx1 idx2 : Z) : M world unit :=
  modify (fun w =>
    let st := store (sm w) in
    match st !! idx1 with
    | Some s => set_store (<[idx2 := s]> (delete idx1 st)) w
    | None => set_store (<[idx2 := None]> st) w
    end).

Definition Remove (idx : Z) : M world unit :=
  modify (fun w =>
    match store (sm w) !! idx with
    | Some _ => set_store (delete idx (store (sm w))) w
    | None => w
    end).

(** Functions that draw random keys. *)
Definition with_rand {A} (f : entropy -> res (A * entropy)) : M world A := fun w =>
  match f (rand w) with
  | Ok (a, e) => Ok (a, set_rand e w)
  | Panic => Panic
  | Block => Block
  end.

Definition when (b : bool) (m : M world unit) : M world unit := if b then m else mret tt.

Definition CreateHello (pkt : SPacket) (p : PeerID) (raddr : Multiaddr) : M world (SPacket * option error) :=
  m ← gets sm;
  x ← with_rand (NewHandshakeInitiator (privkey m) (PeerID.PublicKey_ p));
  match x with
  | inr e => mret (pkt, Some (ErrHandshake e))
  | inl hs =>
      s ← new_obj (newSession p hs);
      idx ← Insert s;
      _ ← on_mem (HelloPacket.SetSenderIndex pkt idx);
      _ ← when (negb (Multiaddr.Empty raddr)) (SetRemoteAddr s raddr);
      Session.CreateHello s pkt
  end.

Definition zeroPacket : SPacket := mkSPacket 0 0 (NewPacket nil_slice).

Definition HandleHello (pkt : SPacket) (raddr : Multiaddr) : M world (SPacket * option error) :=
  m ← gets sm;
  x ← with_rand (NewHandshakeResponder (privkey m));
  match x with
  | inr e => mret (zeroPacket, Some (ErrHandshake e))
  | inl hs =>
      s ← new_obj (newSessionIncoming hs);
      y ← Session.HandleHello s pkt;
      match y with
      | (_, Some e) => mret (zeroPacket, Some e)
      | (pkt, None) =>
          buf ← on_mem (make_bytes TptMTU);
          pkt2 ← on_mem (ResponsePacket.NewResponsePacket (NewPacket buf) (Offset pkt) (Padding pkt));
          idx ← on_mem (HelloPacket.SenderIndex pkt);
          _ ← on_mem (ResponsePacket.SetSenderIndex pkt2 idx);
          z ← CreateResponse s pkt2;
          match z with
          | (pkt2, Some e) => mret (pkt2, Some e)
          | (pkt2, None) =>
              i ← Insert s;
              _ ← on_mem (ResponsePacket.SetSessionIndex pkt2 i);
              so ← deref (Some s);
              _ ← assign s (set_remotePeerID (NewPeerID (RemotePublicKey (handshake so))) so);
              _ ← when (negb (Multiaddr.Empty raddr)) (SetRemoteAddr s raddr);
              mret (pkt2, None)
          end
      end
  end.

Definition HandleResponse (pkt : SPacket) (raddr : Multiaddr) : M world (SPacket * PeerID * option error) :=
  idx ← on_mem (ResponsePacket.SenderIndex pkt);
  g ← gets (Get idx);
  match g with
  | None => mret (pkt, emptyPeerID, Some UnknownIndexError)
  | Some s =>
      y ← HandleHelloResponse s pkt;
      match y with
      | (pkt, Some e) => mret (pkt, emptyPeerID, Some e)
      | (pkt, None) =>
          i1 ← on_mem (ResponsePacket.SenderIndex pkt);
          i2 ← on_mem (ResponsePacket.SessionIndex pkt);
          _ ← Swap i1 i2;
          _ ← when (negb (Multiaddr.Empty raddr)) (match s with Some s => SetRemoteAddr s raddr | None => panic end);
          so ← deref s;
          mret (pkt, remotePeerID so, None)
      end
  end.

Definition CreateData (pkt : SPacket) (p : PeerID) : M world (Multiaddr + error) :=
  f ← Find p;
  match f with
  | None => mret (inr ErrNoSession)
  | Some (s, idx) =>
      pt ← on_mem (t ← DataPacket.Plaintext pkt; s_read t);
      x ← run_handshake s (MakeMessage pt);
      match x with
      | inr e => mret (inr (ErrHandshake e))
      | inl (hdr, ct) =>
          _ ← on_mem (
            _ ← DataPacket.SetMsgType pkt DataMsgType;
            _ ← DataPacket.SetSessionIndex pkt idx;
            _ ← DataPacket.SetNonce pkt (mh_Nonce hdr);
            DataPacket.SetCiphertext pkt ct);
          so ← deref (Some s);
          mret (inl (remoteAddr so))
      end
  end.

(** The peer and whether this is the session's first data. *)
Definition HandleData (pkt : SPacket) : M world ((PeerID * bool) + error) :=
  idx ← on_mem (DataPacket.SessionIndex pkt);
  g ← gets (Get idx);
  match g with
  | None => mret (inr UnknownIndexError)
  | Some s =>
      so ← deref s;
      nonce ← on_mem (DataPacket.Nonce pkt);
      ct ← on_mem (t ← DataPacket.Ciphertext pkt; s_read t);
      match ConsumeMessage (mkMessageHeader nonce) ct (handshake so) with
      | inr e => mret (inr (ErrHandshake e))
      | inl pt =>
          _ ← on_mem (DataPacket.SetPlaintext pkt pt);
          if stage so =? 0x03 then mret (inl (remotePeerID so, false)) else
          match s with
          | None => panic
          | Some s =>
              _ ← assign s (set_stage 0x03 so);
              mret (inl (remotePeerID so, true))
          end
      end
  end.
End manager.
End Manager.
Import Session.

(** ** Executing the operations *)

Section exec.
Context `{Crypto, MaddrLib}.
Implicit Types (m : SessionManager) (os : list Session) (e : entropy) (h : heap).

Lemma on_mem_step {A B} (f : M heap A) (k : A -> M world B) m os e n o i h a h' :
  f h = Ok (a, h') ->
  (on_mem f ≫= k) (mkWorld m os e n o i h) = k a (mkWorld m os e n o i h').
Proof. intros E. unfold on_mem, zoom, mbind, M_bind. cbn. by rewrite E. Qed.

Lemma deref_step {B} r (k : Session -> M world B) m os e n o i h s :
  os !! r = Some s ->
  (deref (Some r) ≫= k) (mkWorld m os e n o i h) = k s (mkWorld m os e n o i h).
Proof. intros E. unfold deref, mbind, M_bind. cbn. by rewrite E. Qed.

Lemma run_handshake_step {A B} r (f : Handshake -> Handshake * A) (k : A -> M world B) m os e n o i h s hs a :
  os !! r = Some s -> f (handshake s) = (hs, a) ->
  (run_handshake r f ≫= k) (mkWorld m os e n o i h) =
    k a (mkWorld m (<[r := set_handshake hs s]> os) e n o i h).
Proof.
  intros E1 E2. unfold run_handshake, deref, mbind, M_bind. cbn. rewrite E1. cbn. by rewrite E2.
Qed.

Lemma with_rand_step {A B} (f : entropy -> res (A * entropy)) (k : A -> M world B) m os e n o i h a e' :
  f e = Ok (a, e') ->
  (Manager.with_rand f ≫= k) (mkWorld m os e n o i h) = k a (mkWorld m os e' n o i h).
Proof. intros E. unfold Manager.with_rand, mbind, M_bind. cbn. by rewrite E. Qed.

(** The store with one more entry. *)
Definition store_with (idx : Z) (r : option nat) m : SessionManager :=
  mkManager (privkey m) (pubkey m) (peerid m) (<[idx := r]> (store m)).

Lemma Insert_step {B} r (k : Z -> M world B) m os e n o i h idx e' :
  Manager.insert_loop (S (length e)) (store m) e = Ok (idx, e') ->
  (Manager.Insert r ≫= k) (mkWorld m os e n o i h) = k idx (mkWorld (store_with idx (Some r) m) os e' n o i h).
Proof.
  intros E. unfold Manager.Insert, mbind, M_bind. cbn [rand sm]. by rewrite E.
Qed.

Lemma insert_snoc os (s s' : Session) : <[length os := s']> (os ++ [s]) = os ++ [s'].
Proof. rewrite insert_app_r_alt by lia. by rewrite Nat.sub_diag. Qed.

Lemma lookup_snoc os (s : Session) : (os ++ [s]) !! length os = Some s.
Proof. rewrite lookup_app_r by lia. by rewrite Nat.sub_diag. Qed.

(** Recording the remote address, when there is one. *)
Definition with_addr (raddr : Multiaddr) (s : Session) : Session :=
  if Multiaddr.Empty raddr then s else set_remoteAddr raddr s.

Lemma when_addr_step {B} raddr r (k : unit -> M world B) m os e n o i h s :
  os !! r = Some s ->
  (Manager.when (negb (Multiaddr.Empty raddr)) (SetRemoteAddr r raddr) ≫= k) (mkWorld m os e n o i h) =
    k tt (mkWorld m (<[r := with_addr raddr s]> os) e n o i h).
Proof.
  intros E. unfold Manager.when, with_addr, SetRemoteAddr. destruct (Multiaddr.Empty raddr); cbn [negb].
  - unfold mbind, M_bind, mret, M_ret. by rewrite list_insert_id.
  - unfold deref, mbind, M_bind. cbn. by rewrite E.
Qed.

(** [CreateHello] when the handshake produces a hello. *)
Lemma CreateHello_spec (p : SPacket) pid raddr m os e n ord i h l hs e1 idx e2 hi hdr ct
    (o := Offset p) (d := Padding p) (len := Length (pkt p)) :
  full h (Buf (pkt p)) l -> 0 <= o -> 0 <= d -> o + 132 + d <= len -> len - d <= zlen l ->
  sub l o 4 = le_bytes 4 HelloMsgType ->
  NewHandshakeInitiator (privkey m) (PeerID.PublicKey_ pid) e = Ok (inl hs, e1) ->
  Manager.insert_loop (S (length e1)) (store m) e1 = Ok (idx, e2) ->
  MakeHello n (sub l (o + 116) (len - d - 16 - (o + 116))) hs = (hi, inl (hdr, ct)) ->
  zlen ct = len - d - (o + 116) -> pubkey_ok (hh_Ephemeral hdr) -> zlen (hh_Static hdr) = 48 ->
  zlen (hh_Timestamp hdr) = 28 ->
  exists l',
    Manager.CreateHello p pid raddr (mkWorld m os e n ord i h) =
      Ok ((set_len len p, None),
          mkWorld (store_with idx (Some (length os)) m)
            (os ++ [set_handshake hi (with_addr raddr (newSession pid hs))]) e2 n ord i
            (upd h (s_arr (Buf (pkt p))) l')) /\
    hello_layout l' o (len - d) idx (pub_bytes (hh_Ephemeral hdr)) (hh_Static hdr) (hh_Timestamp hdr) ct /\
    zlen l' = zlen l /\
    (is_bytes l -> is_bytes (hh_Static hdr) -> is_bytes (hh_Timestamp hdr) -> is_bytes ct -> is_bytes l').
Proof.
  intros Hf Ho Hd Hlen He Hty E1 E2 EM Hct Hpk Hst Hts. subst o d len.
  unfold Manager.CreateHello, Session.CreateHello. erewrite bind_ok by reflexivity. cbn [sm].
  erewrite with_rand_step by exact E1. cbv beta iota. erewrite bind_ok by reflexivity. unfold set_objs. cbn [sm objs rand now order ranges mem].
  erewrite Insert_step by exact E2.
  erewrite on_mem_step by (eapply (put_be32_at_full p 4); [exact Hf|lia|lia]).
  erewrite when_addr_step by apply lookup_snoc. rewrite insert_snoc.
  erewrite deref_step by apply lookup_snoc.
  assert (Hinit : initiator (with_addr raddr (newSession pid hs)) = true)
    by (unfold with_addr; by destruct (Multiaddr.Empty raddr)).
  assert (Hhs : handshake (with_addr raddr (newSession pid hs)) = hs)
    by (unfold with_addr; by destruct (Multiaddr.Empty raddr)).
  rewrite Hinit. cbn [negb].
  set (l1 := splice l (Offset p + 4) (be_bytes 4 idx)).
  assert (Hl1 : zlen l1 = zlen l) by (unfold l1; zl).
  assert (Hf1 : full (upd h (s_arr (Buf (pkt p))) l1) (Buf (pkt p)) l1) by (unfold l1; fl).
  erewrite on_mem_step; [|unfold HelloPacket.Plaintext; erewrite bind_ok by
    (eapply reslice_window; [exact Hf1|lia|lia]); unfold s_read, gets; erewrite window_contents
    by (exact Hf1 || lia); reflexivity].
  assert (Hpt : sub l1 (Offset p + 116) (Length (pkt p) - Padding p - 16 - (Offset p + 116)) =
    sub l (Offset p + 116) (Length (pkt p) - Padding p - 16 - (Offset p + 116))) by (unfold l1; apply sub_splice_ge; zl).
  erewrite bind_ok by reflexivity. cbn [now].
  erewrite run_handshake_step; [|apply lookup_snoc|rewrite Hhs, Hpt; exact EM].
  rewrite insert_snoc. cbv iota beta.
  destruct (hello_write p (upd h (s_arr (Buf (pkt p))) l1) l1 idx (hh_Ephemeral hdr) (hh_Static hdr)
    (hh_Timestamp hdr) ct) as (l' & E & Hlay & (Hz & _) & Hb);
    [exact Hf1|lia|lia|done|done|done|unfold l1; by subs|unfold l1; by subs|].
  erewrite on_mem_step by exact E. rewrite upd_upd.
  replace (Offset p + 116 + zlen ct + Padding p) with (Length (pkt p)) by lia.
  replace (Offset p + 116 + zlen ct) with (Length (pkt p) - Padding p) in Hlay by lia.
  exists l'. split; [reflexivity|]. split; [exact Hlay|]. split; [lia|].
  intros. apply Hb; auto; [unfold l1; auto with rovy|apply Hpk].
Qed.

(** Storing a recovered hello payload back into the packet leaves the header
    alone. *)
Lemma HelloSetPlaintext_ok (p : SPacket) h l pt (o := Offset p) (d := Padding p) :
  full h (Buf (pkt p)) l -> 0 <= o -> 0 <= d <= 16 -> o + 132 + zlen pt + d <= zlen l ->
  exists l', HelloPacket.SetPlaintext p pt h =
      Ok (set_len (o + 116 + zlen pt + 16 + d) p, upd h (s_arr (Buf (pkt p))) l') /\
    zlen l' = zlen l /\ sub l' 0 (o + 116) = sub l 0 (o + 116).
Proof.
  intros Hf Ho Hd Hl. pose proof (zlen_nonneg pt). subst o d. unfold HelloPacket.SetPlaintext. cbn.
  erewrite bind_ok by (eapply buf_write_full; [exact Hf|lia|lia|lia]).
  set (l1 := splice l (Offset p + 116) pt). assert (Hl1 : zlen l1 = zlen l) by (unfold l1; zl).
  assert (Hf1 : full (upd h (s_arr (Buf (pkt p))) l1) (Buf (pkt p)) l1) by (unfold l1; fl).
  unfold buf_write at 1.
  erewrite bind_ok; [|erewrite bind_ok by (eapply reslice_window; [exact Hf1|lia|lia]); reflexivity].
  set (t := take _ emptyTag). assert (Ht : zlen t = 16 - Padding p).
  { unfold t. cbn. rewrite zlen_take; [lia|]. change (zlen emptyTag) with 16. lia. }
  cbn [s_arr s_off window]. rewrite (full_arr _ _ _ Hf1), upd_upd.
  destruct Hf as (_ & Hoff & _). rewrite Hoff.
  eexists. split; [reflexivity|]. split; [zl|]. unfold l1. rewrite !sub_splice_lt by zl. done.
Qed.

Lemma sub_prefix (l l' : list Z) n i k :
  sub l' 0 n = sub l 0 n -> 0 <= i -> 0 <= k -> i + k <= n -> sub l' i k = sub l i k.
Proof.
  intros E ? ? ?. pose proof (sub_sub l' 0 n i k) as E1. pose proof (sub_sub l 0 n i k) as E2.
  rewrite Z.add_0_l in E1, E2. rewrite <- E1, <- E2 by lia. by rewrite E.
Qed.

(** [Session.HandleHello] on a hello the handshake accepts. *)
Lemma HandleHello_obj_spec r (p : SPacket) m os e n ord i h l s hr idx eph static ts ct pt
    (o := Offset p) (d := Padding p) (len := Length (pkt p)) :
  os !! r = Some s -> initiator s = false ->
  full h (Buf (pkt p)) l -> 0 <= o -> 0 <= d <= 16 -> o + 132 + d <= len -> len - d <= zlen l ->
  0 <= idx < 2 ^ 32 -> hello_layout l o (len - d) idx eph static ts ct ->
  ConsumeHello (mkHelloHeader (mkPublicKey eph) static ts) ct (handshake s) = (hr, inl pt) ->
  zlen pt + 16 = zlen ct -> len <= zlen l ->
  exists l',
    Session.HandleHello r p (mkWorld m os e n ord i h) =
      Ok ((set_len len p, None),
          mkWorld m (<[r := set_remotePeerID (NewPeerID (RemotePublicKey hr)) (set_handshake hr s)]> os) e n ord i
            (upd h (s_arr (Buf (pkt p))) l')) /\
    zlen l' = zlen l /\ sub l' 0 (o + 116) = sub l 0 (o + 116).
Proof.
  intros Hs Hr Hf Ho Hd Hlen He Hidx Hlay EC Hpt Hll. subst o d len.
  destruct (hello_read p h l idx eph static ts ct Hf Ho ltac:(lia) Hidx Hlay) as (_ & R1 & R2 & R3 & t & R4 & Hct).
  assert (Hlt : (r < length os)%nat) by (by eapply lookup_lt_Some).
  unfold Session.HandleHello. erewrite deref_step by exact Hs. rewrite Hr.
  erewrite on_mem_step by exact R1. erewrite on_mem_step by exact R2. erewrite on_mem_step by exact R3.
  erewrite on_mem_step; [|erewrite bind_ok by exact R4; unfold s_read, gets; rewrite Hct; reflexivity].
  erewrite run_handshake_step; [|exact Hs|exact EC]. cbv beta iota.
  assert (Hzc : zlen ct = Length (pkt p) - Padding p - (Offset p + 116))
    by (rewrite <- (hl_ct _ _ _ _ _ _ _ _ Hlay); apply zlen_sub; lia).
  destruct (HelloSetPlaintext_ok p h l pt Hf Ho Hd) as (l' & E & Hz & Hpre); [lia|].
  erewrite on_mem_step by exact E. erewrite deref_step by (by apply list_lookup_insert_eq).
  exists l'. cbn [set_handshake handshake]. unfold assign, modify. erewrite bind_ok by reflexivity.
  unfold set_objs. cbn. rewrite list_insert_insert_eq.
  replace (Offset p + 116 + zlen pt + 16 + Padding p) with (Length (pkt p)) by lia. done.
Qed.

(** [CreateResponse] in a fresh buffer that has its type and sender index. *)
Lemma CreateResponse_spec r (p : SPacket) m os e n ord i h l s hr' hdr rct sender
    (o := Offset p) (d := Padding p) (len := Length (pkt p)) :
  os !! r = Some s -> initiator s = false ->
  full h (Buf (pkt p)) l -> 0 <= o -> 0 <= d -> o + 76 + d <= len -> len - d <= zlen l ->
  sub l o 4 = le_bytes 4 ResponseMsgType -> sub l (o + 4) 4 = be_bytes 4 sender ->
  MakeResponse (sub l (o + 60) (len - d - 16 - (o + 60))) (handshake s) = (hr', inl (hdr, rct)) ->
  zlen rct = len - d - (o + 60) -> pubkey_ok (rh_Ephemeral hdr) -> array 16 (rh_Empty hdr) -> is_bytes rct ->
  is_bytes l ->
  exists l',
    CreateResponse r p (mkWorld m os e n ord i h) =
      Ok ((set_len len p, None),
          mkWorld m (<[r := set_handshake hr' s]> os) e n ord i (upd h (s_arr (Buf (pkt p))) l')) /\
    zlen l' = zlen l /\ is_bytes l' /\
    forall idx, response_layout (splice l' (o + 8) (be_bytes 4 idx)) o (len - d) sender idx
                  (pub_bytes (rh_Ephemeral hdr)) (rh_Empty hdr) rct.
Proof.
  intros Hs Hr Hf Ho Hd Hlen He Hty Hsi EM Hct Hpk [Hem Hemb] Hbct Hb. subst o d len.
  unfold CreateResponse. erewrite deref_step by exact Hs. rewrite Hr.
  erewrite on_mem_step; [|unfold ResponsePacket.Plaintext; erewrite bind_ok by
    (eapply reslice_window; [exact Hf|lia|lia]); unfold s_read, gets; erewrite window_contents
    by (exact Hf || lia); reflexivity].
  erewrite run_handshake_step; [|exact Hs|exact EM]. cbv beta iota.
  destruct (response_write p h l sender (rh_Ephemeral hdr) (rh_Empty hdr) rct)
    as (l' & E & Hz & Hlay & Hbl); [done|lia|lia|done|done|done|done|].
  erewrite on_mem_step by exact E.
  replace (Offset p + 60 + zlen rct + Padding p) with (Length (pkt p)) by lia.
  exists l'. split; [reflexivity|]. split; [done|]. split; [apply Hbl; auto; apply Hpk|].
  intros idx. destruct (Hlay idx) as [Hl _].
  by replace (Offset p + 60 + zlen rct) with (Length (pkt p) - Padding p) in Hl by lia.
Qed.

(** The session a responder ends up with. *)
Definition answered (raddr : Multiaddr) (hr' : Handshake) : Session :=
  with_addr raddr (mkSession false 0x02 hr' zeroMultiaddr (NewPeerID (RemotePublicKey hr'))).

Definition fresh_buf (h : heap) : slice := Slice (length h) 0 TptMTU TptMTU.

Lemma make_bytes_TptMTU h : make_bytes TptMTU h = Ok (fresh_buf h, h ++ [zeros TptMTU]).
Proof. reflexivity. Qed.

Lemma full_fresh h : full (h ++ [zeros TptMTU]) (fresh_buf h) (zeros TptMTU).
Proof. split; [|done]. cbn. rewrite lookup_app_r by lia. by rewrite Nat.sub_diag. Qed.

Lemma full_lt h s l : full h s l -> (s_arr s < length h)%nat.
Proof. intros [E _]. by eapply lookup_lt_Some. Qed.

Lemma upd_snoc h l l' : upd (h ++ [l]) (length h) l' = h ++ [l'].
Proof. unfold upd. rewrite insert_app_r_alt by lia. by rewrite Nat.sub_diag. Qed.

(** The bytes of a fresh response packet once its type and sender index are
    set. *)
Definition response_start (o sender : Z) : list Z :=
  splice (splice (zeros TptMTU) o (le_bytes 4 ResponseMsgType)) (o + 4) (be_bytes 4 sender).

Section fresh.
Context (h : heap) (o d sender : Z).
Context (Ho : 0 <= o) (Hd : 0 <= d) (Htpt : o + 76 + d <= TptMTU).

Let p2 : SPacket := mkSPacket o d (NewPacket (fresh_buf h)).
Let l3 : list Z := splice (zeros TptMTU) o (le_bytes 4 ResponseMsgType).

Lemma zlen_l3 : zlen l3 = TptMTU.
Proof. unfold l3. rewrite zlen_splice; [done|lia|]. rewrite zlen_le_bytes, zlen_zeros by done. lia. Qed.

Lemma full_snoc l : zlen l = TptMTU -> full (h ++ [l]) (fresh_buf h) l.
Proof. intros Hz. split; [cbn; rewrite lookup_app_r by lia; by rewrite Nat.sub_diag|cbn; by rewrite Hz]. Qed.

Lemma NewResponsePacket_fresh :
  ResponsePacket.NewResponsePacket (NewPacket (fresh_buf h)) o d (h ++ [zeros TptMTU]) = Ok (p2, h ++ [l3]).
Proof.
  unfold ResponsePacket.NewResponsePacket. cbv zeta. fold p2.
  erewrite bind_ok by (eapply (put_le32_at_full p2 0); [apply full_snoc; done|cbn; lia
    |rewrite zlen_zeros by done; cbn [Offset p2]; lia]).
  change (s_arr (Buf (pkt p2))) with (length h). rewrite upd_snoc. cbn [Offset p2]. by rewrite Z.add_0_r.
Qed.

Lemma SetSenderIndex_fresh :
  ResponsePacket.SetSenderIndex p2 sender (h ++ [l3]) = Ok (tt, h ++ [response_start o sender]).
Proof.
  unfold ResponsePacket.SetSenderIndex.
  erewrite (put_be32_at_full p2 4) by (first [apply full_snoc, zlen_l3|cbn [Offset p2]; rewrite ?zlen_l3; lia]).
  change (s_arr (Buf (pkt p2))) with (length h). by rewrite upd_snoc.
Qed.

Lemma response_start_facts :
  zlen (response_start o sender) = TptMTU /\ is_bytes (response_start o sender) /\
  sub (response_start o sender) o 4 = le_bytes 4 ResponseMsgType /\
  sub (response_start o sender) (o + 4) 4 = be_bytes 4 sender /\
  sub (response_start o sender) (o + 60) (TptMTU - d - 16 - (o + 60)) = zeros (TptMTU - d - 16 - (o + 60)).
Proof.
  unfold response_start. fold l3. pose proof zlen_l3 as Hz.
  assert (Hzz : zlen (zeros TptMTU) = TptMTU) by done.
  split; [rewrite zlen_splice; rewrite ?zlen_be_bytes; lia|].
  split; [unfold l3; auto with rovy|].
  split; [rewrite sub_splice_lt by (rewrite ?zlen_be_bytes; lia); unfold l3; apply sub_splice_eq; rewrite ?zlen_le_bytes; lia|].
  split; [apply sub_splice_eq; rewrite ?zlen_be_bytes; lia|].
  rewrite sub_splice_ge by (rewrite ?zlen_be_bytes; lia). unfold l3.
  rewrite sub_splice_ge by (rewrite ?zlen_le_bytes; lia).
  unfold sub, zeros. rewrite drop_replicate, take_replicate. f_equal. lia.
Qed.
End fresh.

(** [HandleHello] on a hello that the handshake accepts: it answers with a
    response packet in a buffer of its own and stores the session under a fresh
    index. *)
Lemma HandleHello_spec (p : SPacket) raddr m os e n ord i h l hs e1 hr hr' idx eph static ts ct pt hdr rct ridx e2
    (o := Offset p) (d := Padding p) (len := Length (pkt p)) (end_ := TptMTU - d) :
  full h (Buf (pkt p)) l -> 0 <= o -> 0 <= d <= 16 -> o + 132 + d <= len -> len - d <= zlen l -> len <= zlen l ->
  o + 76 + d <= TptMTU -> 0 <= idx < 2 ^ 32 -> hello_layout l o (len - d) idx eph static ts ct ->
  NewHandshakeResponder (privkey m) e = Ok (inl hs, e1) ->
  ConsumeHello (mkHelloHeader (mkPublicKey eph) static ts) ct hs = (hr, inl pt) -> zlen pt + 16 = zlen ct ->
  MakeResponse (zeros (end_ - 16 - (o + 60))) hr = (hr', inl (hdr, rct)) ->
  zlen rct = end_ - (o + 60) -> pubkey_ok (rh_Ephemeral hdr) -> array 16 (rh_Empty hdr) -> is_bytes rct ->
  Manager.insert_loop (S (length e1)) (store m) e1 = Ok (ridx, e2) ->
  exists l' l2,
    Manager.HandleHello p raddr (mkWorld m os e n ord i h) =
      Ok ((mkSPacket o d (NewPacket (fresh_buf h)), None),
          mkWorld (store_with ridx (Some (length os)) m) (os ++ [answered raddr hr']) e2 n ord i
            (upd h (s_arr (Buf (pkt p))) l' ++ [l2])) /\
    (zlen l' = zlen l /\ sub l' 0 (o + 116) = sub l 0 (o + 116)) /\ zlen l2 = TptMTU /\ is_bytes l2 /\
    response_layout l2 o end_ idx ridx (pub_bytes (rh_Ephemeral hdr)) (rh_Empty hdr) rct.
Proof.
  intros Hf Ho Hd Hlen He Hll Htpt Hidx Hlay ER EC Hpt EM Hct Hpk Hem Hbct EI. subst o d len end_.
  unfold Manager.HandleHello. erewrite bind_ok by reflexivity. cbn [sm].
  erewrite with_rand_step by exact ER. cbv beta iota. erewrite bind_ok by reflexivity.
  unfold set_objs. cbn [sm objs rand now order ranges mem].
  edestruct (HandleHello_obj_spec (length os) p m (os ++ [newSessionIncoming hs]) e1 n ord i h l)
    as (l1 & E1 & Hz1 & Hpre); [apply lookup_snoc|done|done|done|done|done|done|exact Hidx|exact Hlay|exact EC|done|done|].
  erewrite bind_ok by exact E1. cbv beta iota. clear E1. rewrite insert_snoc.
  set (s1 := set_remotePeerID _ (set_handshake hr _)).
  set (h1 := upd h (s_arr (Buf (pkt p))) l1).
  assert (Hf1 : full h1 (Buf (pkt p)) l1) by (unfold h1; eapply full_upd; eauto).
  assert (Hbuf : fresh_buf h1 = fresh_buf h) by (unfold fresh_buf, h1; by rewrite length_upd).
  erewrite on_mem_step by apply make_bytes_TptMTU.
  change (Offset (set_len _ p)) with (Offset p). change (Padding (set_len _ p)) with (Padding p).
  erewrite on_mem_step by (apply NewResponsePacket_fresh; lia).
  erewrite on_mem_step; [|eapply (be32_at_full (set_len (Length (pkt p)) p) 4); [apply full_app; exact Hf1|cbn; lia|cbn; lia]].
  change (Offset (set_len _ p)) with (Offset p).
  rewrite (sub_prefix l l1 (Offset p + 116)) by (done || lia).
  rewrite (hl_index _ _ _ _ _ _ _ _ Hlay), be_val_index by done.
  erewrite on_mem_step by (apply SetSenderIndex_fresh; lia).
  destruct (response_start_facts (Offset p) (Padding p) idx) as (Hz4 & Hb4 & Hty & Hsi & Hpl); [lia|lia|lia|].
  edestruct (CreateResponse_spec (length os) (mkSPacket (Offset p) (Padding p) (NewPacket (fresh_buf h1))) m
    (os ++ [s1]) e1 n ord i (h1 ++ [response_start (Offset p) idx]) (response_start (Offset p) idx) s1 hr' hdr rct idx)
    as (l5 & E5 & Hz5 & Hb5 & Hlay5); [apply lookup_snoc|done|apply full_snoc; exact Hz4|cbn; lia|cbn; lia|cbn; lia
    |cbn; lia|exact Hty|exact Hsi|cbn [Length NewPacket pkt Padding Offset fresh_buf s_len]; rewrite Hpl; exact EM
    |exact Hct|done|done|done|done|].
  erewrite bind_ok by exact E5. cbv beta iota. clear E5. rewrite insert_snoc.
  erewrite Insert_step by exact EI. cbn [Buf pkt NewPacket fresh_buf s_arr s_len Length set_len set_pkt set_Length Padding Offset].
  rewrite upd_snoc.
  erewrite on_mem_step; [|eapply (put_be32_at_full (set_len TptMTU (mkSPacket (Offset p) (Padding p)
    (NewPacket (fresh_buf h1)))) 8); [apply full_snoc; rewrite Hz5; exact Hz4|cbn; lia|cbn; lia]].
  change (s_arr (Buf (pkt (set_len TptMTU _)))) with (length h1). rewrite upd_snoc.
  erewrite deref_step by apply lookup_snoc. unfold assign, modify. erewrite bind_ok by reflexivity.
  unfold set_objs. cbn [sm objs rand now order ranges mem]. rewrite insert_snoc.
  erewrite when_addr_step by apply lookup_snoc. rewrite insert_snoc.
  eexists l1, _. split; [|split; [by split|split; [|split; [|apply Hlay5]]]].
  - fold h1. rewrite Hbuf. reflexivity.
  - cbn [Offset]. rewrite zlen_splice; rewrite ?zlen_be_bytes; lia.
  - apply is_bytes_splice; auto with rovy.
Qed.

Lemma ResponseSetPlaintext_ok (p : SPacket) h l pt (o := Offset p) (d := Padding p) :
  full h (Buf (pkt p)) l -> 0 <= o -> 0 <= d -> o + 76 + zlen pt <= zlen l ->
  exists l', ResponsePacket.SetPlaintext p pt h =
      Ok (set_len (o + 60 + zlen pt + 16 + d) p, upd h (s_arr (Buf (pkt p))) l') /\
    zlen l' = zlen l /\ sub l' 0 (o + 60) = sub l 0 (o + 60).
Proof.
  intros Hf Ho Hd Hl. pose proof (zlen_nonneg pt). subst o d. unfold ResponsePacket.SetPlaintext. cbn.
  assert (Hz : zlen emptyTag = 16) by done.
  erewrite bind_ok by (eapply buf_write_full; [exact Hf|lia|lia|lia]).
  erewrite bind_ok by (eapply buf_write_full; [fl|lia|zl|lia]). rewrite upd_upd.
  eexists. split; [reflexivity|]. split; [zl|]. rewrite !sub_splice_lt by zl. done.
Qed.

(** The store after a response: the session moves to the responder's index. *)
Definition swapped (idx1 idx2 : Z) (r : nat) m : SessionManager :=
  mkManager (privkey m) (pubkey m) (peerid m) (<[idx2 := Some r]> (delete idx1 (store m))).

Lemma HandleResponse_spec (p : SPacket) raddr m os e n ord i h l r s hi sender idx eph empty ct pt
    (o := Offset p) (d := Padding p) (len := Length (pkt p)) :
  full h (Buf (pkt p)) l -> 0 <= o -> 0 <= d -> o + 76 + d <= len -> len - d <= zlen l ->
  0 <= sender < 2 ^ 32 -> 0 <= idx < 2 ^ 32 -> response_layout l o (len - d) sender idx eph empty ct ->
  store m !! sender = Some (Some r) -> os !! r = Some s -> initiator s = true -> stage s = 0x01 ->
  ConsumeResponse (mkResponseHeader (mkPublicKey eph) empty) ct (handshake s) = (hi, inl pt) ->
  zlen pt + 16 = zlen ct -> NewPeerID (RemotePublicKey hi) = remotePeerID s ->
  exists l',
    Manager.HandleResponse p raddr (mkWorld m os e n ord i h) =
      Ok ((set_len len p, remotePeerID s, None),
          mkWorld (swapped sender idx r m)
            (<[r := with_addr raddr (set_stage 0x03 (set_handshake hi s))]> os) e n ord i
            (upd h (s_arr (Buf (pkt p))) l')).
Proof.
  intros Hf Ho Hd Hlen He Hsnd Hidx Hlay Hst Hs Hin Hsg EC Hpt Hpid. subst o d len.
  destruct (response_read p h l sender idx eph empty ct Hf Ho ltac:(lia) Hsnd Hidx Hlay) as (R0 & _ & R1 & R2 & t & R3 & Hct).
  assert (Hlt : (r < length os)%nat) by (by eapply lookup_lt_Some).
  unfold Manager.HandleResponse, HandleHelloResponse. erewrite on_mem_step by exact R0.
  erewrite bind_ok by reflexivity. unfold Manager.Get. cbn [sm]. rewrite Hst.
  assert (Hzc : zlen ct = Length (pkt p) - Padding p - (Offset p + 60))
    by (rewrite <- (rl_ct _ _ _ _ _ _ _ _ Hlay); apply zlen_sub; lia).
  destruct (ResponseSetPlaintext_ok p h l pt Hf Ho Hd ltac:(lia)) as (l' & E & Hz & Hpre). exists l'.
  erewrite bind_ok.
  2: { erewrite deref_step by exact Hs. rewrite Hin, Hsg. cbn [negb orb Z.eqb Pos.eqb].
    erewrite on_mem_step by exact R1. erewrite on_mem_step by exact R2.
    erewrite on_mem_step; [|erewrite bind_ok by exact R3; unfold s_read, gets; rewrite Hct; reflexivity].
    erewrite run_handshake_step; [|exact Hs|exact EC]. cbv beta iota. erewrite on_mem_step by exact E.
    erewrite deref_step by (by apply list_lookup_insert_eq). cbn [handshake set_handshake remotePeerID].
    rewrite Hpid, bool_decide_eq_true_2 by done. cbn [negb]. unfold assign, modify.
    erewrite bind_ok by reflexivity. unfold set_objs. cbn [sm objs rand now order ranges mem].
    rewrite list_insert_insert_eq. reflexivity. }
  cbv beta iota. replace (Offset p + 60 + zlen pt + 16 + Padding p) with (Length (pkt p)) by lia.
  assert (Hf' : full (upd h (s_arr (Buf (pkt p))) l') (Buf (pkt p)) l') by (eapply full_upd; eauto).
  erewrite on_mem_step by (eapply (be32_at_full (set_len (Length (pkt p)) p) 4); [exact Hf'|cbn; lia|cbn; lia]).
  erewrite on_mem_step by (eapply (be32_at_full (set_len (Length (pkt p)) p) 8); [exact Hf'|cbn; lia|cbn; lia]).
  change (Offset (set_len _ p)) with (Offset p).
  rewrite !(sub_prefix l l' (Offset p + 60)) by (done || lia).
  rewrite (rl_sender _ _ _ _ _ _ _ _ Hlay), (rl_index _ _ _ _ _ _ _ _ Hlay), !be_val_index by done.
  unfold Manager.Swap, modify. erewrite bind_ok by reflexivity. cbn [sm]. rewrite Hst.
  unfold set_store, set_sm. cbn [sm objs rand now order ranges mem privkey pubkey peerid].
  erewrite when_addr_step by (by apply list_lookup_insert_eq). rewrite list_insert_insert_eq.
  erewrite deref_step by (by apply list_lookup_insert_eq).
  unfold with_addr. by destruct (Multiaddr.Empty raddr).
Qed.

(** [Find] on a store without nil entries: it answers with some session of the
    peer, whatever the order of iteration, and with none only if there is none. *)
Lemma find_loop_spec p es : forall m os e n ord i h,
  Forall (fun x => exists r, x.2 = Some r /\ is_Some (os !! r)) es ->
  exists res, Manager.find_loop p es (mkWorld m os e n ord i h) = Ok (res, mkWorld m os e n ord i h) /\
    match res with
    | Some (r, idx) => (idx, Some r) ∈ es /\ remotePeerID <$> os !! r = Some p
    | None => forall idx r, (idx, Some r) ∈ es -> remotePeerID <$> os !! r <> Some p
    end.
Proof.
  induction es as [|[idx x] es IH]; intros * Hes; cbn [Manager.find_loop].
  - eexists. split; [reflexivity|]. intros ? ? Hx. by apply not_elem_of_nil in Hx.
  - apply Forall_cons_iff in Hes as [(r & Ex & [s Es]) Hes]. cbn in Ex. subst x.
    erewrite deref_step by exact Es. case_bool_decide as Hp.
    + eexists. split; [reflexivity|]. split; [apply list_elem_of_here|]. rewrite Es. cbn. congruence.
    + destruct (IH m os e n ord i h Hes) as (res & E & Hres). exists res. split; [exact E|].
      destruct res as [[r' i']|].
      * destruct Hres. split; [by apply list_elem_of_further|done].
      * intros i' r' [[= -> ->]|Hin]%elem_of_cons; [rewrite Es; cbn; congruence|by eapply Hres].
Qed.

Lemma Find_spec p m os e n ord i h :
  order_ok ord -> (forall idx x, store m !! idx = Some x -> exists r, x = Some r /\ is_Some (os !! r)) ->
  exists res, Manager.Find p (mkWorld m os e n ord i h) = Ok (res, mkWorld m os e n ord (S i) h) /\
    match res with
    | Some (r, idx) => store m !! idx = Some (Some r) /\ remotePeerID <$> os !! r = Some p
    | None => forall idx r, store m !! idx = Some (Some r) -> remotePeerID <$> os !! r <> Some p
    end.
Proof.
  intros Hord Hst. unfold Manager.Find. erewrite bind_ok by reflexivity. erewrite bind_ok by reflexivity.
  unfold set_ranges. cbn [sm objs rand now order ranges mem id].
  pose proof (Hord i (store m)) as Hp.
  destruct (find_loop_spec p (ord i (store m)) m os e n ord (S i) h) as (res & E & Hres).
  { rewrite Forall_forall. intros [idx x] Hx%list_elem_of_In. rewrite Hp in Hx. apply elem_of_map_to_list in Hx.
    destruct (Hst _ _ Hx) as (r & -> & Hr). by exists r. }
  exists res. split; [exact E|]. destruct res as [[r idx]|].
  - destruct Hres as [Hin Hr]. rewrite Hp in Hin. by apply elem_of_map_to_list in Hin.
  - intros idx r Hidx. eapply Hres. rewrite Hp. by apply elem_of_map_to_list.
Qed.

(** Which session [Find] picks depends on the store, the order of iteration and
    the peers of the sessions, and on nothing else. *)
Lemma find_loop_frame p es w w' x :
  Manager.find_loop p es w = Ok (x, w') ->
  forall w2, remotePeerID <$> objs w2 = remotePeerID <$> objs w -> Manager.find_loop p es w2 = Ok (x, w2).
Proof.
  intros E w2 Ho. revert E. induction es as [|[idx [r|]] es IH]; cbn [Manager.find_loop]; [by intros [= <- _]| |done].
  unfold mbind, M_bind, deref. cbn [mbind option_bind].
  assert (Hr : remotePeerID <$> objs w2 !! r = remotePeerID <$> objs w !! r) by (rewrite <- !list_lookup_fmap; by rewrite Ho).
  destruct (objs w !! r) as [s|], (objs w2 !! r) as [s2|]; try done. injection Hr as ->.
  case_bool_decide; [by intros [= <- _]|exact IH].
Qed.

Lemma Find_frame p w x w' :
  Manager.Find p w = Ok (x, w') ->
  forall w2, store (sm w2) = store (sm w) -> order w2 = order w -> ranges w2 = ranges w ->
    remotePeerID <$> objs w2 = remotePeerID <$> objs w -> Manager.Find p w2 = Ok (x, set_ranges (S (ranges w2)) w2).
Proof.
  unfold Manager.Find, mbind, M_bind, gets, modify, id. intros E w2 Es Eo Er Hobj. rewrite Es, Eo, Er.
  by eapply find_loop_frame.
Qed.

(** The only session of a peer is the one that [Find] finds. *)
Lemma Find_unique p m os e n ord i h idx r :
  order_ok ord -> (forall j x, store m !! j = Some x -> exists r, x = Some r /\ is_Some (os !! r)) ->
  (forall j r', store m !! j = Some (Some r') -> remotePeerID <$> os !! r' = Some p -> j = idx /\ r' = r) ->
  store m !! idx = Some (Some r) -> remotePeerID <$> os !! r = Some p ->
  Manager.Find p (mkWorld m os e n ord i h) = Ok (Some (r, idx), mkWorld m os e n ord (S i) h).
Proof.
  intros Hord Hrefs Huniq Hidx Hr. destruct (Find_spec p m os e n ord i h Hord Hrefs) as (res & EF & Hres).
  destruct res as [[r' j]|]; [|by destruct (Hres idx r Hidx)].
  destruct Hres as [Hj Hr']. by destruct (Huniq j r' Hj Hr') as [-> ->].
Qed.

(** [CreateData] once the session is found. *)
Lemma CreateData_spec (p : SPacket) pid m os e n ord i i' h l r idx s hi hdr ct
    (o := Offset p) (d := Padding p) (len := Length (pkt p)) :
  Manager.Find pid (mkWorld m os e n ord i h) = Ok (Some (r, idx), mkWorld m os e n ord i' h) ->
  os !! r = Some s ->
  full h (Buf (pkt p)) l -> 0 <= o -> 0 <= d -> o + 32 + d <= len -> len - d <= zlen l ->
  MakeMessage (sub l (o + 16) (len - d - 16 - (o + 16))) (handshake s) = (hi, inl (hdr, ct)) ->
  zlen ct = len - d - (o + 16) -> array 8 (mh_Nonce hdr) ->
  exists l',
    Manager.CreateData p pid (mkWorld m os e n ord i h) =
      Ok (inl (remoteAddr s),
          mkWorld m (<[r := set_handshake hi s]> os) e n ord i' (upd h (s_arr (Buf (pkt p))) l')) /\
    data_layout l' o (len - d) idx (mh_Nonce hdr) ct /\ same_outside l l' o (len - d) /\
    (is_bytes l -> is_bytes ct -> is_bytes l').
Proof.
  intros EF Hs Hf Ho Hd Hlen He EM Hct [Hn Hnb]. subst o d len.
  assert (Hlt : (r < length os)%nat) by (by eapply lookup_lt_Some).
  unfold Manager.CreateData. erewrite bind_ok by exact EF. cbv beta iota.
  erewrite on_mem_step; [|unfold DataPacket.Plaintext; erewrite bind_ok by
    (eapply reslice_window; [exact Hf|lia|lia]); unfold s_read, gets; erewrite window_contents
    by (exact Hf || lia); reflexivity].
  erewrite run_handshake_step; [|exact Hs|exact EM]. cbv beta iota.
  destruct (data_write p h l idx (mh_Nonce hdr) ct) as (l' & E & Hlay & Hout & Hb); [done|lia|lia|done|].
  erewrite on_mem_step by exact E. erewrite deref_step by (by apply list_lookup_insert_eq).
  replace (Offset p + 16 + zlen ct) with (Length (pkt p) - Padding p) in Hlay, Hout by lia.
  exists l'. split; [reflexivity|]. split; [exact Hlay|]. split; [exact Hout|]. intros. by apply Hb.
Qed.

Lemma DataSetPlaintext_ok (p : SPacket) h l pt (o := Offset p) (d := Padding p) :
  full h (Buf (pkt p)) l -> 0 <= o -> 0 <= d -> o + 32 + zlen pt <= zlen l ->
  exists l', DataPacket.SetPlaintext p pt h =
      Ok (set_len (o + 16 + zlen pt + 16 + d) p, upd h (s_arr (Buf (pkt p))) l') /\
    sub l' (o + 16) (zlen pt) = pt /\ same_outside l l' (o + 16) (o + 32 + zlen pt) /\
    (is_bytes l -> is_bytes pt -> is_bytes l').
Proof.
  intros Hf Ho Hd Hl. pose proof (zlen_nonneg pt). subst o d. unfold DataPacket.SetPlaintext. cbn.
  assert (Hz : zlen emptyTag = 16) by done.
  erewrite bind_ok by (eapply buf_write_full; [exact Hf|lia|lia|lia]).
  erewrite bind_ok by (eapply buf_write_full; [fl|lia|zl|lia]). rewrite upd_upd.
  eexists. split; [reflexivity|].
  split; [rewrite sub_splice_lt by zl; apply sub_splice_eq; lia|]. split; [split; [zl|split; subs; done]|].
  intros. repeat apply is_bytes_splice; try done. apply is_bytes_zeros.
Qed.

(** [HandleData] on a message the session can open. *)
Lemma HandleData_spec (p : SPacket) m os e n ord i h l r s idx nonce ct pt
    (o := Offset p) (d := Padding p) (len := Length (pkt p)) :
  full h (Buf (pkt p)) l -> 0 <= o -> 0 <= d -> o + 32 + d <= len -> len - d <= zlen l ->
  0 <= idx < 2 ^ 32 -> data_layout l o (len - d) idx nonce ct ->
  store m !! idx = Some (Some r) -> os !! r = Some s ->
  ConsumeMessage (mkMessageHeader nonce) ct (handshake s) = inl pt -> zlen pt + 16 = zlen ct ->
  exists l',
    Manager.HandleData p (mkWorld m os e n ord i h) =
      Ok (inl (remotePeerID s, negb (stage s =? 0x03)),
          mkWorld m (<[r := set_stage 0x03 s]> os) e n ord i (upd h (s_arr (Buf (pkt p))) l')) /\
    sub l' (o + 16) (zlen pt) = pt /\ same_outside l l' (o + 16) (len - d) /\
    (is_bytes l -> is_bytes pt -> is_bytes l').
Proof.
  intros Hf Ho Hd Hlen He Hidx Hlay Hst Hs EC Hpt. subst o d len.
  destruct (data_read p h l idx nonce ct Hf Ho ltac:(lia) Hidx Hlay) as (R0 & R1 & t & R2 & Hct).
  assert (Hzc : zlen ct = Length (pkt p) - Padding p - (Offset p + 16))
    by (rewrite <- (dl_ct _ _ _ _ _ _ Hlay); apply zlen_sub; lia).
  unfold Manager.HandleData. erewrite on_mem_step by exact R0.
  erewrite bind_ok by reflexivity. unfold Manager.Get. cbn [sm]. rewrite Hst.
  erewrite deref_step by exact Hs. erewrite on_mem_step by exact R1.
  erewrite on_mem_step; [|erewrite bind_ok by exact R2; unfold s_read, gets; rewrite Hct; reflexivity].
  rewrite EC. destruct (DataSetPlaintext_ok p h l pt Hf Ho Hd ltac:(lia)) as (l' & E & Hpl & Hout & Hb).
  erewrite on_mem_step by exact E. exists l'.
  replace (Offset p + 32 + zlen pt) with (Length (pkt p) - Padding p) in Hout by lia.
  split; [|done]. destruct (Z.eqb_spec (stage s) 3) as [E3|_]; [|reflexivity].
  unfold mret, M_ret. rewrite list_insert_id; [done|]. rewrite Hs. f_equal. destruct s. unfold set_stage. cbn in *. by subst.
Qed.
End exec.

(** ** Indexes *)

Section indexes.

Lemma randUint32_spec e :
  match Manager.randUint32 e with
  | Ok (idx, e') => exists e0 bs, e = e0 ++ Some bs :: e' /\ Forall (eq None) e0 /\ idx = le_val (rand_fill 4 bs)
  | Panic => False
  | Block => Forall (eq None) e
  end.
Proof.
  induction e as [|[bs|] e IH]; cbn [Manager.randUint32]; [constructor|exists [], bs; done|].
  destruct (Manager.randUint32 e) as [[idx e']| |]; [|done|by constructor].
  destruct IH as (e0 & bs & -> & He0 & ->). exists (None :: e0), bs. by repeat constructor.
Qed.

Lemma rand_fill_index bs : is_bytes bs -> 0 <= le_val (rand_fill 4 bs) < 2 ^ 32.
Proof.
  intros Hb. pose proof (le_val_bound (rand_fill 4 bs) (copy_array_bytes 4 bs Hb)) as H.
  unfold rand_fill in *. rewrite zlen_copy_array in H by lia. exact H.
Qed.

(** The index [Insert] picks is free and fits 32 bits. *)
Lemma insert_loop_ok fuel : forall st e idx e',
  entropy_ok e -> Manager.insert_loop fuel st e = Ok (idx, e') ->
  st !! idx = None /\ 0 <= idx < 2 ^ 32 /\ entropy_ok e'.
Proof.
  induction fuel as [|fuel IH]; intros st e idx e' He; cbn [Manager.insert_loop]; [done|].
  pose proof (randUint32_spec e) as Hr. destruct (Manager.randUint32 e) as [[j e1]| |]; [|done|done].
  destruct Hr as (e0 & bs & -> & _ & ->). apply Forall_app in He as [_ [Hb He]%Forall_cons_iff].
  destruct (st !! _) eqn:E; [by apply IH|]. intros [= <- <-].
  split; [done|]. split; [by apply rand_fill_index|done].
Qed.

(** The loop ends as soon as the random source yields a free index. *)
Lemma insert_loop_terminates e1 : forall st bs e2 fuel,
  st !! le_val (rand_fill 4 bs) = None -> (length e1 < fuel)%nat ->
  exists idx e', Manager.insert_loop fuel st (e1 ++ Some bs :: e2) = Ok (idx, e').
Proof.
  induction e1 as [|[b|] e1 IH]; intros st bs e2 fuel Hfree Hf;
    (destruct fuel as [|fuel]; [cbn in Hf; lia|]); cbn [Manager.insert_loop app Manager.randUint32].
  - rewrite Hfree. eauto.
  - destruct (st !! le_val (rand_fill 4 b)); [|eauto]. apply IH; [done|cbn in Hf; lia].
  - apply (IH st bs e2 (S fuel)); [done|cbn in Hf; lia].
Qed.
End indexes.

(** ** Two managers *)

Section pair.
Context `{CryptoLaws, MaddrLib}.

(** The steps the node takes around the manager: a fresh buffer for an outgoing
    hello, and a buffer with the received bytes for an incoming packet. *)
Definition dial (o d : Z) (pid : PeerID) (raddr : Multiaddr) : M world (SPacket * option error) :=
  buf ← on_mem (make_bytes TptMTU);
  p ← on_mem (HelloPacket.NewHelloPacket (NewPacket buf) o d);
  Manager.CreateHello p pid raddr.
Definition answer (o d : Z) (l : list Z) (raddr : Multiaddr) : M world (SPacket * option error) :=
  buf ← on_mem (alloc l);
  p ← on_mem (HelloPacket.NewHelloPacket (NewPacket buf) o d);
  Manager.HandleHello p raddr.
Definition conclude (o d : Z) (l : list Z) (raddr : Multiaddr) : M world (SPacket * PeerID * option error) :=
  buf ← on_mem (alloc l);
  p ← on_mem (ResponsePacket.NewResponsePacket (NewPacket buf) o d);
  Manager.HandleResponse p raddr.

(** The bytes of a packet, [pkt.Buf[:pkt.Length]]. *)
Definition packet_bytes (p : SPacket) (w : world) : list Z :=
  sub (arr (mem w) (s_arr (Buf (pkt p)))) (s_off (Buf (pkt p))) (Length (pkt p)).

Lemma put_type_same (p : SPacket) v h l :
  full h (Buf (pkt p)) l -> 0 <= Offset p -> Offset p + 4 <= zlen l ->
  sub l (Offset p) 4 = le_bytes 4 v -> put_le32_at p 0 4 v h = Ok (tt, h).
Proof.
  intros Hf Ho Hl Hs. erewrite (put_le32_at_full p 0) by (eauto; lia).
  rewrite Z.add_0_r, <- Hs, splice_sub by lia. by rewrite upd_same by apply Hf.
Qed.

Lemma full_alloc (h : heap) l : full (h ++ [l]) (Slice (length h) 0 (zlen l) (zlen l)) l.
Proof. split; [|done]. cbn. rewrite lookup_app_r by lia. by rewrite Nat.sub_diag. Qed.

Lemma packet_bytes_full p w l :
  full (mem w) (Buf (pkt p)) l -> Length (pkt p) = zlen l -> packet_bytes p w = l.
Proof.
  intros Hf Hl. unfold packet_bytes. rewrite (full_arr _ _ _ Hf), Hl. destruct Hf as (_ & -> & _). apply sub_all.
Qed.

(** The bytes of a fresh hello packet. *)
Definition hello_start (o : Z) : list Z := splice (zeros TptMTU) o (le_bytes 4 HelloMsgType).

Lemma NewHelloPacket_fresh h o d :
  0 <= o -> o + 4 <= TptMTU ->
  HelloPacket.NewHelloPacket (NewPacket (fresh_buf h)) o d (h ++ [zeros TptMTU]) =
    Ok (mkSPacket o d (NewPacket (fresh_buf h)), h ++ [hello_start o]).
Proof.
  intros Ho Hl. unfold HelloPacket.NewHelloPacket. cbv zeta.
  erewrite bind_ok by (eapply (put_le32_at_full (mkSPacket o d (NewPacket (fresh_buf h))) 0);
    [apply full_fresh|cbn; lia|rewrite zlen_zeros by done; cbn [Offset]; lia]).
  cbn [Offset]. rewrite Z.add_0_r. change (s_arr (Buf (pkt _))) with (length h). by rewrite upd_snoc.
Qed.

(** The offsets the program uses. *)
Definition layer (o d : Z) : Prop :=
  (o = LowerOffset /\ d = LowerPadding) \/ (o = UpperOffset /\ d = UpperPadding).

Lemma layer_bounds o d : layer o d -> 0 <= o /\ 0 <= d <= 16 /\ o + 132 + d <= TptMTU.
Proof. intros [[-> ->]|[-> ->]]; unfold LowerOffset, LowerPadding, UpperOffset, UpperPadding, TptMTU; lia. Qed.

(** What a dialling and an answering node need: keys, randomness, a clock. *)
Record side_ok (k : PrivateKey) (w : world) : Prop := {
  side_key : privkey (sm w) = k /\ privkey_ok k;
  side_rand : entropy_ok (rand w);
  side_now : array 12 (now w)
}.

Lemma set_len_same len (p : SPacket) : Length (pkt p) = len -> set_len len p = p.
Proof. intros <-. by destruct p as [? ? []]. Qed.

(** [CreateHello] in a packet whose buffer holds nothing but the type. *)
Lemma hello_made (pk : Packet) o d kb raddr w hs e1 idx e2 :
  layer o d -> side_ok (privkey (sm w)) w -> privkey_ok kb ->
  full (mem w) (Buf pk) (hello_start o) -> Length pk = TptMTU ->
  NewHandshakeInitiator (privkey (sm w)) (Key.PublicKey_ kb) (rand w) = Ok (inl hs, e1) ->
  Manager.insert_loop (S (length e1)) (store (sm w)) e1 = Ok (idx, e2) ->
  isZero (SharedSecret (localEphemeral hs) (Key.PublicKey_ kb)) = false ->
  exists l hi hdr ct pt,
    Manager.CreateHello (mkSPacket o d pk) (NewPeerID (Key.PublicKey_ kb)) raddr w =
      Ok ((mkSPacket o d pk, None),
          mkWorld (store_with idx (Some (length (objs w))) (sm w))
            (objs w ++ [set_handshake hi (with_addr raddr (newSession (NewPeerID (Key.PublicKey_ kb)) hs))]) e2
            (now w) (order w) (ranges w) (upd (mem w) (s_arr (Buf pk)) l)) /\
    zlen l = TptMTU /\ is_bytes l /\
    hello_layout l o (TptMTU - d) idx (pub_bytes (hh_Ephemeral hdr)) (hh_Static hdr) (hh_Timestamp hdr) ct /\
    MakeHello (now w) pt hs = (hi, inl (hdr, ct)) /\ is_bytes pt /\ zlen pt + 16 = zlen ct.
Proof.
  intros Hlay [[_ Hk] He [Hn Hnb]] Hkb Hf HL EI EIns Hz. destruct (layer_bounds _ _ Hlay) as (Ho & Hd & Hb).
  destruct w as [m os e n ord i h]. cbn [sm objs rand now order ranges mem] in *.
  destruct (NewHandshakeInitiator_start _ _ _ _ _ He EI) as (Kei & Ehi & Hz' & _).
  assert (Hzl : zlen (hello_start o) = TptMTU).
  { unfold hello_start. rewrite zlen_splice; [done|lia|]. rewrite zlen_le_bytes, zlen_zeros by done. lia. }
  assert (Hbl : is_bytes (hello_start o)) by (unfold hello_start; auto with rovy).
  set (pt := sub (hello_start o) (o + 116) (TptMTU - d - 16 - (o + 116))).
  assert (Hpt : zlen pt = TptMTU - d - 16 - (o + 116)) by (unfold pt; apply zlen_sub; lia).
  destruct (hello_agrees (privkey m) (localEphemeral hs) kb (localEphemeral hs) (n) pt)
    as (hi & hr & hdr & ct & EM & _ & _ & _ & _ & _ & Heph & [Hst Hstb] & [Hts Htsb] & Hct & Hctb);
    [done..|unfold pt; auto with rovy|done|done|].
  rewrite <- Ehi in EM.
  destruct (CreateHello_spec (mkSPacket o d pk) (NewPeerID (Key.PublicKey_ kb)) raddr m os e n ord i
    h (hello_start o) hs e1 idx e2 hi hdr ct) as (l & E & Hl & Hzz & Hbb); cbn [Offset Padding pkt]; rewrite ?HL;
    [exact Hf|lia|lia|lia|lia| |by rewrite PublicKey_NewPeerID by apply PublicKey_ok|done|done|lia
    |rewrite Heph; apply PublicKey_ok|done|done|].
  { unfold hello_start. apply sub_splice_eq; rewrite ?zlen_le_bytes, ?zlen_zeros by done; lia. }
  cbn [Offset Padding pkt] in *. rewrite ?HL in *. rewrite set_len_same in E by exact HL.
  exists l, hi, hdr, ct, pt. split; [exact E|]. split; [lia|]. split; [by apply Hbb|]. split; [exact Hl|]. split; [exact EM|].
  split; [unfold pt; auto with rovy|lia].
Qed.

Lemma dial_spec o d kb raddr w hs e1 idx e2 :
  layer o d -> side_ok (privkey (sm w)) w -> privkey_ok kb ->
  NewHandshakeInitiator (privkey (sm w)) (Key.PublicKey_ kb) (rand w) = Ok (inl hs, e1) ->
  Manager.insert_loop (S (length e1)) (store (sm w)) e1 = Ok (idx, e2) ->
  isZero (SharedSecret (localEphemeral hs) (Key.PublicKey_ kb)) = false ->
  exists l hi hdr ct pt,
    dial o d (NewPeerID (Key.PublicKey_ kb)) raddr w =
      Ok ((mkSPacket o d (NewPacket (fresh_buf (mem w))), None),
          mkWorld (store_with idx (Some (length (objs w))) (sm w))
            (objs w ++ [set_handshake hi (with_addr raddr (newSession (NewPeerID (Key.PublicKey_ kb)) hs))]) e2
            (now w) (order w) (ranges w) (mem w ++ [l])) /\
    zlen l = TptMTU /\ is_bytes l /\
    hello_layout l o (TptMTU - d) idx (pub_bytes (hh_Ephemeral hdr)) (hh_Static hdr) (hh_Timestamp hdr) ct /\
    MakeHello (now w) pt hs = (hi, inl (hdr, ct)) /\ is_bytes pt /\ zlen pt + 16 = zlen ct.
Proof.
  intros Hlay Hside Hkb EI EIns Hz. destruct (layer_bounds _ _ Hlay) as (Ho & Hd & Hb).
  destruct w as [m os e n ord i h]. cbn [sm objs rand now order ranges mem] in *.
  assert (Hzl : zlen (hello_start o) = TptMTU).
  { unfold hello_start. rewrite zlen_splice; [done|lia|]. rewrite zlen_le_bytes, zlen_zeros by done. lia. }
  destruct (hello_made (NewPacket (fresh_buf h)) o d kb raddr (mkWorld m os e n ord i (h ++ [hello_start o])) hs e1 idx e2)
    as (l & hi & hdr & ct & pt & E & Hrest); try done; [by destruct Hside; split|by apply full_snoc|].
  exists l, hi, hdr, ct, pt. split; [|done]. unfold dial. erewrite on_mem_step by apply make_bytes_TptMTU.
  erewrite on_mem_step by (apply NewHelloPacket_fresh; lia). rewrite E.
  cbn [mem Buf NewPacket fresh_buf s_arr]. by rewrite upd_snoc.
Qed.

(** A received packet whose type field is already the one the constructor
    writes. *)
Lemma receive_hello h l o d :
  0 <= o -> o + 4 <= zlen l -> sub l o 4 = le_bytes 4 HelloMsgType ->
  HelloPacket.NewHelloPacket (NewPacket (Slice (length h) 0 (zlen l) (zlen l))) o d (h ++ [l]) =
    Ok (mkSPacket o d (NewPacket (Slice (length h) 0 (zlen l) (zlen l))), h ++ [l]).
Proof.
  intros. unfold HelloPacket.NewHelloPacket. cbv zeta.
  by erewrite bind_ok by (eapply put_type_same; [apply full_alloc|done|done|done]).
Qed.

Lemma receive_response h l o d :
  0 <= o -> o + 4 <= zlen l -> sub l o 4 = le_bytes 4 ResponseMsgType ->
  ResponsePacket.NewResponsePacket (NewPacket (Slice (length h) 0 (zlen l) (zlen l))) o d (h ++ [l]) =
    Ok (mkSPacket o d (NewPacket (Slice (length h) 0 (zlen l) (zlen l))), h ++ [l]).
Proof.
  intros. unfold ResponsePacket.NewResponsePacket. cbv zeta.
  by erewrite bind_ok by (eapply put_type_same; [apply full_alloc|done|done|done]).
Qed.

Lemma answer_spec o d l raddr w hs e1 hr hr' idx eph static ts ct pt hdr rct ridx e2 :
  layer o d -> zlen l = TptMTU -> 0 <= idx < 2 ^ 32 ->
  hello_layout l o (TptMTU - d) idx eph static ts ct ->
  NewHandshakeResponder (privkey (sm w)) (rand w) = Ok (inl hs, e1) ->
  ConsumeHello (mkHelloHeader (mkPublicKey eph) static ts) ct hs = (hr, inl pt) -> zlen pt + 16 = zlen ct ->
  MakeResponse (zeros (TptMTU - d - 16 - (o + 60))) hr = (hr', inl (hdr, rct)) ->
  zlen rct = TptMTU - d - (o + 60) -> pubkey_ok (rh_Ephemeral hdr) -> array 16 (rh_Empty hdr) -> is_bytes rct ->
  Manager.insert_loop (S (length e1)) (store (sm w)) e1 = Ok (ridx, e2) ->
  exists p l' l2,
    answer o d l raddr w =
      Ok ((p, None),
          mkWorld (store_with ridx (Some (length (objs w))) (sm w)) (objs w ++ [answered raddr hr']) e2
            (now w) (order w) (ranges w) (mem w ++ [l'] ++ [l2])) /\
    p = mkSPacket o d (NewPacket (Slice (S (length (mem w))) 0 TptMTU TptMTU)) /\
    zlen l2 = TptMTU /\ is_bytes l2 /\
    response_layout l2 o (TptMTU - d) idx ridx (pub_bytes (rh_Ephemeral hdr)) (rh_Empty hdr) rct.
Proof.
  intros Hlay Hl Hidx Hhl ER EC Hpt EM Hct Hpk Hem Hbct EI. destruct (layer_bounds _ _ Hlay) as (Ho & Hd & Hb).
  destruct w as [m os e n ord i h]. cbn [sm objs rand now order ranges mem] in *.
  unfold answer. erewrite on_mem_step by reflexivity.
  erewrite on_mem_step by (apply receive_hello; [lia|lia|apply (hl_type _ _ _ _ _ _ _ _ Hhl)]).
  rewrite Hl. set (p0 := mkSPacket o d _).
  destruct (HandleHello_spec p0 raddr m os e n ord i (h ++ [l]) l hs e1 hr hr' idx eph static ts ct pt hdr rct ridx e2)
    as (l' & l2 & E & _ & Hz2 & Hb2 & Hl2); unfold p0; cbn [Offset Padding pkt Length NewPacket s_len]; rewrite ?Hl;
    try done; try lia; [by rewrite <- Hl; apply full_alloc|].
  exists (mkSPacket o d (NewPacket (fresh_buf (h ++ [l])))), l', l2. split; [|split; [|done]].
  - etrans; [exact E|]. cbn [Buf pkt NewPacket s_arr p0]. change (s_arr (Buf (pkt p0))) with (length h).
    by rewrite upd_snoc, <- app_assoc.
  - unfold fresh_buf. do 3 f_equal. rewrite length_app. cbn. lia.
Qed.

Lemma conclude_spec o d l raddr m os e n ord i h r s hi sender idx eph empty ct pt :
  layer o d -> zlen l = TptMTU -> 0 <= sender < 2 ^ 32 -> 0 <= idx < 2 ^ 32 ->
  response_layout l o (TptMTU - d) sender idx eph empty ct ->
  store m !! sender = Some (Some r) -> os !! r = Some s -> initiator s = true -> stage s = 0x01 ->
  ConsumeResponse (mkResponseHeader (mkPublicKey eph) empty) ct (handshake s) = (hi, inl pt) ->
  zlen pt + 16 = zlen ct -> NewPeerID (RemotePublicKey hi) = remotePeerID s ->
  exists p h',
    conclude o d l raddr (mkWorld m os e n ord i h) =
      Ok ((p, remotePeerID s, None),
          mkWorld (swapped sender idx r m)
            (<[r := with_addr raddr (set_stage 0x03 (set_handshake hi s))]> os) e n ord i h').
Proof.
  intros Hlay Hl Hsnd Hidx Hrl Hst Hs Hin Hsg EC Hpt Hpid. destruct (layer_bounds _ _ Hlay) as (Ho & Hd & Hb).
  unfold conclude. erewrite on_mem_step by reflexivity.
  erewrite on_mem_step by (apply receive_response; [lia|lia|apply (rl_type _ _ _ _ _ _ _ _ Hrl)]).
  rewrite Hl. edestruct (HandleResponse_spec (mkSPacket o d (NewPacket (Slice (length h) 0 TptMTU TptMTU))) raddr m os e n ord i
    (h ++ [l]) l r s hi sender idx eph empty ct pt) as (l' & E); cbn [Offset Padding pkt Length NewPacket s_len];
    rewrite ?Hl; try done; try lia; [by rewrite <- Hl; apply full_alloc|].
  eexists _, _. exact E.
Qed.

(** A received data packet. *)
Definition receive_data (o d : Z) (l : list Z) : M world (SPacket * ((PeerID * bool) + error)) :=
  buf ← on_mem (alloc l);
  p ← on_mem (DataPacket.NewDataPacket (NewPacket buf) o d);
  r ← Manager.HandleData p;
  mret (p, r).

Lemma data_layout_prefix l o d n idx nonce ct :
  0 <= o -> 0 <= d -> o + 16 <= n - d -> n <= zlen l ->
  data_layout l o (n - d) idx nonce ct -> data_layout (sub l 0 n) o (n - d) idx nonce ct.
Proof. intros ? ? ? ? [H1' H2' H3' H4']. by split; rewrite sub_sub by lia. Qed.

Lemma receive_data_spec o d l m os e n ord i h r s idx nonce ct pt :
  0 <= o -> 0 <= d -> o + 32 + d <= zlen l -> 0 <= idx < 2 ^ 32 -> data_layout l o (zlen l - d) idx nonce ct ->
  store m !! idx = Some (Some r) -> os !! r = Some s ->
  ConsumeMessage (mkMessageHeader nonce) ct (handshake s) = inl pt -> zlen pt + 16 = zlen ct ->
  exists q l',
    receive_data o d l (mkWorld m os e n ord i h) =
      Ok ((q, inl (remotePeerID s, negb (stage s =? 0x03))),
          mkWorld m (<[r := set_stage 0x03 s]> os) e n ord i (h ++ [l'])) /\
    (forall w, mem w = h ++ [l'] -> packet_bytes q w = l') /\
    sub l' (o + 16) (zlen pt) = pt /\ same_outside l l' (o + 16) (zlen l - d).
Proof.
  intros Ho Hd Hl Hidx Hlay Hst Hs EC Hpt. set (q := mkSPacket o d (NewPacket (Slice (length h) 0 (zlen l) (zlen l)))).
  destruct (HandleData_spec q m os e n ord i (h ++ [l]) l r s idx nonce ct pt) as (l' & E & Hpl & Hout & _);
    cbn [q Offset Padding pkt Length NewPacket s_len]; try done; try lia; [apply full_alloc|].
  exists q, l'. split; [|split; [|done]].
  - unfold receive_data. erewrite on_mem_step by reflexivity.
    erewrite on_mem_step; [|unfold DataPacket.NewDataPacket; cbv zeta; erewrite bind_ok by
      (eapply put_type_same; [apply full_alloc|cbn; lia|cbn; lia|apply (dl_type _ _ _ _ _ _ Hlay)]); reflexivity].
    fold q. erewrite bind_ok by exact E. change (s_arr (Buf (pkt q))) with (length h). by rewrite upd_snoc.
  - intros w Hw. destruct Hout as [Hz _]. apply packet_bytes_full; [|cbn; lia]. rewrite Hw.
    split; [cbn; rewrite lookup_app_r by lia; by rewrite Nat.sub_diag|cbn; lia].
Qed.

(** Both ends of an established session, under one index. *)
Record joined (wa wb : world) (pa pb : PeerID) (idx : Z) (ra rb : nat) (sa sb : Session) : Prop := {
  join_a : store (sm wa) !! idx = Some (Some ra) /\ objs wa !! ra = Some sa;
  join_b : store (sm wb) !! idx = Some (Some rb) /\ objs wb !! rb = Some sb;
  join_peers : remotePeerID sa = pb /\ remotePeerID sb = pa;
  join_keys : established (handshake sa) (handshake sb);
  join_index : 0 <= idx < 2 ^ 32
}.

(** There is a session with the peer, and every session with it, which is what
    [Find] chooses from, is established and has its other end there. *)
Record all_joined (wa wb : world) (pa pb : PeerID) : Prop := {
  aj_order : order_ok (order wa);
  aj_refs : forall i x, store (sm wa) !! i = Some x -> exists r, x = Some r /\ is_Some (objs wa !! r);
  aj_some : exists i r, store (sm wa) !! i = Some (Some r) /\ remotePeerID <$> objs wa !! r = Some pb;
  aj_each : forall i r, store (sm wa) !! i = Some (Some r) -> remotePeerID <$> objs wa !! r = Some pb ->
    exists rb sa sb, joined wa wb pa pb i r rb sa sb
}.

(** Whichever session [Find] picks, it is one of these. *)
Lemma all_joined_find wa wb pa pb :
  all_joined wa wb pa pb ->
  exists idx ra rb sa sb, joined wa wb pa pb idx ra rb sa sb /\
    forall h, Manager.Find pb (over mem_lens h wa) = Ok (Some (ra, idx), set_ranges (S (ranges wa)) (over mem_lens h wa)).
Proof.
  intros [Hord Hrefs (i & r & Hi & Hr) Heach]. destruct wa as [m os e nw ord k h0]. cbn [order sm objs] in *.
  destruct (Find_spec pb m os e nw ord k h0 Hord Hrefs) as (res & EF & Hres).
  destruct res as [[ra idx]|]; [|by destruct (Hres i r Hi)]. destruct Hres as [Hidx Hra].
  destruct (Heach idx ra Hidx Hra) as (rb & sa & sb & Hj). exists idx, ra, rb, sa, sb. split; [exact Hj|].
  intros h. exact (Find_frame _ _ _ _ EF (mkWorld m os e nw ord k h) eq_refl eq_refl eq_refl eq_refl).
Qed.

(** A message leaves them all as they are: only the nonce of one session and the
    stage of one move on. *)
Lemma all_joined_message wa wb wa' wb' pa pb idx ra rb sa sb hi st :
  all_joined wa wb pa pb -> joined wa wb pa pb idx ra rb sa sb -> same_keys (handshake sa) hi ->
  order wa' = order wa -> sm wa' = sm wa -> objs wa' = <[ra := set_handshake hi sa]> (objs wa) ->
  sm wb' = sm wb -> objs wb' = <[rb := set_stage st sb]> (objs wb) ->
  all_joined wa' wb' pa pb /\ joined wa' wb' pa pb idx ra rb (set_handshake hi sa) (set_stage st sb).
Proof.
  intros [Hord Hrefs (i & r & Hi & Hr) Heach] [[Ja1 Ja2] [Jb1 Jb2] [Jp1 Jp2] Jk Ji] Hk Eo Em Eobj Em' Eobj'.
  assert (Hpeer : forall k, remotePeerID <$> objs wa' !! k = remotePeerID <$> objs wa !! k).
  { intros k. rewrite Eobj. destruct (decide (k = ra)) as [->|Hne]; [|by rewrite list_lookup_insert_ne by congruence].
    rewrite list_lookup_insert_eq by (by eapply lookup_lt_Some). by rewrite Ja2. }
  split; [split; rewrite ?Eo, ?Em; try done|].
  - intros j x Hx. destruct (Hrefs j x Hx) as (q & -> & Hq). exists q. split; [done|]. rewrite Eobj.
    apply lookup_lt_is_Some. rewrite length_insert. by apply lookup_lt_is_Some.
  - exists i, r. by rewrite Hpeer.
  - intros j q Hj Hq. rewrite Hpeer in Hq. destruct (Heach j q Hj Hq) as (rb' & sa' & sb' & [[Ka1 Ka2] [Kb1 Kb2] [Kp1 Kp2] Kk Ki]).
    assert (Hsa : exists s, objs wa' !! q = Some s /\ remotePeerID s = pb /\ same_keys (handshake sa') (handshake s)).
    { rewrite Eobj. destruct (decide (q = ra)) as [->|Hne].
      - rewrite list_lookup_insert_eq by (by eapply lookup_lt_Some). rewrite Ja2 in Ka2. injection Ka2 as <-. by eexists.
      - rewrite list_lookup_insert_ne by congruence. by exists sa'. }
    assert (Hsb : exists s, objs wb' !! rb' = Some s /\ remotePeerID s = pa /\ handshake s = handshake sb').
    { rewrite Eobj'. destruct (decide (rb' = rb)) as [->|Hne].
      - rewrite list_lookup_insert_eq by (by eapply lookup_lt_Some). rewrite Jb2 in Kb2. injection Kb2 as <-. by eexists.
      - rewrite list_lookup_insert_ne by congruence. by exists sb'. }
    destruct Hsa as (s1 & G1 & P1 & K1), Hsb as (s2 & G2 & P2 & K2). exists rb', s1, s2. split; rewrite ?Em, ?Em', ?K2; try done.
    by rewrite <- K1.
  - split; rewrite ?Em, ?Em', ?Eobj, ?Eobj'; try done.
    + split; [done|]. apply list_lookup_insert_eq. by eapply lookup_lt_Some.
    + split; [done|]. apply list_lookup_insert_eq. by eapply lookup_lt_Some.
    + cbn. by rewrite <- Hk.
Qed.
End pair.

(** ** Establishing a session *)

Section establish.
Context `{CryptoLaws, MaddrLib}.
Context (o d : Z) (ka kb : PrivateKey) (addra addrb : Multiaddr) (wa wb : world).
Context (hs : Handshake) (e1 : entropy) (idx : Z) (e2 : entropy).
Context (hr0 : Handshake) (e3 : entropy) (ridx : Z) (e4 : entropy).
Context (Hlay : layer o d) (Ha : side_ok ka wa) (Hb : side_ok kb wb).
Context (EI : NewHandshakeInitiator ka (Key.PublicKey_ kb) (rand wa) = Ok (inl hs, e1)).
Context (EIns : Manager.insert_loop (S (length e1)) (store (sm wa)) e1 = Ok (idx, e2)).
Context (ER : NewHandshakeResponder kb (rand wb) = Ok (inl hr0, e3)).
Context (ERins : Manager.insert_loop (S (length e3)) (store (sm wb)) e3 = Ok (ridx, e4)).
Context (Hz : isZero (SharedSecret (localEphemeral hs) (Key.PublicKey_ kb)) = false).

Let pida := NewPeerID (Key.PublicKey_ ka).
Let pidb := NewPeerID (Key.PublicKey_ kb).

(** The dialling side's session between the hello and the response. *)
Definition dialling (hi : Handshake) : Session := set_handshake hi (with_addr addrb (newSession pidb hs)).

Lemma dialling_fields hi :
  initiator (dialling hi) = true /\ stage (dialling hi) = 0x01 /\ handshake (dialling hi) = hi /\
  remotePeerID (dialling hi) = pidb.
Proof. unfold dialling, with_addr. by destruct (Multiaddr.Empty addrb). Qed.

Lemma indexes_ok : 0 <= idx < 2 ^ 32 /\ 0 <= ridx < 2 ^ 32.
Proof.
  destruct Ha as [_ Hea _]. destruct Hb as [_ Heb _].
  destruct (NewHandshakeInitiator_start _ _ _ _ _ Hea EI) as (_ & _ & _ & He1).
  destruct (NewHandshakeResponder_start _ _ _ _ Heb ER) as (_ & _ & He3).
  destruct (insert_loop_ok _ _ _ _ _ He1 EIns) as (_ & ? & _).
  by destruct (insert_loop_ok _ _ _ _ _ He3 ERins) as (_ & ? & _).
Qed.

(** Hello and response, with what the initiator will make of the response. *)
Lemma dial_answer :
  exists l hi l' l2 hr' hi2 rhdr rct p2 wa1 wb1,
    wa1 = mkWorld (store_with idx (Some (length (objs wa))) (sm wa)) (objs wa ++ [dialling hi]) e2
            (now wa) (order wa) (ranges wa) (mem wa ++ [l]) /\
    wb1 = mkWorld (store_with ridx (Some (length (objs wb))) (sm wb)) (objs wb ++ [answered addra hr']) e4
            (now wb) (order wb) (ranges wb) (mem wb ++ [l'] ++ [l2]) /\
    dial o d pidb addrb wa = Ok ((mkSPacket o d (NewPacket (fresh_buf (mem wa))), None), wa1) /\ zlen l = TptMTU /\
    answer o d l addra wb = Ok ((p2, None), wb1) /\
    p2 = mkSPacket o d (NewPacket (Slice (S (length (mem wb))) 0 TptMTU TptMTU)) /\ zlen l2 = TptMTU /\
    response_layout l2 o (TptMTU - d) idx ridx (pub_bytes (rh_Ephemeral rhdr)) (rh_Empty rhdr) rct /\
    ConsumeResponse rhdr rct hi = (hi2, inl (zeros (TptMTU - d - 16 - (o + 60)))) /\
    zlen rct = TptMTU - d - (o + 60) /\ established hi2 hr' /\
    RemotePublicKey hi2 = Key.PublicKey_ kb /\ RemotePublicKey hr' = Key.PublicKey_ ka /\
    sendNonce hi2 = 0 /\ sendNonce hr' = 0.
Proof.
  pose proof Ha as [[Eka Hka] Hea [Hna Hnb]]. pose proof Hb as [[Ekb Hkb] Heb _].
  destruct (layer_bounds _ _ Hlay) as (Ho & Hd & Hbd). destruct indexes_ok as [Hidx Hridx].
  destruct (NewHandshakeInitiator_start _ _ _ _ _ Hea EI) as (Kei & Ehs & Hz' & _).
  destruct (NewHandshakeResponder_start _ _ _ _ Heb ER) as (Ker & Ehr & _).
  pose proof EI as EI'. pose proof ER as ER'. rewrite <- Eka in EI'. rewrite <- Ekb in ER'.
  destruct (dial_spec o d kb addrb wa hs e1 idx e2 Hlay ltac:(by rewrite Eka) Hkb EI' EIns Hz)
    as (l & hi & hdr & ct & pt & E1 & Hl & Hbl & Hhl & EM & Hptb & Hpt).
  destruct (hello_agrees ka (localEphemeral hs) kb (localEphemeral hr0) (now wa) pt)
    as (hi' & hr & hdr' & ct' & EM' & EC & Hhalf & Hls & Hlr & _); [done..|].
  rewrite <- Ehs in EM'. rewrite EM in EM'. injection EM' as <- <- <-. rewrite <- Ehr in EC.
  destruct (response_agrees hi hr (zeros (TptMTU - d - 16 - (o + 60))) Hhalf (is_bytes_zeros _))
    as (hr' & hi2 & rhdr & rct & EMR & ECR & Hest & Hrs & Hrs2 & Hn1 & Hn2 & Hrk & Hre & Hrct & Hrctb).
  rewrite zlen_zeros in Hrct by lia.
  assert (Hhdr : mkHelloHeader (mkPublicKey (pub_bytes (hh_Ephemeral hdr))) (hh_Static hdr) (hh_Timestamp hdr) = hdr)
    by (by destruct hdr as [[]]).
  destruct (answer_spec o d l addra wb hr0 e3 hr hr' idx (pub_bytes (hh_Ephemeral hdr)) (hh_Static hdr)
    (hh_Timestamp hdr) ct pt rhdr rct ridx e4) as (p2 & l' & l2 & E2 & Ep2 & Hl2 & Hbl2 & Hrl);
    try done; [by rewrite Hhdr|lia|].
  destruct (half_static _ _ Hhalf) as [S1 S2].
  eexists l, hi, l', l2, hr', hi2, rhdr, rct, p2, _, _. do 2 (split; [reflexivity|]).
  split; [exact E1|]. split; [done|]. split; [exact E2|]. do 4 (split; [done|]). split; [lia|].
  split; [done|]. unfold RemotePublicKey. by rewrite Hrs, Hrs2, S1, S2, Hls, Hlr.
Qed.
End establish.

(** ** Properties *)

Section properties.
Context `{CryptoLaws, MaddrLib}.

(** C9: session establishment over the actual packets, at either layer: the
    dialling node's hello, received as bytes by the other node, is answered
    with a response that, received as bytes, completes the dialling node's
    session. Both managers end up with a session under the same index, each
    naming the other's peer id, with matching keys; the dialling side is in its
    final stage and the answering side waits for the first data. *)
Theorem session_establishment (o d : Z) (ka kb : PrivateKey) (addra addrb : Multiaddr) (wa wb : world)
    hs e1 idx e2 hr0 e3 ridx e4 :
  layer o d -> side_ok ka wa -> side_ok kb wb ->
  NewHandshakeInitiator ka (Key.PublicKey_ kb) (rand wa) = Ok (inl hs, e1) ->
  Manager.insert_loop (S (length e1)) (store (sm wa)) e1 = Ok (idx, e2) ->
  NewHandshakeResponder kb (rand wb) = Ok (inl hr0, e3) ->
  Manager.insert_loop (S (length e3)) (store (sm wb)) e3 = Ok (ridx, e4) ->
  isZero (SharedSecret (localEphemeral hs) (Key.PublicKey_ kb)) = false ->
  let pida := NewPeerID (Key.PublicKey_ ka) in
  let pidb := NewPeerID (Key.PublicKey_ kb) in
  exists p1 wa1 p2 wb1 p3 wa2 ra rb sa sb,
    dial o d pidb addrb wa = Ok ((p1, None), wa1) /\
    answer o d (packet_bytes p1 wa1) addra wb = Ok ((p2, None), wb1) /\
    conclude o d (packet_bytes p2 wb1) addrb wa1 = Ok ((p3, pidb, None), wa2) /\
    joined wa2 wb1 pida pidb ridx ra rb sa sb /\
    stage sa = 0x03 /\ stage sb = 0x02 /\
    sendNonce (handshake sa) = 0 /\ sendNonce (handshake sb) = 0.
Proof.
  intros Hlay Ha Hb EI EIns ER ERins Hz pida pidb.
  destruct (dial_answer o d ka kb addra addrb wa wb hs e1 idx e2 hr0 e3 ridx e4 Hlay Ha Hb EI EIns ER ERins Hz)
    as (l & hi & l' & l2 & hr' & hi2 & rhdr & rct & p2 & wa1 & wb1 & Ea & Eb & E1 & Hl & E2 & Ep2 & Hl2 & Hrl & EC & Hrct
        & Hest & Hra & Hrb & Hn1 & Hn2).
  destruct (indexes_ok ka kb wa wb hs e1 idx e2 hr0 e3 ridx e4 Ha Hb EI EIns ER ERins) as [Hidx Hridx].
  destruct (layer_bounds _ _ Hlay) as (Ho & Hd & Hbd).
  destruct (dialling_fields kb addrb hs hi) as (F1 & F2 & F3 & F4).
  destruct (conclude_spec o d l2 addrb (store_with idx (Some (length (objs wa))) (sm wa)) (objs wa ++ [dialling kb addrb hs hi])
    e2 (now wa) (order wa) (ranges wa) (mem wa ++ [l]) (length (objs wa)) (dialling kb addrb hs hi) hi2 idx ridx
    (pub_bytes (rh_Ephemeral rhdr)) (rh_Empty rhdr) rct (zeros (TptMTU - d - 16 - (o + 60)))) as (p3 & h' & E3);
    [done..|apply lookup_insert_eq|apply lookup_snoc|done|done| | |by rewrite Hra, F4|].
  { rewrite F3. by destruct rhdr as [[] ?]. }
  { rewrite zlen_zeros by lia. lia. }
  rewrite F4, insert_snoc, <- Ea in E3.
  eexists _, wa1, p2, wb1, p3, _, (length (objs wa)), (length (objs wb)), _, _.
  split; [exact E1|]. split; [rewrite (packet_bytes_full _ _ l); [exact E2|subst wa1; by apply full_snoc|by rewrite Hl]|].
  assert (Hpb : packet_bytes p2 wb1 = l2).
  { apply packet_bytes_full; subst wb1 p2; [|by rewrite Hl2]. cbn [mem]. rewrite app_assoc.
    split; [|cbn; by rewrite Hl2]. cbn. rewrite lookup_app_r by (rewrite length_app; cbn; lia).
    replace (_ - _)%nat with 0%nat by (rewrite length_app; cbn; lia). done. }
  rewrite Hpb. split; [exact E3|].
  subst wb1.
  split; [split|]; cbn [sm objs store swapped store_with]; rewrite ?lookup_insert_eq, ?lookup_snoc; try done;
    unfold answered, with_addr, dialling, with_addr;
    by destruct (Multiaddr.Empty addrb), (Multiaddr.Empty addra); cbn; rewrite ?Hrb.
Qed.

(** C10: data between two nodes of which one has sessions with the other, each of
    them established and known to the other under the same index; one session,
    or several after repeated connections. Whichever of them [Find] picks, what
    [CreateData] makes of a packet, sent as bytes, the other node's [HandleData]
    turns back, in place: the plaintext is the one sent and the bytes before and
    after the session's part are not touched; the receiver learns who sent it,
    reports the first data exactly when that session had not had any, and has it
    in its final stage afterwards; all sessions stay as they were. A session
    that is not established yet is excluded: [second_hello_hides] is what it
    does. *)
Theorem session_data_roundtrip (wa wb : world) (pa pb : PeerID)
    (p : SPacket) (l : list Z) (o := Offset p) (d := Padding p) (n := Length (pkt p)) :
  all_joined wa wb pa pb ->
  full (mem wa) (Buf (pkt p)) l -> is_bytes l -> 0 <= o -> 0 <= d -> o + 32 + d <= n <= zlen l ->
  exists idx ra rb sa sb wa1 q wb1 sa' sb',
    joined wa wb pa pb idx ra rb sa sb /\
    Manager.CreateData p pb wa = Ok (inl (remoteAddr sa), wa1) /\
    receive_data o d (packet_bytes p wa1) wb = Ok ((q, inl (pa, negb (stage sb =? 0x03))), wb1) /\
    sub (packet_bytes q wb1) (o + 16) (n - d - 16 - (o + 16)) = sub l (o + 16) (n - d - 16 - (o + 16)) /\
    sub (packet_bytes q wb1) 0 o = sub l 0 o /\ sub (packet_bytes q wb1) (n - d) d = sub l (n - d) d /\
    joined wa1 wb1 pa pb idx ra rb sa' sb' /\ stage sb' = 0x03 /\ all_joined wa1 wb1 pa pb.
Proof.
  intros Haj Hf Hb Ho Hd Hn. subst o d n.
  destruct (all_joined_find _ _ _ _ Haj) as (idx & ra & rb & sa & sb & Hj & EF). specialize (EF (mem wa)).
  pose proof Hj as [[Ja1 Ja2] [Jb1 Jb2] [Jp1 Jp2] Jk Ji]. pose proof Haj as Haj0.
  destruct wa as [m os en nw ord i h]. cbn [sm objs rand now order ranges mem] in *.
  set (pt := sub l (Offset p + 16) (Length (pkt p) - Padding p - 16 - (Offset p + 16))).
  assert (Hzpt : zlen pt = Length (pkt p) - Padding p - 16 - (Offset p + 16)) by (unfold pt; apply zlen_sub; lia).
  destruct (message_agrees (handshake sa) (handshake sb) pt Jk ltac:(unfold pt; auto with rovy))
    as (hi & hdr & ct & EM & EC & Jk' & _ & Hnon & _ & Hzct & Hbct).
  destruct (CreateData_spec p pb m os en nw ord i (S i) h l ra idx sa hi hdr ct EF Ja2 Hf Ho Hd)
    as (l1 & E1 & Hdl & (Hz1 & Hpre1 & Hpost1) & _); [lia|lia|exact EM|lia
    |rewrite Hnon; split; [apply zlen_be_bytes|apply is_bytes_be]|].
  set (wa1 := mkWorld m _ en nw ord (S i) _) in E1.
  assert (Hpb : packet_bytes p wa1 = sub l1 0 (Length (pkt p))).
  { unfold packet_bytes, wa1; cbn [mem]. rewrite arr_upd_eq by (by eapply full_lt). by destruct Hf as (_ & -> & _). }
  destruct wb as [m2 os2 en2 n2 ord2 i2 h2]. cbn [sm objs rand now order ranges mem] in *.
  assert (Hzs : zlen (sub l1 0 (Length (pkt p))) = Length (pkt p)) by (apply zlen_sub; lia).
  destruct (receive_data_spec (Offset p) (Padding p) (sub l1 0 (Length (pkt p))) m2 os2 en2 n2 ord2 i2 h2 rb sb idx
    (mh_Nonce hdr) ct pt) as (q & l2 & E2 & Hq & Hpl & (_ & Hpre2 & Hpost2)); rewrite ?Hzs; try done; try lia.
  { apply data_layout_prefix; (done || lia). }
  rewrite Jp2 in E2. rewrite Hzs in Hpost2.
  replace (Length (pkt p) - (Length (pkt p) - Padding p)) with (Padding p) in Hpost2 by lia.
  eexists idx, ra, rb, sa, sb, wa1, q, _, (set_handshake hi sa), (set_stage 0x03 sb).
  split; [exact Hj|]. split; [exact E1|]. split; [rewrite Hpb; exact E2|]. rewrite Hq by done.
  split; [by rewrite <- Hzpt|].
  split; [rewrite (sub_prefix (sub l1 0 (Length (pkt p))) l2 (Offset p + 16)) by (done || lia); by rewrite sub_sub by lia|].
  split.
  - rewrite Hpost2, sub_sub by lia.
    pose proof (f_equal (fun x => sub x 0 (Padding p)) Hpost1) as Hpp. cbn beta in Hpp.
    by rewrite !sub_sub, !Z.add_0_r in Hpp by lia.
  - destruct (all_joined_message _ _ wa1 (mkWorld m2 (<[rb := set_stage 0x03 sb]> os2) en2 n2 ord2 i2 (h2 ++ [l2])) _ _ _ _ _ _ _ hi 0x03 Haj Hj)
      as [G1 G2]; try done. by eapply MakeMessage_keys.
Qed.

(** An order of iteration that starts with the entry at [idx]. *)
Definition from_index (idx : Z) : map_order := fun _ m =>
  match m !! idx with Some x => (idx, x) :: map_to_list (delete idx m) | None => map_to_list m end.

Lemma from_index_ok idx : order_ok (from_index idx).
Proof. intros n m. unfold from_index. destruct (m !! idx) as [x|] eqn:E; [|done]. by apply map_to_list_delete. Qed.

(** A session without a sending key refuses. *)
Lemma CreateData_unfinished (p : SPacket) pid m os e n ord i i' h l r idx s :
  Manager.Find pid (mkWorld m os e n ord i h) = Ok (Some (r, idx), mkWorld m os e n ord i' h) ->
  os !! r = Some s -> send (handshake s) = None ->
  full h (Buf (pkt p)) l -> 0 <= Offset p -> 0 <= Padding p -> Offset p + 32 + Padding p <= Length (pkt p) <= zlen l ->
  Manager.CreateData p pid (mkWorld m os e n ord i h) = Ok (inr (ErrHandshake ErrNotFinished), mkWorld m os e n ord i' h).
Proof.
  intros EF Hs Hn Hf Ho Hd Hl. unfold Manager.CreateData. erewrite bind_ok by exact EF. cbv beta iota.
  erewrite on_mem_step; [|unfold DataPacket.Plaintext; erewrite bind_ok by (eapply reslice_window; [exact Hf|lia|lia]); reflexivity].
  erewrite run_handshake_step; [|exact Hs|unfold MakeMessage; rewrite Hn; reflexivity]. cbv beta iota.
  rewrite list_insert_id; [done|]. rewrite Hs. by destruct s.
Qed.

(** C11: a second connection to a peer hides the first one until it is complete.
    Whatever sessions a node has with a peer, once it has made another hello for
    it (its random source yields a key and a free index, and the Diffie-Hellman
    value of that key is not zero) there is an order of iteration, one that Go may choose, in which [Find]
    picks the session that is not established yet: [CreateData] for the peer
    then reports that the handshake is not finished, and the packet is not
    sealed. *)
Theorem second_hello_hides (o d : Z) (ka kb : PrivateKey) (addr : Multiaddr) (w : world) hs e1 idx e2 (p : SPacket) (l : list Z) :
  layer o d -> side_ok ka w -> privkey_ok kb ->
  NewHandshakeInitiator ka (Key.PublicKey_ kb) (rand w) = Ok (inl hs, e1) ->
  Manager.insert_loop (S (length e1)) (store (sm w)) e1 = Ok (idx, e2) ->
  isZero (SharedSecret (localEphemeral hs) (Key.PublicKey_ kb)) = false ->
  full (mem w) (Buf (pkt p)) l -> 0 <= Offset p -> 0 <= Padding p -> Offset p + 32 + Padding p <= Length (pkt p) <= zlen l ->
  exists p1 w1, dial o d (NewPeerID (Key.PublicKey_ kb)) addr w = Ok ((p1, None), w1) /\
    exists ord w2, order_ok ord /\
      Manager.CreateData p (NewPeerID (Key.PublicKey_ kb)) (mkWorld (sm w1) (objs w1) (rand w1) (now w1) ord (ranges w1) (mem w1)) =
        Ok (inr (ErrHandshake ErrNotFinished), w2) /\
      mem w2 = mem w1.
Proof.
  intros Hlay Hside Hkb EI EIns Hz Hf Ho Hd Hl. pose proof Hside as [[Hpk _] He _]. rewrite <- Hpk in Hside, EI.
  destruct (dial_spec o d kb addr w hs e1 idx e2 Hlay Hside Hkb EI EIns Hz) as (l' & hi & hdr & ct & pt & E & _ & _ & _ & EM & _).
  destruct (NewHandshakeInitiator_start _ _ _ _ _ He EI) as (_ & Ehs & _). eexists _, _. split; [exact E|]. cbn [sm objs rand now ranges mem].
  set (s := set_handshake hi _). set (os := objs w ++ [s]).
  assert (Hs : os !! length (objs w) = Some s) by apply lookup_snoc.
  assert (Hn : send hi = None).
  { rewrite Ehs in EM. revert EM. clear. unfold MakeHello. cbn [initiator start_initiator negb]. cbv zeta.
    repeat case_match; try done. by intros [= <- _ _]. }
  eexists (from_index idx), _. split; [apply from_index_ok|]. split.
  - eapply (CreateData_unfinished p _ _ os _ _ _ _ _ _ l (length (objs w)) idx s); [|exact Hs|exact Hn|by apply full_app|done..].
    unfold Manager.Find. erewrite bind_ok by reflexivity. erewrite bind_ok by reflexivity. unfold from_index at 1. cbn [sm store store_with id order].
    rewrite lookup_insert_eq. cbn [Manager.find_loop]. unfold set_ranges. cbn [sm objs rand now order ranges mem].
    erewrite deref_step by exact Hs. rewrite bool_decide_eq_true_2; [reflexivity|]. unfold s, with_addr. by destruct (Multiaddr.Empty addr).
  - done.
Qed.

(** C36: an index handed out by [Insert] is one no session had, and within 32
    bits; the loop that looks for it ends as soon as the random source yields a
    free one, read errors notwithstanding. *)
Theorem Insert_fresh (w : world) (r : nat) (e1 : entropy) (bs : list Z) (e2 : entropy) :
  entropy_ok (rand w) -> rand w = e1 ++ Some bs :: e2 -> store (sm w) !! le_val (rand_fill 4 bs) = None ->
  exists idx w', Manager.Insert r w = Ok (idx, w') /\
    store (sm w) !! idx = None /\ 0 <= idx < 2 ^ 32 /\
    store (sm w') = <[idx := Some r]> (store (sm w)) /\ objs w' = objs w /\ mem w' = mem w.
Proof.
  intros He Er Hfree.
  destruct (insert_loop_terminates e1 (store (sm w)) bs e2 (S (length (rand w))) Hfree) as (idx & e' & E).
  { rewrite Er, length_app. cbn. lia. }
  rewrite <- Er in E. destruct (insert_loop_ok _ _ _ _ _ He E) as (Hf & Hi & _).
  unfold Manager.Insert. rewrite E. eexists _, _. split; [reflexivity|]. done.
Qed.

(** The index of a session is chosen by the other side: when a response
    arrives whose session index is already taken by another session, that
    session is dropped from the store and can no longer be used. *)
Theorem Swap_overwrites (w : world) (idx1 idx2 : Z) (r1 r2 : nat) :
  store (sm w) !! idx1 = Some (Some r1) -> store (sm w) !! idx2 = Some (Some r2) -> idx1 <> idx2 -> r1 <> r2 ->
  (forall i, store (sm w) !! i = Some (Some r2) -> i = idx2) ->
  exists w', Manager.Swap idx1 idx2 w = Ok (tt, w') /\
    Manager.Get idx2 w' = Some (Some r1) /\ Manager.Get idx1 w' = None /\
    forall i, Manager.Get i w' <> Some (Some r2).
Proof.
  intros Hi1 Hi2 Hne Hr Huniq. unfold Manager.Swap, modify. eexists. split; [reflexivity|].
  rewrite Hi1. unfold Manager.Get. cbn.
  split; [apply lookup_insert_eq|]. split; [rewrite lookup_insert_ne by congruence; apply lookup_delete_eq|].
  intros i. rewrite lookup_insert. case_decide as Ei; [congruence|].
  intros Hi. apply lookup_delete_Some in Hi as [_ Hi]. apply Huniq in Hi. congruence.
Qed.
End properties.

(** *** Witnesses *)

Definition sw_order : map_order := fun _ m => map_to_list m.
Definition sw_world (k : PrivateKey) (e : entropy) : world :=
  mkWorld (Manager.NewSessionManager k) [] e hs_ts sw_order 0 [].
Definition sw_a : world := sw_world hs_si [Some [1; 2]; Some [5]].
Definition sw_b : world := sw_world hs_sr [Some [1; 2]; None; Some [77; 1]].

Lemma sw_side k e : privkey_ok k -> entropy_ok e -> side_ok k (sw_world k e).
Proof. intros. split; [done|done|by apply (bool_decide_unpack _)]. Qed.

Lemma session_establishment_witness :
  exists p1 wa1 p2 wb1 p3 wa2 ra rb sa sb,
    dial 0 0 (NewPeerID (Key.PublicKey_ hs_sr)) zeroMultiaddr sw_a = Ok ((p1, None), wa1) /\
    answer 0 0 (packet_bytes p1 wa1) zeroMultiaddr sw_b = Ok ((p2, None), wb1) /\
    conclude 0 0 (packet_bytes p2 wb1) zeroMultiaddr wa1 = Ok ((p3, NewPeerID (Key.PublicKey_ hs_sr), None), wa2) /\
    joined wa2 wb1 (NewPeerID (Key.PublicKey_ hs_si)) (NewPeerID (Key.PublicKey_ hs_sr)) 333 ra rb sa sb /\
    stage sa = 0x03 /\ stage sb = 0x02 /\
    sendNonce (handshake sa) = 0 /\ sendNonce (handshake sb) = 0.
Proof.
  apply (session_establishment 0 0 hs_si hs_sr zeroMultiaddr zeroMultiaddr sw_a sw_b
    hs_i [Some [5]] 5 [] hs_r [None; Some [77; 1]] 333 []);
    [by left|apply sw_side; [by apply (bool_decide_unpack _)|by repeat constructor]
    |apply sw_side; [by apply (bool_decide_unpack _)|by repeat constructor]
    |reflexivity|vm_compute; reflexivity|reflexivity|vm_compute; reflexivity|vm_compute; reflexivity].
Defined.

(** Two nodes with one session between them, and a packet buffer on each. *)
Definition sw_pa : PeerID := mkPeerID 1 1 1 1.
Definition sw_pb : PeerID := mkPeerID 2 2 2 2.
Definition sw_sa : Session := mkSession true 3 (hs_done [5] [6] true) zeroMultiaddr sw_pb.
Definition sw_sb : Session := mkSession false 2 (hs_done [6] [5] false) zeroMultiaddr sw_pa.
Definition sw_join (k : PrivateKey) (s : Session) (l : list Z) : world :=
  mkWorld (mkManager k (Key.PublicKey_ k) pid0 {[333 := Some 0%nat]}) [s] [] hs_ts sw_order 0 [l].
Definition sw_pkt : SPacket := mkSPacket 0 0 (NewPacket (Slice 0 0 64 64)).

Lemma sw_store k s l i x : store (sm (sw_join k s l)) !! i = Some x -> i = 333 /\ x = Some 0%nat.
Proof. cbn. rewrite lookup_singleton_Some. by intros [<- <-]. Qed.

Lemma sw_all_joined : all_joined (sw_join hs_si sw_sa (zeros 64)) (sw_join hs_sr sw_sb []) sw_pa sw_pb.
Proof.
  split.
  - by intros n m.
  - intros i x Hx. destruct (sw_store _ _ _ _ _ Hx) as [-> ->]. exists 0%nat. split; [done|by eexists].
  - by exists 333, 0%nat.
  - intros i r Hi _. destruct (sw_store _ _ _ _ _ Hi) as [-> [= ->]]. exists 0%nat, sw_sa, sw_sb.
    split; [by split; [vm_compute|]|by split; [vm_compute|]|done|apply hs_done_established|done].
Qed.

Lemma session_data_roundtrip_witness :
  exists idx ra rb sa sb wa1 q wb1, joined (sw_join hs_si sw_sa (zeros 64)) (sw_join hs_sr sw_sb []) sw_pa sw_pb idx ra rb sa sb /\
    Manager.CreateData sw_pkt sw_pb (sw_join hs_si sw_sa (zeros 64)) = Ok (inl (remoteAddr sa), wa1) /\
    receive_data 0 0 (packet_bytes sw_pkt wa1) (sw_join hs_sr sw_sb []) = Ok ((q, inl (sw_pa, negb (stage sb =? 3))), wb1).
Proof.
  destruct (session_data_roundtrip (sw_join hs_si sw_sa (zeros 64)) (sw_join hs_sr sw_sb []) sw_pa sw_pb sw_pkt (zeros 64))
    as (idx & ra & rb & sa & sb & wa1 & q & wb1 & _ & _ & Hj & E1 & E2 & _).
  - exact sw_all_joined.
  - by repeat split.
  - apply is_bytes_zeros.
  - done.
  - done.
  - by vm_compute.
  - by exists idx, ra, rb, sa, sb, wa1, q, wb1.
Defined.

(** A node that has a session with the peer already, and a packet for it. *)
Definition sw_again : world :=
  mkWorld (mkManager hs_si (Key.PublicKey_ hs_si) pid0 {[333 := Some 0%nat]})
    [mkSession true 3 (hs_done [5] [6] true) zeroMultiaddr (NewPeerID (Key.PublicKey_ hs_sr))] [Some [1; 2]; Some [5]] hs_ts sw_order 0 [zeros 64].

Lemma second_hello_hides_witness :
  exists p1 w1, dial 0 0 (NewPeerID (Key.PublicKey_ hs_sr)) zeroMultiaddr sw_again = Ok ((p1, None), w1) /\
    exists ord w2, order_ok ord /\
      Manager.CreateData sw_pkt (NewPeerID (Key.PublicKey_ hs_sr)) (mkWorld (sm w1) (objs w1) (rand w1) (now w1) ord (ranges w1) (mem w1)) =
        Ok (inr (ErrHandshake ErrNotFinished), w2).
Proof.
  destruct (second_hello_hides 0 0 hs_si hs_sr zeroMultiaddr sw_again hs_i [Some [5]] 5 [] sw_pkt (zeros 64)) as (p1 & w1 & E & ord & w2 & Ho & E2 & _).
  - by left.
  - split; [split; [done|by apply (bool_decide_unpack _)]|by repeat constructor|by apply (bool_decide_unpack _)].
  - by apply (bool_decide_unpack _).
  - reflexivity.
  - vm_compute. reflexivity.
  - vm_compute. reflexivity.
  - by repeat split.
  - done.
  - done.
  - by vm_compute.
  - exists p1, w1. split; [exact E|]. exists ord, w2. split; [exact Ho|exact E2].
Defined.

Lemma Insert_fresh_witness :
  exists idx w', Manager.Insert 0 sw_b = Ok (idx, w') /\ store (sm sw_b) !! idx = None.
Proof.
  destruct (Insert_fresh sw_b 0 [Some [1; 2]; None] [77; 1] []) as (idx & w' & E & Hf & _);
    [by repeat constructor|done|done|by exists idx, w'].
Defined.

Lemma Swap_overwrites_witness :
  exists w', Manager.Swap 1 2 (set_store {[1 := Some 0%nat; 2 := Some 1%nat]} sw_a) = Ok (tt, w') /\
    Manager.Get 2 w' = Some (Some 0%nat).
Proof.
  destruct (Swap_overwrites (set_store {[1 := Some 0%nat; 2 := Some 1%nat]} sw_a) 1 2 0 1) as (w' & E & Hg & _);
    [by vm_compute|by vm_compute|done|done| |by exists w'].
  intros i. cbn. rewrite lookup_insert_Some, lookup_singleton_Some. by intros [[_ [=]]|[_ [-> _]]].
Defined.
