(* ===== verification/Locks.v ===== *)
(** * Locks: the shared data under concurrent routines
    (node/routing/routing.go, node/forwarder/forwarder.go,
    node/session/manager.go, node/node.go)

    The routines of a node and the callers of its API share three tables, each
    with a [sync.RWMutex] of its own, and the map of those who wait for a
    connection, with a mutex. The other files take an operation on one of them as
    one step; here is what that rests on: which statements of an operation touch
    which map, and which locks are held then. A call is the sequence of its lock
    operations, its accesses and the queue operations it may have to wait at, on
    every path the code can take; threads interleave them at will, and queues
    fill and drain at will. Two accesses to one map of which one is a write, both
    about to happen, are a race: Go ends the program when it notices one. *)

From S2P Require Import Prelude.

(** ** Threads and the locks *)

Section threads.
Context {L F Q : Type} `{EqDecision L}.

Inductive action : Type :=
| Lock (l : L) | Unlock (l : L) | RLock (l : L) | RUnlock (l : L)
| Read (f : F) | Write (f : F)
| Queue (q : Q).                (* a send or receive that waits until it can happen *)

(** [sync.RWMutex]: a writer, or any number of readers. A writer that waits keeps
    new readers out in Go; that is left out, which only adds interleavings, and
    stops nobody for good: whoever holds a lock here takes no second one. *)
Record rwmutex : Type := mkRW { writer : bool; readers : nat }.

(** The mutexes, which queue operations can happen, and, for each thread, what it
    has still to do. *)
Record pool : Type := mkPool {
  mutexes : L -> rwmutex;
  ready : Q -> bool;
  threads : list (list action)
}.

Definition set_mutex (l : L) (m : rwmutex) (mx : L -> rwmutex) : L -> rwmutex := fun l' => if decide (l' = l) then m else mx l'.

(** What one action does to the mutexes; [None] while it has to wait. *)
Definition act (a : action) (mx : L -> rwmutex) (rd : Q -> bool) : option (L -> rwmutex) :=
  match a with
  | Lock l => if writer (mx l) then None else if bool_decide (readers (mx l) = 0%nat) then Some (set_mutex l (mkRW true 0) mx) else None
  | Unlock l => Some (set_mutex l (mkRW false (readers (mx l))) mx)
  | RLock l => if writer (mx l) then None else Some (set_mutex l (mkRW false (S (readers (mx l)))) mx)
  | RUnlock l => Some (set_mutex l (mkRW (writer (mx l)) (pred (readers (mx l)))) mx)
  | Read _ | Write _ => Some mx
  | Queue q => if rd q then Some mx else None
  end.

Inductive step : pool -> pool -> Prop :=
| step_thread mx mx' rd ts1 a tr ts2 :
    act a mx rd = Some mx' -> step (mkPool mx rd (ts1 ++ (a :: tr) :: ts2)) (mkPool mx' rd (ts1 ++ tr :: ts2)).

(** The other ends of the queues. *)
Inductive others : pool -> pool -> Prop :=
| others_queues mx rd rd' ts : others (mkPool mx rd ts) (mkPool mx rd' ts).

Definition unlocked (_ : L) : rwmutex := mkRW false 0.
Definition runs (ts : list (list action)) : pool -> Prop :=
  rtc (fun c c' => step c c' \/ others c c') (mkPool unlocked (fun _ => true) ts).

(** Two threads are about to access the same map, one of them to write it. *)
Definition race (f : F) (ts : list (list action)) : Prop :=
  exists i j tr tr', i <> j /\ ts !! i = Some (Write f :: tr) /\ (ts !! j = Some (Write f :: tr') \/ ts !! j = Some (Read f :: tr')).

(** ** Discipline *)

(** What a thread holds: one lock at most. *)
Inductive mode : Type := Free | Shared (l : L) | Exclusive (l : L).

(** Which lock guards a map, if one does. *)
Context (guard : F -> option L).

Definition may_read (m : mode) (f : F) : bool :=
  match guard f, m with
  | None, _ => true
  | Some l, (Shared l' | Exclusive l') => bool_decide (l = l')
  | Some _, Free => false
  end.
Definition may_write (m : mode) (f : F) : bool :=
  match guard f, m with
  | None, _ => true
  | Some l, Exclusive l' => bool_decide (l = l')
  | Some _, _ => false
  end.

(** What is guarded is read with its lock held and written with it held
    exclusively; a thread that holds a lock takes no second one, waits at no
    queue if it holds it exclusively, and releases it in the end. *)
Fixpoint disciplined (m : mode) (tr : list action) : bool :=
  match tr with
  | [] => match m with Free => true | _ => false end
  | Lock l :: tr => match m with Free => disciplined (Exclusive l) tr | _ => false end
  | RLock l :: tr => match m with Free => disciplined (Shared l) tr | _ => false end
  | Unlock l :: tr => match m with Exclusive l' => bool_decide (l' = l) && disciplined Free tr | _ => false end
  | RUnlock l :: tr => match m with Shared l' => bool_decide (l' = l) && disciplined Free tr | _ => false end
  | Read f :: tr => may_read m f && disciplined m tr
  | Write f :: tr => may_write m f && disciplined m tr
  | Queue _ :: tr => match m with Exclusive _ => false | _ => disciplined m tr end
  end.


Lemma disciplined_reads f n m tr : may_read m f = true -> disciplined m (replicate n (Read f) ++ tr) = disciplined m tr.
Proof. intros Hf. induction n as [|n IH]; [done|]. cbn. by rewrite Hf. Qed.


















End threads.
Arguments action : clear implicits.

(** ** The calls of the program *)

(** The mutexes of [Routing], [Forwarder] and [SessionManager], and
    [waitersLock]. *)
Inductive lock : Type := LRouting | LForwarder | LSessions | LWaiters.

(** The shared data: the two maps of [Routing], the two of [Forwarder], the map of
    [SessionManager], the fields of the sessions it points to, and the waiters. *)
Inductive field : Type := Table | Ipv6 | Slots | Bypeer | Store | Sess | Waiters.

(** Where a call may have to wait: at the queues the send functions of the slots
    put a packet into, and for the answer to [WaitFor]. *)
Inductive queue : Type := LowerSendQ | UpperRecvQ | Answer.

#[export] Instance lock_eq_dec : EqDecision lock.
Proof. solve_decision. Defined.

Abbreviation trace := (list (action lock field queue)).

Module Calls.

(** [n] reads in a row, as a loop or a range statement makes them. *)
Definition reads (n : nat) (f : field) : trace := replicate n (Read f).

(** The parameters say which way the tests of the code went: whether the peer is
    in the table and the route in its list; how many slots the loop looked at,
    and whether it found one; and so on. A deferred unlock also runs when the
    code between panics, as [HandlePacket] does behind the end of a label. *)
Definition AddRoute (present known : bool) : trace :=
  Lock LRouting :: Read Table :: (if present && known then [] else [Write Table; Write Ipv6]) ++ [Unlock LRouting].
Definition LookupIPv6 : trace := [Read Ipv6].
Definition PrintTable (n : nat) : trace := reads n Table.

Definition Attach (n : nat) (found : bool) : trace :=
  Lock LForwarder :: reads n Slots ++ (if found then [Write Slots; Write Bypeer] else []) ++ [Unlock LForwarder].

(** The send function of a slot: the node's own puts the packet into the upper
    receive queue, a neighbour's into the lower send queue, that of a free slot
    reports an error. *)
Definition send (own taken : bool) : trace := if own then [Queue UpperRecvQ] else if taken then [Queue LowerSendQ] else [].

Definition HandlePacket (refused panics known last taken : bool) : trace :=
  if refused then [] else
  RLock LForwarder :: (if panics then [] else Read Bypeer ::
    (if known then (if last then Read Slots :: send true true else Read Slots :: Read Slots :: send false taken) else [])) ++ [RUnlock LForwarder].
Definition SendRaw (own taken : bool) : trace := Read Slots :: Read Slots :: send own taken.

Definition Insert (n : nat) : trace := Lock LSessions :: reads (S n) Store ++ [Write Store; Unlock LSessions].
Fixpoint range (n : nat) : trace := match n with O => [] | S n => Read Store :: Read Sess :: range n end.
Definition Find (n : nat) : trace := RLock LSessions :: range n ++ [RUnlock LSessions].

(** The operations of the manager above these: what they do with the session
    itself and its handshake happens without any lock. A session that has not
    been inserted yet is known to its own call only, and counts as no access. *)
Definition set_addr (empty : bool) : trace := if empty then [] else [Write Sess].
Definition HandleHello (accepted : bool) (n : nat) (empty : bool) : trace :=
  if accepted then Insert n ++ Read Sess :: Write Sess :: set_addr empty else [].
Definition CreateData (n : nat) (found finished : bool) : trace :=
  Find n ++ if found then Read Sess :: (if finished then [Write Sess; Read Sess] else []) else [].

Definition connectedCallback (lower : bool) (n : nat) (found present known waiting : bool) : trace :=
  (if lower then Attach n found ++ (if found then AddRoute present known else []) else []) ++
  Lock LWaiters :: Read Waiters :: (if waiting then [Write Waiters] else []) ++ [Unlock LWaiters].
End Calls.



(** What is guarded, and by what. *)
Definition guard (f : field) : option lock :=
  match f with Table => Some LRouting | Bypeer => Some LForwarder | Store => Some LSessions | Waiters => Some LWaiters | _ => None end.


#[local] Ltac reads := unfold Calls.reads; rewrite ?disciplined_reads by done.






(** Two threads, after the first has made [n] steps and then the second [k]. *)
Fixpoint alone (n : nat) (mx : lock -> rwmutex) (tr : trace) : option ((lock -> rwmutex) * trace) :=
  match n, tr with
  | O, _ => Some (mx, tr)
  | S n, a :: tr => match act a mx (fun _ => true) with Some mx' => alone n mx' tr | None => None end
  | S _, [] => None
  end.

Lemma alone_steps n ts1 ts2 mx tr mx' tr' :
  alone n mx tr = Some (mx', tr') ->
  rtc (fun c c' => step c c' \/ others c c') (mkPool mx (fun _ => true) (ts1 ++ tr :: ts2)) (mkPool mx' (fun _ => true) (ts1 ++ tr' :: ts2)).
Proof.
  revert mx tr. induction n as [|n IH]; intros mx tr; [by intros [= <- <-]|]. destruct tr as [|a tr]; [done|]. cbn.
  destruct (act a mx (fun _ => true)) as [m1|] eqn:Ha; [|done]. intros H. eapply rtc_l; [left; by apply step_thread|by apply IH].
Qed.

Lemma two_steps n k tr1 tr2 mx mx' r1 r2 :
  alone n unlocked tr1 = Some (mx, r1) -> alone k mx tr2 = Some (mx', r2) -> runs [tr1; tr2] (mkPool mx' (fun _ => true) [r1; r2]).
Proof.
  intros H1 H2. unfold runs. etrans; [exact (alone_steps n [] [tr2] _ _ _ _ H1)|exact (alone_steps k [r1] [] _ _ _ _ H2)].
Qed.

(** They race when the one is then about to write what the other is about to
    read. *)
Lemma run_race n k tr1 tr2 f :
  match alone n unlocked tr1 with
  | Some (mx, Write f1 :: _) => match alone k mx tr2 with Some (_, Read f2 :: _) => f1 = f /\ f2 = f | _ => False end
  | _ => False
  end -> exists c, runs [tr1; tr2] c /\ race f (threads c).
Proof.
  destruct (alone n unlocked tr1) as [[mx [|a r1]]|] eqn:H1; [done| |done]. destruct a; try done.
  destruct (alone k mx tr2) as [[m2 [|b r2]]|] eqn:H2; [done| |done]. destruct b; try done. intros [-> ->].
  eexists. split; [exact (two_steps _ _ _ _ _ _ _ _ H1 H2)|]. exists 0%nat, 1%nat, r1, r2. repeat split; [done|by right].
Qed.

(** ** Properties *)


(** C40: the accesses that are not guarded. [LookupIPv6] reads the map of
    addresses without the lock while [AddRoute] writes it, and [PrintTable] the
    map of routes; [SendRaw] reads the slots without the lock while [Attach]
    writes them; and [HandleHello] puts the session into the store and only then
    sets its peer and its address, while [CreateData], which looks through all
    sessions, reads them. Each of these pairs of calls can race. *)
Theorem unguarded_accesses :
  (exists c, runs [Calls.AddRoute false false; Calls.LookupIPv6] c /\ race Ipv6 (threads c)) /\
  (exists c, runs [Calls.AddRoute false false; Calls.PrintTable 1] c /\ race Table (threads c)) /\
  (exists c, runs [Calls.Attach 1 true; Calls.SendRaw false true] c /\ race Slots (threads c)) /\
  (exists c, runs [Calls.HandleHello true 0 false; Calls.CreateData 1 true true] c /\ race Sess (threads c)).
Proof.
  split; [|split; [|split]].
  - by apply (run_race 3 0).
  - by apply (run_race 2 0).
  - by apply (run_race 2 0).
  - by apply (run_race 5 2).
Qed.

(** A connection cannot be completed while the forwarder waits for a queue.
    [HandlePacket] calls the send function of the slot, which waits for room in
    the lower send queue, with the read lock held: a state is reachable in which
    it waits there, [connectedCallback] waits in [Attach] for the lock, and
    neither can go on until the queue has room. *)
Theorem callback_held_up :
  exists c c', runs [Calls.HandlePacket false false true false true; Calls.connectedCallback true 1 true false false true] c /\
    others c c' /\ threads c' !! 0%nat = Some [Queue LowerSendQ; RUnlock LForwarder] /\
    threads c' !! 1%nat = Some (Calls.connectedCallback true 1 true false false true) /\
    readers (mutexes c' LForwarder) = 1%nat /\ (forall c'', ~ step c' c'') /\
    forall c'', others c' c'' -> ready c'' LowerSendQ = true -> exists c3, step c'' c3.
Proof.
  eexists _, (mkPool _ (fun _ => false) _). split; [eapply (two_steps 4 0); reflexivity|]. split; [apply others_queues|]. do 3 (split; [done|]). split.
  - intros c'' Hs. remember (mkPool _ (fun _ => false) _) as c0 eqn:E0 in Hs. destruct Hs as [mx mx' rd ts1 a tr ts2 Ha].
    injection E0 as -> -> Ets. destruct ts1 as [|t1 [|t2 ts1]]; cbn in Ets.
    + by injection Ets as -> -> ->.
    + by injection Ets as -> -> -> ->.
    + injection Ets as -> -> Ets. by destruct ts1.
  - intros c'' Ho Hrd. inversion Ho; subst. cbn in Hrd. eexists. eapply (step_thread _ _ _ []). cbn. by rewrite Hrd.
Qed.

