(* ===== verification/Nonce.v ===== *)
(** * Nonce: the counter of a session under two routines
    (node/session/ikpsk2/handshake.go, MakeMessage)

    [doLowerSend] and [doUpperSend] run in routines of their own and call
    [CreateData] of the same session manager; a peer that is a neighbour and
    whose oldest route is longer than one hop is served by both, with one
    session. Nothing guards the handshake of a session, so that the calls of
    [MakeMessage] interleave. Here one call is the four steps in which it touches
    the handshake it shares with the others: it reads the counter, stores it
    incremented, reads it again for the header, and seals. *)

From S2P Require Import Prelude GoMem Ext Toy Key Ikpsk2.
Import Key Ikpsk2.

Section nonce.
Context `{Crypto}.

(** Where a routine is in [MakeMessage]. *)
Inductive pc : Type := Enter | Loaded (n : Z) | Counted | Named (hdr : list Z).

(** A routine and the payloads it has still to send, the current one first. *)
Record sender : Type := mkSender { at_ : pc; todo : list (list Z) }.

Definition message : Type := MessageHeader * list Z.

(** One step of a routine on the shared handshake, and what it has sealed by it. *)
Definition sender_step (t : sender) (hs : Handshake) : option (Handshake * sender * list message) :=
  match todo t with
  | [] => None
  | p :: ps =>
      match at_ t, send hs with
      | Enter, None => Some (hs, mkSender Enter ps, [])
      | Enter, Some _ => Some (hs, mkSender (Loaded (sendNonce hs)) (p :: ps), [])
      | Loaded n, _ => Some (set_sendNonce (u64 (n + 1)) hs, mkSender Counted (p :: ps), [])
      | Counted, _ => Some (hs, mkSender (Named (be_bytes 8 (sendNonce hs))) (p :: ps), [])
      | Named b, Some aead => Some (hs, mkSender Enter ps, [(mkMessageHeader b, aead_Seal aead (nonce_of b) p [])])
      | Named b, None => None
      end
  end.

(** The handshake, the routines, and the messages in the order they were sealed. *)
Definition senders : Type := Handshake * list sender * list message.

Definition step_at (i : nat) (c c' : senders) : Prop :=
  exists t hs' t' o, c.1.2 !! i = Some t /\ sender_step t c.1.1 = Some (hs', t', o) /\
    c' = (hs', <[i := t']> c.1.2, c.2 ++ o).

Definition steps : senders -> senders -> Prop := rtc (fun c c' => exists i, step_at i c c').

(** One at a time: a routine moves only while no other one is in the middle of a
    call. *)
Definition idle_but (i : nat) (ts : list sender) : Prop := forall j t, j <> i -> ts !! j = Some t -> at_ t = Enter.
Definition serially : senders -> senders -> Prop := rtc (fun c c' => exists i, step_at i c c' /\ idle_but i c.1.2).

(** The reference: the calls of [MakeMessage] one after the other. *)
Fixpoint make_all (ps : list (list Z)) (hs : Handshake) : Handshake * list message :=
  match ps with
  | [] => (hs, [])
  | p :: ps =>
      match MakeMessage p hs with
      | (hs', inl m) => let '(hs'', ms) := make_all ps hs' in (hs'', m :: ms)
      | (hs', inr _) => make_all ps hs'
      end
  end.

Definition start (hs : Handshake) (work : list (list (list Z))) : senders := (hs, map (mkSender Enter) work, []).

(** ** One at a time *)

Lemma make_all_snoc ps p hs hs1 ms hs2 m :
  make_all ps hs = (hs1, ms) -> MakeMessage p hs1 = (hs2, inl m) -> make_all (ps ++ [p]) hs = (hs2, ms ++ [m]).
Proof.
  revert hs ms. induction ps as [|q ps IH]; intros hs ms; cbn; [intros [= -> <-] ->; done|].
  destruct (MakeMessage q hs) as [hs' [x|]]; [|by apply IH].
  destruct (make_all ps hs') as [h' xs] eqn:E. intros [= -> <-] Hm. by rewrite (IH _ _ E Hm).
Qed.

(** How far the handshake is ahead of the calls that are complete. *)
Definition ahead (x : pc) (done now : Handshake) : Prop :=
  match x with
  | Enter => now = done
  | Loaded n => now = done /\ n = sendNonce done
  | Counted => now = set_sendNonce (u64 (sendNonce done + 1)) done
  | Named b => now = set_sendNonce (u64 (sendNonce done + 1)) done /\ b = be_bytes 8 (sendNonce now)
  end.

Record serial_inv (hs0 : Handshake) (c : senders) : Prop := {
  si_calls : exists ps hs1 i, make_all ps hs0 = (hs1, c.2) /\ send hs1 = send hs0 /\
    idle_but i c.1.2 /\ (forall t, c.1.2 !! i = Some t -> ahead (at_ t) hs1 c.1.1) /\
    (c.1.2 !! i = None -> c.1.1 = hs1)
}.

(** Whoever moves is the one in the middle, if there is one. *)
Lemma idle_mover i j ts t hs1 hs :
  idle_but i ts -> idle_but j ts -> (forall t, ts !! j = Some t -> ahead (at_ t) hs1 hs) -> (ts !! j = None -> hs = hs1) ->
  ts !! i = Some t -> ahead (at_ t) hs1 hs.
Proof.
  intros Hi Hj Ha Hn Ht. destruct (decide (i = j)) as [->|Hne]; [by apply Ha|].
  rewrite (Hj i t Hne Ht). destruct (ts !! j) as [t'|] eqn:E; [|by apply Hn]. specialize (Ha t' eq_refl).
  by rewrite (Hi j t' ltac:(congruence) E) in Ha.
Qed.

Lemma idle_insert i ts t : idle_but i ts -> idle_but i (<[i := t]> ts).
Proof. intros Hi j t' Hne. rewrite list_lookup_insert_ne by congruence. by apply Hi. Qed.

Lemma lookup_mover i (ts : list sender) t t' x :
  ts !! i = Some t -> <[i := t']> ts !! i = Some x -> x = t'.
Proof. intros Ht. rewrite list_lookup_insert_eq by (by eapply lookup_lt_Some). congruence. Qed.

Lemma serial_inv_step hs0 aead i c c' :
  send hs0 = Some aead -> step_at i c c' -> idle_but i c.1.2 -> serial_inv hs0 c -> serial_inv hs0 c'.
Proof.
  destruct c as [[hs ts] out]. intros Hs (t & hs' & t' & o & Ht & E & ->) Hi [(ps & hs1 & j & Em & Hs1 & Hj & Ha & Hn)]. cbn in *.
  pose proof (idle_mover _ _ _ _ _ _ Hi Hj Ha Hn Ht) as Hah.
  assert (Hup : forall ps hs1 m, make_all ps hs0 = (hs1, m) -> send hs1 = send hs0 -> ahead (at_ t') hs1 hs' ->
    serial_inv hs0 (hs', <[i := t']> ts, m)).
  { intros qs h m H1 H2 H3. split. exists qs, h, i. cbn. split; [done|]. split; [done|]. split; [by apply idle_insert|]. split.
    - intros x Hx. by rewrite (lookup_mover _ _ _ _ _ Ht Hx).
    - rewrite list_lookup_insert_eq by (by eapply lookup_lt_Some). done. }
  unfold sender_step in E. destruct (todo t) as [|p rest]; [done|]. destruct (at_ t) as [|n| |b]; cbn in Hah.
  - subst hs. rewrite Hs1, Hs in E. injection E as <- <- <-. rewrite app_nil_r. by apply (Hup ps hs1).
  - destruct Hah as [-> ->]. injection E as <- <- <-. rewrite app_nil_r. by apply (Hup ps hs1).
  - subst hs. injection E as <- <- <-. rewrite app_nil_r. by apply (Hup ps hs1).
  - destruct Hah as [-> ->]. change (send (set_sendNonce (u64 (sendNonce hs1 + 1)) hs1)) with (send hs1) in E.
    rewrite Hs1, Hs in E. injection E as <- <- <-.
    eapply (Hup (ps ++ [p]) (set_sendNonce (u64 (sendNonce hs1 + 1)) hs1)); [|by cbn; rewrite Hs1|done].
    eapply make_all_snoc; [exact Em|]. unfold MakeMessage. by rewrite Hs1, Hs.
Qed.

Lemma serial_calls hs aead work hs' ts out :
  send hs = Some aead -> serially (start hs work) (hs', ts, out) -> exists ps hs1, make_all ps hs = (hs1, out).
Proof.
  intros Hs Hr. assert (Hi : serial_inv hs (hs', ts, out)).
  { refine (rtc_ind_r (serial_inv hs) (start hs work) _ _ _ Hr).
    - split. exists [], hs, 0%nat. cbn. split; [done|]. split; [done|].
      assert (Hall : forall j t, map (mkSender Enter) work !! j = Some t -> at_ t = Enter)
        by (intros j t; rewrite list_lookup_fmap; destruct (work !! j); [intros [= <-]|]; done).
      split; [intros j t _; apply Hall|]. split; [|done]. intros t Ht. by rewrite (Hall _ _ Ht).
    - intros x y _ (i & Hst & Hid) Hx. by eapply serial_inv_step. }
  destruct Hi as [(ps & hs1 & _ & E & _)]. by exists ps, hs1.
Qed.

(** The nonces of calls that follow each other are consecutive. *)
Lemma make_all_nonces ps hs hs1 ms :
  make_all ps hs = (hs1, ms) -> map (fun m => mh_Nonce m.1) ms = map (fun i => be_bytes 8 (u64 i)) (seqZ (sendNonce hs + 1) (zlen ms)).
Proof.
  assert (Hgen : forall k, u64 k = u64 (sendNonce hs) -> make_all ps hs = (hs1, ms) ->
    map (fun m => mh_Nonce m.1) ms = map (fun i => be_bytes 8 (u64 i)) (seqZ (k + 1) (zlen ms))); [|by apply Hgen].
  revert hs ms. induction ps as [|p ps IH]; intros hs ms k Hk; cbn [make_all]; [by intros [= _ <-]|]. unfold MakeMessage.
  destruct (send hs); [|by apply IH]. set (h := set_sendNonce _ hs). destruct (make_all ps h) as [h' xs] eqn:E. intros [= -> <-].
  assert (Hn : sendNonce h = u64 (k + 1)) by (cbn; unfold u64 in *; lia).
  rewrite zlen_cons. replace (1 + zlen xs) with (Z.succ (zlen xs)) by lia. rewrite seqZ_cons by (pose proof (zlen_nonneg xs); lia).
  rewrite Z.pred_succ. cbn [map fst mh_Nonce]. f_equal; [exact (f_equal (be_bytes 8) Hn)|]. replace (Z.succ (k + 1)) with (k + 1 + 1) by lia.
  apply (IH h); [|exact E]. rewrite Hn. unfold u64. lia.
Qed.

Lemma be_bytes_u64_inj x y : be_bytes 8 (u64 x) = be_bytes 8 (u64 y) -> u64 x = u64 y.
Proof.
  intros E%(f_equal be_val). rewrite !be_val_bytes in E. change (256 ^ Z.of_nat 8) with (2 ^ 64) in E. unfold u64 in *. lia.
Qed.

Lemma make_all_distinct ps hs hs1 ms : make_all ps hs = (hs1, ms) -> zlen ms <= 2 ^ 64 -> NoDup (map (fun m => mh_Nonce m.1) ms).
Proof.
  intros E Hl. rewrite (make_all_nonces _ _ _ _ E). apply NoDup_fmap_2_strong; [|apply NoDup_seqZ].
  intros x y Hx%elem_of_seqZ Hy%elem_of_seqZ Hxy%be_bytes_u64_inj. unfold u64 in Hxy. lia.
Qed.

(** A routine on its own: two payloads sent without anybody else in between. *)
Lemma serial_run hs aead p q :
  send hs = Some aead ->
  serially (start hs [[p; q]]) ((make_all [p; q] hs).1, [mkSender Enter []], (make_all [p; q] hs).2).
Proof.
  intros Hs. set (h := set_sendNonce (u64 (sendNonce hs + 1)) hs). assert (Hh : send h = Some aead) by done.
  cbn [make_all]. unfold MakeMessage. rewrite Hs. fold h. rewrite Hh. cbn [fst snd].
  assert (Hstep : forall hs t out hs' t' o c', sender_step t hs = Some (hs', t', o) ->
    serially (hs', [t'], out ++ o) c' -> serially (hs, [t], out) c').
  { intros. eapply rtc_l; [|eassumption]. exists 0%nat. split; [by eexists _, _, _, _|]. by intros [|] ? ?. }
  unfold start. cbn [map].
  eapply Hstep; [by cbn; rewrite Hs|]. do 2 (eapply Hstep; [done|]). eapply Hstep; [by cbn; rewrite Hs|].
  eapply Hstep; [by cbn; rewrite Hs|]. do 2 (eapply Hstep; [done|]). eapply Hstep; [by cbn; rewrite Hs|]. apply rtc_refl.
Qed.

(** ** Properties *)

(** C14: the counter behind the nonces relies on one call of [MakeMessage] at a
    time. Any number of routines that send over one session and never overlap
    have the effect of calls one after the other, in the order the messages were
    sealed, and up to 2^64 messages have different nonces. But two calls that
    overlap, whatever they send and wherever the counter stands, can be
    interleaved such that both payloads are sealed with the same key under the
    same nonce; no lock of the code prevents it. *)
Theorem nonces_need_one_caller (hs : Handshake) aead :
  send hs = Some aead ->
  (forall work hs' ts out, serially (start hs work) (hs', ts, out) ->
     (exists ps hs1, make_all ps hs = (hs1, out)) /\ (zlen out <= 2 ^ 64 -> NoDup (map (fun m => mh_Nonce m.1) out))) /\
  (forall p q, exists hs' b, steps (start hs [[p]; [q]]) (hs', [mkSender Enter []; mkSender Enter []],
     [(mkMessageHeader b, aead_Seal aead (nonce_of b) p []); (mkMessageHeader b, aead_Seal aead (nonce_of b) q [])])).
Proof.
  intros Hs. split.
  - intros work hs' ts out Hr. destruct (serial_calls _ _ _ _ _ _ Hs Hr) as (ps & hs1 & E). split; [by exists ps, hs1|].
    by eapply make_all_distinct.
  - intros p q. set (h := set_sendNonce (u64 (sendNonce hs + 1)) hs). assert (Hh : send h = Some aead) by done.
    exists h, (be_bytes 8 (sendNonce h)). unfold steps, start.
    assert (Hstep : forall i hs ts out t hs' t' o c', ts !! i = Some t -> sender_step t hs = Some (hs', t', o) ->
      steps (hs', <[i := t']> ts, out ++ o) c' -> steps (hs, ts, out) c').
    { intros. eapply rtc_l; [|eassumption]. exists i. by eexists _, _, _, _. }
    eapply (Hstep 0%nat); [done|by cbn; rewrite Hs|]. eapply (Hstep 1%nat); [done|by cbn; rewrite Hs|].
    do 2 (eapply (Hstep 0%nat); [done|done|]). do 2 (eapply (Hstep 1%nat); [done|done|]).
    eapply (Hstep 0%nat); [done|by cbn; rewrite Hs|]. eapply (Hstep 1%nat); [done|by cbn; rewrite Hs|]. apply rtc_refl.
Qed.
End nonce.

(** ** Witnesses *)

Lemma nonces_need_one_caller_witness :
  NoDup (map (fun m => mh_Nonce m.1) (make_all [[1; 2]; [3]] (hs_done [5] [6] true)).2) /\
  exists hs' b, steps (start (hs_done [5] [6] true) [[[1; 2]]; [[3]]]) (hs', [mkSender Enter []; mkSender Enter []],
    [(mkMessageHeader b, aead_Seal [5] (nonce_of b) [1; 2] []); (mkMessageHeader b, aead_Seal [5] (nonce_of b) [3] [])]).
Proof.
  destruct (nonces_need_one_caller (hs_done [5] [6] true) [5] eq_refl) as [Hser Hover]. split; [|apply Hover].
  by apply (Hser [[[1; 2]; [3]]] _ _ _ (serial_run (hs_done [5] [6] true) _ [1; 2] [3] eq_refl)).
Defined.
