(* ===== verification/Hoare.v ===== *)
(** * Hoare: what a body keeps

    Partial-correctness triples for the computations of GoMem, with the rules
    and the tactic that carry an invariant through a body statement by
    statement, and the fact that no statement ever shortens a byte array. *)

From S2P Require Import Prelude GoMem Route Ext Multiaddr Packet SessionPacket.
Import Route Packet SessionPacket.

(** ** Triples *)

Section triple.
Context {S : Type}.
Implicit Types (P I : S -> Prop).

(** From a state in [P], a body that returns does so in a state of [Q]; one
    that panics or waits does not return. *)
Definition triple {A} P (m : M S A) (Q : A -> S -> Prop) : Prop :=
  forall s a s', P s -> m s = Ok (a, s') -> Q a s'.

Definition keeps {A} I (m : M S A) : Prop := triple I m (fun _ => I).

Lemma triple_ret {A} (a : A) P (Q : A -> S -> Prop) : (forall s, P s -> Q a s) -> triple P (mret a) Q.
Proof. intros HQ s b s' HP [= <- <-]. by apply HQ. Qed.

Lemma triple_bind {A B} P (m : M S A) (f : A -> M S B) R Q :
  triple P m R -> (forall a, triple (R a) (f a) Q) -> triple P (m ≫= f) Q.
Proof. intros Hm Hf s b s' HP E. apply bind_inv in E as (a & s1 & E1 & E2). eapply Hf; [eapply Hm; eauto|exact E2]. Qed.

Lemma triple_panic {A} P (Q : A -> S -> Prop) : triple P panic Q.
Proof. by intros s a s' _. Qed.

Lemma triple_gets {A} (f : S -> A) P (Q : A -> S -> Prop) : (forall s, P s -> Q (f s) s) -> triple P (gets f) Q.
Proof. intros HQ s b s' HP [= <- <-]. by apply HQ. Qed.

Lemma triple_modify (f : S -> S) P (Q : unit -> S -> Prop) : (forall s, P s -> Q tt (f s)) -> triple P (modify f) Q.
Proof. intros HQ s b s' HP [= <- <-]. by apply HQ. Qed.

(** A read, with what it read. *)
Lemma triple_look {A B} (f : S -> A) (k : A -> M S B) P (Q : B -> S -> Prop) :
  (forall a, triple (fun s => P s /\ a = f s) (k a) Q) -> triple P (gets f ≫= k) Q.
Proof. intros Hk s b s' HP E. eapply (Hk (f s)); [|exact E]. by split. Qed.

Lemma triple_weaken {A} P P' (m : M S A) (Q Q' : A -> S -> Prop) :
  triple P' m Q' -> (forall s, P s -> P' s) -> (forall a s, Q' a s -> Q a s) -> triple P m Q.
Proof. intros Hm HP HQ s a s' Hs E. eauto. Qed.

Lemma triple_pure {A} P (m : M S A) (X : Prop) Q : (X -> triple P m Q) -> triple (fun s => P s /\ X) m Q.
Proof. intros HX s a s' [HP Hx] E. by eapply HX. Qed.

Lemma triple_and {A} P P' (m : M S A) Q Q' :
  triple P m Q -> triple P' m Q' -> triple (fun s => P s /\ P' s) m (fun a s => Q a s /\ Q' a s).
Proof. intros H1 H2 s a s' [? ?] E. split; eauto. Qed.

Lemma keeps_use {A} I (m : M S A) s a s' : I s -> m s = Ok (a, s') -> keeps I m -> I s'.
Proof. intros Hs E Hm. by eapply Hm. Qed.

Lemma keeps_ret {A} (a : A) I : keeps I (mret a).
Proof. by apply triple_ret. Qed.

Lemma keeps_bind {A B} I (m : M S A) (f : A -> M S B) : keeps I m -> (forall a, keeps I (f a)) -> keeps I (m ≫= f).
Proof. intros Hm Hf. by eapply triple_bind. Qed.

Lemma keeps_gets {A} (f : S -> A) I : keeps I (gets f).
Proof. by apply triple_gets. Qed.

Lemma keeps_panic {A} I : keeps I (@panic S A).
Proof. apply triple_panic. Qed.

Lemma keeps_assert b I : keeps I (assert_ b).
Proof. destruct b; [apply keeps_ret|apply keeps_panic]. Qed.
End triple.

(** A body on a part of the state. *)
Lemma triple_zoom {T S A} (l : lens T S) (m : M S A) (P : S -> Prop) (Q : A -> S -> Prop) (I : T -> Prop) (J : A -> T -> Prop) :
  triple P m Q -> (forall t, I t -> P (view l t)) -> (forall t a s, I t -> Q a s -> J a (over l s t)) -> triple I (zoom l m) J.
Proof.
  intros Hm HP HQ t a t' Ht. unfold zoom. destruct (m (view l t)) as [[b s]| |] eqn:E; try done. intros [= <- <-].
  apply HQ; [done|]. eapply Hm; [by apply HP|exact E].
Qed.

Create HintDb keeps discriminated.
#[export] Hint Resolve keeps_ret keeps_gets keeps_panic keeps_assert : keeps.

(** Carries an invariant through a body: binds, branches, and what the database
    knows. *)
Ltac keep :=
  repeat (first
    [ progress intros
    | progress cbv zeta
    | solve [eauto with keeps]
    | lazymatch goal with |- keeps _ (_ ≫= _) => apply keeps_bind end
    | match goal with |- keeps _ (match ?x with _ => _ end) => destruct x end
    | match goal with |- keeps _ (if ?x then _ else _) => destruct x end ]).

(** ** Arrays never shrink *)

Definition grows (h h' : heap) : Prop := forall a, (length (arr h a) <= length (arr h' a))%nat.

#[export] Instance grows_preorder : PreOrder grows.
Proof. split; [by intros h a|]. intros h1 h2 h3 H1 H2 a. specialize (H1 a). specialize (H2 a). lia. Qed.

Lemma length_splice_ge {A} (l : list A) i bs : (length l <= length (splice l i bs))%nat.
Proof. unfold splice. rewrite !length_app, length_take, length_drop. lia. Qed.

Lemma grows_upd h a l : (length (arr h a) <= length l)%nat -> grows h (upd h a l).
Proof.
  intros Hl b. unfold arr, upd in *. destruct (decide (a = b)) as [->|Hne]; [|by rewrite list_lookup_insert_ne].
  destruct (decide (b < length h)%nat); [by rewrite list_lookup_insert_eq|]. by rewrite list_insert_ge by lia.
Qed.

Lemma grows_app h l : grows h (h ++ l).
Proof.
  intros a. unfold arr. destruct (h !! a) eqn:E; [|cbn; lia]. by rewrite (lookup_app_l_Some _ _ _ _ E).
Qed.

Lemma grows_slice_ok h h' s : grows h h' -> slice_ok h s -> slice_ok h' s.
Proof. intros Hg (H1 & H2 & H3). specialize (Hg (s_arr s)). split_and!; [lia..|]. unfold zlen in *. lia. Qed.

(** A body of the heap that keeps every slice in its bounds. *)
Definition mono {A} (m : M heap A) : Prop := forall h0, keeps (grows h0) m.

Lemma mono_grows {A} (m : M heap A) h a h' : mono m -> m h = Ok (a, h') -> grows h h'.
Proof. intros Hm E. by eapply (Hm h). Qed.

Lemma mono_ret {A} (a : A) : mono (mret a).
Proof. intros h0. apply keeps_ret. Qed.
Lemma mono_bind {A B} (m : M heap A) (f : A -> M heap B) : mono m -> (forall a, mono (f a)) -> mono (m ≫= f).
Proof. intros Hm Hf h0. apply keeps_bind; [apply Hm|]. intros a. apply Hf. Qed.
Lemma mono_gets {A} (f : heap -> A) : mono (gets f).
Proof. intros h0. apply keeps_gets. Qed.
Lemma mono_panic {A} : mono (@panic heap A).
Proof. intros h0. apply keeps_panic. Qed.
Lemma mono_assert b : mono (assert_ b).
Proof. intros h0. apply keeps_assert. Qed.
Lemma mono_alloc l : mono (alloc l).
Proof. intros h0 h a h' Hg [= <- <-]. etrans; [exact Hg|apply grows_app]. Qed.
Lemma mono_splice (f : heap -> nat) (g : heap -> Z) (b : heap -> list Z) :
  mono (modify (fun h => upd h (f h) (splice (arr h (f h)) (g h) (b h)))).
Proof.
  intros h0 h a h' Hg [= <- <-]. etrans; [exact Hg|]. apply grows_upd, length_splice_ge.
Qed.

Create HintDb mono discriminated.
#[export] Hint Resolve mono_ret mono_gets mono_panic mono_assert mono_alloc : mono.

Ltac monos :=
  repeat (first
    [ progress intros
    | progress cbv zeta
    | solve [eauto with mono]
    | lazymatch goal with |- mono (_ ≫= _) => apply mono_bind end
    | match goal with |- mono (match ?x with _ => _ end) => destruct x end
    | match goal with |- mono (if ?x then _ else _) => destruct x end ]).

Section memory.
Context `{MaddrLib, Varint, GoRuntime}.

Lemma mono_make n : mono (make_bytes n).
Proof. unfold make_bytes. monos. Qed.
Lemma mono_reslice s lo hi : mono (reslice s lo hi).
Proof. unfold reslice. monos. Qed.
Lemma mono_get s i : mono (s_get s i).
Proof. unfold s_get. monos. Qed.
Lemma mono_set s i v : mono (s_set s i v).
Proof. unfold s_set. monos. exact (mono_splice (fun _ => s_arr s) (fun _ => s_off s + i) (fun _ => [v])). Qed.
Lemma mono_read s : mono (s_read s).
Proof. apply mono_gets. Qed.
Lemma mono_copy s bs : mono (s_copy s bs).
Proof. exact (mono_splice (fun _ => s_arr s) (fun _ => s_off s) (fun _ => take (Z.to_nat (s_len s)) bs)). Qed.
Lemma mono_append s bs : mono (s_append s bs).
Proof.
  unfold s_append. cbv zeta. destruct (_ <=? _).
  - apply mono_bind; [|monos]. exact (mono_splice (fun _ => s_arr s) (fun _ => s_off s + s_len s) (fun _ => bs)).
  - intros h0 h a h' Hg [= <- <-]. etrans; [exact Hg|apply grows_app].
Qed.
#[local] Hint Resolve mono_make mono_reslice mono_get mono_set mono_read mono_copy mono_append : mono.

Lemma mono_write b lo hi bs : mono (buf_write b lo hi bs).
Proof. unfold buf_write. monos. Qed.
Lemma mono_bufread b lo hi : mono (buf_read b lo hi).
Proof. unfold buf_read. monos. Qed.
#[local] Hint Resolve mono_write mono_bufread : mono.

Lemma mono_le32 p lo hi : mono (le32_at p lo hi).
Proof. unfold le32_at, get_le32. monos. Qed.
Lemma mono_put_le32 p lo hi v : mono (put_le32_at p lo hi v).
Proof. unfold put_le32_at, put_le32. monos. Qed.
Lemma mono_be32 p lo hi : mono (be32_at p lo hi).
Proof. unfold be32_at, get_be32. monos. Qed.
Lemma mono_put_be32 p lo hi v : mono (put_be32_at p lo hi v).
Proof. unfold put_be32_at, put_be32. monos. Qed.
Lemma mono_bytes_at p lo hi : mono (bytes_at p lo hi).
Proof. unfold bytes_at. monos. Qed.
Lemma mono_put_bytes p lo hi bs : mono (put_bytes_at p lo hi bs).
Proof. unfold put_bytes_at. monos. Qed.

Lemma mono_MsgType p : mono (Packet.MsgType p).
Proof. unfold Packet.MsgType, get_le32. monos. Qed.
Lemma mono_Bytes p : mono (Packet.Bytes p).
Proof. unfold Packet.Bytes. monos. Qed.
Lemma mono_Route u : mono (UpperPacket.Route_ u).
Proof. unfold UpperPacket.Route_. monos. Qed.
Lemma mono_RouteLen u : mono (UpperPacket.RouteLen u).
Proof. unfold UpperPacket.RouteLen. monos. Qed.
Lemma mono_zero_loop n : forall b o i, mono (UpperPacket.zero_loop b o i n).
Proof. induction n as [|n IH]; intros b o i; cbn [UpperPacket.zero_loop]; monos. Qed.
Lemma mono_SetRoute u rt : mono (UpperPacket.SetRoute u rt).
Proof. unfold UpperPacket.SetRoute. pose proof mono_zero_loop. monos. Qed.
Lemma mono_UCodec u : mono (UpperPacket.Codec u).
Proof. unfold UpperPacket.Codec. monos. Qed.
Lemma mono_USetCodec u c : mono (UpperPacket.SetCodec u c).
Proof. unfold UpperPacket.SetCodec. monos. Qed.
Lemma mono_LCodec p : mono (LowerPacket.Codec p).
Proof. unfold LowerPacket.Codec. monos. Qed.
Lemma mono_LSetCodec p c : mono (LowerPacket.SetCodec p c).
Proof. unfold LowerPacket.SetCodec. monos. Qed.
Lemma mono_LPayload p : mono (LowerPacket.Payload p).
Proof. unfold LowerPacket.Payload. monos. Qed.
Lemma mono_reverse_loop n : forall src rev, mono (reverse_loop src n rev).
Proof. induction n as [|n IH]; intros src rev; cbn [reverse_loop]; monos. Qed.
Lemma mono_Reverse r : mono (Reverse r).
Proof. unfold Reverse. pose proof mono_reverse_loop. monos. Qed.
Lemma mono_NewRouteOf bs : mono (NewRouteOf bs).
Proof. unfold NewRouteOf. monos. Qed.
End memory.
#[export] Hint Resolve mono_make mono_reslice mono_get mono_set mono_read mono_copy mono_append mono_write mono_bufread
  mono_le32 mono_put_le32 mono_be32 mono_put_be32 mono_bytes_at mono_put_bytes mono_MsgType mono_Bytes mono_Route
  mono_RouteLen mono_SetRoute mono_UCodec mono_USetCodec mono_LCodec mono_LSetCodec mono_LPayload mono_Reverse
  mono_NewRouteOf : mono.
