(* ===== verification/SessionInv.v ===== *)
(** * SessionInv: what every operation of the session manager keeps
    (node/session/session.go, manager.go)

    The store of a manager never holds a nil reference, and every session in it
    is in a stage that fits its role and names the peer whose static key its
    handshake works with. No assumption is made about the packets: every byte of
    a hello, a response or a data packet may come from an attacker. *)

From S2P Require Import Prelude GoMem Route Ext Key PeerID Multiaddr Packet SessionPacket Ikpsk2 Session Hoare.
Import Key PeerID Multiaddr Packet SessionPacket Session.

(** ** Handshakes *)

Section handshakes.
Context `{Crypto}.
Implicit Types hs : Ikpsk2.Handshake.

(** Role and remote static key of a handshake. *)
Definition same_peer hs hs' : Prop :=
  Ikpsk2.RemotePublicKey hs' = Ikpsk2.RemotePublicKey hs /\ Ikpsk2.initiator hs' = Ikpsk2.initiator hs.

Ltac handshake_cases :=
  repeat match goal with
  | |- context [if ?b then _ else _] => destruct b eqn:?
  | |- context [let '(_, _) := ?x in _] => destruct x
  | |- context [match ?x with _ => _ end] => destruct x
  end; try done.

Lemma MakeHello_same ts pl hs : same_peer hs (Ikpsk2.MakeHello ts pl hs).1.
Proof. unfold Ikpsk2.MakeHello. cbv zeta. handshake_cases. Qed.
Lemma MakeResponse_same pl hs : same_peer hs (Ikpsk2.MakeResponse pl hs).1.
Proof. unfold Ikpsk2.MakeResponse. cbv zeta. handshake_cases. Qed.
Lemma ConsumeResponse_same hdr pl hs : same_peer hs (Ikpsk2.ConsumeResponse hdr pl hs).1.
Proof. unfold Ikpsk2.ConsumeResponse. cbv zeta. handshake_cases. Qed.
Lemma MakeMessage_same pl hs : same_peer hs (Ikpsk2.MakeMessage pl hs).1.
Proof. unfold Ikpsk2.MakeMessage. handshake_cases. Qed.
Lemma ConsumeHello_role hdr pl hs : Ikpsk2.initiator (Ikpsk2.ConsumeHello hdr pl hs).1 = Ikpsk2.initiator hs.
Proof. unfold Ikpsk2.ConsumeHello. cbv zeta. handshake_cases. Qed.

Lemma NewHandshakeInitiator_peer k rs e hs e' :
  Ikpsk2.NewHandshakeInitiator k rs e = Ok (inl hs, e') -> Ikpsk2.RemotePublicKey hs = rs /\ Ikpsk2.initiator hs = true.
Proof. unfold Ikpsk2.NewHandshakeInitiator. repeat case_match; try done. intros [= <- <-]. done. Qed.
Lemma NewHandshakeResponder_role k e hs e' :
  Ikpsk2.NewHandshakeResponder k e = Ok (inl hs, e') -> Ikpsk2.initiator hs = false.
Proof. unfold Ikpsk2.NewHandshakeResponder. repeat case_match; try done. intros [= <- <-]. done. Qed.
End handshakes.

(** ** The invariant *)

Section invariant.
Context `{Crypto, MaddrLib}.
Implicit Types (w : world) (s : Session).

Record session_ok s : Prop := {
  so_stage : stage s = (if initiator s then 0x01 else 0x02) \/ stage s = 0x03;
  so_role : Ikpsk2.initiator (handshake s) = initiator s;
  so_peer : remotePeerID s = NewPeerID (Ikpsk2.RemotePublicKey (handshake s))
}.

(** Every entry of the store refers to a session that is well-formed. *)
Definition sess_ok w : Prop :=
  forall i x, store (sm w) !! i = Some x -> exists r s, x = Some r /\ objs w !! r = Some s /\ session_ok s.

Lemma sess_ok_refs w i x :
  sess_ok w -> store (sm w) !! i = Some x -> exists r, x = Some r /\ is_Some (objs w !! r).
Proof. intros Hw Hx. destruct (Hw i x Hx) as (r & s & -> & Hr & _). eauto. Qed.

(** *** Statements *)

Lemma on_mem_sess {A} (m : M heap A) : keeps sess_ok (on_mem m).
Proof. apply (triple_zoom mem_lens m (fun _ => True) (fun _ _ => True)); [done|done|]. by intros w a h Hw _. Qed.

Lemma with_rand_sess {A} (f : entropy -> res (A * entropy)) : keeps sess_ok (Manager.with_rand f).
Proof. intros w a w' Hw. unfold Manager.with_rand. by destruct (f (rand w)) as [[b e]| |]; try done; intros [= <- <-]. Qed.

Lemma deref_sess r : keeps sess_ok (deref r).
Proof. intros w a w' Hw. unfold deref. destruct r as [r|]; cbn; [|done]. destruct (objs w !! r); [|done]. by intros [= <- <-]. Qed.

Lemma objs_insert_ok w r s s' :
  objs w !! r = Some s -> (session_ok s -> session_ok s') -> sess_ok w -> sess_ok (set_objs (<[r := s']> (objs w)) w).
Proof.
  intros Hr Hs Hw i x Hx. destruct (Hw i x Hx) as (q & t & -> & Hq & Ht). exists q.
  destruct (decide (r = q)) as [->|Hne].
  - exists s'. split; [done|]. split; [apply list_lookup_insert_eq; by eapply lookup_lt_Some|]. apply Hs. congruence.
  - exists t. split; [done|]. split; [|done]. cbn. by rewrite list_lookup_insert_ne.
Qed.

(** Reading a session, changing it and writing it back. *)
Lemma update_sess {A} r (k : Session -> M world A) (f : Session -> Session) (g : Session -> A) :
  (forall s, k s = (_ ← assign r (f s); mret (g s))) -> (forall s, session_ok s -> session_ok (f s)) ->
  keeps sess_ok (s ← deref (Some r); k s).
Proof.
  intros Hk Hf w a w' Hw E. apply bind_inv in E as (s & w1 & E1 & E2). unfold deref in E1. cbn in E1.
  destruct (objs w !! r) as [t|] eqn:Er; [|done]. injection E1 as <- <-. rewrite Hk in E2. injection E2 as <- <-.
  eapply objs_insert_ok; eauto.
Qed.

Lemma set_handshake_ok s hs : same_peer (handshake s) hs -> session_ok s -> session_ok (set_handshake hs s).
Proof. intros [E1 E2] [Hs Hr Hp]. split; cbn; [done|congruence|congruence]. Qed.

Lemma run_handshake_sess {A} r (f : Ikpsk2.Handshake -> Ikpsk2.Handshake * A) :
  (forall hs, same_peer hs (f hs).1) -> keeps sess_ok (run_handshake r f).
Proof.
  intros Hf. unfold run_handshake.
  apply (update_sess r _ (fun s => set_handshake (f (handshake s)).1 s) (fun s => (f (handshake s)).2)).
  - intros s. by destruct (f (handshake s)).
  - intros s. apply set_handshake_ok, Hf.
Qed.

Lemma SetRemoteAddr_sess r a : keeps sess_ok (SetRemoteAddr r a).
Proof.
  intros w x w' Hw E. unfold SetRemoteAddr in E. apply bind_inv in E as (s & w1 & E1 & E2).
  unfold deref in E1. cbn in E1. destruct (objs w !! r) as [t|] eqn:Er; [|done]. injection E1 as <- <-. injection E2 as <- <-.
  eapply objs_insert_ok; [exact Er| |done]. by intros [].
Qed.

Lemma when_sess b m : keeps sess_ok m -> keeps sess_ok (Manager.when b m).
Proof. intros Hm. unfold Manager.when. destruct b; [done|apply keeps_ret]. Qed.

Lemma find_loop_sess p es : keeps sess_ok (Manager.find_loop p es).
Proof.
  induction es as [|[i r] es IH]; cbn [Manager.find_loop]; [apply keeps_ret|].
  apply keeps_bind; [apply deref_sess|]. intros s. destruct r; [|apply keeps_panic]. case_bool_decide; [apply keeps_ret|apply IH].
Qed.

Lemma Find_sess p : keeps sess_ok (Manager.Find p).
Proof.
  unfold Manager.Find. apply keeps_bind; [apply keeps_gets|]. intros w0. apply keeps_bind; [by apply triple_modify|].
  intros _. apply find_loop_sess.
Qed.

(** A session enters the store. *)
Lemma Insert_sess r s :
  session_ok s -> triple (fun w => sess_ok w /\ objs w !! r = Some s) (Manager.Insert r)
                         (fun _ w => sess_ok w /\ objs w !! r = Some s).
Proof.
  intros Hs w a w' [Hw Hr]. unfold Manager.Insert. destruct (Manager.insert_loop _ _ _) as [[i e]| |]; try done.
  intros [= <- <-]. split; [|done]. intros j x. cbn. rewrite lookup_insert_Some.
  intros [[<- <-]|[_ Hx]]; [by exists r, s|by apply (Hw j x)].
Qed.

(** A session moves to another index. *)
Lemma Swap_ok w i j x : sess_ok w -> store (sm w) !! i = Some x -> sess_ok (set_store (<[j := x]> (delete i (store (sm w)))) w).
Proof.
  intros Hw Hx k y. cbn. rewrite lookup_insert_Some, lookup_delete_Some.
  intros [[<- <-]|[_ [_ Hy]]]; [by apply (Hw i x)|by apply (Hw k y)].
Qed.
End invariant.

#[export] Hint Resolve on_mem_sess with_rand_sess deref_sess SetRemoteAddr_sess when_sess Find_sess : keeps.

(** ** The dialling side *)

Section operations.
Context `{Crypto, MaddrLib}.
Implicit Types (w : world) (s : Session).

Lemma session_CreateHello_sess r p : keeps sess_ok (Session.CreateHello r p).
Proof.
  unfold Session.CreateHello. keep. apply run_handshake_sess. intros hs. apply MakeHello_same.
Qed.

Lemma with_rand_look {A} (f : entropy -> res (A * entropy)) :
  triple sess_ok (Manager.with_rand f) (fun x w => sess_ok w /\ exists e e', f e = Ok (x, e')).
Proof.
  intros w a w' Hw. unfold Manager.with_rand. destruct (f (rand w)) as [[b e]| |] eqn:E; try done. intros [= <- <-]. eauto.
Qed.

Lemma new_obj_old w s i x :
  sess_ok w -> store (sm w) !! i = Some x -> exists r t, x = Some r /\ (objs w ++ [s]) !! r = Some t /\ session_ok t.
Proof.
  intros Hw Hx. destruct (Hw i x Hx) as (r & t & -> & Hr & Ht). exists r, t. split; [done|]. split; [by apply lookup_app_l_Some|done].
Qed.

Lemma deref_look r : triple sess_ok (deref (Some r)) (fun s w => sess_ok w /\ objs w !! r = Some s).
Proof. intros w s w' Hw. unfold deref. cbn. destruct (objs w !! r) eqn:E; [|done]. by intros [= <- <-]. Qed.

Lemma assign_look r s s' :
  (session_ok s -> session_ok s') -> triple (fun w => sess_ok w /\ objs w !! r = Some s) (assign r s') (fun _ => sess_ok).
Proof. intros Hs. apply triple_modify. intros w [Hw Hr]. by eapply objs_insert_ok. Qed.

Lemma new_obj_look s : triple sess_ok (new_obj s) (fun r w => sess_ok w /\ objs w !! r = Some s).
Proof. intros w r w' Hw [= <- <-]. split; [by intros i x; apply (new_obj_old w)|apply lookup_snoc]. Qed.

Lemma CreateHello_sess p pid a : peerid_ok pid -> keeps sess_ok (Manager.CreateHello p pid a).
Proof.
  intros Hpid. unfold Manager.CreateHello. apply keeps_bind; [apply keeps_gets|]. intros m.
  eapply triple_bind; [apply with_rand_look|]. intros [hs|e]; [|by apply triple_ret; intros ? [? _]].
  apply triple_pure. intros (e & e' & EN). destruct (NewHandshakeInitiator_peer _ _ _ _ _ EN) as [Hk Hi].
  eapply triple_bind; [apply new_obj_look|]. intros r.
  eapply triple_bind; [apply Insert_sess; split; [by left|done|cbn; by rewrite Hk, NewPeerID_PublicKey]|]. intros idx.
  apply (triple_weaken _ sess_ok _ _ (fun _ => sess_ok)); [|by intros ? [? _]|done].
  change (triple sess_ok ?m _) with (keeps sess_ok m). pose proof session_CreateHello_sess. keep.
Qed.

Lemma CreateData_sess p pid : keeps sess_ok (Manager.CreateData p pid).
Proof. unfold Manager.CreateData. keep. apply run_handshake_sess. intros hs. apply MakeMessage_same. Qed.

(** The session a packet's index names, while only the heap changes. *)
Definition names (idx : Z) (r : nat) s w : Prop :=
  sess_ok w /\ store (sm w) !! idx = Some (Some r) /\ objs w !! r = Some s.

Lemma on_mem_names {A} (m : M heap A) idx r s : keeps (names idx r s) (on_mem m).
Proof. apply (triple_zoom mem_lens m (fun _ => True) (fun _ _ => True)); [done|done|]. by intros w a h Hw _. Qed.
#[local] Hint Resolve on_mem_names : keeps.

Lemma get_named {B} idx (k : option nat -> M world B) (z : M world B) (Q : B -> world -> Prop) :
  triple sess_ok z Q -> (forall r s, session_ok s -> triple (names idx r s) (k (Some r)) Q) ->
  triple sess_ok (g ← gets (Manager.Get idx); match g with None => z | Some x => k x end) Q.
Proof.
  intros Hz Hk. apply triple_look. intros g w b w' [Hw ->]. unfold Manager.Get.
  destruct (store (sm w) !! idx) as [x|] eqn:Ex; [|by apply Hz]. destruct (Hw idx x Ex) as (r & s & -> & Hr & Hs).
  by eapply (Hk r s Hs).
Qed.

Lemma deref_at {B} (P : world -> Prop) r s (k : Session -> M world B) (Q : B -> world -> Prop) :
  (forall w, P w -> objs w !! r = Some s) -> triple P (k s) Q -> triple P (t ← deref (Some r); k t) Q.
Proof.
  intros HP Hk w b w' Hw E. apply bind_inv in E as (t & w1 & E1 & E2). unfold deref in E1. cbn in E1.
  rewrite (HP w Hw) in E1. injection E1 as <- <-. by eapply Hk.
Qed.

Lemma deref_named {B} idx r s (k : Session -> M world B) (Q : B -> world -> Prop) :
  triple (names idx r s) (k s) Q -> triple (names idx r s) (t ← deref (Some r); k t) Q.
Proof. apply deref_at. by intros w (_ & _ & ?). Qed.

Lemma names_sess {A} idx r s (m : M world A) : keeps sess_ok m -> triple (names idx r s) m (fun _ => sess_ok).
Proof. intros Hm. eapply triple_weaken; [exact Hm|by intros w [? _]|done]. Qed.

Lemma set_stage_ok s : session_ok s -> session_ok (set_stage 0x03 s).
Proof. intros [Hs Hr Hp]. split; [by right|done|done]. Qed.

Lemma assign_named idx r s s' : session_ok s' -> triple (names idx r s) (assign r s') (fun _ => names idx r s').
Proof.
  intros Hs. apply triple_modify. intros w (Hw & Hi & Hr). split; [|split; [done|]].
  - by eapply objs_insert_ok.
  - apply list_lookup_insert_eq. by eapply lookup_lt_Some.
Qed.

Lemma HandleData_sess p : keeps sess_ok (Manager.HandleData p).
Proof.
  unfold Manager.HandleData. apply keeps_bind; [auto with keeps|]. intros idx.
  apply get_named; [apply keeps_ret|]. intros r s Hs. apply deref_named.
  eapply triple_bind; [apply on_mem_names|]. intros nonce. eapply triple_bind; [apply on_mem_names|]. intros ct.
  destruct (Ikpsk2.ConsumeMessage _ _ _) as [pt|e]; [|by apply triple_ret; intros w [? _]].
  eapply triple_bind; [apply on_mem_names|]. intros []. destruct (stage s =? 3); [by apply triple_ret; intros w [? _]|].
  eapply triple_bind; [by apply assign_named, set_stage_ok|]. intros []. by apply triple_ret; intros w [? _].
Qed.

(** ** The answering side *)

(** A session that answers a hello, before it enters the store; [named] says
    that its peer id is already the one of the handshake. *)
Definition incoming (named : bool) (r : nat) w : Prop :=
  sess_ok w /\ (forall i, store (sm w) !! i <> Some (Some r)) /\
  exists s, objs w !! r = Some s /\ initiator s = false /\ stage s = 0x02 /\ Ikpsk2.initiator (handshake s) = false /\
    (named = true -> remotePeerID s = NewPeerID (Ikpsk2.RemotePublicKey (handshake s))).

Lemma on_mem_incoming {A} (m : M heap A) b r : keeps (incoming b r) (on_mem m).
Proof. apply (triple_zoom mem_lens m (fun _ => True) (fun _ _ => True)); [done|done|]. by intros w a h Hw _. Qed.
#[local] Hint Resolve on_mem_incoming : keeps.

Lemma deref_incoming b r : keeps (incoming b r) (deref (Some r)).
Proof. intros w a w' Hw. unfold deref. cbn. destruct (objs w !! r); [|done]. by intros [= <- <-]. Qed.
#[local] Hint Resolve deref_incoming : keeps.

Lemma incoming_set w r s' b b' :
  incoming b r w -> initiator s' = false -> stage s' = 0x02 -> Ikpsk2.initiator (handshake s') = false ->
  (b' = true -> remotePeerID s' = NewPeerID (Ikpsk2.RemotePublicKey (handshake s'))) ->
  incoming b' r (set_objs (<[r := s']> (objs w)) w).
Proof.
  intros (Hw & Hn & s & Hr & _) H1 H2 H3 H4. split; [|split; [exact Hn|]].
  - intros i x Hx. destruct (Hw i x Hx) as (q & t & -> & Hq & Ht). exists q, t. split; [done|]. split; [|done].
    cbn. rewrite list_lookup_insert_ne; [done|]. intros ->. by destruct (Hn i).
  - exists s'. split; [apply list_lookup_insert_eq; by eapply lookup_lt_Some|]. done.
Qed.

Lemma run_handshake_incoming {A} b b' r (f : Ikpsk2.Handshake -> Ikpsk2.Handshake * A) :
  (forall hs, Ikpsk2.initiator (f hs).1 = Ikpsk2.initiator hs) ->
  (b' = true -> b = true /\ forall hs, Ikpsk2.RemotePublicKey (f hs).1 = Ikpsk2.RemotePublicKey hs) ->
  triple (incoming b r) (run_handshake r f) (fun _ => incoming b' r).
Proof.
  intros Hf Hp w a w' Hw E. unfold run_handshake in E. apply bind_inv in E as (s & w1 & E1 & E).
  pose proof Hw as (_ & _ & s0 & Hr & Hi & Hs & Hh & Hb). unfold deref in E1. cbn in E1. rewrite Hr in E1. injection E1 as <- <-.
  pose proof (Hf (handshake s0)) as Hf0. destruct (f (handshake s0)) as [hs y] eqn:Ef. injection E as <- <-.
  eapply incoming_set; [exact Hw|done|done|cbn in *; congruence|]. intros Hb'. destruct (Hp Hb') as [Hbt Hpk].
  specialize (Hpk (handshake s0)). rewrite Ef in Hpk. cbn in *. rewrite (Hb Hbt). by rewrite Hpk.
Qed.

Lemma session_HandleHello_sess r p :
  triple (incoming false r) (Session.HandleHello r p) (fun x => incoming (match x.2 with None => true | _ => false end) r).
Proof.
  unfold Session.HandleHello. eapply triple_bind; [apply deref_incoming|]. intros s0. destruct (initiator s0); [by apply triple_ret|].
  do 4 (eapply triple_bind; [apply on_mem_incoming|]; intros ?).
  eapply triple_bind; [apply (run_handshake_incoming false false); [intros hs; apply ConsumeHello_role|done]|].
  intros [pt|e]; [|by apply triple_ret]. eapply triple_bind; [apply on_mem_incoming|]. intros q w y w' Hw E.
  apply bind_inv in E as (s & w1 & E1 & E). pose proof Hw as (_ & _ & s1 & Hr & Hi & Hs & Hh & _).
  unfold deref in E1. cbn in E1. rewrite Hr in E1. injection E1 as <- <-. injection E as <- <-. by eapply incoming_set.
Qed.

Lemma CreateResponse_sess r p : keeps (incoming true r) (CreateResponse r p).
Proof.
  unfold CreateResponse. keep. apply run_handshake_incoming; [intros hs; apply MakeResponse_same|].
  intros _. split; [done|]. intros hs. apply MakeResponse_same.
Qed.

(** The new session enters the store and is named once more. *)
Lemma Insert_incoming r : triple (incoming true r) (Manager.Insert r) (fun _ => sess_ok).
Proof.
  intros w a w' (Hw & _ & s & Hr & Hi & Hs & Hh & Hp) E.
  eapply (Insert_sess r s); [|split; [exact Hw|exact Hr]|exact E]. split; [left; by rewrite Hi|congruence|by apply Hp].
Qed.

Lemma new_obj_incoming hs :
  Ikpsk2.initiator hs = false -> triple sess_ok (new_obj (newSessionIncoming hs)) (fun r => incoming false r).
Proof.
  intros Hhs w r w' Hw [= <- <-]. split; [by intros i x; apply (new_obj_old w)|]. split.
  - intros i Hx. destruct (Hw i _ Hx) as (q & s & [= <-] & Hr & _). apply lookup_lt_Some in Hr. lia.
  - exists (newSessionIncoming hs). split; [apply lookup_snoc|]. done.
Qed.

Lemma HandleHello_sess p a : keeps sess_ok (Manager.HandleHello p a).
Proof.
  unfold Manager.HandleHello. apply keeps_bind; [apply keeps_gets|]. intros m.
  eapply triple_bind; [apply with_rand_look|]. intros [hs|e]; [|by apply triple_ret; intros ? [? _]].
  apply triple_pure. intros (e & e' & EN). apply NewHandshakeResponder_role in EN.
  eapply triple_bind; [by apply new_obj_incoming|]. intros r.
  eapply triple_bind; [apply session_HandleHello_sess|]. intros [q [er|]]; [by apply triple_ret; intros ? [? _]|].
  do 4 (eapply triple_bind; [apply on_mem_incoming|]; intros ?).
  eapply triple_bind; [apply CreateResponse_sess|]. intros [q2 [er|]]; [by apply triple_ret; intros ? [? _]|].
  eapply triple_bind; [apply Insert_incoming|]. intros i. eapply triple_bind; [apply on_mem_sess|]. intros [].
  eapply triple_bind; [apply deref_look|]. intros so.
  eapply triple_bind; [by apply assign_look; intros [Hs Hro Hp]; split|]. intros [].
  eapply triple_bind; [apply when_sess, SetRemoteAddr_sess|]. intros []. by apply triple_ret.
Qed.

(** ** The response *)

(** The sender index of a packet, read from a heap. *)
Definition index_in (p : SPacket) (idx : Z) (h : heap) : Prop :=
  slice_ok h (Buf (pkt p)) /\ 0 <= Offset p /\ Offset p + 8 <= s_cap (Buf (pkt p)) /\
  be_val (sub (arr h (s_arr (Buf (pkt p)))) (s_off (Buf (pkt p)) + (Offset p + 4)) 4) = idx.

Lemma be32_index p h v h' :
  slice_ok h (Buf (pkt p)) -> 0 <= Offset p -> ResponsePacket.SenderIndex p h = Ok (v, h') -> h' = h /\ index_in p v h.
Proof.
  intros Hs Ho E. unfold ResponsePacket.SenderIndex, be32_at in E. apply bind_inv in E as (t & h1 & E1 & E).
  apply bind_inv in E1 as (u & h2 & E2 & E1). apply assert_inv in E2 as [Hb [= -> ->]]. injection E1 as <- <-.
  apply bind_inv in E as (u' & h3 & E3 & E). apply assert_inv in E3 as [_ [= -> ->]]. injection E as <- <-.
  split; [done|]. split; [exact Hs|]. split; [done|]. split; [lia|]. unfold contents. cbn [s_arr s_off s_len].
  replace (Offset p + 8 - (Offset p + 4)) with 4 by lia. rewrite sub_sub, Z.add_0_r by (destruct Hs; lia). done.
Qed.

(** A write behind the header leaves it alone. *)
Lemma write_index p idx lo hi bs : Offset p + 8 <= lo -> keeps (index_in p idx) (buf_write (Buf (pkt p)) lo hi bs).
Proof.
  intros Hlo h a h' (Hs & Ho & Hc & Hv) E. pose proof (mono_grows _ _ _ _ (mono_write _ _ _ _) E) as Hg.
  unfold buf_write in E. apply bind_inv in E as (t & h1 & E1 & E). apply bind_inv in E1 as (u & h2 & E2 & E1).
  apply assert_inv in E2 as [Hb [= -> ->]]. injection E1 as <- <-. injection E as <- <-. cbn [s_arr s_off s_len] in *.
  split; [by eapply grows_slice_ok|]. split; [done|]. split; [done|]. rewrite <- Hv. f_equal. destruct Hs as (H1 & H2 & H3).
  assert (Hlt : (s_arr (Buf (pkt p)) < length h)%nat).
  { destruct (decide (s_arr (Buf (pkt p)) < length h)%nat); [done|]. exfalso. revert H3. unfold arr.
    rewrite lookup_ge_None_2 by lia. change (zlen (default [] None)) with 0. lia. }
  assert (Hz : zlen (take (Z.to_nat (hi - lo)) bs) <= hi - lo) by (unfold zlen; rewrite length_take; lia).
  rewrite arr_upd_eq by done. apply sub_splice_lt; lia.
Qed.

Lemma SetPlaintext_index p idx pt :
  triple (index_in p idx) (ResponsePacket.SetPlaintext p pt) (fun q h => index_in q idx h /\ Offset q = Offset p).
Proof.
  unfold ResponsePacket.SetPlaintext. cbv zeta. set (q := set_len _ p). pose proof (zlen_nonneg pt).
  change (triple (index_in p idx)) with (triple (index_in q idx) (A := SPacket)).
  eapply triple_bind; [apply write_index; cbn; lia|]. intros []. eapply triple_bind; [apply write_index; cbn; lia|].
  intros []. by apply triple_ret.
Qed.

(** The session of a response and the index the response carries. *)
Definition answers (p : SPacket) (idx : Z) (r : nat) s w : Prop := names idx r s w /\ index_in p idx (mem w).

Lemma on_mem_answers {A} (m : M heap A) p idx r s (Q : A -> heap -> Prop) :
  triple (index_in p idx) m Q -> triple (answers p idx r s) (on_mem m) (fun a w => names idx r s w /\ Q a (mem w)).
Proof.
  intros Hm. apply (triple_zoom mem_lens m (index_in p idx) Q); [exact Hm|by intros w [_ ?]|].
  intros w a h [Hn _] Hq. by split.
Qed.

Lemma reading_index {A} (m : M heap A) p idx : (forall I, keeps I m) -> triple (index_in p idx) m (fun _ => index_in p idx).
Proof. intros Hm. apply Hm. Qed.

Lemma run_handshake_named {A} idx r s (f : Ikpsk2.Handshake -> Ikpsk2.Handshake * A) (J : heap -> Prop) :
  session_ok s -> same_peer (handshake s) (f (handshake s)).1 ->
  triple (fun w => names idx r s w /\ J (mem w)) (run_handshake r f)
    (fun a w => (names idx r (set_handshake (f (handshake s)).1 s) w /\ J (mem w)) /\ session_ok (set_handshake (f (handshake s)).1 s)).
Proof.
  intros Hs Hf w a w' [Hn HJ] E. unfold run_handshake in E. apply bind_inv in E as (t & w1 & E1 & E).
  pose proof Hn as (_ & _ & Hr). unfold deref in E1. cbn in E1. rewrite Hr in E1. injection E1 as <- <-.
  pose proof (set_handshake_ok s _ Hf Hs) as Hs'.
  destruct (f (handshake s)) as [hs y] eqn:Ef. apply bind_inv in E as ([] & w2 & E2 & [= <- <-]).
  split; [|exact Hs']. split; [by eapply (assign_named idx r s)|]. by injection E2 as <-.
Qed.

Lemma names_mem idx r s w h : names idx r s w -> names idx r s (over mem_lens h w).
Proof. done. Qed.

Lemma HandleHelloResponse_sess p idx r s :
  session_ok s ->
  triple (answers p idx r s) (HandleHelloResponse (Some r) p)
    (fun x w => sess_ok w /\ (x.2 = None -> exists s', answers x.1 idx r s' w /\ session_ok s')).
Proof.
  intros Hs. unfold HandleHelloResponse. apply (deref_at _ r s); [by intros w [(_ & _ & ?) _]|].
  destruct (negb (initiator s) || negb (stage s =? 1)); [by apply triple_ret; intros w [[? _] _]; split|].
  eapply triple_bind; [apply on_mem_answers, reading_index; intros I; unfold ResponsePacket.EphemeralKey, bytes_at, buf_read, reslice, s_read; keep|].
  intros eph. eapply triple_bind; [apply on_mem_answers, reading_index; intros I; unfold ResponsePacket.Empty, bytes_at, buf_read, reslice, s_read; keep|].
  intros empty. eapply triple_bind; [apply on_mem_answers, reading_index; intros I; unfold ResponsePacket.Ciphertext, reslice, s_read; keep|].
  intros ct. eapply triple_bind; [apply (run_handshake_named idx r s _ (index_in p idx)); [done|apply ConsumeResponse_same]|].
  set (s1 := set_handshake _ s). intros [pt|e]; [|by apply triple_ret; intros ? [[[? _] _] _]].
  apply triple_pure. intros Hs1.
  eapply triple_bind; [apply (on_mem_answers _ p idx r s1), SetPlaintext_index|]. intros q w2 x w' (Hn & Hi & _) E.
  apply bind_inv in E as (t & w3 & E3 & E). pose proof Hn as (Hok2 & _ & Hr2). unfold deref in E3. cbn in E3.
  rewrite Hr2 in E3. injection E3 as <- <-. case_bool_decide; cbn [negb] in E; [|by injection E as <- <-].
  apply bind_inv in E as ([] & w4 & E4 & [= <- <-]).
  pose proof (set_stage_ok s1 Hs1) as Hs2. pose proof (assign_named idx r s1 _ Hs2 _ _ _ Hn E4) as Hn4.
  split; [by destruct Hn4|]. intros _. exists (set_stage 3 s1). split; [|done]. split; [exact Hn4|]. by injection E4 as <-.
Qed.

Lemma HandleResponse_sess p a :
  0 <= Offset p -> triple (fun w => sess_ok w /\ slice_ok (mem w) (Buf (pkt p))) (Manager.HandleResponse p a) (fun _ => sess_ok).
Proof.
  intros Ho w x w' [Hw Hb] E. unfold Manager.HandleResponse in E. apply bind_inv in E as (idx & w1 & E1 & E).
  unfold on_mem, zoom in E1. cbn [view mem_lens] in E1.
  destruct (ResponsePacket.SenderIndex p (mem w)) as [[v h]| |] eqn:Es; try done. injection E1 as <- <-.
  destruct (be32_index p _ _ _ Hb Ho Es) as [-> Hi]. apply bind_inv in E as (g & w1 & [= <- <-] & E).
  unfold Manager.Get in E. cbn [sm over mem_lens] in E. destruct (store (sm w) !! v) as [y|] eqn:Ey; [|by injection E as <- <-].
  destruct (Hw v y Ey) as (r & s & -> & Hr & Hs). apply bind_inv in E as ([q e] & w2 & E2 & E).
  destruct (HandleHelloResponse_sess p v r s Hs (over mem_lens (mem w) w) (q, e) w2) as [Hw2 Hq];
    [split; [exact (conj Hw (conj Ey Hr))|exact Hi]|exact E2|]. cbn [fst snd] in *.
  destruct e as [e|]; [by injection E as <- <-|]. destruct (Hq eq_refl) as (s' & [(_ & Hv & _) Hi2] & _).
  apply bind_inv in E as (i1 & w3 & E3 & E). unfold on_mem, zoom in E3. cbn [view mem_lens] in E3.
  destruct (ResponsePacket.SenderIndex q (mem w2)) as [[v1 h1]| |] eqn:Es1; try done. injection E3 as <- <-.
  destruct (be32_index q _ _ _ (proj1 Hi2) (proj1 (proj2 Hi2)) Es1) as [-> Hi3].
  assert (v1 = v) as -> by (destruct Hi2 as (_ & _ & _ & <-); by destruct Hi3 as (_ & _ & _ & <-)).
  apply bind_inv in E as (i2 & w4 & E4 & E).
  assert (Hw4 : sess_ok w4 /\ store (sm w4) !! v = Some (Some r)).
  { unfold on_mem, zoom in E4. destruct (ResponsePacket.SessionIndex q _) as [[v2 h2]| |]; try done. by injection E4 as <- <-. }
  destruct Hw4 as [Hw4 Hv4]. apply bind_inv in E as ([] & w5 & [= <-] & E). rewrite Hv4 in E.
  pose proof (Swap_ok w4 v i2 (Some r) Hw4 Hv4) as Hw5.
  refine (keeps_use sess_ok _ _ _ _ Hw5 E _). keep.
Qed.
End operations.

(** ** Buffers *)

Section buffers.
Context `{Crypto, MaddrLib}.
Implicit Types (w : world) (s : Session).

Definition wgrows (h0 : heap) w : Prop := grows h0 (mem w).

(** A manager operation that keeps every slice in its bounds. *)
Definition wmono {A} (m : M world A) : Prop := forall h0, keeps (wgrows h0) m.

Lemma on_mem_grows {A} (m : M heap A) h0 : mono m -> keeps (wgrows h0) (on_mem m).
Proof. intros Hm. apply (triple_zoom mem_lens m (grows h0) (fun _ => grows h0)); [apply Hm|done|done]. Qed.
Lemma deref_grows r h0 : keeps (wgrows h0) (deref r).
Proof. intros w a w' Hw. unfold deref. destruct r as [r|]; cbn; [|done]. destruct (objs w !! r); [|done]. by intros [= <- <-]. Qed.
Lemma assign_grows r s h0 : keeps (wgrows h0) (assign r s).
Proof. by apply triple_modify. Qed.
Lemma new_obj_grows s h0 : keeps (wgrows h0) (new_obj s).
Proof. by intros w a w' Hw [= <- <-]. Qed.
Lemma with_rand_grows {A} (f : entropy -> res (A * entropy)) h0 : keeps (wgrows h0) (Manager.with_rand f).
Proof. intros w a w' Hw. unfold Manager.with_rand. destruct (f (rand w)) as [[b e]| |]; try done. by intros [= <- <-]. Qed.
Lemma Insert_grows r h0 : keeps (wgrows h0) (Manager.Insert r).
Proof. intros w a w' Hw. unfold Manager.Insert. destruct (Manager.insert_loop _ _ _) as [[b e]| |]; try done. by intros [= <- <-]. Qed.
Lemma Swap_grows i j h0 : keeps (wgrows h0) (Manager.Swap i j).
Proof. apply triple_modify. intros w Hw. cbv beta zeta. by destruct (store (sm w) !! i). Qed.
Lemma find_loop_grows p es h0 : keeps (wgrows h0) (Manager.find_loop p es).
Proof. induction es as [|[i r] es IH]; cbn [Manager.find_loop]; pose proof deref_grows; keep. Qed.
Lemma set_ranges_grows n h0 : keeps (wgrows h0) (modify (set_ranges n)).
Proof. by apply triple_modify. Qed.
#[local] Hint Resolve deref_grows assign_grows new_obj_grows with_rand_grows Insert_grows Swap_grows find_loop_grows set_ranges_grows : keeps.

(** The accessors of the session packets. *)
Ltac accessors :=
  unfold HelloPacket.SetSenderIndex, HelloPacket.SenderIndex, HelloPacket.Plaintext, HelloPacket.Ciphertext,
    HelloPacket.SetEphemeralKey, HelloPacket.SetStaticKey, HelloPacket.SetTimestamp, HelloPacket.SetCiphertext,
    HelloPacket.SetPlaintext, HelloPacket.EphemeralKey, HelloPacket.StaticKey, HelloPacket.Timestamp,
    ResponsePacket.NewResponsePacket, ResponsePacket.SetMsgType, ResponsePacket.SetSenderIndex, ResponsePacket.SenderIndex,
    ResponsePacket.SetSessionIndex, ResponsePacket.SessionIndex, ResponsePacket.Plaintext, ResponsePacket.Ciphertext,
    ResponsePacket.SetPlaintext, ResponsePacket.SetCiphertext, ResponsePacket.SetEphemeralKey, ResponsePacket.SetEmpty,
    ResponsePacket.EphemeralKey, ResponsePacket.Empty, DataPacket.SessionIndex, DataPacket.Nonce, DataPacket.Ciphertext,
    DataPacket.Plaintext, DataPacket.SetMsgType, DataPacket.SetSessionIndex, DataPacket.SetNonce, DataPacket.SetCiphertext,
    DataPacket.SetPlaintext.
Ltac wmonos := repeat (first [progress keep | apply on_mem_grows; accessors; monos]).

Lemma run_handshake_grows {A} r (f : Ikpsk2.Handshake -> Ikpsk2.Handshake * A) h0 : keeps (wgrows h0) (run_handshake r f).
Proof. unfold run_handshake. wmonos. Qed.
Lemma SetRemoteAddr_grows r a h0 : keeps (wgrows h0) (SetRemoteAddr r a).
Proof. unfold SetRemoteAddr. wmonos. Qed.
#[local] Hint Resolve run_handshake_grows SetRemoteAddr_grows : keeps.
Lemma when_grows b r a h0 : keeps (wgrows h0) (Manager.when b (SetRemoteAddr r a)).
Proof. unfold Manager.when. wmonos. Qed.
#[local] Hint Resolve when_grows : keeps.

Lemma s_CreateHello_grows r p h0 : keeps (wgrows h0) (Session.CreateHello r p).
Proof. unfold Session.CreateHello. wmonos. Qed.
Lemma s_HandleHello_grows r p h0 : keeps (wgrows h0) (Session.HandleHello r p).
Proof. unfold Session.HandleHello. wmonos. Qed.
Lemma s_CreateResponse_grows r p h0 : keeps (wgrows h0) (CreateResponse r p).
Proof. unfold CreateResponse. wmonos. Qed.
Lemma s_HandleResponse_grows r p h0 : keeps (wgrows h0) (HandleHelloResponse r p).
Proof. unfold HandleHelloResponse. wmonos. Qed.
#[local] Hint Resolve s_CreateHello_grows s_HandleHello_grows s_CreateResponse_grows s_HandleResponse_grows : keeps.

Lemma CreateHello_mono p pid a : wmono (Manager.CreateHello p pid a).
Proof. intros h0. unfold Manager.CreateHello. wmonos. Qed.
Lemma HandleHello_mono p a : wmono (Manager.HandleHello p a).
Proof. intros h0. unfold Manager.HandleHello. wmonos. Qed.
Lemma HandleResponse_mono p a : wmono (Manager.HandleResponse p a).
Proof. intros h0. unfold Manager.HandleResponse, Manager.when. wmonos. Qed.
Lemma CreateData_mono p pid : wmono (Manager.CreateData p pid).
Proof. intros h0. unfold Manager.CreateData, Manager.Find. wmonos. Qed.
Lemma HandleData_mono p : wmono (Manager.HandleData p).
Proof. intros h0. unfold Manager.HandleData. wmonos. Qed.

(** The packet an operation returns is the one it was given, in the same
    buffer. *)
Definition anything {T} (_ : T) : Prop := True.
Ltac skip := eapply (triple_bind _ _ _ (fun _ => anything)); [by intros ? ? ? _ _|intros ?].

Lemma on_mem_buf (m : M heap SPacket) (b : slice) :
  triple anything m (fun q _ => Buf (pkt q) = b) -> triple anything (on_mem m) (fun q _ => Buf (pkt q) = b).
Proof. intros Hm. apply (triple_zoom mem_lens m anything (fun q _ => Buf (pkt q) = b)); [exact Hm|done|done]. Qed.

Lemma hello_buf p ct : triple anything (HelloPacket.SetCiphertext p ct) (fun q _ => Buf (pkt q) = Buf (pkt p)).
Proof. unfold HelloPacket.SetCiphertext. cbv zeta. skip. by apply triple_ret. Qed.
Lemma response_buf p ct : triple anything (ResponsePacket.SetCiphertext p ct) (fun q _ => Buf (pkt q) = Buf (pkt p)).
Proof. unfold ResponsePacket.SetCiphertext. cbv zeta. skip. by apply triple_ret. Qed.

Lemma s_CreateHello_buf r p : triple anything (Session.CreateHello r p) (fun x _ => Buf (pkt x.1) = Buf (pkt p)).
Proof.
  unfold Session.CreateHello. skip. destruct (negb _); [by apply triple_ret|]. do 3 skip.
  match goal with x : _ + _ |- _ => destruct x as [[hdr ct]|e] end; [|by apply triple_ret].
  eapply triple_bind; [apply on_mem_buf; do 3 skip; apply hello_buf|]. intros q. by apply triple_ret.
Qed.

Lemma CreateResponse_buf r p : triple anything (CreateResponse r p) (fun x _ => Buf (pkt x.1) = Buf (pkt p)).
Proof.
  unfold CreateResponse. skip. destruct (initiator _); [by apply triple_ret|]. do 2 skip.
  match goal with x : _ + _ |- _ => destruct x as [[hdr ct]|e] end; [|by apply triple_ret].
  eapply triple_bind; [apply on_mem_buf; do 2 skip; apply response_buf|]. intros q. by apply triple_ret.
Qed.

Lemma CreateHello_buf p pid a : triple anything (Manager.CreateHello p pid a) (fun x _ => Buf (pkt x.1) = Buf (pkt p)).
Proof.
  unfold Manager.CreateHello. do 2 skip. match goal with x : _ + _ |- _ => destruct x as [hs|e] end; [|by apply triple_ret].
  do 4 skip. apply s_CreateHello_buf.
Qed.

Definition has_buf (b : slice) w : Prop := slice_ok (mem w) b.

Lemma wmono_buf {A} (m : M world A) b : wmono m -> keeps (has_buf b) m.
Proof. intros Hm w a w' Hw E. eapply grows_slice_ok; [|exact Hw]. eapply (Hm (mem w)); [|exact E]. unfold wgrows. reflexivity. Qed.

Lemma make_buf n : 0 <= n -> triple anything (on_mem (make_bytes n)) (fun b w => has_buf b w).
Proof.
  intros Hn. apply (triple_zoom mem_lens _ anything (fun b h => slice_ok h b)); [|done|done].
  intros h b h' _ E. unfold make_bytes in E. apply bind_inv in E as (u & h1 & E1 & [= <- <-]). apply assert_inv in E1 as [_ [= -> ->]].
  split; [done|]. cbn. unfold arr. rewrite lookup_app_r, Nat.sub_diag by lia. cbn. rewrite zlen_zeros by done. lia.
Qed.

(** The response is built in a buffer of its own. *)
Lemma HandleHello_buf p a :
  triple anything (Manager.HandleHello p a) (fun x w => x.2 = None -> slice_ok (mem w) (Buf (pkt x.1))).
Proof.
  unfold Manager.HandleHello. do 2 skip. match goal with x : _ + _ |- _ => destruct x as [hs|e] end; [|apply triple_ret; intros ? _; discriminate].
  do 2 skip. match goal with x : SPacket * _ |- _ => destruct x as [q [e|]] end; [apply triple_ret; intros ? _; discriminate|].
  eapply triple_bind; [by apply make_buf|]. intros b.
  eapply (triple_bind _ _ _ (fun q2 w => has_buf (Buf (pkt q2)) w)).
  { eapply triple_weaken; [eapply (triple_and (has_buf b) anything); [apply (wmono_buf _ b); intros h0; apply on_mem_grows; accessors; monos|]| |].
    - apply (on_mem_buf _ b). unfold ResponsePacket.NewResponsePacket. cbv zeta. skip. by apply triple_ret.
    - done.
    - by intros q2 w [Hb ->]. }
  intros q2. do 2 (eapply triple_bind; [apply (wmono_buf _ (Buf (pkt q2))); intros h0; apply on_mem_grows; accessors; monos|]; intros ?).
  eapply (triple_bind _ _ _ (fun x w => has_buf (Buf (pkt x.1)) w)).
  { eapply triple_weaken; [eapply (triple_and (has_buf (Buf (pkt q2))) anything);
      [apply wmono_buf; intros h0; apply s_CreateResponse_grows|apply CreateResponse_buf]|done|]. by intros x w [Hb ->]. }
  intros [q3 [e|]]; [apply triple_ret; intros ? _; discriminate|]. cbn [fst].
  apply (triple_weaken _ (has_buf (Buf (pkt q3))) _ _ (fun x w => has_buf (Buf (pkt q3)) w /\ x.1 = q3)); [|done|by intros x w [Hb ->]].
  do 5 (eapply triple_bind; [apply wmono_buf; intros h0; wmonos|]; intros ?). by apply triple_ret.
Qed.
End buffers.
