(* ===== verification/Node.v ===== *)
(** * Node: the queues and routines that tie the layers together
    (node/node.go, recv.go, send.go, transport.go, peer.go)

    A node owns the session manager, the forwarder, the routing table, its
    transports and eight packet queues. Each goroutine of the program is a loop
    that takes a packet from one queue and runs one handler; the handlers are
    the [do...] functions, and [..._turn] is one turn of the loop with its
    checks, in which an error is logged and forgotten. *)

From S2P Require Import Prelude GoMem Route Ext Toy Key PeerID Multiaddr Packet RingBuf Routing Forwarder SessionPacket Ikpsk2 Session.
Import Route PeerID Multiaddr Packet RingBuf Routing Forwarder SessionPacket Session.

Module Node.

Definition DirectUpperCodec : Z := 0x12347.
Definition DefaultQueueSize : Z := 1024.
Definition TransportBufferSize : Z := 1024.

(** A [chan int] that is only ever closed: not made, open, or closed. *)
Inductive runstate : Type := RNil | ROpen | RClosed.

(** The send closures of the forwarder: to a neighbour through the lower send
    queue, to ourselves through the upper receive queue. *)
Inductive sendFunc : Type := SendLower | RecvUpper.

Inductive error : Type :=
| EForwarder (e : Forwarder.error)
| ESession (e : Session.error)
| ERouting (e : Routing.error)
| ECodec
| EUnknownMsgType
| EUnknownLowerCodec
| EUnknownUpperCodec
| EHandler
| ErrRunning
| ErrNotRunning
| ECantListen
| EListenUDP
| ELog.            (* a check of a routine that logs and drops the packet *)

Section node.
Context `{Crypto, MaddrLib}.

(** The socket of a transport is the environment: what is sent ends up in
    [sent], what arrives is an argument of [recv_datagram]. *)
Record Transport : Type := mkTransport {
  listenAddr : Multiaddr;
  t_running : runstate;
  sendQ : RingBuffer Packet;
  sent : list (list Z * (NetIP.Addr * Z))
}.

(** Handlers are closures of the services: [UH] and [LH] name them. *)
Context {UH LH : Type}.

Record Node : Type := mkNode {
  peerid : PeerID;
  transports : list Transport;
  waiters : gmap PeerID (list nat);
  chans : list (option (option error));   (* [chan error] of capacity 1 *)
  sess : world;
  upperHandlers : gmap Z UH;
  lowerHandlers : gmap Z LH;
  fwd : Forwarder sendFunc;
  routing : Routing;
  running : runstate;
  helloSendQ : RingBuffer Packet;
  lowerSendQ : RingBuffer Packet;
  upperSendQ : RingBuffer Packet;
  helloRecvQ : RingBuffer Packet;
  lowerRecvQ : RingBuffer Packet;
  lowerMuxQ : RingBuffer Packet;
  upperRecvQ : RingBuffer Packet;
  upperMuxQ : RingBuffer Packet
}.

(** ** The parts of a node as lenses *)

Definition l_sess : lens Node world := Lens sess (fun x n =>
  mkNode (peerid n) (transports n) (waiters n) (chans n) x (upperHandlers n) (lowerHandlers n) (fwd n) (routing n)
    (running n) (helloSendQ n) (lowerSendQ n) (upperSendQ n) (helloRecvQ n) (lowerRecvQ n) (lowerMuxQ n) (upperRecvQ n)
    (upperMuxQ n)).
Definition l_transports : lens Node (list Transport) := Lens transports (fun x n =>
  mkNode (peerid n) x (waiters n) (chans n) (sess n) (upperHandlers n) (lowerHandlers n) (fwd n) (routing n)
    (running n) (helloSendQ n) (lowerSendQ n) (upperSendQ n) (helloRecvQ n) (lowerRecvQ n) (lowerMuxQ n) (upperRecvQ n)
    (upperMuxQ n)).
Definition set_waiters (x : gmap PeerID (list nat)) (c : list (option (option error))) (n : Node) : Node :=
  mkNode (peerid n) (transports n) x c (sess n) (upperHandlers n) (lowerHandlers n) (fwd n) (routing n)
    (running n) (helloSendQ n) (lowerSendQ n) (upperSendQ n) (helloRecvQ n) (lowerRecvQ n) (lowerMuxQ n) (upperRecvQ n)
    (upperMuxQ n).
Definition set_upperHandlers (x : gmap Z UH) (n : Node) : Node :=
  mkNode (peerid n) (transports n) (waiters n) (chans n) (sess n) x (lowerHandlers n) (fwd n) (routing n)
    (running n) (helloSendQ n) (lowerSendQ n) (upperSendQ n) (helloRecvQ n) (lowerRecvQ n) (lowerMuxQ n) (upperRecvQ n)
    (upperMuxQ n).
Definition set_lowerHandlers (x : gmap Z LH) (n : Node) : Node :=
  mkNode (peerid n) (transports n) (waiters n) (chans n) (sess n) (upperHandlers n) x (fwd n) (routing n)
    (running n) (helloSendQ n) (lowerSendQ n) (upperSendQ n) (helloRecvQ n) (lowerRecvQ n) (lowerMuxQ n) (upperRecvQ n)
    (upperMuxQ n).
Definition set_fwd (x : Forwarder sendFunc) (n : Node) : Node :=
  mkNode (peerid n) (transports n) (waiters n) (chans n) (sess n) (upperHandlers n) (lowerHandlers n) x (routing n)
    (running n) (helloSendQ n) (lowerSendQ n) (upperSendQ n) (helloRecvQ n) (lowerRecvQ n) (lowerMuxQ n) (upperRecvQ n)
    (upperMuxQ n).
Definition set_routing (x : Routing) (n : Node) : Node :=
  mkNode (peerid n) (transports n) (waiters n) (chans n) (sess n) (upperHandlers n) (lowerHandlers n) (fwd n) x
    (running n) (helloSendQ n) (lowerSendQ n) (upperSendQ n) (helloRecvQ n) (lowerRecvQ n) (lowerMuxQ n) (upperRecvQ n)
    (upperMuxQ n).
Definition set_running (x : runstate) (n : Node) : Node :=
  mkNode (peerid n) (transports n) (waiters n) (chans n) (sess n) (upperHandlers n) (lowerHandlers n) (fwd n) (routing n)
    x (helloSendQ n) (lowerSendQ n) (upperSendQ n) (helloRecvQ n) (lowerRecvQ n) (lowerMuxQ n) (upperRecvQ n)
    (upperMuxQ n).

(** The queues. *)
Inductive queue : Type :=
| HelloSend | LowerSend | UpperSend | HelloRecv | LowerRecv | LowerMux | UpperRecv | UpperMux.

Definition get_queue (q : queue) (n : Node) : RingBuffer Packet :=
  match q with
  | HelloSend => helloSendQ n | LowerSend => lowerSendQ n | UpperSend => upperSendQ n | HelloRecv => helloRecvQ n
  | LowerRecv => lowerRecvQ n | LowerMux => lowerMuxQ n | UpperRecv => upperRecvQ n | UpperMux => upperMuxQ n
  end.
Definition set_queue (q : queue) (x : RingBuffer Packet) (n : Node) : Node :=
  let s q' := if (match q, q' with
                  | HelloSend, HelloSend | LowerSend, LowerSend | UpperSend, UpperSend | HelloRecv, HelloRecv
                  | LowerRecv, LowerRecv | LowerMux, LowerMux | UpperRecv, UpperRecv | UpperMux, UpperMux => true
                  | _, _ => false end) then x else get_queue q' n in
  mkNode (peerid n) (transports n) (waiters n) (chans n) (sess n) (upperHandlers n) (lowerHandlers n) (fwd n) (routing n)
    (running n) (s HelloSend) (s LowerSend) (s UpperSend) (s HelloRecv) (s LowerRecv) (s LowerMux) (s UpperRecv)
    (s UpperMux).
Definition l_queue (q : queue) : lens Node (RingBuffer Packet) := Lens (get_queue q) (set_queue q).

Definition l_mem : lens Node heap := Lens (fun n => mem (sess n)) (fun h n => over l_sess (over mem_lens h (sess n)) n).
Definition l_routing : lens Node (Routing * heap) :=
  Lens (fun n => (routing n, mem (sess n))) (fun p n => set_routing (fst p) (over l_mem (snd p) n)).
Definition l_fwd : lens Node (Forwarder sendFunc * heap) :=
  Lens (fun n => (fwd n, mem (sess n))) (fun p n => set_fwd (fst p) (over l_mem (snd p) n)).

Definition put (q : queue) (pkt : Packet) : M Node unit := zoom (l_queue q) (Put pkt).
Definition putB (q : queue) (pkt : Packet) : M Node unit := zoom (l_queue q) (PutWithBackpressure pkt).

#[export] Instance l_mem_laws : LensLaws l_mem.
Proof. split; intros; [done|by destruct t as [? ? ? ? []]|done]. Qed.

(** The node as the host of its forwarder. *)
#[export] Program Instance node_host : FwdHost sendFunc Node := {
  host_fwd := fwd;
  host_heap := l_mem;
  host_run := fun f lpkt =>
    match f with
    | SendLower => _ ← putB LowerSend (LowerPacket.pkt lpkt); mret None
    | RecvUpper => _ ← put UpperRecv (LowerPacket.pkt lpkt); mret None
    end
}.
Next Obligation. done. Qed.

(** ** transport.go *)

Definition Running_ (r : runstate) : bool := match r with ROpen => true | _ => false end.

Definition set_trun (r : runstate) (t : Transport) : Transport := mkTransport (listenAddr t) r (sendQ t) (sent t).

(** [opened] says whether [net.ListenUDP] succeeds. *)
Definition NewTransport (lisaddr : Multiaddr) (opened : bool) : Transport + error :=
  match Protocols lisaddr with
  | [p0; p1] =>
      if negb (proto_Code p1 =? UDPMultiaddrCodec) then inr ECantListen else
      if (proto_Code p0 =? IP6MultiaddrCodec) || (proto_Code p0 =? IP4MultiaddrCodec)
      then if opened then inl (mkTransport lisaddr RNil (mkRing [] TransportBufferSize 0) []) else inr EListenUDP
      else inr ECantListen
  | _ => inr ECantListen
  end.

Definition TStart (t : Transport) : Transport * option error :=
  if Running_ (t_running t) then (t, Some ErrRunning) else (set_trun ROpen t, None).
Definition TStop (t : Transport) : Transport * option error :=
  if negb (Running_ (t_running t)) then (t, Some ErrNotRunning) else (set_trun RClosed t, None).

(** [transports[i].Send]. *)
Definition TSend (pkt : Packet) : M Transport unit := fun t =>
  match PutWithBackpressure pkt (sendQ t) with
  | Ok (_, q) => Ok (tt, mkTransport (listenAddr t) (t_running t) q (sent t))
  | Panic => Panic
  | Block => Block
  end.

(** One turn of [SendRoutine]: the datagram it writes to the socket. *)
Definition send_turn (i : nat) : M Node unit := fun n =>
  match transports n !! i with
  | None => Panic
  | Some t =>
      match Get (sendQ t) with
      | Ok (pkt, q) =>
          if Multiaddr.Empty (TptDst pkt)
          then Ok (tt, over l_transports (<[i := mkTransport (listenAddr t) (t_running t) q (sent t)]> (transports n)) n)
          else
            match (b ← Packet.Bytes pkt; s_read b) (mem (sess n)) with
            | Ok (bs, _) =>
                Ok (tt, over l_transports (<[i := mkTransport (listenAddr t) (t_running t) q
                          (sent t ++ [(bs, AddrPort (TptDst pkt))])]> (transports n)) n)
            | Panic => Panic
            | Block => Block
            end
      | Panic => Panic
      | Block => Block
      end
  end.

(** One turn of [RecvRoutine]: a datagram [bs] arrives from [ip], [port]; what
    does not fit the buffer is cut off. *)
Definition recv_datagram (bs : list Z) (ip : NetIP.Addr) (port : Z) : M Node unit :=
  buf ← zoom l_mem (make_bytes TptMTU);
  b ← zoom l_mem (Packet.Bytes (NewPacket buf));
  _ ← zoom l_mem (s_copy b bs);
  put LowerRecv (set_TptSrc (mkMultiaddr ip port emptyPeerID None)
                  (set_Length (Z.min (zlen bs) TptMTU) (NewPacket buf))).

(** ** node.go *)

Definition emptyQ : RingBuffer Packet := mkRing [] DefaultQueueSize 0.

(** [NewNode], for a process with the given heap, random source and clock. *)
Definition NewNode (privkey : Key.PrivateKey) (e : Key.entropy) (clock : list Z) (ord : map_order) (h : heap) : res Node :=
  let pid := NewPeerID (Key.PublicKey_ privkey) in
  let n := mkNode pid [] ∅ [] (mkWorld (Manager.NewSessionManager privkey) [] e clock ord 0 h) ∅ ∅
             NewForwarder NewRouting RNil emptyQ emptyQ emptyQ emptyQ emptyQ emptyQ emptyQ emptyQ in
  match zoom l_fwd (Attach pid RecvUpper) n with
  | Ok (_, n) => Ok n
  | Panic => Panic
  | Block => Block
  end.

Definition Running (n : Node) : bool := Running_ (running n).

Definition Start : M Node (option error) :=
  n ← gets id;
  if Running n then mret (Some ErrRunning) else
  _ ← modify (set_running ROpen);
  _ ← modify (fun n => over l_transports (map (fun t => fst (TStart t)) (transports n)) n);
  mret None.

Definition Stop : M Node (option error) :=
  n ← gets id;
  if negb (Running n) then mret (Some ErrNotRunning) else
  _ ← modify (set_running RClosed);
  _ ← modify (fun n => over l_transports (map (fun t => fst (TStop t)) (transports n)) n);
  mret None.

(** [PeerAPI.Listen] (peer.go). *)
Definition Listen (ma : Multiaddr) (opened : bool) : M Node (option error) :=
  match NewTransport ma opened with
  | inr e => mret (Some e)
  | inl t =>
      n ← gets id;
      let t := if Running n then fst (TStart t) else t in
      _ ← modify (fun n => over l_transports (transports n ++ [t]) n);
      mret None
  end.

(** The first half of [WaitFor]: a channel of capacity 1 joins the waiters. *)
Definition join_waiters (pid : PeerID) : M Node nat := fun n =>
  let ch := length (chans n) in
  let w := default [] (waiters n !! pid) in
  Ok (ch, set_waiters (<[pid := w ++ [ch]]> (waiters n)) (chans n ++ [None]) n).

(** [<-ch] and [ch <- err] on a channel of capacity 1. *)
Definition chan_take (ch : nat) : M Node (option error) := fun n =>
  match chans n !! ch with
  | Some (Some v) => Ok (v, set_waiters (waiters n) (<[ch := None]> (chans n)) n)
  | _ => Block
  end.
Definition chan_give (ch : nat) (v : option error) : M Node unit := fun n =>
  match chans n !! ch with
  | Some None => Ok (tt, set_waiters (waiters n) (<[ch := Some v]> (chans n)) n)
  | _ => Block
  end.

Definition WaitFor (pid : PeerID) : M Node (option error) :=
  ch ← join_waiters pid; chan_take ch.

Fixpoint give_all (chs : list nat) (v : option error) : M Node unit :=
  match chs with
  | [] => mret tt
  | ch :: chs => _ ← chan_give ch v; give_all chs v
  end.

(** The [err] assigned inside the block is a new variable: the outer one,
    which the waiters receive, is never assigned. The locks that the call takes one
    after the other, and what can hold it up there, are in Locks
    ([Calls.connectedCallback]). *)
Definition connectedCallback (pid : PeerID) (lower : bool) : M Node unit :=
  let err : option error := None in
  _ ← (if lower then
         r ← zoom l_fwd (Attach pid SendLower);
         match r with
         | (_, Some _) => mret tt
         | (slot, None) => zoom l_routing (AddRoute pid slot)
         end
       else mret tt);
  n ← gets id;
  match waiters n !! pid with
  | Some w =>
      _ ← give_all w err;
      modify (fun n => set_waiters (delete pid (waiters n)) (chans n) n)
  | None => mret tt
  end.

Definition Handle (codec : Z) (cb : UH) (n : Node) : Node :=
  match upperHandlers n !! codec with
  | Some _ => n
  | None => set_upperHandlers (<[codec := cb]> (upperHandlers n)) n
  end.
Definition HandleLower (codec : Z) (cb : LH) (n : Node) : Node :=
  match lowerHandlers n !! codec with
  | Some _ => n
  | None => set_lowerHandlers (<[codec := cb]> (lowerHandlers n)) n
  end.

Definition Connect (pid : PeerID) (raddr : Multiaddr) : M Node (option error) :=
  buf ← zoom l_mem (make_bytes TptMTU);
  let pkt := NewPacket buf in
  _ ← (if negb (Multiaddr.Empty raddr)
       then put HelloSend (set_TptDst raddr (Packet.set_LowerDst pid pkt))
       else put HelloSend (set_UpperDst pid pkt));
  WaitFor pid.

(** [transports[0].Send]; there may be none. *)
Definition sendTransport (pkt : Packet) : M Node (option error) := fun n =>
  match transports n with
  | [] => Panic
  | t :: ts =>
      match TSend pkt t with
      | Ok (_, t) => Ok (None, over l_transports (t :: ts) n)
      | Panic => Panic
      | Block => Block
      end
  end.

Definition SendUpper (upkt : UpperPacket.UpperPacket) : M Node (option error) :=
  _ ← putB UpperSend (UpperPacket.pkt upkt); mret None.

Definition set_upkt (f : Packet -> Packet) (u : UpperPacket.UpperPacket) : UpperPacket.UpperPacket :=
  UpperPacket.mkUpper (UpperPacket.Offset u) (UpperPacket.Padding u) (f (UpperPacket.pkt u)).
Definition set_lpkt (f : Packet -> Packet) (p : LowerPacket.LowerPacket) : LowerPacket.LowerPacket :=
  LowerPacket.mkLower (LowerPacket.Offset p) (f (LowerPacket.pkt p)).
Definition set_spkt (f : Packet -> Packet) (p : SPacket) : SPacket := set_pkt (f (pkt p)) p.

Section wire.
Context `{Varint, GoRuntime}.
Context (run_upper : UH -> UpperPacket.UpperPacket -> M Node (option error)).
Context (run_lower : LH -> LowerPacket.LowerPacket -> M Node (option error)).

Definition Send (to : PeerID) (codec : Z) (p : list Z) : M Node (option error) :=
  r ← gets routing;
  match GetRoute to r with
  | inr e => mret (Some (ERouting e))
  | inl route =>
      buf ← zoom l_mem (make_bytes TptMTU);
      let upkt := set_upkt (set_UpperDst to) (UpperPacket.NewUpperPacket (NewPacket buf)) in
      upkt ← zoom l_mem (
        _ ← UpperPacket.SetCodec upkt codec;
        _ ← UpperPacket.SetRoute upkt route;
        UpperPacket.SetPayload upkt p);
      SendUpper upkt
  end.

(** Errors of the forwarder and of the session manager, as the callers wrap
    them. *)
Definition fwd_err (m : M Node (option Forwarder.error)) : M Node (option error) :=
  e ← m; mret (EForwarder <$> e).

(** ** send.go *)

Definition doLowerHelloSend (pkt : Packet) : M Node (option error) :=
  hellopkt ← zoom l_mem (HelloPacket.NewHelloPacket pkt LowerOffset LowerPadding);
  x ← zoom l_sess (Manager.CreateHello hellopkt (LowerDst pkt) (TptDst pkt));
  match x with
  | (_, Some e) => mret (Some (ESession e))
  | (hellopkt, None) => sendTransport (SessionPacket.pkt hellopkt)
  end.

Definition doUpperHelloSend (pkt : Packet) : M Node (option error) :=
  hellopkt ← zoom l_mem (HelloPacket.NewHelloPacket pkt UpperOffset UpperPadding);
  x ← zoom l_sess (Manager.CreateHello hellopkt (UpperDst pkt) zeroMultiaddr);
  match x with
  | (_, Some e) => mret (Some (ESession e))
  | (hellopkt, None) =>
      r ← gets routing;
      match GetRoute (UpperDst pkt) r with
      | inr e => mret (Some (ERouting e))
      | inl route =>
          let upkt := UpperPacket.NewUpperPacket (SessionPacket.pkt hellopkt) in
          _ ← zoom l_mem (UpperPacket.SetRoute upkt route);
          fwd_err (SendPacket upkt)
      end
  end.

Definition doLowerSend (pkt : Packet) : M Node (option error) :=
  datapkt ← zoom l_mem (DataPacket.NewDataPacket pkt LowerOffset LowerPadding);
  x ← zoom l_sess (Manager.CreateData datapkt (LowerDst pkt));
  match x with
  | inr e => mret (Some (ESession e))
  | inl raddr => sendTransport (set_TptDst raddr (SessionPacket.pkt datapkt))
  end.

Definition doUpperSend (pkt : Packet) : M Node (option error) :=
  let upkt := UpperPacket.NewUpperPacket pkt in
  len ← zoom l_mem (UpperPacket.RouteLen upkt);
  if len =? HopLength then
    let lpkt := LowerPacket.NewLowerPacket (UpperPacket.pkt upkt) in
    _ ← zoom l_mem (LowerPacket.SetCodec lpkt DirectUpperCodec);
    _ ← putB LowerSend (Packet.set_LowerDst (UpperDst pkt) (LowerPacket.pkt lpkt));
    mret None
  else
    datapkt ← zoom l_mem (DataPacket.NewDataPacket (UpperPacket.pkt upkt) UpperOffset UpperPadding);
    x ← zoom l_sess (Manager.CreateData datapkt (UpperDst pkt));
    match x with
    | inr e => mret (Some (ESession e))
    | inl _ => fwd_err (SendPacket upkt)
    end.

(** ** recv.go *)

Definition doLowerHelloRecv (pkt : Packet) : M Node (option error) :=
  msgtype ← zoom l_mem (Packet.MsgType pkt);
  if msgtype =? HelloMsgType then
    hellopkt ← zoom l_mem (HelloPacket.NewHelloPacket pkt LowerOffset LowerPadding);
    x ← zoom l_sess (Manager.HandleHello hellopkt (TptSrc pkt));
    match x with
    | (_, Some e) => mret (Some (ESession e))
    | (resppkt, None) => sendTransport (set_TptDst (TptSrc (SessionPacket.pkt hellopkt)) (SessionPacket.pkt resppkt))
    end
  else if msgtype =? ResponseMsgType then
    resppkt ← zoom l_mem (ResponsePacket.NewResponsePacket pkt LowerOffset LowerPadding);
    x ← zoom l_sess (Manager.HandleResponse resppkt (TptSrc pkt));
    match x with
    | (_, _, Some e) => mret (Some (ESession e))
    | (_, pid, None) => _ ← connectedCallback pid true; mret None
    end
  else mret (Some EUnknownMsgType).

Definition doUpperHelloRecv (pkt : Packet) : M Node (option error) :=
  let upkt := UpperPacket.NewUpperPacket pkt in
  msgtype ← zoom l_mem (s_get (Buf pkt) UpperOffset);
  if msgtype =? HelloMsgType then
    hellopkt ← zoom l_mem (HelloPacket.NewHelloPacket (UpperPacket.pkt upkt) UpperOffset UpperPadding);
    x ← zoom l_sess (Manager.HandleHello hellopkt zeroMultiaddr);
    match x with
    | (_, Some e) => mret (Some (ESession e))
    | (resppkt, None) =>
        let upkt2 := UpperPacket.NewUpperPacket (SessionPacket.pkt resppkt) in
        _ ← zoom l_mem (rt ← UpperPacket.Route_ upkt; rev ← Reverse rt; UpperPacket.SetRoute upkt2 rev);
        n ← gets id;
        fwd_err (SendPacket (set_upkt (set_LowerSrc (peerid n)) upkt2))
    end
  else if msgtype =? ResponseMsgType then
    resppkt ← zoom l_mem (ResponsePacket.NewResponsePacket (UpperPacket.pkt upkt) UpperOffset UpperPadding);
    x ← zoom l_sess (Manager.HandleResponse resppkt zeroMultiaddr);
    match x with
    | (_, _, Some e) => mret (Some (ESession e))
    | (_, pid, None) => _ ← connectedCallback pid false; mret None
    end
  else mret (Some EUnknownMsgType).

Definition doLowerRecv (pkt : Packet) : M Node (option error) :=
  datapkt ← zoom l_mem (DataPacket.NewDataPacket pkt LowerOffset LowerPadding);
  x ← zoom l_sess (Manager.HandleData datapkt);
  match x with
  | inr e => mret (Some (ESession e))
  | inl (pid, firstdata) =>
      _ ← (if (firstdata : bool) then connectedCallback pid true else mret tt);
      _ ← put LowerMux (set_LowerSrc pid (SessionPacket.pkt datapkt));
      mret None
  end.

Definition doLowerMux (pkt : Packet) : M Node (option error) :=
  let lowpkt := LowerPacket.NewLowerPacket pkt in
  c ← zoom l_mem (LowerPacket.Codec lowpkt);
  match c with
  | None => mret (Some ECodec)
  | Some codec =>
      if codec =? DataMulticodec then fwd_err (HandlePacket lowpkt) else
      if codec =? DirectUpperCodec then
        _ ← put UpperMux (set_UpperSrc (LowerSrc pkt) (LowerPacket.pkt lowpkt)); mret None
      else
      n ← gets id;
      match lowerHandlers n !! codec with
      | None => mret (Some EUnknownLowerCodec)
      | Some cb => run_lower cb lowpkt
      end
  end.

Definition doUpperRecv (pkt : Packet) : M Node (option error) :=
  let upkt := UpperPacket.NewUpperPacket pkt in
  datapkt ← zoom l_mem (DataPacket.NewDataPacket (UpperPacket.pkt upkt) UpperOffset UpperPadding);
  x ← zoom l_sess (Manager.HandleData datapkt);
  match x with
  | inr e => mret (Some (ESession e))
  | inl (pid, firstdata) =>
      _ ← (if (firstdata : bool) then connectedCallback pid false else mret tt);
      rev ← zoom l_mem (rt ← UpperPacket.Route_ upkt; Reverse rt);
      _ ← zoom l_routing (AddRoute pid rev);
      _ ← put UpperMux (set_UpperSrc pid (SessionPacket.pkt datapkt));
      mret None
  end.

Definition doUpperMux (pkt : Packet) : M Node (option error) :=
  let upkt := UpperPacket.NewUpperPacket pkt in
  c ← zoom l_mem (UpperPacket.Codec upkt);
  match c with
  | None => mret (Some ECodec)
  | Some codec =>
      n ← gets id;
      match upperHandlers n !! codec with
      | None => mret (Some EUnknownUpperCodec)
      | Some cb => run_upper cb upkt
      end
  end.

(** ** One turn of each routine *)

(** Takes the next packet of a queue; an empty queue waits. *)
Definition take (q : queue) : M Node Packet := zoom (l_queue q) Get.

Definition helloSend_turn : M Node (option error) :=
  pkt ← take HelloSend;
  if PeerID.Empty (LowerDst pkt) then
    if PeerID.Empty (UpperDst pkt) then mret (Some ELog) else doUpperHelloSend pkt
  else
    if Multiaddr.Empty (TptDst pkt) then mret (Some ELog) else
    if PeerID.Empty (LowerDst pkt) then mret (Some ELog) else doLowerHelloSend pkt.

Definition lowerSend_turn : M Node (option error) :=
  pkt ← take LowerSend;
  if PeerID.Empty (LowerDst pkt) then mret (Some ELog) else doLowerSend pkt.

Definition upperSend_turn : M Node (option error) :=
  pkt ← take UpperSend;
  if PeerID.Empty (UpperDst pkt) then mret (Some ELog) else doUpperSend pkt.

Definition helloRecv_turn : M Node (option error) :=
  pkt ← take HelloRecv;
  if PeerID.Empty (LowerSrc pkt) then
    if Multiaddr.Empty (TptSrc pkt) then mret (Some ELog) else doLowerHelloRecv pkt
  else doUpperHelloRecv pkt.

Definition lowerRecv_turn : M Node (option error) :=
  pkt ← take LowerRecv;
  msgtype ← zoom l_mem (Packet.MsgType pkt);
  if msgtype =? DataMsgType then doLowerRecv pkt
  else if (msgtype =? HelloMsgType) || (msgtype =? ResponseMsgType) then _ ← put HelloRecv pkt; mret None
  else mret (Some ELog).

Definition lowerMux_turn : M Node (option error) :=
  pkt ← take LowerMux;
  if PeerID.Empty (LowerSrc pkt) then mret (Some ELog) else doLowerMux pkt.

Definition upperRecv_turn : M Node (option error) :=
  pkt ← take UpperRecv;
  msgtype ← zoom l_mem (s_get (Buf pkt) UpperOffset);
  if msgtype =? DataMsgType then doUpperRecv pkt
  else if (msgtype =? HelloMsgType) || (msgtype =? ResponseMsgType) then _ ← put HelloRecv pkt; mret None
  else mret (Some ELog).

Definition upperMux_turn : M Node (option error) :=
  pkt ← take UpperMux; doUpperMux pkt.
End wire.
End node.
Arguments Node {_ _} UH LH.
End Node.
Import Node.

(** ** Executing a node *)

Section exec.
Context `{Crypto, MaddrLib} {UH LH : Type}.
Implicit Types (n : Node UH LH).

Lemma mem_step {A B} (f : M heap A) (k : A -> M (Node UH LH) B) n a h :
  f (mem (sess n)) = Ok (a, h) -> (zoom l_mem f ≫= k) n = k a (over l_mem h n).
Proof. intros E. unfold zoom, mbind, M_bind. cbn [view l_mem]. by rewrite E. Qed.

Lemma sess_step {A B} (f : M world A) (k : A -> M (Node UH LH) B) n a w :
  f (sess n) = Ok (a, w) -> (zoom l_sess f ≫= k) n = k a (over l_sess w n).
Proof. intros E. unfold zoom, mbind, M_bind. cbn [view l_sess]. by rewrite E. Qed.

(** Queues: one packet into an empty queue, and out of it again. *)
Definition idle (q : queue) n : Prop := ch (get_queue q n) = [] /\ 1 <= cap (get_queue q n).
Definition holding (q : queue) (p : Packet) n : Prop := ch (get_queue q n) = [p].

Definition push (q : queue) (p : Packet) n : Node UH LH :=
  set_queue q (mkRing [p] (cap (get_queue q n)) (dropped (get_queue q n))) n.
Definition pop (q : queue) n : Node UH LH :=
  set_queue q (mkRing [] (cap (get_queue q n)) (dropped (get_queue q n))) n.

Lemma put_idle q p n : idle q n -> put q p n = Ok (tt, push q p n).
Proof.
  intros [E Hc]. unfold put, zoom. cbn [view l_queue].
  rewrite Put_room by (unfold Length; rewrite E; change (zlen []) with 0; lia). by rewrite E.
Qed.

Lemma put_step {B} q p (k : unit -> M (Node UH LH) B) n :
  idle q n -> (put q p ≫= k) n = k tt (push q p n).
Proof. intros Hq. by erewrite bind_ok by (by apply put_idle). Qed.

Lemma putB_step {B} q p (k : unit -> M (Node UH LH) B) n :
  idle q n -> (putB q p ≫= k) n = k tt (push q p n).
Proof.
  intros [E Hc]. unfold putB, PutWithBackpressure, chan_send, zoom, mbind, M_bind. cbn [view l_queue].
  rewrite E. replace (zlen [] <? _) with true by (change (zlen []) with 0; lia). done.
Qed.

Lemma take_step {B} q p (k : Packet -> M (Node UH LH) B) n :
  holding q p n -> (Node.take q ≫= k) n = k p (pop q n).
Proof.
  intros E. unfold Node.take, Get, chan_recv, zoom, mbind, M_bind. cbn [view l_queue]. by rewrite E.
Qed.

(** [Connect] up to [WaitFor]: the packet of the hello is queued. *)
Definition connect_put (pid : PeerID) (raddr : Multiaddr) : M (Node UH LH) unit :=
  buf ← zoom l_mem (make_bytes TptMTU);
  let pkt := NewPacket buf in
  if negb (Multiaddr.Empty raddr)
  then put HelloSend (set_TptDst raddr (Packet.set_LowerDst pid pkt))
  else put HelloSend (set_UpperDst pid pkt).

Lemma Connect_cut pid raddr n :
  Connect pid raddr n = (_ ← connect_put pid raddr; ch ← join_waiters pid; chan_take ch) n.
Proof.
  unfold Connect, connect_put, WaitFor, mbind, M_bind. destruct (zoom l_mem (make_bytes TptMTU) n) as [[b n1]| |]; done.
Qed.

Lemma holding_push q p n : holding q p (push q p n).
Proof. by destruct q. Qed.

Lemma pop_push q p n : idle q n -> pop q (push q p n) = n.
Proof.
  intros [E _]. destruct n as [? ? ? ? ? ? ? ? ? ? [] [] [] [] [] [] [] []], q; cbn in *; by subst.
Qed.
End exec.

(** ** Sending to a neighbour *)

Section direct.
Context `{Crypto, MaddrLib, VarintLaws} {UH LH : Type}.
Implicit Types (n : Node UH LH) (h : heap).

(** The packet of a message to the neighbour [to]. *)
Definition msg_pkt (h : heap) (to : PeerID) (pl : list Z) : Packet :=
  set_Length (88 + zlen pl) (set_UpperDst to (NewPacket (fresh_buf h))).

Lemma Send_spec {B} (k : option error -> M (Node UH LH) B) n to codec pl route (h := mem (sess n)) :
  GetRoute to (routing n) = inl route -> route_ok h route -> Len route <= 14 ->
  0 <= codec < 2 ^ 28 -> zlen pl <= UpperMTU -> idle UpperSend n ->
  (s_arr (hops route) < length h)%nat ->
  (Send to codec pl ≫= k) n =
    k None (push UpperSend (msg_pkt h to pl)
      (over l_mem (h ++ [upper_image (zeros TptMTU) codec (bytes_of h route) pl]) n)).
Proof.
  intros Hg Hr Hl Hc Hp Hq Ha. change UpperMTU with 1364 in Hp. unfold Send.
  unfold mbind at 1, M_bind at 1. erewrite bind_ok by reflexivity. rewrite Hg.
  erewrite mem_step by apply make_bytes_TptMTU. fold h.
  erewrite mem_step.
  2: { cbn [mem sess over l_mem l_sess mem_lens].
    eapply (build_upper_full (set_UpperDst to (NewPacket (fresh_buf h)))); [apply full_fresh|cbn; change (zlen (zeros TptMTU)) with 1452; lia
      | |exact Hl|cbn; lia|exact Hc].
    by apply slice_ok_app. }
  unfold SendUpper. rewrite (putB_step UpperSend) by exact Hq.
  cbn [Buf set_UpperDst NewPacket fresh_buf s_arr]. rewrite upd_snoc.
  unfold bytes_of. by rewrite contents_app.
Qed.

(** A packet whose label has one hop goes straight to the neighbour. *)
Lemma upperSend_direct {B} (k : option error -> M (Node UH LH) B) n pkt l :
  holding UpperSend pkt n -> PeerID.Empty (UpperDst pkt) = false ->
  full (mem (sess n)) (Buf pkt) l -> 36 <= zlen l -> getz l 21 = HopLength -> idle LowerSend n ->
  (upperSend_turn ≫= k) n =
    k None (push LowerSend (Packet.set_LowerDst (UpperDst pkt) pkt)
      (over l_mem (upd (mem (sess n)) (s_arr (Buf pkt)) (splice l 16 (varint_To DirectUpperCodec))) (pop UpperSend n))).
Proof.
  intros Hh Hne Hf Hl H1h Hq. unfold upperSend_turn. unfold mbind at 1, M_bind at 1.
  rewrite (take_step _ _ _ _ Hh), Hne. unfold doUpperSend, UpperPacket.RouteLen, FwdOffset. cbv zeta.
  cbn [UpperPacket.NewUpperPacket UpperPacket.pkt].
  erewrite mem_step; [|cbn [mem sess pop set_queue over l_mem l_sess mem_lens]; apply (s_get_full _ _ l); [exact Hf|lia]].
  change (20 + 1) with 21. rewrite H1h, Z.eqb_refl.
  erewrite mem_step.
  2: { cbn [mem sess pop set_queue over l_mem l_sess mem_lens].
    apply (LowerSetCodec_full (LowerPacket.NewLowerPacket pkt) DirectUpperCodec _ l); cbn; [exact Hf|lia|lia|].
    unfold DirectUpperCodec. lia. }
  rewrite putB_step by exact Hq. done.
Qed.

(** A packet for a neighbour is sealed and handed to the transport: the node
    with the packet's bytes [l'] waiting in the queue of its first transport. *)
Definition sealed_out n pkt t ts r s hi i' l' : Node UH LH :=
  over l_transports (mkTransport (listenAddr t) (t_running t)
      (mkRing [set_TptDst (remoteAddr s) pkt] (cap (sendQ t)) (dropped (sendQ t))) (sent t) :: ts)
    (over l_sess (mkWorld (sm (sess n)) (<[r := set_handshake hi s]> (objs (sess n))) (rand (sess n)) (now (sess n))
      (order (sess n)) i' (upd (mem (sess n)) (s_arr (Buf pkt)) l')) (pop LowerSend n)).

Lemma lowerSend_spec {B} (k : option error -> M (Node UH LH) B) n pkt l t ts r idx s hi hdr ct i' (len := Packet.Length pkt) :
  holding LowerSend pkt n -> PeerID.Empty (LowerDst pkt) = false ->
  full (mem (sess n)) (Buf pkt) l -> 32 <= len <= zlen l ->
  transports n = t :: ts -> ch (sendQ t) = [] -> 1 <= cap (sendQ t) ->
  (forall h', Manager.Find (LowerDst pkt) (over mem_lens h' (sess n)) =
     Ok (Some (r, idx), set_ranges i' (over mem_lens h' (sess n)))) ->
  objs (sess n) !! r = Some s ->
  Ikpsk2.MakeMessage (sub l 16 (len - 32)) (handshake s) = (hi, inl (hdr, ct)) ->
  zlen ct = len - 16 -> array 8 (Ikpsk2.mh_Nonce hdr) ->
  exists l',
    (lowerSend_turn ≫= k) n = k None (sealed_out n pkt t ts r s hi i' l') /\
    full (upd (mem (sess n)) (s_arr (Buf pkt)) l') (Buf pkt) l' /\ zlen l' = zlen l /\
    data_layout l' 0 len idx (Ikpsk2.mh_Nonce hdr) ct /\ (is_bytes l -> is_bytes ct -> is_bytes l').
Proof.
  intros Hh Hne Hf Hlen Ht Hch Hcap HF Hs EM Hct Hn. subst len. unfold lowerSend_turn. unfold mbind at 1, M_bind at 1.
  rewrite (take_step _ _ _ _ Hh), Hne. unfold doLowerSend.
  set (p := mkSPacket LowerOffset LowerPadding pkt).
  set (l1 := splice l 0 (le_bytes 4 DataMsgType)).
  erewrite mem_step.
  2: { cbn [mem sess pop set_queue over l_mem l_sess mem_lens]. unfold DataPacket.NewDataPacket. cbv zeta. fold p.
    erewrite bind_ok by (apply (put_le32_at_full p 0 _ _ l); unfold p, LowerOffset; cbn [Offset SessionPacket.pkt]; [exact Hf|lia|lia]). reflexivity. }
  cbn [Offset p]. change (LowerOffset + 0) with 0. fold l1.
  assert (Hz1 : zlen l1 = zlen l) by (unfold l1; zl). unfold sealed_out.
  destruct (sess n) as [m os e nw ord i h] eqn:Es. cbn [mem objs sm rand now order ranges] in *.
  destruct (CreateData_spec p (LowerDst pkt) m os e nw ord i i' (upd h (s_arr (Buf pkt)) l1) l1 r idx s hi hdr ct)
    as (l' & E & Hdl & (Hz' & _) & Hb); unfold p, LowerOffset, LowerPadding; cbn [Offset Padding SessionPacket.pkt];
    try (rewrite ?Z.sub_0_r; done || lia).
  { exact (HF (upd h (s_arr (Buf pkt)) l1)). }
  { unfold l1. eapply full_upd; [exact Hf|exact Hz1]. }
  { replace (Packet.Length pkt - 0 - 16 - (0 + 16)) with (Packet.Length pkt - 32) by lia.
    unfold l1. rewrite sub_splice_ge by zl. exact EM. }
  erewrite sess_step.
  2: { cbn [sess pop set_queue over l_mem l_sess mem_lens]. rewrite Es. exact E. }
  cbn [SessionPacket.pkt p Buf]. rewrite upd_upd. unfold sendTransport. cbn [transports over l_sess l_mem pop set_queue].
  rewrite Ht. unfold TSend, PutWithBackpressure, chan_send. rewrite Hch.
  replace (zlen [] <? cap (sendQ t)) with true by (change (zlen []) with 0; lia).
  exists l'. split; [reflexivity|].
  split; [eapply full_upd; [exact Hf|lia]|]. rewrite Z.sub_0_r in Hdl. split; [lia|]. split; [exact Hdl|].
  intros. apply Hb; [|done]. unfold l1. auto with rovy.
Qed.

(** The transport writes the packet's bytes to the socket. *)
Lemma send_turn_spec n pkt l t ts c dr ss :
  transports n = mkTransport (listenAddr t) (t_running t) (mkRing [pkt] c dr) ss :: ts ->
  Multiaddr.Empty (TptDst pkt) = false -> full (mem (sess n)) (Buf pkt) l -> 0 <= Packet.Length pkt <= zlen l ->
  send_turn 0 n = Ok (tt, over l_transports (mkTransport (listenAddr t) (t_running t) (mkRing [] c dr)
      (ss ++ [(sub l 0 (Packet.Length pkt), AddrPort (TptDst pkt))]) :: ts) n).
Proof.
  intros Ht Hne Hf Hl. unfold send_turn. rewrite Ht. cbn [lookup list_lookup]. unfold Get, chan_recv. cbn [sendQ ch].
  rewrite Hne. unfold Packet.Bytes.
  erewrite bind_ok by (eapply reslice_window; [exact Hf|lia|lia]).
  unfold s_read, gets. erewrite window_contents by (exact Hf || lia). rewrite Z.sub_0_r. reflexivity.
Qed.

(** A transport after it has sent a datagram. *)
Definition has_sent (t : Transport) (d : list Z) (a : Multiaddr) : Transport :=
  mkTransport (listenAddr t) (t_running t) (sendQ t) (sent t ++ [(d, AddrPort a)]).

Lemma has_sent_ring t d a :
  ch (sendQ t) = [] ->
  mkTransport (listenAddr t) (t_running t) (mkRing [] (cap (sendQ t)) (dropped (sendQ t))) (sent t ++ [(d, AddrPort a)]) = has_sent t d a.
Proof. unfold has_sent. destruct t as [la tr [c0 k dr] se]. cbn. by intros ->. Qed.

(** ** Receiving from a neighbour *)

(** The packet made of a datagram. *)
Definition in_pkt (h : heap) (bs : list Z) (ip : NetIP.Addr) (port : Z) : Packet :=
  set_TptSrc (mkMultiaddr ip port emptyPeerID None) (set_Length (zlen bs) (NewPacket (fresh_buf h))).

Lemma recv_datagram_spec {B} (k : unit -> M (Node UH LH) B) n bs ip port (h := mem (sess n)) :
  zlen bs <= TptMTU -> idle LowerRecv n ->
  (recv_datagram bs ip port ≫= k) n =
    k tt (push LowerRecv (in_pkt h bs ip port) (over l_mem (h ++ [splice (zeros TptMTU) 0 bs]) n)).
Proof.
  intros Hl Hq. pose proof (zlen_nonneg bs). unfold recv_datagram. unfold mbind at 1, M_bind at 1.
  erewrite mem_step by apply make_bytes_TptMTU.
  erewrite mem_step.
  2: { cbn [mem sess over l_mem l_sess mem_lens]. unfold Packet.Bytes.
    eapply reslice_window; [apply full_fresh|by vm_compute|by vm_compute]. }
  erewrite mem_step.
  2: { cbn [mem sess over l_mem l_sess mem_lens]. apply window_copy; [apply full_fresh|by vm_compute|by vm_compute|].
    cbn [Packet.Length NewPacket s_len fresh_buf]. lia. }
  cbn [Buf NewPacket s_arr fresh_buf mem sess over l_mem l_sess mem_lens]. fold h. rewrite upd_snoc, Z.min_l by lia.
  by rewrite put_idle.
Qed.

(** A data packet from a neighbour is opened with the session its index names;
    the first one of a session tells the node that the neighbour is connected. *)
Lemma lowerRecv_opens {B} (k : option error -> M (Node UH LH) B) n pkt l r idx s nonce ct pt
    (len := Packet.Length pkt) :
  holding LowerRecv pkt n -> full (mem (sess n)) (Buf pkt) l -> 32 <= len <= zlen l -> 0 <= idx < 2 ^ 32 ->
  data_layout l 0 len idx nonce ct ->
  store (sm (sess n)) !! idx = Some (Some r) -> objs (sess n) !! r = Some s ->
  Ikpsk2.ConsumeMessage (Ikpsk2.mkMessageHeader nonce) ct (handshake s) = inl pt -> zlen pt + 16 = zlen ct ->
  exists l',
    (lowerRecv_turn ≫= k) n =
      (e ← (_ ← (if negb (stage s =? 0x03) then connectedCallback (remotePeerID s) true else mret tt);
            _ ← put LowerMux (set_LowerSrc (remotePeerID s) pkt); mret None);
       k e)
        (over l_sess (mkWorld (sm (sess n)) (<[r := set_stage 0x03 s]> (objs (sess n))) (rand (sess n)) (now (sess n)) (order (sess n)) (ranges (sess n))
           (upd (mem (sess n)) (s_arr (Buf pkt)) l')) (pop LowerRecv n)) /\
    full (upd (mem (sess n)) (s_arr (Buf pkt)) l') (Buf pkt) l' /\
    sub l' 16 (zlen pt) = pt /\ zlen l' = zlen l /\ (is_bytes l -> is_bytes pt -> is_bytes l').
Proof.
  intros Hh Hf Hlen Hidx Hlay Hst Hs EC Hpt. subst len. unfold lowerRecv_turn. unfold mbind at 1, M_bind at 1.
  rewrite (take_step _ _ _ _ Hh).
  erewrite mem_step; [|cbn [mem sess pop set_queue over l_mem l_sess mem_lens]; apply (MsgType_full _ _ l); [exact Hf|lia]].
  rewrite (dl_type _ _ _ _ _ _ Hlay). change (le_val _ =? DataMsgType) with true. cbv iota.
  unfold doLowerRecv. set (p := mkSPacket LowerOffset LowerPadding pkt).
  erewrite mem_step.
  2: { cbn [mem sess pop set_queue over l_mem l_sess mem_lens]. unfold DataPacket.NewDataPacket. cbv zeta. fold p.
    erewrite bind_ok by (eapply (put_type_same p); unfold p, LowerOffset; cbn [Offset SessionPacket.pkt];
      [exact Hf|lia|lia|apply (dl_type _ _ _ _ _ _ Hlay)]). reflexivity. }
  destruct (sess n) as [m os e nw ord i h] eqn:Es. cbn [mem objs sm rand now order ranges] in *.
  destruct (HandleData_spec p m os e nw ord i h l r s idx nonce ct pt) as (l' & E & Hpl & (Hz & _) & Hbl);
    unfold p, LowerOffset, LowerPadding; cbn [Offset Padding SessionPacket.pkt]; rewrite ?Z.sub_0_r; try done; try lia.
  erewrite sess_step.
  2: { cbn [sess pop set_queue over l_mem l_sess mem_lens mem sm objs rand now order ranges]. rewrite Es. exact E. }
  exists l'. split; [destruct n; cbn in Es; subst; reflexivity|]. split; [eapply full_upd; [exact Hf|done]|done].
Qed.

Lemma set_stage_same v (s : Session) : stage s = v -> set_stage v s = s.
Proof. intros <-. by destruct s. Qed.

Lemma lowerRecv_spec {B} (k : option error -> M (Node UH LH) B) n pkt l r idx s nonce ct pt (len := Packet.Length pkt) :
  holding LowerRecv pkt n -> full (mem (sess n)) (Buf pkt) l -> 32 <= len <= zlen l -> 0 <= idx < 2 ^ 32 ->
  data_layout l 0 len idx nonce ct ->
  store (sm (sess n)) !! idx = Some (Some r) -> objs (sess n) !! r = Some s -> stage s = 0x03 ->
  Ikpsk2.ConsumeMessage (Ikpsk2.mkMessageHeader nonce) ct (handshake s) = inl pt -> zlen pt + 16 = zlen ct ->
  idle LowerMux n ->
  exists l',
    (lowerRecv_turn ≫= k) n =
      k None (push LowerMux (set_LowerSrc (remotePeerID s) pkt)
        (over l_mem (upd (mem (sess n)) (s_arr (Buf pkt)) l') (pop LowerRecv n))) /\
    full (upd (mem (sess n)) (s_arr (Buf pkt)) l') (Buf pkt) l' /\
    sub l' 16 (zlen pt) = pt /\ zlen l' = zlen l /\ (is_bytes l -> is_bytes pt -> is_bytes l').
Proof.
  intros Hh Hf Hlen Hidx Hlay Hst Hs H3 EC Hpt Hq.
  destruct (lowerRecv_opens k n pkt l r idx s nonce ct pt Hh Hf Hlen Hidx Hlay Hst Hs EC Hpt) as (l' & E & Hrest).
  exists l'. split; [|exact Hrest]. rewrite E, H3. cbn [negb Z.eqb Pos.eqb].
  rewrite set_stage_same, list_insert_id by done.
  replace (over l_sess _ _) with (over l_mem (upd (mem (sess n)) (s_arr (Buf pkt)) l') (pop LowerRecv n)) by done.
  erewrite bind_ok; [reflexivity|]. erewrite bind_ok by reflexivity. rewrite put_step by exact Hq. reflexivity.
Qed.

(** A message from a neighbour passes to the upper layer as it is. *)
Lemma lowerMux_direct {B} run_lower (k : option error -> M (Node UH LH) B) n pkt l m :
  holding LowerMux pkt n -> PeerID.Empty (LowerSrc pkt) = false ->
  full (mem (sess n)) (Buf pkt) l -> 20 <= zlen l -> varint_From (sub l 16 4) = Some (DirectUpperCodec, m) ->
  idle UpperMux n ->
  (lowerMux_turn run_lower ≫= k) n = k None (push UpperMux (set_UpperSrc (LowerSrc pkt) pkt) (pop LowerMux n)).
Proof.
  intros Hh Hne Hf Hl Hv Hq. unfold lowerMux_turn. unfold mbind at 1, M_bind at 1.
  rewrite (take_step _ _ _ _ Hh), Hne. unfold doLowerMux. cbv zeta.
  erewrite mem_step.
  2: { cbn [mem sess pop set_queue over l_mem l_sess mem_lens]. unfold LowerPacket.Codec, LowerPacket.NewLowerPacket.
    cbn [LowerPacket.Offset LowerPacket.pkt]. erewrite bind_ok by (eapply buf_read_full; [exact Hf|lia|lia]).
    change (16 + 0 + 0) with 16. change (16 + 0 + 4 - 16) with 4. rewrite Hv. reflexivity. }
  cbn [fmap option_fmap option_map fst]. change (DirectUpperCodec =? DataMulticodec) with false. rewrite Z.eqb_refl.
  rewrite put_step by exact Hq. destruct n as [????[]]. reflexivity.
Qed.

(** The upper layer runs the handler that is registered for the codec. *)
Lemma upperMux_runs run_upper n pkt l codec m cb :
  holding UpperMux pkt n -> full (mem (sess n)) (Buf pkt) l -> 56 <= zlen l ->
  varint_From (sub l 52 4) = Some (codec, m) -> upperHandlers n !! codec = Some cb ->
  upperMux_turn run_upper n = run_upper cb (UpperPacket.NewUpperPacket pkt) (pop UpperMux n).
Proof.
  intros Hh Hf Hl Hv Hcb. unfold upperMux_turn. rewrite (take_step _ _ _ _ Hh). unfold doUpperMux. cbv zeta.
  erewrite mem_step.
  2: { cbn [mem sess pop set_queue over l_mem l_sess mem_lens].
    apply (Codec_full _ _ l); cbn [UpperPacket.NewUpperPacket UpperPacket.pkt UpperPacket.Offset]; [exact Hf|by vm_compute|].
    change (UpperOffset + 16) with 52. lia. }
  cbn [UpperPacket.NewUpperPacket UpperPacket.Offset]. change (UpperOffset + 16) with 52. rewrite Hv.
  cbn [fmap option_fmap option_map fst]. erewrite bind_ok by reflexivity. cbn [id upperHandlers pop set_queue over l_mem l_sess].
  rewrite Hcb. destruct n as [????[]]. reflexivity.
Qed.

(** ** From a node's [Send] to its neighbour's handler *)

(** What the sender's buffer holds when it is sealed. *)
Definition direct_image (codec : Z) (hops pl : list Z) : list Z :=
  splice (upper_image (zeros TptMTU) codec hops pl) 16 (varint_To DirectUpperCodec).

Lemma zlen_upper codec hops pl :
  0 <= codec < 2 ^ 28 -> zlen pl <= UpperMTU -> zlen hops = 1 -> zlen (upper_image (zeros TptMTU) codec hops pl) = TptMTU.
Proof.
  intros Hc Hp Hh. change UpperMTU with 1364 in Hp. pose proof (varint_To_4 codec Hc). pose proof (zlen_nonneg pl).
  pose proof (zlen_route_header 0 hops ltac:(lia)).
  unfold upper_image. change TptMTU with 1452. assert (zlen (zeros 1452) = 1452) by done. zl.
Qed.

Lemma zlen_direct codec hops pl :
  0 <= codec < 2 ^ 28 -> zlen pl <= UpperMTU -> zlen hops = 1 -> zlen (direct_image codec hops pl) = TptMTU.
Proof.
  intros Hc Hp Hh. pose proof (zlen_upper codec hops pl Hc Hp Hh) as E. change TptMTU with 1452 in *.
  pose proof (varint_To_4 DirectUpperCodec ltac:(unfold DirectUpperCodec; lia)).
  unfold direct_image. change TptMTU with 1452. zl.
Qed.

Lemma is_bytes_direct codec hops pl :
  zlen hops = 1 -> is_bytes hops -> is_bytes pl -> is_bytes (direct_image codec hops pl).
Proof.
  intros Hh Hb Hp. pose proof (is_bytes_route_header 0 hops ltac:(done) Hb ltac:(lia)). pose proof (varint_To_bytes codec).
  pose proof (varint_To_bytes DirectUpperCodec). unfold direct_image, upper_image. auto 10 with rovy.
Qed.

(** The plaintext of the lower session determines every field of the message. *)
Lemma direct_image_reads codec hops pl l :
  0 <= codec < 2 ^ 28 -> zlen pl <= UpperMTU -> zlen hops = 1 ->
  zlen l = TptMTU -> sub l 16 (56 + zlen pl) = sub (direct_image codec hops pl) 16 (56 + zlen pl) ->
  (exists m, varint_From (sub l 16 4) = Some (DirectUpperCodec, m)) /\
  (exists m, varint_From (sub l 52 4) = Some (codec, m)) /\
  sub l 21 2 = 1 :: hops /\ sub l 56 (zlen pl) = pl.
Proof.
  intros Hc Hp Hh Hl E. pose proof (zlen_direct codec hops pl Hc Hp Hh) as Hz. change TptMTU with 1452 in *.
  pose proof (zlen_nonneg pl). change UpperMTU with 1364 in Hp. pose proof (varint_To_4 codec Hc).
  pose proof (zlen_route_header 0 hops ltac:(lia)) as Hrh.
  pose proof (varint_To_4 DirectUpperCodec ltac:(unfold DirectUpperCodec; lia)).
  assert (zlen (zeros 1452) = 1452) by done.
  assert (Hat : forall o m : Z, 16 <= o -> 0 <= m -> o + m <= 72 + zlen pl ->
    sub l o m = sub (direct_image codec hops pl) o m).
  { intros o m Ho Hm Hom. replace o with (16 + (o - 16)) by lia.
    rewrite <- (sub_sub l 16 (56 + zlen pl)), E by lia. by rewrite sub_sub by lia. }
  rewrite !Hat by lia. unfold direct_image, upper_image. change TptMTU with 1452.
  split; [eexists; apply varint_read; unfold DirectUpperCodec; zl|].
  split; [|split].
  - eexists. rewrite sub_splice_ge, sub_splice_lt, sub_splice_ge by zl. by apply varint_read; zl.
  - rewrite sub_splice_ge, sub_splice_lt by zl. rewrite sub_splice_in by zl.
    destruct hops as [|x [|y hs]]; [done| |exfalso; revert Hh; rewrite !zlen_cons; pose proof (zlen_nonneg hs); lia].
    reflexivity.
  - rewrite sub_splice_ge by zl. apply sub_splice_eq; zl.
Qed.

(** The sender's turns: [Send] in the caller, then the upper and lower send
    routines and the transport's, each taking the packet the last one queued. *)
Definition send_run (to : PeerID) (codec : Z) (p : list Z) : M (Node UH LH) (option error) :=
  e ← Send to codec p; _ ← upperSend_turn; _ ← lowerSend_turn; _ ← send_turn 0; mret e.

Record ready_to_send n (to : PeerID) (route : Route) (t : Transport) (ts : list Transport) : Prop := {
  rs_route : GetRoute to (routing n) = inl route /\ route_ok (mem (sess n)) route /\ Len route = 1;
  rs_alloc : (s_arr (hops route) < length (mem (sess n)))%nat;
  rs_to : PeerID.Empty to = false;
  rs_queues : idle UpperSend n /\ idle LowerSend n;
  rs_transport : transports n = t :: ts /\ ch (sendQ t) = [] /\ 1 <= cap (sendQ t)
}.

Lemma send_run_spec n to codec pl route t ts r idx s hi hdr ct i' (hops := bytes_of (mem (sess n)) route) :
  ready_to_send n to route t ts -> 0 <= codec < 2 ^ 28 -> zlen pl <= UpperMTU ->
  (forall h', Manager.Find to (over mem_lens h' (sess n)) =
     Ok (Some (r, idx), set_ranges i' (over mem_lens h' (sess n)))) ->
  objs (sess n) !! r = Some s -> Multiaddr.Empty (remoteAddr s) = false ->
  Ikpsk2.MakeMessage (sub (direct_image codec hops pl) 16 (56 + zlen pl)) (handshake s) = (hi, inl (hdr, ct)) ->
  zlen ct = 72 + zlen pl -> array 8 (Ikpsk2.mh_Nonce hdr) ->
  exists n' d,
    send_run to codec pl n = Ok (None, n') /\
    map sent (transports n') = (sent t ++ [(d, AddrPort (remoteAddr s))]) :: map sent ts /\
    zlen d = 88 + zlen pl /\ data_layout d 0 (88 + zlen pl) idx (Ikpsk2.mh_Nonce hdr) ct /\
    sm (sess n') = sm (sess n) /\ objs (sess n') = <[r := set_handshake hi s]> (objs (sess n)).
Proof.
  intros [(Hg & Hr & Hl) Hal Hto [Hq1 Hq2] (Ht & Hch & Hcap)] Hc Hp HF Hs Hra EM Hct Hn.
  assert (Hh : zlen hops = 1) by (unfold hops, bytes_of; rewrite (zlen_contents _ _ Hr); exact Hl).
  pose proof (zlen_direct codec hops pl Hc Hp Hh) as Hz. change TptMTU with 1452 in Hz. pose proof (zlen_nonneg pl).
  unfold send_run. erewrite Send_spec by (done || lia). fold hops.
  set (h := mem (sess n)). set (img := upper_image (zeros TptMTU) codec hops pl).
  assert (Hzi : zlen img = 1452) by exact (zlen_upper codec hops pl Hc Hp Hh).
  assert (Hfi : full (h ++ [img]) (fresh_buf h) img) by (by apply full_snoc).
  assert (H21 : getz img 21 = HopLength).
  { pose proof (varint_To_4 codec Hc). pose proof (zlen_route_header 0 hops ltac:(lia)).
    change UpperMTU with 1364 in Hp. unfold img, upper_image. change TptMTU with 1452.
    assert (zlen (zeros 1452) = 1452) by done. rewrite getz_splice_out, getz_splice_in by zl. unfold route_header. exact Hh. }
  erewrite upperSend_direct; [|apply holding_push|exact Hto|exact Hfi|lia|exact H21|exact Hq2].
  match goal with |- context [over l_mem ?H (pop UpperSend _)] =>
    replace H with (h ++ [direct_image codec hops pl]) by (symmetry; apply upd_snoc) end.
  set (pkt := Packet.set_LowerDst _ _). set (n2 := push LowerSend pkt _).
  assert (HL : Packet.Length pkt = 88 + zlen pl) by done. change UpperMTU with 1364 in Hp.
  destruct (lowerSend_spec (fun _ => send_turn 0 ≫= fun _ => mret (@None error)) n2 pkt (direct_image codec hops pl) t ts
    r idx s hi hdr ct i') as (l3 & E3 & Hf3 & Hz3 & Hdl & _);
    rewrite ?HL, ?Hz; try done; try lia.
  { by apply full_snoc. }
  { replace (88 + zlen pl - 32) with (56 + zlen pl) by lia. exact EM. }
  rewrite E3. rewrite HL in Hdl. set (n3 := sealed_out n2 _ _ _ _ _ _ _ _).
  pose proof (send_turn_spec n3 (set_TptDst (remoteAddr s) pkt) l3 t ts (cap (sendQ t)) (dropped (sendQ t)) (sent t)
    eq_refl Hra Hf3) as E4. change (Packet.Length (set_TptDst _ pkt)) with (Packet.Length pkt) in E4. rewrite HL in E4.
  erewrite bind_ok by (apply E4; lia). eexists _, (sub l3 0 (88 + zlen pl)).
  split; [reflexivity|]. split; [reflexivity|]. split; [zl|]. split; [|done].
  pose proof (data_layout_prefix l3 0 0 (88 + zlen pl) idx (Ikpsk2.mh_Nonce hdr) ct) as E. rewrite Z.sub_0_r in E.
  apply E; lia || done.
Qed.

(** The receiver's turns: the transport's, the lower receive routine, the lower
    and the upper multiplexer. *)
Definition recv_run run_upper run_lower (bs : list Z) (ip : NetIP.Addr) (port : Z) : M (Node UH LH) (option error) :=
  _ ← recv_datagram bs ip port; _ ← lowerRecv_turn; _ ← lowerMux_turn run_lower; upperMux_turn run_upper.

Record ready_to_receive n (codec : Z) (cb : UH) : Prop := {
  rr_queues : idle LowerRecv n /\ idle LowerMux n /\ idle UpperMux n;
  rr_handler : upperHandlers n !! codec = Some cb
}.

Lemma data_layout_splice l d e idx nonce ct :
  zlen d <= zlen l -> 16 <= e <= zlen d ->
  data_layout d 0 e idx nonce ct -> data_layout (splice l 0 d) 0 e idx nonce ct.
Proof. intros ? ? [H1' H2' H3' H4']. by split; rewrite sub_splice_in, Z.sub_0_r by lia. Qed.

Lemma recv_run_spec run_upper run_lower n d ip port codec hops pl cb r idx s nonce ct :
  ready_to_receive n codec cb -> 0 <= codec < 2 ^ 28 -> zlen pl <= UpperMTU -> zlen hops = 1 ->
  zlen d = 88 + zlen pl -> 0 <= idx < 2 ^ 32 -> data_layout d 0 (88 + zlen pl) idx nonce ct ->
  store (sm (sess n)) !! idx = Some (Some r) -> objs (sess n) !! r = Some s -> stage s = 0x03 ->
  PeerID.Empty (remotePeerID s) = false ->
  Ikpsk2.ConsumeMessage (Ikpsk2.mkMessageHeader nonce) ct (handshake s) =
    inl (sub (direct_image codec hops pl) 16 (56 + zlen pl)) -> zlen ct = 72 + zlen pl ->
  exists n' pkt l,
    recv_run run_upper run_lower d ip port n = run_upper cb (UpperPacket.NewUpperPacket pkt) n' /\
    UpperSrc pkt = remotePeerID s /\ TptSrc pkt = mkMultiaddr ip port emptyPeerID None /\
    Packet.Length pkt = 88 + zlen pl /\
    full (mem (sess n')) (Buf pkt) l /\ zlen l = TptMTU /\ sub l 21 2 = 1 :: hops /\ sub l 56 (zlen pl) = pl /\
    sm (sess n') = sm (sess n) /\ objs (sess n') = objs (sess n).
Proof.
  intros [(Hq1 & Hq2 & Hq3) Hcb] Hc Hp Hh Hd Hidx Hdl Hst Hs H3 Hne EC Hct.
  pose proof (zlen_direct codec hops pl Hc Hp Hh) as Hz. pose proof (zlen_nonneg pl).
  unfold recv_run. change TptMTU with 1452 in *. pose proof Hp as Hp'. change UpperMTU with 1364 in Hp'.
  rewrite recv_datagram_spec by (change TptMTU with 1452; done || lia).
  set (h := mem (sess n)). set (pkt := in_pkt h d ip port). set (n1 := push LowerRecv pkt _).
  assert (Hz0 : zlen (zeros TptMTU) = 1452) by done.
  assert (HL : Packet.Length pkt = 88 + zlen pl) by exact Hd.
  assert (Hz1 : zlen (splice (zeros TptMTU) 0 d) = 1452) by zl.
  destruct (lowerRecv_spec (fun _ => _ ← lowerMux_turn run_lower; upperMux_turn run_upper) n1 pkt
    (splice (zeros TptMTU) 0 d) r idx s nonce ct
    (sub (direct_image codec hops pl) 16 (56 + zlen pl))) as (l' & E & Hf & Hpl & Hz' & _); rewrite ?HL; try done; try lia.
  { by apply full_snoc. }
  { apply data_layout_splice; lia || done. }
  { rewrite zlen_sub by lia. lia. }
  rewrite E. clear E. rewrite zlen_sub in Hpl by lia.
  destruct (direct_image_reads codec hops pl l' Hc Hp Hh ltac:(change TptMTU with 1452; lia) Hpl)
    as ((m1 & R1) & (m2 & R2) & R3 & R4).
  erewrite lowerMux_direct; [|apply holding_push|exact Hne|exact Hf|lia|exact R1|exact Hq3].
  erewrite upperMux_runs; [|apply holding_push|exact Hf|lia|exact R2|exact Hcb].
  eexists _, _, l'. split; [reflexivity|]. do 2 (split; [done|]). split; [exact HL|]. split; [exact Hf|].
  split; [lia|]. done.
Qed.
End direct.

(** ** Properties *)

Section delivery.
Context `{CryptoLaws, MaddrLib, VarintLaws} {UH LH : Type}.
Context (run_upper : UH -> UpperPacket.UpperPacket -> M (Node UH LH) (option error)).
Context (run_lower : LH -> LowerPacket.LowerPacket -> M (Node UH LH) (option error)).

(** What a handler reads from the packet it is given. *)
Lemma delivered_reads (pkt : Packet) h l hops pl :
  full h (Buf pkt) l -> zlen l = TptMTU -> Packet.Length pkt = 88 + zlen pl -> zlen pl <= UpperMTU -> zlen hops = 1 ->
  sub l 21 2 = 1 :: hops -> sub l 56 (zlen pl) = pl ->
  (exists s, UpperPacket.Payload (UpperPacket.NewUpperPacket pkt) h = Ok (s, h) /\ contents h s = pl) /\
  (exists rt, UpperPacket.Route_ (UpperPacket.NewUpperPacket pkt) h = Ok (rt, h) /\ bytes_of h rt = hops).
Proof.
  intros Hf Hl HL Hp Hh E1 E2. change TptMTU with 1452 in Hl. change UpperMTU with 1364 in Hp. pose proof (zlen_nonneg pl).
  split.
  - eexists. split.
    + eapply Payload_full; cbn [UpperPacket.NewUpperPacket UpperPacket.pkt UpperPacket.Offset UpperPacket.Padding];
        [exact Hf|change (UpperOffset + 16) with 52; lia|lia].
    + cbn [UpperPacket.NewUpperPacket UpperPacket.pkt UpperPacket.Offset UpperPacket.Padding].
      erewrite window_contents by (exact Hf || (change (UpperOffset + 16) with 52; lia)).
      rewrite HL. change (UpperOffset + 16 + 4) with 56. by replace (88 + zlen pl - 32 - 56) with (zlen pl) by lia.
  - assert (Hg : getz l 21 = 1) by (change 21 with (21 + 0); rewrite <- (getz_sub l 21 2) by lia; by rewrite E1).
    assert (Hs : sub l 22 1 = hops).
    { change 22 with (21 + 1). rewrite <- (sub_sub l 21 2 1 1) by lia. rewrite E1.
      destruct hops as [|x [|y hs]]; [done|done|exfalso; revert Hh; rewrite !zlen_cons; pose proof (zlen_nonneg hs); lia]. }
    unfold UpperPacket.Route_, FwdOffset. cbv zeta. cbn [UpperPacket.NewUpperPacket UpperPacket.pkt].
    erewrite bind_ok by (eapply s_get_full; [exact Hf|lia]). change (20 + 1) with 21. rewrite Hg.
    erewrite bind_ok by (eapply reslice_window; [exact Hf|lia|lia]). eexists. split; [reflexivity|].
    unfold bytes_of, NewRoute. cbn [Route.hops]. erewrite window_contents by (exact Hf || lia). exact Hs.
Qed.

(** C3: end to end between neighbours. One node has lower sessions with another,
    one or several, each of them complete at both ends and with the address of
    the other; whichever of them [Find] picks, a payload that the node gives to
    [Send] for the other goes through its upper and lower send queues and its
    transport as one datagram, no larger than [TptMTU] and addressed to the
    session's remote address; the other node, whatever address it came from,
    takes the datagram through its receive queue and both multiplexers to the
    handler registered for the codec, which sees the sender's identity, the same
    payload and the same label. The two ends stay joined. A session that is not
    complete, as a second [Connect] leaves it until it is answered, is
    excluded: [Find] may pick it, and then the payload is dropped
    ([second_hello_hides]). *)
Theorem node_direct_delivery (na nb : Node UH LH) (pa pb : PeerID)
    (route : Route) (t : Transport) (ts : list Transport) (codec : Z) (cb : UH) (pl : list Z) (ip : NetIP.Addr) (port : Z) :
  all_joined (sess na) (sess nb) pa pb ->
  (forall idx ra rb sa sb, joined (sess na) (sess nb) pa pb idx ra rb sa sb ->
    Multiaddr.Empty (remoteAddr sa) = false /\ stage sb = 0x03) ->
  ready_to_send na pb route t ts -> ready_to_receive nb codec cb -> PeerID.Empty pa = false ->
  0 <= codec < 2 ^ 28 -> zlen pl <= UpperMTU -> is_bytes pl -> is_bytes (bytes_of (mem (sess na)) route) ->
  exists idx ra rb sa sb na' d nb' pkt sa',
    joined (sess na) (sess nb) pa pb idx ra rb sa sb /\
    send_run pb codec pl na = Ok (None, na') /\
    map sent (transports na') = (sent t ++ [(d, AddrPort (remoteAddr sa))]) :: map sent ts /\ zlen d <= TptMTU /\
    recv_run run_upper run_lower d ip port nb = run_upper cb (UpperPacket.NewUpperPacket pkt) nb' /\
    UpperSrc pkt = pa /\
    (exists s, UpperPacket.Payload (UpperPacket.NewUpperPacket pkt) (mem (sess nb')) = Ok (s, mem (sess nb')) /\
       contents (mem (sess nb')) s = pl) /\
    (exists rt, UpperPacket.Route_ (UpperPacket.NewUpperPacket pkt) (mem (sess nb')) = Ok (rt, mem (sess nb')) /\
       bytes_of (mem (sess nb')) rt = bytes_of (mem (sess na)) route) /\
    joined (sess na') (sess nb') pa pb idx ra rb sa' sb.
Proof.
  intros Haj Hready Hrs Hrr Hpa Hc Hp Hb Hbr.
  destruct (all_joined_find _ _ _ _ Haj) as (idx & ra & rb & sa & sb & Hj & HF). destruct (Hready _ _ _ _ _ Hj) as [Hra Hst3].
  pose proof Hj as [[Ja1 Ja2] [Jb1 Jb2] [Jp1 Jp2] Jk Ji].
  pose proof Hrs as [(_ & Hr & Hl) _ _ _ _]. set (hops := bytes_of (mem (sess na)) route) in *.
  assert (Hh : zlen hops = 1) by (unfold hops, bytes_of; rewrite (zlen_contents _ _ Hr); exact Hl).
  pose proof (zlen_direct codec hops pl Hc Hp Hh) as Hz. pose proof (zlen_nonneg pl).
  set (pt := sub (direct_image codec hops pl) 16 (56 + zlen pl)).
  assert (Hzpt : zlen pt = 56 + zlen pl)
    by (change TptMTU with 1452 in Hz; change UpperMTU with 1364 in Hp; unfold pt; apply zlen_sub; lia).
  destruct (Ikpsk2.message_agrees (handshake sa) (handshake sb) pt Jk) as (hi & hdr & ct & EM & EC & Jk' & _ & Hnon & _ & Hzct & Hbct).
  { unfold pt. apply is_bytes_sub. by apply is_bytes_direct. }
  destruct (send_run_spec na pb codec pl route t ts ra idx sa hi hdr ct _ Hrs Hc Hp HF Ja2 Hra EM)
    as (na' & d & ES & Hsent & Hzd & Hdl & Hm & Ho); [lia|rewrite Hnon; split; [apply zlen_be_bytes|apply is_bytes_be]|].
  destruct (recv_run_spec run_upper run_lower nb d ip port codec hops pl cb rb idx sb (Ikpsk2.mh_Nonce hdr) ct Hrr Hc Hp Hh
    Hzd Ji Hdl Jb1 Jb2 Hst3) as (nb' & pkt & l & ER & Hsrc & _ & HL & Hf & Hzl & R1 & R2 & Hm' & Ho');
    [by rewrite Jp2|by destruct hdr|lia|].
  destruct (delivered_reads pkt _ l hops pl Hf Hzl HL Hp Hh R1 R2) as [D1 D2].
  exists idx, ra, rb, sa, sb, na', d, nb', pkt, (set_handshake hi sa). split; [exact Hj|]. split; [exact ES|]. split; [exact Hsent|].
  split; [change UpperMTU with 1364 in Hp; change TptMTU with 1452; lia|]. split; [exact ER|]. split; [congruence|].
  do 2 (split; [assumption|]). split; rewrite ?Hm, ?Ho, ?Hm', ?Ho'; try done.
  split; [done|]. apply list_lookup_insert_eq. by eapply lookup_lt_Some.
Qed.
End delivery.

(** ** Waiting for a connection *)

Section waiting.
Context `{Crypto, MaddrLib} {UH LH : Type}.
Implicit Types (n : Node UH LH) (v : option error) (chs : list nat).

Lemma give_all_spec v chs : forall n,
  NoDup chs -> (forall c, c ∈ chs -> chans n !! c = Some None) ->
  exists cs, give_all chs v n = Ok (tt, set_waiters (waiters n) cs n) /\
    (forall c, c ∈ chs -> cs !! c = Some (Some v)) /\ (forall c, c ∉ chs -> cs !! c = chans n !! c).
Proof.
  induction chs as [|c chs IH]; intros n Hnd Hopen.
  - exists (chans n). split; [by destruct n|]. split; [set_solver|done].
  - apply list.NoDup_cons in Hnd as [Hc Hnd]. pose proof (Hopen c ltac:(set_solver)) as Eo.
    cbn [give_all]. erewrite bind_ok by (unfold chan_give; rewrite Eo; reflexivity).
    destruct (IH (set_waiters (waiters n) (<[c:=Some v]> (chans n)) n) Hnd) as (cs & E & Hin & Hout).
    { intros c' Hc'. cbn. rewrite list_lookup_insert_ne by (by intros ->). apply Hopen. set_solver. }
    exists cs. rewrite E. split; [done|]. split.
    + intros c' [->|Hc']%elem_of_cons; [|by apply Hin]. rewrite Hout by done. cbn.
      apply list_lookup_insert_eq. by eapply lookup_lt_Some.
    + intros c' Hc'. rewrite Hout by set_solver. cbn. apply list_lookup_insert_ne. set_solver.
Qed.

(** The forwarder's and the routing table's part of [connectedCallback]. *)
Definition attached n n' (pid : PeerID) : Prop :=
  (exists i, 0 <= i < NumSlots /\ slots (fwd n) !! i = Some nullSlotEntry /\
     slots (fwd n') = <[i := Entry pid SendLower]> (slots (fwd n)) /\
     (table (routing n) !! pid = None ->
       exists rt, GetRoute pid (routing n') = inl rt /\ bytes_of (mem (sess n')) rt = [i])) \/
  ((forall i, 0 <= i < NumSlots -> slots (fwd n) !! i <> Some nullSlotEntry) /\
     fwd n' = fwd n /\ routing n' = routing n).

Lemma attach_half n (pid : PeerID) :
  fwd_ok (fwd n) ->
  exists n', (r ← zoom l_fwd (Attach pid SendLower);
     match r with
     | (_, Some _) => mret tt
     | (slot, None) => zoom l_routing (AddRoute pid slot)
     end) n = Ok (tt, n') /\
    waiters n' = waiters n /\ chans n' = chans n /\ attached n n' pid.
Proof.
  intros Hfw. destruct (Attach_cases pid SendLower (fwd n) (mem (sess n)) Hfw)
    as [(i & r & h' & Hi & Hs & EA & Hr & Hb & _)|[Hno EA]];
    erewrite bind_ok by (unfold zoom; cbn [view l_fwd]; rewrite EA; reflexivity).
  - eexists. split; [unfold zoom; cbn [view l_routing]; rewrite AddRoute_cases; reflexivity|]. do 2 (split; [done|]).
    left. exists i. do 3 (split; [done|]). intros Hn. exists r. split; [|exact Hb].
    set (n1 := over l_fwd _ n). change (routing n1) with (routing n). rewrite Hn.
    unfold GetRoute. cbn [table routing over l_routing set_routing fst]. by rewrite lookup_insert_eq.
  - eexists. split; [reflexivity|]. do 2 (split; [done|]). right. done.
Qed.

(** When a neighbour's session is established, every caller that waits for
    the peer is woken exactly once, with success, on its own channel, and no
    other waiter is touched. If the forwarder has a free slot the peer is
    attached there, and a peer without a route becomes reachable by the label
    of that slot; if it has none, the callers are told of success all the same
    and neither the forwarder nor the routing table knows the peer. *)
Theorem connectedCallback_wakes n (pid : PeerID) (ws : list nat) :
  fwd_ok (fwd n) -> waiters n !! pid = Some ws -> NoDup ws -> (forall c, c ∈ ws -> chans n !! c = Some None) ->
  exists n', connectedCallback pid true n = Ok (tt, n') /\
    waiters n' = delete pid (waiters n) /\
    (forall c, c ∈ ws -> chans n' !! c = Some (Some None)) /\ (forall c, c ∉ ws -> chans n' !! c = chans n !! c) /\
    attached n n' pid.
Proof.
  intros Hfw Hw Hnd Hopen. unfold connectedCallback. cbv zeta.
  destruct (attach_half n pid Hfw) as (n1 & E1 & Hw1 & Hc1 & Hat). erewrite bind_ok by exact E1.
  erewrite bind_ok by reflexivity. unfold id. rewrite Hw1, Hw.
  destruct (give_all_spec None ws n1 Hnd) as (cs & E2 & Hin & Hout); [by rewrite Hc1|].
  erewrite bind_ok by exact E2. eexists. split; [reflexivity|]. split; [by cbn; rewrite Hw1|]. split; [exact Hin|].
  split; [by rewrite <- Hc1|]. exact Hat.
Qed.
End waiting.

(** ** A datagram that is too short *)

Section short.
Context `{Crypto, MaddrLib, VarintLaws, GoRuntime} {UH LH : Type}.
Implicit Types (n : Node UH LH).

(** A hello whose session part ends before its header does. *)
Lemma HandleHello_short (p : SPacket) raddr w l hs e :
  full (mem w) (Buf (SessionPacket.pkt p)) l -> 0 <= Offset p -> Offset p + 116 <= zlen l ->
  Packet.Length (SessionPacket.pkt p) - Padding p < Offset p + 116 ->
  Ikpsk2.NewHandshakeResponder (privkey (sm w)) (rand w) = Ok (inl hs, e) ->
  Manager.HandleHello p raddr w = Panic.
Proof.
  intros Hf Ho Hl Hs ER. destruct w as [m os en nw ord i h]. cbn [mem sm rand] in *.
  unfold Manager.HandleHello. erewrite bind_ok by reflexivity. cbn [sm].
  erewrite with_rand_step by exact ER. cbv beta iota. erewrite bind_ok by reflexivity. apply bind_panic.
  unfold Session.HandleHello, set_objs. cbn [sm objs rand now order ranges mem].
  erewrite deref_step by (apply list_lookup_middle; reflexivity). cbn [initiator newSessionIncoming].
  erewrite on_mem_step by (unfold HelloPacket.EphemeralKey; erewrite bind_ok by (eapply bytes_at_full; [exact Hf|lia|lia|lia]); reflexivity).
  erewrite on_mem_step by (unfold HelloPacket.StaticKey; erewrite bind_ok by (eapply bytes_at_full; [exact Hf|lia|lia|lia]); reflexivity).
  erewrite on_mem_step by (unfold HelloPacket.Timestamp; erewrite bind_ok by (eapply bytes_at_full; [exact Hf|lia|lia|lia]); reflexivity).
  apply bind_panic. unfold on_mem, zoom. cbn [view mem_lens mem]. unfold HelloPacket.Ciphertext.
  erewrite bind_panic; [done|]. eapply reslice_full_panic; [exact Hf|]. lia.
Qed.

Lemma helloRecv_short n pkt l hs e :
  holding HelloRecv pkt n -> PeerID.Empty (LowerSrc pkt) = true -> Multiaddr.Empty (TptSrc pkt) = false ->
  full (mem (sess n)) (Buf pkt) l -> zlen l = TptMTU -> sub l 0 4 = le_bytes 4 HelloMsgType ->
  Packet.Length pkt < 116 ->
  Ikpsk2.NewHandshakeResponder (privkey (sm (sess n))) (rand (sess n)) = Ok (inl hs, e) ->
  helloRecv_turn n = Panic.
Proof.
  intros Hh Hls Hts Hf Hl Hty Hlen ER. change TptMTU with 1452 in Hl. unfold helloRecv_turn.
  rewrite (take_step _ _ _ _ Hh), Hls, Hts. unfold doLowerHelloRecv.
  erewrite mem_step by (apply (MsgType_full pkt _ l); [exact Hf|lia]). rewrite Hty.
  change (le_val _ =? HelloMsgType) with true. cbv iota. set (p := mkSPacket LowerOffset LowerPadding pkt).
  erewrite mem_step.
  2: { unfold HelloPacket.NewHelloPacket. cbv zeta. fold p.
    erewrite bind_ok by (eapply (put_type_same p); unfold p, LowerOffset; cbn [Offset SessionPacket.pkt];
      [exact Hf|lia|lia|exact Hty]). reflexivity. }
  apply bind_panic. unfold zoom. erewrite (HandleHello_short p); [done|exact Hf|..]; unfold p, LowerOffset, LowerPadding;
    cbn [Offset Padding SessionPacket.pkt]; lia || exact ER.
Qed.

(** C37: a datagram that carries the hello message type but ends before the 116
    bytes of a hello's header brings the process down: it is queued for the
    hello routine whoever sent it, and taking its ciphertext slices out of
    order. Nothing about it has been authenticated. *)
Theorem short_hello_panics n (d : list Z) (ip : NetIP.Addr) (port : Z) hs e :
  4 <= zlen d < 116 -> sub d 0 4 = le_bytes 4 HelloMsgType -> ip <> NetIP.AddrZero ->
  idle LowerRecv n -> idle HelloRecv n ->
  Ikpsk2.NewHandshakeResponder (privkey (sm (sess n))) (rand (sess n)) = Ok (inl hs, e) ->
  (_ ← recv_datagram d ip port; _ ← lowerRecv_turn; helloRecv_turn) n = Panic.
Proof.
  intros Hl Ht Hip Hq1 Hq2 ER. rewrite recv_datagram_spec by (done || (change TptMTU with 1452; lia)).
  set (h := mem (sess n)). set (pkt := in_pkt h d ip port). set (l := splice (zeros TptMTU) 0 d).
  assert (Hz0 : zlen (zeros TptMTU) = 1452) by done. assert (Hz : zlen l = 1452) by (unfold l; zl).
  assert (Hf : full (h ++ [l]) (fresh_buf h) l) by (by apply full_snoc).
  assert (Hty : sub l 0 4 = le_bytes 4 HelloMsgType) by (unfold l; rewrite sub_splice_in, Z.sub_0_r by lia; exact Ht).
  unfold lowerRecv_turn. unfold mbind at 1, M_bind at 1. rewrite (take_step LowerRecv pkt) by apply holding_push.
  erewrite mem_step by (apply (MsgType_full pkt _ l); [exact Hf|lia]). rewrite Hty.
  change (le_val _ =? DataMsgType) with false. change (le_val _ =? HelloMsgType) with true. cbn [orb].
  rewrite put_step by exact Hq2. cbv beta.
  unfold mret at 1, M_ret at 1. cbv beta iota.
  eapply (helloRecv_short _ pkt l); [apply holding_push|done| |exact Hf|done|exact Hty| |exact ER].
  - unfold Multiaddr.Empty. cbn. by rewrite bool_decide_eq_false_2.
  - cbn. lia.
Qed.
End short.

(** ** Starting and stopping *)

Section lifecycle.
Context `{Crypto, MaddrLib} {UH LH : Type}.
Implicit Types (n : Node UH LH).

Inductive lifecycle_op : Type := OStart | OStop | OListen (ma : Multiaddr) (opened : bool).

Definition run_op (op : lifecycle_op) : M (Node UH LH) (option error) :=
  match op with OStart => Start | OStop => Stop | OListen ma opened => Listen ma opened end.

Fixpoint run_ops (ops : list lifecycle_op) : M (Node UH LH) (list (option error)) :=
  match ops with
  | [] => mret []
  | op :: ops => e ← run_op op; es ← run_ops ops; mret (e :: es)
  end.

(** Every transport runs exactly when the node does. *)
Definition in_sync n : Prop := Forall (fun t => Running_ (t_running t) = Running n) (transports n).

(** What a sequence of calls does to a node that runs or does not. *)
Fixpoint expected (ops : list lifecycle_op) (r : bool) : list (option error) * bool :=
  match ops with
  | [] => ([], r)
  | OStart :: ops => let '(es, r') := expected ops true in ((if r then Some ErrRunning else None) :: es, r')
  | OStop :: ops => let '(es, r') := expected ops false in ((if r then None else Some ErrNotRunning) :: es, r')
  | OListen ma opened :: ops =>
      let '(es, r') := expected ops r in
      ((match NewTransport ma opened with inl _ => None | inr e => Some e end) :: es, r')
  end.

Lemma NewTransport_fresh ma opened t :
  NewTransport ma opened = inl t -> t = mkTransport ma RNil (mkRing [] TransportBufferSize 0) [].
Proof.
  unfold NewTransport. destruct (Protocols ma) as [|p0 [|p1 [|]]]; try done.
  destruct (negb _); [done|]. destruct (_ || _); [|done]. destruct opened; [|done]. by intros [= <-].
Qed.

Lemma NewTransport_stopped ma opened t : NewTransport ma opened = inl t -> t_running t = RNil.
Proof. by intros ->%NewTransport_fresh. Qed.

Lemma run_op_sync op n :
  in_sync n -> exists n', run_op op n = Ok (hd None (fst (expected [op] (Running n))), n') /\ in_sync n' /\
    Running n' = snd (expected [op] (Running n)).
Proof.
  intros Hn. destruct op as [| |ma opened]; cbn [run_op].
  - unfold Start. erewrite bind_ok by reflexivity. unfold id. destruct (Running n) eqn:E; eexists; (split; [reflexivity|]); [done|].
    split; [|done]. unfold in_sync. cbn. apply Forall_map, Forall_true. intros t. unfold TStart. by destruct (Running_ (t_running t)) eqn:Et.
  - unfold Stop. erewrite bind_ok by reflexivity. unfold id. destruct (Running n) eqn:E; eexists; (split; [reflexivity|]); [|done].
    split; [|done]. unfold in_sync. cbn. apply Forall_map, Forall_true. intros t. unfold TStop. by destruct (Running_ (t_running t)) eqn:Et.
  - unfold Listen. cbn [expected hd fst snd]. destruct (NewTransport ma opened) as [t|e] eqn:EN; [|by exists n].
    erewrite bind_ok by reflexivity. eexists. split; [reflexivity|]. split; [|done].
    unfold in_sync, id. cbn. apply Forall_app. split; [exact Hn|]. apply Forall_singleton.
    apply NewTransport_stopped in EN. destruct (Running n) eqn:E; unfold TStart; rewrite EN; cbn; unfold Running in E; by rewrite ?E.
Qed.

(** Any sequence of [Start], [Stop] and [Listen] calls runs to the end,
    whatever order they come in: [Start] fails exactly on a running node,
    [Stop] exactly on one that is not, a stopped node can be started again, and
    after each of them every transport runs exactly when the node does,
    including those added while it ran. *)
Theorem lifecycle (ops : list lifecycle_op) n :
  in_sync n ->
  exists n', run_ops ops n = Ok (fst (expected ops (Running n)), n') /\ in_sync n' /\
    Running n' = snd (expected ops (Running n)).
Proof.
  revert n. induction ops as [|op ops IH]; intros n Hn; [by exists n|].
  destruct (run_op_sync op n Hn) as (n1 & E1 & Hn1 & Hr1). destruct (IH n1 Hn1) as (n2 & E2 & Hn2 & Hr2).
  exists n2. cbn [run_ops]. erewrite bind_ok by exact E1. erewrite bind_ok by exact E2. rewrite Hr2, Hr1. split; [|split; [done|]].
  - destruct op; cbn; match goal with |- context [expected ops ?r] => by destruct (expected ops r) | _ => done end.
  - destruct op; cbn; match goal with |- context [expected ops ?r] => by destruct (expected ops r) | _ => done end.
Qed.
End lifecycle.

(** ** Two neighbours *)

Definition nd_node (w : world) (ts : list Transport) (r : Routing) (f : Forwarder sendFunc) (ws : gmap PeerID (list nat))
    (cs : list (option (option error))) : Node unit unit :=
  mkNode pid0 ts ws cs w {[0x42001 := tt]} ∅ f r ROpen emptyQ emptyQ emptyQ emptyQ emptyQ emptyQ emptyQ emptyQ.

Definition nd_sa : Session := mkSession true 3 (Ikpsk2.hs_done [5] [6] true) ma0 sw_pb.
Definition nd_sb : Session := mkSession false 3 (Ikpsk2.hs_done [6] [5] false) zeroMultiaddr sw_pa.
Definition nd_route : Route := mkRoute (Slice 0 0 1 1).
Definition nd_tpt : Transport := mkTransport ma0 ROpen (mkRing [] TransportBufferSize 0) [].
Definition nd_a : Node unit unit :=
  nd_node (sw_join Ikpsk2.hs_si nd_sa [7]) [nd_tpt] (mkRouting {[sw_pb := [nd_route]]} ∅) NewForwarder ∅ [].
Definition nd_b : Node unit unit := nd_node (sw_join Ikpsk2.hs_sr nd_sb []) [nd_tpt] NewRouting NewForwarder ∅ [].
Definition nd_upper (_ : unit) (_ : UpperPacket.UpperPacket) : M (Node unit unit) (option error) := mret None.
Definition nd_lower (_ : unit) (_ : LowerPacket.LowerPacket) : M (Node unit unit) (option error) := mret None.

Lemma nd_all_joined : all_joined (sess nd_a) (sess nd_b) sw_pa sw_pb.
Proof.
  split.
  - by intros n m.
  - intros i x Hx. destruct (sw_store _ _ _ _ _ Hx) as [-> ->]. exists 0%nat. split; [done|by eexists].
  - by exists 333, 0%nat.
  - intros i r Hi _. destruct (sw_store _ _ _ _ _ Hi) as [-> [= ->]]. exists 0%nat, nd_sa, nd_sb.
    split; [by split; [vm_compute|]|by split; [vm_compute|]|done|apply Ikpsk2.hs_done_established|done].
Qed.

Lemma node_direct_delivery_witness :
  exists sa na' d nb', send_run sw_pb 0x42001 [1; 2; 3] nd_a = Ok (None, na') /\
    map sent (transports na') = [[(d, AddrPort (remoteAddr sa))]] /\
    recv_run nd_upper nd_lower d NetIP.AddrZero 5 nd_b = Ok (None, nb').
Proof.
  destruct (node_direct_delivery nd_upper nd_lower nd_a nd_b sw_pa sw_pb nd_route nd_tpt [] 0x42001 tt
    [1; 2; 3] NetIP.AddrZero 5) as (idx & ra & rb & sa & sb & na' & d & nb' & pkt & sa' & _ & E1 & E2 & _ & E3 & _).
  - exact nd_all_joined.
  - intros idx ra rb sa sb [[Hi Ha] [Hk Hb] _ _ _]. destruct (sw_store _ _ _ _ _ Hi) as [_ [= ->]].
    destruct (sw_store _ _ _ _ _ Hk) as [_ [= ->]]. injection Ha as <-. injection Hb as <-. done.
  - split; [by repeat split|cbn; lia|done|by repeat split|by repeat split].
  - by repeat split.
  - done.
  - done.
  - by vm_compute.
  - by apply (bool_decide_unpack _).
  - by apply (bool_decide_unpack _).
  - exists sa, na', d, nb'. split; [exact E1|]. split; [exact E2|]. rewrite E3. reflexivity.
Defined.

Lemma connectedCallback_wakes_witness :
  exists n', connectedCallback pid0 true (nd_node sw_a [] NewRouting NewForwarder {[pid0 := [0%nat; 1%nat]]} [None; None]) =
    Ok (tt, n') /\ chans n' !! 1%nat = Some (Some None).
Proof.
  destruct (connectedCallback_wakes (nd_node sw_a [] NewRouting NewForwarder {[pid0 := [0%nat; 1%nat]]} [None; None])
    pid0 [0%nat; 1%nat]) as (n' & E & _ & Hc & _).
  - apply NewForwarder_ok.
  - apply lookup_singleton_eq.
  - by apply (bool_decide_unpack _).
  - intros c [->|[->|[]%elem_of_nil]%elem_of_cons]%elem_of_cons; done.
  - exists n'. split; [exact E|]. apply Hc. set_solver.
Defined.

Lemma short_hello_panics_witness :
  (_ ← recv_datagram [1; 0; 0; 0] (NetIP.Addr4 [127; 0; 0; 1]) 1312; _ ← lowerRecv_turn; @helloRecv_turn _ _ _ _ _ round8)
    (nd_node (sw_world Ikpsk2.hs_sr [Some [1; 2]; None]) [] NewRouting NewForwarder ∅ []) = Panic.
Proof.
  apply (short_hello_panics (nd_node (sw_world Ikpsk2.hs_sr [Some [1; 2]; None]) [] NewRouting NewForwarder ∅ [])
    [1; 0; 0; 0] (NetIP.Addr4 [127; 0; 0; 1]) 1312 Ikpsk2.hs_r [None]);
    [by vm_compute|reflexivity|discriminate|split; [reflexivity|by vm_compute]|split; [reflexivity|by vm_compute]|reflexivity].
Defined.

Lemma lifecycle_witness :
  exists n', run_ops [OStop; OListen ma0 true; OStart; OStart]
    (nd_node (sw_world Ikpsk2.hs_sr []) [nd_tpt] NewRouting NewForwarder ∅ []) =
      Ok ([None; None; None; Some ErrRunning], n') /\ in_sync n' /\ Running n' = true.
Proof.
  apply (lifecycle [OStop; OListen ma0 true; OStart; OStart]). by constructor.
Defined.
