(* ===== verification/NodeInv.v ===== *)
(** * NodeInv: what holds of a node whatever it receives
    (node/node.go, recv.go, send.go, transport.go, peer.go)

    The goroutines of a node take turns in any order, its callers come and go,
    and every datagram may be forged. Each of these is a [turn]; this file shows
    an invariant of every state that turns can lead to from [NewNode]. A turn
    that has to wait does not happen, and one that panics ends the process. *)

From S2P Require Import Prelude GoMem Route Ext Toy Key PeerID Multiaddr Packet RingBuf Routing Forwarder SessionPacket Ikpsk2 Session Hoare SessionInv Node.
Import Key Route PeerID Multiaddr Packet RingBuf Routing Forwarder SessionPacket Session Node.

Section node_inv.
Context `{Crypto, MaddrLib, Varint, GoRuntime} {UH LH : Type}.
Implicit Types (n : Node UH LH) (bs : list slice).

(** ** The invariant *)

(** A packet of queue [q]: its buffer exists, and the peer ids of a hello that
    waits to be sent are ones that Go's type can hold. *)
Definition pkt_ok (q : queue) (h : heap) (p : Packet) : Prop :=
  slice_ok h (Buf p) /\ match q with HelloSend => peerid_ok (LowerDst p) /\ peerid_ok (UpperDst p) | _ => True end.

Definition tpt_ok (r : bool) (h : heap) (t : Transport) : Prop :=
  ring_ok (sendQ t) /\ Forall (fun p => slice_ok h (Buf p)) (ch (sendQ t)) /\ Running_ (t_running t) = r.

(** Every waiter has an open channel of its own. *)
Record waiters_ok (W : gmap PeerID (list nat)) (C : list (option (option error))) : Prop := {
  wo_open : forall p ws, W !! p = Some ws -> NoDup ws /\ forall c, c ∈ ws -> C !! c = Some None;
  wo_disjoint : forall p q ws vs c, W !! p = Some ws -> W !! q = Some vs -> c ∈ ws -> c ∈ vs -> p = q
}.

(** Slot 0 is the node's own, the others are neighbours'. *)
Definition slots_ok (self : PeerID) (f : Forwarder sendFunc) : Prop :=
  slots f !! 0 = Some (Entry self RecvUpper) /\
  forall i p g, slots f !! i = Some (Entry p g) -> i <> 0 -> g = SendLower.

Record node_inv n : Prop := {
  ni_fwd : fwd_ok (fwd n);
  ni_slots : slots_ok (peerid n) (fwd n);
  ni_queues : forall q, ring_ok (get_queue q n) /\ Forall (pkt_ok q (mem (sess n))) (ch (get_queue q n));
  ni_transports : Forall (tpt_ok (Running n) (mem (sess n))) (transports n);
  ni_waiters : waiters_ok (waiters n) (chans n);
  ni_sess : sess_ok (sess n)
}.

(** The invariant, and the buffers a body has at hand. *)
Definition inv bs n : Prop := node_inv n /\ Forall (slice_ok (mem (sess n))) bs.

Lemma pkt_ok_grows q h h' p : grows h h' -> pkt_ok q h p -> pkt_ok q h' p.
Proof. intros Hg [Hs Hq]. split; [by eapply grows_slice_ok|done]. Qed.
Lemma tpt_ok_grows r h h' t : grows h h' -> tpt_ok r h t -> tpt_ok r h' t.
Proof.
  intros Hg (Hr & Hs & Hrun). split; [done|]. split; [|done]. eapply list.Forall_impl; [exact Hs|]. intros p. by apply grows_slice_ok.
Qed.

(** ** The parts of a node *)

(** Changing the sessions, and with them the heap. *)
Lemma inv_sess bs n w : inv bs n -> sess_ok w -> grows (mem (sess n)) (mem w) -> inv bs (over l_sess w n).
Proof.
  intros [[Hf Hsl Hq Ht Hw Hs] Hb] Hok Hg. split.
  - split; [exact Hf|exact Hsl| |  |exact Hw|exact Hok].
    + intros q. destruct (Hq q) as [Hr Hp]. split; [by destruct q|]. destruct q; eapply list.Forall_impl; try exact Hp;
        intros p; by apply pkt_ok_grows.
    + eapply list.Forall_impl; [exact Ht|]. intros t. by apply tpt_ok_grows.
  - eapply list.Forall_impl; [exact Hb|]. intros b. by apply grows_slice_ok.
Qed.

Lemma mem_inv {A} (m : M heap A) bs : mono m -> keeps (inv bs) (zoom l_mem m).
Proof.
  intros Hm n a n' Hn. unfold zoom. cbn [view l_mem]. destruct (m (mem (sess n))) as [[b h]| |] eqn:E; try done.
  intros [= <- <-]. apply inv_sess; [done|apply Hn|]. by eapply mono_grows.
Qed.

Lemma sess_inv {A} (m : M world A) bs : keeps sess_ok m -> wmono m -> keeps (inv bs) (zoom l_sess m).
Proof.
  intros Hm Hg n a n' Hn. unfold zoom. cbn [view l_sess]. destruct (m (sess n)) as [[b w]| |] eqn:E; try done.
  intros [= <- <-]. apply inv_sess; [done|eapply Hm; [apply Hn|exact E]|]. eapply (Hg (mem (sess n))); [|exact E]. unfold wgrows. reflexivity.
Qed.

(** What an operation of the manager says about its result holds of the node. *)
Lemma sess_inv_post {A} (m : M world A) bs (Q : A -> world -> Prop) :
  keeps (inv bs) (zoom l_sess m) -> triple anything m Q -> triple (inv bs) (zoom l_sess m) (fun a n => inv bs n /\ Q a (sess n)).
Proof.
  intros Hk Hm n a n' Hn E. split; [by eapply Hk|]. unfold zoom in E. destruct (m (view l_sess n)) as [[b w]| |] eqn:Em; try done.
  injection E as <- <-. by eapply Hm.
Qed.

(** *** Queues *)

Lemma set_queue_inv bs n q rb :
  inv bs n -> ring_ok rb -> Forall (pkt_ok q (mem (sess n))) (ch rb) -> inv bs (set_queue q rb n).
Proof.
  intros [[Hf Hsl Hq Ht Hw Hs] Hb] Hr Hp. split; [|done]. split; [done|done| |done|done|done].
  intros q'. pose proof (Hq q') as Hq'. by destruct q, q'.
Qed.

Lemma take_inv q bs : triple (inv bs) (Node.take q) (fun p n => inv (Buf p :: bs) n /\ pkt_ok q (mem (sess n)) p).
Proof.
  intros n p n' Hn. unfold Node.take, zoom, Get, chan_recv. cbn [view l_queue].
  pose proof Hn as [[_ _ Hq _ _ _] Hb]. destruct (Hq q) as [[_ Hc] Hp].
  destruct (ch (get_queue q n)) as [|x t] eqn:Ec; [done|]. intros [= <- <-]. apply Forall_cons_iff in Hp as [Hx Ht].
  destruct (set_queue_inv bs n q (mkRing t (cap (get_queue q n)) (dropped (get_queue q n))) Hn) as [H1' H2'].
  - unfold ring_ok, RingBuf.Length in *. cbn [ch cap]. rewrite Ec, zlen_cons in Hc. pose proof (zlen_nonneg t). lia.
  - exact Ht.
  - split; [|exact Hx]. split; [exact H1'|]. constructor; [apply Hx|exact H2'].
Qed.

Lemma chan_send_ok {A} (x : A) rb u rb' (P : A -> Prop) :
  ring_ok rb -> Forall P (ch rb) -> P x -> chan_send x rb = Ok (u, rb') -> ring_ok rb' /\ Forall P (ch rb').
Proof.
  intros [Hr1 Hr2] Hp Hx. unfold chan_send. destruct (Z.ltb_spec (zlen (ch rb)) (cap rb)); [|done]. intros [= <- <-].
  split; [|apply Forall_app; by auto]. unfold ring_ok, RingBuf.Length in *. cbn [ch cap]. pose proof (zlen_nonneg (ch rb)). rewrite zlen_app.
  change (zlen [x]) with 1. lia.
Qed.

Lemma Put_ok {A} (x : A) rb u rb' (P : A -> Prop) :
  ring_ok rb -> Forall P (ch rb) -> P x -> Put x rb = Ok (u, rb') -> ring_ok rb' /\ Forall P (ch rb').
Proof.
  intros Hr Hp Hx. unfold Put. destruct (chan_send x rb) as [[v r1]| |] eqn:E1.
  - intros [= <- <-]. by eapply chan_send_ok.
  - unfold chan_send in E1. by destruct (_ <? _).
  - intros E. apply bind_inv in E as (y & r1 & E2 & E). apply bind_inv in E as ([] & r2 & [= <-] & E).
    unfold chan_recv in E2. destruct (ch rb) as [|z t] eqn:Ec; [done|]. injection E2 as <- <-.
    apply Forall_cons_iff in Hp as [_ Hp]. eapply (chan_send_ok x); [| |exact Hx|exact E]; [|exact Hp].
    unfold ring_ok, RingBuf.Length in *. cbn [ch cap]. rewrite Ec, zlen_cons in Hr. pose proof (zlen_nonneg t). lia.
Qed.

Lemma queue_inv q p bs (m : M (RingBuffer Packet) unit) :
  (forall rb u rb' P, ring_ok rb -> Forall P (ch rb) -> P p -> m rb = Ok (u, rb') -> ring_ok rb' /\ Forall P (ch rb')) ->
  Buf p ∈ bs -> match q with HelloSend => peerid_ok (LowerDst p) /\ peerid_ok (UpperDst p) | _ => True end ->
  keeps (inv bs) (zoom (l_queue q) m).
Proof.
  intros Hm Hb Hq n u n' Hn. unfold zoom. cbn [view l_queue]. destruct (m (get_queue q n)) as [[v rb]| |] eqn:E; try done.
  intros [= <- <-]. destruct (ni_queues _ (proj1 Hn) q) as [Hr Hp].
  destruct (Hm _ v rb (pkt_ok q (mem (sess n))) Hr Hp) as [Hr' Hp']; [|exact E|].
  - split; [|exact Hq]. destruct Hn as [_ Hall]. rewrite list.Forall_forall in Hall. by apply Hall.
  - by apply set_queue_inv.
Qed.

Lemma put_inv q p bs : q <> HelloSend -> Buf p ∈ bs -> keeps (inv bs) (put q p).
Proof. intros Hq Hb. apply (queue_inv q p); [|done|by destruct q]. intros rb u rb' P. apply Put_ok. Qed.
Lemma putB_inv q p bs : q <> HelloSend -> Buf p ∈ bs -> keeps (inv bs) (putB q p).
Proof. intros Hq Hb. apply (queue_inv q p); [|done|by destruct q]. intros rb u rb' P. apply chan_send_ok. Qed.

(** *** Transports *)

Lemma sendTransport_inv p bs : Buf p ∈ bs -> keeps (inv bs) (sendTransport p).
Proof.
  intros Hp n e n' Hn. unfold sendTransport. pose proof Hn as [[Hf Hsl Hq Ht Hw Hs] Hb].
  destruct (transports n) as [|t ts] eqn:Et; [done|]. unfold TSend, PutWithBackpressure.
  destruct (chan_send p (sendQ t)) as [[u q]| |] eqn:E; try done. intros [= <- <-].
  apply Forall_cons_iff in Ht as [(Hr & Hbf & Hrun) Hts]. split; [|done]. split; try done.
  rewrite list.Forall_forall in Hb. destruct (chan_send_ok p _ _ _ _ Hr Hbf (Hb _ Hp) E). by constructor.
Qed.

Lemma tpts_inv bs n ts : inv bs n -> Forall (tpt_ok (Running n) (mem (sess n))) ts -> inv bs (over l_transports ts n).
Proof. intros [[Hf Hsl Hq Ht Hw Hs] Hb] Hts. split; [|done]. by split. Qed.

Lemma send_turn_inv i bs : keeps (inv bs) (send_turn i).
Proof.
  intros n e n' Hn. unfold send_turn. destruct (transports n !! i) as [t|] eqn:Et; [|done].
  pose proof (ni_transports _ (proj1 Hn)) as Ht.
  assert (Hg : forall pk q ss, Get (sendQ t) = Ok (pk, q) ->
    inv bs (over l_transports (<[i := mkTransport (listenAddr t) (t_running t) q ss]> (transports n)) n)).
  { intros pk q ss E. apply tpts_inv; [done|]. apply Forall_insert; [done|].
    pose proof Ht as Ht'. rewrite list.Forall_forall in Ht'. destruct (Ht' t) as ([Hr0 Hr] & Hbf & Hrun); [by eapply list_elem_of_lookup_2|].
    unfold Get, chan_recv in E. destruct (ch (sendQ t)) as [|x l] eqn:Ec; [done|]. injection E as <- <-.
    apply Forall_cons_iff in Hbf as [_ Hbf]. split; [|done]. unfold RingBuf.Length in Hr. rewrite Ec, zlen_cons in Hr.
    unfold ring_ok, RingBuf.Length. cbn [ch cap sendQ]. pose proof (zlen_nonneg l). lia. }
  destruct (Get (sendQ t)) as [[pk q]| |] eqn:E; try done. destruct (Multiaddr.Empty _).
  - intros [= <- <-]. by eapply Hg.
  - match goal with |- match ?x with _ => _ end = _ -> _ => destruct x as [[d h]| |]; try done end. intros [= <- <-]. by eapply Hg.
Qed.

(** *** Forwarder and routing table *)

Lemma Attach_slots (self pid : PeerID) f h r e f' h' :
  fwd_ok f -> slots_ok self f -> Attach pid SendLower (f, h) = Ok ((r, e), (f', h')) -> slots_ok self f'.
Proof.
  intros Hf [H0' Hn] E. destruct (Attach_cases pid SendLower f h Hf) as [(i & r0 & h0 & Hi & Hs & E' & _)|[_ E']];
    rewrite E' in E; injection E as <- <- <- <-; [|done]. split; cbn.
  - rewrite lookup_insert_ne; [done|]. intros ->. congruence.
  - intros j p g. rewrite lookup_insert_Some. intros [[<- [= <- <-]]|[_ Hj]] ?; [done|by eapply Hn].
Qed.

Lemma Attach_inv pid bs : keeps (inv bs) (zoom l_fwd (Attach pid SendLower)).
Proof.
  intros n x n' Hn. unfold zoom. cbn [view l_fwd]. destruct (Attach pid SendLower _) as [[[r e] [f h]]| |] eqn:E; try done.
  intros [= <- <-]. pose proof Hn as [[Hf Hsl _ _ _ _] _]. pose proof (Attach_ok _ _ _ _ _ _ _ _ Hf E) as Hf'.
  pose proof (Attach_slots _ _ _ _ _ _ _ _ Hf Hsl E) as Hsl'.
  assert (Hg : grows (mem (sess n)) h).
  { destruct (Attach_cases pid SendLower _ (mem (sess n)) Hf) as [(i & r0 & h0 & _ & _ & E' & _)|[_ E']]; rewrite E' in E;
      injection E as <- <- <- <-; [|done]. revert E'. unfold Attach. erewrite bind_ok by reflexivity.
    destruct (first_free _ _ _); [|done]. erewrite bind_ok by reflexivity. intros [= _ _ _ <-]. apply grows_app. }
  destruct (inv_sess bs n (over mem_lens h (sess n)) Hn) as [[? ? Hq Ht Hw Hs] Hb]; [apply Hn|exact Hg|].
  split; [|exact Hb]. split; [exact Hf'|exact Hsl'|exact Hq|exact Ht|exact Hw|exact Hs].
Qed.

Lemma set_routing_inv bs n r : inv bs n -> inv bs (set_routing r n).
Proof. intros [[Hf Hsl Hq Ht Hw Hs] Hb]. split; [|done]. by split. Qed.

Lemma AddRoute_inv pid rt bs : keeps (inv bs) (zoom l_routing (AddRoute pid rt)).
Proof.
  intros n u n' Hn. unfold zoom. cbn [view l_routing]. rewrite AddRoute_cases. intros [= <- <-]. cbn [over l_routing fst snd].
  apply set_routing_inv. apply (inv_sess bs n (over mem_lens (mem (sess n)) (sess n)) Hn); [apply Hn|]. reflexivity.
Qed.

(** *** Waiters *)

Lemma set_waiters_inv bs n W C : inv bs n -> waiters_ok W C -> inv bs (set_waiters W C n).
Proof. intros [[Hf Hsl Hq Ht Hw Hs] Hb] HW. split; [|done]. by split. Qed.

Lemma join_inv pid bs : keeps (inv bs) (join_waiters pid).
Proof.
  intros n c n' Hn [= <- <-]. apply set_waiters_inv; [done|]. destruct (ni_waiters _ (proj1 Hn)) as [Ho Hd].
  assert (Hlt : forall p ws c, waiters n !! p = Some ws -> c ∈ ws -> (c < length (chans n))%nat).
  { intros p ws c Hp Hc. eapply lookup_lt_Some. by apply (Ho p ws Hp). }
  assert (Hold : forall c, c ∈ default [] (waiters n !! pid) -> exists ws, waiters n !! pid = Some ws /\ c ∈ ws).
  { intros c. destruct (waiters n !! pid); cbn; [eauto|]. by intros ?%not_elem_of_nil. }
  split.
  - intros p ws. rewrite lookup_insert_Some. intros [[<- <-]|[_ Hp]].
    + split.
      * apply list.NoDup_app. split; [|split; [|apply NoDup_singleton]].
        -- destruct (waiters n !! pid) as [ws|] eqn:E; [by apply (Ho pid ws E)|constructor].
        -- intros c (ws & Hp & Hc)%Hold ->%list_elem_of_singleton. pose proof (Hlt _ _ _ Hp Hc). lia.
      * intros c [(ws & Hp & Hc)%Hold| ->%list_elem_of_singleton]%elem_of_app.
        -- rewrite lookup_app_l by (by eapply Hlt). by apply (Ho pid ws Hp).
        -- by rewrite lookup_app_r, Nat.sub_diag.
    + destruct (Ho p ws Hp) as [Hnd Hc]. split; [done|]. intros c Hin. rewrite lookup_app_l by (by eapply Hlt). by apply Hc.
  - intros p q ws vs c. rewrite !lookup_insert_Some.
    intros [[<- <-]|[Hp1 Hp]] [[<- <-]|[Hq1 Hq]] Hc1 Hc2; [done| | |by eapply Hd].
    + apply elem_of_app in Hc1 as [(us & Hu & Hc)%Hold| ->%list_elem_of_singleton]; [by eapply Hd|].
      pose proof (Hlt _ _ _ Hq Hc2). lia.
    + apply elem_of_app in Hc2 as [(us & Hu & Hc)%Hold| ->%list_elem_of_singleton]; [by eapply Hd|].
      pose proof (Hlt _ _ _ Hp Hc1). lia.
Qed.

Lemma chan_take_inv c bs : keeps (inv bs) (chan_take c).
Proof.
  intros n v n' Hn. unfold chan_take. destruct (chans n !! c) as [[y|]|] eqn:Ec; try done. intros [= <- <-].
  apply set_waiters_inv; [done|]. destruct (ni_waiters _ (proj1 Hn)) as [Ho Hd]. split; [|exact Hd].
  intros p ws Hp. destruct (Ho p ws Hp) as [Hnd Hc]. split; [done|]. intros d Hin.
  rewrite list_lookup_insert_ne; [by apply Hc|]. intros ->. rewrite (Hc d Hin) in Ec. done.
Qed.

(** The waiters of one peer are told; the rest still wait. *)
Lemma wake_ok n pid ws cs :
  waiters_ok (waiters n) (chans n) -> waiters n !! pid = Some ws -> (forall c, c ∉ ws -> cs !! c = chans n !! c) ->
  waiters_ok (delete pid (waiters n)) cs.
Proof.
  intros [Ho Hd] Hw Hout. split.
  - intros p vs [Hne Hp]%lookup_delete_Some. destruct (Ho p vs Hp) as [Hnd Hc]. split; [done|]. intros c Hin.
    rewrite Hout; [by apply Hc|]. intros Hin2. by destruct (Hne (Hd pid p ws vs c Hw Hp Hin2 Hin)).
  - intros p q vs us c [_ Hp]%lookup_delete_Some [_ Hq]%lookup_delete_Some. by eapply Hd.
Qed.

#[local] Hint Resolve Attach_inv AddRoute_inv join_inv chan_take_inv send_turn_inv : keeps.

(** The callback is a total function on the states of the invariant: no waiter
    can hold it up. *)
Lemma connectedCallback_returns pid lower bs n :
  inv bs n -> exists n', connectedCallback pid lower n = Ok (tt, n') /\ inv bs n' /\ waiters n' = delete pid (waiters n) /\
    forall ws c, waiters n !! pid = Some ws -> c ∈ ws -> chans n' !! c = Some (Some None).
Proof.
  intros Hn. unfold connectedCallback. cbv zeta.
  assert (H1' : exists n1, (if lower then
      r ← zoom l_fwd (Attach pid SendLower);
      match r with (_, Some _) => mret tt | (slot, None) => zoom l_routing (AddRoute pid slot) end else mret tt) n = Ok (tt, n1) /\
      waiters n1 = waiters n /\ chans n1 = chans n /\ inv bs n1).
  { destruct lower; [|by exists n]. destruct (attach_half n pid (ni_fwd _ (proj1 Hn))) as (n1 & E & Hw & Hc & _).
    exists n1. split; [exact E|]. split; [done|]. split; [done|]. refine (keeps_use (inv bs) _ _ _ _ Hn E _). keep. }
  destruct H1' as (n1 & E1 & Hw & Hc & Hn1). erewrite bind_ok by exact E1. erewrite bind_ok by reflexivity. unfold id.
  rewrite Hw. pose proof (ni_waiters _ (proj1 Hn1)) as HW. rewrite Hw, Hc in HW.
  destruct (waiters n !! pid) as [ws|] eqn:Ew; [|exists n1; split; [done|]; split; [done|]; split; [by rewrite delete_id|done]].
  destruct (wo_open _ _ HW pid ws Ew) as [Hnd Hop]. destruct (give_all_spec None ws n1 Hnd) as (cs & E2 & Hin & Hout); [by rewrite Hc|].
  erewrite bind_ok by exact E2. eexists. split; [reflexivity|]. split; [|split; [cbn; by rewrite Hw|intros ws' c [= <-]; apply Hin]].
  change (inv bs (set_waiters (delete pid (waiters n1)) cs n1)). apply set_waiters_inv; [done|].
  apply (wake_ok n1 pid ws); [by rewrite Hw, Hc|by rewrite Hw|exact Hout].
Qed.

Lemma connectedCallback_inv pid lower bs : keeps (inv bs) (connectedCallback pid lower).
Proof.
  intros n u n' Hn E. destruct (connectedCallback_returns pid lower bs n Hn) as (n1 & E1 & Hn1 & _). congruence.
Qed.
#[local] Hint Resolve connectedCallback_inv : keeps.

(** *** The switch *)

Lemma host_run_inv f p bs : Buf (LowerPacket.pkt p) ∈ bs -> keeps (inv bs) (host_run (W := Node UH LH) f p).
Proof. intros Hp. destruct f; cbn [host_run node_host]; apply keeps_bind; [by apply putB_inv|keep|by apply put_inv|keep]. Qed.

Lemma slot_inv i bs : keeps (inv bs) (slot (W := Node UH LH) i).
Proof. unfold slot. keep. Qed.

Lemma fwd_send_inv se p bs : Buf (LowerPacket.pkt p) ∈ bs -> keeps (inv bs) (send (W := Node UH LH) se p).
Proof.
  intros Hp. unfold send. destruct se; [|by apply host_run_inv].
  cbn [host_heap node_host]. apply keeps_bind; [apply mem_inv; monos|]. intros r. apply keeps_bind; [apply mem_inv; monos|]. keep.
Qed.

Lemma HandlePacket_inv p bs : Buf (LowerPacket.pkt p) ∈ bs -> keeps (inv bs) (HandlePacket (W := Node UH LH) p).
Proof.
  intros Hp. pose proof slot_inv as Hslot. unfold HandlePacket. cbn [host_heap node_host].
  repeat (first [progress keep | apply mem_inv; monos | by apply fwd_send_inv]).
Qed.

Lemma SendPacket_inv u bs : Buf (UpperPacket.pkt u) ∈ bs -> keeps (inv bs) (SendPacket (W := Node UH LH) u).
Proof.
  intros Hp. pose proof slot_inv as Hslot. unfold SendPacket, SendRaw. cbn [host_heap node_host].
  repeat (first [progress keep | apply mem_inv; monos | by apply fwd_send_inv]).
Qed.

(** ** The routines *)

(** The constructors of the session packets write the type and return the view. *)
Lemma view_inv (m : M heap SPacket) q bs :
  mono m -> (forall h a h', m h = Ok (a, h') -> a = q) -> triple (inv bs) (zoom l_mem m) (fun x n => inv bs n /\ x = q).
Proof.
  intros Hm Hq n a n' Hn E. split; [by eapply (mem_inv m)|]. unfold zoom in E.
  destruct (m (view l_mem n)) as [[x h]| |] eqn:Em; try done. injection E as <- <-. by eapply Hq.
Qed.

Lemma hello_view p o d bs :
  triple (inv bs) (zoom l_mem (HelloPacket.NewHelloPacket p o d)) (fun x n => inv bs n /\ x = mkSPacket o d p).
Proof.
  apply view_inv; unfold HelloPacket.NewHelloPacket, HelloPacket.SetMsgType; [monos|]. cbv zeta. intros h a h' E. by apply bind_inv in E as (u & h1 & _ & [= <- <-]).
Qed.
Lemma response_view p o d bs :
  triple (inv bs) (zoom l_mem (ResponsePacket.NewResponsePacket p o d)) (fun x n => inv bs n /\ x = mkSPacket o d p).
Proof.
  apply view_inv; unfold ResponsePacket.NewResponsePacket, ResponsePacket.SetMsgType; [monos|]. cbv zeta. intros h a h' E. by apply bind_inv in E as (u & h1 & _ & [= <- <-]).
Qed.
Lemma data_view p o d bs :
  triple (inv bs) (zoom l_mem (DataPacket.NewDataPacket p o d)) (fun x n => inv bs n /\ x = mkSPacket o d p).
Proof.
  apply view_inv; unfold DataPacket.NewDataPacket, DataPacket.SetMsgType; [monos|]. cbv zeta. intros h a h' E. by apply bind_inv in E as (u & h1 & _ & [= <- <-]).
Qed.

(** A view, and the rest of the body on it. *)
Lemma after_view {B} (m : M (Node UH LH) SPacket) q bs (k : SPacket -> M (Node UH LH) B) :
  triple (inv bs) m (fun x n => inv bs n /\ x = q) -> keeps (inv bs) (k q) -> keeps (inv bs) (m ≫= k).
Proof. intros Hm Hk. eapply triple_bind; [exact Hm|]. intros x. apply triple_pure. by intros ->. Qed.

Lemma CreateHello_inv p pid a bs :
  peerid_ok pid -> triple (inv bs) (zoom l_sess (Manager.CreateHello p pid a)) (fun x n => inv bs n /\ Buf (SessionPacket.pkt x.1) = Buf (SessionPacket.pkt p)).
Proof.
  intros Hp. apply (sess_inv_post _ _ (fun x _ => _)); [|apply CreateHello_buf]. apply sess_inv; [by apply CreateHello_sess|apply CreateHello_mono].
Qed.

Lemma HandleHello_inv p a bs :
  triple (inv bs) (zoom l_sess (Manager.HandleHello p a))
    (fun x n => inv (match x.2 with None => Buf (SessionPacket.pkt x.1) :: bs | _ => bs end) n).
Proof.
  eapply triple_weaken; [apply sess_inv_post; [apply sess_inv; [apply HandleHello_sess|apply HandleHello_mono]|apply HandleHello_buf]|done|].
  intros [q [e|]] n [Hn Hb]; [done|]. split; [apply Hn|]. constructor; [by apply Hb|apply Hn].
Qed.

Lemma HandleResponse_inv p a bs :
  0 <= Offset p -> Buf (SessionPacket.pkt p) ∈ bs -> keeps (inv bs) (zoom l_sess (Manager.HandleResponse p a)).
Proof.
  intros Ho Hp n x n' Hn. unfold zoom. cbn [view l_sess]. destruct (Manager.HandleResponse p a (sess n)) as [[y w]| |] eqn:E; try done.
  intros [= <- <-]. apply inv_sess; [done| |eapply (HandleResponse_mono p a (mem (sess n))); [unfold wgrows; reflexivity|exact E]].
  eapply HandleResponse_sess; [exact Ho| |exact E]. split; [apply Hn|]. destruct Hn as [_ Hb].
  rewrite list.Forall_forall in Hb. by apply Hb.
Qed.

Lemma CreateData_inv p pid bs : keeps (inv bs) (zoom l_sess (Manager.CreateData p pid)).
Proof. apply sess_inv; [apply CreateData_sess|apply CreateData_mono]. Qed.
Lemma HandleData_inv p bs : keeps (inv bs) (zoom l_sess (Manager.HandleData p)).
Proof. apply sess_inv; [apply HandleData_sess|apply HandleData_mono]. Qed.
#[local] Hint Resolve CreateData_inv HandleData_inv : keeps.

(** One statement of a body: memory, a queue, the switch, a transport. *)
Ltac node_step :=
  first
    [ progress keep
    | apply mem_inv; solve [monos]
    | apply put_inv; [done|by cbn]
    | apply putB_inv; [done|by cbn]
    | apply sendTransport_inv; by cbn
    | apply HandlePacket_inv; by cbn
    | apply SendPacket_inv; by cbn ].
Ltac node_steps := repeat node_step.

Lemma doLowerHelloSend_inv p bs : peerid_ok (LowerDst p) -> Buf p ∈ bs -> keeps (inv bs) (doLowerHelloSend p).
Proof.
  intros Hp Hb. unfold doLowerHelloSend. eapply after_view; [apply hello_view|].
  eapply triple_bind; [by apply CreateHello_inv|]. intros [q [e|]]; cbn [fst]; apply triple_pure; intros Hq; [by apply triple_ret|].
  apply sendTransport_inv. by rewrite Hq.
Qed.

Lemma doUpperHelloSend_inv p bs : peerid_ok (UpperDst p) -> Buf p ∈ bs -> keeps (inv bs) (doUpperHelloSend p).
Proof.
  intros Hp Hb. unfold doUpperHelloSend. eapply after_view; [apply hello_view|].
  eapply triple_bind; [by apply CreateHello_inv|]. intros [q [e|]]; cbn [fst]; apply triple_pure; intros Hq; [by apply triple_ret|].
  apply keeps_bind; [keep|]. intros r. destruct (GetRoute _ r) as [rt|]; [|keep].
  cbv zeta. unfold fwd_err. node_steps. apply SendPacket_inv. cbn. by rewrite Hq.
Qed.

Lemma doLowerSend_inv p bs : Buf p ∈ bs -> keeps (inv bs) (doLowerSend p).
Proof. intros Hb. unfold doLowerSend. eapply after_view; [apply data_view|]. node_steps. Qed.

Lemma doUpperSend_inv p bs : Buf p ∈ bs -> keeps (inv bs) (doUpperSend p).
Proof.
  intros Hb. unfold doUpperSend, fwd_err. cbv zeta. apply keeps_bind; [apply mem_inv; monos|]. intros l. destruct (l =? HopLength).
  - node_steps.
  - eapply after_view; [apply data_view|]. node_steps.
Qed.

Lemma inv_fewer b bs n : inv (b :: bs) n -> inv bs n.
Proof. intros [Hn Hb]. split; [done|]. by apply Forall_cons_iff in Hb as [_ ?]. Qed.

Lemma keeps_fewer {A} b bs (m : M (Node UH LH) A) : keeps (inv (b :: bs)) m -> triple (inv (b :: bs)) m (fun _ => inv bs).
Proof. intros Hm. eapply triple_weaken; [exact Hm|done|]. intros a n. apply inv_fewer. Qed.

Lemma doLowerHelloRecv_inv p bs : Buf p ∈ bs -> keeps (inv bs) (doLowerHelloRecv p).
Proof.
  intros Hb. unfold doLowerHelloRecv. apply keeps_bind; [apply mem_inv; monos|]. intros t. destruct (t =? HelloMsgType).
  - eapply after_view; [apply hello_view|]. eapply triple_bind; [apply HandleHello_inv|].
    intros [q [e|]]; cbn [fst snd]; [by apply triple_ret|]. apply keeps_fewer. apply sendTransport_inv. apply list_elem_of_here.
  - destruct (t =? ResponseMsgType); [|keep]. eapply after_view; [apply response_view|].
    apply keeps_bind; [by apply HandleResponse_inv|]. node_steps.
Qed.

Lemma doUpperHelloRecv_inv p bs : Buf p ∈ bs -> keeps (inv bs) (doUpperHelloRecv p).
Proof.
  intros Hb. unfold doUpperHelloRecv, fwd_err. cbv zeta. apply keeps_bind; [apply mem_inv; monos|]. intros t. destruct (t =? HelloMsgType).
  - eapply after_view; [apply hello_view|]. eapply triple_bind; [apply HandleHello_inv|].
    intros [q [e|]]; cbn [fst snd]; [by apply triple_ret|]. apply keeps_fewer. node_steps.
    apply SendPacket_inv. apply list_elem_of_here.
  - destruct (t =? ResponseMsgType); [|keep]. eapply after_view; [apply response_view|].
    apply keeps_bind; [by apply HandleResponse_inv|]. node_steps.
Qed.

Lemma doLowerRecv_inv p bs : Buf p ∈ bs -> keeps (inv bs) (doLowerRecv p).
Proof. intros Hb. unfold doLowerRecv. eapply after_view; [apply data_view|]. node_steps. Qed.

Lemma doUpperRecv_inv p bs : Buf p ∈ bs -> keeps (inv bs) (doUpperRecv p).
Proof. intros Hb. unfold doUpperRecv. cbv zeta. eapply after_view; [apply data_view|]. node_steps. Qed.

Context (run_upper : UH -> UpperPacket.UpperPacket -> M (Node UH LH) (option error)).
Context (run_lower : LH -> LowerPacket.LowerPacket -> M (Node UH LH) (option error)).
(** What the handlers of the services owe the node: they keep the invariant,
    given a packet whose buffer exists. *)
Context (Hupper : forall cb u, triple (inv [Buf (UpperPacket.pkt u)]) (run_upper cb u) (fun _ => node_inv)).
Context (Hlower : forall cb p, triple (inv [Buf (LowerPacket.pkt p)]) (run_lower cb p) (fun _ => node_inv)).

Definition ends_ok {A} b (m : M (Node UH LH) A) : Prop := triple (inv [b]) m (fun _ => node_inv).

Lemma ends_keeps {A} b (m : M (Node UH LH) A) : keeps (inv [b]) m -> ends_ok b m.
Proof. intros Hm. eapply triple_weaken; [exact Hm|done|]. by intros a n [? _]. Qed.

Lemma doLowerMux_inv p : ends_ok (Buf p) (doLowerMux run_lower p).
Proof.
  unfold doLowerMux, fwd_err. cbv zeta. eapply triple_bind; [apply mem_inv; monos|]. intros [c|]; [|by apply ends_keeps; keep].
  destruct (c =? DataMulticodec); [apply ends_keeps; node_steps; apply HandlePacket_inv; apply list_elem_of_here|].
  destruct (c =? DirectUpperCodec); [apply ends_keeps; node_steps; apply put_inv; [done|apply list_elem_of_here]|].
  eapply triple_bind; [apply keeps_gets|]. intros n0. destruct (lowerHandlers n0 !! c) as [cb|]; [|by apply ends_keeps; keep].
  apply (Hlower cb (LowerPacket.NewLowerPacket p)).
Qed.

Lemma doUpperMux_inv p : ends_ok (Buf p) (doUpperMux run_upper p).
Proof.
  unfold doUpperMux. cbv zeta. eapply triple_bind; [apply mem_inv; monos|]. intros [c|]; [|by apply ends_keeps; keep].
  eapply triple_bind; [apply keeps_gets|]. intros n0. destruct (upperHandlers n0 !! c) as [cb|]; [|by apply ends_keeps; keep].
  apply (Hupper cb (UpperPacket.NewUpperPacket p)).
Qed.

(** A routine's turn: take a packet, then work on it. *)
Lemma turn_inv {A} q (k : Packet -> M (Node UH LH) A) :
  (forall p h, pkt_ok q h p -> ends_ok (Buf p) (k p)) -> keeps node_inv (p ← Node.take q; k p).
Proof.
  intros Hk n a n' Hn E. apply bind_inv in E as (p & n1 & E1 & E2).
  destruct (take_inv q [] n p n1 ltac:(by split) E1) as [Hn1 Hp]. by eapply (Hk p _ Hp).
Qed.

(** ** Turns *)

(** Everything that can happen to a node: a datagram arrives, a routine takes its
    turn, a caller enters or leaves. [Connect] is the three steps [DoConnect],
    [DoJoin] and [DoTake], between which others come. *)
Inductive turn : Type :=
| DoDatagram (d : list Z) (ip : NetIP.Addr) (port : Z)
| DoTransport (i : nat)
| DoHelloSend | DoLowerSend | DoUpperSend | DoHelloRecv | DoLowerRecv | DoLowerMux | DoUpperRecv | DoUpperMux
| DoConnect (pid : PeerID) (raddr : Multiaddr) | DoJoin (pid : PeerID) | DoTake (ch : nat)
| DoSend (to : PeerID) (codec : Z) (p : list Z)
| DoHandle (codec : Z) (cb : UH) | DoHandleLower (codec : Z) (cb : LH)
| DoListen (ma : Multiaddr) (opened : bool) | DoStart | DoStop.

Definition done_ {A} (m : M (Node UH LH) A) : M (Node UH LH) unit := _ ← m; mret tt.

Definition run_turn (t : turn) : M (Node UH LH) unit :=
  match t with
  | DoDatagram d ip port => recv_datagram d ip port
  | DoTransport i => send_turn i
  | DoHelloSend => done_ helloSend_turn
  | DoLowerSend => done_ lowerSend_turn
  | DoUpperSend => done_ upperSend_turn
  | DoHelloRecv => done_ helloRecv_turn
  | DoLowerRecv => done_ lowerRecv_turn
  | DoLowerMux => done_ (lowerMux_turn run_lower)
  | DoUpperRecv => done_ upperRecv_turn
  | DoUpperMux => done_ (upperMux_turn run_upper)
  | DoConnect pid raddr => connect_put pid raddr
  | DoJoin pid => done_ (join_waiters pid)
  | DoTake c => done_ (chan_take c)
  | DoSend to codec p => done_ (Send to codec p)
  | DoHandle codec cb => modify (Handle codec cb)
  | DoHandleLower codec cb => modify (HandleLower codec cb)
  | DoListen ma opened => done_ (Listen ma opened)
  | DoStart => done_ Start
  | DoStop => done_ Stop
  end.

(** The ids that Go's type can hold. *)
Definition turn_ok (t : turn) : Prop := match t with DoConnect pid _ => peerid_ok pid | _ => True end.

(** *** Every turn keeps the invariant *)

Lemma done_inv {A} (m : M (Node UH LH) A) : keeps node_inv m -> keeps node_inv (done_ m).
Proof. intros Hm. unfold done_. apply keeps_bind; [exact Hm|]. intros. apply keeps_ret. Qed.

Lemma inv_nil {A} (m : M (Node UH LH) A) : keeps (inv []) m -> keeps node_inv m.
Proof. intros Hm n a n' Hn E. by apply (Hm n a n' ltac:(by split) E). Qed.

Lemma make_inv bs (sz : Z) : 0 <= sz -> triple (inv bs) (zoom l_mem (make_bytes sz)) (fun b => inv (b :: bs)).
Proof.
  intros Hn x b x' Hx E. pose proof (mem_inv _ bs (mono_make sz) x b x' Hx E) as [Hx' Hb]. split; [done|].
  constructor; [|done]. unfold zoom in E. destruct (make_bytes sz (view l_mem x)) as [[c h]| |] eqn:Em; try done.
  injection E as <- <-. unfold make_bytes in Em. apply bind_inv in Em as (u & h1 & E1 & [= <- <-]). apply assert_inv in E1 as [_ [= -> ->]].
  split; [done|]. cbn. unfold arr. rewrite lookup_app_r, Nat.sub_diag by lia. cbn. rewrite zlen_zeros by done. lia.
Qed.

Lemma datagram_inv d ip port : keeps node_inv (recv_datagram d ip port).
Proof.
  apply inv_nil. unfold recv_datagram. eapply triple_bind; [by apply make_inv|]. intros b.
  apply keeps_fewer. apply keeps_bind; [apply mem_inv; monos|]. intros c. apply keeps_bind; [apply mem_inv; monos|]. intros [].
  apply put_inv; [done|]. apply list_elem_of_here.
Qed.

Lemma empty_peerid_ok : peerid_ok emptyPeerID.
Proof. by vm_compute. Qed.

Lemma connect_inv pid raddr : peerid_ok pid -> keeps node_inv (connect_put pid raddr).
Proof.
  intros Hp. apply inv_nil. unfold connect_put. eapply triple_bind; [by apply make_inv|]. intros b. cbv zeta.
  pose proof empty_peerid_ok. apply keeps_fewer. destruct (negb _); unfold put.
  - apply (queue_inv HelloSend (set_TptDst raddr (Packet.set_LowerDst pid (NewPacket b)))); [|apply list_elem_of_here|done].
    intros rb u rb' P. apply Put_ok.
  - apply (queue_inv HelloSend (set_UpperDst pid (NewPacket b))); [|apply list_elem_of_here|done]. intros rb u rb' P. apply Put_ok.
Qed.

Lemma Send_inv to codec p : keeps node_inv (Send to codec p).
Proof.
  apply inv_nil. unfold Send. apply keeps_bind; [keep|]. intros r. destruct (GetRoute to r) as [rt|]; [|keep].
  eapply triple_bind; [by apply make_inv|]. intros b. cbv zeta. apply keeps_fewer.
  eapply (triple_bind _ _ _ (fun u n => inv [b] n /\ Buf (UpperPacket.pkt u) = b)).
  - intros n u n' Hn E. split; [eapply (mem_inv _ [b]); [|exact Hn|exact E]; unfold UpperPacket.SetPayload; monos|].
    unfold zoom in E. match type of E with match ?m with _ => _ end = _ => destruct m as [[x h]| |] eqn:Em; try done end.
    injection E as <- <-. apply bind_inv in Em as (? & ? & _ & Em). apply bind_inv in Em as (? & ? & _ & Em).
    unfold UpperPacket.SetPayload in Em. cbv zeta in Em. by apply bind_inv in Em as (? & ? & _ & [= <- <-]).
  - intros u. apply triple_pure. intros Hb. unfold SendUpper. apply keeps_bind; [|intros; apply keeps_ret].
    apply putB_inv; [done|]. rewrite Hb. apply list_elem_of_here.
Qed.

Lemma handlers_inv n uh lh : node_inv n -> node_inv (set_upperHandlers uh n) /\ node_inv (set_lowerHandlers lh n).
Proof. intros [Hf Hsl Hq Ht Hw Hs]. by split; split. Qed.

Lemma Handle_inv codec cb n : node_inv n -> node_inv (Handle codec cb n).
Proof. intros Hn. unfold Handle. destruct (_ !! _); [done|]. by apply (handlers_inv n _ ∅). Qed.
Lemma HandleLower_inv codec cb n : node_inv n -> node_inv (HandleLower codec cb n).
Proof. intros Hn. unfold HandleLower. destruct (_ !! _); [done|]. by apply (handlers_inv n ∅ _). Qed.

(** The transports and the node start and stop together. *)
Lemma running_inv n r (f : Transport -> Transport) :
  node_inv n -> (forall t, sendQ (f t) = sendQ t /\ Running_ (t_running (f t)) = Running_ r) ->
  node_inv (over l_transports (map f (transports n)) (set_running r n)).
Proof.
  intros [Hf Hsl Hq Ht Hw Hs] Hft. split; [exact Hf|exact Hsl|intros q; specialize (Hq q); by destruct q| |exact Hw|exact Hs].
  apply Forall_map. eapply list.Forall_impl; [exact Ht|]. intros t (H1' & H2' & _). destruct (Hft t) as [E1 E2].
  unfold tpt_ok. rewrite E1. split; [done|]. split; [done|]. exact E2.
Qed.

Lemma Start_inv : keeps node_inv Start.
Proof.
  intros n e n' Hn. unfold Start. erewrite bind_ok by reflexivity. unfold id. destruct (Running n); intros [= <- <-]; [done|].
  apply (running_inv n ROpen (fun t => (TStart t).1) Hn). intros t. unfold TStart. by destruct (Running_ (t_running t)) eqn:E.
Qed.
Lemma Stop_inv : keeps node_inv Stop.
Proof.
  intros n e n' Hn. unfold Stop. erewrite bind_ok by reflexivity. unfold id. destruct (Running n); intros [= <- <-]; [|done].
  apply (running_inv n RClosed (fun t => (TStop t).1) Hn). intros t. unfold TStop. by destruct (Running_ (t_running t)) eqn:E.
Qed.

Lemma Listen_inv ma opened : keeps node_inv (Listen ma opened).
Proof.
  unfold Listen. destruct (NewTransport ma opened) as [t|e] eqn:Et; [|keep]. apply NewTransport_fresh in Et as ->.
  intros n e n' Hn. erewrite bind_ok by reflexivity. intros [= <- <-].
  refine (proj1 (tpts_inv [] n _ (conj Hn _) _)); [constructor|]. apply Forall_app. split; [apply Hn|]. apply Forall_singleton.
  unfold id, tpt_ok. destruct (Running n) eqn:Er; cbn; (split; [by vm_compute|]); by split.
Qed.

Lemma run_turn_inv t : turn_ok t -> keeps node_inv (run_turn t).
Proof.
  intros Ht. destruct t; cbn [run_turn turn_ok] in *; try apply done_inv.
  - apply datagram_inv.
  - apply inv_nil, send_turn_inv.
  - apply turn_inv. intros p h [_ [Hl Hu]]. apply ends_keeps.
    destruct (PeerID.Empty (LowerDst p)); [destruct (PeerID.Empty (UpperDst p)); [keep|]|destruct (Multiaddr.Empty _); [keep|]; keep].
    + apply doUpperHelloSend_inv; [done|apply list_elem_of_here].
    + apply doLowerHelloSend_inv; [done|apply list_elem_of_here].
  - apply turn_inv. intros p h _. apply ends_keeps. destruct (PeerID.Empty _); [keep|]. apply doLowerSend_inv, list_elem_of_here.
  - apply turn_inv. intros p h _. apply ends_keeps. destruct (PeerID.Empty _); [keep|]. apply doUpperSend_inv, list_elem_of_here.
  - apply turn_inv. intros p h _. apply ends_keeps. destruct (PeerID.Empty _); [destruct (Multiaddr.Empty _); [keep|]|].
    + apply doLowerHelloRecv_inv, list_elem_of_here.
    + apply doUpperHelloRecv_inv, list_elem_of_here.
  - apply turn_inv. intros p h _. apply ends_keeps. apply keeps_bind; [apply mem_inv; monos|]. intros m.
    destruct (m =? DataMsgType); [apply doLowerRecv_inv, list_elem_of_here|]. destruct (_ || _); [|keep].
    apply keeps_bind; [|intros; keep]. apply put_inv; [done|]. apply list_elem_of_here.
  - apply turn_inv. intros p h _. destruct (PeerID.Empty _); [apply ends_keeps; keep|apply doLowerMux_inv].
  - apply turn_inv. intros p h _. apply ends_keeps. apply keeps_bind; [apply mem_inv; monos|]. intros m.
    destruct (m =? DataMsgType); [apply doUpperRecv_inv, list_elem_of_here|]. destruct (_ || _); [|keep].
    apply keeps_bind; [|intros; keep]. apply put_inv; [done|]. apply list_elem_of_here.
  - apply turn_inv. intros p h _. apply doUpperMux_inv.
  - by apply connect_inv.
  - apply inv_nil, join_inv.
  - apply inv_nil, chan_take_inv.
  - apply Send_inv.
  - apply triple_modify. intros n. apply Handle_inv.
  - apply triple_modify. intros n. apply HandleLower_inv.
  - apply Listen_inv.
  - apply Start_inv.
  - apply Stop_inv.
Qed.

(** *** Reachable states *)

Lemma NewNode_inv k e clock ord h n : NewNode k e clock ord h = Ok n -> node_inv n.
Proof.
  unfold NewNode, zoom. cbn [view l_fwd fwd sess mem]. set (pid := NewPeerID _).
  assert (EA : Attach pid RecvUpper (@NewForwarder sendFunc, h) = Ok ((mkRoute (Slice (length h) 0 1 1), None),
    (mkForwarder (<[0 := Entry pid RecvUpper]> (slots NewForwarder)) (<[pid := 0]> (bypeer (@NewForwarder sendFunc))), h ++ [[0]]))) by reflexivity.
  pose proof (Attach_ok _ _ _ _ _ _ _ _ NewForwarder_ok EA) as Hok.
  assert (Hsl : slots_ok pid (mkForwarder (<[0 := Entry pid RecvUpper]> (slots NewForwarder))
    (<[pid := 0]> (bypeer (@NewForwarder sendFunc))))).
  { split; [apply lookup_insert_eq|]. intros i p g. cbn [slots]. rewrite lookup_insert_Some.
    intros [[<- _]|[_ Hi]] Hne; [by destruct Hne|]. rewrite NewForwarder_slot in Hi. by case_decide. }
  rewrite EA. clear EA. set (f := mkForwarder _ _) in *. clearbody f. intros [= <-].
  split; [exact Hok|exact Hsl|intros q; by destruct q|constructor| |].
  - split; intros p ?; cbn; by rewrite lookup_empty.
  - intros i x. cbn. by rewrite lookup_empty.
Qed.

(** The states that turns lead to, in any order. *)
Inductive reach : Node UH LH -> Prop :=
| reach_new k e clock ord h n : NewNode k e clock ord h = Ok n -> reach n
| reach_turn t n n' : reach n -> turn_ok t -> run_turn t n = Ok (tt, n') -> reach n'.

Lemma reach_inv n : reach n -> node_inv n.
Proof. induction 1 as [k e clock ord h n E|t n n' _ IH Ht E]; [by eapply NewNode_inv|]. by eapply (run_turn_inv t Ht). Qed.

(** A schedule of turns. *)
Fixpoint run_turns (ts : list turn) : M (Node UH LH) unit :=
  match ts with
  | [] => mret tt
  | t :: ts => _ ← run_turn t; run_turns ts
  end.

Lemma reach_turns ts : forall n n', reach n -> Forall turn_ok ts -> run_turns ts n = Ok (tt, n') -> reach n'.
Proof.
  induction ts as [|t ts IH]; intros n n' Hn Hts E; [by injection E as <-|]. apply Forall_cons_iff in Hts as [Ht Hts].
  cbn [run_turns] in E. apply bind_inv in E as ([] & n1 & E1 & E2). eapply IH; [|done|exact E2]. by eapply reach_turn.
Qed.

(** Running a schedule on a new node. *)
Definition run_new k e clock ord h (ts : list turn) : res (unit * Node UH LH) :=
  match NewNode k e clock ord h with
  | Ok n => run_turns ts n
  | Panic => Panic
  | Block => Block
  end.

Lemma run_new_reach k e clock ord h ts (P : Node UH LH -> Prop) :
  Forall turn_ok ts -> match run_new k e clock ord h ts with Ok (_, n) => P n | _ => False end -> exists n, reach n /\ P n.
Proof.
  intros Hts. unfold run_new. destruct (NewNode k e clock ord h) as [n0| |] eqn:E0; [|intros []..].
  destruct (run_turns ts n0) as [[[] n]| |] eqn:E; [|intros []..]. intros HP. exists n. split; [|exact HP].
  eapply reach_turns; [by eapply reach_new|exact Hts|exact E].
Qed.

(** ** Properties *)

(** C5: the invariant of a node. Whatever the order in which its routines run,
    whatever its callers do and whatever arrives, forged or not: the
    forwarder's tables agree with each other, slot 0 is the node's own and every
    other taken slot leads to the lower send queue; no queue exceeds its
    capacity and every queued packet has its buffer; the transports run exactly
    when the node does; every waiter has an open channel of its own; and the
    session store holds no nil reference, only sessions in a stage that fits
    their role and that name the peer whose static key their handshake works
    with. *)
Theorem node_invariant n : reach n -> node_inv n.
Proof. apply reach_inv. Qed.

(** C7: whoever waits for a connection is answered, and exactly once. Take
    [connectedCallback] as one step in any reachable state, that is, once it is
    granted the locks it takes one after the other; what it may have to wait for
    there is the subject of Locks ([guarded_tables], [callback_held_up]). Then it
    comes to its end, whichever peer it is for: every channel it writes into is
    empty and takes the answer without waiting, although it is written with
    [waitersLock] held. Afterwards everybody who waited for the peer has the
    answer in its channel, nobody is registered as waiting for it any more, and
    the invariant of the node holds. *)
Theorem callback_answers_waiters n (pid : PeerID) (lower : bool) :
  reach n ->
  exists n', connectedCallback pid lower n = Ok (tt, n') /\ node_inv n' /\ waiters n' !! pid = None /\
    forall ws c, waiters n !! pid = Some ws -> c ∈ ws -> chans n !! c = Some None /\ chans n' !! c = Some (Some None).
Proof.
  intros Hn%reach_inv. destruct (connectedCallback_returns pid lower [] n ltac:(by split)) as (n' & E & [Hn' _] & Hw & Hc).
  exists n'. split; [exact E|]. split; [done|]. rewrite Hw. split; [apply lookup_delete_eq|]. intros ws c Hp Hin. split; [|by eapply Hc].
  by apply (wo_open _ _ (ni_waiters _ Hn) pid ws Hp).
Qed.

(** C6: a node never seals data for one peer with the key of another. In every
    reachable state [CreateData] for a peer returns. When it succeeds, what
    stands in the packet is the plaintext sealed with the sending key of a
    session whose handshake was made with that peer's static key, under the index
    of that session, and the address is the one of that session; when it fails,
    nothing is written, and either no session names the peer or one that does has
    no sending key yet. *)
Theorem data_goes_to_the_key `{!CryptoLaws} n (p : PeerID) (q : SPacket) (l : list Z) (o := Offset q)
    (e := Packet.Length (SessionPacket.pkt q) - Padding q) :
  reach n -> order_ok (order (sess n)) -> full (mem (sess n)) (Buf (SessionPacket.pkt q)) l ->
  0 <= o -> 0 <= Padding q -> o + 32 <= e -> Packet.Length (SessionPacket.pkt q) <= zlen l ->
  exists res w', Manager.CreateData q p (sess n) = Ok (res, w') /\
    match res with
    | inl a => exists idx r s aead nonce l',
        store (sm (sess n)) !! idx = Some (Some r) /\ objs (sess n) !! r = Some s /\ a = remoteAddr s /\
        NewPeerID (Ikpsk2.RemotePublicKey (handshake s)) = p /\ Ikpsk2.send (handshake s) = Some aead /\
        full (mem w') (Buf (SessionPacket.pkt q)) l' /\
        data_layout l' o e idx nonce (aead_Seal aead (Ikpsk2.nonce_of nonce) (sub l (o + 16) (e - 16 - (o + 16))) [])
    | inr _ => mem w' = mem (sess n) /\
        ((forall idx r s, store (sm (sess n)) !! idx = Some (Some r) -> objs (sess n) !! r = Some s -> remotePeerID s <> p) \/
         exists idx r s, store (sm (sess n)) !! idx = Some (Some r) /\ objs (sess n) !! r = Some s /\ remotePeerID s = p /\
           Ikpsk2.send (handshake s) = None)
    end.
Proof.
  intros Hn%reach_inv Ho Hf Hlo Hpad He Hlen. pose proof (ni_sess _ Hn) as Hs. subst o e.
  destruct (sess n) as [m os en nw ord i h] eqn:Ew. cbn [order sm objs mem] in *.
  destruct (Find_spec p m os en nw ord i h Ho) as (res & E & Hres).
  { intros idx x Hx. by apply (sess_ok_refs _ idx x Hs). }
  destruct res as [[r idx]|].
  - destruct Hres as [Hidx Hr]. destruct (Hs idx _ Hidx) as (r' & s & [= <-] & Hs' & Hok). cbn in Hs'. rewrite Hs' in Hr.
    injection Hr as Hr. destruct (Ikpsk2.send (handshake s)) as [aead|] eqn:Hsend.
    + set (pt := sub l (Offset q + 16) (Packet.Length (SessionPacket.pkt q) - Padding q - 16 - (Offset q + 16))).
      set (hi := Ikpsk2.set_sendNonce (u64 (Ikpsk2.sendNonce (handshake s) + 1)) (handshake s)).
      set (nonce := be_bytes 8 (Ikpsk2.sendNonce hi)).
      assert (Hz : zlen pt = Packet.Length (SessionPacket.pkt q) - Padding q - 16 - (Offset q + 16)) by (unfold pt; apply zlen_sub; lia).
      destruct (CreateData_spec q p m os en nw ord i (S i) h l r idx s hi (Ikpsk2.mkMessageHeader nonce)
        (aead_Seal aead (Ikpsk2.nonce_of nonce) pt [])) as (l' & EC & Hlay & (Hzl & _) & _); try done; try lia.
      * unfold Ikpsk2.MakeMessage. by rewrite Hsend.
      * rewrite Seal_length, Hz. lia.
      * split; [exact (zlen_be_bytes 8 _)|apply is_bytes_be].
      * eexists _, _. split; [exact EC|]. exists idx, r, s, aead, nonce, l'. do 3 (split; [done|]). split; [by rewrite <- (so_peer _ Hok)|].
        split; [done|]. split; [apply full_upd with (l := l); [exact Hf|lia]|exact Hlay].
    + eexists _, _. split; [eapply CreateData_unfinished; [exact E|exact Hs'|exact Hsend|exact Hf|lia..]|]. split; [done|]. right. by exists idx, r, s.
  - eexists _, _. split; [unfold Manager.CreateData; erewrite bind_ok by exact E; reflexivity|]. split; [done|]. left.
    intros idx r s Hidx Hr Hp. apply (Hres idx r Hidx). cbn. rewrite Hr. cbn. by rewrite Hp.
Qed.
End node_inv.

(** *** Witnesses *)

Lemma nd_handlers :
  (forall cb u, triple (inv [Buf (UpperPacket.pkt u)]) (nd_upper cb u) (fun _ => node_inv)) /\
  (forall cb p, triple (inv [Buf (LowerPacket.pkt p)]) (nd_lower cb p) (fun _ => node_inv)).
Proof. by split; intros cb u; apply triple_ret; intros n [? _]. Qed.

#[local] Existing Instance round8.

(** A node that has sent a hello and whose caller waits, and a datagram that
    has just arrived. *)
Definition ni_turns : list (turn (UH := unit) (LH := unit)) :=
  [DoListen ma0 true; DoStart; DoConnect sw_pb ma0; DoJoin sw_pb; DoHelloSend; DoTransport 0;
   DoDatagram [1; 0; 0; 0] (NetIP.Addr4 [10; 0; 0; 1]) 7].

Definition ni_state (n : Node unit unit) : Prop := waiters n !! sw_pb = Some [0%nat] /\ order (sess n) = sw_order.

Lemma ni_reaches : exists n, reach nd_upper nd_lower n /\ ni_state n.
Proof.
  apply (run_new_reach nd_upper nd_lower Ikpsk2.hs_si [Some [1; 2]; Some [5]] Ikpsk2.hs_ts sw_order [] ni_turns ni_state).
  - repeat constructor; by vm_compute.
  - vm_compute. by split.
Qed.

Lemma node_invariant_witness : exists n : Node unit unit, node_inv n /\ waiters n !! sw_pb = Some [0%nat].
Proof.
  destruct ni_reaches as (n & Hn & Hw & _). exists n. split; [|exact Hw].
  exact (node_invariant nd_upper nd_lower (proj1 nd_handlers) (proj2 nd_handlers) n Hn).
Defined.

Lemma callback_answers_waiters_witness :
  exists n n' : Node unit unit, connectedCallback sw_pb true n = Ok (tt, n') /\ chans n' !! 0%nat = Some (Some None).
Proof.
  destruct ni_reaches as (n & Hn & Hw & _).
  destruct (callback_answers_waiters nd_upper nd_lower (proj1 nd_handlers) (proj2 nd_handlers) n sw_pb true Hn)
    as (n' & E & _ & _ & Hc). exists n, n'. split; [exact E|]. apply (Hc [0%nat]); [exact Hw|apply list_elem_of_here].
Defined.

(** A node that has completed its connection: the datagrams of its peer are
    those that a second node answers with. *)
Definition ni_peer : PeerID := NewPeerID (Key.PublicKey_ Ikpsk2.hs_sr).
Definition ni_last (r : res (unit * Node unit unit)) : list Z :=
  match r with
  | Ok (_, n) => match transports n with t :: _ => default [] (fst <$> list.last (sent t)) | [] => [] end
  | _ => []
  end.
Definition ni_dial : list (turn (UH := unit) (LH := unit)) :=
  [DoListen ma0 true; DoStart; DoConnect ni_peer ma0; DoJoin ni_peer; DoHelloSend; DoTransport 0].
Definition ni_run k e (ts : list (turn (UH := unit) (LH := unit))) := run_new nd_upper nd_lower k e Ikpsk2.hs_ts sw_order [] ts.
Definition ni_hello : list Z := Eval vm_compute in ni_last (ni_run Ikpsk2.hs_si [Some [1; 2]; Some [5]] ni_dial).
Definition ni_response : list Z := Eval vm_compute in
  ni_last (ni_run Ikpsk2.hs_sr [Some [1; 2]; Some [77; 1]]
    [DoListen ma0 true; DoStart; DoDatagram ni_hello (NetIP.Addr4 [10; 0; 0; 1]) 7; DoLowerRecv; DoHelloRecv; DoTransport 0]).
Definition ni_connected : list (turn (UH := unit) (LH := unit)) :=
  ni_dial ++ [DoDatagram ni_response (NetIP.Addr4 [10; 0; 0; 2]) 8; DoLowerRecv; DoHelloRecv].

Definition ni_joined (n : Node unit unit) : Prop :=
  store (sm (sess n)) !! 333 = Some (Some 0%nat) /\ (remotePeerID <$> objs (sess n) !! 0%nat) = Some ni_peer /\
  order (sess n) = sw_order /\ match mem (sess n) !! 1%nat with Some l => zlen l = 1452 | None => False end.

Lemma ni_connects : exists n, reach nd_upper nd_lower n /\ ni_joined n.
Proof.
  apply (run_new_reach nd_upper nd_lower Ikpsk2.hs_si [Some [1; 2]; Some [5]] Ikpsk2.hs_ts sw_order [] ni_connected ni_joined).
  - repeat constructor; by vm_compute.
  - vm_compute. by repeat split.
Qed.

Definition ni_packet : SPacket := mkSPacket 0 0 (NewPacket (Slice 1 0 1452 1452)).

Lemma data_goes_to_the_key_witness :
  exists (n : Node unit unit) res w', ni_joined n /\ Manager.CreateData ni_packet ni_peer (sess n) = Ok (res, w').
Proof.
  destruct ni_connects as (n & Hn & Hj). pose proof Hj as (_ & _ & Ho & Hm). destruct (mem (sess n) !! 1%nat) as [l|] eqn:El; [|destruct Hm].
  destruct (data_goes_to_the_key nd_upper nd_lower (proj1 nd_handlers) (proj2 nd_handlers) n ni_peer ni_packet l Hn) as (res & w' & E & _).
  - rewrite Ho. by intros ? ?.
  - split; [exact El|]. cbn. rewrite Hm. lia.
  - done.
  - done.
  - by vm_compute.
  - rewrite Hm. done.
  - exists n, res, w'. split; [exact Hj|exact E].
Defined.
