(* ===== verification/Routed.v ===== *)
(** * Routed: messages across several nodes (node/node.go, send.go, recv.go)

    Node treats one node at a time and Network the labels alone. Here whole
    nodes are put in a row: the sender seals a message for the far end with the
    upper session and labels it, every link carries it sealed with the lower
    session of that link, every node in between opens it, switches it by its
    label and seals it for the next link, and the far end opens both layers.
    Between two nodes there is only the datagram. *)

From S2P Require Import Prelude GoMem Route Ext Toy Key PeerID Multiaddr Packet RingBuf Routing Forwarder Network SessionPacket Ikpsk2 Session Node.
Import Route PeerID Multiaddr Packet RingBuf Routing Forwarder SessionPacket Session Node.

(** ** One link *)

Section link.
Context `{CryptoLaws, MaddrLib, VarintLaws} {UH LH : Type}.
Implicit Types (n : Node UH LH) (w : world).

(** The sending half of a session: the store is in order, and the session is
    the only one with that peer. *)
Record sole_session w (p : PeerID) (idx : Z) (r : nat) (s : Session) : Prop := {
  ss_stored : store (sm w) !! idx = Some (Some r) /\ objs w !! r = Some s;
  ss_peer : remotePeerID s = p;
  ss_order : order_ok (order w);
  ss_refs : forall i x, store (sm w) !! i = Some x -> exists r, x = Some r /\ is_Some (objs w !! r);
  ss_sole : forall i r', store (sm w) !! i = Some (Some r') -> remotePeerID <$> objs w !! r' = Some p -> i = idx /\ r' = r
}.

(** The receiving half: the session is in its final stage. *)
Record open_session w (p : PeerID) (idx : Z) (r : nat) (s : Session) : Prop := {
  os_stored : store (sm w) !! idx = Some (Some r) /\ objs w !! r = Some s;
  os_peer : remotePeerID s = p;
  os_stage : stage s = 0x03;
  os_index : 0 <= idx < 2 ^ 32
}.

(** The sending half in general: the session that [Find], which takes the first
    one with the peer in the order of iteration, picks among those there are. *)
Record picked w (p : PeerID) (idx : Z) (r : nat) (s : Session) : Prop := {
  pk_session : objs w !! r = Some s;
  pk_peer : remotePeerID s = p;
  pk_find : exists w', Manager.Find p w = Ok (Some (r, idx), w')
}.

Lemma picked_find w p idx r s h :
  picked w p idx r s ->
  Manager.Find p (over mem_lens h w) = Ok (Some (r, idx), set_ranges (S (ranges w)) (over mem_lens h w)).
Proof. intros [_ _ [w' E]]. exact (Find_frame _ _ _ _ E (over mem_lens h w) eq_refl eq_refl eq_refl eq_refl). Qed.

Lemma picked_frame w w' p idx r s :
  picked w p idx r s -> sm w' = sm w -> order w' = order w -> ranges w' = ranges w -> objs w' = objs w -> picked w' p idx r s.
Proof.
  intros [Hs Hp [x E]] Em Eo Er Eobj. split; [by rewrite Eobj|done|]. eexists.
  apply (Find_frame _ _ _ _ E); by rewrite ?Em, ?Eobj.
Qed.

(** What another session of the node does in between does not change it. *)
Lemma picked_insert w w' p idx r s r1 s1 hi :
  picked (set_ranges (S (ranges w)) w) p idx r s -> objs w !! r1 = Some s1 -> r <> r1 ->
  sm w' = sm w -> order w' = order w -> ranges w' = S (ranges w) -> objs w' = <[r1 := set_handshake hi s1]> (objs w) ->
  picked w' p idx r s.
Proof.
  intros [Hs Hp [x E]] Hr1 Hne Em Eo Er Eobj. split; [by rewrite Eobj, list_lookup_insert_ne|done|]. eexists.
  apply (Find_frame _ _ _ _ E); rewrite ?Em; try done. rewrite Eobj. cbn [objs set_ranges].
  rewrite list_fmap_insert. apply list_insert_id. by rewrite list_lookup_fmap, Hr1.
Qed.

Lemma sole_session_find w p idx r s h :
  sole_session w p idx r s ->
  Manager.Find p (over mem_lens h w) = Ok (Some (r, idx), set_ranges (S (ranges w)) (over mem_lens h w)).
Proof.
  intros [[H1' H2'] H3' H4' H5' H6']. eapply (Find_unique p _ _ _ _ _ _ h idx r); eauto. by rewrite H2', <- H3'.
Qed.

(** A session that is the only one is always picked. *)
Lemma sole_picked w p idx r s k : sole_session w p idx r s -> picked (set_ranges k w) p idx r s.
Proof.
  intros Hs. pose proof Hs as [[H1' H2'] H3' H4' H5' H6']. split; [done|done|]. eexists.
  by apply (sole_session_find (set_ranges k w) p idx r s (mem w)).
Qed.

Lemma sole_picked_now w p idx r s : sole_session w p idx r s -> picked w p idx r s.
Proof. intros Hs%(sole_picked _ _ _ _ _ (ranges w)). by destruct w. Qed.

(** What a session of the same node does leaves the other ones as they are. *)
Lemma sole_session_insert w w' p idx r s r1 s1 hi :
  sole_session w p idx r s -> objs w !! r1 = Some s1 -> r <> r1 -> sm w' = sm w -> order w' = order w ->
  objs w' = <[r1 := set_handshake hi s1]> (objs w) -> sole_session w' p idx r s.
Proof.
  intros [[H1' H2'] H3' H4' H5' H6'] Hr1 Hne Em Eo Eobj. split; rewrite ?Em, ?Eo, ?Eobj; try done.
  - by rewrite list_lookup_insert_ne.
  - intros i x Hx. destruct (H5' i x Hx) as (q & -> & Hq). exists q. split; [done|].
    apply lookup_lt_is_Some. rewrite length_insert. by apply lookup_lt_is_Some.
  - intros i q Hi Hq. apply (H6' i q Hi). destruct (decide (q = r1)) as [->|Hn].
    + rewrite list_lookup_insert_eq in Hq by (by eapply lookup_lt_Some). by rewrite Hr1.
    + by rewrite list_lookup_insert_ne in Hq.
Qed.

(** The datagram [d] holds [pt], sealed for the session [s] under [idx]. *)
Record carried (s : Session) (idx : Z) (d pt : list Z) : Prop := {
  ca_length : zlen d = zlen pt + 32;
  ca_bytes : is_bytes d /\ is_bytes pt;
  ca_open : exists nonce ct, data_layout d 0 (zlen d) idx nonce ct /\ zlen ct = zlen pt + 16 /\
    Ikpsk2.ConsumeMessage (Ikpsk2.mkMessageHeader nonce) ct (handshake s) = inl pt
}.

(** The first transport has room for a packet. *)
Definition can_emit n (t : Transport) (ts : list Transport) : Prop :=
  transports n = t :: ts /\ ch (sendQ t) = [] /\ 1 <= cap (sendQ t).

(** The lower send routine and the transport. *)
Definition seal_run : M (Node UH LH) unit := _ ← lowerSend_turn; send_turn 0.

(** The sessions after one of them has sealed a message, with the heap [h]. *)
Definition sealed_world w (r : nat) (s : Session) (hi : Ikpsk2.Handshake) (h : heap) : world :=
  mkWorld (sm w) (<[r := set_handshake hi s]> (objs w)) (rand w) (now w) (order w) (S (ranges w)) h.

Lemma seal_spec n pkt l t ts p idx r s s' (len := Packet.Length pkt) :
  holding LowerSend pkt n -> LowerDst pkt = p -> PeerID.Empty p = false ->
  full (mem (sess n)) (Buf pkt) l -> is_bytes l -> 32 <= len <= zlen l ->
  can_emit n t ts -> picked (sess n) p idx r s -> Multiaddr.Empty (remoteAddr s) = false ->
  Ikpsk2.established (handshake s) (handshake s') ->
  exists l' d hi,
    seal_run n = Ok (tt, over l_transports (has_sent t d (remoteAddr s) :: ts)
      (over l_sess (sealed_world (sess n) r s hi (upd (mem (sess n)) (s_arr (Buf pkt)) l')) (pop LowerSend n))) /\
    Ikpsk2.same_keys (handshake s) hi /\ carried s' idx d (sub l 16 (len - 32)).
Proof.
  intros Hh <- Hne Hf Hb Hlen (Ht & Hch & Hcap) Hss Hra Hest. set (pt := sub l 16 (len - 32)).
  assert (Hzpt : zlen pt = len - 32) by (unfold pt; apply zlen_sub; lia).
  assert (Hbpt : is_bytes pt) by (unfold pt; auto with rovy).
  destruct (Ikpsk2.message_agrees (handshake s) (handshake s') pt Hest Hbpt)
    as (hi & hdr & ct & EM & EC & _ & _ & Hnon & _ & Hzct & Hbct).
  destruct (lowerSend_spec (fun _ => send_turn 0) n pkt l t ts r idx s hi hdr ct _ Hh Hne Hf Hlen Ht Hch Hcap
    (fun h => picked_find _ _ _ _ _ h Hss) (pk_session _ _ _ _ _ Hss) EM)
    as (l1 & E1 & Hf1 & Hz1 & Hdl & Hb1);
    [lia|rewrite Hnon; split; [apply zlen_be_bytes|apply is_bytes_be]|].
  pose proof (send_turn_spec (sealed_out n pkt t ts r s hi (S (ranges (sess n))) l1) (set_TptDst (remoteAddr s) pkt) l1 t ts
    (cap (sendQ t)) (dropped (sendQ t)) (sent t) eq_refl Hra Hf1 ltac:(change (0 <= len <= zlen l1); lia)) as E2.
  change (Packet.Length (set_TptDst _ pkt)) with len in E2. change (TptDst (set_TptDst ?a _)) with a in E2.
  rewrite has_sent_ring in E2 by exact Hch. exists l1, (sub l1 0 len), hi.
  split; [unfold seal_run; by rewrite E1, E2|]. split; [by eapply Ikpsk2.MakeMessage_keys|].
  assert (Hzd : zlen (sub l1 0 len) = len) by (apply zlen_sub; lia).
  split; rewrite ?Hzd; [lia|split; [auto with rovy|done]|].
  exists (Ikpsk2.mh_Nonce hdr), ct. split; [|split; [lia|by destruct hdr]].
  pose proof (data_layout_prefix l1 0 0 len idx (Ikpsk2.mh_Nonce hdr) ct) as E. rewrite Z.sub_0_r in E.
  apply E; lia || done.
Qed.
End link.

(** ** Messages in transit *)

Section transit.
Context `{CryptoLaws, MaddrLib, VarintLaws} {UH LH : Type}.
Context (run_lower : LH -> LowerPacket.LowerPacket -> M (Node UH LH) (option error)).
Implicit Types (n : Node UH LH) (w : world) (hops body : list Z).

(** The plaintext on a link: the codec, the label and the rest. *)
Definition transit (c : list Z) (pos : Z) hops body : list Z := c ++ route_header pos hops ++ body.

Definition data_codec (c : list Z) : Prop :=
  zlen c = 4 /\ exists m, varint_From c = Some (DataMulticodec, m).

Definition label_len hops : Prop := 1 <= zlen hops <= 14.

Lemma zlen_transit c pos hops body :
  data_codec c -> label_len hops -> zlen (transit c pos hops body) = 20 + zlen body.
Proof. intros [Hc _] [_ Hh]. unfold transit. rewrite !zlen_app, zlen_route_header by done. lia. Qed.

(** A buffer that holds a message in transit from offset 16 on. *)
Lemma transit_labelled c pos hops body l :
  data_codec c -> label_len hops -> is_bytes l -> 36 + zlen body <= zlen l ->
  sub l 16 (zlen (transit c pos hops body)) = transit c pos hops body ->
  labelled l pos hops /\ sub l 16 4 = c /\ sub l 36 (zlen body) = body.
Proof.
  intros Hc Hh Hb Hl. rewrite zlen_transit by done. intros E. pose proof (zlen_nonneg body).
  pose proof Hc as [Hzc _]. pose proof Hh as [_ Hh14]. pose proof (zlen_route_header pos hops Hh14) as Hrh.
  assert (Hat : forall o m : Z, 0 <= o -> 0 <= m -> o + m <= 20 + zlen body ->
    sub l (16 + o) m = sub (transit c pos hops body) o m).
  { intros o m ? ? ?. rewrite <- E. by rewrite sub_sub by lia. }
  pose proof (Hat 0 4) as E0. pose proof (Hat 4 16) as E1. pose proof (Hat 20 (zlen body)) as E2.
  change (16 + 0) with 16 in E0. change (16 + 4) with 20 in E1. change (16 + 20) with 36 in E2.
  rewrite E0, E2 by lia. unfold labelled. rewrite E1 by lia. unfold transit.
  rewrite (sub_app_here c) by lia. split.
  - split; [lia|]. split; [done|]. split; [|done].
    rewrite sub_app_skip, Hzc by lia. by apply sub_app_here.
  - split; [done|]. rewrite sub_app_skip, sub_app_skip by lia. rewrite Hzc, Hrh. change (20 - 4 - 16) with 0.
    apply sub_all.
Qed.

Lemma transit_relabel c pos hops body l :
  zlen c = 4 -> zlen hops <= 14 -> 36 + zlen body <= zlen l ->
  sub l 16 4 = c -> sub l 36 (zlen body) = body ->
  sub (splice l 20 (route_header pos hops)) 16 (20 + zlen body) = transit c pos hops body.
Proof.
  intros Hc Hh Hl E0 E2. pose proof (zlen_nonneg body). pose proof (zlen_route_header pos hops Hh) as Hrh.
  assert (Hzs : zlen (splice l 20 (route_header pos hops)) = zlen l) by (apply zlen_splice; lia).
  replace (20 + zlen body) with (4 + (16 + zlen body)) by lia. rewrite !sub_split by lia.
  change (16 + 4) with 20. change (20 + 16) with 36.
  rewrite sub_splice_lt, E0 by lia. rewrite (sub_splice_eq l 20 _ 16) by lia. by rewrite sub_splice_ge, E2 by lia.
Qed.

(** A datagram that the session of its index opens reaches the multiplexer. *)
Lemma open_spec {B} (k : option error -> M (Node UH LH) B) n d ip port p idx r s pt (h := mem (sess n)) :
  carried s idx d pt -> zlen d <= TptMTU -> open_session (sess n) p idx r s ->
  idle LowerRecv n -> idle LowerMux n ->
  exists l,
    (recv_datagram d ip port ≫= fun _ => lowerRecv_turn ≫= k) n =
      k None (push LowerMux (set_LowerSrc p (in_pkt h d ip port)) (over l_mem (h ++ [l])
        (pop LowerRecv (push LowerRecv (in_pkt h d ip port) (over l_mem (h ++ [splice (zeros TptMTU) 0 d]) n))))) /\
    zlen l = TptMTU /\ is_bytes l /\ sub l 16 (zlen pt) = pt.
Proof.
  intros [Hzd [Hbd Hbp] (nonce & ct & Hdl & Hzct & EC)] Hd [[O1 O2] O3 O4 O5] Hq1 Hq2. pose proof (zlen_nonneg pt).
  rewrite recv_datagram_spec by done. fold h. change TptMTU with 1452 in *.
  set (l0 := splice (zeros 1452) 0 d). set (pkt := in_pkt h d ip port). set (n1 := push LowerRecv pkt _).
  assert (Hz0 : zlen (zeros 1452) = 1452) by done. assert (Hzl : zlen l0 = 1452) by (unfold l0; zl).
  destruct (lowerRecv_spec k n1 pkt l0 r idx s nonce ct pt) as (l & E & _ & Hpl & Hz & Hb);
    try done; change (Packet.Length pkt) with (zlen d); try lia.
  { by apply full_snoc. }
  { apply data_layout_splice; lia || done. }
  exists l. change TptMTU with 1452 in *. split; [|split; [lia|split; [|done]]].
  - rewrite E, O3. change (upd (mem (sess n1)) (s_arr (Buf pkt)) l) with (upd (h ++ [l0]) (length h) l).
    by rewrite upd_snoc.
  - apply Hb; [|done]. unfold l0. auto with rovy.
Qed.

(** The multiplexer on a labelled packet: the switch passes it on, or up. *)
Lemma lowerMux_switch {B} (k : option error -> M (Node UH LH) B) n pkt l c pos hops prev :
  holding LowerMux pkt n -> PeerID.Empty (LowerSrc pkt) = false ->
  full (mem (sess n)) (Buf pkt) l -> labelled l pos hops -> 0 <= pos < zlen hops -> pos <= 12 ->
  data_codec c -> sub l 16 4 = c -> bypeer (fwd n) !! LowerSrc pkt = Some prev -> is_byte prev ->
  let hops' := <[Z.to_nat pos := prev]> hops in
  let relabel pos := over l_mem (upd (mem (sess n)) (s_arr (Buf pkt)) (splice l 20 (route_header pos hops'))) (pop LowerMux n) in
  (pos = zlen hops - 1 -> forall q, slots (fwd n) !! 0 = Some (Entry q RecvUpper) -> idle UpperRecv n ->
    (lowerMux_turn run_lower ≫= k) n = k None (push UpperRecv pkt (relabel pos))) /\
  (pos < zlen hops - 1 -> forall q, slots (fwd n) !! getz hops (pos + 1) = Some (Entry q SendLower) -> idle LowerSend n ->
    (lowerMux_turn run_lower ≫= k) n = k None (push LowerSend (Packet.set_LowerDst q pkt) (relabel (pos + 1)))).
Proof.
  intros Hh Hne Hf Hlab Hpos H12 [Hzc [m Hv]] Ec Hby Hpb hops' relabel. pose proof Hlab as (Hl & Hb & _ & _).
  set (lpkt := LowerPacket.NewLowerPacket pkt).
  pose proof (verdict_labelled (bypeer (fwd n)) (LowerSrc pkt) l pos hops prev Hlab Hpos H12 Hby Hpb) as Hvd. fold hops' in Hvd.
  assert (E : (lowerMux_turn run_lower ≫= k) n =
    (fwd_err (HandlePacket lpkt) ≫= k) (over host_heap (mem (sess n)) (pop LowerMux n))).
  { unfold lowerMux_turn. unfold mbind at 1, M_bind at 1. rewrite (take_step _ _ _ _ Hh), Hne. unfold doLowerMux. cbv zeta.
    erewrite mem_step.
    2: { cbn [mem sess pop set_queue over l_mem l_sess mem_lens]. unfold LowerPacket.Codec, LowerPacket.NewLowerPacket.
      cbn [LowerPacket.Offset LowerPacket.pkt]. erewrite bind_ok by (eapply buf_read_full; [exact Hf|lia|lia]).
      change (16 + 0 + 0) with 16. change (16 + 0 + 4 - 16) with 4. rewrite Ec, Hv. reflexivity. }
    cbn [fmap option_fmap option_map fst]. rewrite Z.eqb_refl. reflexivity. }
  rewrite E. clear E. assert (Hfin : forall n', HandlePacket lpkt (over host_heap (mem (sess n)) (pop LowerMux n)) = Ok (None, n') ->
    (fwd_err (HandlePacket lpkt) ≫= k) (over host_heap (mem (sess n)) (pop LowerMux n)) = k None n').
  { intros n' E. unfold fwd_err, mbind, M_bind. by rewrite E. }
  split; intros Hp q Hq Hidle; apply Hfin.
  - replace (pos =? zlen hops - 1) with true in Hvd by lia.
    erewrite (verdict_deliver lpkt); [|exact Hf|done|done|exact Hvd|exact Hq].
    cbn [host_run node_host]. by rewrite put_step by exact Hidle.
  - replace (pos =? zlen hops - 1) with false in Hvd by lia.
    erewrite (verdict_forward lpkt); [|exact Hf|done|done|exact Hvd|exact Hq].
    cbn [host_run node_host]. by rewrite putB_step by exact Hidle.
Qed.

(** ** A node in between *)

(** The turns of a node that passes a packet on: the transport's, the lower
    receive routine, the multiplexer with the switch, and the way out. *)
Definition relay_run (d : list Z) (ip : NetIP.Addr) (port : Z) : M (Node UH LH) unit :=
  _ ← recv_datagram d ip port; _ ← lowerRecv_turn; _ ← lowerMux_turn run_lower; seal_run.

(** A node ready to pass on what comes from [pprev] to [pnext], over the
    sessions [s] and [s2]; [s2'] is the far end of the second. *)
Record relay_ready n (pprev : PeerID) (prev : Z) (s : Session) (idx : Z) (slot : Z) (pnext : PeerID)
    (s2' : Session) (idx2 : Z) : Prop := {
  rl_in : exists r, open_session (sess n) pprev idx r s;
  rl_prev : PeerID.Empty pprev = false /\ bypeer (fwd n) !! pprev = Some prev /\ is_byte prev;
  rl_slot : slots (fwd n) !! slot = Some (Entry pnext SendLower) /\ PeerID.Empty pnext = false;
  rl_out : exists r2 s2, picked (sess n) pnext idx2 r2 s2 /\ Multiaddr.Empty (remoteAddr s2) = false /\
    Ikpsk2.established (handshake s2) (handshake s2');
  rl_queues : idle LowerRecv n /\ idle LowerMux n /\ idle LowerSend n;
  rl_emit : exists t ts, can_emit n t ts
}.

(** What the node last wrote to its first transport. *)
Definition last_sent n : option (list Z) :=
  match transports n with t :: _ => fst <$> list.last (sent t) | [] => None end.

Lemma relay_exact n d ip port pprev prev r s idx slot pnext r2 s2 s2' idx2 c pos hops body t ts :
  carried s idx d (transit c pos hops body) -> zlen d <= TptMTU ->
  data_codec c -> label_len hops -> 0 <= pos < zlen hops - 1 -> pos <= 12 -> getz hops (pos + 1) = slot ->
  open_session (sess n) pprev idx r s -> PeerID.Empty pprev = false -> bypeer (fwd n) !! pprev = Some prev -> is_byte prev ->
  slots (fwd n) !! slot = Some (Entry pnext SendLower) -> PeerID.Empty pnext = false ->
  picked (sess n) pnext idx2 r2 s2 -> Multiaddr.Empty (remoteAddr s2) = false ->
  Ikpsk2.established (handshake s2) (handshake s2') ->
  idle LowerRecv n -> idle LowerMux n -> idle LowerSend n -> can_emit n t ts ->
  exists d' l' hi,
    relay_run d ip port n = Ok (tt, over l_transports (has_sent t d' (remoteAddr s2) :: ts)
      (over l_sess (sealed_world (sess n) r2 s2 hi (mem (sess n) ++ [l'])) n)) /\
    Ikpsk2.same_keys (handshake s2) hi /\
    carried s2' idx2 d' (transit c (pos + 1) (<[Z.to_nat pos := prev]> hops) body).
Proof.
  intros Hca Hd Hc Hll Hpos H12 <- Hos Hne Hby Hpb Hsl Hne2 Hss Hra Hest Hq1 Hq2 Hq3 Hem.
  pose proof (ca_length _ _ _ _ Hca) as Hzd. rewrite zlen_transit in Hzd by done. pose proof (zlen_nonneg body).
  destruct (open_spec (fun _ => _ ← lowerMux_turn run_lower; seal_run) n d ip port pprev idx r s _ Hca Hd Hos Hq1 Hq2)
    as (l & E & Hz & Hb & Hpt).
  set (pkt := set_LowerSrc pprev (in_pkt (mem (sess n)) d ip port)) in *. change TptMTU with 1452 in Hz, Hd.
  destruct (transit_labelled c pos hops body l Hc Hll Hb ltac:(lia) Hpt) as (Hlab & Hcl & Hbl).
  assert (Hf : full (mem (sess n) ++ [l]) (Buf pkt) l) by (by apply full_snoc).
  unfold relay_run. rewrite E. clear E. set (n1 := push LowerMux pkt _).
  destruct (lowerMux_switch (fun _ => seal_run) n1 pkt l c pos hops prev) as [_ Hfw]; try (done || lia).
  rewrite (Hfw ltac:(lia) pnext Hsl Hq3). clear Hfw.
  set (hops' := <[Z.to_nat pos := prev]> hops). set (l2 := splice l 20 (route_header (pos + 1) hops')).
  set (pkt2 := Packet.set_LowerDst pnext pkt). set (n2 := push LowerSend pkt2 _).
  assert (Hz' : zlen hops' = zlen hops) by (unfold hops'; llia).
  pose proof (zlen_route_header (pos + 1) hops' ltac:(unfold label_len in Hll; lia)) as Hrh.
  destruct (labelled_bytes _ _ _ Hlab) as [_ Hhb].
  assert (Hzl2 : zlen l2 = 1452) by (unfold l2; rewrite zlen_splice; lia).
  destruct (seal_spec n2 pkt2 l2 t ts pnext idx2 r2 s2 s2') as (l3 & d' & hi & E & Hk & Hca'); try done.
  - by apply full_upd with (l := l); [|lia].
  - unfold l2. apply is_bytes_splice; [done|]. apply is_bytes_route_header; [unfold is_byte; lia| |unfold label_len in Hll; lia].
    unfold hops'. by apply Forall_insert.
  - change (32 <= zlen d <= zlen l2). lia.
  - by eapply picked_frame.
  - exists d', l3, hi. split; [|split; [exact Hk|]].
    + rewrite E. do 2 f_equal. unfold sealed_world. cbn [sess n2 push over l_mem l_sess mem_lens mem n1 pop set_queue sm objs rand now order ranges].
      change (s_arr (Buf pkt)) with (length (mem (sess n))). rewrite !upd_snoc.
      destruct Hq1 as [Q1 _], Hq2 as [Q2 _], Hq3 as [Q3 _]. unfold n2, n1.
      destruct n as [? ? ? ? ? ? ? ? ? ? [] [] [] [] [] [] [] []]. cbn in *. by subst.
    + rewrite <- (transit_relabel c (pos + 1) hops' body l) by (done || (destruct Hc; unfold label_len in *; lia)).
      change (Packet.Length pkt2) with (zlen d) in Hca'. fold l2. by replace (20 + zlen body) with (zlen d - 32) by lia.
Qed.

Lemma relay_spec n d ip port pprev prev s idx slot pnext s2 idx2 c pos hops body :
  carried s idx d (transit c pos hops body) -> zlen d <= TptMTU ->
  data_codec c -> label_len hops -> 0 <= pos < zlen hops - 1 -> pos <= 12 -> getz hops (pos + 1) = slot ->
  relay_ready n pprev prev s idx slot pnext s2 idx2 ->
  exists n' d', relay_run d ip port n = Ok (tt, n') /\ last_sent n' = Some d' /\
    carried s2 idx2 d' (transit c (pos + 1) (<[Z.to_nat pos := prev]> hops) body).
Proof.
  intros Hca Hd Hc Hll Hpos H12 Hs [(r & Hos) (Hne & Hby & Hpb) (Hsl & Hne2) (r2 & s2a & Hss & Hra & Hest) (Hq1 & Hq2 & Hq3) (t & ts & Hem)].
  destruct (relay_exact n d ip port pprev prev r s idx slot pnext r2 s2a s2 idx2 c pos hops body t ts)
    as (d' & l' & hi & E & _ & Hca'); try done.
  eexists _, d'. split; [exact E|]. split; [|exact Hca']. unfold last_sent. cbn. by rewrite last_snoc.
Qed.

(** ** A row of nodes *)

(** A node in between, and the address its datagram comes from. *)
Record relay : Type := mkRelay { r_node : Node UH LH; r_pid : PeerID; r_ip : NetIP.Addr; r_port : Z }.

(** The datagram, passed on by one node after the other. *)
Fixpoint journey (rs : list relay) (d : list Z) : option (list Z) :=
  match rs with
  | [] => Some d
  | r :: rs =>
      match relay_run d (r_ip r) (r_port r) (r_node r) with
      | Ok (_, n') => last_sent n' ≫= journey rs
      | _ => None
      end
  end.

(** [through p s idx rs p' s' idx' hops back]: what the node [p] sends under the
    session that ends in [s] is passed on by [rs], the last of which is [p'] and
    sends under the session that ends in [s']; [hops] are their slots for the
    respective next node, and [back] those for the previous one. *)
Inductive through : PeerID -> Session -> Z -> list relay -> PeerID -> Session -> Z -> list Z -> list Z -> Prop :=
| through_nil p s idx : through p s idx [] p s idx [] []
| through_cons p s idx r rs prev slot pnext s2 idx2 p' s' idx' hops back :
    relay_ready (r_node r) p prev s idx slot pnext s2 idx2 ->
    through (r_pid r) s2 idx2 rs p' s' idx' hops back ->
    through p s idx (r :: rs) p' s' idx' (slot :: hops) (prev :: back).

Lemma through_length p s idx rs p' s' idx' hops back :
  through p s idx rs p' s' idx' hops back -> length hops = length rs /\ length back = length rs.
Proof. induction 1 as [|? ? ? ? ? ? ? ? ? ? ? ? ? ? ? ? ? [IH1 IH2]]; cbn; lia. Qed.

(** The last hop of a label. *)
Fixpoint last_hop (x : Z) (hops : list Z) : Z := match hops with [] => x | y :: hops => last_hop y hops end.

(** The label as the row of nodes leaves it: its hops are replaced by the way
    back, up to the last one. *)
Lemma journey_spec c body p s idx rs p' s' idx' hops back :
  data_codec c -> 52 + zlen body <= TptMTU -> through p s idx rs p' s' idx' hops back ->
  forall done_ x d,
  zlen (done_ ++ x :: hops) <= 13 -> carried s idx d (transit c (zlen done_) (done_ ++ x :: hops) body) ->
  exists d', journey rs d = Some d' /\
    carried s' idx' d' (transit c (zlen done_ + zlen hops) (done_ ++ back ++ [last_hop x hops]) body).
Proof.
  intros Hc Hbd. induction 1 as [|p s idx r rs prev slot pnext s2 idx2 p' s' idx' hops back Hr Hth IH];
    intros done_ x d H13 Hca.
  { exists d. split; [done|]. cbn. change (zlen []) with 0. by rewrite Z.add_0_r. }
  pose proof (zlen_nonneg done_) as Hd0. pose proof (zlen_nonneg hops) as Hh0. rewrite zlen_app, !zlen_cons in H13.
  assert (Hll : label_len (done_ ++ x :: slot :: hops)) by (unfold label_len; rewrite zlen_app, !zlen_cons; lia).
  pose proof (ca_length _ _ _ _ Hca) as Hzd. rewrite zlen_transit in Hzd by done.
  destruct (relay_spec (r_node r) d (r_ip r) (r_port r) p prev s idx slot pnext s2 idx2 c (zlen done_)
    (done_ ++ x :: slot :: hops) body) as (n' & d1 & E1 & E2 & Hca1); try done; try lia.
  { rewrite zlen_app, !zlen_cons. lia. }
  { pose proof (proj1 (Network.hop_at (done_ ++ [x]) slot hops)) as E. rewrite <- app_assoc in E. cbn in E.
    by rewrite zlen_app, zlen_1 in E. }
  rewrite (proj2 (Network.hop_at done_ x (slot :: hops))) in Hca1.
  destruct (IH (done_ ++ [prev]) slot d1) as (d' & E3 & Hca').
  { rewrite !zlen_app, !zlen_cons, zlen_nil. lia. }
  { rewrite zlen_app, zlen_1, <- app_assoc. exact Hca1. }
  exists d'. split; [cbn [journey]; rewrite E1, E2; exact E3|].
  rewrite zlen_app, zlen_1, <- app_assoc in Hca'. cbn [last_hop app]. rewrite zlen_cons.
  by replace (zlen done_ + (1 + zlen hops)) with (zlen done_ + 1 + zlen hops) by lia.
Qed.
End transit.

(** ** The two ends *)

Section ends.
Context `{CryptoLaws, MaddrLib, VarintLaws, GoRuntime} {UH LH : Type}.
Context (run_upper : UH -> UpperPacket.UpperPacket -> M (Node UH LH) (option error)).
Context (run_lower : LH -> LowerPacket.LowerPacket -> M (Node UH LH) (option error)).
Implicit Types (n : Node UH LH) (hops body : list Z).

(** The part of a buffer that a data packet occupies is a datagram of its
    session. *)
Lemma data_layout_window l o e idx nonce ct :
  0 <= o -> o + 16 <= e <= zlen l -> data_layout l o e idx nonce ct -> data_layout (sub l o (e - o)) 0 (e - o) idx nonce ct.
Proof.
  intros Ho He [D1 D2 D3 D4]. split; rewrite sub_sub by lia; rewrite ?Z.add_0_r; rewrite ?Z.add_0_l; try done.
  replace (e - o - 16) with (e - (o + 16)) by lia. done.
Qed.

Lemma data_layout_unwindow l o e idx nonce ct :
  0 <= o -> o + 16 <= e <= zlen l -> data_layout (sub l o (e - o)) 0 (e - o) idx nonce ct -> data_layout l o e idx nonce ct.
Proof.
  intros Ho He [D1 D2 D3 D4]. rewrite sub_sub in D1, D2, D3, D4 by lia. rewrite Z.add_0_r in D1.
  rewrite !Z.add_0_l in *. split; try done. by replace (e - (o + 16)) with (e - o - 16) by lia.
Qed.

(** [CreateData] at the upper layer: the buffer from offset 36 on becomes a
    datagram of the session, what is before it stays. *)
Lemma upper_create (w : world) pkt l p ui ru su su' (len := Packet.Length pkt) :
  full (mem w) (Buf pkt) l -> is_bytes l -> 84 <= len <= zlen l ->
  picked w p ui ru su -> Ikpsk2.established (handshake su) (handshake su') ->
  exists l' hi,
    Manager.CreateData (mkSPacket UpperOffset UpperPadding pkt) p w =
      Ok (inl (remoteAddr su), mkWorld (sm w) (<[ru := set_handshake hi su]> (objs w)) (rand w) (now w) (order w)
            (S (ranges w)) (upd (mem w) (s_arr (Buf pkt)) l')) /\
    is_bytes l' /\ zlen l' = zlen l /\ sub l' 0 36 = sub l 0 36 /\
    carried su' ui (sub l' 36 (len - 52)) (sub l 52 (len - 84)).
Proof.
  intros Hf Hb Hlen Hss Hest. set (pt := sub l 52 (len - 84)).
  assert (Hzpt : zlen pt = len - 84) by (unfold pt; apply zlen_sub; lia).
  assert (Hbpt : is_bytes pt) by (unfold pt; auto with rovy).
  destruct (Ikpsk2.message_agrees (handshake su) (handshake su') pt Hest Hbpt)
    as (hi & hdr & ct & EM & EC & _ & _ & Hnon & _ & Hzct & Hbct).
  pose proof (picked_find _ _ _ _ _ (mem w) Hss) as HF. pose proof (pk_session _ _ _ _ _ Hss) as Hs.
  destruct w as [m os e nw ord i h]. cbn [mem objs sm order rand now ranges] in *. set (q := mkSPacket 36 16 pkt).
  destruct (CreateData_spec q p m os e nw ord i (S i) h l ru ui su hi hdr ct HF Hs Hf)
    as (l2 & E & Hdl & (Hz2 & Hpre & _) & Hb2); cbn [q Offset Padding SessionPacket.pkt]; fold len; try lia.
  { replace (len - 16 - 16 - (36 + 16)) with (len - 84) by lia. exact EM. }
  { rewrite Hnon; split; [apply zlen_be_bytes|apply is_bytes_be]. }
  cbn [q Offset Padding SessionPacket.pkt] in Hdl, Hpre. fold len in Hdl.
  exists l2, hi. split; [exact E|]. specialize (Hb2 Hb Hbct). do 3 (split; [done|]).
  assert (Hzd : zlen (sub l2 36 (len - 52)) = len - 52) by (apply zlen_sub; lia).
  split; rewrite ?Hzd; [lia|auto with rovy|]. exists (Ikpsk2.mh_Nonce hdr), ct.
  split; [|split; [lia|by destruct hdr]].
  replace (len - 52) with (len - 16 - 36) by lia. apply data_layout_window; lia || done.
Qed.

(** [SendPacket] queues a labelled packet for the neighbour its first hop names. *)
Lemma node_SendPacket n pkt l hops p1 :
  full (mem (sess n)) (Buf pkt) l -> labelled l 0 hops -> 39 <= Packet.Length pkt <= zlen l + 16 ->
  slots (fwd n) !! getz hops 0 = Some (Entry p1 SendLower) -> idle LowerSend n ->
  fwd_err (SendPacket (UpperPacket.NewUpperPacket pkt)) n =
    Ok (None, push LowerSend (Packet.set_LowerDst p1 pkt)
      (over l_mem (upd (mem (sess n)) (s_arr (Buf pkt)) (splice l 16 (varint_To DataMulticodec))) n)).
Proof.
  intros Hf Hlab Hlen Hsl Hq.
  pose proof (SendPacket_labelled (W := Node UH LH) (UpperPacket.NewUpperPacket pkt) (mem (sess n)) l hops n p1 SendLower
    Hf Hlab Hlen Hsl) as E.
  cbn [host_heap node_host] in E. rewrite (over_view (l := l_mem) n : over l_mem (mem (sess n)) n = n) in E.
  unfold fwd_err, mbind, M_bind. rewrite E. cbn [host_run node_host]. by rewrite putB_step by exact Hq.
Qed.

(** A message with a label of several hops is sealed for the far end, labelled
    as data and queued for the first neighbour. *)
Lemma upperSend_routed {B} (k : option error -> M (Node UH LH) B) n pkt l hops pu ui ru su su' p1 (len := Packet.Length pkt) :
  holding UpperSend pkt n -> UpperDst pkt = pu -> PeerID.Empty pu = false ->
  full (mem (sess n)) (Buf pkt) l -> labelled l 0 hops -> 1 < zlen hops -> 84 <= len <= zlen l ->
  picked (sess n) pu ui ru su -> Ikpsk2.established (handshake su) (handshake su') ->
  slots (fwd n) !! getz hops 0 = Some (Entry p1 SendLower) -> idle LowerSend n ->
  exists n' l' hi, (upperSend_turn ≫= k) n = k None n' /\ holding LowerSend (Packet.set_LowerDst p1 pkt) n' /\
    full (mem (sess n')) (Buf pkt) l' /\ is_bytes l' /\ zlen l' = zlen l /\ transports n' = transports n /\
    data_codec (sub l' 16 4) /\ sub l' 20 16 = sub l 20 16 /\
    carried su' ui (sub l' 36 (len - 52)) (sub l 52 (len - 84)) /\
    sm (sess n') = sm (sess n) /\ order (sess n') = order (sess n) /\ ranges (sess n') = S (ranges (sess n)) /\
    objs (sess n') = <[ru := set_handshake hi su]> (objs (sess n)).
Proof.
  intros Hh <- Hne Hf Hlab H1h Hlen Hss Hest Hsl Hq. pose proof Hlab as (_ & Hb & Hsub & Hhl).
  assert (Hlen21 : getz l 21 = zlen hops) by exact (labelled_get l 0 hops 1 Hlab ltac:(lia)).
  unfold upperSend_turn. unfold mbind at 1, M_bind at 1. rewrite (take_step _ _ _ _ Hh), Hne.
  unfold doUpperSend, UpperPacket.RouteLen, FwdOffset. cbv zeta. cbn [UpperPacket.NewUpperPacket UpperPacket.pkt].
  erewrite mem_step; [|cbn [mem sess pop set_queue over l_mem l_sess mem_lens]; apply (s_get_full _ _ l); [exact Hf|lia]].
  change (20 + 1) with 21. rewrite Hlen21. unfold HopLength. replace (zlen hops =? 1) with false by lia.
  set (p := mkSPacket UpperOffset UpperPadding pkt). set (l1 := splice l 36 (le_bytes 4 DataMsgType)).
  assert (Hz1 : zlen l1 = zlen l) by (unfold l1; zl).
  erewrite mem_step.
  2: { cbn [mem sess pop set_queue over l_mem l_sess mem_lens]. unfold DataPacket.NewDataPacket. cbv zeta. fold p.
    erewrite bind_ok by (apply (put_le32_at_full p 0 _ _ l); unfold p; cbn [Offset SessionPacket.pkt];
      [exact Hf|change UpperOffset with 36; lia|change UpperOffset with 36; lia]). reflexivity. }
  cbn [Offset p]. change (UpperOffset + 0) with 36. fold l1 p. set (h1 := upd _ _ l1).
  destruct (upper_create (over mem_lens h1 (sess n)) pkt l1 (UpperDst pkt) ui ru su su')
    as (l2 & hi & E & Hb2 & Hz2 & Hpre & Hca); try done.
  { eapply full_upd; [exact Hf|exact Hz1]. }
  { unfold l1. auto with rovy. }
  { rewrite Hz1. exact Hlen. }
  { by eapply picked_frame. }
  erewrite sess_step by exact E. cbv beta iota. set (n2 := over l_sess _ _).
  set (l3 := splice l2 16 (varint_To DataMulticodec)).
  pose proof (varint_To_4 DataMulticodec ltac:(unfold DataMulticodec; lia)) as Hv4.
  assert (Hz3 : zlen l3 = zlen l) by (unfold l3; zl).
  assert (E20 : sub l2 20 16 = sub l 20 16).
  { change 20 with (0 + 20). rewrite <- (sub_sub l2 0 36), Hpre, sub_sub by lia. unfold l1. by rewrite sub_splice_lt by zl. }
  assert (Hf2 : full (upd h1 (s_arr (Buf pkt)) l2) (Buf pkt) l2).
  { apply full_upd with (l := l1); [eapply full_upd; [exact Hf|exact Hz1]|exact Hz2]. }
  rewrite (node_SendPacket n2 pkt l2 hops p1 Hf2);
    [|eapply labelled_frame; [exact Hlab|lia|done|done]|fold len; lia|exact Hsl|exact Hq].
  eexists _, l3, hi. split; [reflexivity|]. split; [apply holding_push|].
  split; [by apply full_upd with (l := l2); [|lia]|].
  split; [unfold l3; apply is_bytes_splice; [done|apply varint_To_bytes]|]. do 2 (split; [done|]).
  split; [split; [apply zlen_sub; lia|eexists; apply varint_read; unfold DataMulticodec; lia]|].
  split; [unfold l3; by rewrite sub_splice_ge by lia|]. split; [|done].
  unfold l3. rewrite sub_splice_ge by lia. unfold l1 in Hca. rewrite (sub_splice_ge l 36) in Hca by zl. exact Hca.
Qed.

(** A message to a node further away can be sent: its route, the session with it
    that is picked, and the session with the first neighbour that is picked next. *)
Record routed_ready n (to : PeerID) (route : Route) hops (ui : Z) (su' : Session) (p1 : PeerID) (idx : Z) (s' : Session)
    (a : Multiaddr) (t : Transport) (ts : list Transport) : Prop := {
  ro_route : GetRoute to (routing n) = inl route /\ route_ok (mem (sess n)) route /\
    (s_arr (Route.hops route) < length (mem (sess n)))%nat;
  ro_hops : bytes_of (mem (sess n)) route = hops /\ is_bytes hops /\ 1 < zlen hops <= 14;
  ro_first : slots (fwd n) !! getz hops 0 = Some (Entry p1 SendLower) /\ PeerID.Empty p1 = false;
  ro_to : PeerID.Empty to = false /\ to <> p1;
  ro_upper : exists ru su, picked (sess n) to ui ru su /\ Ikpsk2.established (handshake su) (handshake su');
  ro_lower : exists r s, picked (set_ranges (S (ranges (sess n))) (sess n)) p1 idx r s /\ remoteAddr s = a /\ Multiaddr.Empty a = false /\
    Ikpsk2.established (handshake s) (handshake s');
  ro_queues : idle UpperSend n /\ idle LowerSend n;
  ro_emit : can_emit n t ts
}.

Lemma upper_image_labelled codec hops pl :
  0 <= codec < 2 ^ 28 -> zlen pl <= UpperMTU -> is_bytes pl -> is_bytes hops -> 1 <= zlen hops <= 14 ->
  let img := upper_image (zeros TptMTU) codec hops pl in
  zlen img = TptMTU /\ labelled img 0 hops /\ sub img 56 (zlen pl) = pl /\
  exists m, varint_From (sub img 52 4) = Some (codec, m).
Proof.
  intros Hc Hp Hb Hbh Hh img. change UpperMTU with 1364 in Hp. pose proof (zlen_nonneg pl).
  assert (Hz0 : zlen (zeros 1452) = 1452) by done.
  assert (Hz : zlen img = TptMTU) by (apply zlen_upper_image; change TptMTU with 1452; lia || done).
  split; [exact Hz|]. change TptMTU with 1452 in Hz. pose proof (varint_To_4 codec Hc).
  pose proof (zlen_route_header 0 hops ltac:(lia)) as Hrh. pose proof (varint_To_bytes codec).
  pose proof (is_bytes_route_header 0 hops ltac:(done) Hbh ltac:(lia)).
  split; [|split].
  - split; [lia|]. split; [unfold img, upper_image; auto 10 with rovy|]. split; [|done].
    unfold img, upper_image. change TptMTU with 1452. rewrite sub_splice_lt by zl. apply sub_splice_eq; zl.
  - unfold img, upper_image. change TptMTU with 1452. apply sub_splice_eq; zl.
  - eexists. unfold img, upper_image. change TptMTU with 1452.
    rewrite sub_splice_lt by zl. rewrite sub_splice_ge by zl. apply varint_read; zl || done.
Qed.

(** A buffer with a label and what follows it, as the link sees it. *)
Lemma transit_of l hops m :
  labelled l 0 hops -> 0 <= m -> 36 + m <= zlen l ->
  sub l 16 (20 + m) = transit (sub l 16 4) 0 hops (sub l 36 m).
Proof.
  intros (_ & _ & Hs & _) Hm Hl. unfold transit. rewrite <- Hs.
  replace (20 + m) with (4 + (16 + m)) by lia. rewrite !sub_split by lia. done.
Qed.

Lemma routed_send n to codec pl route hops ui su' p1 idx s' a t ts :
  routed_ready n to route hops ui su' p1 idx s' a t ts ->
  0 <= codec < 2 ^ 28 -> zlen pl <= UpperMTU -> is_bytes pl ->
  exists n' d c body upt m, send_run to codec pl n = Ok (None, n') /\
    map sent (transports n') = (sent t ++ [(d, AddrPort a)]) :: map sent ts /\
    data_codec c /\ carried s' idx d (transit c 0 hops body) /\ carried su' ui body upt /\
    zlen upt = 4 + zlen pl /\ varint_From (sub upt 0 4) = Some (codec, m) /\ sub upt 4 (zlen pl) = pl.
Proof.
  intros [(Hg & Hr & Hal) (Hbo & Hbh & Hh) (Hsl & Hne1) (Hne & Hto) (ru & su & Hss & Hest)
    (r & s & Hss1 & <- & Hra & Hest1) (Hq1 & Hq2) Hem] Hc Hp Hb.
  assert (HL : Len route = zlen hops) by (rewrite <- Hbo; unfold bytes_of; by rewrite (zlen_contents _ _ Hr)).
  unfold send_run. erewrite Send_spec by (done || lia). rewrite Hbo. set (h := mem (sess n)).
  destruct (upper_image_labelled codec hops pl Hc Hp Hb Hbh ltac:(lia)) as (Hz & Hlab & Hpl & m & Hv).
  set (img := upper_image (zeros TptMTU) codec hops pl) in *. change TptMTU with 1452 in Hz. change UpperMTU with 1364 in Hp.
  set (pkt := msg_pkt h to pl). set (n1 := push UpperSend pkt _). pose proof (zlen_nonneg pl).
  assert (HLp : Packet.Length pkt = 88 + zlen pl) by done.
  destruct (upperSend_routed (fun _ => _ ← lowerSend_turn; _ ← send_turn 0; mret (@None error)) n1 pkt img hops to ui ru su su' p1)
    as (n2 & l2 & hi & E2 & Hh2 & Hf2 & Hb2 & Hz2 & Ht2 & Hc2 & Hl2 & Hca2 & Em & Eo & Er & Eobj); rewrite ?HLp; try done; try lia.
  { by apply full_snoc. }
  { by eapply picked_frame. }
  rewrite E2. clear E2. rewrite HLp in Hca2.
  assert (Hru : r <> ru).
  { intros ->. apply Hto. rewrite <- (pk_peer _ _ _ _ _ Hss), <- (pk_peer _ _ _ _ _ Hss1).
    pose proof (pk_session _ _ _ _ _ Hss). pose proof (pk_session _ _ _ _ _ Hss1). cbn in *. congruence. }
  destruct (seal_spec n2 (Packet.set_LowerDst p1 pkt) l2 t ts p1 idx r s s') as (l3 & d & hi' & E3 & _ & Hca3);
    try done; change (Packet.Length (Packet.set_LowerDst p1 pkt)) with (Packet.Length pkt) in *; rewrite ?HLp in *; try lia.
  { unfold can_emit. rewrite Ht2. exact Hem. }
  { eapply (picked_insert (sess n)); [exact Hss1|exact (pk_session _ _ _ _ _ Hss)|exact Hru|exact Em|exact Eo|exact Er|exact Eobj]. }
  set (n3 := over l_transports _ _) in E3.
  assert (E : (_ ← lowerSend_turn; _ ← send_turn 0; mret None) n2 = Ok (@None error, n3)).
  { revert E3. unfold seal_run, mbind, M_bind. by destruct (lowerSend_turn n2) as [[]| |]; [intros ->|..]. }
  rewrite E. assert (Hlab2 : labelled l2 0 hops) by (eapply labelled_frame; [exact Hlab|lia|done|done]).
  exists n3, d, (sub l2 16 4), (sub l2 36 (36 + zlen pl)), (sub img 52 (4 + zlen pl)), m.
  replace (88 + zlen pl - 52) with (36 + zlen pl) in Hca2 by lia. replace (88 + zlen pl - 84) with (4 + zlen pl) in Hca2 by lia.
  split; [done|]. split; [done|]. split; [done|]. split.
  { rewrite <- transit_of by (done || lia). by replace (20 + (36 + zlen pl)) with (88 + zlen pl - 32) by lia. }
  split; [exact Hca2|]. split; [apply zlen_sub; lia|]. rewrite !sub_sub by lia. done.
Qed.

(** [HandleData] at the upper layer. *)
Lemma upper_handle (w : world) pkt l ui r s body pt (len := Packet.Length pkt) :
  full (mem w) (Buf pkt) l -> is_bytes l -> len = 52 + zlen body -> 36 + zlen body <= zlen l ->
  sub l 36 (zlen body) = body -> carried s ui body pt ->
  store (sm w) !! ui = Some (Some r) -> objs w !! r = Some s -> 0 <= ui < 2 ^ 32 ->
  exists l',
    Manager.HandleData (mkSPacket UpperOffset UpperPadding pkt) w =
      Ok (inl (remotePeerID s, negb (stage s =? 0x03)),
          mkWorld (sm w) (<[r := set_stage 0x03 s]> (objs w)) (rand w) (now w) (order w) (ranges w)
            (upd (mem w) (s_arr (Buf pkt)) l')) /\
    sub l' 52 (zlen pt) = pt /\ zlen l' = zlen l /\ is_bytes l' /\ sub l' 0 52 = sub l 0 52.
Proof.
  intros Hf Hb Hlen Hl Hbody [Hzb [_ Hbpt] (nonce & ct & Hdl & Hzct & EC)] O1 O2 O5. pose proof (zlen_nonneg pt).
  destruct w as [m os e nw ord i h]. cbn [mem objs sm rand now order ranges] in *. set (q := mkSPacket 36 16 pkt).
  destruct (HandleData_spec q m os e nw ord i h l r s ui nonce ct pt Hf) as (l' & E & Hpl & (Hz & Hpre & _) & Hbl);
    cbn [q Offset Padding SessionPacket.pkt]; fold len; try done; try lia.
  { apply data_layout_unwindow; [lia|lia|]. replace (len - 16 - 36) with (zlen body) by lia. by rewrite Hbody. }
  exists l'. split; [exact E|repeat split; auto].
Qed.

(** The way back of a packet that has arrived, reversed and added to the
    routing table. *)
Lemma note_way_back {B} (k : unit -> M (Node UH LH) B) n pkt l pos back p :
  full (mem (sess n)) (Buf pkt) l -> labelled l pos back ->
  exists h' rg,
    (zoom l_mem (rt ← UpperPacket.Route_ (UpperPacket.NewUpperPacket pkt); Reverse rt) ≫= fun rev =>
      zoom l_routing (AddRoute p rev) ≫= k) n = k tt (set_routing rg (over l_mem h' n)) /\
    full h' (Buf pkt) l /\
    (table (routing n) !! p = None -> exists rt, GetRoute p rg = inl rt /\ bytes_of h' rt = reverse back).
Proof.
  intros Hf Hlab. pose proof Hlab as (Hl & Hb & Hsub & Hbl).
  assert (Hlen : getz l 21 = zlen back) by exact (labelled_get l pos back 1 Hlab ltac:(lia)).
  destruct (Route_full (UpperPacket.NewUpperPacket pkt) (mem (sess n)) l Hf Hb) as (rt & E & Hok & _ & Hby); [lia|].
  assert (Hbk : bytes_of (mem (sess n)) rt = back).
  { rewrite Hby, Hlen. change 22 with (20 + 2). rewrite <- (sub_sub l 20 16), Hsub by lia. unfold route_header.
    change (pos :: zlen back :: ?x) with ([pos; zlen back] ++ x). rewrite sub_app_skip by done. by apply sub_app_here. }
  destruct (Reverse_spec rt (mem (sess n)) Hok) as (rev & h' & ER & _ & HBr & _).
  erewrite mem_step by (erewrite bind_ok by exact E; exact ER).
  unfold mbind at 1, M_bind at 1. unfold zoom at 1. cbn [view l_routing]. rewrite AddRoute_cases. cbv beta iota.
  set (rg := match table _ !! p with Some _ => _ | None => _ end). exists h', rg. split; [|split].
  - by destruct n as [????[]].
  - destruct Hf as (Hf & Hf'). split; [|exact Hf']. rewrite (Reverse_arrays _ _ _ _ ER) by (by eapply lookup_lt_Some). exact Hf.
  - intros Hn. exists rev. split; [|by rewrite HBr, Hbk]. unfold rg. change (routing (over l_mem h' n)) with (routing n).
    rewrite Hn. unfold GetRoute. cbn [table]. by rewrite lookup_insert_eq.
Qed.

(** The end of [doUpperRecv]: the way back is noted, and the message goes to the
    multiplexer. *)
Definition upper_done (p : PeerID) (pkt : Packet) : M (Node UH LH) (option error) :=
  rev ← zoom l_mem (rt ← UpperPacket.Route_ (UpperPacket.NewUpperPacket pkt); Reverse rt);
  _ ← zoom l_routing (AddRoute p rev);
  _ ← put UpperMux (set_UpperSrc p pkt);
  mret None.

Lemma upper_done_spec {B} (k : option error -> M (Node UH LH) B) n p pkt l pos back :
  full (mem (sess n)) (Buf pkt) l -> labelled l pos back -> idle UpperMux n ->
  exists h' rg, (upper_done p pkt ≫= k) n = k None (push UpperMux (set_UpperSrc p pkt) (set_routing rg (over l_mem h' n))) /\
    full h' (Buf pkt) l /\
    (table (routing n) !! p = None -> exists rt, GetRoute p rg = inl rt /\ bytes_of h' rt = reverse back).
Proof.
  intros Hf Hlab Hq. destruct (note_way_back (fun _ => _ ← put UpperMux (set_UpperSrc p pkt); mret (@None error)) n pkt l pos back p Hf Hlab)
    as (h' & rg & E & Hf2 & Hrt). exists h', rg. split; [|done].
  unfold upper_done. erewrite bind_ok; [reflexivity|]. rewrite E. by rewrite put_step by exact Hq.
Qed.

(** A message for this node is opened with the session of the far end; the first
    one of a session tells the node that the peer is connected. *)
Lemma upperRecv_opens {B} (k : option error -> M (Node UH LH) B) n pkt l ui r s pos back body pt :
  holding UpperRecv pkt n -> full (mem (sess n)) (Buf pkt) l -> labelled l pos back ->
  Packet.Length pkt = 52 + zlen body -> 36 + zlen body <= zlen l -> sub l 36 (zlen body) = body -> carried s ui body pt ->
  store (sm (sess n)) !! ui = Some (Some r) -> objs (sess n) !! r = Some s -> 0 <= ui < 2 ^ 32 ->
  exists l',
    (upperRecv_turn ≫= k) n =
      (e ← (_ ← (if negb (stage s =? 0x03) then connectedCallback (remotePeerID s) false else mret tt);
            upper_done (remotePeerID s) pkt);
       k e)
        (over l_sess (mkWorld (sm (sess n)) (<[r := set_stage 0x03 s]> (objs (sess n))) (rand (sess n)) (now (sess n)) (order (sess n))
           (ranges (sess n)) (upd (mem (sess n)) (s_arr (Buf pkt)) l')) (pop UpperRecv n)) /\
    full (upd (mem (sess n)) (s_arr (Buf pkt)) l') (Buf pkt) l' /\ zlen l' = zlen l /\ is_bytes l' /\
    sub l' 52 (zlen pt) = pt /\ sub l' 0 52 = sub l 0 52 /\ labelled l' pos back.
Proof.
  intros Hh Hf Hlab Hlen Hl Hbody Hca O1 O2 O5. pose proof Hlab as (_ & Hb & Hsub & Hbl).
  pose proof (ca_length _ _ _ _ Hca) as Hzb. pose proof (zlen_nonneg pt). destruct (ca_open _ _ _ _ Hca) as (nonce & ct & Hdl & _).
  assert (Hty : sub l 36 4 = le_bytes 4 DataMsgType).
  { rewrite <- (dl_type _ _ _ _ _ _ Hdl), <- Hbody, sub_sub by lia. done. }
  assert (H36 : getz l 36 = DataMsgType).
  { change 36 with (36 + 0). rewrite <- (getz_sub l 36 4), Hty by lia. done. }
  unfold upperRecv_turn. unfold mbind at 1, M_bind at 1. rewrite (take_step _ _ _ _ Hh).
  erewrite mem_step; [|cbn [mem sess pop set_queue over l_mem l_sess mem_lens]; apply (s_get_full _ _ l); [exact Hf|change UpperOffset with 36; lia]].
  change UpperOffset with 36. rewrite H36, Z.eqb_refl. unfold doUpperRecv. cbv zeta. cbn [UpperPacket.NewUpperPacket UpperPacket.pkt].
  erewrite mem_step.
  2: { cbn [mem sess pop set_queue over l_mem l_sess mem_lens]. unfold DataPacket.NewDataPacket. cbv zeta.
    erewrite bind_ok by (eapply (put_type_same (mkSPacket UpperOffset UpperPadding pkt)); cbn [Offset SessionPacket.pkt];
      change UpperOffset with 36; [exact Hf|lia|lia|exact Hty]). reflexivity. }
  destruct (upper_handle (sess n) pkt l ui r s body pt Hf Hb Hlen Hl Hbody Hca O1 O2 O5) as (l1 & E1 & Hpt & Hz1 & Hb1 & Hpre).
  assert (Ew : over mem_lens (mem (sess n)) (over mem_lens (mem (sess n)) (sess n)) = sess n) by (by destruct (sess n)).
  erewrite sess_step by (refine (eq_trans (f_equal (Manager.HandleData _) Ew) E1)).
  cbv beta iota. exists l1. split; [done|]. split; [by apply full_upd with (l := l)|]. do 4 (split; [done|]).
  eapply labelled_frame; [exact Hlab|done|done|]. change 20 with (0 + 20).
  by rewrite <- (sub_sub l1 0 52), Hpre, sub_sub by lia.
Qed.

(** On a session in its final stage there is nothing more to do. *)
Lemma upperRecv_spec {B} (k : option error -> M (Node UH LH) B) n pkt l p ui r s pos back body pt :
  holding UpperRecv pkt n -> full (mem (sess n)) (Buf pkt) l -> labelled l pos back ->
  Packet.Length pkt = 52 + zlen body -> 36 + zlen body <= zlen l -> sub l 36 (zlen body) = body ->
  carried s ui body pt -> open_session (sess n) p ui r s -> idle UpperMux n ->
  exists n' l', (upperRecv_turn ≫= k) n = k None n' /\ holding UpperMux (set_UpperSrc p pkt) n' /\
    full (mem (sess n')) (Buf pkt) l' /\ zlen l' = zlen l /\ is_bytes l' /\ sub l' 52 (zlen pt) = pt /\ sub l' 0 52 = sub l 0 52 /\
    upperHandlers n' = upperHandlers n /\
    (table (routing n) !! p = None ->
      exists rt, GetRoute p (routing n') = inl rt /\ bytes_of (mem (sess n')) rt = reverse back).
Proof.
  intros Hh Hf Hlab Hlen Hl Hbody Hca [[O1 O2] O3 O4 O5] Hq.
  destruct (upperRecv_opens k n pkt l ui r s pos back body pt Hh Hf Hlab Hlen Hl Hbody Hca O1 O2 O5)
    as (l1 & E1 & Hf1 & Hz1 & Hb1 & Hpt & Hpre & Hlab1).
  rewrite E1, O4, O3. cbn [negb Z.eqb Pos.eqb]. set (n1 := over l_sess _ _).
  destruct (upper_done_spec k n1 p pkt l1 pos back Hf1 Hlab1 Hq) as (h' & rg & E2 & Hf2 & Hrt).
  eexists _, l1. split; [exact E2|]. split; [apply holding_push|]. split; [exact Hf2|]. repeat (split; [done|]). exact Hrt.
Qed.

(** The turns of the node a message is for: the transport's, the lower receive
    routine, the multiplexer with the switch, the upper receive routine and the
    upper multiplexer. *)
Definition final_run (d : list Z) (ip : NetIP.Addr) (port : Z) : M (Node UH LH) (option error) :=
  _ ← recv_datagram d ip port; _ ← lowerRecv_turn; _ ← lowerMux_turn run_lower; _ ← upperRecv_turn; upperMux_turn run_upper.

Record arrival_ready n (pprev : PeerID) (prev : Z) (s : Session) (idx : Z) (pa : PeerID) (su : Session) (ui : Z)
    (codec : Z) (cb : UH) : Prop := {
  ar_lower : exists r, open_session (sess n) pprev idx r s;
  ar_prev : PeerID.Empty pprev = false /\ bypeer (fwd n) !! pprev = Some prev /\ is_byte prev;
  ar_self : exists q, slots (fwd n) !! 0 = Some (Entry q RecvUpper);
  ar_upper : exists ru, open_session (sess n) pa ui ru su;
  ar_queues : idle LowerRecv n /\ idle LowerMux n /\ idle UpperRecv n /\ idle UpperMux n;
  ar_handler : upperHandlers n !! codec = Some cb
}.

(** What a handler reads from a packet that has arrived. *)
Lemma arrived_reads (pkt : Packet) h l back pos pl :
  full h (Buf pkt) l -> labelled l pos back -> zlen l = TptMTU -> Packet.Length pkt = 88 + zlen pl -> zlen pl <= UpperMTU ->
  sub l 56 (zlen pl) = pl ->
  (exists s, UpperPacket.Payload (UpperPacket.NewUpperPacket pkt) h = Ok (s, h) /\ contents h s = pl) /\
  (exists rt, UpperPacket.Route_ (UpperPacket.NewUpperPacket pkt) h = Ok (rt, h) /\ bytes_of h rt = back).
Proof.
  intros Hf Hlab Hl HL Hp E. pose proof Hlab as (_ & Hb & Hsub & Hbl). pose proof (zlen_nonneg pl).
  change TptMTU with 1452 in Hl. change UpperMTU with 1364 in Hp.
  assert (Hlen : getz l 21 = zlen back) by exact (labelled_get l pos back 1 Hlab ltac:(lia)). split.
  - eexists. split.
    + eapply Payload_full; cbn [UpperPacket.NewUpperPacket UpperPacket.pkt UpperPacket.Offset UpperPacket.Padding];
        [exact Hf|change (UpperOffset + 16) with 52; lia|lia].
    + cbn [UpperPacket.NewUpperPacket UpperPacket.pkt UpperPacket.Offset UpperPacket.Padding].
      erewrite window_contents by (exact Hf || (change (UpperOffset + 16) with 52; lia)).
      rewrite HL. change (UpperOffset + 16 + 4) with 56. by replace (88 + zlen pl - 32 - 56) with (zlen pl) by lia.
  - destruct (Route_full (UpperPacket.NewUpperPacket pkt) h l Hf Hb) as (rt & ER & _ & _ & Hby); [lia|].
    exists rt. split; [exact ER|]. rewrite Hby, Hlen. change 22 with (20 + 2). rewrite <- (sub_sub l 20 16), Hsub by lia.
    unfold route_header. change (pos :: zlen back :: ?x) with ([pos; zlen back] ++ x). rewrite sub_app_skip by done.
    by apply sub_app_here.
Qed.

(** A packet at the end of its label is handed to the upper layer. *)
Lemma arrive_spec {B} (k : option error -> M (Node UH LH) B) n d ip port pprev prev s idx r q c done_ x body
    (pkt := set_LowerSrc pprev (in_pkt (mem (sess n)) d ip port)) :
  open_session (sess n) pprev idx r s -> PeerID.Empty pprev = false -> bypeer (fwd n) !! pprev = Some prev -> is_byte prev ->
  slots (fwd n) !! 0 = Some (Entry q RecvUpper) -> idle LowerRecv n -> idle LowerMux n -> idle UpperRecv n ->
  data_codec c -> zlen (done_ ++ [x]) <= 13 -> zlen d <= TptMTU ->
  carried s idx d (transit c (zlen done_) (done_ ++ [x]) body) ->
  exists l, (recv_datagram d ip port ≫= fun _ => lowerRecv_turn ≫= fun _ => lowerMux_turn run_lower ≫= k) n =
      k None (push UpperRecv pkt (over l_mem (mem (sess n) ++ [l]) n)) /\
    labelled l (zlen done_) (done_ ++ [prev]) /\ zlen l = TptMTU /\ sub l 36 (zlen body) = body /\
    Packet.Length pkt = 52 + zlen body.
Proof.
  intros Hos Hne Hby Hpb Hself Hq1 Hq2 Hq3 Hc H13 Hd Hca. pose proof (zlen_nonneg done_) as Hd0. pose proof (zlen_nonneg body).
  rewrite zlen_app, zlen_1 in H13.
  assert (Hll : label_len (done_ ++ [x])) by (unfold label_len; rewrite zlen_app, zlen_1; lia).
  pose proof (ca_length _ _ _ _ Hca) as Hzd. rewrite zlen_transit in Hzd by done.
  destruct (open_spec (fun _ => lowerMux_turn run_lower ≫= k) n d ip port pprev idx r s _ Hca Hd Hos Hq1 Hq2)
    as (l & E & Hz & Hb & Hpt). fold pkt in E. change TptMTU with 1452 in Hz, Hd.
  destruct (transit_labelled c (zlen done_) (done_ ++ [x]) body l Hc Hll Hb ltac:(lia) Hpt) as (Hlab & Hcl & Hbl).
  rewrite E. clear E. set (n1 := push LowerMux pkt _).
  assert (Hf1 : full (mem (sess n1)) (Buf pkt) l) by (by apply full_snoc).
  destruct (lowerMux_switch run_lower k n1 pkt l c (zlen done_) (done_ ++ [x]) prev) as [Hup _]; try (done || lia).
  { rewrite zlen_app, zlen_1. lia. }
  rewrite (Hup ltac:(rewrite zlen_app, zlen_1; lia) q Hself Hq3). clear Hup.
  rewrite (proj2 (Network.hop_at done_ x [])). set (l2 := splice l 20 _).
  destruct (labelled_bytes _ _ _ Hlab) as [Hdb [Hdone _]%Forall_app].
  assert (Hrh : zlen (route_header (zlen done_) (done_ ++ [prev])) = 16)
    by (apply zlen_route_header; rewrite zlen_app, zlen_1; lia).
  exists l2. split.
  { change (mem (sess n1)) with (mem (sess n) ++ [l]). change (s_arr (Buf pkt)) with (length (mem (sess n))). rewrite upd_snoc.
    do 2 f_equal. destruct Hq1 as [Q1 _], Hq2 as [Q2 _]. unfold n1.
    destruct n as [? ? ? ? [] ? ? ? ? ? [] [] [] [] [] [] [] []]. cbn in *. by subst. }
  split.
  { eapply labelled_splice; [exact Hlab|done|apply Forall_app; split; [done|by apply Forall_singleton]|].
    rewrite zlen_app, zlen_1. lia. }
  split; [unfold l2; rewrite zlen_splice; change TptMTU with 1452; lia|].
  split; [unfold l2; rewrite sub_splice_ge by lia; done|]. change (zlen d = 52 + zlen body). lia.
Qed.

Lemma final_spec n d ip port pprev prev s idx pa su ui codec cb c done_ x body upt m pl :
  arrival_ready n pprev prev s idx pa su ui codec cb ->
  data_codec c -> zlen (done_ ++ [x]) <= 13 -> zlen d <= TptMTU ->
  carried s idx d (transit c (zlen done_) (done_ ++ [x]) body) -> carried su ui body upt ->
  zlen upt = 4 + zlen pl -> varint_From (sub upt 0 4) = Some (codec, m) -> sub upt 4 (zlen pl) = pl -> zlen pl <= UpperMTU ->
  exists n' pkt, final_run d ip port n = run_upper cb (UpperPacket.NewUpperPacket pkt) n' /\ UpperSrc pkt = pa /\
    (exists sl, UpperPacket.Payload (UpperPacket.NewUpperPacket pkt) (mem (sess n')) = Ok (sl, mem (sess n')) /\
       contents (mem (sess n')) sl = pl) /\
    (exists rt, UpperPacket.Route_ (UpperPacket.NewUpperPacket pkt) (mem (sess n')) = Ok (rt, mem (sess n')) /\
       bytes_of (mem (sess n')) rt = done_ ++ [prev]) /\
    (table (routing n) !! pa = None ->
      exists rt, GetRoute pa (routing n') = inl rt /\ bytes_of (mem (sess n')) rt = reverse (done_ ++ [prev])).
Proof.
  intros [(r & Hos) (Hne & Hby & Hpb) (q & Hself) (ru & Hou) (Hq1 & Hq2 & Hq3 & Hq4) Hcb] Hc H13 Hd Hca Hcu Hzu Hv Hpl Hp.
  pose proof (zlen_nonneg pl). pose proof (ca_length _ _ _ _ Hcu) as Hzb. change UpperMTU with 1364 in Hp.
  destruct (arrive_spec (fun _ => upperRecv_turn ≫= fun _ => upperMux_turn run_upper) n d ip port pprev prev s idx r q c done_ x body)
    as (l & E1 & Hlab & Hz & Hbl & HL); try done.
  unfold final_run. rewrite E1. clear E1. set (pkt := set_LowerSrc pprev _) in *. set (n1 := push UpperRecv pkt _).
  assert (Hf1 : full (mem (sess n1)) (Buf pkt) l) by (by apply full_snoc). pose proof Hz as Hz'. change TptMTU with 1452 in Hz.
  destruct (upperRecv_spec (fun _ => upperMux_turn run_upper) n1 pkt l pa ui ru su (zlen done_) (done_ ++ [prev]) body upt)
    as (n2 & l2 & E2 & Hh2 & Hf2 & Hz2 & Hb2 & Hpt & Hpre & Hu2 & Hrt); try done; try lia.
  { by destruct Hou. }
  rewrite E2. clear E2.
  assert (Hlab2 : labelled l2 (zlen done_) (done_ ++ [prev])).
  { eapply labelled_frame; [exact Hlab|lia|done|]. change 20 with (0 + 20). by rewrite <- (sub_sub l2 0 52), Hpre, sub_sub by lia. }
  assert (Hat : forall o k : Z, 0 <= o -> 0 <= k -> o + k <= 4 + zlen pl -> sub l2 (52 + o) k = sub upt o k).
  { intros o k ? ? ?. rewrite <- Hpt, Hzu. by rewrite sub_sub by lia. }
  erewrite upperMux_runs; [|exact Hh2|exact Hf2|lia|change 52 with (52 + 0); rewrite Hat by lia; exact Hv|by rewrite Hu2].
  destruct (arrived_reads pkt (mem (sess n2)) l2 (done_ ++ [prev]) (zlen done_) pl) as [D1 D2];
    [done|done|lia|lia|change UpperMTU with 1364; lia|by rewrite (Hat 4) by lia|].
  exists (pop UpperMux n2), (set_UpperSrc pa pkt). do 2 (split; [done|]). split; [exact D1|]. split; [exact D2|]. exact Hrt.
Qed.

(** ** Properties *)

(** C1: end to end across any number of nodes. A node has a route of 2 to 13
    hops to another one and gives a payload to [Send]. On every link, and between
    the two ends, the sending node seals with the session that [Find] picks among
    those it has with the peer; the theorem asks that this one be established and
    that the peer hold its other end, complete and under the same index (so not
    a session that a second [Connect] has begun: see [second_hello_hides]). Then
    the payload leaves as one datagram to the first neighbour, and when every
    node on the way in turn receives the datagram of the one before it, opens it
    with the lower session of that link, switches it by its label and seals it
    for the next link, the node at the end runs the handler registered for the
    codec on exactly that payload, with the sender's identity from the upper
    session. The label that arrives is the way back, and the receiver, if it
    knew no route to the sender, has it in its routing table afterwards. *)
Theorem node_routed_delivery (na nb : Node UH LH) (rs : list relay) (pa pb p1 plast : PeerID) (route : Route)
    (x : Z) (rest back : list Z) (prev : Z) (s sl su : Session) (idx idxl ui : Z) (a : Multiaddr) (t : Transport)
    (ts : list Transport) (codec : Z) (cb : UH) (pl : list Z) (ip : NetIP.Addr) (port : Z) :
  routed_ready na pb route (x :: rest) ui su p1 idx s a t ts ->
  through pa s idx rs plast sl idxl rest back ->
  arrival_ready nb plast prev sl idxl pa su ui codec cb ->
  zlen (x :: rest) <= 13 -> 0 <= codec < 2 ^ 28 -> zlen pl <= UpperMTU -> is_bytes pl ->
  exists na' d d' nb' pkt,
    send_run pb codec pl na = Ok (None, na') /\
    map sent (transports na') = (sent t ++ [(d, AddrPort a)]) :: map sent ts /\
    journey run_lower rs d = Some d' /\
    final_run d' ip port nb = run_upper cb (UpperPacket.NewUpperPacket pkt) nb' /\
    UpperSrc pkt = pa /\
    (exists sl, UpperPacket.Payload (UpperPacket.NewUpperPacket pkt) (mem (sess nb')) = Ok (sl, mem (sess nb')) /\
       contents (mem (sess nb')) sl = pl) /\
    (exists rt, UpperPacket.Route_ (UpperPacket.NewUpperPacket pkt) (mem (sess nb')) = Ok (rt, mem (sess nb')) /\
       bytes_of (mem (sess nb')) rt = back ++ [prev]) /\
    (table (routing nb) !! pa = None ->
      exists rt, GetRoute pa (routing nb') = inl rt /\ bytes_of (mem (sess nb')) rt = reverse (back ++ [prev])).
Proof.
  intros Hro Hth Har H13 Hc Hp Hb.
  destruct (routed_send na pb codec pl route _ ui su p1 idx s a t ts Hro Hc Hp Hb)
    as (na' & d & c & body & upt & m & ES & Hsent & Hdc & Hca & Hcu & Hzu & Hv & Hpl).
  pose proof (ca_length _ _ _ _ Hcu) as Hzb. change UpperMTU with 1364 in Hp. change TptMTU with 1452 in *.
  destruct (journey_spec run_lower c body pa s idx rs plast sl idxl rest back Hdc ltac:(change TptMTU with 1452; lia) Hth [] x d H13 Hca)
    as (d' & EJ & Hca').
  destruct (through_length _ _ _ _ _ _ _ _ _ Hth) as [Hl1 Hl2].
  assert (Hzr : zlen back = zlen rest) by (unfold zlen; lia). cbn [app] in Hca'. change (zlen []) with 0 in Hca'.
  rewrite Z.add_0_l, <- Hzr in Hca'. rewrite zlen_cons in H13. pose proof (zlen_nonneg back) as Hb0.
  pose proof (ca_length _ _ _ _ Hca') as Hzd. rewrite zlen_transit in Hzd; [|done|unfold label_len; rewrite zlen_app, zlen_1; lia].
  destruct (final_spec nb d' ip port plast prev sl idxl pa su ui codec cb c back (last_hop x rest) body upt m pl Har Hdc)
    as (nb' & pkt & EF & Hrest); try done; [rewrite zlen_app, zlen_1; lia|change TptMTU with 1452; lia|].
  by exists na', d, d', nb', pkt.
Qed.
End ends.

(** ** Three nodes in a row *)

Definition rt_pr : PeerID := mkPeerID 3 3 3 3.
Definition rt_a_end (p : PeerID) : Session := mkSession true 3 (Ikpsk2.hs_done [5] [6] true) ma0 p.
Definition rt_b_end (p : PeerID) : Session := mkSession false 3 (Ikpsk2.hs_done [6] [5] false) ma0 p.

(** A world with two sessions, under the indexes [i] and [j]. *)
Definition rt_world (i j : Z) (s1 s2 : Session) (h : heap) : world :=
  mkWorld (mkManager Ikpsk2.hs_si (Key.PublicKey_ Ikpsk2.hs_si) pid0 {[i := Some 0%nat; j := Some 1%nat]}) [s1; s2] [] [] sw_order 0 h.

Definition rt_tpt : Transport := mkTransport ma0 ROpen (mkRing [] TransportBufferSize 0) [].
Definition rt_node (w : world) (r : Routing) (i : Z) (p : PeerID) (f : sendFunc) (q : PeerID) (k : Z) : Node unit unit :=
  nd_node w [rt_tpt] r (mkForwarder (<[i := Entry p f]> (slots NewForwarder)) {[q := k]}) ∅ [].

Definition rt_route : Route := mkRoute (Slice 0 0 2 2).
Definition rt_a : Node unit unit :=
  rt_node (rt_world 1 2 (rt_a_end rt_pr) (rt_a_end sw_pb) [[4; 5]]) (mkRouting {[sw_pb := [rt_route]]} ∅) 4 rt_pr SendLower rt_pr 4.
Definition rt_r : Node unit unit :=
  rt_node (rt_world 1 3 (rt_b_end sw_pa) (rt_a_end sw_pb) []) NewRouting 5 sw_pb SendLower sw_pa 7.
Definition rt_b : Node unit unit :=
  rt_node (rt_world 3 2 (rt_b_end rt_pr) (rt_b_end sw_pa) []) NewRouting 0 sw_pb RecvUpper rt_pr 9.

Lemma rt_stored i j s1 s2 h k x :
  store (sm (rt_world i j s1 s2 h)) !! k = Some x -> k = i /\ x = Some 0%nat \/ k = j /\ x = Some 1%nat.
Proof. cbn. rewrite lookup_insert_Some, lookup_singleton_Some. intros [[<- <-]|[_ [<- <-]]]; auto. Qed.

Lemma rt_sole i j s1 s2 h :
  i <> j -> remotePeerID s1 <> remotePeerID s2 ->
  sole_session (rt_world i j s1 s2 h) (remotePeerID s1) i 0 s1 /\ sole_session (rt_world i j s1 s2 h) (remotePeerID s2) j 1 s2.
Proof.
  intros Hij Hp.
  assert (Hrefs : forall k x, store (sm (rt_world i j s1 s2 h)) !! k = Some x ->
    exists r, x = Some r /\ is_Some (objs (rt_world i j s1 s2 h) !! r)).
  { intros k x [[-> ->]|[-> ->]]%rt_stored; eauto. }
  split; split; try done; try (by intros ? ?).
  - split; [apply lookup_insert_eq|done].
  - intros k r [[-> [= ->]]|[-> [= ->]]]%rt_stored; [done|]. cbn. congruence.
  - split; [cbn; by rewrite lookup_insert_ne, lookup_singleton_eq|done].
  - intros k r [[-> [= ->]]|[-> [= ->]]]%rt_stored; [|done]. cbn. congruence.
Qed.

Lemma rt_open i j s1 s2 h :
  i <> j -> stage s1 = 0x03 -> stage s2 = 0x03 -> 0 <= i < 2 ^ 32 -> 0 <= j < 2 ^ 32 ->
  open_session (rt_world i j s1 s2 h) (remotePeerID s1) i 0 s1 /\ open_session (rt_world i j s1 s2 h) (remotePeerID s2) j 1 s2.
Proof.
  intros Hij H1 H2 Hi Hj. split; split; try done; (split; [|done]); cbn; [apply lookup_insert_eq|].
  by rewrite lookup_insert_ne, lookup_singleton_eq.
Qed.

#[local] Existing Instance round8.

Lemma node_routed_delivery_witness :
  exists na' d d' nb', send_run sw_pb 0x42001 [1; 2; 3] rt_a = Ok (None, na') /\
    map sent (transports na') = [[(d, AddrPort ma0)]] /\
    journey nd_lower [mkRelay rt_r rt_pr NetIP.AddrZero 5] d = Some d' /\
    final_run nd_upper nd_lower d' NetIP.AddrZero 6 rt_b = Ok (None, nb') /\
    exists rt, GetRoute sw_pa (routing nb') = inl rt /\ bytes_of (mem (sess nb')) rt = [9; 7].
Proof.
  destruct (node_routed_delivery nd_upper nd_lower rt_a rt_b [mkRelay rt_r rt_pr NetIP.AddrZero 5] sw_pa sw_pb rt_pr rt_pr
    rt_route 4 [5] [7] 9 (rt_b_end sw_pa) (rt_b_end rt_pr) (rt_b_end sw_pa) 1 3 2 ma0 rt_tpt [] 0x42001 tt [1; 2; 3]
    NetIP.AddrZero 6) as (na' & d & d' & nb' & pkt & E1 & E2 & E3 & E4 & _ & _ & _ & E5).
  - split; try (by repeat split).
    + split; [done|]. split; [by repeat split|cbn; lia].
    + split; [done|]. split; [by apply (bool_decide_unpack _)|by vm_compute].
    + exists 1%nat, (rt_a_end sw_pb). split; [apply sole_picked_now; by apply (rt_sole 1 2 (rt_a_end rt_pr) (rt_a_end sw_pb))|apply Ikpsk2.hs_done_established].
    + exists 0%nat, (rt_a_end rt_pr). split; [apply sole_picked; by apply (rt_sole 1 2 (rt_a_end rt_pr) (rt_a_end sw_pb))|].
      do 2 (split; [done|]). apply Ikpsk2.hs_done_established.
  - eapply (through_cons sw_pa (rt_b_end sw_pa) 1 _ [] 7 5 sw_pb (rt_b_end rt_pr) 3); [|apply through_nil]. split.
    + exists 0%nat. by apply (rt_open 1 3 (rt_b_end sw_pa) (rt_a_end sw_pb)).
    + by repeat split.
    + by repeat split.
    + exists 1%nat, (rt_a_end sw_pb). split; [apply sole_picked_now; by apply (rt_sole 1 3 (rt_b_end sw_pa) (rt_a_end sw_pb))|].
      split; [done|]. apply Ikpsk2.hs_done_established.
    + by repeat split.
    + by exists rt_tpt, [].
  - split; [exists 0%nat; by apply (rt_open 3 2 (rt_b_end rt_pr) (rt_b_end sw_pa))|by repeat split|by exists sw_pb
      |exists 1%nat; by apply (rt_open 3 2 (rt_b_end rt_pr) (rt_b_end sw_pa))|by repeat split|done].
  - by vm_compute.
  - by vm_compute.
  - by vm_compute.
  - by apply (bool_decide_unpack _).
  - exists na', d, d', nb'. do 3 (split; [done|]). split; [rewrite E4; reflexivity|]. exact (E5 eq_refl).
Defined.
