(* ===== verification/Connect.v ===== *)
(** * Connect: from strangers to the first payload
    (node/node.go, send.go, recv.go, transport.go)

    The whole nodes of Node, with nothing arranged between them: one calls
    [Connect] for the other's address, the hello and the response travel as
    datagrams through the queues and transports of both, the caller is woken,
    and the first payload makes the other side complete its half. Between the
    two nodes there is only the datagram. [Connect] is cut at its two waits, so
    that the turns of the routines can come in between. *)

From S2P Require Import Prelude GoMem Route Ext Toy Key PeerID Multiaddr Packet RingBuf Routing Forwarder SessionPacket Ikpsk2 Session Node Routed.
Import Key Route PeerID Multiaddr Packet RingBuf Routing Forwarder SessionPacket Session Node.

(** ** The parts of [Connect] *)

Section parts.
Context `{CryptoLaws, MaddrLib, VarintLaws} {UH LH : Type}.
Implicit Types (n : Node UH LH) (w : world).

(** A node with its queues, handlers and identity as they were. *)
Definition parts n (ts : list Transport) (ws : gmap PeerID (list nat)) (cs : list (option (option error))) (w : world)
    (f : Forwarder sendFunc) (r : Routing) : Node UH LH :=
  mkNode (peerid n) ts ws cs w (upperHandlers n) (lowerHandlers n) f r (running n) (helloSendQ n) (lowerSendQ n)
    (upperSendQ n) (helloRecvQ n) (lowerRecvQ n) (lowerMuxQ n) (upperRecvQ n) (upperMuxQ n).

(** The packet of a hello to [pid] at [raddr]. *)
Definition hello_pkt (h : heap) (pid : PeerID) (raddr : Multiaddr) : Packet :=
  set_TptDst raddr (Packet.set_LowerDst pid (NewPacket (fresh_buf h))).

Lemma connect_put_spec pid raddr n (h := mem (sess n)) :
  Multiaddr.Empty raddr = false -> idle HelloSend n ->
  connect_put pid raddr n = Ok (tt, push HelloSend (hello_pkt h pid raddr) (over l_mem (h ++ [zeros TptMTU]) n)).
Proof.
  intros Hr Hq. unfold connect_put. erewrite mem_step by apply make_bytes_TptMTU. rewrite Hr. cbn [negb]. by apply put_idle.
Qed.

Definition quiet (t : Transport) : Prop := ch (sendQ t) = [] /\ 1 <= cap (sendQ t).

(** [sendTransport] and the turn of the transport's routine that follows. *)
Lemma sendTransport_out n pkt l t ts :
  transports n = t :: ts -> quiet t -> Multiaddr.Empty (TptDst pkt) = false ->
  full (mem (sess n)) (Buf pkt) l -> Packet.Length pkt = zlen l ->
  (_ ← sendTransport pkt; send_turn 0) n = Ok (tt, over l_transports (has_sent t l (TptDst pkt) :: ts) n).
Proof.
  intros Ht [Hq Hc] He Hf Hl. pose proof (zlen_nonneg l).
  unfold sendTransport, mbind, M_bind at 1. rewrite Ht. unfold TSend, PutWithBackpressure, chan_send.
  rewrite Hq. replace (zlen [] <? cap (sendQ t)) with true by (change (zlen []) with 0; lia).
  unfold send_turn. cbn [transports over l_transports lookup list_lookup app sendQ]. unfold Get, chan_recv. cbn [ch].
  rewrite He. unfold Packet.Bytes. cbn [sess over l_transports].
  erewrite bind_ok by (eapply reslice_window; [exact Hf|lia|lia]).
  unfold s_read, gets. erewrite window_contents by (exact Hf || lia). rewrite Z.sub_0_r, Hl, sub_all.
  unfold has_sent. destruct t as [la tr [c0 k dr] se]. cbn in *. by subst c0.
Qed.
End parts.

(** ** The dialling side *)

Section dialling.
Context `{CryptoLaws, MaddrLib, VarintLaws, GoRuntime} {UH LH : Type}.
Implicit Types (n : Node UH LH) (w : world).

(** The hello routine and the transport's, on a queued hello. *)
Definition hello_out : M (Node UH LH) unit := _ ← helloSend_turn; send_turn 0.

Lemma hello_start_zeros : splice (zeros TptMTU) 0 (le_bytes 4 HelloMsgType) = hello_start LowerOffset.
Proof. reflexivity. Qed.

Lemma hello_out_spec n h t ts kb raddr hs e1 idx e2 (pidb := NewPeerID (Key.PublicKey_ kb)) :
  holding HelloSend (hello_pkt h pidb raddr) n -> mem (sess n) = h ++ [zeros TptMTU] ->
  transports n = t :: ts -> quiet t -> Multiaddr.Empty raddr = false -> PeerID.Empty pidb = false ->
  side_ok (privkey (sm (sess n))) (sess n) -> privkey_ok kb ->
  Ikpsk2.NewHandshakeInitiator (privkey (sm (sess n))) (Key.PublicKey_ kb) (rand (sess n)) = Ok (inl hs, e1) ->
  Manager.insert_loop (S (length e1)) (store (sm (sess n))) e1 = Ok (idx, e2) ->
  Ikpsk2.isZero (SharedSecret (Ikpsk2.localEphemeral hs) (Key.PublicKey_ kb)) = false ->
  exists l hi hdr ct pt,
    hello_out n = Ok (tt, parts (pop HelloSend n) (has_sent t l raddr :: ts) (waiters n) (chans n)
      (mkWorld (store_with idx (Some (length (objs (sess n)))) (sm (sess n)))
         (objs (sess n) ++ [dialling kb raddr hs hi]) e2 (now (sess n)) (order (sess n)) (ranges (sess n)) (h ++ [l]))
      (fwd n) (routing n)) /\
    zlen l = TptMTU /\ is_bytes l /\
    hello_layout l 0 TptMTU idx (pub_bytes (Ikpsk2.hh_Ephemeral hdr)) (Ikpsk2.hh_Static hdr) (Ikpsk2.hh_Timestamp hdr) ct /\
    Ikpsk2.MakeHello (now (sess n)) pt hs = (hi, inl (hdr, ct)) /\ is_bytes pt /\ zlen pt + 16 = zlen ct.
Proof.
  intros Hh Em Ht Hq Hr Hp [Hk Hra Hn] Hkb EI EIns Hz.
  set (pk := hello_pkt h pidb raddr).
  assert (Hf0 : full (h ++ [zeros TptMTU]) (Buf pk) (zeros TptMTU)) by apply full_fresh.
  destruct (hello_made pk LowerOffset LowerPadding kb raddr (over mem_lens (h ++ [hello_start LowerOffset]) (sess n))
    hs e1 idx e2) as (l & hi & hdr & ct & pt & E & Hl & Hbl & Hlay & Hrest); try done; [by left|by apply full_snoc|].
  exists l, hi, hdr, ct, pt. split; [|split; [done|split; [done|split; [|done]]]].
  2: { unfold LowerPadding, LowerOffset in Hlay. by rewrite Z.sub_0_r in Hlay. }
  unfold hello_out, helloSend_turn. unfold mbind at 1, M_bind at 1. rewrite (take_step _ _ _ _ Hh).
  change (LowerDst _) with pidb. change (TptDst _) with raddr. rewrite Hp, Hr.
  unfold doLowerHelloSend. change (LowerDst _) with pidb. change (TptDst _) with raddr.
  erewrite mem_step.
  2: { change (mem (sess (pop HelloSend n))) with (mem (sess n)). rewrite Em. unfold HelloPacket.NewHelloPacket. cbv zeta.
    erewrite bind_ok by (apply (put_le32_at_full (mkSPacket LowerOffset LowerPadding pk) 0 _ _ (zeros TptMTU));
      [exact Hf0|by vm_compute|by vm_compute]).
    cbn [Offset SessionPacket.pkt]. change (s_arr (Buf pk)) with (length h). rewrite upd_snoc. reflexivity. }
  erewrite sess_step by exact E.
  change (s_arr (Buf pk)) with (length h). cbn [mem over mem_lens]. rewrite upd_snoc. cbv beta iota.
  pose proof (sendTransport_out (over l_sess
    (mkWorld (store_with idx (Some (length (objs (sess n)))) (sm (sess n)))
         (objs (sess n) ++ [dialling kb raddr hs hi]) e2 (now (sess n)) (order (sess n)) (ranges (sess n)) (h ++ [l]))
      (pop HelloSend n)) pk l t ts Ht Hq Hr ltac:(by apply full_snoc) ltac:(by rewrite Hl)) as ES.
  unfold mbind, M_bind in ES. exact ES.
Qed.
End dialling.

(** ** Hello and response packets on their way in *)

Section incoming.
Context `{CryptoLaws, MaddrLib, VarintLaws, GoRuntime} {UH LH : Type}.
Implicit Types (n : Node UH LH) (w : world).

Lemma mem_back n : over l_mem (mem (sess n)) n = n.
Proof. by destruct n as [? ? ? ? []]. Qed.

(** A datagram of full length with one of the two types reaches the hello
    routine's queue. *)
Lemma hello_queued {B} (k : option error -> M (Node UH LH) B) n d ip port (h := mem (sess n)) :
  zlen d = TptMTU -> sub d 0 4 = le_bytes 4 HelloMsgType \/ sub d 0 4 = le_bytes 4 ResponseMsgType ->
  idle LowerRecv n -> idle HelloRecv n ->
  (_ ← recv_datagram d ip port; e ← lowerRecv_turn; k e) n =
    k None (push HelloRecv (in_pkt h d ip port) (over l_mem (h ++ [d]) n)).
Proof.
  intros Hd Hty Hq1 Hq2. rewrite recv_datagram_spec by (done || lia). fold h.
  rewrite splice_whole by (by rewrite Hd). unfold lowerRecv_turn. unfold mbind at 1, M_bind at 1.
  rewrite (take_step LowerRecv (in_pkt h d ip port)) by apply holding_push. rewrite pop_push by exact Hq1.
  erewrite mem_step by (apply (MsgType_full _ _ d); [by apply full_snoc|rewrite Hd; by vm_compute]).
  change (over l_mem (mem (sess (over l_mem (h ++ [d]) n))) (over l_mem (h ++ [d]) n)) with (over l_mem (h ++ [d]) n).
  destruct Hty as [-> | ->].
  - change (le_val _ =? DataMsgType) with false. change (le_val _ =? HelloMsgType) with true. cbn [orb]. by erewrite put_step by exact Hq2.
  - change (le_val _ =? DataMsgType) with false. change (le_val _ =? HelloMsgType) with false.
    change (le_val _ =? ResponseMsgType) with true. cbn [orb]. by erewrite put_step by exact Hq2.
Qed.

(** The answering node's turns: the transport's, the lower receive routine, the
    hello routine, and the transport's for the response. *)
Definition hello_in (d : list Z) (ip : NetIP.Addr) (port : Z) : M (Node UH LH) unit :=
  _ ← recv_datagram d ip port; _ ← lowerRecv_turn; _ ← helloRecv_turn; send_turn 0.

Definition source (ip : NetIP.Addr) (port : Z) : Multiaddr := mkMultiaddr ip port emptyPeerID None.

Lemma source_nonempty ip port : ip <> NetIP.AddrZero -> Multiaddr.Empty (source ip port) = false.
Proof. intros Hip. unfold Multiaddr.Empty. cbn. by rewrite bool_decide_eq_false_2. Qed.

Lemma hello_in_spec n d ip port t ts hs e1 hr hr' idx eph static tsp ct pt hdr rct ridx e2 (h := mem (sess n)) :
  zlen d = TptMTU -> ip <> NetIP.AddrZero -> idle LowerRecv n -> idle HelloRecv n -> transports n = t :: ts -> quiet t ->
  0 <= idx < 2 ^ 32 -> hello_layout d 0 TptMTU idx eph static tsp ct ->
  Ikpsk2.NewHandshakeResponder (privkey (sm (sess n))) (rand (sess n)) = Ok (inl hs, e1) ->
  Ikpsk2.ConsumeHello (Ikpsk2.mkHelloHeader (mkPublicKey eph) static tsp) ct hs = (hr, inl pt) -> zlen pt + 16 = zlen ct ->
  Ikpsk2.MakeResponse (zeros (TptMTU - 76)) hr = (hr', inl (hdr, rct)) ->
  zlen rct = TptMTU - 60 -> pubkey_ok (Ikpsk2.rh_Ephemeral hdr) -> array 16 (Ikpsk2.rh_Empty hdr) -> is_bytes rct ->
  Manager.insert_loop (S (length e1)) (store (sm (sess n))) e1 = Ok (ridx, e2) ->
  exists l' l2,
    hello_in d ip port n = Ok (tt, parts n (has_sent t l2 (source ip port) :: ts) (waiters n) (chans n)
      (mkWorld (store_with ridx (Some (length (objs (sess n)))) (sm (sess n)))
         (objs (sess n) ++ [answered (source ip port) hr']) e2 (now (sess n)) (order (sess n)) (ranges (sess n))
         (h ++ [l'] ++ [l2])) (fwd n) (routing n)) /\
    zlen l2 = TptMTU /\ is_bytes l2 /\
    response_layout l2 0 TptMTU idx ridx (pub_bytes (Ikpsk2.rh_Ephemeral hdr)) (Ikpsk2.rh_Empty hdr) rct.
Proof.
  intros Hd Hip Hq1 Hq2 Ht Hqt Hidx Hlay ER EC Hpt EM Hct Hpk Hem Hb EI.
  pose proof (hl_type _ _ _ _ _ _ _ _ Hlay) as Hty.
  set (pk := in_pkt h d ip port). set (p := mkSPacket LowerOffset LowerPadding pk).
  assert (Hf : full (h ++ [d]) (Buf pk) d) by (by apply full_snoc).
  destruct (HandleHello_spec p (source ip port) (sm (sess n)) (objs (sess n)) (rand (sess n)) (now (sess n)) (order (sess n))
    (ranges (sess n)) (h ++ [d]) d hs e1 hr hr' idx eph static tsp ct pt hdr rct ridx e2)
    as (l' & l2 & E & _ & Hz2 & Hb2 & Hl2); cbn [Offset Padding SessionPacket.pkt p];
    change (Packet.Length pk) with (zlen d); rewrite ?Hd; unfold LowerOffset, LowerPadding;
    [exact Hf|done|done|done|done|done|done|exact Hidx|exact Hlay|exact ER|exact EC|exact Hpt|exact EM|exact Hct|exact Hpk
    |exact Hem|exact Hb|exact EI|].
  exists l', l2. split; [|done].
  unfold hello_in. rewrite hello_queued by (done || by left). fold h pk.
  unfold helloRecv_turn. unfold mbind at 1, M_bind at 1.
  rewrite (take_step HelloRecv pk) by apply holding_push. rewrite pop_push by exact Hq2.
  change (PeerID.Empty (LowerSrc pk)) with true. change (TptSrc pk) with (source ip port).
  rewrite source_nonempty by done. unfold doLowerHelloRecv.
  erewrite mem_step by (apply (MsgType_full pk _ d); [exact Hf|rewrite Hd; by vm_compute]).
  rewrite Hty. change (le_val _ =? HelloMsgType) with true. cbv iota.
  erewrite mem_step.
  2: { unfold HelloPacket.NewHelloPacket. cbv zeta. fold p.
    erewrite bind_ok by (eapply (put_type_same p); unfold p; cbn [Offset SessionPacket.pkt];
      [exact Hf|done|rewrite Hd; by vm_compute|exact Hty]). reflexivity. }
  change (TptSrc pk) with (source ip port). erewrite sess_step by exact E. cbv beta iota.
  cbn [SessionPacket.pkt p Buf]. change (s_arr (Buf pk)) with (length h). rewrite upd_snoc.
  pose proof (sendTransport_out (over l_sess
    (mkWorld (store_with ridx (Some (length (objs (sess n)))) (sm (sess n)))
         (objs (sess n) ++ [answered (source ip port) hr']) e2 (now (sess n)) (order (sess n)) (ranges (sess n))
         ((h ++ [l']) ++ [l2])) n) (set_TptDst (source ip port) (NewPacket (fresh_buf (h ++ [d])))) l2 t ts Ht Hqt) as ES.
  rewrite app_assoc. unfold mbind, M_bind in ES. apply ES.
  - by apply source_nonempty.
  - cbn [Buf set_TptDst NewPacket mem sess over l_sess].
    replace (fresh_buf (h ++ [d])) with (fresh_buf (h ++ [l'])) by (unfold fresh_buf; by rewrite !length_app). by apply full_snoc.
  - by rewrite Hz2.
Qed.
End incoming.

(** ** A neighbour is connected *)

Section connected.
Context `{CryptoLaws, MaddrLib, VarintLaws, GoRuntime} {UH LH : Type}.
Implicit Types (n : Node UH LH) (w : world).

Definition has_room (f : Forwarder sendFunc) : Prop :=
  exists i, 0 <= i < NumSlots /\ slots f !! i = Some nullSlotEntry.

Lemma Attach_free p (f : sendFunc) fw h :
  fwd_ok fw -> has_room fw ->
  exists i, 0 <= i < NumSlots /\ slots fw !! i = Some nullSlotEntry /\
    Attach p f (fw, h) = Ok ((mkRoute (Slice (length h) 0 1 1), None),
      (mkForwarder (<[i := Entry p f]> (slots fw)) (<[p := i]> (bypeer fw)), h ++ [[i]])).
Proof.
  intros Hf (j & Hj & Ej). pose proof (first_free_spec fw (Z.to_nat NumSlots) 0) as Hff.
  unfold Attach. erewrite bind_ok by reflexivity. cbn [fst].
  destruct (first_free fw 0 (Z.to_nat NumSlots)) as [i|].
  - destruct Hff as (Hi & Hs & _). unfold NumSlots in *. exists i. split; [lia|]. split; [exact Hs|].
    erewrite bind_ok by reflexivity. rewrite u8_id by (unfold is_byte; lia). reflexivity.
  - destruct (Hff j); [unfold NumSlots in *; lia|done].
Qed.

(** The label of slot [i], as [Attach] allocates it. *)
Definition slot_route (h : heap) : Route := mkRoute (Slice (length h) 0 1 1).

Definition attached_at (pid : PeerID) (i : Z) (f : Forwarder sendFunc) : Forwarder sendFunc :=
  mkForwarder (<[i := Entry pid SendLower]> (slots f)) (<[pid := i]> (bypeer f)).
Definition routed_by (pid : PeerID) (rt : Route) (r : Routing) : Routing :=
  mkRouting (<[pid := [rt]]> (table r)) (<[Key.IPAddr (PeerID.PublicKey_ pid) := pid]> (ipv6 r)).

(** There is a slot for the peer, no route to it yet, and whoever waits for it
    has a channel of its own. *)
Record connectable n (pid : PeerID) : Prop := {
  cn_fwd : fwd_ok (fwd n);
  cn_room : has_room (fwd n);
  cn_new : table (routing n) !! pid = None;
  cn_waiters : forall ws, waiters n !! pid = Some ws -> NoDup ws /\ forall c, c ∈ ws -> chans n !! c = Some None
}.

Lemma connected_spec n (pid : PeerID) (h := mem (sess n)) :
  connectable n pid ->
  exists i cs,
    connectedCallback pid true n = Ok (tt, parts n (transports n) (delete pid (waiters n)) cs
      (over mem_lens (h ++ [[i]]) (sess n)) (attached_at pid i (fwd n)) (routed_by pid (slot_route h) (routing n))) /\
    0 <= i < NumSlots /\ slots (fwd n) !! i = Some nullSlotEntry /\
    (forall ws c, waiters n !! pid = Some ws -> c ∈ ws -> cs !! c = Some (Some None)) /\
    (forall c, c ∉ default [] (waiters n !! pid) -> cs !! c = chans n !! c).
Proof.
  intros [Hf Hroom Hnew Hws]. destruct (Attach_free pid SendLower (fwd n) h Hf Hroom) as (i & Hi & Hs & EA).
  exists i. unfold connectedCallback. cbv zeta.
  erewrite bind_ok.
  2: { erewrite bind_ok by (unfold zoom; cbn [view l_fwd]; fold h; rewrite EA; reflexivity).
    unfold zoom. cbn [view l_routing]. rewrite AddRoute_cases.
    match goal with |- context [table (routing ?m)] => change (routing m) with (routing n) end. rewrite Hnew. reflexivity. }
  erewrite bind_ok by reflexivity. unfold id.
  set (n1 := over l_routing _ _). change (waiters n1) with (waiters n).
  destruct (waiters n !! pid) as [ws|] eqn:Ew.
  - destruct (Hws ws eq_refl) as [Hnd Hopen].
    destruct (give_all_spec None ws n1 Hnd Hopen) as (cs & E & Hin & Hout). exists cs.
    erewrite bind_ok by exact E. split; [by destruct n|]. do 2 (split; [done|]). split; [|done].
    intros ws' c [= <-]. apply Hin.
  - exists (chans n). split; [rewrite delete_id by done; by destruct n|]. do 2 (split; [done|]). done.
Qed.

(** The dialling node's turns on the response. *)
Definition response_in (d : list Z) (ip : NetIP.Addr) (port : Z) : M (Node UH LH) (option error) :=
  _ ← recv_datagram d ip port; _ ← lowerRecv_turn; helloRecv_turn.

Lemma response_in_spec n d ip port r s hi sender idx eph empty ct pt (h := mem (sess n)) (w := sess n) :
  zlen d = TptMTU -> ip <> NetIP.AddrZero -> idle LowerRecv n -> idle HelloRecv n ->
  0 <= sender < 2 ^ 32 -> 0 <= idx < 2 ^ 32 -> response_layout d 0 TptMTU sender idx eph empty ct ->
  store (sm w) !! sender = Some (Some r) -> objs w !! r = Some s -> initiator s = true -> stage s = 0x01 ->
  Ikpsk2.ConsumeResponse (Ikpsk2.mkResponseHeader (mkPublicKey eph) empty) ct (handshake s) = (hi, inl pt) ->
  zlen pt + 16 = zlen ct -> NewPeerID (Ikpsk2.RemotePublicKey hi) = remotePeerID s ->
  connectable n (remotePeerID s) ->
  exists l' i cs,
    response_in d ip port n = Ok (None, parts n (transports n) (delete (remotePeerID s) (waiters n)) cs
      (mkWorld (swapped sender idx r (sm w))
         (<[r := with_addr (source ip port) (set_stage 0x03 (set_handshake hi s))]> (objs w)) (rand w) (now w) (order w)
         (ranges w) ((h ++ [l']) ++ [[i]]))
      (attached_at (remotePeerID s) i (fwd n)) (routed_by (remotePeerID s) (slot_route (h ++ [l'])) (routing n))) /\
    0 <= i < NumSlots /\ slots (fwd n) !! i = Some nullSlotEntry /\
    (forall ws c, waiters n !! remotePeerID s = Some ws -> c ∈ ws -> cs !! c = Some (Some None)) /\
    (forall c, c ∉ default [] (waiters n !! remotePeerID s) -> cs !! c = chans n !! c).
Proof.
  intros Hd Hip Hq1 Hq2 Hsnd Hidx Hlay Hst Hs Hin Hsg EC Hpt Hpid Hcn.
  pose proof (rl_type _ _ _ _ _ _ _ _ Hlay) as Hty.
  set (pk := in_pkt h d ip port). set (p := mkSPacket LowerOffset LowerPadding pk).
  assert (Hf : full (h ++ [d]) (Buf pk) d) by (by apply full_snoc).
  destruct (HandleResponse_spec p (source ip port) (sm w) (objs w) (rand w) (now w) (order w)
    (ranges w) (h ++ [d]) d r s hi sender idx eph empty ct pt) as (l' & E); cbn [Offset Padding SessionPacket.pkt p];
    change (Packet.Length pk) with (zlen d); rewrite ?Hd; unfold LowerOffset, LowerPadding;
    [exact Hf|done|done|done|done|done|done|exact Hlay|exact Hst|exact Hs|done|done|exact EC|done|done|].
  exists l'. unfold response_in. rewrite hello_queued by (done || by right). fold h pk.
  unfold helloRecv_turn. rewrite (take_step HelloRecv pk) by apply holding_push. rewrite pop_push by exact Hq2.
  change (PeerID.Empty (LowerSrc pk)) with true. change (TptSrc pk) with (source ip port).
  rewrite source_nonempty by done. unfold doLowerHelloRecv.
  erewrite mem_step by (apply (MsgType_full pk _ d); [exact Hf|rewrite Hd; by vm_compute]).
  rewrite Hty. change (le_val _ =? HelloMsgType) with false. change (le_val _ =? ResponseMsgType) with true. cbv iota.
  erewrite mem_step.
  2: { unfold ResponsePacket.NewResponsePacket. cbv zeta. fold p.
    erewrite bind_ok by (eapply (put_type_same p); unfold p; cbn [Offset SessionPacket.pkt];
      [exact Hf|done|rewrite Hd; by vm_compute|exact Hty]). reflexivity. }
  change (TptSrc pk) with (source ip port). erewrite sess_step by exact E. cbv beta iota.
  cbn [SessionPacket.pkt p]. change (s_arr (Buf pk)) with (length h). rewrite upd_snoc.
  match goal with |- context [(connectedCallback _ _ ≫= _) ?m] =>
    destruct (connected_spec m (remotePeerID s)) as (i & cs & E2 & Hrest); [by destruct Hcn; split|] end.
  exists i, cs. erewrite bind_ok by exact E2. split; [reflexivity|exact Hrest].
Qed.
End connected.

(** ** The first data *)

Section first_data.
Context `{CryptoLaws, MaddrLib, VarintLaws, GoRuntime} {UH LH : Type}.
Context (run_upper : UH -> UpperPacket.UpperPacket -> M (Node UH LH) (option error)).
Context (run_lower : LH -> LowerPacket.LowerPacket -> M (Node UH LH) (option error)).
Implicit Types (n : Node UH LH) (w : world).

(** The peer has slot [i], and the label of that slot is its route. *)
Definition neighbour n (pid : PeerID) (i : Z) : Prop :=
  0 <= i < NumSlots /\ slots (fwd n) !! i = Some (Entry pid SendLower) /\ bypeer (fwd n) !! pid = Some i /\
  exists rt, GetRoute pid (routing n) = inl rt /\ route_ok (mem (sess n)) rt /\ bytes_of (mem (sess n)) rt = [i].

Lemma slot_route_reads h i x : route_ok ((h ++ [[i]]) ++ x) (slot_route h) /\ bytes_of ((h ++ [[i]]) ++ x) (slot_route h) = [i].
Proof.
  assert (Hf : full (h ++ [[i]]) (Slice (length h) 0 1 1) [i]) by apply full_alloc.
  split; [by eapply slice_ok_app, full_slice_ok|]. unfold bytes_of, slot_route. cbn [hops].
  rewrite contents_app by (by eapply full_slice_ok). by apply full_contents.
Qed.

Lemma routed_by_get pid rt r : GetRoute pid (routed_by pid rt r) = inl rt.
Proof. unfold GetRoute, routed_by. cbn [table]. by rewrite lookup_insert_eq. Qed.

Lemma first_recv_spec n d ip port codec hops pl cb r idx s nonce ct (pid := remotePeerID s) :
  ready_to_receive n codec cb -> 0 <= codec < 2 ^ 28 -> zlen pl <= UpperMTU -> zlen hops = 1 ->
  zlen d = 88 + zlen pl -> 0 <= idx < 2 ^ 32 -> data_layout d 0 (88 + zlen pl) idx nonce ct ->
  store (sm (sess n)) !! idx = Some (Some r) -> objs (sess n) !! r = Some s -> stage s <> 0x03 ->
  PeerID.Empty pid = false -> connectable n pid ->
  Ikpsk2.ConsumeMessage (Ikpsk2.mkMessageHeader nonce) ct (handshake s) =
    inl (sub (direct_image codec hops pl) 16 (56 + zlen pl)) -> zlen ct = 72 + zlen pl ->
  exists n' pkt l i,
    recv_run run_upper run_lower d ip port n = run_upper cb (UpperPacket.NewUpperPacket pkt) n' /\
    UpperSrc pkt = pid /\ Packet.Length pkt = 88 + zlen pl /\
    full (mem (sess n')) (Buf pkt) l /\ zlen l = TptMTU /\ sub l 21 2 = 1 :: hops /\ sub l 56 (zlen pl) = pl /\
    sm (sess n') = sm (sess n) /\ objs (sess n') = <[r := set_stage 0x03 s]> (objs (sess n)) /\
    neighbour n' pid i /\ waiters n' = delete pid (waiters n).
Proof.
  intros [(Hq1 & Hq2 & Hq3) Hcb] Hc Hp Hh Hd Hidx Hdl Hst Hs Hs3 Hne Hcn EC Hct.
  pose proof (zlen_direct codec hops pl Hc Hp Hh) as Hz. pose proof (zlen_nonneg pl).
  unfold recv_run. change TptMTU with 1452 in *. pose proof Hp as Hp'. change UpperMTU with 1364 in Hp'.
  rewrite recv_datagram_spec by (change TptMTU with 1452; done || lia).
  set (h := mem (sess n)). set (pkt := in_pkt h d ip port). set (n1 := push LowerRecv pkt _).
  assert (Hz0 : zlen (zeros TptMTU) = 1452) by done.
  assert (HL : Packet.Length pkt = 88 + zlen pl) by exact Hd.
  assert (Hz1 : zlen (splice (zeros TptMTU) 0 d) = 1452) by zl.
  destruct (lowerRecv_opens (fun _ => _ ← lowerMux_turn run_lower; upperMux_turn run_upper) n1 pkt
    (splice (zeros TptMTU) 0 d) r idx s nonce ct
    (sub (direct_image codec hops pl) 16 (56 + zlen pl))) as (l' & E & Hf & Hpl & Hz' & _); rewrite ?HL; try done; try lia.
  { by apply full_snoc. }
  { apply data_layout_splice; lia || done. }
  { rewrite zlen_sub by lia. lia. }
  rewrite E. clear E. rewrite zlen_sub in Hpl by lia. rewrite (proj2 (Z.eqb_neq _ _) Hs3). cbn [negb].
  match goal with |- context [over l_sess ?w (pop LowerRecv n1)] => set (n2 := over l_sess w (pop LowerRecv n1)) end.
  destruct (connected_spec n2 pid) as (i & cs & E2 & Hi & _); [by destruct Hcn; split|].
  set (n3 := parts n2 _ _ _ _ _ _) in E2.
  erewrite bind_ok; [|erewrite bind_ok by exact E2; rewrite (put_step LowerMux) by exact Hq2; reflexivity].
  destruct (direct_image_reads codec hops pl l' Hc Hp Hh ltac:(change TptMTU with 1452; lia) Hpl)
    as ((m1 & R1) & (m2 & R2) & R3 & R4).
  assert (Hf3 : full (mem (sess n3)) (Buf pkt) l') by (apply full_app; exact Hf).
  erewrite lowerMux_direct; [|apply holding_push|exact Hne|exact Hf3|lia|exact R1|exact Hq3].
  erewrite upperMux_runs; [|apply holding_push|exact Hf3|lia|exact R2|exact Hcb].
  eexists _, _, l', i. split; [reflexivity|]. split; [done|]. split; [exact HL|]. split; [exact Hf3|].
  split; [lia|]. do 4 (split; [done|]). split; [|done].
  split; [exact Hi|]. split; [apply lookup_insert_eq|]. split; [apply lookup_insert_eq|].
  eexists. split; [apply routed_by_get|]. pose proof (slot_route_reads (mem (sess n2)) i []) as Hr.
  rewrite app_nil_r in Hr. exact Hr.
Qed.
End first_data.

(** ** Two strangers *)

Section strangers.
Context `{CryptoLaws, MaddrLib, VarintLaws, GoRuntime} {UH LH : Type}.
Implicit Types (n : Node UH LH) (w : world).

(** A node at rest that has never had to do with [peer]: the queues are empty,
    no session names the peer, and there is room for it. *)
Record stranger (k : PrivateKey) n (peer : PeerID) (t : Transport) (ts : list Transport) : Prop := {
  st_side : side_ok k (sess n);
  st_queues : forall q, idle q n;
  st_transport : transports n = t :: ts /\ quiet t;
  st_order : order_ok (order (sess n));
  st_refs : forall i x, store (sm (sess n)) !! i = Some x -> exists r, x = Some r /\ is_Some (objs (sess n) !! r);
  st_none : forall i r, store (sm (sess n)) !! i = Some (Some r) -> remotePeerID <$> objs (sess n) !! r <> Some peer;
  st_connectable : connectable n peer
}.

Context (ka kb : PrivateKey) (na nb : Node UH LH) (ta tb : Transport) (tsa tsb : list Transport).
Context (addrb : Multiaddr) (ipa ipb : NetIP.Addr) (porta portb : Z).
Context (hs : Ikpsk2.Handshake) (e1 : entropy) (idx : Z) (e2 : entropy).
Context (hr0 : Ikpsk2.Handshake) (e3 : entropy) (ridx : Z) (e4 : entropy).
Let pida := NewPeerID (Key.PublicKey_ ka).
Let pidb := NewPeerID (Key.PublicKey_ kb).
Context (Sa : stranger ka na pidb ta tsa) (Sb : stranger kb nb pida tb tsb).
Context (EI : Ikpsk2.NewHandshakeInitiator ka (Key.PublicKey_ kb) (rand (sess na)) = Ok (inl hs, e1)).
Context (EIns : Manager.insert_loop (S (length e1)) (store (sm (sess na))) e1 = Ok (idx, e2)).
Context (ER : Ikpsk2.NewHandshakeResponder kb (rand (sess nb)) = Ok (inl hr0, e3)).
Context (ERins : Manager.insert_loop (S (length e3)) (store (sm (sess nb))) e3 = Ok (ridx, e4)).
Context (Hz : Ikpsk2.isZero (SharedSecret (Ikpsk2.localEphemeral hs) (Key.PublicKey_ kb)) = false).
Context (Haddr : Multiaddr.Empty addrb = false) (Hpa : PeerID.Empty pida = false) (Hpb : PeerID.Empty pidb = false).
Context (Hia : ipa <> NetIP.AddrZero) (Hib : ipb <> NetIP.AddrZero).

(** The dialling node when its hello is queued and when it is sent, with
    whatever waiters it has by then. *)
Definition hello_queued_by (W : gmap PeerID (list nat)) (C : list (option (option error))) : Node UH LH :=
  set_waiters W C (push HelloSend (hello_pkt (mem (sess na)) pidb addrb) (over l_mem (mem (sess na) ++ [zeros TptMTU]) na)).
Definition hello_sent_by W C (l : list Z) (hi : Ikpsk2.Handshake) : Node UH LH :=
  parts na (has_sent ta l addrb :: tsa) W C
    (mkWorld (store_with idx (Some (length (objs (sess na)))) (sm (sess na)))
       (objs (sess na) ++ [dialling kb addrb hs hi]) e2 (now (sess na)) (order (sess na)) (ranges (sess na))
       (mem (sess na) ++ [l])) (fwd na) (routing na).

(** The answering node when its response is sent. *)
Definition answered_by (l' l2 : list Z) (hr' : Ikpsk2.Handshake) : Node UH LH :=
  parts nb (has_sent tb l2 (source ipa porta) :: tsb) (waiters nb) (chans nb)
    (mkWorld (store_with ridx (Some (length (objs (sess nb)))) (sm (sess nb)))
       (objs (sess nb) ++ [answered (source ipa porta) hr']) e4 (now (sess nb)) (order (sess nb)) (ranges (sess nb))
       (mem (sess nb) ++ [l'] ++ [l2])) (fwd nb) (routing nb).

(** The response [l2], and what the dialling side's handshake makes of it. *)
Record responded (hi hi2 hr' : Ikpsk2.Handshake) (l2 : list Z) (rhdr : Ikpsk2.ResponseHeader) (rct : list Z) : Prop := {
  rp_length : zlen l2 = TptMTU;
  rp_layout : response_layout l2 0 TptMTU idx ridx (pub_bytes (Ikpsk2.rh_Ephemeral rhdr)) (Ikpsk2.rh_Empty rhdr) rct;
  rp_consume : Ikpsk2.ConsumeResponse rhdr rct hi = (hi2, inl (zeros (TptMTU - 76)));
  rp_ct : zlen rct = TptMTU - 60;
  rp_keys : Ikpsk2.established hi2 hr';
  rp_peers : Ikpsk2.RemotePublicKey hi2 = Key.PublicKey_ kb /\ Ikpsk2.RemotePublicKey hr' = Key.PublicKey_ ka
}.

Lemma queue_back W C ts w f r :
  parts (pop HelloSend (hello_queued_by W C)) ts W C w f r = parts na ts W C w f r.
Proof.
  destruct (st_queues _ _ _ _ _ Sa HelloSend) as [E _]. revert E. unfold hello_queued_by.
  destruct na as [? ? ? ? ? ? ? ? ? ? [] ? ? ? ? ? ? ?]. cbn. by intros ->.
Qed.

Lemma hello_and_response W C :
  exists l hi l' l2 hr' hi2 rhdr rct,
    hello_out (hello_queued_by W C) = Ok (tt, hello_sent_by W C l hi) /\ zlen l = TptMTU /\
    hello_in l ipa porta nb = Ok (tt, answered_by l' l2 hr') /\ responded hi hi2 hr' l2 rhdr rct.
Proof.
  pose proof Sa as [Ha Hqa [Hta Hqta] _ _ _ _]. pose proof Sb as [Hb Hqb [Htb Hqtb] _ _ _ _].
  destruct (indexes_ok ka kb _ _ hs e1 idx e2 hr0 e3 ridx e4 Ha Hb EI EIns ER ERins) as [Hidx Hridx].
  destruct Ha as [[Eka Hka] Hea Hna]. destruct Hb as [[Ekb Hkb] Heb _].
  destruct (Ikpsk2.NewHandshakeInitiator_start _ _ _ _ _ Hea EI) as (Kei & Ehs & Hz' & _).
  destruct (Ikpsk2.NewHandshakeResponder_start _ _ _ _ Heb ER) as (Ker & Ehr & _).
  pose proof EI as EI'. pose proof ER as ER'. rewrite <- Eka in EI'. rewrite <- Ekb in ER'.
  destruct (hello_out_spec (hello_queued_by W C) (mem (sess na)) ta tsa kb addrb hs e1 idx e2)
    as (l & hi & hdr & ct & pt & E1 & Hl & Hbl & Hhl & EM & Hptb & Hpt); try done.
  { split; [split; [done|by change (privkey_ok (privkey (sm (sess na)))); rewrite Eka]|exact Hea|exact Hna]. }
  destruct (Ikpsk2.hello_agrees ka (Ikpsk2.localEphemeral hs) kb (Ikpsk2.localEphemeral hr0) (now (sess na)) pt)
    as (hi' & hr & hdr' & ct' & EM' & EC & Hhalf & Hls & Hlr & _); [done|done|done|done|apply Hna|apply Hna|done|done|done|].
  rewrite <- Ehs in EM'. change (now (sess (hello_queued_by W C))) with (now (sess na)) in EM.
  rewrite EM in EM'. injection EM' as <- <- <-. rewrite <- Ehr in EC.
  destruct (Ikpsk2.response_agrees hi hr (zeros (TptMTU - 76)) Hhalf (is_bytes_zeros _))
    as (hr' & hi2 & rhdr & rct & EMR & ECR & Hest & Hrs & Hrs2 & Hn1 & Hn2 & Hrk & Hre & Hrct & Hrctb).
  rewrite zlen_zeros in Hrct by done.
  destruct (hello_in_spec nb l ipa porta tb tsb hr0 e3 hr hr' idx (pub_bytes (Ikpsk2.hh_Ephemeral hdr)) (Ikpsk2.hh_Static hdr)
    (Ikpsk2.hh_Timestamp hdr) ct pt rhdr rct ridx e4) as (l' & l2 & E2 & Hl2 & Hbl2 & Hrl); try done.
  { by destruct hdr as [[]]. }
  destruct (Ikpsk2.half_static _ _ Hhalf) as [S1 S2].
  exists l, hi, l', l2, hr', hi2, rhdr, rct. split; [by rewrite E1, queue_back|]. split; [done|]. split; [exact E2|].
  split; try done. unfold Ikpsk2.RemotePublicKey. by rewrite Hrs, Hrs2, S1, S2, Hls, Hlr.
Qed.

(** The dialling node's session and the node when the response is taken. *)
Definition session_a (hi hi2 : Ikpsk2.Handshake) : Session :=
  with_addr (source ipb portb) (set_stage 0x03 (set_handshake hi2 (dialling kb addrb hs hi))).
Definition connected_by W (l : list Z) (hi hi2 : Ikpsk2.Handshake) (l3 : list Z) (i : Z) cs : Node UH LH :=
  parts na (has_sent ta l addrb :: tsa) (delete pidb W) cs
    (mkWorld (swapped idx ridx (length (objs (sess na))) (store_with idx (Some (length (objs (sess na)))) (sm (sess na))))
       (objs (sess na) ++ [session_a hi hi2]) e2 (now (sess na)) (order (sess na)) (ranges (sess na))
       (((mem (sess na) ++ [l]) ++ [l3]) ++ [[i]]))
    (attached_at pidb i (fwd na)) (routed_by pidb (slot_route ((mem (sess na) ++ [l]) ++ [l3])) (routing na)).

Lemma session_a_fields hi hi2 :
  remotePeerID (session_a hi hi2) = pidb /\ handshake (session_a hi hi2) = hi2 /\ stage (session_a hi hi2) = 0x03 /\
  remoteAddr (session_a hi hi2) = source ipb portb.
Proof.
  pose proof (source_nonempty ipb portb Hib) as E. unfold session_a, dialling, with_addr. rewrite E.
  by destruct (Multiaddr.Empty addrb).
Qed.

(** Whoever waits for the peer in [W] waits on a channel that is open in [C]. *)
Definition waiting_ok (W : gmap PeerID (list nat)) (C : list (option (option error))) : Prop :=
  forall ws, W !! pidb = Some ws -> NoDup ws /\ forall c, c ∈ ws -> C !! c = Some None.

Lemma response_taken W C l hi hi2 hr' l2 rhdr rct :
  responded hi hi2 hr' l2 rhdr rct -> waiting_ok W C ->
  exists l3 i cs, response_in l2 ipb portb (hello_sent_by W C l hi) = Ok (None, connected_by W l hi hi2 l3 i cs) /\
    0 <= i < NumSlots /\ (forall ws c, W !! pidb = Some ws -> c ∈ ws -> cs !! c = Some (Some None)) /\
    (forall c, c ∉ default [] (W !! pidb) -> cs !! c = C !! c).
Proof.
  intros [Hl2 Hlay EC Hct Hk [Hr1 _]] Hw. pose proof Sa as [Ha Hqa _ _ _ _ [Hcf Hcr Hcn _]]. pose proof Sb as [Hb _ _ _ _ _ _].
  destruct (indexes_ok ka kb _ _ hs e1 idx e2 hr0 e3 ridx e4 Ha Hb EI EIns ER ERins) as [Hidx Hridx].
  destruct (dialling_fields kb addrb hs hi) as (F1 & F2 & F3 & F4). fold pidb in F4.
  destruct (response_in_spec (hello_sent_by W C l hi) l2 ipb portb (length (objs (sess na))) (dialling kb addrb hs hi) hi2
    idx ridx (pub_bytes (Ikpsk2.rh_Ephemeral rhdr)) (Ikpsk2.rh_Empty rhdr) rct (zeros (TptMTU - 76)))
    as (l3 & i & cs & E & Hi & _ & Hcs & Hout); try done.
  - apply (Hqa LowerRecv).
  - apply (Hqa HelloRecv).
  - apply lookup_insert_eq.
  - apply lookup_snoc.
  - by rewrite F4, Hr1.
  - rewrite F4. by split.
  - rewrite F4 in *. exists l3, i, cs. split; [|done]. rewrite E. cbn [sess hello_sent_by parts objs]. rewrite insert_snoc. done.
Qed.

Lemma connected_neighbour W l hi hi2 l3 i cs : 0 <= i < NumSlots -> neighbour (connected_by W l hi hi2 l3 i cs) pidb i.
Proof.
  intros Hi. split; [done|]. split; [apply lookup_insert_eq|]. split; [apply lookup_insert_eq|].
  eexists. split; [apply routed_by_get|]. pose proof (slot_route_reads ((mem (sess na) ++ [l]) ++ [l3]) i []) as Hr.
  rewrite app_nil_r in Hr. exact Hr.
Qed.

Lemma connected_sole W l hi hi2 l3 i cs :
  sole_session (sess (connected_by W l hi hi2 l3 i cs)) pidb ridx (length (objs (sess na))) (session_a hi hi2).
Proof.
  pose proof Sa as [_ _ _ Hord Hrefs Hnone _].
  assert (Hold : forall j x, delete idx (<[idx := Some (length (objs (sess na)))]> (store (sm (sess na)))) !! j = Some x ->
    store (sm (sess na)) !! j = Some x).
  { intros j x [Hne Hx]%lookup_delete_Some. by rewrite lookup_insert_ne in Hx. }
  split; cbn [sess connected_by parts sm objs order store swapped store_with].
  - split; [apply lookup_insert_eq|apply lookup_snoc].
  - apply session_a_fields.
  - exact Hord.
  - intros j x. rewrite lookup_insert_Some. intros [[<- <-]|[_ Hx%Hold]]; [eexists; split; [done|]; rewrite lookup_snoc; eauto|].
    destruct (Hrefs j x Hx) as (r & -> & Hr). exists r. split; [done|]. by rewrite lookup_app_l by (by apply lookup_lt_is_Some).
  - intros j r. rewrite lookup_insert_Some. intros [[<- [= <-]]|[_ Hx%Hold]] Hp; [done|].
    destruct (Hrefs j _ Hx) as (r' & [= <-] & Hr). rewrite lookup_app_l in Hp by (by apply lookup_lt_is_Some).
    by destruct (Hnone j r Hx).
Qed.

Lemma connected_ready W l hi hi2 l3 i cs (n := connected_by W l hi hi2 l3 i cs) :
  0 <= i < NumSlots ->
  exists route, ready_to_send n pidb route (has_sent ta l addrb) tsa /\ bytes_of (mem (sess n)) route = [i].
Proof.
  intros Hi. pose proof Sa as [_ Hqa [Hta Hqta] _ _ _ _]. exists (slot_route ((mem (sess na) ++ [l]) ++ [l3])).
  destruct (slot_route_reads ((mem (sess na) ++ [l]) ++ [l3]) i []) as [Hok Hby]. rewrite app_nil_r in Hok, Hby.
  split; [|exact Hby]. split.
  - split; [apply routed_by_get|]. by split.
  - unfold n. cbn [slot_route hops s_arr sess connected_by parts mem]. rewrite (length_app _ [[i]]). cbn. lia.
  - exact Hpb.
  - exact (conj (Hqa UpperSend) (Hqa LowerSend)).
  - split; [done|exact Hqta].
Qed.

Context (run_upper : UH -> UpperPacket.UpperPacket -> M (Node UH LH) (option error)).
Context (run_lower : LH -> LowerPacket.LowerPacket -> M (Node UH LH) (option error)).

(** What the answering node's handler sees of the first payload. *)
Definition handed_over (pkt : Packet) (nb2 : Node UH LH) (pl : list Z) : Prop :=
  UpperSrc pkt = pida /\
  exists s, UpperPacket.Payload (UpperPacket.NewUpperPacket pkt) (mem (sess nb2)) = Ok (s, mem (sess nb2)) /\
    contents (mem (sess nb2)) s = pl.

Lemma first_payload W l hi hi2 l3 i cs l' l2 hr' rhdr rct codec cb pl :
  responded hi hi2 hr' l2 rhdr rct -> 0 <= i < NumSlots ->
  upperHandlers nb !! codec = Some cb -> 0 <= codec < 2 ^ 28 -> zlen pl <= UpperMTU -> is_bytes pl ->
  exists na4 data nb2 pkt ib sa sb,
    send_run pidb codec pl (connected_by W l hi hi2 l3 i cs) = Ok (None, na4) /\
    map sent (transports na4) = (sent ta ++ [(l, AddrPort addrb)] ++ [(data, (ipb, portb))]) :: map sent tsa /\
    recv_run run_upper run_lower data ipa porta (answered_by l' l2 hr') = run_upper cb (UpperPacket.NewUpperPacket pkt) nb2 /\
    handed_over pkt nb2 pl /\ neighbour nb2 pida ib /\ waiters nb2 = delete pida (waiters nb) /\
    joined (sess na4) (sess nb2) pida pidb ridx (length (objs (sess na))) (length (objs (sess nb))) sa sb /\
    stage sa = 0x03 /\ stage sb = 0x03.
Proof.
  intros [_ _ _ _ Hk [_ Hr2]] Hi Hcb Hc Hp Hb. set (n3 := connected_by W l hi hi2 l3 i cs).
  pose proof Sa as [Ha _ _ _ _ _ _]. pose proof Sb as [Hsb Hqb _ _ _ _ [Hcf Hcr Hcn Hcw]].
  destruct (indexes_ok ka kb _ _ hs e1 idx e2 hr0 e3 ridx e4 Ha Hsb EI EIns ER ERins) as [_ Hridx].
  destruct (connected_ready W l hi hi2 l3 i cs Hi) as (route & Hrs & Hby). fold n3 in Hrs, Hby.
  destruct (session_a_fields hi hi2) as (F1 & F2 & F3 & F4).
  pose proof (connected_sole W l hi hi2 l3 i cs) as Hsole. fold n3 in Hsole. pose proof Hsole as [[Hst Hob] _ _ _ _].
  set (sb := answered (source ipa porta) hr').
  assert (Fb : remotePeerID sb = pida /\ handshake sb = hr' /\ stage sb <> 0x03).
  { unfold sb, answered, with_addr. rewrite (source_nonempty ipa porta Hia). cbn. by rewrite Hr2. }
  destruct Fb as (G1 & G2 & G3). pose proof (zlen_nonneg pl).
  pose proof (zlen_direct codec [i] pl Hc Hp eq_refl) as Hzi. set (pt := sub (direct_image codec [i] pl) 16 (56 + zlen pl)).
  assert (Hzpt : zlen pt = 56 + zlen pl)
    by (change TptMTU with 1452 in Hzi; change UpperMTU with 1364 in Hp; unfold pt; apply zlen_sub; lia).
  assert (Hbi : is_bytes [i]) by (apply Forall_singleton; unfold NumSlots, is_byte in *; lia).
  destruct (Ikpsk2.message_agrees hi2 hr' pt Hk ltac:(unfold pt; apply is_bytes_sub; by apply is_bytes_direct))
    as (hi3 & hdr & ct & EM & EC & Jk' & _ & Hnon & _ & Hzct & Hbct).
  destruct (send_run_spec n3 pidb codec pl route (has_sent ta l addrb) tsa (length (objs (sess na))) ridx (session_a hi hi2)
    hi3 hdr ct (S (ranges (sess n3))) Hrs Hc Hp (fun h' => sole_session_find _ _ _ _ _ h' Hsole) Hob)
    as (na4 & data & ES & Hsent & Hzd & Hdl & Hm & Ho);
    [rewrite F4; by apply source_nonempty|by rewrite Hby, F2|lia|rewrite Hnon; split; [apply zlen_be_bytes|apply is_bytes_be]|].
  destruct (first_recv_spec run_upper run_lower (answered_by l' l2 hr') data ipa porta codec [i] pl cb (length (objs (sess nb)))
    ridx sb (Ikpsk2.mh_Nonce hdr) ct) as (nb2 & pkt & lb & ib & ER2 & Hsrc & HL & Hf & Hzl & R1 & R2 & Hm' & Ho' & Hnb & Hw);
    try done; [split; [exact (conj (Hqb LowerRecv) (conj (Hqb LowerMux) (Hqb UpperMux)))|exact Hcb]|apply lookup_insert_eq
    |apply lookup_snoc|by rewrite G1|rewrite G1; by split|rewrite G2; by destruct hdr|lia|].
  destruct (delivered_reads pkt _ lb [i] pl Hf Hzl HL Hp eq_refl R1 R2) as [D1 _]. rewrite G1 in *.
  exists na4, data, nb2, pkt, ib, (set_handshake hi3 (session_a hi hi2)), (set_stage 0x03 sb).
  split; [exact ES|]. split; [rewrite Hsent, F4; cbn [has_sent sent]; by rewrite <- app_assoc|]. split; [exact ER2|].
  split; [by split|]. do 2 (split; [done|]). split; [|by rewrite <- F3].
  split; rewrite ?Hm, ?Ho, ?Hm', ?Ho'; [split; [exact Hst|]|split; [apply lookup_insert_eq|]|by rewrite <- F1|by cbn; rewrite G2|done];
    apply list_lookup_insert_eq; [by eapply lookup_lt_Some|]; cbn; rewrite length_app; cbn; lia.
Qed.

(** A new waiter on a channel of its own. *)
Lemma join_waiting_ok W C :
  waiting_ok W C -> waiting_ok (<[pidb := default [] (W !! pidb) ++ [length C]]> W) (C ++ [None]).
Proof.
  intros Hw ws. rewrite lookup_insert_eq. intros [= <-].
  assert (Hold : forall c, c ∈ default [] (W !! pidb) -> C !! c = Some None).
  { destruct (W !! pidb) as [ws|] eqn:E; [by apply (Hw ws E)|]. by intros c ?%not_elem_of_nil. }
  split.
  - apply list.NoDup_app. split; [|split; [|apply NoDup_singleton]].
    + destruct (W !! pidb) as [ws|] eqn:E; [by apply (Hw ws E)|constructor].
    + intros c Hc ->%list_elem_of_singleton. apply Hold, lookup_lt_Some in Hc. lia.
  - intros c [Hc| ->%list_elem_of_singleton]%elem_of_app.
    + rewrite lookup_app_l; [by apply Hold|]. eapply lookup_lt_Some. by apply Hold.
    + rewrite lookup_app_r by lia. by rewrite Nat.sub_diag.
Qed.

(** C4: from strangers to the first payload. Two nodes at rest that have never
    heard of each other: one calls [Connect] with the other's id and address.
    Its hello leaves through the hello routine and the transport as one
    datagram to that address; the other node answers it, through its own
    queues, with one datagram to where the hello came from; that response
    completes the session on the dialling side and the call returns nil. By then
    the dialling node has a slot for the peer and the label of that slot as its
    route, so that [Send] works at once: its first datagram, addressed to where
    the response came from, gives the answering node its slot and route to the
    dialling node, and its handler runs with exactly the payload and the
    dialling node's id. Both ends are then joined under one index. *)
Theorem strangers_connect (codec : Z) (cb : UH) (pl : list Z) :
  upperHandlers nb !! codec = Some cb -> 0 <= codec < 2 ^ 28 -> zlen pl <= UpperMTU -> is_bytes pl ->
  exists ch na1 hello nb1 resp na2 na3 ia na4 data nb2 pkt ib ra rb sa sb,
    (_ ← connect_put pidb addrb; ch ← join_waiters pidb; _ ← hello_out; mret ch) na = Ok (ch, na1) /\
    transports na1 = has_sent ta hello addrb :: tsa /\
    hello_in hello ipa porta nb = Ok (tt, nb1) /\ transports nb1 = has_sent tb resp (source ipa porta) :: tsb /\
    response_in resp ipb portb na1 = Ok (None, na2) /\
    chan_take ch na2 = Ok (None, na3) /\ neighbour na3 pidb ia /\
    send_run pidb codec pl na3 = Ok (None, na4) /\
    map sent (transports na4) = (sent ta ++ [(hello, AddrPort addrb)] ++ [(data, (ipb, portb))]) :: map sent tsa /\
    recv_run run_upper run_lower data ipa porta nb1 = run_upper cb (UpperPacket.NewUpperPacket pkt) nb2 /\
    handed_over pkt nb2 pl /\ neighbour nb2 pida ib /\
    joined (sess na4) (sess nb2) pida pidb ridx ra rb sa sb /\ stage sa = 0x03 /\ stage sb = 0x03.
Proof.
  intros Hcb Hc Hp Hb. pose proof Sa as [_ Hqa _ _ _ _ [_ _ _ Hcw]].
  set (W := <[pidb := default [] (waiters na !! pidb) ++ [length (chans na)]]> (waiters na)). set (C := chans na ++ [None]).
  destruct (hello_and_response W C) as (l & hi & l' & l2 & hr' & hi2 & rhdr & rct & E1 & Hl & E2 & HR).
  destruct (response_taken W C l hi hi2 hr' l2 rhdr rct HR (join_waiting_ok _ _ Hcw)) as (l3 & i & cs & E3 & Hi & Hcs & _).
  destruct (first_payload W l hi hi2 l3 i (<[length (chans na) := None]> cs) l' l2 hr' rhdr rct codec cb pl HR Hi Hcb Hc Hp Hb)
    as (na4 & data & nb2 & pkt & ib & sa & sb & E4 & Hs & E5 & Hh & Hn & _ & Hj).
  assert (Hch : cs !! length (chans na) = Some (Some None))
    by (eapply Hcs; [apply lookup_insert_eq|apply elem_of_app; right; apply list_elem_of_here]).
  eexists (length (chans na)), (hello_sent_by W C l hi), l, (answered_by l' l2 hr'), l2, (connected_by W l hi hi2 l3 i cs),
    (connected_by W l hi hi2 l3 i (<[length (chans na) := None]> cs)), i, na4, data, nb2, pkt, ib, _, _, sa, sb.
  split; [|split; [done|]].
  { erewrite bind_ok by (apply connect_put_spec; [done|apply (Hqa HelloSend)]). erewrite bind_ok by reflexivity.
    change (set_waiters _ _ _) with (hello_queued_by W C). by erewrite bind_ok by exact E1. }
  split; [exact E2|]. split; [done|]. split; [exact E3|]. split; [unfold chan_take; cbn [chans connected_by parts]; by rewrite Hch|].
  split; [by apply connected_neighbour|]. split; [exact E4|]. split; [exact Hs|]. split; [exact E5|]. split; [exact Hh|].
  split; [exact Hn|]. exact Hj.
Qed.

(** C39: [Connect] queues the hello before it joins the waiters. When the
    handshake is faster than the caller, the session is complete and the peer
    has its slot and route, but the wake-up has gone to nobody: the caller
    then waits on a channel that only a further handshake with the same peer
    would write to. *)
Theorem connect_lost_wakeup :
  exists na1 hello nb1 resp na2 ia ch na3,
    (_ ← connect_put pidb addrb; hello_out) na = Ok (tt, na1) /\ transports na1 = has_sent ta hello addrb :: tsa /\
    hello_in hello ipa porta nb = Ok (tt, nb1) /\ transports nb1 = has_sent tb resp (source ipa porta) :: tsb /\
    response_in resp ipb portb na1 = Ok (None, na2) /\ neighbour na2 pidb ia /\
    join_waiters pidb na2 = Ok (ch, na3) /\ waiters na3 !! pidb = Some [ch] /\ chan_take ch na3 = Block.
Proof.
  pose proof Sa as [_ Hqa _ _ _ _ [_ _ _ Hcw]].
  destruct (hello_and_response (waiters na) (chans na)) as (l & hi & l' & l2 & hr' & hi2 & rhdr & rct & E1 & Hl & E2 & HR).
  destruct (response_taken _ _ l hi hi2 hr' l2 rhdr rct HR Hcw) as (l3 & i & cs & E3 & Hi & _).
  eexists (hello_sent_by _ _ l hi), l, (answered_by l' l2 hr'), l2, (connected_by _ l hi hi2 l3 i cs), i, _, _.
  split; [|split; [reflexivity|]].
  { erewrite bind_ok by (apply connect_put_spec; [done|apply (Hqa HelloSend)]).
    match goal with |- hello_out ?m = _ => replace m with (hello_queued_by (waiters na) (chans na)) by reflexivity end.
    exact E1. }
  split; [exact E2|]. split; [reflexivity|]. split; [exact E3|]. split; [by apply connected_neighbour|]. split; [reflexivity|].
  cbn. rewrite lookup_delete_eq, lookup_insert_eq. split; [done|]. unfold chan_take. cbn.
  by rewrite lookup_app_r, Nat.sub_diag.
Qed.
End strangers.

(** ** Freshly started nodes *)

Section booted.
Context `{CryptoLaws, MaddrLib, VarintLaws, GoRuntime} {UH LH : Type}.

(** [NewNode], one listener, the handlers of the services, and [Start]. *)
Definition boot (k : PrivateKey) (e : entropy) (clock : list Z) (ord : map_order) (h : heap) (ma : Multiaddr)
    (codec : Z) (cb : UH) : res (Node UH LH) :=
  match NewNode k e clock ord h with
  | Ok n =>
      match (_ ← Listen ma true; _ ← modify (Handle codec cb); Start) n with
      | Ok (_, n) => Ok n
      | Panic => Panic
      | Block => Block
      end
  | Panic => Panic
  | Block => Block
  end.

Lemma NewForwarder_room (p : PeerID) (f : sendFunc) i b : has_room (mkForwarder (<[i := Entry p f]> (slots (@NewForwarder sendFunc))) b).
Proof.
  assert (Hn : forall j, 0 <= j < NumSlots -> slots (@NewForwarder sendFunc) !! j = Some nullSlotEntry)
    by (intros j Hj; by rewrite NewForwarder_slot, decide_True).
  destruct (decide (i = 0)) as [->|]; [exists 1|exists 0]; (split; [by vm_compute|]); cbn [slots];
    (rewrite lookup_insert_ne by done); by apply Hn; vm_compute.
Qed.

(** A node that has just been started is a stranger to everybody, runs, and has
    one transport, which runs too. *)
Lemma boot_stranger k e clock ord h ma codec cb t (peer : PeerID) :
  privkey_ok k -> entropy_ok e -> array 12 clock -> order_ok ord -> NewTransport ma true = inl t ->
  exists n, boot k e clock ord h ma codec cb = Ok n /\ stranger k n peer (set_trun ROpen t) [] /\
    sm (sess n) = Manager.NewSessionManager k /\ rand (sess n) = e /\ upperHandlers n = {[codec := cb]} /\
    peerid n = NewPeerID (Key.PublicKey_ k) /\ Running n = true.
Proof.
  intros Hk He Hc Ho Ht. pose proof (NewTransport_fresh ma true t Ht) as ->.
  destruct (Attach_free (NewPeerID (Key.PublicKey_ k)) RecvUpper NewForwarder h NewForwarder_ok) as (i & Hi & Hs & EA).
  { exists 0. split; [by vm_compute|]. by rewrite NewForwarder_slot, decide_True by (by vm_compute). }
  pose proof (Attach_ok _ _ _ _ _ _ _ _ NewForwarder_ok EA) as Hok.
  pose proof (NewForwarder_room (NewPeerID (Key.PublicKey_ k)) RecvUpper i (<[NewPeerID (Key.PublicKey_ k) := i]> (bypeer (@NewForwarder sendFunc))))
    as Hroom.
  unfold boot, NewNode. unfold zoom. cbn [view l_fwd fwd sess mem]. rewrite EA. clear EA Hs.
  set (f := mkForwarder _ _) in *. clearbody f. unfold Listen. rewrite Ht.
  eexists. split; [reflexivity|]. split; [|done]. split.
  - by split.
  - intros q. by destruct q; split.
  - by split.
  - exact Ho.
  - intros j x Hx. by change ((∅ : gmap Z (option nat)) !! j = Some x) in Hx; apply lookup_empty_Some in Hx.
  - intros j r Hx. by change ((∅ : gmap Z (option nat)) !! j = Some (Some r)) in Hx; apply lookup_empty_Some in Hx.
  - split; [exact Hok|exact Hroom|reflexivity|]. intros ws Hx.
    by change ((∅ : gmap PeerID (list nat)) !! peer = Some ws) in Hx; apply lookup_empty_Some in Hx.
Qed.
End booted.

(** *** Witnesses *)

#[local] Existing Instance round8.

Definition cw_tpt : Transport := mkTransport ma0 ROpen (mkRing [] TransportBufferSize 0) [].
Definition cw_boot (k : PrivateKey) (e : entropy) : res (Node unit unit) := boot k e Ikpsk2.hs_ts sw_order [] ma0 0x42001 tt.
Definition cw_ip : NetIP.Addr := NetIP.Addr4 [10; 0; 0; 1].

Lemma cw_stranger k e peer :
  privkey_ok k -> entropy_ok e ->
  exists n, cw_boot k e = Ok n /\ stranger k n peer cw_tpt [] /\ sm (sess n) = Manager.NewSessionManager k /\
    rand (sess n) = e /\ upperHandlers n = {[0x42001 := tt]}.
Proof.
  intros Hk He. destruct (boot_stranger (LH := unit) k e Ikpsk2.hs_ts sw_order [] ma0 0x42001 tt
    (mkTransport ma0 RNil (mkRing [] TransportBufferSize 0) []) peer) as (n & E & S & Hm & Hr & Hu & _);
    [done|done|by apply (bool_decide_unpack _)|by intros ? ?|reflexivity|].
  exists n. exact (conj E (conj S (conj Hm (conj Hr Hu)))).
Qed.

Lemma strangers_connect_witness :
  exists na nb ch na1 hello nb1 resp na2 na3 na4 data pkt nb2,
    cw_boot Ikpsk2.hs_si [Some [1; 2]; Some [5]] = Ok na /\ cw_boot Ikpsk2.hs_sr [Some [1; 2]; None; Some [77; 1]] = Ok nb /\
    (_ ← connect_put (NewPeerID (Key.PublicKey_ Ikpsk2.hs_sr)) ma0; ch ← join_waiters (NewPeerID (Key.PublicKey_ Ikpsk2.hs_sr));
     _ ← hello_out; mret ch) na = Ok (ch, na1) /\
    hello_in hello cw_ip 7 nb = Ok (tt, nb1) /\ response_in resp (NetIP.Addr4 [127; 0; 0; 1]) 1312 na1 = Ok (None, na2) /\
    chan_take ch na2 = Ok (None, na3) /\
    send_run (NewPeerID (Key.PublicKey_ Ikpsk2.hs_sr)) 0x42001 [1; 2; 3] na3 = Ok (None, na4) /\
    recv_run nd_upper nd_lower data cw_ip 7 nb1 = nd_upper tt (UpperPacket.NewUpperPacket pkt) nb2 /\
    handed_over Ikpsk2.hs_si pkt nb2 [1; 2; 3].
Proof.
  destruct (cw_stranger Ikpsk2.hs_si [Some [1; 2]; Some [5]] (NewPeerID (Key.PublicKey_ Ikpsk2.hs_sr)))
    as (na & Ea & Sa & Hma & Hra & _); [by apply (bool_decide_unpack _)|by repeat constructor|].
  destruct (cw_stranger Ikpsk2.hs_sr [Some [1; 2]; None; Some [77; 1]] (NewPeerID (Key.PublicKey_ Ikpsk2.hs_si)))
    as (nb & Eb & Sb & Hmb & Hrb & Hub); [by apply (bool_decide_unpack _)|by repeat constructor|].
  destruct (strangers_connect Ikpsk2.hs_si Ikpsk2.hs_sr na nb cw_tpt cw_tpt [] [] ma0 cw_ip (NetIP.Addr4 [127; 0; 0; 1]) 7 1312
    Ikpsk2.hs_i [Some [5]] 5 [] Ikpsk2.hs_r [None; Some [77; 1]] 333 [] Sa Sb
    ltac:(rewrite Hra; reflexivity) ltac:(rewrite Hma; vm_compute; reflexivity) ltac:(rewrite Hrb; reflexivity)
    ltac:(rewrite Hmb; vm_compute; reflexivity) ltac:(vm_compute; reflexivity) ltac:(vm_compute; reflexivity)
    ltac:(vm_compute; reflexivity) ltac:(vm_compute; reflexivity) ltac:(discriminate) ltac:(discriminate)
    nd_upper nd_lower 0x42001 tt [1; 2; 3] ltac:(rewrite Hub; apply lookup_singleton_eq) ltac:(by vm_compute)
    ltac:(by vm_compute) ltac:(by apply (bool_decide_unpack _)))
    as (ch & na1 & hello & nb1 & resp & na2 & na3 & ia & na4 & data & nb2 & pkt & ib & ra & rb & sa & sb
        & E1 & _ & E2 & _ & E3 & E4 & _ & E5 & _ & E6 & Hh & _).
  exists na, nb, ch, na1, hello, nb1, resp, na2, na3, na4, data, pkt, nb2.
  exact (conj Ea (conj Eb (conj E1 (conj E2 (conj E3 (conj E4 (conj E5 (conj E6 Hh)))))))).
Defined.

Lemma connect_lost_wakeup_witness :
  exists na nb na1 hello nb1 resp na2 ch na3,
    cw_boot Ikpsk2.hs_si [Some [1; 2]; Some [5]] = Ok na /\ cw_boot Ikpsk2.hs_sr [Some [1; 2]; None; Some [77; 1]] = Ok nb /\
    (_ ← connect_put (NewPeerID (Key.PublicKey_ Ikpsk2.hs_sr)) ma0; hello_out) na = Ok (tt, na1) /\
    hello_in hello cw_ip 7 nb = Ok (tt, nb1) /\ response_in resp cw_ip 8 na1 = Ok (None, na2) /\
    join_waiters (NewPeerID (Key.PublicKey_ Ikpsk2.hs_sr)) na2 = Ok (ch, na3) /\ chan_take ch na3 = Block.
Proof.
  destruct (cw_stranger Ikpsk2.hs_si [Some [1; 2]; Some [5]] (NewPeerID (Key.PublicKey_ Ikpsk2.hs_sr)))
    as (na & Ea & Sa & Hma & Hra & _); [by apply (bool_decide_unpack _)|by repeat constructor|].
  destruct (cw_stranger Ikpsk2.hs_sr [Some [1; 2]; None; Some [77; 1]] (NewPeerID (Key.PublicKey_ Ikpsk2.hs_si)))
    as (nb & Eb & Sb & Hmb & Hrb & Hub); [by apply (bool_decide_unpack _)|by repeat constructor|].
  destruct (connect_lost_wakeup Ikpsk2.hs_si Ikpsk2.hs_sr na nb cw_tpt cw_tpt [] [] ma0 cw_ip cw_ip 7 8
    Ikpsk2.hs_i [Some [5]] 5 [] Ikpsk2.hs_r [None; Some [77; 1]] 333 [] Sa Sb
    ltac:(rewrite Hra; reflexivity) ltac:(rewrite Hma; vm_compute; reflexivity) ltac:(rewrite Hrb; reflexivity)
    ltac:(rewrite Hmb; vm_compute; reflexivity) ltac:(vm_compute; reflexivity) ltac:(vm_compute; reflexivity)
    ltac:(vm_compute; reflexivity) ltac:(discriminate) ltac:(discriminate))
    as (na1 & hello & nb1 & resp & na2 & ia & ch & na3 & E1 & _ & E2 & _ & E3 & _ & E4 & _ & E5).
  exists na, nb, na1, hello, nb1, resp, na2, ch, na3.
  exact (conj Ea (conj Eb (conj E1 (conj E2 (conj E3 (conj E4 E5)))))).
Defined.
