(* ===== verification/Overlay.v ===== *)
(** * Overlay: connecting to a node further away
    (node/node.go, send.go, recv.go)

    [Connect] with an empty address dials a node that is not a neighbour: the
    hello and the response of the upper session are labelled with the route and
    its reverse, and travel as data of the lower sessions through the nodes in
    between. Connect has the first half of the story, how neighbours find each
    other, and Routed the last, what happens once both sessions exist; here the
    upper session comes about, over any row of nodes that are neighbours. *)

From S2P Require Import Prelude GoMem Route Ext Toy Key PeerID Multiaddr Packet RingBuf Routing Forwarder Network SessionPacket Ikpsk2 Session Node Routed Connect.
Import Key Route PeerID Multiaddr Packet RingBuf Routing Forwarder SessionPacket Session Node.

(** ** Links *)

Section links.
Context `{CryptoLaws, MaddrLib, VarintLaws} {UH LH : Type}.
Implicit Types (n : Node UH LH) (w : world).

(** One end of the session with the neighbour [p], under [idx]: the datagrams go
    to [a], and its keys are those of [h]. *)
Record link_end w (p : PeerID) (idx : Z) (a : Multiaddr) (h : Ikpsk2.Handshake) : Prop := {
  le_sole : exists r s, sole_session w p idx r s /\ stage s = 0x03 /\ remoteAddr s = a /\ Ikpsk2.same_keys h (handshake s);
  le_index : 0 <= idx < 2 ^ 32;
  le_addr : Multiaddr.Empty a = false
}.

(** Sessions do not depend on the heap, the random source or the clock. *)
Lemma sole_session_frame w w' p idx r s :
  sm w' = sm w -> objs w' = objs w -> order w' = order w -> sole_session w p idx r s -> sole_session w' p idx r s.
Proof. intros E1 E2 E3 [[? ?] ? ? ? ?]. by split; rewrite ?E1, ?E2, ?E3. Qed.

Lemma link_end_frame w w' p idx a h :
  sm w' = sm w -> objs w' = objs w -> order w' = order w -> link_end w p idx a h -> link_end w' p idx a h.
Proof.
  intros E1 E2 E3 [(r & s & Hs & Hrest) Hi Ha]. split; [|done|done]. exists r, s. split; [|done]. by eapply sole_session_frame.
Qed.

(** A session that seals a message stays what it is, and so do the others. *)
Lemma sole_session_seal w p idx r s r1 s1 hi h :
  sole_session w p idx r s -> objs w !! r1 = Some s1 -> Ikpsk2.same_keys (handshake s1) hi ->
  exists s', sole_session (sealed_world w r1 s1 hi h) p idx r s' /\ stage s' = stage s /\ remoteAddr s' = remoteAddr s /\
    Ikpsk2.same_keys (handshake s) (handshake s').
Proof.
  intros Hss Hr1 Hk. destruct (decide (r = r1)) as [->|Hne].
  - pose proof Hss as [[H1' H2'] H3' H4' H5' H6']. rewrite Hr1 in H2'. injection H2' as <-.
    exists (set_handshake hi s1). split; [|done].
    assert (Hpeer : forall q, remotePeerID <$> <[r1 := set_handshake hi s1]> (objs w) !! q = remotePeerID <$> objs w !! q).
    { intros q. destruct (decide (q = r1)) as [->|Hn]; [|by rewrite list_lookup_insert_ne].
      by rewrite list_lookup_insert_eq, Hr1 by (by eapply lookup_lt_Some). }
    split; cbn [sm objs order sealed_world].
    + split; [done|]. apply list_lookup_insert_eq. by eapply lookup_lt_Some.
    + done.
    + done.
    + intros i x Hx. destruct (H5' i x Hx) as (q & -> & Hq). exists q. split; [done|].
      apply lookup_lt_is_Some. rewrite length_insert. by apply lookup_lt_is_Some.
    + intros i q Hi. rewrite Hpeer. by apply H6'.
  - exists s. split; [|done]. by eapply (sole_session_insert w); [exact Hss|exact Hr1|exact Hne|..].
Qed.

Lemma link_end_seal w p idx a h r1 s1 hi hp :
  link_end w p idx a h -> objs w !! r1 = Some s1 -> Ikpsk2.same_keys (handshake s1) hi ->
  link_end (sealed_world w r1 s1 hi hp) p idx a h.
Proof.
  intros [(r & s & Hs & Hst & Ha' & Hk) Hi Ha] Hr1 Hk1.
  destruct (sole_session_seal w p idx r s r1 s1 hi hp Hs Hr1 Hk1) as (s' & Hs' & E1 & E2 & Hk').
  split; [|done|done]. exists r, s'. split; [done|]. rewrite E1, E2. split; [done|]. split; [done|]. by transitivity (handshake s).
Qed.

(** The neighbour [p] in slot [i], with the session to it. *)
Record hop_end n (p : PeerID) (i idx : Z) (a : Multiaddr) (h : Ikpsk2.Handshake) : Prop := {
  he_link : link_end (sess n) p idx a h;
  he_peer : PeerID.Empty p = false;
  he_slot : slots (fwd n) !! i = Some (Entry p SendLower) /\ bypeer (fwd n) !! p = Some i;
  he_byte : is_byte i
}.

Lemma hop_end_frame n n' p i idx a h :
  fwd n' = fwd n -> sm (sess n') = sm (sess n) -> objs (sess n') = objs (sess n) -> order (sess n') = order (sess n) ->
  hop_end n p i idx a h -> hop_end n' p i idx a h.
Proof. intros E E1 E2 E3 [Hl ? ? ?]. split; rewrite ?E; try done. by eapply link_end_frame. Qed.

(** All queues are empty, and the first transport has room. *)
Definition resting n : Prop := (forall q, idle q n) /\ exists t ts, can_emit n t ts.

(** What a node does to its neighbours by passing something on: nothing. *)
Definition steady n n' : Prop :=
  resting n' /\ forall p i idx a h, hop_end n p i idx a h -> hop_end n' p i idx a h.

Lemma emitted_steady n t ts d a r1 s1 hi h :
  resting n -> can_emit n t ts -> objs (sess n) !! r1 = Some s1 -> Ikpsk2.same_keys (handshake s1) hi ->
  steady n (over l_transports (has_sent t d a :: ts) (over l_sess (sealed_world (sess n) r1 s1 hi h) n)).
Proof.
  intros [Hq _] (Ht & Hch & Hcap) Hr1 Hk. split.
  - split; [intros q; specialize (Hq q); by destruct q|]. exists (has_sent t d a), ts. by split.
  - intros p i idx a' h' [Hl Hp Hs Hb]. split; try done. by apply link_end_seal.
Qed.

(** ** Sealed datagrams *)

(** Whoever has the other end of the keys [h] can open the datagram. *)
Definition sealed_by (h : Ikpsk2.Handshake) (idx : Z) (d pt : list Z) : Prop :=
  forall s, Ikpsk2.established h (handshake s) -> carried s idx d pt.

Lemma carried_sealed h s idx d pt : Ikpsk2.established h (handshake s) -> carried s idx d pt -> sealed_by h idx d pt.
Proof.
  intros [_ _ (a & E1 & E2) _] [Hl Hb (nonce & ct & Hdl & Hct & EC)] s' [_ _ (b & F1 & F2) _].
  split; [done|done|]. exists nonce, ct. split; [done|]. split; [done|]. rewrite <- EC.
  apply Ikpsk2.ConsumeMessage_keys. congruence.
Qed.

(** The keys of the other end of a link, as a session. *)
Definition session_of (h : Ikpsk2.Handshake) : Session := mkSession false 0x03 h zeroMultiaddr emptyPeerID.
End links.

(** ** A row of neighbours *)

Section row.
Context `{CryptoLaws, MaddrLib, VarintLaws} {UH LH : Type}.
Context (run_lower : LH -> LowerPacket.LowerPacket -> M (Node UH LH) (option error)).
Implicit Types (n : Node UH LH) (w : world) (rs : list (relay (UH := UH) (LH := LH))) (hops back : list Z).

Definition next_id rs (q : PeerID) : PeerID := match rs with [] => q | r :: _ => r_pid r end.

(** [row p idx h rs q idx' h' hops back]: from the node [p], whose keys for its
    first link are [h], over the nodes [rs] to the node [q], whose keys for the
    last link are [h']. Every node in between is at rest and has the one before
    it and the one after it for neighbours; [hops] and [back] are the slots they
    have there. *)
Inductive row : PeerID -> Z -> Ikpsk2.Handshake -> list relay -> PeerID -> Z -> Ikpsk2.Handshake -> list Z -> list Z -> Prop :=
| row_nil p idx h q h' : Ikpsk2.established h h' -> row p idx h [] q idx h' [] []
| row_cons p idx h r rs prev a1 h1 slot idx2 a2 h2 q idx' h' hops back :
    Ikpsk2.established h h1 -> resting (r_node r) -> hop_end (r_node r) p prev idx a1 h1 ->
    hop_end (r_node r) (next_id rs q) slot idx2 a2 h2 ->
    row (r_pid r) idx2 h2 rs q idx' h' hops back ->
    row p idx h (r :: rs) q idx' h' (slot :: hops) (prev :: back).

Lemma row_peer p idx h rs q idx' h' hops back :
  row p idx h rs q idx' h' hops back -> exists h1, Ikpsk2.established h h1.
Proof. destruct 1; eauto. Qed.

Lemma row_length p idx h rs q idx' h' hops back :
  row p idx h rs q idx' h' hops back -> length hops = length rs /\ length back = length rs.
Proof. induction 1 as [|? ? ? ? ? ? ? ? ? ? ? ? ? ? ? ? ? ? ? ? ? ? [IH1 IH2]]; cbn; lia. Qed.

(** *** The same row from the other end *)

Fixpoint last_id (p : PeerID) rs : PeerID := match rs with [] => p | r :: rs => last_id (r_pid r) rs end.

Lemma last_id_snoc p rs r : last_id p (rs ++ [r]) = r_pid r.
Proof. revert p. by induction rs as [|? ? IH]; intros p; [|apply IH]. Qed.

Lemma row_snoc p idx h rs r idx1 h1 hops back prev a1 slot idx2 a2 h2 q h' :
  row p idx h rs (r_pid r) idx1 h1 hops back ->
  resting (r_node r) -> hop_end (r_node r) (last_id p rs) prev idx1 a1 h1 -> hop_end (r_node r) q slot idx2 a2 h2 ->
  Ikpsk2.established h2 h' ->
  row p idx h (rs ++ [r]) q idx2 h' (hops ++ [slot]) (back ++ [prev]).
Proof.
  intros Hrow Hr Hp Hq He. remember (r_pid r) as pr eqn:Epr. revert Epr Hp.
  induction Hrow as [p idx h pr h1 He1|p idx h r1 rs prev1 b1 g1 slot1 idx3 b2 g2 pr idx1 h1 hops back E1 R1 P1 Q1 Hrow IH];
    intros -> Hp.
  - cbn. eapply row_cons; [exact He1|done|exact Hp|exact Hq|]. by apply row_nil.
  - cbn. eapply row_cons; [exact E1|done|exact P1| |by apply IH].
    by destruct rs.
Qed.

Lemma row_reverse p idx h rs q idx' h' hops back :
  row p idx h rs q idx' h' hops back -> row q idx' h' (reverse rs) p idx h (reverse back) (reverse hops).
Proof.
  induction 1 as [p idx h q h' He|p idx h r rs prev a1 h1 slot idx2 a2 h2 q idx' h' hops back E1 R1 P1 Q1 Hrow IH].
  - apply row_nil. by apply Ikpsk2.established_sym.
  - rewrite !reverse_cons. eapply row_snoc; [exact IH|done| |exact P1|by apply Ikpsk2.established_sym].
    destruct rs as [|r1 rs]; [exact Q1|]. by rewrite reverse_cons, last_id_snoc.
Qed.

(** *** Passing a datagram on *)

(** As [journey], with the nodes as they are afterwards. *)
Fixpoint pass_on rs (d : list Z) : option (list relay * list Z) :=
  match rs with
  | [] => Some ([], d)
  | r :: rs =>
      match relay_run run_lower d (r_ip r) (r_port r) (r_node r) with
      | Ok (_, n') => d1 ← last_sent n'; '(rs', d') ← pass_on rs d1; Some (mkRelay n' (r_pid r) (r_ip r) (r_port r) :: rs', d')
      | _ => None
      end
  end.

Lemma relay_pass n d ip port p prev idx a1 h h1 q slot idx2 a2 h2 h3 c pos hops body :
  resting n -> hop_end n p prev idx a1 h1 -> hop_end n q slot idx2 a2 h2 ->
  Ikpsk2.established h h1 -> Ikpsk2.established h2 h3 ->
  sealed_by h idx d (transit c pos hops body) -> 52 + zlen body <= TptMTU ->
  data_codec c -> label_len hops -> 0 <= pos < zlen hops - 1 -> pos <= 12 -> getz hops (pos + 1) = slot ->
  exists n' d', relay_run run_lower d ip port n = Ok (tt, n') /\ last_sent n' = Some d' /\ steady n n' /\
    sealed_by h2 idx2 d' (transit c (pos + 1) (<[Z.to_nat pos := prev]> hops) body).
Proof.
  intros Hrest [[(r & s & Hss & Hst & _ & Hks) Hidx _] Hp [_ Hby] Hpb] [[(r2 & s2 & Hss2 & _ & Ha2 & Hks2) _ Hra2] Hq [Hsl _] _]
    He He2 Hsb Hbd Hc Hll Hpos H12 Hgz.
  pose proof (Hsb s ltac:(by rewrite <- Hks)) as Hca.
  pose proof (ca_length _ _ _ _ Hca) as Hzd. rewrite zlen_transit in Hzd by done.
  pose proof Hrest as [Hidle (t & ts & Hem)].
  assert (He2' : Ikpsk2.established (handshake s2) (handshake (session_of h3))) by (cbn; by rewrite <- Hks2).
  destruct (relay_exact run_lower n d ip port p prev r s idx slot q r2 s2 (session_of h3) idx2 c pos hops body t ts)
    as (d' & l' & hi & E & Hk & Hca'); try done; [lia| |by apply sole_picked_now|by rewrite Ha2|].
  { destruct Hss as [? ? ? ? ?]. by split. }
  eexists _, d'. split; [exact E|]. split; [unfold last_sent; cbn; by rewrite last_snoc|].
  split; [by apply emitted_steady; [..|apply Hss2|]|]. eapply carried_sealed; [|exact Hca']. exact He2.
Qed.

Lemma pass_spec c body p idx h rs q idx' h' hops back :
  data_codec c -> 52 + zlen body <= TptMTU -> row p idx h rs q idx' h' hops back ->
  forall done_ x d,
  zlen (done_ ++ x :: hops) <= 13 -> sealed_by h idx d (transit c (zlen done_) (done_ ++ x :: hops) body) ->
  exists rs' d' hl, pass_on rs d = Some (rs', d') /\ row p idx h rs' q idx' h' hops back /\ next_id rs' q = next_id rs q /\
    Ikpsk2.established hl h' /\ sealed_by hl idx' d' (transit c (zlen done_ + zlen hops) (done_ ++ back ++ [last_hop x hops]) body).
Proof.
  intros Hc Hbd. induction 1 as [p idx h q h' He|p idx h r rs prev a1 h1 slot idx2 a2 h2 q idx' h' hops back E1 R1 P1 Q1 Hrow IH];
    intros done_ x d H13 Hsb.
  { exists [], d, h. do 3 (split; [done || by apply row_nil|]). split; [done|]. cbn. change (zlen []) with 0. by rewrite Z.add_0_r. }
  pose proof (zlen_nonneg done_) as Hd0. pose proof (zlen_nonneg hops) as Hh0. rewrite zlen_app, !zlen_cons in H13.
  assert (Hll : label_len (done_ ++ x :: slot :: hops)) by (unfold label_len; rewrite zlen_app, !zlen_cons; lia).
  destruct (row_peer _ _ _ _ _ _ _ _ _ Hrow) as (h3 & He3).
  destruct (relay_pass (r_node r) d (r_ip r) (r_port r) p prev idx a1 h h1 (next_id rs q) slot idx2 a2 h2 h3 c (zlen done_)
    (done_ ++ x :: slot :: hops) body) as (n' & d1 & F1 & F2 & [R1' Hsteady] & Hsb1); try done; try lia.
  { rewrite zlen_app, !zlen_cons. lia. }
  { pose proof (proj1 (Network.hop_at (done_ ++ [x]) slot hops)) as E. rewrite <- app_assoc in E. cbn in E.
    by rewrite zlen_app, zlen_1 in E. }
  rewrite (proj2 (Network.hop_at done_ x (slot :: hops))) in Hsb1.
  destruct (IH (done_ ++ [prev]) slot d1) as (rs' & d' & hl & F3 & Hrow' & Hn & Hel & Hsb').
  { rewrite !zlen_app, !zlen_cons, zlen_nil. lia. }
  { rewrite zlen_app, zlen_1, <- app_assoc. exact Hsb1. }
  eexists _, d', hl. split; [cbn [pass_on]; rewrite F1, F2; cbn; rewrite F3; reflexivity|].
  split; [|split; [done|]].
  { eapply row_cons; [exact E1|exact R1'|by apply Hsteady|rewrite Hn; by apply Hsteady|exact Hrow']. }
  split; [done|]. rewrite zlen_app, zlen_1, <- app_assoc in Hsb'. cbn [last_hop app]. rewrite zlen_cons.
  by replace (zlen done_ + (1 + zlen hops)) with (zlen done_ + 1 + zlen hops) by lia.
Qed.
End row.

(** ** Sessions that come and go *)

Section worlds.
Context `{CryptoLaws, MaddrLib}.
Implicit Types (w : world).

(** The sessions with a new one under a free index, and with one moved to the
    index that the other side chose. *)
Definition grown w (i : Z) (e : entropy) (s0 : Session) (h : heap) : world :=
  mkWorld (store_with i (Some (length (objs w))) (sm w)) (objs w ++ [s0]) e (now w) (order w) (ranges w) h.
Definition moved w (i j : Z) (r : nat) (s0 : Session) (h : heap) : world :=
  mkWorld (swapped i j r (sm w)) (<[r := s0]> (objs w)) (rand w) (now w) (order w) (ranges w) h.

Lemma sole_session_grown w p idx r s i e s0 h :
  sole_session w p idx r s -> store (sm w) !! i = None -> remotePeerID s0 <> p -> sole_session (grown w i e s0 h) p idx r s.
Proof.
  intros [[H1' H2'] H3' H4' H5' H6'] Hi Hp. split; cbn [sm objs order grown store store_with]; try done.
  - rewrite lookup_insert_ne by congruence. rewrite lookup_app_l by (by eapply lookup_lt_Some). done.
  - intros j x. rewrite lookup_insert_Some. intros [[<- <-]|[_ Hx]]; [eexists; split; [done|]; rewrite lookup_snoc; eauto|].
    destruct (H5' j x Hx) as (q & -> & Hq). exists q. split; [done|]. by rewrite lookup_app_l by (by apply lookup_lt_is_Some).
  - intros j q. rewrite lookup_insert_Some. intros [[<- [= <-]]|[_ Hx]].
    + rewrite lookup_snoc. cbn. congruence.
    + destruct (H5' j _ Hx) as (q' & [= <-] & Hq). rewrite lookup_app_l by (by apply lookup_lt_is_Some). by apply H6'.
Qed.

(** The new session, when there was none with that peer. *)
Lemma grown_sole w i e s0 h :
  order_ok (order w) -> (forall j x, store (sm w) !! j = Some x -> exists r, x = Some r /\ is_Some (objs w !! r)) ->
  (forall j r, store (sm w) !! j = Some (Some r) -> remotePeerID <$> objs w !! r <> Some (remotePeerID s0)) ->
  sole_session (grown w i e s0 h) (remotePeerID s0) i (length (objs w)) s0.
Proof.
  intros Ho Hrefs Hnone. split; cbn [sm objs order grown store store_with]; try done.
  - split; [apply lookup_insert_eq|apply lookup_snoc].
  - intros j x. rewrite lookup_insert_Some. intros [[<- <-]|[_ Hx]]; [eexists; split; [done|]; rewrite lookup_snoc; eauto|].
    destruct (Hrefs j x Hx) as (q & -> & Hq). exists q. split; [done|]. by rewrite lookup_app_l by (by apply lookup_lt_is_Some).
  - intros j q. rewrite lookup_insert_Some. intros [[<- [= <-]]|[_ Hx]] Hp; [done|].
    destruct (Hrefs j _ Hx) as (q' & [= <-] & Hq). rewrite lookup_app_l in Hp by (by apply lookup_lt_is_Some).
    by destruct (Hnone j q Hx).
Qed.

Lemma moved_store w i j r k x :
  <[j := Some r]> (delete i (store (sm w))) !! k = Some x -> k = j /\ x = Some r \/ k <> j /\ k <> i /\ store (sm w) !! k = Some x.
Proof.
  rewrite lookup_insert_Some. intros [[<- <-]|[Hj [Hi Hx]%lookup_delete_Some]]; [by left|]. right. by repeat split.
Qed.

Lemma moved_refs w i j r s0 :
  (forall k x, store (sm w) !! k = Some x -> exists q, x = Some q /\ is_Some (objs w !! q)) -> is_Some (objs w !! r) ->
  forall k x, <[j := Some r]> (delete i (store (sm w))) !! k = Some x -> exists q, x = Some q /\ is_Some (<[r := s0]> (objs w) !! q).
Proof.
  intros Hrefs Hr k x Hx. assert (Hx' : exists q, x = Some q /\ is_Some (objs w !! q))
    by (destruct (moved_store _ _ _ _ _ _ Hx) as [[-> ->]|(_ & _ & Hx')]; eauto).
  destruct Hx' as (q & -> & Hq). exists q. split; [done|]. apply lookup_lt_is_Some. rewrite length_insert. by apply lookup_lt_is_Some.
Qed.

(** The session that is moved stays the only one with its peer, *)
Lemma moved_sole w p i j r s s0 h :
  sole_session w p i r s -> remotePeerID s0 = p -> sole_session (moved w i j r s0 h) p j r s0.
Proof.
  intros [[H1' H2'] H3' H4' H5' H6'] Hp. split; cbn [sm objs order moved store swapped]; try done.
  - split; [apply lookup_insert_eq|apply list_lookup_insert_eq]. by eapply lookup_lt_Some.
  - apply moved_refs; eauto.
  - intros k q [[-> [= ->]]|(Hj & Hi & Hx)]%moved_store Hq; [done|]. exfalso. apply Hi.
    apply (H6' k q Hx). destruct (decide (q = r)) as [->|Hn]; [|by rewrite list_lookup_insert_ne in Hq].
    by rewrite H2', <- H3'.
Qed.

(** and the others stay where they are, unless the new index is theirs. *)
Lemma sole_session_moved w p idx r1 s1 i j r s s0 h :
  sole_session w p idx r1 s1 -> store (sm w) !! i = Some (Some r) -> objs w !! r = Some s ->
  remotePeerID s <> p -> remotePeerID s0 <> p -> idx <> j ->
  sole_session (moved w i j r s0 h) p idx r1 s1.
Proof.
  intros [[H1' H2'] H3' H4' H5' H6'] Hi Hr Hp Hp0 Hj.
  assert (Hne : r1 <> r) by congruence. assert (Hni : idx <> i) by congruence.
  split; cbn [sm objs order moved store swapped]; try done.
  - rewrite lookup_insert_ne, lookup_delete_ne by done. by rewrite list_lookup_insert_ne.
  - apply moved_refs; eauto.
  - intros k q [[-> [= ->]]|(Hk & Hki & Hx)]%moved_store Hq.
    + rewrite list_lookup_insert_eq in Hq by (by eapply lookup_lt_Some). cbn in Hq. congruence.
    + apply (H6' k q Hx). destruct (decide (q = r)) as [->|Hn]; [|by rewrite list_lookup_insert_ne in Hq].
      rewrite list_lookup_insert_eq in Hq by (by eapply lookup_lt_Some). cbn in Hq. congruence.
Qed.
End worlds.

(** ** Handshake packets inside a label *)

Section layouts.

(** The bytes of a session packet are all that matters of it. *)
Lemma same_bytes (l m : list Z) o k i n :
  sub m o k = l -> 0 <= o -> 0 <= i -> 0 <= n -> i + n <= k -> sub l i n = sub m (o + i) n.
Proof. intros <- ? ? ? ?. by rewrite sub_sub by lia. Qed.

Lemma hello_layout_window l o e idx eph static ts ct :
  0 <= o -> o + 116 <= e -> hello_layout l o e idx eph static ts ct <->
  hello_layout (sub l o (e - o)) 0 (e - o) idx eph static ts ct.
Proof.
  intros Ho He.
  assert (Hs : forall i n, 0 <= i -> 0 <= n -> i + n <= e - o -> sub (sub l o (e - o)) i n = sub l (o + i) n)
    by (intros; by apply same_bytes with (k := e - o)).
  split; intros [L1 L2 L3 L4 L5 L6]; split; rewrite ?Hs in * by lia; rewrite ?Z.add_0_r, ?Z.add_0_l in *; try done.
  all: by replace (e - o - 116) with (e - (o + 116)) in * by lia.
Qed.

Lemma response_layout_window l o e sender idx eph empty ct :
  0 <= o -> o + 60 <= e -> response_layout l o e sender idx eph empty ct <->
  response_layout (sub l o (e - o)) 0 (e - o) sender idx eph empty ct.
Proof.
  intros Ho He.
  assert (Hs : forall i n, 0 <= i -> 0 <= n -> i + n <= e - o -> sub (sub l o (e - o)) i n = sub l (o + i) n)
    by (intros; by apply same_bytes with (k := e - o)).
  split; intros [L1 L2 L3 L4 L5 L6]; split; rewrite ?Hs in * by lia; rewrite ?Z.add_0_r, ?Z.add_0_l in *; try done.
  all: by replace (e - o - 60) with (e - (o + 60)) in * by lia.
Qed.
End layouts.

(** ** The dialling side *)

Section far_dialling.
Context `{CryptoLaws, MaddrLib, VarintLaws, GoRuntime} {UH LH : Type}.
Implicit Types (n : Node UH LH) (w : world) (hops body : list Z).

(** The length of a handshake packet inside a label. *)
Definition inner : Z := TptMTU - UpperPadding - UpperOffset.

(** The packet of a hello to [pid], wherever it is. *)
Definition far_pkt (h : heap) (pid : PeerID) : Packet := set_UpperDst pid (NewPacket (fresh_buf h)).

Lemma far_put_spec pid n (h := mem (sess n)) :
  idle HelloSend n ->
  connect_put pid zeroMultiaddr n = Ok (tt, push HelloSend (far_pkt h pid) (over l_mem (h ++ [zeros TptMTU]) n)).
Proof. intros Hq. unfold connect_put. erewrite mem_step by apply make_bytes_TptMTU. cbn [negb]. by apply put_idle. Qed.

(** The hello routine, the lower send routine and the transport's. *)
Definition far_hello_out : M (Node UH LH) unit := _ ← helloSend_turn; seal_run.

(** A buffer that a label is written into. *)
Lemma labelled_fresh l hops :
  zlen l = TptMTU -> is_bytes l -> is_bytes hops -> 1 <= zlen hops <= 14 ->
  let l1 := splice l 20 (route_header 0 hops) in
  labelled l1 0 hops /\ zlen l1 = TptMTU /\ sub l1 36 inner = sub l 36 inner.
Proof.
  intros Hz Hb Hbh Hh l1. change TptMTU with 1452 in *. pose proof (zlen_route_header 0 hops ltac:(lia)) as Hrh.
  assert (Hz1 : zlen l1 = 1452) by (unfold l1; zl). split; [|split; [done|]].
  - split; [lia|]. split; [unfold l1; apply is_bytes_splice; [done|]; by apply is_bytes_route_header; [|done|lia]|].
    split; [unfold l1; apply sub_splice_eq; lia|done].
  - change inner with 1400. unfold l1. by rewrite sub_splice_ge by lia.
Qed.

(** A labelled packet is queued for the first neighbour, sealed for it and
    sent. *)
Lemma send_and_seal n pkt l t ts hops p1 idx1 a1 h1 h1' :
  full (mem (sess n)) (Buf pkt) l -> zlen l = TptMTU -> Packet.Length pkt = TptMTU -> labelled l 0 hops ->
  hop_end n p1 (getz hops 0) idx1 a1 h1 -> Ikpsk2.established h1 h1' -> idle LowerSend n -> can_emit n t ts ->
  exists d c r1 s1 hi1 l',
    (_ ← fwd_err (SendPacket (UpperPacket.NewUpperPacket pkt)); seal_run) n =
      Ok (tt, over l_transports (has_sent t d a1 :: ts)
        (over l_sess (sealed_world (sess n) r1 s1 hi1 (upd (mem (sess n)) (s_arr (Buf pkt)) l')) n)) /\
    objs (sess n) !! r1 = Some s1 /\ remotePeerID s1 = p1 /\ Ikpsk2.same_keys (handshake s1) hi1 /\
    data_codec c /\ sealed_by h1 idx1 d (transit c 0 hops (sub l 36 inner)).
Proof.
  intros Hf Hz HL Hlab [[(r1 & s1 & Hss & _ & Ha & Hks) _ Hra] Hp [Hsl _] _] He Hq Hem.
  change TptMTU with 1452 in *. pose proof Hlab as (_ & Hb & Hsub & Hh).
  erewrite bind_ok by (apply (node_SendPacket n pkt l hops p1); [exact Hf|done|lia|exact Hsl|exact Hq]).
  set (l2 := splice l 16 _). set (pkt2 := Packet.set_LowerDst p1 pkt). set (n2 := push LowerSend pkt2 _).
  pose proof (varint_To_4 DataMulticodec ltac:(unfold DataMulticodec; lia)) as Hv4.
  assert (Hz2 : zlen l2 = 1452) by (unfold l2; zl).
  assert (Hb2 : is_bytes l2) by (unfold l2; apply is_bytes_splice; [done|apply varint_To_bytes]).
  assert (Hlab2 : labelled l2 0 hops).
  { eapply labelled_frame; [exact Hlab|lia|done|]. unfold l2. by rewrite sub_splice_ge by lia. }
  destruct (seal_spec n2 pkt2 l2 t ts p1 idx1 r1 s1 (session_of h1')) as (l3 & d & hi & E & Hk & Hca); try done.
  - eapply full_upd; [exact Hf|lia].
  - change (Packet.Length pkt2) with (Packet.Length pkt). lia.
  - apply sole_picked_now. by eapply sole_session_frame; [..|exact Hss].
  - by rewrite Ha.
  - cbn. by rewrite <- Hks.
  - exists d, (sub l2 16 4), r1, s1, hi, l3. split; [|split; [apply Hss|split; [apply Hss|split; [exact Hk|split]]]].
    + rewrite E, Ha. do 2 f_equal. destruct Hq as [Q _]. unfold sealed_world, n2.
      destruct n as [? ? ? ? [] ? ? ? ? ? [] [] [] [] [] [] [] []]. cbn in *. rewrite upd_upd. by subst.
    + split; [apply zlen_sub; lia|]. eexists. unfold l2. apply varint_read; unfold DataMulticodec; lia.
    + change (Packet.Length pkt2) with (Packet.Length pkt) in Hca. rewrite HL in Hca.
      apply (carried_sealed h1 (session_of h1')); [exact He|]. change (1452 - 32) with (20 + inner) in Hca.
      rewrite (transit_of l2 hops) in Hca by (exact Hlab2 || (rewrite ?Hz2; by vm_compute)).
      replace (sub l 36 inner) with (sub l2 36 inner); [exact Hca|].
      change inner with 1400. unfold l2. by rewrite sub_splice_ge by lia.
Qed.

(** The hello of the upper session leaves inside a label, sealed for the first
    neighbour. *)
Lemma far_hello_spec n h t ts kd hs e1 idx e2 route hops p1 idx1 a1 h1 h1' (pidd := NewPeerID (Key.PublicKey_ kd)) :
  holding HelloSend (far_pkt h pidd) n -> mem (sess n) = h ++ [zeros TptMTU] -> PeerID.Empty pidd = false ->
  side_ok (privkey (sm (sess n))) (sess n) -> privkey_ok kd ->
  Ikpsk2.NewHandshakeInitiator (privkey (sm (sess n))) (Key.PublicKey_ kd) (rand (sess n)) = Ok (inl hs, e1) ->
  Manager.insert_loop (S (length e1)) (store (sm (sess n))) e1 = Ok (idx, e2) ->
  Ikpsk2.isZero (SharedSecret (Ikpsk2.localEphemeral hs) (Key.PublicKey_ kd)) = false ->
  GetRoute pidd (routing n) = inl route -> route_ok h route -> (s_arr (Route.hops route) < length h)%nat ->
  bytes_of h route = hops -> is_bytes hops -> 1 <= zlen hops <= 14 ->
  hop_end n p1 (getz hops 0) idx1 a1 h1 -> Ikpsk2.established h1 h1' -> pidd <> p1 -> idle LowerSend n -> can_emit n t ts ->
  exists l d c body hi hdr ct pt r1 s1 hi1,
    far_hello_out n = Ok (tt, over l_transports (has_sent t d a1 :: ts)
      (over l_sess (sealed_world (grown (sess n) idx e2 (dialling kd zeroMultiaddr hs hi) []) r1 s1 hi1 (h ++ [l])) (pop HelloSend n))) /\
    (objs (sess n) ++ [dialling kd zeroMultiaddr hs hi]) !! r1 = Some s1 /\ remotePeerID s1 = p1 /\ Ikpsk2.same_keys (handshake s1) hi1 /\
    data_codec c /\ sealed_by h1 idx1 d (transit c 0 hops body) /\ zlen body = inner /\
    hello_layout body 0 inner idx (pub_bytes (Ikpsk2.hh_Ephemeral hdr)) (Ikpsk2.hh_Static hdr) (Ikpsk2.hh_Timestamp hdr) ct /\
    Ikpsk2.MakeHello (now (sess n)) pt hs = (hi, inl (hdr, ct)) /\ is_bytes pt /\ zlen pt + 16 = zlen ct.
Proof.
  intros Hh Em Hp [Hk Hra Hn] Hkd EI EIns Hz Hg Hr Har Hby Hbh Hhl He1 Hest Hne Hq Hem.
  set (pk := far_pkt h pidd). assert (Hf0 : full (h ++ [zeros TptMTU]) (Buf pk) (zeros TptMTU)) by apply full_fresh.
  destruct (hello_made pk UpperOffset UpperPadding kd zeroMultiaddr (over mem_lens (h ++ [hello_start UpperOffset]) (sess n))
    hs e1 idx e2) as (l & hi & hdr & ct & pt & E & Hl & Hbl & Hlay & EM & Hptb & Hpt); try done; [by right|by apply full_snoc|].
  destruct (labelled_fresh l hops Hl Hbl Hbh Hhl) as (Hlab & Hl1 & Hin). set (l1 := splice l 20 (route_header 0 hops)) in *.
  set (w1 := grown (sess n) idx e2 (dialling kd zeroMultiaddr hs hi) (h ++ [l1])).
  set (n1 := over l_sess w1 (pop HelloSend n)).
  assert (Hfree : store (sm (sess n)) !! idx = None).
  { destruct (Ikpsk2.NewHandshakeInitiator_start _ _ _ _ _ Hra EI) as (_ & _ & _ & He). by eapply insert_loop_ok. }
  assert (He1' : hop_end n1 p1 (getz hops 0) idx1 a1 h1).
  { destruct He1 as [[(r & s & Hss & Hrest) ? ?] ? ? ?]. split; try done. split; try done. exists r, s. split; [|exact Hrest].
    apply sole_session_grown; [exact Hss|done|]. by rewrite (proj2 (proj2 (proj2 (dialling_fields kd zeroMultiaddr hs hi)))). }
  destruct (send_and_seal n1 pk l1 t ts hops p1 idx1 a1 h1 h1') as (d & c & r1 & s1 & hi1 & l3 & E2 & Hs1 & Hp1 & Hk1 & Hc & Hsb); try done.
  { by apply full_snoc. }
  rewrite Hin in Hsb. exists l3, d, c, (sub l 36 inner), hi, hdr, ct, pt, r1, s1, hi1.
  split; [|do 5 (split; [done|]); split; [apply zlen_sub; rewrite ?Hl; by vm_compute|split; [|done]]].
  2: { apply hello_layout_window in Hlay; [exact Hlay|by vm_compute|by vm_compute]. }
  unfold far_hello_out, helloSend_turn. unfold mbind at 1, M_bind at 1. rewrite (take_step _ _ _ _ Hh).
  change (PeerID.Empty (LowerDst _)) with true. cbv iota. change (UpperDst _) with pidd. rewrite Hp.
  unfold doUpperHelloSend. change (UpperDst _) with pidd.
  erewrite mem_step.
  2: { change (mem (sess (pop HelloSend n))) with (mem (sess n)). rewrite Em. unfold HelloPacket.NewHelloPacket. cbv zeta.
    erewrite bind_ok by (apply (put_le32_at_full (mkSPacket UpperOffset UpperPadding pk) 0 _ _ (zeros TptMTU));
      [exact Hf0|by vm_compute|by vm_compute]).
    cbn [Offset SessionPacket.pkt]. change (s_arr (Buf pk)) with (length h). rewrite upd_snoc. reflexivity. }
  erewrite sess_step by exact E. change (s_arr (Buf pk)) with (length h). cbn [mem over mem_lens]. rewrite upd_snoc. cbv beta iota.
  erewrite bind_ok by reflexivity.
  match goal with |- context [GetRoute pidd ?r] => change r with (routing n) end. rewrite Hg. cbn [SessionPacket.pkt]. cbv zeta.
  erewrite mem_step.
  2: { eapply (SetRoute_full (UpperPacket.NewUpperPacket pk)); [by apply full_snoc|rewrite Hl; by vm_compute|by apply slice_ok_app| |].
    - rewrite <- Hby in Hhl. unfold bytes_of in Hhl. rewrite (zlen_contents _ _ Hr) in Hhl. apply Hhl.
    - cbn. lia. }
  assert (Hby' : bytes_of (h ++ [l]) route = hops) by (unfold bytes_of; by rewrite contents_app).
  match goal with |- context [bytes_of ?H route] => change (bytes_of H route) with (bytes_of (h ++ [l]) route) end.
  rewrite Hby'. fold l1. change (s_arr (Buf (UpperPacket.pkt (UpperPacket.NewUpperPacket pk)))) with (length h).
  match goal with |- context [over l_mem (upd ?H (length h) l1)] => replace (upd H (length h) l1) with (h ++ [l1]) by (symmetry; apply upd_snoc) end.
  unfold mbind, M_bind in E2. etrans; [exact E2|].
  change (upd (mem (sess n1)) (s_arr (Buf pk)) l3) with (upd (h ++ [l1]) (length h) l3). by rewrite upd_snoc.
Qed.
End far_dialling.

(** ** Handshake packets on their way up *)

Section far_incoming.
Context `{CryptoLaws, MaddrLib, VarintLaws, GoRuntime} {UH LH : Type}.
Context (run_lower : LH -> LowerPacket.LowerPacket -> M (Node UH LH) (option error)).
Implicit Types (n : Node UH LH) (w : world) (hops back body : list Z).

(** Slot 0 is the way up. *)
Definition answers n : Prop := exists q, slots (fwd n) !! 0 = Some (Entry q RecvUpper).

Definition handshake_type (body : list Z) : Prop :=
  sub body 0 4 = le_bytes 4 HelloMsgType \/ sub body 0 4 = le_bytes 4 ResponseMsgType.

(** A handshake packet at the end of its label reaches the hello routine's
    queue. *)
Lemma handshake_up {B} (k : option error -> M (Node UH LH) B) n d ip port p prev idx a hl h c done_ x body
    (pkt := set_LowerSrc p (in_pkt (mem (sess n)) d ip port)) :
  resting n -> hop_end n p prev idx a h -> answers n -> Ikpsk2.established hl h ->
  sealed_by hl idx d (transit c (zlen done_) (done_ ++ [x]) body) -> data_codec c -> zlen (done_ ++ [x]) <= 13 ->
  zlen body = inner -> handshake_type body ->
  exists l,
    (recv_datagram d ip port ≫= fun _ => lowerRecv_turn ≫= fun _ => lowerMux_turn run_lower ≫= fun _ => upperRecv_turn ≫= k) n =
      k None (push HelloRecv pkt (over l_mem (mem (sess n) ++ [l]) n)) /\
    labelled l (zlen done_) (done_ ++ [prev]) /\ zlen l = TptMTU /\ sub l 36 inner = body /\ Packet.Length pkt = TptMTU.
Proof.
  intros [Hidle _] [[(r & s & Hss & Hst & _ & Hks) Hidx _] Hp [_ Hby] Hpb] (q & Hself) He Hsb Hc H13 Hzb Hty.
  pose proof (Hsb s ltac:(by rewrite <- Hks)) as Hca. pose proof (ca_length _ _ _ _ Hca) as Hzd.
  pose proof (zlen_nonneg done_). pose proof H13 as H13'. rewrite zlen_app, zlen_1 in H13'.
  rewrite zlen_transit in Hzd by (done || (unfold label_len; rewrite zlen_app, zlen_1; lia)).
  rewrite Hzb in Hzd. change inner with 1400 in *.
  destruct (arrive_spec run_lower (fun _ => upperRecv_turn ≫= k) n d ip port p prev s idx r q c done_ x body)
    as (l & E & Hlab & Hz & Hbl & HL); try done; [destruct Hss as [? ? ? ? ?]; by split|change TptMTU with 1452; lia|].
  fold pkt in E, HL. rewrite Hzb in Hbl, HL. exists l. split; [|done]. rewrite E. clear E.
  assert (H36 : getz l 36 = getz body 0).
  { rewrite <- Hbl. by rewrite getz_sub by (rewrite ?Hz; change TptMTU with 1452; lia). }
  unfold upperRecv_turn. unfold mbind at 1, M_bind at 1. rewrite (take_step UpperRecv pkt) by apply holding_push.
  rewrite pop_push by exact (Hidle UpperRecv).
  erewrite mem_step by (apply (s_get_full _ _ l); [by apply full_snoc|rewrite Hz; by vm_compute]).
  change UpperOffset with 36. rewrite H36. replace (getz body 0) with (getz (sub body 0 4) 0) by (by rewrite getz_sub by lia).
  rewrite mem_back. destruct Hty as [-> | ->].
  - change (getz _ 0 =? DataMsgType) with false. change (getz _ 0 =? HelloMsgType) with true. cbn [orb].
    by erewrite put_step by exact (Hidle HelloRecv).
  - change (getz _ 0 =? DataMsgType) with false. change (getz _ 0 =? HelloMsgType) with false.
    change (getz _ 0 =? ResponseMsgType) with true. cbn [orb].
    by erewrite put_step by exact (Hidle HelloRecv).
Qed.

(** The label of the answer: that of the packet it answers, reversed. *)
Lemma reverse_label (u u2 : UpperPacket.UpperPacket) h l l2 pos back :
  full h (Buf (UpperPacket.pkt u)) l -> 36 <= zlen l -> sub l 20 16 = route_header pos back -> 1 <= zlen back <= 14 ->
  full h (Buf (UpperPacket.pkt u2)) l2 -> 36 <= zlen l2 ->
  exists h', (rt ← UpperPacket.Route_ u; rev ← Reverse rt; UpperPacket.SetRoute u2 rev) h = Ok (tt, h') /\
    full h' (Buf (UpperPacket.pkt u2)) (splice l2 20 (route_header 0 (reverse back))).
Proof.
  intros Hf Hl Hsub Hbl Hf2 Hl2.
  assert (Hlen : getz l 21 = zlen back) by (change 21 with (20 + 1); rewrite <- (getz_sub l 20 16), Hsub by lia; done).
  destruct (Route_window u h l Hf ltac:(lia) ltac:(lia)) as (rt & E & Hok & _ & Hby).
  assert (Hbk : bytes_of h rt = back).
  { rewrite Hby, Hlen. change 22 with (20 + 2). rewrite <- (sub_sub l 20 16), Hsub by lia. unfold route_header.
    change (pos :: zlen back :: ?x) with ([pos; zlen back] ++ x). rewrite sub_app_skip by done. by apply sub_app_here. }
  assert (HLen : Len rt = zlen back) by (rewrite <- Hbk; unfold bytes_of; by rewrite (zlen_contents _ _ Hok)).
  destruct (Reverse_spec rt h Hok) as (rev & h1 & ER & Hok1 & HBr & _). rewrite Hbk in HBr.
  pose proof (Reverse_fresh _ _ _ _ ER ltac:(lia)) as Hfr.
  assert (Hf3 : full h1 (Buf (UpperPacket.pkt u2)) l2).
  { pose proof Hf2 as [Hf2a Hf2b]. split; [|exact Hf2b]. rewrite (Reverse_arrays _ _ _ _ ER) by (by eapply full_lt). exact Hf2a. }
  assert (HLr : Len rev = zlen back) by (rewrite <- zlen_reverse, <- HBr; unfold bytes_of; by rewrite (zlen_contents _ _ Hok1)).
  eexists. split.
  - erewrite bind_ok by exact E. erewrite bind_ok by exact ER.
    apply SetRoute_full; [exact Hf3|done|exact Hok1|lia|]. apply full_lt in Hf2. lia.
  - rewrite HBr. eapply full_upd; [exact Hf3|]. pose proof (zlen_route_header 0 (reverse back) ltac:(rewrite zlen_reverse; lia)). zl.
Qed.

(** *** The answering side *)

(** The turns on a hello: those that bring it up, the hello routine, and the way
    out of the response. *)
Definition far_hello_in (d : list Z) (ip : NetIP.Addr) (port : Z) : M (Node UH LH) unit :=
  _ ← recv_datagram d ip port; _ ← lowerRecv_turn; _ ← lowerMux_turn run_lower; _ ← upperRecv_turn; _ ← helloRecv_turn; seal_run.

Lemma far_hello_in_spec n d ip port t ts p prev idx a hl h c done_ x body hs e1 hr hr' i eph static tsp ct pt hdr rct ri e2 :
  resting n -> can_emit n t ts -> hop_end n p prev idx a h -> answers n -> Ikpsk2.established hl h ->
  sealed_by hl idx d (transit c (zlen done_) (done_ ++ [x]) body) -> data_codec c -> zlen (done_ ++ [x]) <= 13 -> zlen body = inner ->
  0 <= i < 2 ^ 32 -> hello_layout body 0 inner i eph static tsp ct ->
  entropy_ok (rand (sess n)) -> Ikpsk2.NewHandshakeResponder (privkey (sm (sess n))) (rand (sess n)) = Ok (inl hs, e1) ->
  Ikpsk2.ConsumeHello (Ikpsk2.mkHelloHeader (mkPublicKey eph) static tsp) ct hs = (hr, inl pt) -> zlen pt + 16 = zlen ct ->
  Ikpsk2.MakeResponse (zeros (inner - 76)) hr = (hr', inl (hdr, rct)) ->
  zlen rct = inner - 60 -> pubkey_ok (Ikpsk2.rh_Ephemeral hdr) -> array 16 (Ikpsk2.rh_Empty hdr) -> is_bytes rct ->
  Manager.insert_loop (S (length e1)) (store (sm (sess n))) e1 = Ok (ri, e2) ->
  NewPeerID (Ikpsk2.RemotePublicKey hr') <> p ->
  exists d2 c2 body2 r1 s1 hi1 h2 (s0 := answered zeroMultiaddr hr'),
    far_hello_in d ip port n = Ok (tt, over l_transports (has_sent t d2 a :: ts)
      (over l_sess (sealed_world (grown (sess n) ri e2 s0 []) r1 s1 hi1 h2) n)) /\
    (objs (sess n) ++ [s0]) !! r1 = Some s1 /\ remotePeerID s1 = p /\ Ikpsk2.same_keys (handshake s1) hi1 /\ data_codec c2 /\
    sealed_by h idx d2 (transit c2 0 (prev :: reverse done_) body2) /\ zlen body2 = inner /\
    response_layout body2 0 inner i ri (pub_bytes (Ikpsk2.rh_Ephemeral hdr)) (Ikpsk2.rh_Empty hdr) rct.
Proof.
  intros Hrest Hem Hhe Hans He Hsb Hc H13 Hzb Hi Hlay Hent ER EC Hpt EM Hrct Hpk Hemp Hbr EI Hpne.
  pose proof Hrest as [Hidle _]. pose proof (hl_type _ _ _ _ _ _ _ _ Hlay) as Hty. pose proof (zlen_nonneg done_) as Hd0.
  set (pkt := set_LowerSrc p (in_pkt (mem (sess n)) d ip port)). set (h0 := mem (sess n)).
  destruct (handshake_up (fun _ => _ ← helloRecv_turn; seal_run) n d ip port p prev idx a hl h c done_ x body)
    as (l & E & Hlab & Hz & Hbl & HL); try done; [by left|]. fold pkt h0 in E, HL.
  pose proof Hlab as (_ & Hb & Hsub & Hbk). rewrite zlen_app, zlen_1 in H13.
  assert (Hlay' : hello_layout l UpperOffset (TptMTU - UpperPadding) i eph static tsp ct).
  { apply hello_layout_window; [by vm_compute|by vm_compute|]. change (TptMTU - UpperPadding - UpperOffset) with inner.
    change UpperOffset with 36. by rewrite Hbl. }
  set (q := mkSPacket UpperOffset UpperPadding pkt).
  assert (Hf : full (h0 ++ [l]) (Buf pkt) l) by (by apply full_snoc).
  destruct (HandleHello_spec q zeroMultiaddr (sm (sess n)) (objs (sess n)) (rand (sess n)) (now (sess n)) (order (sess n))
    (ranges (sess n)) (h0 ++ [l]) l hs e1 hr hr' i eph static tsp ct pt hdr rct ri e2)
    as (l' & l2 & EH & (Hz' & Hpre) & Hz2 & Hb2 & Hl2); cbn [Offset Padding SessionPacket.pkt q]; rewrite ?HL, ?Hz;
    [exact Hf|by vm_compute|by vm_compute|by vm_compute|by vm_compute|by vm_compute|by vm_compute|exact Hi|exact Hlay'|exact ER
    |exact EC|exact Hpt|exact EM|exact Hrct|done|done|done|exact EI|].
  cbn [Offset Padding SessionPacket.pkt q] in EH, Hpre, Hl2. change (s_arr (Buf pkt)) with (length h0) in EH. rewrite upd_snoc in EH.
  set (pk2 := NewPacket (fresh_buf (h0 ++ [l]))) in EH. set (h1 := (h0 ++ [l']) ++ [l2]) in EH.
  assert (Hf1 : full h1 (Buf pkt) l') by (apply full_app, full_snoc; by rewrite Hz', Hz).
  assert (Hf2 : full h1 (Buf pk2) l2).
  { unfold pk2, h1. cbn [Buf NewPacket]. replace (fresh_buf (h0 ++ [l])) with (fresh_buf (h0 ++ [l'])) by (unfold fresh_buf; by rewrite !length_app).
    by apply full_snoc. }
  destruct (reverse_label (UpperPacket.NewUpperPacket pkt) (UpperPacket.NewUpperPacket pk2) h1 l' l2 (zlen done_) (done_ ++ [prev]))
    as (h3 & ERev & Hf3); [exact Hf1|rewrite Hz', Hz; by vm_compute| |done|exact Hf2|rewrite Hz2; by vm_compute|].
  { rewrite <- Hsub. apply (sub_prefix l l' (UpperOffset + 116)); [exact Hpre|by vm_compute..]. }
  rewrite reverse_snoc in Hf3. set (back := prev :: reverse done_) in *.
  assert (Hback : is_bytes back /\ 1 <= zlen back <= 14).
  { destruct (labelled_bytes _ _ _ Hlab) as [_ [Hdn [Hpv _]%Forall_cons_iff]%Forall_app]. unfold back.
    split; [constructor; [done|by apply is_bytes_reverse]|]. rewrite zlen_cons, zlen_reverse. lia. }
  destruct Hback as [Hbb Hbl2]. destruct (labelled_fresh l2 back Hz2 Hb2 Hbb Hbl2) as (Hlab3 & Hz3 & Hin).
  cbn [UpperPacket.pkt UpperPacket.NewUpperPacket] in Hf3. set (l3 := splice l2 20 (route_header 0 back)) in *.
  set (s0 := answered zeroMultiaddr hr'). set (n3 := over l_sess (grown (sess n) ri e2 s0 h3) n).
  assert (Hfree : store (sm (sess n)) !! ri = None).
  { destruct (Ikpsk2.NewHandshakeResponder_start _ _ _ _ Hent ER) as (_ & _ & He1). by eapply insert_loop_ok. }
  assert (Hhe3 : hop_end n3 p (getz back 0) idx a h).
  { destruct Hhe as [[(r & s & Hss & Hr) ? ?] ? ? ?]. split; try done. split; try done. exists r, s. split; [|exact Hr].
    by apply sole_session_grown. }
  destruct (send_and_seal n3 (set_LowerSrc (peerid n) pk2) l3 t ts back p idx a h hl)
    as (d2 & c2 & r1 & s1 & hi1 & l4 & E4 & Hs1 & Hp1 & Hk1 & Hc2 & Hsb2); try done.
  { by apply Ikpsk2.established_sym. }
  { exact (Hidle LowerSend). }
  rewrite Hin in Hsb2. exists d2, c2, (sub l2 36 inner), r1, s1, hi1. eexists. cbv zeta. split; [|do 5 (split; [done|]); split].
  2: { apply zlen_sub; rewrite ?Hz2; by vm_compute. }
  2: { apply response_layout_window in Hl2; [exact Hl2|by vm_compute|by vm_compute]. }
  unfold far_hello_in. rewrite E. unfold helloRecv_turn. unfold mbind at 1, M_bind at 1.
  rewrite (take_step HelloRecv pkt) by apply holding_push. rewrite pop_push by exact (Hidle HelloRecv).
  change (LowerSrc pkt) with p. rewrite (he_peer _ _ _ _ _ _ Hhe). unfold doUpperHelloRecv. cbv zeta.
  assert (H36 : sub l 36 4 = le_bytes 4 HelloMsgType) by exact (hl_type _ _ _ _ _ _ _ _ Hlay').
  erewrite mem_step by (apply (s_get_full _ _ l); [exact Hf|rewrite Hz; by vm_compute]).
  change UpperOffset with (36 + 0) at 1. rewrite <- (getz_sub l 36 4), H36 by (rewrite ?Hz; change TptMTU with 1452; lia).
  change (getz _ 0 =? HelloMsgType) with true. cbv iota. cbn [UpperPacket.pkt UpperPacket.NewUpperPacket].
  erewrite mem_step.
  2: { unfold HelloPacket.NewHelloPacket. cbv zeta. fold q.
    erewrite bind_ok by (eapply (put_type_same q); unfold q; cbn [Offset SessionPacket.pkt];
      [exact Hf|by vm_compute|rewrite Hz; by vm_compute|exact H36]). reflexivity. }
  erewrite sess_step by exact EH. cbv beta iota. cbn [SessionPacket.pkt].
  erewrite mem_step by exact ERev. erewrite bind_ok by reflexivity.
  unfold mbind, M_bind in E4. exact E4.
Qed.

(** *** The response *)

(** Whoever waits for the peer waits on an open channel of its own. *)
Definition waiting n (pid : PeerID) : Prop :=
  forall ws, waiters n !! pid = Some ws -> NoDup ws /\ forall c, c ∈ ws -> chans n !! c = Some None.

Lemma connected_upper n (pid : PeerID) :
  waiting n pid ->
  exists cs, connectedCallback pid false n = Ok (tt, set_waiters (delete pid (waiters n)) cs n) /\
    forall ws c, waiters n !! pid = Some ws -> c ∈ ws -> cs !! c = Some (Some None).
Proof.
  intros Hws. unfold connectedCallback. cbv zeta. erewrite bind_ok by reflexivity. erewrite bind_ok by reflexivity. unfold id.
  destruct (waiters n !! pid) as [ws|] eqn:Ew.
  - destruct (Hws ws Ew) as [Hnd Hopen]. destruct (give_all_spec None ws n Hnd Hopen) as (cs & E & Hin & _). exists cs.
    erewrite bind_ok by exact E. split; [by destruct n|]. intros ws' c [= <-]. apply Hin.
  - exists (chans n). split; [rewrite delete_id by done; by destruct n|done].
Qed.

(** The dialling node's turns on the response. *)
Definition far_response_in (d : list Z) (ip : NetIP.Addr) (port : Z) : M (Node UH LH) (option error) :=
  _ ← recv_datagram d ip port; _ ← lowerRecv_turn; _ ← lowerMux_turn run_lower; _ ← upperRecv_turn; helloRecv_turn.

Lemma far_response_in_spec n d ip port p prev idx a hl h c done_ x body r s hi sender i eph empty ct pt :
  resting n -> hop_end n p prev idx a h -> answers n -> Ikpsk2.established hl h ->
  sealed_by hl idx d (transit c (zlen done_) (done_ ++ [x]) body) -> data_codec c -> zlen (done_ ++ [x]) <= 13 -> zlen body = inner ->
  0 <= sender < 2 ^ 32 -> 0 <= i < 2 ^ 32 -> response_layout body 0 inner sender i eph empty ct ->
  store (sm (sess n)) !! sender = Some (Some r) -> objs (sess n) !! r = Some s -> initiator s = true -> stage s = 0x01 ->
  Ikpsk2.ConsumeResponse (Ikpsk2.mkResponseHeader (mkPublicKey eph) empty) ct (handshake s) = (hi, inl pt) ->
  zlen pt + 16 = zlen ct -> NewPeerID (Ikpsk2.RemotePublicKey hi) = remotePeerID s -> waiting n (remotePeerID s) ->
  exists l' cs,
    far_response_in d ip port n = Ok (None, set_waiters (delete (remotePeerID s) (waiters n)) cs
      (over l_sess (moved (sess n) sender i r (set_stage 0x03 (set_handshake hi s)) (mem (sess n) ++ [l'])) n)) /\
    forall ws ch, waiters n !! remotePeerID s = Some ws -> ch ∈ ws -> cs !! ch = Some (Some None).
Proof.
  intros Hrest Hhe Hans He Hsb Hc H13 Hzb Hsnd Hi Hlay Hst Hs Hin Hsg EC Hpt Hpid Hw.
  pose proof Hrest as [Hidle _]. pose proof (rl_type _ _ _ _ _ _ _ _ Hlay) as Hty. set (h0 := mem (sess n)).
  set (pkt := set_LowerSrc p (in_pkt (mem (sess n)) d ip port)).
  destruct (handshake_up (fun _ => helloRecv_turn) n d ip port p prev idx a hl h c done_ x body)
    as (l & E & Hlab & Hz & Hbl & HL); try done; [by right|]. fold pkt h0 in E, HL.
  assert (Hlay' : response_layout l UpperOffset (TptMTU - UpperPadding) sender i eph empty ct).
  { apply response_layout_window; [by vm_compute|by vm_compute|]. change (TptMTU - UpperPadding - UpperOffset) with inner.
    change UpperOffset with 36. by rewrite Hbl. }
  set (q := mkSPacket UpperOffset UpperPadding pkt).
  assert (Hf : full (h0 ++ [l]) (Buf pkt) l) by (by apply full_snoc).
  destruct (HandleResponse_spec q zeroMultiaddr (sm (sess n)) (objs (sess n)) (rand (sess n)) (now (sess n)) (order (sess n))
    (ranges (sess n)) (h0 ++ [l]) l r s hi sender i eph empty ct pt) as (l' & EH);
    cbn [Offset Padding SessionPacket.pkt q]; rewrite ?HL, ?Hz;
    [exact Hf|by vm_compute|by vm_compute|by vm_compute|by vm_compute|exact Hsnd|exact Hi|exact Hlay'|exact Hst|exact Hs|done|done
    |exact EC|done|done|].
  cbn [Offset Padding SessionPacket.pkt q] in EH. change (s_arr (Buf pkt)) with (length h0) in EH. rewrite upd_snoc in EH.
  set (n2 := over l_sess (moved (sess n) sender i r (set_stage 0x03 (set_handshake hi s)) (h0 ++ [l'])) n).
  destruct (connected_upper n2 (remotePeerID s) Hw) as (cs & ECb & Hcs). exists l', cs. split; [|exact Hcs].
  unfold far_response_in. rewrite E. unfold helloRecv_turn.
  rewrite (take_step HelloRecv pkt) by apply holding_push. rewrite pop_push by exact (Hidle HelloRecv).
  change (LowerSrc pkt) with p. rewrite (he_peer _ _ _ _ _ _ Hhe). unfold doUpperHelloRecv. cbv zeta.
  assert (H36 : sub l 36 4 = le_bytes 4 ResponseMsgType) by exact (rl_type _ _ _ _ _ _ _ _ Hlay').
  erewrite mem_step by (apply (s_get_full _ _ l); [exact Hf|rewrite Hz; by vm_compute]).
  replace (getz l UpperOffset) with (getz (sub l 36 4) 0) by (rewrite getz_sub; [done|lia|lia|rewrite Hz; by vm_compute]). rewrite H36.
  change (getz _ 0 =? HelloMsgType) with false. change (getz _ 0 =? ResponseMsgType) with true. cbv iota.
  cbn [UpperPacket.pkt UpperPacket.NewUpperPacket].
  erewrite mem_step.
  2: { unfold ResponsePacket.NewResponsePacket. cbv zeta. fold q.
    erewrite bind_ok by (eapply (put_type_same q); unfold q; cbn [Offset SessionPacket.pkt];
      [exact Hf|by vm_compute|rewrite Hz; by vm_compute|exact H36]). reflexivity. }
  erewrite sess_step by exact EH. cbv beta iota. erewrite bind_ok by exact ECb. reflexivity.
Qed.

(** *** The first message *)

Context (run_upper : UH -> UpperPacket.UpperPacket -> M (Node UH LH) (option error)).

(** The first message of an upper session completes it, and whoever waits for the
    peer is told. *)
Lemma final_first n d ip port p prev idx a hl h c done_ x body ui ru su upt m pl codec cb (pa := remotePeerID su) :
  resting n -> hop_end n p prev idx a h -> answers n -> Ikpsk2.established hl h ->
  sealed_by hl idx d (transit c (zlen done_) (done_ ++ [x]) body) -> data_codec c -> zlen (done_ ++ [x]) <= 13 ->
  carried su ui body upt -> store (sm (sess n)) !! ui = Some (Some ru) -> objs (sess n) !! ru = Some su -> 0 <= ui < 2 ^ 32 ->
  stage su <> 0x03 -> waiting n pa ->
  zlen upt = 4 + zlen pl -> varint_From (sub upt 0 4) = Some (codec, m) -> sub upt 4 (zlen pl) = pl -> zlen pl <= UpperMTU ->
  upperHandlers n !! codec = Some cb ->
  exists n' pkt, final_run run_upper run_lower d ip port n = run_upper cb (UpperPacket.NewUpperPacket pkt) n' /\ UpperSrc pkt = pa /\
    (exists sl, UpperPacket.Payload (UpperPacket.NewUpperPacket pkt) (mem (sess n')) = Ok (sl, mem (sess n')) /\
       contents (mem (sess n')) sl = pl) /\
    (table (routing n) !! pa = None ->
      exists rt, GetRoute pa (routing n') = inl rt /\ bytes_of (mem (sess n')) rt = prev :: reverse done_) /\
    sm (sess n') = sm (sess n) /\ objs (sess n') = <[ru := set_stage 0x03 su]> (objs (sess n)) /\ waiters n' !! pa = None.
Proof.
  intros [Hidle _] [[(r & s & Hss & Hst & _ & Hks) Hidx _] Hne [_ Hby] Hpb] (q & Hself) He Hsb Hc H13 Hcu O1 O2 O5 Hs3 Hw Hzu Hv Hpl Hp Hcb.
  pose proof (Hsb s ltac:(by rewrite <- Hks)) as Hca. pose proof (ca_length _ _ _ _ Hca) as Hzd.
  pose proof (ca_length _ _ _ _ Hcu) as Hzb. pose proof (zlen_nonneg pl). pose proof (zlen_nonneg done_). change UpperMTU with 1364 in Hp.
  pose proof H13 as H13'. rewrite zlen_app, zlen_1 in H13'.
  rewrite zlen_transit in Hzd by (done || (unfold label_len; rewrite zlen_app, zlen_1; lia)).
  destruct (arrive_spec run_lower (fun _ => upperRecv_turn ≫= fun _ => upperMux_turn run_upper) n d ip port p prev s idx r q c done_ x body)
    as (l & E1 & Hlab & Hz & Hbl & HL); try done; [destruct Hss as [? ? ? ? ?]; by split|change TptMTU with 1452; lia|].
  unfold final_run. rewrite E1. clear E1. set (pkt := set_LowerSrc p _) in *. set (n1 := push UpperRecv pkt _).
  assert (Hf1 : full (mem (sess n1)) (Buf pkt) l) by (by apply full_snoc). pose proof Hz as Hz'. change TptMTU with 1452 in Hz.
  destruct (upperRecv_opens (fun _ => upperMux_turn run_upper) n1 pkt l ui ru su (zlen done_) (done_ ++ [prev]) body upt)
    as (l2 & E2 & Hf2 & Hz2 & Hb2 & Hpt & Hpre & Hlab2); try done; try lia.
  rewrite E2. clear E2. rewrite (proj2 (Z.eqb_neq _ _) Hs3). cbn [negb]. set (n2 := over l_sess _ _). fold pa.
  destruct (connected_upper n2 pa Hw) as (cs & ECb & _).
  destruct (upper_done_spec (fun _ => upperMux_turn run_upper) (set_waiters (delete pa (waiters n2)) cs n2) pa pkt l2 (zlen done_)
    (done_ ++ [prev]) Hf2 Hlab2 (Hidle UpperMux)) as (h' & rg & ED & Hf3 & Hrt). rewrite reverse_snoc in Hrt.
  set (n3 := set_routing rg _) in ED.
  assert (E3 : forall k : option error -> M (Node UH LH) (option error), (e ← (_ ← connectedCallback pa false; upper_done pa pkt); k e) n2 =
    (upper_done pa pkt ≫= k) (set_waiters (delete pa (waiters n2)) cs n2)).
  { intros k. unfold mbind, M_bind. by rewrite ECb. }
  rewrite E3, ED.
  assert (Hat : forall o k : Z, 0 <= o -> 0 <= k -> o + k <= 4 + zlen pl -> sub l2 (52 + o) k = sub upt o k).
  { intros o k ? ? ?. rewrite <- Hpt, Hzu. by rewrite sub_sub by lia. }
  erewrite upperMux_runs; [|apply holding_push|exact Hf3|lia|change 52 with (52 + 0); rewrite Hat by lia; exact Hv|exact Hcb].
  destruct (arrived_reads pkt h' l2 (done_ ++ [prev]) (zlen done_) pl) as [D1 _];
    [done|done|lia|lia|change UpperMTU with 1364; lia|by rewrite (Hat 4) by lia|].
  eexists _, (set_UpperSrc pa pkt). do 2 (split; [reflexivity|]). split; [exact D1|]. split; [exact Hrt|]. do 2 (split; [done|]).
  apply lookup_delete_eq.
Qed.
End far_incoming.

(** ** Over any row of nodes *)

Section distant.
Context `{CryptoLaws, MaddrLib, VarintLaws, GoRuntime} {UH LH : Type}.
Context (run_upper : UH -> UpperPacket.UpperPacket -> M (Node UH LH) (option error)).
Context (run_lower : LH -> LowerPacket.LowerPacket -> M (Node UH LH) (option error)).

(** The nodes in between, for a datagram in the other direction: it comes to each
    of them from another address. *)
Definition turn_back (from : PeerID -> NetIP.Addr * Z) (rs : list (relay (UH := UH) (LH := LH))) : list relay :=
  map (fun r => mkRelay (r_node r) (r_pid r) (fst (from (r_pid r))) (snd (from (r_pid r)))) (reverse rs).

Lemma row_addresses f p idx h rs q idx' h' hops back :
  (forall r, r_node (f r) = r_node r /\ r_pid (f r) = r_pid r) ->
  row (UH := UH) (LH := LH) p idx h rs q idx' h' hops back -> row p idx h (map f rs) q idx' h' hops back.
Proof.
  intros Hf. induction 1 as [|p idx h r rs prev a1 h1 slot idx2 a2 h2 q idx' h' hops back E1 R1 P1 Q1 Hrow IH]; [by apply row_nil|].
  destruct (Hf r) as [En Ep]. cbn. eapply row_cons; rewrite ?En, ?Ep; [exact E1|done|exact P1| |exact IH].
  destruct rs as [|r1 rs]; [exact Q1|]. cbn. by rewrite (proj2 (Hf r1)).
Qed.

Lemma row_turn_back from p idx h rs q idx' h' hops back :
  row p idx h rs q idx' h' hops back -> row q idx' h' (turn_back from rs) p idx h (reverse back) (reverse hops).
Proof. intros Hrow%row_reverse. by apply row_addresses. Qed.

(** One of the two ends: its key, its neighbour on the way with the session to
    it, and nobody it has to do with yet at the other end. *)
Record far_end (k : PrivateKey) (n : Node UH LH) (t : Transport) (ts : list Transport) (p : PeerID) (i idx : Z) (a : Multiaddr)
    (h : Ikpsk2.Handshake) (peer : PeerID) : Prop := {
  fe_side : side_ok k (sess n);
  fe_resting : resting n;
  fe_emit : can_emit n t ts;
  fe_answers : answers n;
  fe_neighbour : hop_end n p i idx a h;
  fe_waiting : waiting n peer;
  fe_none : forall j r, store (sm (sess n)) !! j = Some (Some r) -> remotePeerID <$> objs (sess n) !! r <> Some peer;
  fe_distinct : peer <> p /\ PeerID.Empty peer = false
}.

Context (ka kd : PrivateKey) (na nd : Node UH LH) (ta td : Transport) (tsa tsd : list Transport).
Context (rs : list (relay (UH := UH) (LH := LH))) (route : Route) (x prev : Z) (rest back : list Z).
Context (idx1 idxl : Z) (a1 al : Multiaddr) (h1 hd : Ikpsk2.Handshake).
Context (hs : Ikpsk2.Handshake) (e1 : entropy) (idx : Z) (e2 : entropy).
Context (hr0 : Ikpsk2.Handshake) (e3 : entropy) (ridx : Z) (e4 : entropy).
Let pida := NewPeerID (Key.PublicKey_ ka).
Let pidd := NewPeerID (Key.PublicKey_ kd).
Let p1 := next_id rs pidd.
Let pl_ := last_id pida rs.
Context (Fa : far_end ka na ta tsa p1 x idx1 a1 h1 pidd) (Fd : far_end kd nd td tsd pl_ prev idxl al hd pida).
Context (Row : row pida idx1 h1 rs pidd idxl hd rest back).
Context (Hroute : GetRoute pidd (routing na) = inl route /\ route_ok (mem (sess na)) route /\
  (s_arr (Route.hops route) < length (mem (sess na)))%nat /\ bytes_of (mem (sess na)) route = x :: rest).
Context (Hhops : is_bytes (x :: rest) /\ 1 < zlen (x :: rest) <= 13).
Context (EI : Ikpsk2.NewHandshakeInitiator ka (Key.PublicKey_ kd) (rand (sess na)) = Ok (inl hs, e1)).
Context (EIns : Manager.insert_loop (S (length e1)) (store (sm (sess na))) e1 = Ok (idx, e2)).
Context (ER : Ikpsk2.NewHandshakeResponder kd (rand (sess nd)) = Ok (inl hr0, e3)).
Context (ERins : Manager.insert_loop (S (length e3)) (store (sm (sess nd))) e3 = Ok (ridx, e4)).
Context (Hz : Ikpsk2.isZero (SharedSecret (Ikpsk2.localEphemeral hs) (Key.PublicKey_ kd)) = false).
Context (Hridx : ridx <> idx1).

(** The dialling node when its hello is on its way. *)
Definition dialled (W : gmap PeerID (list nat)) C d hi r1 s1 hi1 h : Node UH LH :=
  over l_transports (has_sent ta d a1 :: tsa)
    (over l_sess (sealed_world (grown (sess na) idx e2 (dialling kd zeroMultiaddr hs hi) []) r1 s1 hi1 h) (set_waiters W C na)).

(** The answering node when its response is. *)
Definition replied d hr' r1 s1 hi1 h : Node UH LH :=
  over l_transports (has_sent td d al :: tsd)
    (over l_sess (sealed_world (grown (sess nd) ridx e4 (answered zeroMultiaddr hr') []) r1 s1 hi1 h) nd).

Lemma rest_back : zlen back = zlen rest.
Proof. destruct (row_length _ _ _ _ _ _ _ _ _ Row) as [E1 E2]. unfold zlen. lia. Qed.

Lemma far_indexes : 0 <= idx < 2 ^ 32 /\ 0 <= ridx < 2 ^ 32.
Proof. by eapply (indexes_ok ka kd); [apply Fa|apply Fd|..]. Qed.

(** *** Hello and response *)

Lemma unqueue_hello W C p h (T : list Transport) w (n : Node UH LH) :
  idle HelloSend n ->
  over l_transports T (over l_sess w (pop HelloSend (set_waiters W C (push HelloSend p (over l_mem h n))))) =
  over l_transports T (over l_sess w (set_waiters W C n)).
Proof. intros [Q _]. destruct n as [? ? ? ? ? ? ? ? ? ? [] ? ? ? ? ? ? ?]. cbn in *. by subst. Qed.

Lemma far_exchange W C (from : PeerID -> NetIP.Addr * Z) ip port :
  exists d hi r1 s1 hi1 l rs1 d' d2 hr' q1 t1 hj1 h2 rs2 d2' hl2 c2 body2 hi2 rhdr rct (na1 := dialled W C d hi r1 s1 hi1 (mem (sess na) ++ [l])),
    far_hello_out (set_waiters W C (push HelloSend (far_pkt (mem (sess na)) pidd) (over l_mem (mem (sess na) ++ [zeros TptMTU]) na))) = Ok (tt, na1) /\
    (objs (sess na) ++ [dialling kd zeroMultiaddr hs hi]) !! r1 = Some s1 /\ remotePeerID s1 = p1 /\ Ikpsk2.same_keys (handshake s1) hi1 /\
    pass_on run_lower rs d = Some (rs1, d') /\
    far_hello_in run_lower d' ip port nd = Ok (tt, replied d2 hr' q1 t1 hj1 h2) /\
    (objs (sess nd) ++ [answered zeroMultiaddr hr']) !! q1 = Some t1 /\ remotePeerID t1 = pl_ /\ Ikpsk2.same_keys (handshake t1) hj1 /\
    pass_on run_lower (turn_back from rs1) d2 = Some (rs2, d2') /\ row pidd idxl hd rs2 pida idx1 h1 (reverse back) (reverse rest) /\
    Ikpsk2.established hl2 h1 /\ data_codec c2 /\ zlen body2 = inner /\
    sealed_by hl2 idx1 d2' (transit c2 (zlen (reverse rest)) (reverse rest ++ [last_hop prev (reverse back)]) body2) /\
    response_layout body2 0 inner idx ridx (pub_bytes (Ikpsk2.rh_Ephemeral rhdr)) (Ikpsk2.rh_Empty rhdr) rct /\
    Ikpsk2.ConsumeResponse rhdr rct hi = (hi2, inl (zeros (inner - 76))) /\ zlen rct = inner - 60 /\
    Ikpsk2.established hi2 hr' /\ Ikpsk2.RemotePublicKey hi2 = Key.PublicKey_ kd /\ Ikpsk2.RemotePublicKey hr' = Key.PublicKey_ ka.
Proof.
  pose proof Fa as [Ha [Hqa _] Hema _ Hna _ _ [Hda Hpd]]. pose proof Fd as [Hd Hrd Hemd Hansd Hnd _ _ [Hdd Hpa]].
  destruct far_indexes as [Hidx Hri]. destruct Ha as [[Eka Hka] Hea Hnow]. destruct Hd as [[Ekd Hkd] Hed _].
  destruct Hroute as (Hg & Hro & Har & Hby). destruct Hhops as [Hbh Hh].
  destruct (Ikpsk2.NewHandshakeInitiator_start _ _ _ _ _ Hea EI) as (Kei & Ehs & Hz' & _).
  destruct (Ikpsk2.NewHandshakeResponder_start _ _ _ _ Hed ER) as (Ker & Ehr & _).
  pose proof EI as EI'. pose proof ER as ER'. rewrite <- Eka in EI'. rewrite <- Ekd in ER'.
  set (h := mem (sess na)). set (n0 := set_waiters W C _). destruct (row_peer _ _ _ _ _ _ _ _ _ Row) as (h1' & Hest1).
  destruct (far_hello_spec n0 h ta tsa kd hs e1 idx e2 route (x :: rest) p1 idx1 a1 h1 h1')
    as (l & d & c & body & hi & hdr & ct & pt & r1 & s1 & hi1 & E1 & Hs1 & Hp1 & Hk1 & Hc & Hsb & Hzb & Hhl & EM & Hptb & Hpt); try done.
  { split; [split; [done|by change (privkey_ok (privkey (sm (sess na)))); rewrite Eka]|exact Hea|exact Hnow]. }
  { lia. }
  { by eapply hop_end_frame; [..|exact Hna]. }
  { apply (Hqa LowerSend). }
  destruct (Ikpsk2.hello_agrees ka (Ikpsk2.localEphemeral hs) kd (Ikpsk2.localEphemeral hr0) (now (sess na)) pt)
    as (hi' & hr & hdr' & ct' & EM' & EC & Hhalf & Hls & Hlr & _); [done|done|done|done|apply Hnow|apply Hnow|done|done|done|].
  rewrite <- Ehs in EM'. change (now (sess n0)) with (now (sess na)) in EM.
  rewrite EM in EM'. injection EM' as <- <- <-. rewrite <- Ehr in EC.
  destruct (Ikpsk2.response_agrees hi hr (zeros (inner - 76)) Hhalf (is_bytes_zeros _))
    as (hr' & hi2 & rhdr & rct & EMR & ECR & Hest & Hrs & Hrs2 & Hn1 & Hn2 & Hrk & Hre & Hrct & Hrctb).
  rewrite zlen_zeros in Hrct by (by vm_compute). destruct (Ikpsk2.half_static _ _ Hhalf) as [S1 S2].
  assert (Hkeys : Ikpsk2.RemotePublicKey hi2 = Key.PublicKey_ kd /\ Ikpsk2.RemotePublicKey hr' = Key.PublicKey_ ka)
    by (unfold Ikpsk2.RemotePublicKey; by rewrite Hrs, Hrs2, S1, S2, Hls, Hlr).
  assert (Hb52 : 52 + zlen body <= TptMTU) by (rewrite Hzb; by vm_compute).
  destruct (pass_spec run_lower c body pida idx1 h1 rs pidd idxl hd rest back Hc Hb52 Row [] x d)
    as (rs1 & d' & hl & P1 & Row1 & _ & Hel & Hsb1); [cbn [app]; lia|exact Hsb|].
  cbn [app] in Hsb1. change (zlen []) with 0 in Hsb1. rewrite Z.add_0_l, <- rest_back in Hsb1.
  rewrite zlen_cons, <- rest_back in Hh. pose proof rest_back as Hrb. pose proof (zlen_nonneg back).
  destruct (far_hello_in_spec run_lower nd d' ip port td tsd pl_ prev idxl al hl hd c back (last_hop x rest) body hr0 e3 hr hr' idx
    (pub_bytes (Ikpsk2.hh_Ephemeral hdr)) (Ikpsk2.hh_Static hdr) (Ikpsk2.hh_Timestamp hdr) ct pt rhdr rct ridx e4)
    as (d2 & c2 & body2 & q1 & t1 & hj1 & h2 & E2 & Ht1 & Hpt1 & Hkt1 & Hc2 & Hsb2 & Hzb2 & Hrl); try done.
  { rewrite zlen_app, zlen_1. lia. }
  { by destruct hdr as [[]]. }
  { rewrite (proj2 Hkeys). exact Hdd. }
  destruct (pass_spec run_lower c2 body2 pidd idxl hd (turn_back from rs1) pida idx1 h1 (reverse back) (reverse rest) Hc2
    ltac:(rewrite Hzb2; by vm_compute) (row_turn_back _ _ _ _ _ _ _ _ _ _ Row1) [] prev d2)
    as (rs2 & d2' & hl2 & P2 & Row2 & _ & Hel2 & Hsb3); [cbn [app]; rewrite zlen_cons, zlen_reverse; lia|exact Hsb2|].
  cbn [app] in Hsb3. change (zlen []) with 0 in Hsb3. rewrite Z.add_0_l, zlen_reverse, Hrb, <- (zlen_reverse rest) in Hsb3.
  exists d, hi, r1, s1, hi1, l, rs1, d', d2, hr', q1, t1, hj1, h2, rs2, d2', hl2, c2, body2, hi2, rhdr, rct. cbv zeta.
  split; [|repeat (split; [done|]); done].
  rewrite E1. do 2 f_equal. unfold n0, dialled. rewrite unqueue_hello by exact (Hqa HelloSend). done.
Qed.

(** *** The two ends afterwards *)

Lemma sealed_other w (r1 : nat) (s1 : Session) hi1 h e i (s0 : Session) p :
  (objs w ++ [s0]) !! r1 = Some s1 -> remotePeerID s1 = p -> remotePeerID s0 <> p ->
  objs (sealed_world (grown w i e s0 []) r1 s1 hi1 h) !! length (objs w) = Some s0.
Proof.
  intros Hr1 Hp Hne. cbn [objs sealed_world grown]. rewrite list_lookup_insert_ne; [apply lookup_snoc|].
  intros ->. rewrite lookup_snoc in Hr1. congruence.
Qed.

(** A neighbour of before is one still when a session with somebody else has been
    added and the neighbour been sent something. *)
Lemma grown_sealed_end (n : Node UH LH) t ts d p i idx0 a h j e s0 r1 s1 hi1 hp (f : Node UH LH -> Node UH LH) :
  hop_end n p i idx0 a h -> store (sm (sess n)) !! j = None -> remotePeerID s0 <> p ->
  (objs (sess n) ++ [s0]) !! r1 = Some s1 -> Ikpsk2.same_keys (handshake s1) hi1 -> fwd (f n) = fwd n ->
  hop_end (over l_transports (has_sent t d a :: ts) (over l_sess (sealed_world (grown (sess n) j e s0 []) r1 s1 hi1 hp) (f n))) p i idx0 a h.
Proof.
  intros [[(r & s & Hss & Hrest) Hi Ha] Hp Hs Hb] Hj Hne Hr1 Hk Ef. split; try done; [|cbn; by rewrite Ef].
  cbn [sess over l_transports l_sess]. apply link_end_seal; [|exact Hr1|exact Hk]. split; try done. exists r, s. split; [|exact Hrest].
  by apply sole_session_grown.
Qed.

Lemma free_indexes : store (sm (sess na)) !! idx = None /\ store (sm (sess nd)) !! ridx = None.
Proof.
  pose proof (fe_side _ _ _ _ _ _ _ _ _ _ Fa) as [_ Hea _]. pose proof (fe_side _ _ _ _ _ _ _ _ _ _ Fd) as [_ Hed _].
  destruct (Ikpsk2.NewHandshakeInitiator_start _ _ _ _ _ Hea EI) as (_ & _ & _ & He1).
  destruct (Ikpsk2.NewHandshakeResponder_start _ _ _ _ Hed ER) as (_ & _ & He3).
  exact (conj (proj1 (insert_loop_ok _ _ _ _ _ He1 EIns)) (proj1 (insert_loop_ok _ _ _ _ _ He3 ERins))).
Qed.

(** The dialling node's session when it is complete, and the node with it. *)
Definition far_session hi hi2 : Session := set_stage 0x03 (set_handshake hi2 (dialling kd zeroMultiaddr hs hi)).
Definition far_connected W C d hi r1 s1 hi1 l hi2 l3 cs : Node UH LH :=
  set_waiters (delete pidd W) cs
    (over l_sess (moved (sess (dialled W C d hi r1 s1 hi1 (mem (sess na) ++ [l]))) idx ridx (length (objs (sess na))) (far_session hi hi2)
       ((mem (sess na) ++ [l]) ++ [l3])) (dialled W C d hi r1 s1 hi1 (mem (sess na) ++ [l]))).

Section dialler.
Context (W : gmap PeerID (list nat)) (C : list (option (option error))) (d l : list Z) (hi hi1 : Ikpsk2.Handshake) (r1 : nat) (s1 : Session).
Context (Hr1 : (objs (sess na) ++ [dialling kd zeroMultiaddr hs hi]) !! r1 = Some s1).
Context (Hs1 : remotePeerID s1 = p1) (Hk1 : Ikpsk2.same_keys (handshake s1) hi1).
Let s0 := dialling kd zeroMultiaddr hs hi.
Let na1 := dialled W C d hi r1 s1 hi1 (mem (sess na) ++ [l]).

Lemma dialled_resting : resting na1.
Proof.
  pose proof Fa as [_ [Hq _] (Ht & Hch & Hcap) _ _ _ _ _]. split; [intros q; specialize (Hq q); by destruct q|].
  exists (has_sent ta d a1), tsa. by split.
Qed.

Lemma dialled_peer : remotePeerID s0 = pidd.
Proof. apply dialling_fields. Qed.

Lemma dialled_end : hop_end na1 p1 x idx1 a1 h1.
Proof.
  pose proof Fa as [_ _ _ _ Hne _ _ [Hd _]]. apply (grown_sealed_end na _ _ _ _ _ _ _ _ _ _ _ _ _ _ _ (set_waiters W C)); try done.
  apply free_indexes.
Qed.

Lemma dialled_sole : exists s, sole_session (sess na1) pidd idx (length (objs (sess na))) s /\ s = s0.
Proof.
  pose proof Fa as [_ _ _ _ [[(r & s & Hss & _) _ _] _ _ _] _ Hnone [Hd _]]. destruct Hss as [_ _ Ho Hrefs _].
  pose proof (grown_sole (sess na) idx e2 s0 [] Ho Hrefs) as Hg. rewrite dialled_peer in Hg. specialize (Hg Hnone).
  destruct (sole_session_seal _ _ _ _ _ r1 s1 hi1 (mem (sess na) ++ [l]) Hg Hr1 Hk1) as (s' & Hs' & _). exists s'. split; [exact Hs'|].
  pose proof (proj2 (ss_stored _ _ _ _ _ Hs')) as E. rewrite (sealed_other _ _ _ _ _ _ _ _ p1 Hr1 Hs1) in E by exact Hd.
  by injection E as <-.
Qed.

Context (hi2 : Ikpsk2.Handshake) (l3 : list Z) (cs : list (option (option error))).
Let na2 := far_connected W C d hi r1 s1 hi1 l hi2 l3 cs.

Lemma far_session_fields :
  remotePeerID (far_session hi hi2) = pidd /\ handshake (far_session hi hi2) = hi2 /\ stage (far_session hi hi2) = 0x03.
Proof. by split. Qed.

Lemma far_connected_sole : sole_session (sess na2) pidd ridx (length (objs (sess na))) (far_session hi hi2).
Proof. destruct dialled_sole as (s & Hs & _). eapply moved_sole; [exact Hs|]. apply far_session_fields. Qed.

Lemma far_connected_end : hop_end na2 p1 x idx1 a1 h1.
Proof.
  pose proof Fa as [_ _ _ _ _ _ _ [Hd _]]. destruct dialled_sole as (s & Hs & ->).
  destruct dialled_end as [[(r & s & Hss & Hrest) Hi Ha] Hp Hsl Hb]. split; try done. split; try done. exists r, s. split; [|exact Hrest].
  eapply sole_session_moved; [exact Hss|apply Hs|apply Hs|exact Hd|by destruct far_session_fields as (-> & _)|].
  intros ->. by apply Hridx.
Qed.

(** From here on [Send] works. *)
Lemma far_connected_ready h1' (sd : Session) :
  Ikpsk2.established h1 h1' -> Ikpsk2.established hi2 (handshake sd) ->
  routed_ready na2 pidd route (x :: rest) ridx sd p1 idx1 (session_of h1') a1 (has_sent ta d a1) tsa.
Proof.
  intros He He2. pose proof Fa as [_ [Hq _] (Ht & Hch & Hcap) _ _ _ _ [Hd Hpd]]. destruct Hroute as (Hg & Hro & Har & Hby).
  destruct Hhops as [Hbh Hh]. pose proof far_connected_end as [[(r & s & Hss & _ & Ha & Hks) _ Hae] Hp [Hsl _] _].
  split.
  - split; [exact Hg|]. split; [by apply slice_ok_app, slice_ok_app|]. cbn. rewrite !length_app. cbn. lia.
  - split; [|split; [done|lia]]. cbn. unfold bytes_of. rewrite !contents_app by (try apply slice_ok_app; exact Hro). exact Hby.
  - by split.
  - by split.
  - exists (length (objs (sess na))), (far_session hi hi2). split; [apply sole_picked_now, far_connected_sole|exact He2].
  - exists r, s. split; [by apply sole_picked|]. split; [done|]. split; [done|]. cbn. by rewrite <- Hks.
  - exact (conj (Hq UpperSend) (Hq LowerSend)).
  - by split.
Qed.
End dialler.

Section replier.
Context (d : list Z) (hr' hj1 : Ikpsk2.Handshake) (q1 : nat) (t1 : Session) (h2 : heap).
Context (Hq1 : (objs (sess nd) ++ [answered zeroMultiaddr hr']) !! q1 = Some t1).
Context (Ht1 : remotePeerID t1 = pl_) (Hk1 : Ikpsk2.same_keys (handshake t1) hj1).
Context (Hkey : Ikpsk2.RemotePublicKey hr' = Key.PublicKey_ ka).
Let nd1 := replied d hr' q1 t1 hj1 h2.

Lemma replied_peer : remotePeerID (answered zeroMultiaddr hr') = pida.
Proof. change (NewPeerID (Ikpsk2.RemotePublicKey hr') = pida). by rewrite Hkey. Qed.

Lemma replied_ready :
  resting nd1 /\ hop_end nd1 pl_ prev idxl al hd /\ answers nd1 /\ waiting nd1 pida /\
  store (sm (sess nd1)) !! ridx = Some (Some (length (objs (sess nd)))) /\
  objs (sess nd1) !! length (objs (sess nd)) = Some (answered zeroMultiaddr hr').
Proof.
  pose proof Fd as [_ [Hq _] (Ht & Hch & Hcap) Hans Hne Hw _ [Hd _]]. pose proof replied_peer as Hp.
  split; [split; [intros q; specialize (Hq q); by destruct q|by exists (has_sent td d al), tsd]|].
  split; [apply (grown_sealed_end nd _ _ _ _ _ _ _ _ _ _ _ _ _ _ _ id); try done; [apply free_indexes|by rewrite Hp]|].
  split; [done|]. split; [done|]. split; [apply lookup_insert_eq|]. apply (sealed_other _ _ _ _ _ _ _ _ pl_ Hq1 Ht1). by rewrite Hp.
Qed.
End replier.

(** ** Properties *)

(** C2: connecting to a node that is not a neighbour, and the first message to
    it, over any row of nodes that are neighbours of each other. What is asked of
    the nodes: the caller has a route of 2 to 13 hops to the far node; neither
    end has a session with the other yet; each node has one session, and no second one, with each of its
    neighbours in the row; the nodes are at rest; the random sources yield the
    keys and free indexes, and the index the far node draws is not the one under
    which the caller keeps the session with its first neighbour, which [Swap]
    would overwrite.
    The caller calls [Connect] without an address. Its hello is
    labelled and passed on from node to node, each opening it with the lower
    session of one link and sealing it for the next; the far node answers it
    with a response under the reversed label, which is passed back the same way
    and completes the session; the call returns nil, and both ends hold a
    session under one index that names the other's id, with matching keys. The
    first [Send] then takes the same way, the far node's handler runs with
    exactly the payload and the caller's id, its session is complete, and if it
    knew no route to the caller, the way back is its route to it. The nodes in
    between keep their neighbours throughout. *)
Theorem distant_connect (from1 from2 : PeerID -> NetIP.Addr * Z) (ipa ipd : NetIP.Addr) (porta portd : Z) (codec : Z) (cb : UH) (pl : list Z) :
  upperHandlers nd !! codec = Some cb ->
  0 <= codec < 2 ^ 28 -> zlen pl <= UpperMTU -> is_bytes pl ->
  exists ch na1 hello rs1 hello' nd1 resp rs2 resp' na2 na3 na4 data rs3 data' nd2 pkt ra rd sa sd,
    (_ ← connect_put pidd zeroMultiaddr; ch ← join_waiters pidd; _ ← far_hello_out; mret ch) na = Ok (ch, na1) /\
    last_sent na1 = Some hello /\ pass_on run_lower rs hello = Some (rs1, hello') /\
    far_hello_in run_lower hello' ipd portd nd = Ok (tt, nd1) /\
    last_sent nd1 = Some resp /\ pass_on run_lower (turn_back from1 rs1) resp = Some (rs2, resp') /\
    far_response_in run_lower resp' ipa porta na1 = Ok (None, na2) /\ chan_take ch na2 = Ok (None, na3) /\
    joined (sess na3) (sess nd1) pida pidd ridx ra rd sa sd /\ stage sa = 0x03 /\
    send_run pidd codec pl na3 = Ok (None, na4) /\
    last_sent na4 = Some data /\ pass_on run_lower (turn_back from2 rs2) data = Some (rs3, data') /\
    row pida idx1 h1 rs3 pidd idxl hd rest back /\
    final_run run_upper run_lower data' ipd portd nd1 = run_upper cb (UpperPacket.NewUpperPacket pkt) nd2 /\
    UpperSrc pkt = pida /\
    (exists sl, UpperPacket.Payload (UpperPacket.NewUpperPacket pkt) (mem (sess nd2)) = Ok (sl, mem (sess nd2)) /\
       contents (mem (sess nd2)) sl = pl) /\
    (table (routing nd) !! pida = None ->
       exists rt, GetRoute pida (routing nd2) = inl rt /\ bytes_of (mem (sess nd2)) rt = prev :: reverse back) /\
    objs (sess nd2) !! rd = Some (set_stage 0x03 sd).
Proof.
  intros Hcb Hc Hp Hb. pose proof Fa as [_ [Hqa _] _ Hansa _ Hwa _ _]. destruct far_indexes as [Hidx Hri].
  set (W := <[pidd := default [] (waiters na !! pidd) ++ [length (chans na)]]> (waiters na)). set (C := chans na ++ [None]).
  destruct (far_exchange W C from1 ipd portd) as (d & hi & r1 & s1 & hi1 & l & rs1 & d' & d2 & hr' & q1 & t1 & hj1 & h2 & rs2 & d2' & hl2 & c2
    & body2 & hi2 & rhdr & rct & E1 & Hr1 & Hs1 & Hk1 & P1 & E2 & Hq1 & Ht1 & Hk2 & P2 & Row2 & Hel2 & Hc2 & Hzb2 & Hsb2 & Hrl & EC & Hrct
    & Hest & Hka & Hkd).
  set (na1 := dialled W C d hi r1 s1 hi1 (mem (sess na) ++ [l])) in E1.
  destruct (dialled_sole W C d l hi hi1 r1 s1 Hr1 Hs1 Hk1) as (s0 & [[Hst Hob] _ _ _ _] & ->).
  destruct (dialling_fields kd zeroMultiaddr hs hi) as (G1 & G2 & G3 & G4).
  destruct (far_response_in_spec run_lower na1 d2' ipa porta p1 x idx1 a1 hl2 h1 c2 (reverse rest) (last_hop prev (reverse back)) body2
    (length (objs (sess na))) (dialling kd zeroMultiaddr hs hi) hi2 idx ridx (pub_bytes (Ikpsk2.rh_Ephemeral rhdr)) (Ikpsk2.rh_Empty rhdr) rct
    (zeros (inner - 76))) as (l3 & cs & E3 & Hcs); try done.
  { apply dialled_resting. }
  { by apply dialled_end. }
  { destruct Hhops as [_ Hh]. rewrite zlen_cons in Hh. rewrite zlen_app, zlen_1, zlen_reverse. lia. }
  { by rewrite Hka, G4. }
  { exact (join_waiting_ok kd (waiters na) (chans na) Hwa). }
  assert (Hch : cs !! length (chans na) = Some (Some None))
    by (eapply Hcs; [apply lookup_insert_eq|apply elem_of_app; right; apply list_elem_of_here]).
  rewrite G4 in E3. set (na2 := far_connected W C d hi r1 s1 hi1 l hi2 l3 cs).
  set (na3 := far_connected W C d hi r1 s1 hi1 l hi2 l3 (<[length (chans na) := None]> cs)).
  destruct (row_peer _ _ _ _ _ _ _ _ _ Row) as (h1' & Hest1). set (sd := answered zeroMultiaddr hr').
  destruct (routed_send na3 pidd codec pl route (x :: rest) ridx sd p1 idx1 (session_of h1') a1 (has_sent ta d a1) tsa)
    as (na4 & data & c & body & upt & m & E4 & Hsent & Hdc & Hca & Hcu & Hzu & Hv & Hpl); [by apply far_connected_ready|done..|].
  pose proof (ca_length _ _ _ _ Hcu) as Hzb. change UpperMTU with 1364 in Hp.
  pose proof (row_turn_back from2 _ _ _ _ _ _ _ _ _ Row2) as Row2'. rewrite !reverse_involutive in Row2'.
  destruct (pass_spec run_lower c body pida idx1 h1 (turn_back from2 rs2) pidd idxl hd rest back Hdc
    ltac:(change TptMTU with 1452; lia) Row2' [] x data) as (rs3 & data' & hl & P3 & Row3 & _ & Hel & Hsb3);
    [apply Hhops|by apply (carried_sealed h1 (session_of h1'))|].
  cbn [app] in Hsb3. change (zlen []) with 0 in Hsb3. rewrite Z.add_0_l, <- rest_back in Hsb3.
  destruct (replied_ready d2 hr' hj1 q1 t1 h2 Hq1 Ht1 Hk2 Hkd) as (Rd & Ed & Ad & Wd & Std & Obd).
  destruct (final_first run_lower run_upper (replied d2 hr' q1 t1 hj1 h2) data' ipd portd pl_ prev idxl al hl hd c back (last_hop x rest) body
    ridx (length (objs (sess nd))) sd upt m pl codec cb) as (nd2 & pkt & E5 & Hsrc & Hpay & Hrt & Hm & Ho & _); try done.
  { destruct Hhops as [_ Hh]. rewrite zlen_cons, <- rest_back in Hh. rewrite zlen_app, zlen_1. lia. }
  { unfold sd. by rewrite replied_peer. }
  pose proof (replied_peer hr' Hkd) as Hpd. fold sd in Hpd. rewrite Hpd in Hsrc, Hrt.
  exists (length (chans na)), na1, d, rs1, d', (replied d2 hr' q1 t1 hj1 h2), d2, rs2, d2', na2, na3, na4, data, rs3, data', nd2, pkt,
    (length (objs (sess na))), (length (objs (sess nd))), (far_session hi hi2), sd.
  split.
  { erewrite bind_ok by (apply far_put_spec; apply (Hqa HelloSend)). erewrite bind_ok by reflexivity. by erewrite bind_ok by exact E1. }
  split; [unfold last_sent; cbn; by rewrite last_snoc|]. split; [exact P1|]. split; [exact E2|].
  split; [unfold last_sent; cbn; by rewrite last_snoc|]. split; [exact P2|]. split; [exact E3|].
  split; [unfold chan_take; cbn [chans na2 far_connected set_waiters]; by rewrite Hch|].
  pose proof (far_connected_sole W C d l hi hi1 r1 s1 Hr1 Hs1 Hk1 hi2 l3 (<[length (chans na) := None]> cs)) as [Hsa Hsp _ _ _].
  split; [by split|]. split; [done|]. split; [exact E4|].
  split; [unfold last_sent; destruct (transports na4); [done|]; cbn in Hsent |- *; injection Hsent as -> _; by rewrite last_snoc|].
  split; [exact P3|]. split; [exact Row3|]. split; [exact E5|]. split; [done|]. split; [exact Hpay|]. split; [intros Htab; by apply Hrt|].
  rewrite Ho. apply list_lookup_insert_eq. by eapply lookup_lt_Some.
Qed.
End distant.

(** ** Three nodes, two of them strangers *)

Definition ow_pa : PeerID := NewPeerID (Key.PublicKey_ Ikpsk2.hs_si).
Definition ow_pd : PeerID := NewPeerID (Key.PublicKey_ Ikpsk2.hs_sr).

(** A node with one neighbour, [rt_pr], in slot [i], and the session [s] with it
    under [idx]. *)
Definition ow_world (k : PrivateKey) (idx : Z) (s : Session) (e : entropy) (h : heap) : world :=
  mkWorld (mkManager k (Key.PublicKey_ k) (NewPeerID (Key.PublicKey_ k)) {[idx := Some 0%nat]}) [s] e Ikpsk2.hs_ts sw_order 0 h.
Definition ow_fwd (i : Z) (p : PeerID) (j : Z) (q : PeerID) (f : sendFunc) : Forwarder sendFunc :=
  mkForwarder (<[i := Entry p SendLower]> (<[j := Entry q f]> (slots NewForwarder))) (<[p := i]> {[q := j]}).
Definition ow_end (k : PrivateKey) (i idx : Z) (s : Session) (e : entropy) (h : heap) (r : Routing) : Node unit unit :=
  nd_node (ow_world k idx s e h) [rt_tpt] r (ow_fwd i rt_pr 0 (NewPeerID (Key.PublicKey_ k)) RecvUpper) ∅ [].

Definition ow_a : Node unit unit :=
  ow_end Ikpsk2.hs_si 4 1 (rt_a_end rt_pr) [Some [1; 2]; Some [5]] [[4; 5]] (mkRouting {[ow_pd := [rt_route]]} ∅).
Definition ow_d : Node unit unit := ow_end Ikpsk2.hs_sr 9 3 (rt_b_end rt_pr) [Some [1; 2]; None; Some [77; 1]] [] NewRouting.
Definition ow_r : Node unit unit :=
  nd_node (rt_world 1 3 (rt_b_end ow_pa) (rt_a_end ow_pd) []) [rt_tpt] NewRouting (ow_fwd 7 ow_pa 5 ow_pd SendLower) ∅ [].
Definition ow_row : list relay := [mkRelay ow_r rt_pr NetIP.AddrZero 5].

Lemma ow_resting w r f : resting (nd_node w [rt_tpt] r f ∅ []).
Proof. split; [intros q; by destruct q; split|by exists rt_tpt, []]. Qed.

Lemma ow_sole k idx s e h : sole_session (ow_world k idx s e h) (remotePeerID s) idx 0 s.
Proof.
  assert (Hst : forall j x, ({[idx := Some 0%nat]} : gmap Z (option nat)) !! j = Some x -> j = idx /\ x = Some 0%nat)
    by (intros j x; rewrite lookup_singleton_Some; by intros [-> ->]).
  split; cbn; [by rewrite lookup_singleton_eq|done|by intros ? ?|intros j x [-> ->]%Hst; eauto|by intros j r [-> [= ->]]%Hst].
Qed.

Lemma ow_slots i p j q f : i <> j -> p <> q ->
  slots (ow_fwd i p j q f) !! i = Some (Entry p SendLower) /\ bypeer (ow_fwd i p j q f) !! p = Some i /\
  slots (ow_fwd i p j q f) !! j = Some (Entry q f) /\ bypeer (ow_fwd i p j q f) !! q = Some j.
Proof.
  intros Hij Hpq. unfold ow_fwd. cbn [slots bypeer]. rewrite !lookup_insert_eq. split; [done|]. split; [done|].
  split; rewrite lookup_insert_ne by done; [apply lookup_insert_eq|apply lookup_singleton_eq].
Qed.

#[local] Existing Instance round8.

Lemma ow_far_end k i idx s e h r peer :
  privkey_ok k -> entropy_ok e -> remotePeerID s = rt_pr -> stage s = 0x03 -> remoteAddr s = ma0 -> 0 <= idx < 2 ^ 32 -> 0 < i < 256 ->
  rt_pr <> NewPeerID (Key.PublicKey_ k) -> peer <> rt_pr -> PeerID.Empty peer = false ->
  far_end k (ow_end k i idx s e h r) rt_tpt [] rt_pr i idx ma0 (handshake s) peer.
Proof.
  intros Hk He Hs Hst Ha Hi Hb Hne Hp Hpe. destruct (ow_slots i rt_pr 0 (NewPeerID (Key.PublicKey_ k)) RecvUpper) as (S1 & S2 & S3 & _); [lia|done|].
  unfold ow_end. set (f := ow_fwd _ _ _ _ _) in *. clearbody f. split.
  - split; [done|done|by apply (bool_decide_unpack _)].
  - apply ow_resting.
  - by split.
  - by eexists.
  - split; [split; [|done|done]|done|done|unfold is_byte; lia]. exists 0%nat, s. split; [rewrite <- Hs; apply ow_sole|done].
  - intros ws Hx. by change ((∅ : gmap PeerID (list nat)) !! peer = Some ws) in Hx; apply lookup_empty_Some in Hx.
  - intros j q Hx. change (({[idx := Some 0%nat]} : gmap Z (option nat)) !! j = Some (Some q)) in Hx.
    apply lookup_singleton_Some in Hx as [_ [= <-]]. cbn. congruence.
  - done.
Qed.

Lemma ow_relay : row ow_pa 1 (Ikpsk2.hs_done [5] [6] true) ow_row ow_pd 3 (Ikpsk2.hs_done [6] [5] false) [5] [7].
Proof.
  assert (Hne : ow_pa <> ow_pd) by (apply (bool_decide_unpack _); by vm_compute).
  destruct (ow_slots 7 ow_pa 5 ow_pd SendLower) as (S1 & S2 & S3 & S4); [done|done|].
  unfold ow_row, ow_r. set (f := ow_fwd _ _ _ _ _) in *. clearbody f. set (n := nd_node _ _ _ _ _ _).
  eapply (row_cons ow_pa 1 _ (mkRelay n rt_pr NetIP.AddrZero 5) [] 7 ma0 (Ikpsk2.hs_done [6] [5] false) 5 3 ma0 (Ikpsk2.hs_done [5] [6] true)).
  - apply Ikpsk2.hs_done_established.
  - apply ow_resting.
  - split; [split; [|done|done]|by vm_compute|done|done]. exists 0%nat, (rt_b_end ow_pa).
    split; [by apply (rt_sole 1 3 (rt_b_end ow_pa) (rt_a_end ow_pd))|done].
  - split; [split; [|done|done]|by vm_compute|done|done]. exists 1%nat, (rt_a_end ow_pd).
    split; [by apply (rt_sole 1 3 (rt_b_end ow_pa) (rt_a_end ow_pd))|done].
  - apply row_nil, Ikpsk2.hs_done_established.
Qed.

Lemma ow_route :
  GetRoute ow_pd (routing ow_a) = inl rt_route /\ route_ok (mem (sess ow_a)) rt_route /\
  (s_arr (Route.hops rt_route) < length (mem (sess ow_a)))%nat /\ bytes_of (mem (sess ow_a)) rt_route = [4; 5].
Proof.
  change (routing ow_a) with (mkRouting {[ow_pd := [rt_route]]} ∅). change (mem (sess ow_a)) with [[4; 5]].
  split; [unfold GetRoute; cbn [table]; by rewrite lookup_singleton_eq|]. split; [by repeat split|]. split; [cbn; lia|done].
Qed.

Lemma distant_connect_witness :
  exists ch na1 hello rs1 hello' nd1 resp rs2 resp' na2 na3 na4 data rs3 data' nd2 rt,
    (_ ← connect_put ow_pd zeroMultiaddr; ch ← join_waiters ow_pd; _ ← far_hello_out; mret ch) ow_a = Ok (ch, na1) /\
    last_sent na1 = Some hello /\ pass_on nd_lower ow_row hello = Some (rs1, hello') /\
    far_hello_in nd_lower hello' NetIP.AddrZero 6 ow_d = Ok (tt, nd1) /\
    last_sent nd1 = Some resp /\ pass_on nd_lower (turn_back (fun _ => (NetIP.AddrZero, 7)) rs1) resp = Some (rs2, resp') /\
    far_response_in nd_lower resp' NetIP.AddrZero 8 na1 = Ok (None, na2) /\ chan_take ch na2 = Ok (None, na3) /\
    send_run ow_pd 0x42001 [1; 2; 3] na3 = Ok (None, na4) /\
    last_sent na4 = Some data /\ pass_on nd_lower (turn_back (fun _ => (NetIP.AddrZero, 5)) rs2) data = Some (rs3, data') /\
    final_run nd_upper nd_lower data' NetIP.AddrZero 6 nd1 = Ok (None, nd2) /\
    GetRoute ow_pa (routing nd2) = inl rt /\ bytes_of (mem (sess nd2)) rt = [9; 7].
Proof.
  destruct (distant_connect nd_upper nd_lower Ikpsk2.hs_si Ikpsk2.hs_sr ow_a ow_d rt_tpt rt_tpt [] [] ow_row rt_route 4 9 [5] [7] 1 3 ma0 ma0
    (Ikpsk2.hs_done [5] [6] true) (Ikpsk2.hs_done [6] [5] false) Ikpsk2.hs_i [Some [5]] 5 [] Ikpsk2.hs_r [None; Some [77; 1]] 333 []
    ltac:(apply ow_far_end; first [done|by apply (bool_decide_unpack _)|by repeat constructor])
    ltac:(apply ow_far_end; first [done|by apply (bool_decide_unpack _)|by repeat constructor])
    ow_relay ow_route
    ltac:(split; [by apply (bool_decide_unpack _)|by vm_compute])
    ltac:(reflexivity) ltac:(vm_compute; reflexivity) ltac:(reflexivity) ltac:(vm_compute; reflexivity) ltac:(vm_compute; reflexivity)
    ltac:(discriminate) (fun _ => (NetIP.AddrZero, 7)) (fun _ => (NetIP.AddrZero, 5)) NetIP.AddrZero NetIP.AddrZero 8 6 0x42001 tt [1; 2; 3]
    ltac:(apply lookup_singleton_eq) ltac:(by vm_compute) ltac:(by vm_compute) ltac:(by apply (bool_decide_unpack _)))
    as (ch & na1 & hello & rs1 & hello' & nd1 & resp & rs2 & resp' & na2 & na3 & na4 & data & rs3 & data' & nd2 & pkt & ra & rd & sa & sd
        & E1 & E2 & E3 & E4 & E5 & E6 & E7 & E8 & _ & _ & E9 & E10 & E11 & _ & E12 & _ & _ & E13 & _).
  destruct (E13 ltac:(apply lookup_empty)) as (rt & E14 & E15).
  exists ch, na1, hello, rs1, hello', nd1, resp, rs2, resp', na2, na3, na4, data, rs3, data', nd2, rt.
  do 11 (split; [assumption|]). split; [rewrite E12; reflexivity|]. by split.
Defined.
