(* ===== verification/Ping.v ===== *)
(** * Ping: the packets behind traceroute (fcnet/ping.go)

    A ping is a lower packet with its own codec that carries a label and a
    copy of the IPv6 packet whose hop limit is too low for the whole route.
    [Ping] holds the packet and the ICMP checksum; the handler that answers
    pings is in [Fcnet]. *)

From S2P Require Import Prelude GoMem Route Ext Toy Key PeerID Multiaddr Packet.
Import Key Route PeerID Packet.

Module Ping.

Definition SignatureSize : Z := 8.
Definition RandomizerSize : Z := 8.
Definition RequestIdSize : Z := 4.

Definition stubSignature : list Z := [0x1; 0x3; 0x1; 0x2; 0x1; 0x3; 0x1; 0x2].
Definition stubRandomizer : list Z := [0x42; 0x42; 0x42; 0x42; 0x42; 0x42; 0x42; 0x42].
Definition pingRequestId : list Z := [0x0; 0x0; 0x0; 0x1].
Definition pongRequestId : list Z := [0x0; 0x0; 0x0; 0x2].

(** ** The checksum *)

(** [for i := 0; i < csumcv; i += 2]: the bytes are taken two at a time until
    fewer than two are left. *)
Fixpoint sum_loop (b : list Z) (s : Z) : Z :=
  match b with
  | b0 :: b1 :: b => sum_loop b (u32 (s + Z.lor (Z.shiftl b1 8) b0))
  | [b0] => u32 (s + b0)
  | [] => s
  end.

Definition icmpChecksum (b : list Z) : Z :=
  let s := sum_loop b 0 in
  let s := u32 (Z.shiftr s 16 + Z.land s 0xffff) in
  let s := u32 (s + Z.shiftr s 16) in
  u16 (Z.lnot (u16 s)).

(** ** The packet *)

Section ping.
Context `{MaddrLib}.

Record PingPacket : Type := mkPing {
  Offset : Z;
  Padding : Z;
  pkt : Packet
}.

Definition field (p : PingPacket) (o n : Z) : M heap (list Z) :=
  buf_read (Buf (pkt p)) (Offset p + o) (Offset p + o + n).
Definition set_field (p : PingPacket) (o n : Z) (bs : list Z) : M heap unit :=
  buf_write (Buf (pkt p)) (Offset p + o) (Offset p + o + n) bs.

Definition Signature (p : PingPacket) : M heap (list Z) :=
  b ← field p 52 SignatureSize; mret (copy_array SignatureSize b).
Definition SetSignature (p : PingPacket) (sig : list Z) : M heap unit := set_field p 52 SignatureSize sig.
Definition RequestId (p : PingPacket) : M heap (list Z) :=
  b ← field p 60 RequestIdSize; mret (copy_array RequestIdSize b).
Definition SetRequestId (p : PingPacket) (reqid : list Z) : M heap unit := set_field p 60 RequestIdSize reqid.
Definition Randomizer (p : PingPacket) : M heap (list Z) :=
  b ← field p 64 RandomizerSize; mret (copy_array RandomizerSize b).
Definition SetRandomizer (p : PingPacket) (rnd : list Z) : M heap unit := set_field p 64 RandomizerSize rnd.

Definition NewPingPacket (basepkt : Packet) : M heap PingPacket :=
  let p := mkPing 16 16 basepkt in
  _ ← SetSignature p stubSignature;
  _ ← SetRandomizer p stubRandomizer;
  mret p.

Definition IsReply (p : PingPacket) : M heap bool :=
  reqid ← RequestId p; mret (bool_decide (reqid = pongRequestId)).
Definition SetIsReply (p : PingPacket) (reply : bool) : M heap unit :=
  if reply then SetRequestId p pongRequestId else SetRequestId p pingRequestId.

Definition Route_ (p : PingPacket) : M heap Route :=
  let o := Offset p + 4 in
  length ← s_get (Buf (pkt p)) (o + 1);
  t ← reslice (Buf (pkt p)) (o + 2) (o + 2 + length);
  mret (NewRoute t).

Definition SetRoute (p : PingPacket) (rt : Route) : M heap unit :=
  let o := Offset p + 4 in
  let length := Len rt in
  _ ← s_set (Buf (pkt p)) (o + 0) 0x0;
  _ ← s_set (Buf (pkt p)) (o + 1) (u8 length);
  dst ← reslice (Buf (pkt p)) (o + 2) (o + 2 + length);
  src ← s_read (Route.Bytes rt);
  _ ← s_copy dst src;
  UpperPacket.zero_loop (Buf (pkt p)) o (2 + length) (Z.to_nat (16 - (2 + length))).

Definition IsDestination (p : PingPacket) : M heap bool :=
  let o := Offset p + 4 in
  pos ← s_get (Buf (pkt p)) o;
  len ← s_get (Buf (pkt p)) (o + 1);
  mret (len <=? pos + 1).

Definition Sender (p : PingPacket) : M heap PublicKey :=
  b ← field p 20 PublicKeySize; mret (NewPublicKey b).
Definition SetSender (p : PingPacket) (key : PublicKey) : M heap unit := set_field p 20 PublicKeySize (pub_bytes key).

Definition Payload (p : PingPacket) : M heap slice :=
  let o := Offset p + 72 in
  reslice (Buf (pkt p)) o (Length (pkt p) - Padding p).

Definition SetPayload (p : PingPacket) (pt : list Z) : M heap PingPacket :=
  let o := Offset p + 72 in
  let q := set_Length (o + zlen pt + Padding p) (pkt p) in
  _ ← buf_write (Buf q) o (Length q - Padding p) pt;
  mret (mkPing (Offset p) (Padding p) q).
End ping.
End Ping.
Import Ping.

(** ** The checksum verifies *)

(** The sum of the 16-bit words of a message, without a width. *)
Fixpoint wsum (b : list Z) : Z :=
  match b with
  | b0 :: b1 :: b => b0 + 256 * b1 + wsum b
  | [b0] => b0
  | [] => 0
  end.

(** Induction that takes two elements at a time. *)
Lemma pair_ind (P : list Z -> Prop) :
  P [] -> (forall x, P [x]) -> (forall x y l, P l -> P (x :: y :: l)) -> forall l, P l.
Proof.
  intros H0 H1 H2. enough (forall l, P l /\ forall x, P (x :: l)) as H by (intros l; apply H).
  induction l as [|y l [IH IH']]; [done|]. split; [apply IH'|]. intros x. by apply H2.
Qed.

Lemma word_lor b0 b1 : is_byte b0 -> Z.lor (Z.shiftl b1 8) b0 = b0 + 256 * b1.
Proof. intros Hb. rewrite Z.lor_comm, lor_shiftl_add by (unfold is_byte in Hb; lia). lia. Qed.

Lemma sum_loop_wsum b : forall s, is_bytes b -> 0 <= s < 2 ^ 32 -> sum_loop b s = u32 (s + wsum b).
Proof.
  induction b as [|x|x y b IH] using pair_ind; intros s Hb Hs; cbn [sum_loop wsum].
  - unfold u32. rewrite Z.add_0_r. symmetry. by apply Z.mod_small.
  - done.
  - inversion Hb as [|? ? Hx Hb']; subst. inversion Hb' as [|? ? _ Hb'']; subst.
    rewrite word_lor by done. rewrite IH; [|done|unfold u32; lia].
    unfold u32. rewrite Zplus_mod_idemp_l. f_equal. lia.
Qed.

Lemma wsum_app b1 b2 : Z.even (zlen b1) = true -> wsum (b1 ++ b2) = wsum b1 + wsum b2.
Proof.
  induction b1 as [|x|x y b IH] using pair_ind; intros He; [done|done|].
  cbn [app wsum]. rewrite IH; [lia|]. revert He. rewrite !zlen_cons.
  replace (1 + (1 + zlen b)) with (2 + zlen b) by lia. rewrite Z.even_add. by destruct (Z.even (zlen b)).
Qed.

Lemma wsum_bound b : is_bytes b -> 0 <= wsum b /\ 2 * wsum b <= 65535 * (zlen b + 1).
Proof.
  induction b as [|x|x y b IH] using pair_ind; intros Hb; cbn [wsum].
  - change (zlen []) with 0. lia.
  - inversion Hb as [|? ? Hx _]; subst. unfold is_byte in Hx. rewrite zlen_1. lia.
  - inversion Hb as [|? ? Hx Hb']; subst. inversion Hb' as [|? ? Hy Hb'']; subst.
    destruct (IH Hb''). unfold is_byte in *. rewrite !zlen_cons. lia.
Qed.

(** Folding a sum twice leaves its residue modulo 65535, with 65535 in the
    place of 0 unless the sum is 0. *)
Lemma icmpChecksum_fold b S :
  is_bytes b -> wsum b = S -> 0 <= S < 2 ^ 32 ->
  exists f, icmpChecksum b = 65535 - f /\ 0 <= f <= 65535 /\ (exists k, 0 <= k /\ S = f + 65535 * k) /\ (f = 0 -> S = 0).
Proof.
  intros Hb <- HS. unfold icmpChecksum. cbv zeta. rewrite sum_loop_wsum, Z.add_0_l by (done || lia).
  assert (E0 : u32 (wsum b) = wsum b) by (by apply Z.mod_small). rewrite E0. set (S := wsum b) in *. clearbody S.
  assert (El : Z.land S 0xffff = S mod 65536) by (by apply (Z.land_ones S 16)). rewrite El.
  rewrite !Z.shiftr_div_pow2 by lia. change (2 ^ 16) with 65536.
  assert (E1 : u32 (S / 65536 + S mod 65536) = S / 65536 + S mod 65536) by (apply Z.mod_small; lia). rewrite E1.
  set (q := S / 65536) in *. set (r := S mod 65536) in *.
  assert (HqS : S = 65536 * q + r /\ 0 <= r < 65536 /\ 0 <= q < 65536) by (unfold q, r; lia). clearbody q r.
  assert (Hnot : forall x, 0 <= x < 65536 -> u16 (Z.lnot x) = 65535 - x) by (intros x Hx; unfold u16, Z.lnot; lia).
  destruct (Z.lt_ge_cases (q + r) 65536) as [Hs|Hs].
  - exists (q + r). replace (u16 _) with (65535 - (q + r)); [|rewrite (Z.div_small (q + r)), Z.add_0_r by lia;
      unfold u32; rewrite Z.mod_small by lia; unfold u16 at 2; rewrite Z.mod_small by lia; by rewrite Hnot by lia].
    split; [done|]. split; [lia|]. split; [exists q; lia|lia].
  - assert (Ed : (q + r) / 65536 = 1) by (symmetry; apply (Z.div_unique _ _ 1 (q + r - 65536)); lia).
    exists (q + r - 65535). rewrite Ed. unfold u32. rewrite (Z.mod_small (q + r + 1)) by lia.
    replace (u16 (q + r + 1)) with (q + r - 65535) by (unfold u16; lia). rewrite Hnot by lia.
    split; [done|]. split; [lia|]. split; [exists (q + 1); lia|lia].
Qed.

Lemma checksum_zero (b1 b2 : list Z) (c := icmpChecksum (b1 ++ [0; 0] ++ b2)) :
  is_bytes b1 -> is_bytes b2 -> Z.even (zlen b1) = true -> zlen b1 + zlen b2 < 2 ^ 17 - 4 ->
  icmpChecksum (b1 ++ [u8 c; u8 (Z.shiftr c 8)] ++ b2) = 0.
Proof.
  intros Hb1 Hb2 He Hl.
  assert (Hz : is_bytes (b1 ++ [0; 0] ++ b2)).
  { apply Forall_app. split; [done|]. apply Forall_app. split; [|done]. by repeat constructor. }
  pose proof (wsum_bound b1 Hb1). pose proof (wsum_bound b2 Hb2). change (2 ^ 17 - 4) with 131068 in Hl.
  assert (E0 : wsum (b1 ++ [0; 0] ++ b2) = wsum b1 + wsum b2) by (rewrite wsum_app by done; cbn; lia).
  destruct (icmpChecksum_fold _ _ Hz E0 ltac:(lia)) as (f & Ec & Hf & (k & Hk & Ek) & Hf0). fold c in Ec.
  assert (Ew : u8 c + 256 * u8 (Z.shiftr c 8) = c).
  { rewrite Z.shiftr_div_pow2 by lia. change (2 ^ 8) with 256. unfold u8. lia. }
  assert (Hb : is_bytes (b1 ++ [u8 c; u8 (Z.shiftr c 8)] ++ b2)).
  { apply Forall_app. split; [done|]. apply Forall_app. split; [|done]. repeat constructor; apply u8_byte. }
  assert (E1 : wsum (b1 ++ [u8 c; u8 (Z.shiftr c 8)] ++ b2) = wsum b1 + wsum b2 + c)
    by (rewrite wsum_app by done; cbn [app wsum]; lia).
  destruct (icmpChecksum_fold _ _ Hb E1 ltac:(lia)) as (g & Eg & Hg & (j & Hj & Ej) & Hg0). rewrite Eg. lia.
Qed.

(** The checksum that is put into an ICMP message verifies. Computed over a
    pseudo-header and message whose checksum field, at an even offset, is zero,
    and stored there low byte first, it makes the checksum of the whole zero,
    which is what a receiver tests. For messages of any length the 32-bit sum
    can hold without overflow, odd ones included. *)
Theorem icmpChecksum_verifies (b1 b2 : list Z) (c := icmpChecksum (b1 ++ [0; 0] ++ b2)) :
  is_bytes b1 -> is_bytes b2 -> Z.even (zlen b1) = true -> zlen b1 + zlen b2 < 2 ^ 17 - 4 ->
  icmpChecksum (b1 ++ [u8 c; u8 (Z.shiftr c 8)] ++ b2) = 0.
Proof. apply checksum_zero. Qed.

Lemma icmpChecksum_verifies_witness :
  icmpChecksum ([1; 2; 3; 4] ++ [0; 0] ++ [250; 251; 252]) = 64772 /\
  icmpChecksum ([1; 2; 3; 4] ++ [u8 64772; u8 (Z.shiftr 64772 8)] ++ [250; 251; 252]) = 0.
Proof.
  split; [by vm_compute|].
  apply (icmpChecksum_verifies [1; 2; 3; 4] [250; 251; 252]);
    [by apply (bool_decide_unpack _)|by apply (bool_decide_unpack _)|by vm_compute|by vm_compute].
Defined.
