(* ===== verification/Fcnet.v ===== *)
(** * Fcnet: the IPv6 endpoint (fcnet/fcnet.go, fcnet/ping.go)

    The endpoint moves IPv6 packets between a TUN device and the node: what the
    device emits is sent to the peer that owns the destination address, what a
    peer sends is written to the device if its addresses are the right ones.
    Pings and their answers emulate the hop limit along a route. The devices are
    the environment: what is written to them is recorded, and whether a write
    fails is a parameter. *)

From S2P Require Import Prelude GoMem Route Ext Toy Key PeerID Multiaddr Packet RingBuf Routing Forwarder SessionPacket Ikpsk2 Session Node Ping.
Import NetIP Key Route PeerID Multiaddr Packet RingBuf Routing Forwarder Session Node.

(** ** golang.org/x/net/icmp *)

Class IcmpLib : Type := {
  icmp_IPv6PseudoHeader : list Z -> list Z -> list Z;
  icmp_TimeExceeded_Marshal : list Z -> option (list Z)
}.

Class IcmpLaws `{IcmpLib} : Prop := {
  (* addresses, a length to be filled in, three zero bytes, the protocol *)
  IPv6PseudoHeader_spec : forall src dst, zlen src = 16 -> zlen dst = 16 ->
    icmp_IPv6PseudoHeader src dst = src ++ dst ++ zeros 4 ++ [0; 0; 0; 58];
  (* four unused bytes and the packet the message is about *)
  TimeExceeded_Marshal_spec : forall data, icmp_TimeExceeded_Marshal data = Some (zeros 4 ++ data)
}.

Module Fcnet.

Definition FcnetMulticodec : Z := 0x42004.
Definition PingMulticodec : Z := 0x42005.
Definition ipv6_HeaderLen : Z := 40.

(** [netip.Prefix.Contains] for an IPv6 prefix of whole bytes. *)
Definition Contains (pref : list Z) (a : Addr) : bool :=
  match a with
  | Addr6 b z => bool_decide (z = ""%string) && bool_decide (sub b 0 (zlen pref) = pref)
  | _ => false
  end.

Definition linklocalPrefix : list Z := [0xfe; 0x80; 0; 0; 0; 0; 0; 0].
Definition multicastPrefix : list Z := [0xff].
Definition fc1Addr : Addr := Addr6 ([0xfc; 0; 0; 0; 0; 0; 0; 0; 0; 0; 0; 0; 0; 0; 0; 1]) "".

Inductive error : Type :=
| ETooShort
| ELengthMismatch
| ENotIPv6
| ESrcMismatch
| EDstMismatch
| EDevice
| EIcmp
| ERouting (e : Routing.error)
| ENode (e : Node.error)
| EForwarder (e : Forwarder.error).

(** The goroutines an endpoint starts: the loop behind fc00::1, the DNS server
    on it, whose handler has the node's id, and the loop on the TUN device. *)
Inductive loop : Type := LoopFc1 | LoopDns (self : PeerID) | LoopTun.

Record Fcnet : Type := mkFcnet {
  ip : Addr;
  device : list (list Z);
  fc1tun : list (list Z);
  loops : list loop
}.

Definition write_device (bs : list Z) (fc : Fcnet) : Fcnet := mkFcnet (ip fc) (device fc ++ [bs]) (fc1tun fc) (loops fc).
Definition write_fc1tun (bs : list Z) (fc : Fcnet) : Fcnet := mkFcnet (ip fc) (device fc) (fc1tun fc ++ [bs]) (loops fc).
Definition start_loop (l : loop) (fc : Fcnet) : Fcnet := mkFcnet (ip fc) (device fc) (fc1tun fc) (loops fc ++ [l]).

Section fcnet.
Context `{Crypto, MaddrLib, Varint, GoRuntime, IcmpLib} {UH LH : Type}.

(** Whether a write to a device fails. *)
Context (device_fails fc1_fails : list Z -> bool).

Abbreviation St := (Fcnet * Node UH LH)%type.

Definition NewFcnet (n : Node UH LH) : Fcnet := mkFcnet (IPAddr (PeerID.PublicKey_ (peerid n))) [] [] [].

Definition on_heap {A} (m : M heap A) : M St A := zoom snd_lens (zoom l_mem m).

Definition Device_Write (bs : list Z) : M St (option error) :=
  if device_fails bs then mret (Some EDevice) else _ ← zoom fst_lens (modify (write_device bs)); mret None.
Definition Fc1_Write (bs : list Z) : M St (option error) :=
  if fc1_fails bs then mret (Some EDevice) else _ ← zoom fst_lens (modify (write_fc1tun bs)); mret None.

Definition handleFcnetPacket (src : PeerID) (payload : slice) : M St (option error) :=
  let n := s_len payload in
  if n <? ipv6_HeaderLen then mret (Some ETooShort) else
  gotlen ← on_heap (t ← reslice payload 4 6; get_be16 t);
  if negb (n =? gotlen + ipv6_HeaderLen) then mret (Some ELengthMismatch) else
  b0 ← on_heap (s_get payload 0);
  if negb (Z.shiftr b0 4 =? 0x6) then mret (Some ENotIPv6) else
  a ← on_heap (buf_read payload 8 24);
  if negb (bool_decide (a = AsSlice (IPAddr (PeerID.PublicKey_ src)))) then mret (Some ESrcMismatch) else
  st ← gets id;
  b ← on_heap (buf_read payload 24 40);
  if negb (bool_decide (b = AsSlice (ip (fst st)))) then mret (Some EDstMismatch) else
  bs ← on_heap (s_read payload);
  Device_Write bs.

(** TODO in the source: nothing is signed or verified yet. *)
Definition sign (p : Ping.PingPacket) : Ping.PingPacket + error := inl p.
Definition verify (p : Ping.PingPacket) : option error := None.

Definition set_ppkt (f : Packet -> Packet) (p : Ping.PingPacket) : Ping.PingPacket :=
  Ping.mkPing (Ping.Offset p) (Ping.Padding p) (f (Ping.pkt p)).

(** The common part of [handleTunPacket] and [handlePingPacket]: a fresh ping
    packet is filled, signed and sent along its label. *)
Definition send_ping (rt : Route) (reply : bool) (payload : list Z) : M St (option error) :=
  buf ← on_heap (make_bytes TptMTU);
  ppkt ← on_heap (Ping.NewPingPacket (NewPacket buf));
  st ← gets id;
  let self := peerid (snd st) in
  let ppkt := set_ppkt (set_LowerSrc self) ppkt in
  ppkt ← on_heap (
    _ ← Ping.SetRoute ppkt rt;
    _ ← Ping.SetSender ppkt (PeerID.PublicKey_ self);
    _ ← Ping.SetIsReply ppkt reply;
    Ping.SetPayload ppkt payload);
  match sign ppkt with
  | inr e => mret (Some e)
  | inl ppkt =>
      let lpkt := LowerPacket.NewLowerPacket (Ping.pkt ppkt) in
      _ ← on_heap (LowerPacket.SetCodec lpkt PingMulticodec);
      e ← zoom snd_lens (SendRaw lpkt);
      mret (EForwarder <$> e)
  end.

Definition handleTunPacket (buf : slice) : M St (option error) :=
  let plen := s_len buf in
  if plen <? ipv6_HeaderLen then mret (Some ETooShort) else
  gotlen ← on_heap (t ← reslice buf 4 6; get_be16 t);
  if negb (plen =? gotlen + ipv6_HeaderLen) then mret (Some ELengthMismatch) else
  nexthdr ← on_heap (s_get buf 6);
  hops ← on_heap (s_get buf 7);
  src ← on_heap (b ← buf_read buf 8 24; mret (default AddrZero (AddrFromSlice b)));
  dst ← on_heap (b ← buf_read buf 24 40; mret (default AddrZero (AddrFromSlice b)));
  if Contains linklocalPrefix src || Contains multicastPrefix dst then mret None else
  st ← gets id;
  if negb (bool_decide (src = ip (fst st))) then mret None else
  if bool_decide (dst = fc1Addr) then (bs ← on_heap (s_read buf); Fc1_Write bs) else
  match LookupIPv6 dst (routing (snd st)) with
  | inr e => mret (Some (ERouting e))
  | inl peer =>
      match GetRoute peer (routing (snd st)) with
      | inr e => mret (Some (ERouting e))
      | inl route =>
          if Len route <=? hops then
            nbuf ← on_heap (make_bytes TptMTU);
            let upkt := set_upkt (set_UpperDst peer) (UpperPacket.NewUpperPacket (NewPacket nbuf)) in
            upkt ← on_heap (
              _ ← UpperPacket.SetRoute upkt route;
              _ ← UpperPacket.SetCodec upkt FcnetMulticodec;
              bs ← s_read buf;
              UpperPacket.SetPayload upkt bs);
            e ← zoom snd_lens (SendUpper upkt);
            mret (ENode <$> e)
          else if nexthdr =? 58 then
            r ← on_heap (if hops <? Len route then reslice (Route.Bytes route) 0 hops else mret (Route.Bytes route));
            bs ← on_heap (s_read buf);
            send_ping (NewRoute r) false bs
          else mret None
      end
  end.

(** The message [handlePingPacket] builds: pseudo-header, type, code, checksum
    and body, in one buffer whose tail is the ICMP message. *)
Definition icmp_message (src2 dst2 buf : list Z) : res (option (list Z)) :=
  let chdr := icmp_IPv6PseudoHeader src2 dst2 in
  let cbuf := chdr ++ [0x3; 0x0; 0; 0] in
  match icmp_TimeExceeded_Marshal buf with
  | None => Ok None
  | Some cbody =>
      let cbuf := cbuf ++ cbody in
      let lenoff := 2 * 16 in
      if zlen cbuf <? lenoff + 4 then Panic else
      let cbuf := splice cbuf lenoff (be_bytes 4 (u32 (zlen cbuf - zlen chdr))) in
      let csum := Ping.icmpChecksum cbuf in
      let i := zlen chdr + 2 in
      let cbuf := splice cbuf i [Z.lxor (getz cbuf i) (u8 csum)] in
      let cbuf := splice cbuf (i + 1) [Z.lxor (getz cbuf (i + 1)) (u8 (Z.shiftr csum 8))] in
      Ok (Some (sub cbuf (zlen chdr) (zlen cbuf - zlen chdr)))
  end.

(** [p2]: the IPv6 packet around the ICMP message. *)
Definition time_exceeded (flow src2 dst2 icmpdata : list Z) : list Z :=
  let ilen := zlen icmpdata in
  let p2 := zeros (40 + ilen) in
  let p2 := splice p2 0 (sub flow 0 4) in
  let p2 := splice p2 4 (be_bytes 2 (u16 ilen)) in
  let p2 := splice p2 6 [58] in
  let p2 := splice p2 7 [64] in
  let p2 := splice p2 8 (sub src2 0 16) in
  let p2 := splice p2 24 (sub dst2 0 16) in
  splice p2 40 icmpdata.

Definition of_res {A} (r : res A) : M St A := fun st =>
  match r with Ok a => Ok (a, st) | Panic => Panic | Block => Block end.

(** [handlePingPacket], the branch of a reply. *)
Definition handle_reply (ppkt : Ping.PingPacket) : M St (option error) :=
  match verify ppkt with
  | Some e => mret (Some e)
  | None =>
      buf ← on_heap (Ping.Payload ppkt);
      st ← gets id;
      let dst := AsSlice (ip (fst st)) in
      a ← on_heap (buf_read buf 8 24);
      if negb (bool_decide (a = dst)) then mret (Some EDstMismatch) else
      sender ← on_heap (Ping.Sender ppkt);
      let src2 := AsSlice (IPAddr sender) in
      bs ← on_heap (s_read buf);
      m ← of_res (icmp_message src2 dst bs);
      match m with
      | None => mret (Some EIcmp)
      | Some icmpdata =>
          flow ← on_heap (buf_read buf 0 4);
          p2 ← on_heap (alloc (time_exceeded flow src2 dst icmpdata));
          sender ← on_heap (Ping.Sender ppkt);
          handleFcnetPacket (NewPeerID sender) p2
      end
  end.

Definition handlePingPacket (lpkt : LowerPacket.LowerPacket) : M St (option error) :=
  ppkt ← on_heap (Ping.NewPingPacket (LowerPacket.pkt lpkt));
  isdst ← on_heap (Ping.IsDestination ppkt);
  if negb isdst then (e ← zoom snd_lens (HandlePacket lpkt); mret (EForwarder <$> e)) else
  st ← gets id;
  match GetRoute (LowerSrc (LowerPacket.pkt lpkt)) (routing (snd st)) with
  | inr e => mret (Some (ERouting e))
  | inl prevrt =>
      let o := Ping.Offset ppkt in
      route ← on_heap (
        fwdhdr ← reslice (Buf (Ping.pkt ppkt)) (o + 4) (o + 20);
        prev ← s_get (Route.Bytes prevrt) 0;
        pos ← s_get fwdhdr 0;
        _ ← s_set fwdhdr (u8 (2 + pos)) prev;
        pos ← s_get fwdhdr 0;
        _ ← s_set fwdhdr 0 (u8 (pos + 1));
        pos ← s_get fwdhdr 0;
        t ← reslice fwdhdr 2 (u8 (2 + pos));
        Reverse (NewRoute t));
      reply ← on_heap (Ping.IsReply ppkt);
      if (reply : bool) then handle_reply ppkt else
      pl ← on_heap (t ← Ping.Payload ppkt; s_read t);
      send_ping route true pl
  end.

(** One turn of [listenTun], for the bytes [bs] the device delivers; what does
    not fit the buffer is cut off. *)
Definition listenTun_turn (bs : list Z) : M St (option error) :=
  nb ← on_heap (make_bytes TptMTU);
  buf ← on_heap (b ← Packet.Bytes (NewPacket nb); reslice b UpperOffset (s_len b));
  _ ← on_heap (s_copy buf bs);
  let n := Z.min (zlen bs) (s_len buf) in
  b0 ← on_heap (s_get buf 0);
  if negb (Z.shiftr b0 4 =? 6) then mret None else
  t ← on_heap (reslice buf 0 n);
  handleTunPacket t.

(** One turn of the loop that [initFcnet1] starts, for the bytes [bs] the local
    network stack delivers: the whole buffer is written, not the part that was
    read. *)
Definition fc1_turn (bs : list Z) : M St (option error) :=
  nb ← on_heap (make_bytes TptMTU);
  buf ← on_heap (b ← Packet.Bytes (NewPacket nb); reslice b UpperOffset (s_len b));
  _ ← on_heap (s_copy buf bs);
  data ← on_heap (s_read buf);
  Device_Write data.

(** [initFcnet1] and [initDns]; whether the local network stack comes up
    ([wgnet.CreateNetTUN]) and whether its port 53 can be opened is up to the
    environment. *)
Definition initFcnet1 (err : option error) : M St (option error) :=
  match err with
  | Some e => mret (Some e)
  | None => _ ← zoom fst_lens (modify (start_loop LoopFc1)); mret None
  end.
Definition initDns (err : option error) : M St (option error) :=
  match err with
  | Some e => mret (Some e)
  | None =>
      n ← zoom snd_lens (gets id);
      _ ← zoom fst_lens (modify (start_loop (LoopDns (peerid n)))); mret None
  end.

(** [ping] and [fcnet] name the endpoint's handlers. *)
Definition Start (ping : LH) (fcnet : UH) (fcnet1_err dns_err : option error) : M St (option error) :=
  _ ← zoom snd_lens (modify (HandleLower PingMulticodec ping));
  _ ← zoom snd_lens (modify (Handle FcnetMulticodec fcnet));
  err ← initFcnet1 fcnet1_err;
  match err with
  | Some e => mret (Some e)
  | None =>
      err ← initDns dns_err;
      match err with
      | Some e => mret (Some e)
      | None => _ ← zoom fst_lens (modify (start_loop LoopTun)); mret None
      end
  end.
End fcnet.
End Fcnet.
Import Fcnet.

(** ** Executing the endpoint *)

Section exec.
Context `{Crypto, MaddrLib, Varint, GoRuntime, IcmpLib} {UH LH : Type}.
Implicit Types (n : Node UH LH) (fc : Fcnet).

Lemma heap_step {A B} (f : M heap A) (k : A -> M (Fcnet * Node UH LH) B) fc n a h' :
  f (mem (sess n)) = Ok (a, h') -> (on_heap f ≫= k) (fc, n) = k a (fc, over l_mem h' n).
Proof. intros E. unfold on_heap, zoom, mbind, M_bind. cbn [view snd_lens l_mem snd]. by rewrite E. Qed.

Lemma heap_look {A B} (f : M heap A) (k : A -> M (Fcnet * Node UH LH) B) fc n a :
  f (mem (sess n)) = Ok (a, mem (sess n)) -> (on_heap f ≫= k) (fc, n) = k a (fc, n).
Proof. intros E. erewrite heap_step by exact E. by destruct n as [????[]]. Qed.

(** What [handleFcnetPacket] makes of the bytes of a packet. *)
Definition fcnet_verdict (src : PeerID) (own : Addr) (bs : list Z) : option error :=
  if zlen bs <? 40 then Some ETooShort else
  if negb (zlen bs =? be_val (sub bs 4 2) + 40) then Some ELengthMismatch else
  if negb (Z.shiftr (getz bs 0) 4 =? 6) then Some ENotIPv6 else
  if negb (bool_decide (sub bs 8 16 = AsSlice (IPAddr (PeerID.PublicKey_ src)))) then Some ESrcMismatch else
  if negb (bool_decide (sub bs 24 16 = AsSlice own)) then Some EDstMismatch else None.

Lemma handleFcnetPacket_verdict dev src payload fc n (bs := contents (mem (sess n)) payload) :
  slice_ok (mem (sess n)) payload ->
  handleFcnetPacket dev src payload (fc, n) =
    match fcnet_verdict src (ip fc) bs with
    | Some e => Ok (Some e, (fc, n))
    | None => Device_Write dev bs (fc, n)
    end.
Proof.
  intros Hs. pose proof (zlen_contents _ _ Hs) as Hz. fold bs in Hz.
  unfold handleFcnetPacket, fcnet_verdict, ipv6_HeaderLen. cbv zeta. rewrite Hz.
  destruct (Z.ltb_spec (s_len payload) 40) as [Hlt|Hge]; [done|].
  erewrite heap_look by (apply (slice_be16 _ _ Hs 4); lia). fold bs. destruct (negb (_ =? _)); [done|].
  erewrite heap_look by (apply (slice_get _ _ Hs 0); lia). fold bs. destruct (negb (_ =? _)); [done|].
  erewrite heap_look by (apply (slice_read _ _ Hs 8 24); lia). fold bs. change (24 - 8) with 16. destruct (negb _); [done|].
  erewrite bind_ok by reflexivity. unfold id. cbn [fst].
  erewrite heap_look by (apply (slice_read _ _ Hs 24 40); lia). fold bs. change (40 - 24) with 16. destruct (negb _); [done|].
  by erewrite heap_look by reflexivity.
Qed.
End exec.

(** ** Sending what the device emits *)

Section tun.
Context `{CryptoLaws, MaddrLib, VarintLaws, GoRuntime, IcmpLib} {UH LH : Type}.
Implicit Types (n : Node UH LH) (fc : Fcnet).

Lemma addr_read k bs :
  zlen bs = 16 -> bs = AsSlice (IPAddr k) -> default AddrZero (AddrFromSlice bs) = IPAddr k.
Proof.
  intros Hz E. rewrite IPAddr_Addr6 in *. cbn in E. unfold AddrFromSlice. rewrite Hz. cbn. by rewrite E.
Qed.

(** An IPv6 packet from [src] to [dst]. *)
Record ipv6_packet (bs : list Z) (src dst : PublicKey) : Prop := {
  v6_bytes : is_bytes bs;
  v6_len : zlen bs = 40 + be_val (sub bs 4 2);
  v6_min : 40 <= zlen bs;
  v6_version : Z.shiftr (getz bs 0) 4 = 6;
  v6_src : sub bs 8 16 = AsSlice (IPAddr src);
  v6_dst : sub bs 24 16 = AsSlice (IPAddr dst)
}.

(** The packet that carries [bs] to [peer]. *)
Lemma tun_build h buf bs route peer (b := fresh_buf h) :
  slice_ok h buf -> contents h buf = bs -> (s_arr buf < length h)%nat -> zlen bs <= UpperMTU ->
  route_ok h route -> Len route <= 14 -> (s_arr (hops route) < length h)%nat ->
  (_ ← UpperPacket.SetRoute (set_upkt (set_UpperDst peer) (UpperPacket.NewUpperPacket (NewPacket b))) route;
   _ ← UpperPacket.SetCodec (set_upkt (set_UpperDst peer) (UpperPacket.NewUpperPacket (NewPacket b))) FcnetMulticodec;
   bs ← s_read buf;
   UpperPacket.SetPayload (set_upkt (set_UpperDst peer) (UpperPacket.NewUpperPacket (NewPacket b))) bs)
   (h ++ [zeros TptMTU]) =
    Ok (UpperPacket.mkUpper 52 32 (msg_pkt h peer bs),
        h ++ [upper_image (zeros TptMTU) FcnetMulticodec (bytes_of h route) bs]).
Proof.
  intros Hs Hbs Ha Hz Hr Hl Hra. change UpperMTU with 1364 in Hz.
  destruct (build_upper_route_first (set_UpperDst peer (NewPacket b)) route FcnetMulticodec bs (h ++ [zeros TptMTU])
    (zeros TptMTU)) as (h1 & E1 & Hframe & E2);
    [apply full_fresh|change (zlen (zeros TptMTU)) with 1452; lia|by apply slice_ok_app|done|cbn; lia|unfold FcnetMulticodec; lia|].
  change (set_upkt (set_UpperDst peer) (UpperPacket.NewUpperPacket (NewPacket b)))
    with (UpperPacket.NewUpperPacket (set_UpperDst peer (NewPacket b))).
  assert (Er : contents h1 buf = bs).
  { unfold contents, arr in *. rewrite Hframe by (cbn; lia). by rewrite lookup_app_l. }
  revert E1. unfold mbind, M_bind. destruct (UpperPacket.SetRoute _ _ _) as [[[] h0]| |]; [|done|done].
  intros E1. rewrite E1. unfold s_read, gets. rewrite Er, E2. cbn [Buf set_UpperDst NewPacket s_arr b fresh_buf].
  rewrite upd_snoc. unfold bytes_of. by rewrite contents_app.
Qed.

Lemma handleTunPacket_sends dev1 buf bs fc n src dst route (h := mem (sess n)) :
  slice_ok h buf -> contents h buf = bs -> (s_arr buf < length h)%nat -> ipv6_packet bs (PeerID.PublicKey_ src) (PeerID.PublicKey_ dst) ->
  zlen bs <= UpperMTU -> ip fc = IPAddr (PeerID.PublicKey_ src) ->
  Contains linklocalPrefix (IPAddr (PeerID.PublicKey_ src)) = false ->
  Contains multicastPrefix (IPAddr (PeerID.PublicKey_ dst)) = false -> IPAddr (PeerID.PublicKey_ dst) <> fc1Addr ->
  LookupIPv6 (IPAddr (PeerID.PublicKey_ dst)) (routing n) = inl dst -> GetRoute dst (routing n) = inl route ->
  route_ok h route -> Len route <= 14 -> Len route <= getz bs 7 -> (s_arr (hops route) < length h)%nat ->
  idle UpperSend n ->
  handleTunPacket dev1 buf (fc, n) =
    Ok (None, (fc, push UpperSend (msg_pkt h dst bs)
      (over l_mem (h ++ [upper_image (zeros TptMTU) FcnetMulticodec (bytes_of h route) bs]) n))).
Proof.
  intros Hs Hbs Ha [Hb Hlen Hmin Hver Hsrc Hdst] Hz Hip Hll Hmc Hfc1 HL HG Hr Hn14 Hhops Hra Hq.
  pose proof (zlen_contents _ _ Hs) as Hzs. rewrite Hbs in Hzs. unfold handleTunPacket, ipv6_HeaderLen. cbv zeta.
  replace (s_len buf <? 40) with false by lia.
  erewrite heap_look by (apply (slice_be16 _ _ Hs 4); lia). fold h. rewrite Hbs.
  replace (s_len buf =? be_val (sub bs 4 2) + 40) with true by lia. cbn [negb].
  erewrite heap_look by (apply (slice_get _ _ Hs 6); lia). erewrite heap_look by (apply (slice_get _ _ Hs 7); lia).
  erewrite heap_look by (erewrite bind_ok by (apply (slice_read _ _ Hs 8 24); lia); reflexivity).
  erewrite heap_look by (erewrite bind_ok by (apply (slice_read _ _ Hs 24 40); lia); reflexivity).
  fold h. rewrite Hbs. change (24 - 8) with 16. change (40 - 24) with 16.
  rewrite (addr_read (PeerID.PublicKey_ src) (sub bs 8 16)), (addr_read (PeerID.PublicKey_ dst) (sub bs 24 16))
    by (rewrite ?zlen_sub by lia; done).
  rewrite Hll, Hmc. cbn [orb]. erewrite bind_ok by reflexivity. unfold id. cbn [fst snd].
  rewrite Hip, bool_decide_eq_true_2 by done. cbn [negb]. rewrite bool_decide_eq_false_2 by done.
  rewrite HL, HG. replace (Len route <=? getz bs 7) with true by lia.
  erewrite heap_step by apply make_bytes_TptMTU. fold h.
  erewrite heap_step by (cbn [mem sess over l_mem l_sess mem_lens]; by apply tun_build).
  unfold SendUpper. unfold mbind at 1, M_bind at 1. unfold zoom at 1. cbn [view snd_lens snd].
  rewrite putB_step by exact Hq. done.
Qed.
End tun.

(** ** What fc00::1 answers *)

Lemma sub_splice_zeros (bs : list Z) n off :
  0 <= off <= n -> zlen bs <= n - off ->
  sub (splice (zeros n) off bs) off (n - off) = bs ++ zeros (n - off - zlen bs).
Proof.
  intros Ho Hl. pose proof (zlen_nonneg bs). unfold sub, splice, zeros, zlen in *.
  rewrite drop_app_ge, length_take, length_replicate by (rewrite length_take, length_replicate; lia).
  rewrite Nat.min_l, Nat.sub_diag, drop_0, drop_replicate by lia.
  rewrite take_ge by (rewrite length_app, length_replicate; lia). do 2 f_equal. lia.
Qed.

(** [Start] on a node without an endpoint: the two handlers are registered in
    any case, also when it then fails; the loops run all three or, when the DNS
    server does not come up, the one behind fc00::1 alone. *)
Theorem endpoint_start `{Crypto, MaddrLib} {UH LH : Type} (ping : LH) (fcnet : UH) (e1 e2 : option error) (fc : Fcnet) (n : Node UH LH) :
  upperHandlers n !! FcnetMulticodec = None -> lowerHandlers n !! PingMulticodec = None ->
  exists fc' n', Fcnet.Start ping fcnet e1 e2 (fc, n) = Ok (match e1 with Some e => Some e | None => e2 end, (fc', n')) /\
    upperHandlers n' = <[FcnetMulticodec := fcnet]> (upperHandlers n) /\
    lowerHandlers n' = <[PingMulticodec := ping]> (lowerHandlers n) /\
    loops fc' = loops fc ++ match e1, e2 with Some _, _ => [] | None, Some _ => [LoopFc1] | None, None => [LoopFc1; LoopDns (peerid n); LoopTun] end.
Proof.
  intros Hu Hl. destruct e1 as [e1|]; [|destruct e2 as [e2|]]; (eexists _, _; split; [reflexivity|]);
    cbn [snd fst view over snd_lens fst_lens loops start_loop]; unfold Handle, HandleLower; rewrite Hl; cbn; rewrite Hu;
    (split; [done|]); (split; [done|]); by rewrite ?app_nil_r, <- ?app_assoc.
Qed.

(** A packet of the local network stack, such as an answer of the DNS server,
    reaches the device with zeros behind it: every write has the size of the
    buffer. *)
Theorem fc1_turn_pads `{Crypto, MaddrLib, GoRuntime} {UH LH : Type} (dev : list Z -> bool) (bs : list Z) (fc : Fcnet) (n : Node UH LH) :
  zlen bs <= TptMTU - UpperOffset ->
  let data := bs ++ zeros (TptMTU - UpperOffset - zlen bs) in
  dev data = false ->
  exists n', fc1_turn dev bs (fc, n) = Ok (None, (write_device data fc, n')).
Proof.
  intros Hl data Hd. unfold fc1_turn. set (h := mem (sess n)). set (off := UpperOffset) in *. set (b := fresh_buf h).
  assert (Ef : full (h ++ [zeros TptMTU]) b (zeros TptMTU)) by apply full_fresh.
  assert (Eo : 0 <= off <= TptMTU) by done. assert (Ez : zlen (zeros TptMTU) = TptMTU) by done.
  set (l := splice (zeros TptMTU) off bs).
  assert (El : sub l off (TptMTU - off) = data).
  { unfold l, data. clearbody off. apply sub_splice_zeros; lia. }
  erewrite heap_step by apply make_bytes_TptMTU. fold h b.
  erewrite heap_look.
  2: { cbn [mem sess over l_mem l_sess mem_lens]. erewrite bind_ok.
    2: { unfold Packet.Bytes. eapply reslice_window; [exact Ef|by vm_compute|by vm_compute]. }
    eapply reslice_ok; by vm_compute. }
  change (Slice _ _ _ _) with (window b off TptMTU).
  erewrite heap_step by (cbn [mem sess over l_mem l_sess mem_lens]; eapply window_copy; [exact Ef|lia|lia|lia]).
  erewrite heap_look.
  2: { unfold s_read. cbn [mem sess over l_mem l_sess mem_lens]. unfold gets. erewrite window_contents; [reflexivity|eapply full_upd; [exact Ef|rewrite zlen_splice; lia]|lia|rewrite zlen_splice; lia]. }
  unfold Device_Write. fold l. rewrite El, Hd. by eexists.
Qed.

(** ** The answer to a ping *)

Lemma splice_mid (a b b' c : list Z) i :
  i = zlen a -> zlen b = zlen b' -> splice (a ++ b ++ c) i b' = a ++ b' ++ c.
Proof.
  intros -> Hb. unfold splice, zlen in *. rewrite Nat2Z.id, take_app_length. f_equal. f_equal.
  rewrite drop_app_ge by lia. replace (length a + length b' - length a)%nat with (length b) by lia. apply drop_app_length.
Qed.

Lemma getz_mid (a c : list Z) x i : i = zlen a -> getz (a ++ x :: c) i = x.
Proof. intros ->. unfold getz, zlen. rewrite Nat2Z.id. by rewrite app_nth2, Nat.sub_diag by lia. Qed.

Section icmp.
Context `{IcmpLaws}.

(** The pseudo-header of a message of [n] bytes (RFC 8200, section 8.1). *)
Definition pseudo (src dst : list Z) (n : Z) : list Z := (src ++ dst) ++ be_bytes 4 n ++ [0; 0; 0; 58].

(** A time-exceeded message about the packet [bs], with its checksum. *)
Definition exceeded (src dst bs : list Z) : list Z :=
  let c := Ping.icmpChecksum (pseudo src dst (8 + zlen bs) ++ [3; 0] ++ [0; 0] ++ zeros 4 ++ bs) in
  [3; 0] ++ [u8 c; u8 (Z.shiftr c 8)] ++ zeros 4 ++ bs.

Lemma zlen_exceeded src dst bs : zlen (exceeded src dst bs) = 8 + zlen bs.
Proof. unfold exceeded. cbv zeta. rewrite !zlen_app. change (zlen (zeros 4)) with 4. cbn. unfold zlen. cbn [length]. lia. Qed.

Lemma icmp_message_spec src dst bs :
  zlen src = 16 -> zlen dst = 16 -> zlen bs < 2 ^ 16 -> icmp_message src dst bs = Ok (Some (exceeded src dst bs)).
Proof.
  intros Hs Hd Hb. unfold icmp_message. rewrite TimeExceeded_Marshal_spec, IPv6PseudoHeader_spec by done. cbv zeta.
  set (chdr := src ++ dst ++ zeros 4 ++ [0; 0; 0; 58]).
  assert (Hc : zlen chdr = 40) by (unfold chdr; rewrite !zlen_app, Hs, Hd; done).
  set (cbuf := (chdr ++ [3; 0; 0; 0]) ++ zeros 4 ++ bs). pose proof (zlen_nonneg bs).
  assert (Hz : zlen cbuf = 48 + zlen bs) by (unfold cbuf; rewrite !zlen_app, Hc; change (zlen (zeros 4)) with 4; cbn; unfold zlen; cbn [length]; lia).
  change (2 * 16) with 32. replace (zlen cbuf <? 32 + 4) with false by lia.
  rewrite Hc, Hz. replace (u32 (48 + zlen bs - 40)) with (8 + zlen bs) by (unfold u32; lia).
  assert (E1 : splice cbuf 32 (be_bytes 4 (8 + zlen bs)) = pseudo src dst (8 + zlen bs) ++ [3; 0] ++ [0; 0] ++ zeros 4 ++ bs).
  { unfold cbuf, chdr, pseudo. rewrite <- !app_assoc. rewrite (app_assoc src dst).
    rewrite splice_mid by (rewrite ?zlen_app, ?zlen_be_bytes; done || lia). by rewrite <- !app_assoc. }
  rewrite E1. set (c := Ping.icmpChecksum _). set (ps := pseudo src dst (8 + zlen bs)).
  assert (Hps : zlen ps = 40) by (unfold ps, pseudo; rewrite !zlen_app, Hs, Hd, zlen_be_bytes; done).
  set (rest := zeros 4 ++ bs). change (40 + 2 + 1) with 43. change (40 + 2) with 42.
  replace (ps ++ [3; 0] ++ [0; 0] ++ rest) with ((ps ++ [3; 0]) ++ 0 :: 0 :: rest) by (by rewrite <- app_assoc).
  rewrite getz_mid, Z.lxor_0_l by (rewrite zlen_app, Hps; done).
  rewrite (splice_mid (ps ++ [3; 0]) [0] [u8 c] (0 :: rest)) by (rewrite ?zlen_app, ?Hps; done).
  replace ((ps ++ [3; 0]) ++ [u8 c] ++ 0 :: rest) with (((ps ++ [3; 0]) ++ [u8 c]) ++ 0 :: rest) by (by rewrite <- app_assoc).
  rewrite getz_mid, Z.lxor_0_l by (rewrite !zlen_app, Hps; done).
  rewrite (splice_mid ((ps ++ [3; 0]) ++ [u8 c]) [0] [u8 (Z.shiftr c 8)] rest) by (rewrite ?zlen_app, ?Hps; done).
  rewrite <- !app_assoc. rewrite sub_app_skip, Hps by lia. change (40 - 40) with 0. do 2 f_equal.
  replace (zlen _ - 40) with (zlen (exceeded src dst bs)); [apply sub_all|].
  rewrite zlen_exceeded, !zlen_app, Hps. unfold rest. rewrite zlen_app. change (zlen (zeros 4)) with 4. unfold zlen. cbn [length]. lia.
Qed.

Lemma exceeded_checksum src dst bs :
  array 16 src -> array 16 dst -> is_bytes bs -> zlen bs < 2 ^ 16 ->
  Ping.icmpChecksum (pseudo src dst (8 + zlen bs) ++ exceeded src dst bs) = 0.
Proof.
  intros [Hs Hbs] [Hd Hbd] Hb Hl. unfold exceeded. cbv zeta. set (ps := pseudo src dst (8 + zlen bs)).
  assert (Hps : zlen ps = 40) by (unfold ps, pseudo; rewrite !zlen_app, Hs, Hd, zlen_be_bytes; done).
  rewrite !(app_assoc ps). apply Ping.checksum_zero.
  - pose proof (is_bytes_be 4 (8 + zlen bs)). unfold ps, pseudo, is_bytes in *. rewrite !Forall_app.
    split_and!; try assumption; by repeat constructor.
  - apply Forall_app. split; [apply is_bytes_zeros|done].
  - rewrite zlen_app, Hps. done.
  - rewrite !zlen_app, Hps. change (zlen (zeros 4)) with 4. change (zlen [3; 0]) with 2. lia.
Qed.

(** The IPv6 packet around it. *)
Lemma time_exceeded_spec flow src dst m :
  zlen flow = 4 -> zlen src = 16 -> zlen dst = 16 -> zlen m < 2 ^ 16 ->
  time_exceeded flow src dst m = flow ++ be_bytes 2 (zlen m) ++ [58] ++ [64] ++ src ++ dst ++ m.
Proof.
  intros Hf Hs Hd Hm. pose proof (zlen_nonneg m). unfold time_exceeded. cbv zeta.
  replace (u16 (zlen m)) with (zlen m) by (unfold u16; lia).
  assert (Hz : zlen (zeros (40 + zlen m)) = 40 + zlen m) by (apply zlen_zeros; lia).
  replace (sub flow 0 4) with flow by (rewrite <- Hf; symmetry; apply sub_all).
  replace (sub src 0 16) with src by (rewrite <- Hs; symmetry; apply sub_all).
  replace (sub dst 0 16) with dst by (rewrite <- Hd; symmetry; apply sub_all).
  pose proof (zlen_be_bytes 2 (zlen m)).
  do 6 (rewrite splice_prefix by (rewrite ?zlen_app, ?zlen_be_bytes, ?zlen_1; zl)).
  rewrite splice_whole by zl. by rewrite <- !app_assoc.
Qed.
End icmp.

Section pong.
Context `{CryptoLaws, MaddrLib, Varint, GoRuntime, IcmpLaws} {UH LH : Type}.
Implicit Types (n : Node UH LH) (fc : Fcnet) (pkt : Packet).

(** A received ping's buffer with the stub signature and randomizer, and then
    with the label advanced by one hop. *)
Definition stamped (l : list Z) : list Z := splice (splice l 68 Ping.stubSignature) 80 Ping.stubRandomizer.
Definition advanced (l : list Z) (prev : Z) : list Z :=
  splice (splice l (22 + getz l 20) [prev]) 20 [getz l 20 + 1].

Lemma NewPingPacket_full pkt h l :
  full h (Buf pkt) l -> 104 <= zlen l ->
  Ping.NewPingPacket pkt h = Ok (Ping.mkPing 16 16 pkt, upd h (s_arr (Buf pkt)) (stamped l)).
Proof.
  intros Hf Hl. unfold Ping.NewPingPacket, Ping.SetSignature, Ping.SetRandomizer, Ping.set_field. cbn [Ping.pkt Ping.Offset].
  assert (Hs : zlen Ping.stubSignature = 8) by done. assert (Hr : zlen Ping.stubRandomizer = 8) by done.
  change (16 + 52 + Ping.SignatureSize) with 76. change (16 + 64 + Ping.RandomizerSize) with 88.
  erewrite bind_ok by (eapply buf_write_full; [exact Hf|lia|lia|lia]).
  erewrite bind_ok by (eapply buf_write_full; [eapply full_upd; [exact Hf|zl]|lia|zl|lia]).
  by rewrite upd_upd.
Qed.

Lemma zlen_stamped l : 104 <= zlen l -> zlen (stamped l) = zlen l.
Proof.
  intros Hl. assert (Hs : zlen Ping.stubSignature = 8) by done. assert (Hr : zlen Ping.stubRandomizer = 8) by done.
  unfold stamped. zl.
Qed.

(** Everything but the two stubs is as it was received. *)
Lemma stamped_same l o m :
  104 <= zlen l -> 0 <= o -> 0 <= m -> o + m <= zlen l -> (o + m <= 68 \/ (76 <= o /\ o + m <= 80) \/ 88 <= o) ->
  sub (stamped l) o m = sub l o m.
Proof.
  intros Hl Ho Hm Hom Hd. assert (Hs : zlen Ping.stubSignature = 8) by done. assert (Hr : zlen Ping.stubRandomizer = 8) by done.
  unfold stamped. destruct Hd as [Hd|[[Hd Hd']|Hd]]; SessionPacket.subs; done.
Qed.

Lemma advanced_same l prev o m :
  0 <= getz l 20 <= 13 -> 36 <= o -> 0 <= m -> o + m <= zlen l -> sub (advanced l prev) o m = sub l o m.
Proof.
  intros Hp Ho Hm Hom. unfold advanced.
  rewrite sub_splice_ge by zl. by rewrite sub_splice_ge by zl.
Qed.

Lemma getz_stamped l o : 104 <= zlen l -> 0 <= o < 68 -> getz (stamped l) o = getz l o.
Proof.
  intros Hl Ho. pose proof (stamped_same l o 1 Hl ltac:(lia) ltac:(lia) ltac:(lia) ltac:(lia)) as E.
  rewrite !sub_one in E by (rewrite ?zlen_stamped; lia). by injection E.
Qed.

(** Both changes together leave sender, kind and payload alone. *)
Lemma opened_same l prev :
  104 <= zlen l -> 0 <= getz l 20 <= 13 ->
  zlen (advanced (stamped l) prev) = zlen l /\
  forall o m, 36 <= o -> 0 <= m -> o + m <= zlen l -> (o + m <= 68 \/ (76 <= o /\ o + m <= 80) \/ 88 <= o) ->
    sub (advanced (stamped l) prev) o m = sub l o m.
Proof.
  intros Hl Hp. pose proof (zlen_stamped l Hl) as Hz. pose proof (getz_stamped l 20 Hl ltac:(lia)) as Hg. split.
  - unfold advanced. rewrite Hg. autorewrite with zlen; lia.
  - intros o m Ho Hm Hom Hd. rewrite advanced_same by (rewrite ?Hg; lia). apply stamped_same; lia.
Qed.

(** The label is advanced in place, and the way back is a new route. *)
Lemma advance_label (b prevrt : slice) h l :
  full h b l -> 36 <= zlen l -> 0 <= getz l 20 <= 13 -> 1 <= s_len prevrt ->
  exists prev rt h',
    (fwdhdr ← reslice b 20 36;
     prev ← s_get prevrt 0;
     pos ← s_get fwdhdr 0;
     _ ← s_set fwdhdr (u8 (2 + pos)) prev;
     pos ← s_get fwdhdr 0;
     _ ← s_set fwdhdr 0 (u8 (pos + 1));
     pos ← s_get fwdhdr 0;
     t ← reslice fwdhdr 2 (u8 (2 + pos));
     Reverse (NewRoute t)) h = Ok (rt, h') /\
    slice_ok h' b /\ contents h' b = advanced l prev.
Proof.
  intros Hf Hl Hp Hr. set (pos := getz l 20) in *.
  erewrite bind_ok by (eapply reslice_window; [exact Hf|lia|lia]).
  erewrite bind_ok by (unfold s_get; erewrite bind_ok by (apply assert_ok; lia); reflexivity).
  set (prev := getz _ _). exists prev.
  erewrite bind_ok by (eapply window_get; [exact Hf|lia|lia|lia]). change (20 + 0) with 20. fold pos.
  replace (u8 (2 + pos)) with (2 + pos) by (unfold u8; lia).
  set (l1 := splice l (22 + pos) [prev]).
  assert (Hz1 : zlen l1 = zlen l) by (unfold l1; apply zlen_splice; rewrite ?zlen_1; lia).
  erewrite bind_ok by (eapply window_set; [exact Hf|lia|lia|lia]). replace (20 + (2 + pos)) with (22 + pos) by lia. fold l1.
  assert (Hf1 : full (upd h (s_arr b) l1) b l1) by (eapply full_upd; [exact Hf|done]).
  erewrite bind_ok by (eapply window_get; [exact Hf1|lia|lia|lia]). change (20 + 0) with 20.
  assert (Hg : getz l1 20 = pos) by (unfold l1; apply getz_splice_out; rewrite ?zlen_1; lia). rewrite Hg.
  replace (u8 (pos + 1)) with (pos + 1) by (unfold u8; lia).
  set (l2 := splice l1 20 [pos + 1]). assert (Hz2 : zlen l2 = zlen l) by (unfold l2; rewrite zlen_splice; rewrite ?zlen_1; lia).
  erewrite bind_ok by (eapply window_set; [exact Hf1|lia|lia|lia]). change (20 + 0) with 20. rewrite upd_upd. fold l2.
  assert (Hf2 : full (upd h (s_arr b) l2) b l2) by (eapply full_upd; [exact Hf|done]).
  erewrite bind_ok by (eapply window_get; [exact Hf2|lia|lia|lia]). change (20 + 0) with 20.
  replace (getz l2 20) with (pos + 1) by (unfold l2; rewrite getz_splice_in by (rewrite ?zlen_1; lia); done).
  replace (u8 (2 + (pos + 1))) with (3 + pos) by (unfold u8; lia).
  pose proof (full_slice_ok _ _ _ Hf2) as Hok. pose proof (full_contents _ _ _ Hf2) as Hco.
  pose proof Hf2 as (_ & Ho & Hsl & Hsc).
  erewrite bind_ok by (apply reslice_ok; cbn; lia).
  edestruct (Reverse_spec (NewRoute (Slice (s_arr b) (s_off b + 20 + 2) (3 + pos - 2) (s_cap b - 20 - 2))) (upd h (s_arr b) l2))
    as (rt & h' & E & _ & _ & Hfr).
  { destruct Hok as (? & ? & ?). unfold route_ok, slice_ok. cbn. lia. }
  exists rt, h'. split; [exact E|]. destruct (Hfr b Hok) as [Hok' Hc']. split; [exact Hok'|]. rewrite Hc', Hco. done.
Qed.

(** The last part of [handlePingPacket] for a reply: from the bytes of the ping
    to the device. *)
Record pong_ready (l : list Z) (len : Z) (own : Addr) (bs : list Z) : Prop := {
  pr_bytes : is_bytes l;
  pr_len : zlen l = TptMTU;
  pr_payload : bs = sub l 88 (len - 104);
  pr_size : 40 <= zlen bs /\ len - 16 <= zlen l;
  pr_reply : sub l 76 4 = Ping.pongRequestId;
  pr_version : Z.shiftr (getz bs 0) 4 = 6;
  pr_own : sub bs 8 16 = AsSlice own
}.

(** The packet that reports the hop [hop] to the sender of [bs]. *)
Definition report (hop : PublicKey) (own : Addr) (bs : list Z) : list Z :=
  let src := AsSlice (IPAddr hop) in
  sub bs 0 4 ++ be_bytes 2 (8 + zlen bs) ++ [58] ++ [64] ++ src ++ AsSlice own ++ exceeded src (AsSlice own) bs.

Lemma zlen_IPAddr k : array 16 (AsSlice (IPAddr k)).
Proof.
  rewrite IPAddr_Addr6. cbn. split.
  - apply zlen_sub; rewrite ?(proj1 (Sum256_array _)); lia.
  - apply is_bytes_sub, Sum256_array.
Qed.

Lemma report_accepted hop own bs :
  pubkey_ok hop -> array 16 (AsSlice own) -> is_bytes bs -> 40 <= zlen bs < 2 ^ 16 - 8 -> Z.shiftr (getz bs 0) 4 = 6 ->
  zlen (report hop own bs) = 48 + zlen bs /\ be_val (sub (report hop own bs) 4 2) = 8 + zlen bs /\
  sub (report hop own bs) 6 2 = [58; 64] /\
  sub (report hop own bs) 8 16 = AsSlice (IPAddr hop) /\ sub (report hop own bs) 24 16 = AsSlice own /\
  sub (report hop own bs) 40 (8 + zlen bs) = exceeded (AsSlice (IPAddr hop)) (AsSlice own) bs /\
  fcnet_verdict (NewPeerID hop) own (report hop own bs) = None.
Proof.
  intros Hk [Hzo _] Hb Hz Hv. destruct (zlen_IPAddr hop) as [Hzs _]. pose proof (zlen_be_bytes 2 (8 + zlen bs)) as Hbe.
  change (Z.of_nat 2) with 2 in Hbe.
  assert (Hfl : zlen (sub bs 0 4) = 4) by (apply zlen_sub; lia).
  set (src := AsSlice (IPAddr hop)) in *. set (dst := AsSlice own) in *.
  pose proof (zlen_exceeded src dst bs) as Hex. unfold report. cbv zeta. fold src dst.
  set (r := sub bs 0 4 ++ _).
  assert (Hr : zlen r = 48 + zlen bs) by (unfold r; rewrite !zlen_app, Hfl, Hbe, Hzs, Hzo, Hex; rewrite !zlen_1; lia).
  assert (R4 : sub r 4 2 = be_bytes 2 (8 + zlen bs)) by (unfold r; rewrite sub_app_skip, Hfl by lia; by apply sub_app_here).
  assert (R6 : sub r 6 2 = [58; 64]).
  { unfold r. rewrite sub_app_skip, Hfl by lia. rewrite sub_app_skip, Hbe by lia. reflexivity. }
  assert (R8 : forall o m, 0 <= o -> sub r (8 + o) m = sub (src ++ dst ++ exceeded src dst bs) o m).
  { intros o m Ho. unfold r. rewrite sub_app_skip, Hfl by lia. rewrite sub_app_skip, Hbe by lia.
    rewrite (sub_app_skip [58]) by (rewrite zlen_1; lia). rewrite (sub_app_skip [64]) by (rewrite !zlen_1; lia).
    rewrite !zlen_1. f_equal. lia. }
  assert (R0 : getz r 0 = getz bs 0).
  { transitivity (getz (sub bs 0 4) 0); [|by rewrite getz_sub by lia]. unfold r, getz. rewrite app_nth1; [done|]. unfold zlen in Hfl. lia. }
  pose proof (R8 0 16 ltac:(lia)) as E8. rewrite (sub_app_here src) in E8 by done. change (8 + 0) with 8 in E8.
  pose proof (R8 16 16 ltac:(lia)) as E24. rewrite sub_app_skip, Hzs in E24 by lia. rewrite (sub_app_here dst) in E24 by done.
  change (8 + 16) with 24 in E24.
  pose proof (R8 32 (8 + zlen bs) ltac:(lia)) as E40. rewrite sub_app_skip, Hzs, sub_app_skip, Hzo in E40 by lia.
  rewrite <- Hex in E40 at 2. change (8 + 32) with 40 in E40. change (32 - 16 - 16) with 0 in E40. rewrite sub_all in E40.
  assert (Hbv : be_val (sub r 4 2) = 8 + zlen bs) by (rewrite R4, be_val_bytes; apply Z.mod_small; change (256 ^ Z.of_nat 2) with 65536; lia).
  do 6 (split; [done|]). unfold fcnet_verdict. rewrite Hr, Hbv, R0, Hv, E8, E24.
  replace (48 + zlen bs <? 40) with false by lia. replace (48 + zlen bs =? _) with true by lia. cbn [negb Z.eqb Pos.eqb].
  rewrite PublicKey_NewPeerID by done. by rewrite !bool_decide_eq_true_2 by done.
Qed.

Lemma Sender_read pkt h la :
  slice_ok h (Buf pkt) -> contents h (Buf pkt) = la -> 68 <= zlen la ->
  Ping.Sender (Ping.mkPing 16 16 pkt) h = Ok (NewPublicKey (sub la 36 32), h).
Proof.
  intros Hs Hc Hl. pose proof (zlen_contents _ _ Hs) as Hsl. rewrite Hc in Hsl.
  unfold Ping.Sender, Ping.field, PublicKeySize. cbn [Ping.pkt Ping.Offset].
  erewrite bind_ok by (apply (slice_read _ _ Hs); lia). rewrite Hc. done.
Qed.

Lemma handle_reply_reports dev (pkt : Packet) fc n la bs (h := mem (sess n)) (hop := NewPublicKey (sub la 36 32)) :
  slice_ok h (Buf pkt) -> contents h (Buf pkt) = la -> 104 <= zlen la ->
  is_bytes (sub la 36 32) -> is_bytes bs -> bs = sub la 88 (Packet.Length pkt - 104) -> zlen bs = Packet.Length pkt - 104 ->
  40 <= zlen bs < 2 ^ 16 - 8 -> Packet.Length pkt - 16 <= zlen la ->
  Z.shiftr (getz bs 0) 4 = 6 -> sub bs 8 16 = AsSlice (ip fc) -> array 16 (AsSlice (ip fc)) -> (forall x, dev x = false) ->
  exists n', handle_reply dev (Ping.mkPing 16 16 pkt) (fc, n) = Ok (None, (write_device (report hop (ip fc) bs) fc, n')).
Proof.
  intros Hs Hc Hl Hbk Hb Hbs Hlen Hz Hend Hver Hown Harr Hdev.
  pose proof (zlen_contents _ _ Hs) as Hsl. rewrite Hc in Hsl.
  assert (Hk : pubkey_ok hop).
  { unfold hop. rewrite NewPublicKey_array by (apply zlen_sub; lia). split; [apply zlen_sub; lia|exact Hbk]. }
  destruct (slice_reslice _ _ Hs 88 (Packet.Length pkt - 16)) as (t & Et & Hst & Htl & Htc); [lia|lia|].
  rewrite Hc in Htc. replace (Packet.Length pkt - 16 - 88) with (Packet.Length pkt - 104) in * by lia. rewrite <- Hbs in Htc.
  unfold handle_reply, verify. erewrite heap_look by (unfold Ping.Payload; cbn [Ping.pkt Ping.Offset Ping.Padding]; exact Et).
  erewrite bind_ok by reflexivity. unfold id. cbn [fst].
  erewrite heap_look by (apply (slice_read _ _ Hst 8 24); lia). fold h. rewrite Htc. change (24 - 8) with 16.
  rewrite bool_decide_eq_true_2 by exact Hown. cbn [negb].
  erewrite heap_look by (apply (Sender_read pkt h la); done || lia). erewrite heap_look by reflexivity. fold h. rewrite Htc.
  pose proof (zlen_IPAddr hop) as Ha. unfold mbind at 1, M_bind at 1. unfold of_res.
  rewrite icmp_message_spec by (apply Ha || apply Harr || lia). cbv iota.
  erewrite heap_look by (apply (slice_read _ _ Hst 0 4); lia). fold h. rewrite Htc. change (4 - 0) with 4.
  rewrite time_exceeded_spec by (rewrite ?zlen_exceeded; (apply Ha || apply Harr || lia || (apply zlen_sub; lia))).
  rewrite zlen_exceeded. erewrite heap_step by reflexivity. fold h. set (p2 := sub bs 0 4 ++ _).
  change p2 with (report hop (ip fc) bs). set (n1 := over l_mem _ n).
  assert (Hn1 : mem (sess n1) = h ++ [report hop (ip fc) bs]) by done.
  erewrite heap_look by (rewrite Hn1; apply (Sender_read pkt _ la); [by apply slice_ok_app|by rewrite contents_app|lia]). fold hop.
  destruct (report_accepted hop (ip fc) bs Hk Harr) as (Hzr & _ & _ & _ & _ & _ & Hv); [done|lia|done|].
  pose proof (full_alloc h (report hop (ip fc) bs)) as Hfa. rewrite <- Hn1 in Hfa.
  rewrite handleFcnetPacket_verdict by (eapply full_slice_ok; exact Hfa).
  rewrite (full_contents _ _ _ Hfa), Hv. exists n1. unfold Device_Write. by rewrite Hdev.
Qed.

Lemma reply_reported dev (lpkt : LowerPacket.LowerPacket) fc n l bs prevrt
    (pkt := LowerPacket.pkt lpkt) (hop := NewPublicKey (sub l 36 32)) :
  full (mem (sess n)) (Buf pkt) l -> pong_ready l (Packet.Length pkt) (ip fc) bs ->
  0 <= getz l 20 <= 13 -> getz l 21 <= getz l 20 + 1 ->
  GetRoute (LowerSrc pkt) (routing n) = inl prevrt -> 1 <= Len prevrt ->
  array 16 (AsSlice (ip fc)) -> (forall x, dev x = false) ->
  exists n', handlePingPacket dev lpkt (fc, n) = Ok (None, (write_device (report hop (ip fc) bs) fc, n')).
Proof.
  intros Hf [Hb Hl Hbs Hsz Hrep Hver Hown] Hpos Hdst Hgr Hpl Harr Hdev. change TptMTU with 1452 in Hl.
  assert (Hlen : zlen bs = Packet.Length pkt - 104).
  { destruct (Z.lt_ge_cases (Packet.Length pkt) 104) as [Hlt|Hge]; [|rewrite Hbs; apply zlen_sub; lia].
    exfalso. revert Hsz. rewrite Hbs. unfold sub. replace (Z.to_nat (Packet.Length pkt - 104)) with 0%nat by lia.
    rewrite take_0, zlen_nil. lia. }
  pose proof (zlen_stamped l ltac:(lia)) as Hzs.
  unfold handlePingPacket. fold pkt. erewrite heap_step by (apply NewPingPacket_full; [exact Hf|lia]).
  set (n1 := over l_mem _ n).
  assert (Hf1 : full (mem (sess n1)) (Buf pkt) (stamped l)) by (eapply full_upd; [exact Hf|done]).
  assert (Hz1 : 36 <= zlen (stamped l)) by lia.
  erewrite heap_look.
  2: { unfold Ping.IsDestination. cbn [Ping.pkt Ping.Offset]. change (16 + 4) with 20. change (20 + 1) with 21.
    erewrite bind_ok by (eapply s_get_full; [exact Hf1|lia]). erewrite bind_ok by (eapply s_get_full; [exact Hf1|lia]). reflexivity. }
  rewrite !getz_stamped by lia. replace (getz l 21 <=? getz l 20 + 1) with true by lia. cbn [negb].
  erewrite bind_ok by reflexivity. unfold id. cbn [snd]. change (routing n1) with (routing n). rewrite Hgr.
  cbv zeta. cbn [Ping.Offset Ping.pkt]. change (16 + 4) with 20. change (16 + 20) with 36.
  destruct (advance_label (Buf pkt) (Route.Bytes prevrt) (mem (sess n1)) (stamped l) Hf1 Hz1) as (prev & rt & h2 & E & Hok & Hco);
    [rewrite getz_stamped by lia; lia|exact Hpl|].
  erewrite heap_step by exact E. set (n2 := over l_mem h2 n1). assert (Hn2 : mem (sess n2) = h2) by done.
  destruct (opened_same l prev ltac:(lia) Hpos) as [Hzla Hla]. set (la := advanced (stamped l) prev) in *. rewrite Hl in *.
  erewrite heap_look.
  2: { rewrite Hn2. unfold Ping.IsReply, Ping.RequestId, Ping.field. cbn [Ping.pkt Ping.Offset].
    erewrite bind_ok; [reflexivity|]. erewrite bind_ok; [reflexivity|]. apply (slice_read _ _ Hok); [by vm_compute|].
    rewrite <- (zlen_contents _ _ Hok), Hco, Hzla. by vm_compute. }
  rewrite Hco. change (16 + 60 + Ping.RequestIdSize - (16 + 60)) with 4. change (16 + 60) with 76. rewrite (Hla 76 4), Hrep by lia.
  rewrite bool_decide_eq_true_2 by done.
  assert (E36 : sub la 36 32 = sub l 36 32) by (apply Hla; lia). unfold hop. rewrite <- E36.
  apply (handle_reply_reports dev pkt fc n2 la bs); rewrite ?Hn2; try done; try lia.
  - rewrite E36. auto with rovy.
  - rewrite Hbs. auto with rovy.
  - rewrite Hla by lia. exact Hbs.
Qed.
End pong.

(** ** Properties *)

Section properties.
Context `{Crypto, MaddrLib} {UH LH : Type}.

(** C29: whatever a peer sends as an IPv6 packet, handling it returns, and the
    device gets at most that packet, and only if it is a complete IPv6 packet
    whose source is the address of the very peer that sent it and whose
    destination is our own: no peer can speak with another's address. A packet
    that is refused leaves no trace. *)
Theorem handleFcnetPacket_antispoof (dev : list Z -> bool) (src : PeerID) (payload : slice) (fc : Fcnet)
    (n : Node UH LH) (bs := contents (mem (sess n)) payload) :
  slice_ok (mem (sess n)) payload ->
  exists e fc', handleFcnetPacket dev src payload (fc, n) = Ok (e, (fc', n)) /\
    ((e = None /\ device fc' = device fc ++ [bs] /\ dev bs = false /\
      sub bs 8 16 = AsSlice (IPAddr (PeerID.PublicKey_ src)) /\ sub bs 24 16 = AsSlice (ip fc) /\
      zlen bs = 40 + be_val (sub bs 4 2) /\ Z.shiftr (getz bs 0) 4 = 6) \/
     (is_Some e /\ fc' = fc)).
Proof.
  intros Hs. rewrite handleFcnetPacket_verdict by done. fold bs. unfold fcnet_verdict.
  destruct (zlen bs <? 40); [eauto 10|]. destruct (Z.eqb_spec (zlen bs) (be_val (sub bs 4 2) + 40)); cbn [negb]; [|eauto 10].
  destruct (Z.eqb_spec (Z.shiftr (getz bs 0) 4) 6); cbn [negb]; [|eauto 10].
  case_bool_decide; cbn [negb]; [|eauto 10]. case_bool_decide; cbn [negb]; [|eauto 10].
  unfold Device_Write. destruct (dev bs) eqn:Ed; [eauto 10|].
  eexists None, _. split; [reflexivity|]. left. cbn. repeat (split; [done || lia|]). done.
Qed.
End properties.

Section endtoend.
Context `{CryptoLaws, MaddrLib, VarintLaws, GoRuntime, IcmpLib} {UH LH : Type}.

(** C27: IPv6 end to end. A packet that the device of one node emits, from its
    own address to the address of a peer it has a route to, with a hop limit
    that covers the route, is queued for exactly that peer with the endpoint's
    codec, that route and the packet as payload; and when the peer's handler is
    given these bytes as coming from the node, it accepts them and writes them
    to its device unchanged. *)
Theorem fcnet_end_to_end (fails1 dev : list Z -> bool) (buf : slice) (bs : list Z) (fca : Fcnet) (na : Node UH LH)
    (src dst : PeerID) (route : Route) (h := mem (sess na)) :
  slice_ok h buf -> contents h buf = bs -> (s_arr buf < length h)%nat ->
  ipv6_packet bs (PeerID.PublicKey_ src) (PeerID.PublicKey_ dst) -> zlen bs <= UpperMTU ->
  ip fca = IPAddr (PeerID.PublicKey_ src) -> Contains linklocalPrefix (IPAddr (PeerID.PublicKey_ src)) = false ->
  Contains multicastPrefix (IPAddr (PeerID.PublicKey_ dst)) = false -> IPAddr (PeerID.PublicKey_ dst) <> fc1Addr ->
  LookupIPv6 (IPAddr (PeerID.PublicKey_ dst)) (routing na) = inl dst -> GetRoute dst (routing na) = inl route ->
  route_ok h route -> is_bytes (bytes_of h route) -> Len route <= 14 -> Len route <= getz bs 7 ->
  (s_arr (hops route) < length h)%nat -> idle UpperSend na ->
  exists na' u,
    handleTunPacket fails1 buf (fca, na) = Ok (None, (fca, na')) /\
    holding UpperSend (UpperPacket.pkt u) na' /\ UpperDst (UpperPacket.pkt u) = dst /\
    UpperPacket.Codec u (mem (sess na')) = Ok (Some FcnetMulticodec, mem (sess na')) /\
    (exists rt, UpperPacket.Route_ u (mem (sess na')) = Ok (rt, mem (sess na')) /\
       bytes_of (mem (sess na')) rt = bytes_of h route) /\
    (exists s, UpperPacket.Payload u (mem (sess na')) = Ok (s, mem (sess na')) /\ contents (mem (sess na')) s = bs) /\
    forall (fcb : Fcnet) (nb : Node UH LH) (s : slice),
      ip fcb = IPAddr (PeerID.PublicKey_ dst) -> slice_ok (mem (sess nb)) s -> contents (mem (sess nb)) s = bs ->
      dev bs = false ->
      handleFcnetPacket dev src s (fcb, nb) = Ok (None, (write_device bs fcb, nb)).
Proof.
  intros Hs Hbs Ha Hv6 Hz Hip Hll Hmc Hfc1 HL HG Hr Hbr Hn14 Hhops Hra Hq.
  pose proof (handleTunPacket_sends fails1 buf bs fca na src dst route Hs Hbs Ha Hv6 Hz Hip Hll Hmc Hfc1 HL HG Hr Hn14 Hhops Hra Hq) as E.
  pose proof (zlen_contents _ _ Hr) as Hzr. fold (bytes_of h route) in Hzr. unfold Len in *.
  eexists _, (UpperPacket.mkUpper 52 32 (msg_pkt h dst bs)). split; [exact E|]. split; [apply holding_push|]. split; [done|].
  destruct (upper_image_reads (msg_pkt h dst bs) (h ++ [upper_image (zeros TptMTU) FcnetMulticodec (bytes_of h route) bs])
    (zeros TptMTU) FcnetMulticodec (bytes_of h route) bs) as (_ & R2 & R3 & R4); try done.
  { apply full_snoc. by rewrite zlen_upper_image by (done || lia). }
  { apply is_bytes_zeros. }
  { apply (v6_bytes _ _ _ Hv6). }
  { lia. }
  split; [exact R2|]. split; [exact R3|]. split; [exact R4|].
  intros fcb nb s Hipb Hsb Hcb Hdev. rewrite handleFcnetPacket_verdict, Hcb by done.
  destruct Hv6 as [_ Hlen Hmin Hver Hsrc Hdst]. unfold fcnet_verdict.
  replace (zlen bs <? 40) with false by lia. replace (zlen bs =? _) with true by lia. rewrite Hver. cbn [negb Z.eqb Pos.eqb].
  rewrite bool_decide_eq_true_2 by done. rewrite Hipb, bool_decide_eq_true_2 by done. cbn [negb].
  unfold Device_Write. by rewrite Hdev.
Qed.
End endtoend.

Section traceroute.
Context `{CryptoLaws, MaddrLib, Varint, GoRuntime, IcmpLaws} {UH LH : Type}.

(** C30: traceroute. When the answer to one of our pings arrives, the device
    gets one IPv6 packet that says the hop limit ran out at the hop that
    answered: it comes from that hop's address, goes to ours, carries an ICMPv6
    time-exceeded message about the very packet the ping was for, its length
    field is right, and the message's checksum verifies over the pseudo-header.
    The endpoint's own address check accepts it. *)
Theorem ping_reply_reported (dev : list Z -> bool) (lpkt : LowerPacket.LowerPacket) (fc : Fcnet) (n : Node UH LH)
    (l bs : list Z) (prevrt : Route) (pkt := LowerPacket.pkt lpkt) (hop := NewPublicKey (sub l 36 32)) :
  full (mem (sess n)) (Buf pkt) l -> pong_ready l (Packet.Length pkt) (ip fc) bs ->
  0 <= getz l 20 <= 13 -> getz l 21 <= getz l 20 + 1 ->
  GetRoute (LowerSrc pkt) (routing n) = inl prevrt -> 1 <= Len prevrt ->
  array 16 (AsSlice (ip fc)) -> (forall x, dev x = false) ->
  exists n' p2, handlePingPacket dev lpkt (fc, n) = Ok (None, (write_device p2 fc, n')) /\
    zlen p2 = 48 + zlen bs /\ be_val (sub p2 4 2) = zlen p2 - 40 /\ sub p2 6 2 = [58; 64] /\
    sub p2 8 16 = AsSlice (IPAddr hop) /\ sub p2 24 16 = AsSlice (ip fc) /\
    sub p2 40 2 = [3; 0] /\ sub p2 48 (zlen bs) = bs /\
    Ping.icmpChecksum (sub p2 8 32 ++ be_bytes 4 (zlen p2 - 40) ++ [0; 0; 0; 58] ++ sub p2 40 (zlen p2 - 40)) = 0.
Proof.
  intros Hf Hpr Hpos Hdst Hgr Hpl Harr Hdev. pose proof Hpr as [Hb Hl Hbs Hsz Hrep Hver Hown]. change TptMTU with 1452 in Hl.
  destruct (reply_reported dev lpkt fc n l bs prevrt Hf Hpr Hpos Hdst Hgr Hpl Harr Hdev) as (n' & E).
  exists n', (report hop (ip fc) bs). split; [exact E|]. clear E.
  assert (Hbb : is_bytes bs) by (rewrite Hbs; auto with rovy).
  assert (Hzb : zlen bs < 2 ^ 16 - 8) by (rewrite Hbs; unfold sub, zlen in *; rewrite length_take, length_drop; lia).
  assert (Hk : pubkey_ok hop).
  { unfold hop. rewrite NewPublicKey_array by (apply zlen_sub; lia). split; [apply zlen_sub; lia|cbn; auto with rovy]. }
  destruct (report_accepted hop (ip fc) bs Hk Harr Hbb ltac:(lia) Hver) as (R1 & R2 & R3 & R4 & R5 & R6 & _).
  set (r := report hop (ip fc) bs) in *. rewrite R1. replace (48 + zlen bs - 40) with (8 + zlen bs) by lia.
  split; [done|]. split; [lia|]. do 3 (split; [done|]).
  assert (E8 : sub r 8 32 = AsSlice (IPAddr hop) ++ AsSlice (ip fc))
    by (change 32 with (16 + 16); rewrite sub_split by lia; change (8 + 16) with 24; by rewrite R4, R5).
  split; [|split].
  - rewrite <- (Z.add_0_r 40), <- (sub_sub r 40 (8 + zlen bs)), R6 by lia. done.
  - change 48 with (40 + 8). rewrite <- (sub_sub r 40 (8 + zlen bs)), R6 by lia. unfold exceeded. cbv zeta.
    rewrite !app_assoc. rewrite sub_app_skip by done. apply sub_all.
  - rewrite E8, R6. pose proof (exceeded_checksum _ _ bs (zlen_IPAddr hop) Harr Hbb ltac:(lia)) as Ec.
    unfold pseudo in Ec. rewrite <- !app_assoc in Ec. rewrite <- !app_assoc. exact Ec.
Qed.
End traceroute.

(** ** Examples *)

#[export] Instance toy_icmp : IcmpLib := {
  icmp_IPv6PseudoHeader := fun src dst => src ++ dst ++ zeros 4 ++ [0; 0; 0; 58];
  icmp_TimeExceeded_Marshal := fun data => Some (zeros 4 ++ data)
}.
#[export] Instance toy_icmp_laws : IcmpLaws.
Proof. by split. Qed.

(** An empty IPv6 packet between two peers. *)
Definition fc_packet (src dst : PeerID) : list Z :=
  [96; 0; 0; 0; 0; 0; 59; 64] ++ AsSlice (IPAddr (PeerID.PublicKey_ src)) ++ AsSlice (IPAddr (PeerID.PublicKey_ dst)).
Definition fc_endpoint (p : PeerID) : Fcnet := mkFcnet (IPAddr (PeerID.PublicKey_ p)) [] [] [].
Definition fc_node (h : heap) (r : Routing) : Node unit unit :=
  nd_node (over mem_lens h (sw_world Ikpsk2.hs_si [])) [] r NewForwarder ∅ [].
Definition fc_route : Route := mkRoute (Slice 1 0 1 1).
Definition fc_routing : Routing :=
  mkRouting {[sw_pb := [fc_route]]} {[IPAddr (PeerID.PublicKey_ sw_pb) := sw_pb]}.
Definition fc_buf : slice := Slice 0 0 40 40.

Lemma fc_packet_ok src dst :
  zlen (fc_packet src dst) = 40 /\ ipv6_packet (fc_packet src dst) (PeerID.PublicKey_ src) (PeerID.PublicKey_ dst).
Proof.
  destruct (zlen_IPAddr (PeerID.PublicKey_ src)) as [Hs Hbs]. destruct (zlen_IPAddr (PeerID.PublicKey_ dst)) as [Hd Hbd].
  unfold fc_packet. set (a := AsSlice (IPAddr (PeerID.PublicKey_ src))) in *. set (b := AsSlice (IPAddr (PeerID.PublicKey_ dst))) in *.
  assert (Hz : zlen ([96; 0; 0; 0; 0; 0; 59; 64] ++ a ++ b) = 40) by (rewrite !zlen_app, Hs, Hd; done).
  split; [exact Hz|]. split; fold a b.
  - unfold is_bytes in *. rewrite !Forall_app. split_and!; [by repeat constructor|done|done].
  - by rewrite Hz.
  - lia.
  - done.
  - rewrite sub_app_skip by done. by apply sub_app_here.
  - rewrite sub_app_skip by done. rewrite sub_app_skip, Hs by (rewrite Hs; done). change (24 - zlen _ - 16) with 0.
    rewrite <- Hd. apply sub_all.
Qed.

Lemma fc_slice src dst h : slice_ok (fc_packet src dst :: h) fc_buf /\ contents (fc_packet src dst :: h) fc_buf = fc_packet src dst.
Proof.
  destruct (fc_packet_ok src dst) as [Hz _]. unfold slice_ok, contents. cbn [s_off s_len s_cap s_arr fc_buf].
  change (arr _ 0) with (fc_packet src dst). rewrite Hz. split; [lia|]. rewrite <- Hz. apply sub_all.
Qed.

Lemma handleFcnetPacket_antispoof_witness :
  exists e fc', handleFcnetPacket (fun _ => false) sw_pa fc_buf (fc_endpoint sw_pb, fc_node [fc_packet sw_pb sw_pb] fc_routing) =
    Ok (e, (fc', fc_node [fc_packet sw_pb sw_pb] fc_routing)).
Proof.
  destruct (handleFcnetPacket_antispoof (fun _ => false) sw_pa fc_buf (fc_endpoint sw_pb)
    (fc_node [fc_packet sw_pb sw_pb] fc_routing)) as (e & fc' & E & _); [apply fc_slice|].
  exists e, fc'. exact E.
Defined.

Lemma fcnet_end_to_end_witness :
  exists na' u,
    handleTunPacket (fun _ => false) fc_buf
      (fc_endpoint sw_pa, fc_node [fc_packet sw_pa sw_pb; [7]] fc_routing) = Ok (None, (fc_endpoint sw_pa, na')) /\
    UpperDst (UpperPacket.pkt u) = sw_pb.
Proof.
  destruct (fc_packet_ok sw_pa sw_pb) as [Hz Hv].
  destruct (fcnet_end_to_end (fun _ => false) (fun _ => false) fc_buf (fc_packet sw_pa sw_pb)
    (fc_endpoint sw_pa) (fc_node [fc_packet sw_pa sw_pb; [7]] fc_routing) sw_pa sw_pb fc_route)
    as (na' & u & E & _ & Hu & _).
  - apply fc_slice.
  - apply fc_slice.
  - cbn; lia.
  - exact Hv.
  - rewrite Hz. by vm_compute.
  - done.
  - by vm_compute.
  - by vm_compute.
  - by vm_compute.
  - by vm_compute.
  - by vm_compute.
  - by split_and!.
  - by apply (bool_decide_unpack _).
  - by vm_compute.
  - by vm_compute.
  - cbn; lia.
  - by split.
  - exists na', u. split; [exact E|exact Hu].
Defined.

(** The answer of [sw_pb] to a ping for a packet of [sw_pa], in its buffer. *)
Definition fc_pong : list Z :=
  splice (splice (splice (splice (zeros TptMTU) 20 [0; 1]) 36 (pub_bytes (PeerID.PublicKey_ sw_pb))) 76 Ping.pongRequestId)
    88 (fc_packet sw_pa sw_pb).
Definition fc_lpkt : LowerPacket.LowerPacket :=
  LowerPacket.NewLowerPacket (set_LowerSrc sw_pb (set_Length 144 (NewPacket (Slice 0 0 TptMTU TptMTU)))).

Lemma ping_reply_reported_witness :
  exists n' p2,
    @handlePingPacket _ _ _ round8 _ _ _ (fun _ => false) fc_lpkt (fc_endpoint sw_pa, fc_node [fc_pong; [7]] fc_routing) =
      Ok (None, (write_device p2 (fc_endpoint sw_pa), n')) /\ sub p2 40 2 = [3; 0].
Proof.
  destruct (@ping_reply_reported _ _ _ _ round8 _ _ _ _ (fun _ => false) fc_lpkt (fc_endpoint sw_pa)
    (fc_node [fc_pong; [7]] fc_routing) fc_pong (fc_packet sw_pa sw_pb) fc_route) as (n' & p2 & E & _ & _ & _ & _ & _ & H3 & _).
  - split; [reflexivity|]. split; [reflexivity|]. split; vm_compute; reflexivity.
  - split.
    + apply (bool_decide_unpack _). vm_compute. exact I.
    + vm_compute. reflexivity.
    + vm_compute. reflexivity.
    + vm_compute. split; discriminate.
    + vm_compute. reflexivity.
    + vm_compute. reflexivity.
    + vm_compute. reflexivity.
  - by vm_compute.
  - by vm_compute.
  - by vm_compute.
  - by vm_compute.
  - apply zlen_IPAddr.
  - done.
  - exists n', p2. split; [exact E|exact H3].
Defined.
