(* ===== verification/Discovery.v ===== *)
(** * Discovery: services and link-local discovery
    (node/service/service.go, node/discovery/linklocal.go, node/discovery.go)

    The service manager keeps services by tag and only knows that they can be
    started and stopped: [ServiceImpl] is that interface. Link-local discovery
    is the one service of the program; its objects are shared with the manager
    by pointer. What it sends and receives is in Announce. *)

From S2P Require Import Prelude GoMem Route Ext Toy Key PeerID Multiaddr Packet RingBuf Routing Forwarder SessionPacket Ikpsk2 Session Node Ping Fcnet.
Import NetIP Multiaddr.

Module Service.

Inductive error : Type :=
| ErrServiceUnknown
| ErrServiceRunning
| ErrServiceNotRunning
| EListenUDP.

(** A kind of services [V] with state [W]; [E] is what the environment decides
    when one is started. *)
Class ServiceImpl (V W E : Type) : Type := {
  svc_Start : V -> E -> M W (option error);
  svc_Stop : V -> M W (option error)
}.

Section manager.
Context `{ServiceImpl V W E}.

Abbreviation ServiceManager := (gmap string V).

Definition NewServiceManager : ServiceManager := ∅.

Definition Add (tag : string) (svc : V) : M (ServiceManager * W) (option error) :=
  st ← gets id;
  _ ← match fst st !! tag with
      | Some svc2 => zoom snd_lens (svc_Stop svc2)
      | None => mret None
      end;
  _ ← zoom fst_lens (modify (fun m => <[tag := svc]> m));
  mret None.

Definition Start (tag : string) (env : E) : M (ServiceManager * W) (option error) :=
  st ← gets id;
  match fst st !! tag with
  | None => mret (Some ErrServiceUnknown)
  | Some svc => zoom snd_lens (svc_Start svc env)
  end.

Definition Stop (tag : string) : M (ServiceManager * W) (option error) :=
  st ← gets id;
  match fst st !! tag with
  | None => mret (Some ErrServiceUnknown)
  | Some svc => zoom snd_lens (svc_Stop svc)
  end.
End manager.
End Service.
Import Service.

Module LinkLocal.

Definition ServiceTagLinkLocal : string := "/rovyservice/linklocal".

Record LinkLocal : Type := mkLinkLocal { Interval : Z; running : Node.runstate }.

(** The objects, by pointer. *)
Abbreviation objects := (list LinkLocal).

Definition Running (ll : LinkLocal) : bool := Node.Running_ (running ll).

Definition set_running (p : nat) (r : Node.runstate) : M objects unit :=
  modify (fun os => alter (fun ll => mkLinkLocal (Interval ll) r) p os).

Definition get (p : nat) : M objects LinkLocal := fun os =>
  match os !! p with Some ll => Ok (ll, os) | None => Panic end.

(** [opened] says whether [net.ListenUDP] succeeds. The routines that are started
    at the end are in Announce, and [announce_ticker] below. *)
Definition Start (p : nat) (opened : bool) : M objects (option error) :=
  ll ← get p;
  if Running ll then mret (Some ErrServiceRunning) else
  _ ← set_running p Node.ROpen;
  if negb opened then mret (Some EListenUDP) else mret None.

Definition Stop (p : nat) : M objects (option error) :=
  ll ← get p;
  if negb (Running ll) then mret (Some ErrServiceNotRunning) else
  _ ← set_running p Node.RClosed;
  mret None.

(** The first statement of [announceRoutine], in a routine of its own:
    [time.NewTicker] panics when the interval is not positive. *)
Definition announce_ticker (p : nat) : M objects unit :=
  ll ← get p;
  if Interval ll <=? 0 then panic else mret tt.

#[export] Instance linklocal_service : ServiceImpl nat objects bool := { svc_Start := Start; svc_Stop := Stop }.

(** [DiscoveryAPI.StartLinkLocal] and [StopLinkLocal]. *)
Definition StartLinkLocal (interval : Z) (opened : bool) : M (gmap string nat * objects) (option error) :=
  st ← gets id;
  let ll := length (snd st) in
  _ ← zoom snd_lens (modify (fun os => os ++ [mkLinkLocal interval Node.RNil]));
  err ← Add ServiceTagLinkLocal ll;
  match err with
  | Some e => mret (Some e)
  | None => Service.Start ServiceTagLinkLocal opened
  end.

Definition StopLinkLocal : M (gmap string nat * objects) (option error) :=
  Service.Stop ServiceTagLinkLocal.

(** ** Which interfaces to announce on *)

(** [Addr.IsLinkLocalUnicast]. *)
Definition IsLinkLocalUnicast (a : Addr) : bool :=
  match a with
  | AddrZero => false
  | Addr4 b => (getz b 0 =? 169) && (getz b 1 =? 254)
  | Addr6 b _ => (getz b 0 =? 0xfe) && (Z.land (getz b 1) 0xc0 =? 0x80)
  end.

Inductive if_error : Type := EInterfaces | EAddrs | EParse.

(** One interface: its name, and what [Addrs] gives, each address with the
    outcome of parsing it. *)
Definition iface : Type := string * option (list (option Addr)).

(** The inner loop, from the values of [capable], [isrovy] and [addr]. *)
Fixpoint scan (l : list (option Addr)) (capable isrovy : bool) (addr : Addr) : (bool * bool * Addr) + if_error :=
  match l with
  | [] => inl (capable, isrovy, addr)
  | None :: _ => inr EParse
  | Some a :: l =>
      let isrovy := if Fcnet.Contains [0xfc] a then true else isrovy in
      if Is6 a && IsLinkLocalUnicast a then scan l true isrovy a else scan l capable isrovy addr
  end.

Fixpoint collect (ifs : list iface) (out : gmap string Addr) : gmap string Addr * option if_error :=
  match ifs with
  | [] => (out, None)
  | (name, None) :: _ => (out, Some EAddrs)
  | (name, Some l) :: ifs =>
      match scan l false false AddrZero with
      | inr e => (out, Some e)
      | inl (capable, isrovy, addr) =>
          collect ifs (if (capable : bool) && negb (isrovy : bool) then <[name := addr]> out else out)
      end
  end.

(** [ifaces] is what [net.Interfaces] returns. *)
Definition linklocalCapableInterfaces (ifaces : option (list iface)) : gmap string Addr * option if_error :=
  match ifaces with
  | None => (∅, Some EInterfaces)
  | Some ifs => collect ifs ∅
  end.

(** The port to announce: that of the first listener on IPv6, else 0. *)
Fixpoint announced_port `{MaddrLib} (listeners : list Multiaddr) : Z :=
  match listeners with
  | [] => 0
  | ma :: listeners => if Is6 (IP ma) then Port ma else announced_port listeners
  end.
End LinkLocal.
Import LinkLocal.

(** ** Services *)

(** At most the registered object runs, and it exists. *)
Record disc_ok (st : gmap string nat * objects) : Prop := {
  disc_reg : forall p, fst st !! ServiceTagLinkLocal = Some p -> (p < length (snd st))%nat;
  disc_run : forall p ll, snd st !! p = Some ll -> Running ll = true -> fst st !! ServiceTagLinkLocal = Some p
}.

Inductive disc_op : Type := DStart (interval : Z) (opened : bool) | DStop.

Definition run_disc (op : disc_op) : M (gmap string nat * objects) (option error) :=
  match op with DStart i o => StartLinkLocal i o | DStop => StopLinkLocal end.

Fixpoint run_discs (ops : list disc_op) : M (gmap string nat * objects) (list (option error)) :=
  match ops with
  | [] => mret []
  | op :: ops => e ← run_disc op; es ← run_discs ops; mret (e :: es)
  end.

Lemma Stop_spec p os ll :
  os !! p = Some ll ->
  exists e os', LinkLocal.Stop p os = Ok (e, os') /\ length os' = length os /\
    (forall q l, os' !! q = Some l -> Running l = true -> q <> p /\ os !! q = Some l) /\
    (forall q, q <> p -> os' !! q = os !! q).
Proof.
  intros E. unfold LinkLocal.Stop. erewrite bind_ok by (unfold get; rewrite E; reflexivity).
  destruct (Running ll) eqn:Er; cbn [negb].
  - eexists _, _. split; [reflexivity|]. split; [apply length_alter|].
    split; [|intros q Hne; by apply list_lookup_alter_ne]. intros q l Hq Hl.
    destruct (decide (q = p)) as [->|Hne]; [|by rewrite list_lookup_alter_ne in Hq].
    rewrite list_lookup_alter_eq, E in Hq. by injection Hq as <-.
  - eexists _, _. split; [reflexivity|]. split; [done|]. split; [|done]. intros q l Hq Hl. split; [|done]. intros ->. congruence.
Qed.

(** The part of [Add] that stops the service it replaces. *)
Lemma replace_old m os (ll : LinkLocal) :
  disc_ok (m, os) -> Running ll = false ->
  exists e os2,
    (match m !! ServiceTagLinkLocal with
     | Some svc2 => zoom snd_lens (svc_Stop svc2)
     | None => mret None
     end : M (gmap string nat * objects) (option error)) (m, os ++ [ll]) = Ok (e, (m, os2)) /\
    length os2 = S (length os) /\ os2 !! length os = Some ll /\
    forall q l, os2 !! q = Some l -> Running l = true -> False.
Proof.
  intros [Hreg Hrun] Hll. cbn [fst snd] in *.
  assert (Hlen : length (os ++ [ll]) = S (length os)) by (rewrite length_app; cbn; lia).
  assert (Hnew : forall q l, (os ++ [ll]) !! q = Some l -> Running l = true -> os !! q = Some l).
  { intros q l [Hq|[Hq El]]%lookup_app_Some Hr; [done|]. apply list_lookup_singleton_Some in El as [_ <-]. congruence. }
  destruct (m !! ServiceTagLinkLocal) as [p|] eqn:Em.
  - pose proof (Hreg p eq_refl) as Hp. destruct (lookup_lt_is_Some_2 (os ++ [ll]) p ltac:(lia)) as [l0 El0].
    destruct (Stop_spec p (os ++ [ll]) l0 El0) as (e & os2 & E & Hl2 & Hs & Hkeep). exists e, os2.
    split; [unfold zoom; cbn [view snd_lens snd svc_Stop linklocal_service]; by rewrite E|]. split; [lia|].
    split; [by rewrite Hkeep, list_lookup_middle by lia|]. intros q l Hq Hr. destruct (Hs q l Hq Hr) as [Hne Hq'].
    apply Hnew in Hq'; [|done]. by injection (Hrun q l Hq' Hr) as ->.
  - exists None, (os ++ [ll]). split; [done|]. split; [done|]. split; [by apply list_lookup_middle|].
    intros q l Hq Hr. by discriminate (Hrun q l (Hnew q l Hq Hr) Hr).
Qed.

(** [StartLinkLocal] replaces the service, stopping the old one, and marks the
    new one as running whether or not it gets its socket. *)
Lemma StartLinkLocal_spec interval opened m os :
  disc_ok (m, os) ->
  exists os' ll, StartLinkLocal interval opened (m, os) =
      Ok (if opened then None else Some EListenUDP, (<[ServiceTagLinkLocal := length os]> m, os')) /\
    length os' = S (length os) /\ os' !! length os = Some ll /\ Running ll = true /\
    Interval ll = interval /\
    (forall q l, os' !! q = Some l -> Running l = true -> q = length os).
Proof.
  intros Hok. unfold StartLinkLocal. erewrite bind_ok by reflexivity. unfold id. cbn [snd].
  erewrite bind_ok by reflexivity. cbn [over snd_lens fst].
  destruct (replace_old m os (mkLinkLocal interval Node.RNil) Hok eq_refl) as (e & os2 & E & Hl2 & Hlast & Hnone).
  unfold Add. erewrite bind_ok; [|erewrite bind_ok by reflexivity; unfold id; cbn [fst]; erewrite bind_ok by exact E; reflexivity].
  unfold Service.Start. erewrite bind_ok by reflexivity. unfold id. cbn [fst over view fst_lens]. rewrite lookup_insert_eq.
  unfold zoom. cbn [view snd_lens snd svc_Start linklocal_service]. unfold LinkLocal.Start.
  erewrite bind_ok by (unfold get; rewrite Hlast; reflexivity). cbn [Running running Node.Running_]. erewrite bind_ok by reflexivity.
  exists (alter (fun ll => mkLinkLocal (Interval ll) Node.ROpen) (length os) os2), (mkLinkLocal interval Node.ROpen).
  split; [by destruct opened|]. split; [by rewrite length_alter|]. split; [by rewrite list_lookup_alter_eq, Hlast|].
  split; [done|]. split; [done|]. intros q l Hq Hr. destruct (decide (q = length os)) as [|Hne]; [done|].
  rewrite list_lookup_alter_ne in Hq by done. by destruct (Hnone q l Hq Hr).
Qed.

Lemma run_disc_ok op st : disc_ok st -> exists e st', run_disc op st = Ok (e, st') /\ disc_ok st'.
Proof.
  destruct st as [m os]. intros Hok. destruct op as [i o|]; cbn [run_disc].
  - destruct (StartLinkLocal_spec i o m os Hok) as (os' & ll & E & Hl & Hll & Hr & _ & Hother).
    eexists _, _. split; [exact E|]. split; cbn [fst snd]; rewrite lookup_insert_eq.
    + intros p [= <-]. lia.
    + intros p l Hp Hrp. by rewrite (Hother p l Hp Hrp).
  - pose proof Hok as [Hreg Hrun]. cbn [fst snd] in *. unfold StopLinkLocal, Service.Stop. erewrite bind_ok by reflexivity.
    unfold id. cbn [fst]. destruct (m !! ServiceTagLinkLocal) as [p|] eqn:Em; [|by exists (Some ErrServiceUnknown), (m, os)].
    destruct (lookup_lt_is_Some_2 os p (Hreg p eq_refl)) as [l0 El0].
    destruct (Stop_spec p os l0 El0) as (e & os2 & E & Hl2 & Hs & _).
    exists e, (m, os2). split; [unfold zoom; cbn [view snd_lens snd svc_Stop linklocal_service]; by rewrite E|].
    split; cbn [fst snd]; rewrite Em; [intros q [= <-]; specialize (Hreg p eq_refl); lia|].
    intros q l Hq Hr. destruct (Hs q l Hq Hr) as [_ Hq']. exact (Hrun q l Hq' Hr).
Qed.

(** ** Interfaces *)

Definition linklocal6 (a : Addr) : bool := Is6 a && IsLinkLocalUnicast a.
Definition in_fc00 (a : Addr) : bool := Fcnet.Contains [0xfc] a.

(** An interface all of whose addresses are known and parse. *)
Definition readable (i : string * list Addr) : iface := (fst i, Some (map Some (snd i))).

Lemma scan_spec (l : list Addr) capable isrovy addr :
  scan (map Some l) capable isrovy addr =
  inl (capable || existsb linklocal6 l, isrovy || existsb in_fc00 l, default addr (list.last (List.filter linklocal6 l))).
Proof.
  revert capable isrovy addr. induction l as [|a l IH]; intros; cbn [map scan existsb List.filter list.last];
    [by rewrite !orb_false_r|]. fold (linklocal6 a) (in_fc00 a).
  destruct (linklocal6 a); rewrite IH; do 2 f_equal.
  all: try (f_equal; destruct capable, isrovy, (in_fc00 a); cbn; congruence).
  rewrite last_cons. by destruct (list.last _).
Qed.

(** What one interface contributes. *)
Definition announces (l : list Addr) (a : Addr) : Prop :=
  list.last (List.filter linklocal6 l) = Some a /\ existsb in_fc00 l = false.

Lemma existsb_last {A} (f : A -> bool) (l : list A) :
  existsb f l = match list.last (List.filter f l) with Some _ => true | None => false end.
Proof.
  induction l as [|x l IH]; [done|]. cbn. destruct (f x); cbn [orb]; [|done].
  rewrite last_cons. by destruct (list.last _).
Qed.

Lemma collect_spec ifs : NoDup ifs.*1 -> forall out, (forall n, n ∈ ifs.*1 -> out !! n = None) ->
  exists out', collect (map readable ifs) out = (out', None) /\
    forall n a, out' !! n = Some a <-> out !! n = Some a \/ exists l, (n, l) ∈ ifs /\ announces l a.
Proof.
  induction ifs as [|[n0 l0] ifs IH]; intros Hnd out Hout.
  { exists out. split; [done|]. intros n a. split; [by left|]. intros [?|(l & Hl & _)]; [done|]. by apply not_elem_of_nil in Hl. }
  cbn in Hnd. apply list.NoDup_cons in Hnd as [Hn0 Hnd].
  cbn [map readable fst snd collect]. rewrite scan_spec, existsb_last. cbn [orb].
  set (o1 := if _ && _ then _ else _).
  assert (Ho1 : forall n a, o1 !! n = Some a <-> out !! n = Some a \/ n = n0 /\ announces l0 a).
  { intros n a. unfold o1, announces. pose proof (Hout n0 ltac:(apply list_elem_of_here)) as E0.
    destruct (list.last _) as [b|] eqn:El, (existsb in_fc00 l0) eqn:Ef; cbn; try naive_solver.
    destruct (decide (n = n0)) as [->|Hne]; [rewrite lookup_insert_eq|rewrite lookup_insert_ne by done]; naive_solver. }
  destruct (IH Hnd o1) as (out' & E & Hs).
  { intros n Hn. destruct (o1 !! n) as [a|] eqn:Ea; [|done].
    apply Ho1 in Ea as [Ea|[-> _]]; [|done]. rewrite Hout in Ea; [done|]. by apply list_elem_of_further. }
  exists out'. split; [exact E|]. intros n a. rewrite Hs, Ho1. split.
  - intros [[?|[-> ?]]|(l & Hl & ?)]; [by left|right..].
    + exists l0. split; [apply list_elem_of_here|done].
    + exists l. split; [by apply list_elem_of_further|done].
  - intros [?|(l & Hl & ?)]; [by left; left|]. apply elem_of_cons in Hl as [[= -> ->]|Hl]; [by left; right|].
    right. by exists l.
Qed.

(** ** Properties *)

(** C31: however often discovery is started and stopped, and whatever becomes of
    its sockets, the calls return and at most one discovery service counts as
    running: the one the service manager has registered. *)
Theorem linklocal_single (ops : list disc_op) :
  exists es m os, run_discs ops (NewServiceManager, []) = Ok (es, (m, os)) /\
    forall p ll, os !! p = Some ll -> Running ll = true -> m !! ServiceTagLinkLocal = Some p.
Proof.
  enough (forall st, disc_ok st -> exists es st', run_discs ops st = Ok (es, st') /\ disc_ok st') as H.
  { destruct (H (NewServiceManager, [])) as (es & [m os] & E & [_ Hrun]); [by split|]. by exists es, m, os. }
  induction ops as [|op ops IH]; intros st Hst; [by exists [], st|].
  destruct (run_disc_ok op st Hst) as (e & st1 & E1 & H1). destruct (IH st1 H1) as (es & st2 & E2 & H2).
  exists (e :: es), st2. split; [|done]. cbn [run_discs]. erewrite bind_ok by exact E1. by erewrite bind_ok by exact E2.
Qed.

(** A discovery service whose socket could not be opened is left marked as
    running: [StartLinkLocal] returns the error, and yet starting the service
    again is refused because it runs already, although no routine of it does. *)
Theorem linklocal_failed_start (interval : Z) (m : gmap string nat) (os : objects) :
  disc_ok (m, os) ->
  exists m' os' p ll, StartLinkLocal interval false (m, os) = Ok (Some EListenUDP, (m', os')) /\
    m' !! ServiceTagLinkLocal = Some p /\ os' !! p = Some ll /\ Running ll = true /\
    Service.Start ServiceTagLinkLocal true (m', os') = Ok (Some ErrServiceRunning, (m', os')).
Proof.
  intros Hok. destruct (StartLinkLocal_spec interval false m os Hok) as (os' & ll & E & _ & Hll & Hr & _).
  eexists _, os', (length os), ll. split; [exact E|]. split; [apply lookup_insert_eq|]. split; [done|]. split; [done|].
  unfold Service.Start. erewrite bind_ok by reflexivity. unfold id. cbn [fst]. rewrite lookup_insert_eq.
  unfold zoom. cbn [view snd_lens snd svc_Start linklocal_service]. unfold LinkLocal.Start.
  erewrite bind_ok by (unfold get; rewrite Hll; reflexivity). by rewrite Hr.
Qed.

(** The interval is not checked by anybody: a start with one that is not positive
    succeeds, and the routine that is to announce panics at once, which ends the
    process; any other interval is taken. *)
Theorem linklocal_interval (interval : Z) (m : gmap string nat) (os : objects) :
  disc_ok (m, os) ->
  exists m' os' p, StartLinkLocal interval true (m, os) = Ok (None, (m', os')) /\
    m' !! ServiceTagLinkLocal = Some p /\
    announce_ticker p os' = (if interval <=? 0 then Panic else Ok (tt, os')).
Proof.
  intros Hok. destruct (StartLinkLocal_spec interval true m os Hok) as (os' & ll & E & _ & Hll & _ & Hi & _).
  eexists _, os', (length os). split; [exact E|]. split; [apply lookup_insert_eq|].
  unfold announce_ticker. erewrite bind_ok by (unfold get; rewrite Hll; reflexivity). rewrite Hi. by destruct (interval <=? 0).
Qed.

Lemma linklocal_interval_witness :
  exists m' os' p, StartLinkLocal 0 true (NewServiceManager, []) = Ok (None, (m', os')) /\
    m' !! ServiceTagLinkLocal = Some p /\ announce_ticker p os' = Panic.
Proof. apply (linklocal_interval 0 NewServiceManager []). by split. Defined.

Lemma linklocal_failed_start_witness :
  exists m' os', StartLinkLocal 5 false (NewServiceManager, []) = Ok (Some EListenUDP, (m', os')) /\
    Service.Start ServiceTagLinkLocal true (m', os') = Ok (Some ErrServiceRunning, (m', os')).
Proof.
  destruct (linklocal_failed_start 5 NewServiceManager []) as (m' & os' & p & ll & E1 & _ & _ & _ & E2); [by split|].
  by exists m', os'.
Defined.

(** When every interface and address can be read, an interface is announced
    on exactly if it has a link-local IPv6 address and none in fc00::/8, which
    keeps discovery off the tunnel device, and the address announced is the last
    of its link-local ones. *)
Theorem linklocal_interfaces (ifs : list (string * list Addr)) :
  NoDup ifs.*1 ->
  exists out, linklocalCapableInterfaces (Some (map readable ifs)) = (out, None) /\
    forall name a, out !! name = Some a <->
      exists l, (name, l) ∈ ifs /\ list.last (List.filter linklocal6 l) = Some a /\ existsb in_fc00 l = false.
Proof.
  intros Hnd. destruct (collect_spec ifs Hnd ∅) as (out & E & Hs); [intros; apply lookup_empty|].
  exists out. split; [exact E|]. intros name a. rewrite Hs, lookup_empty. unfold announces. naive_solver.
Qed.

Lemma linklocal_interfaces_witness :
  let fe80 x := Addr6 ([0xfe; 0x80] ++ zeros 13 ++ [x]) "" in
  let fc := Addr6 ([0xfc] ++ zeros 15) "" in
  exists out, linklocalCapableInterfaces (Some (map readable [("eth0"%string, [fe80 1; fe80 2]); ("rovy0"%string, [fe80 3; fc])])) = (out, None) /\
    out !! "eth0"%string = Some (fe80 2) /\ out !! "rovy0"%string = None.
Proof.
  intros fe80 fc.
  destruct (linklocal_interfaces [("eth0"%string, [fe80 1; fe80 2]); ("rovy0"%string, [fe80 3; fc])])
    as (out & E & Hs); [by apply (bool_decide_unpack _); vm_compute|].
  exists out. split; [exact E|]. split.
  - apply Hs. exists [fe80 1; fe80 2]. split; [apply list_elem_of_here|]. by vm_compute.
  - destruct (out !! "rovy0"%string) as [a|] eqn:Ea; [|done]. apply Hs in Ea as (l & Hl & _ & Hf).
    apply elem_of_cons in Hl as [[=]|Hl]. apply list_elem_of_singleton in Hl as [= ->]. by vm_compute in Hf.
Defined.
