(* ===== verification/Api.v ===== *)
(** * Api: the node's control interface and its HTTP form
    (api/interface.go, api/server/, api/client/, node/api.go, node/peer.go,
    node/discovery.go)

    [NodeAPI] is the Go interface: a record of operations on some state. The
    node implements it directly; the client implements it by HTTP requests to a
    server, which calls another implementation. The theorems about client and
    server are for any implementation behind the server. *)

From S2P Require Import Prelude GoMem Text Duration Route Ext NetipText Toy Key PeerID Multiaddr MultiaddrText Json Packet RingBuf Routing Forwarder SessionPacket Ikpsk2 Session Node Ping Fcnet Discovery.
From Stdlib Require Import String.
Import NetIP PeerID Multiaddr Json.

Module Api.

(** ** api/interface.go *)

Section types.
Context `{MaddrLib}.

Record NodeInfo : Type := mkNodeInfo {
  ni_PeerID : PeerID;
  ni_IPAddress : Addr;
  ni_Running : bool
}.

Record PeerInfo : Type := mkPeerInfo {
  pi_PeerID : PeerID;
  pi_Addr : Multiaddr;
  pi_Status : string;
  pi_Reason : string
}.

(** The lists are nil or not. *)
Record PeerListener : Type := mkPeerListener {
  ListenAddr : Multiaddr;
  EffectiveAddrs : option (list Multiaddr);
  ExternalAddrs : option (list Multiaddr)
}.

Record PeerStatus : Type := mkPeerStatus {
  Peers : list PeerInfo;
  Listeners : list PeerListener
}.

Record DiscoveryLinkLocal : Type := mkDiscoveryLinkLocal { Interval : Z }.
Record DiscoveryStatus : Type := mkDiscoveryStatus { LinkLocal_ : DiscoveryLinkLocal }.

Definition zeroNodeInfo : NodeInfo := mkNodeInfo emptyPeerID AddrZero false.
Definition zeroPeerInfo : PeerInfo := mkPeerInfo emptyPeerID zeroMultiaddr "" "".
Definition zeroPeerListener : PeerListener := mkPeerListener zeroMultiaddr None None.
Definition zeroDiscoveryStatus : DiscoveryStatus := mkDiscoveryStatus (mkDiscoveryLinkLocal 0).

Inductive error : Type :=
| ENode (e : Node.error)
| EService (e : Service.error)
| EFile                       (* dialling, reading or passing a descriptor *)
| EHttp                       (* no response *)
| EStatus (code : Z)          (* a response that is not 200 OK *)
| EDecode
| EEndpoint (e : Fcnet.Fcnet.error).

(** [NodeAPI] with [PeerAPI], [DiscoveryAPI] and [FcnetAPI]. *)
Record NodeAPI (S : Type) : Type := mkNodeAPI {
  Info : M S (NodeInfo * option error);
  Start : M S (NodeInfo * option error);
  Stop : M S (NodeInfo * option error);
  Fcnet_Start : Z -> M S (option error);
  Peer_Status : M S (PeerStatus * option error);
  Peer_Listen : Multiaddr -> M S (PeerListener * option error);
  Peer_Connect : Multiaddr -> M S (PeerInfo * option error);
  Discovery_Status : M S (DiscoveryStatus * option error);
  Discovery_StartLinkLocal : DiscoveryLinkLocal -> M S (option error);
  Discovery_StopLinkLocal : M S (option error)
}.
End types.
#[global] Arguments Info {_ _} _.
#[global] Arguments Start {_ _} _.
#[global] Arguments Stop {_ _} _.
#[global] Arguments Fcnet_Start {_ _} _ _.
#[global] Arguments Peer_Status {_ _} _.
#[global] Arguments Peer_Listen {_ _} _ _.
#[global] Arguments Peer_Connect {_ _} _ _.
#[global] Arguments Discovery_Status {_ _} _.
#[global] Arguments Discovery_StartLinkLocal {_ _} _ _.
#[global] Arguments Discovery_StopLinkLocal {_ _} _.

(** ** JSON forms of the structs *)

Section jsonforms.
Context `{CidLib, MaddrLib}.

Definition NodeInfo_json (ni : NodeInfo) : json :=
  JObj [("PeerID"%string, JStr (PeerID.String_ (ni_PeerID ni)));
        ("IPAddress"%string, JStr (addr_text (ni_IPAddress ni)));
        ("Running"%string, JBool (ni_Running ni))].

Definition set_NodeInfo (k : string) (j : json) (ni : NodeInfo) : NodeInfo * outcome :=
  if key_is "PeerID" k then
    let '(p, o) := method_field (PeerID_UnmarshalJSON (ni_PeerID ni) (Doc j)) in
    (mkNodeInfo p (ni_IPAddress ni) (ni_Running ni), o)
  else if key_is "IPAddress" k then
    let '(a, o) := addr_field (ni_IPAddress ni) j in (mkNodeInfo (ni_PeerID ni) a (ni_Running ni), o)
  else if key_is "Running" k then
    let '(b, o) := bool_field (ni_Running ni) j in (mkNodeInfo (ni_PeerID ni) (ni_IPAddress ni) b, o)
  else (ni, Fits).

Definition maddr_json (ma : Multiaddr) : json := JStr (MultiaddrText.String_ ma).
Definition maddrs_json (l : option (list Multiaddr)) : json :=
  match l with None => JNull | Some l => JArr (map maddr_json l) end.

Definition PeerListener_json (pl : PeerListener) : json :=
  JObj [("ListenAddr"%string, maddr_json (ListenAddr pl));
        ("EffectiveAddrs"%string, maddrs_json (EffectiveAddrs pl));
        ("ExternalAddrs"%string, maddrs_json (ExternalAddrs pl))].

Definition maddr_field (old : Multiaddr) (j : json) : Multiaddr * outcome :=
  method_field (Multiaddr_UnmarshalJSON old (Doc j)).

(** Decoding an array into a slice of addresses; the elements start out zero. *)
Fixpoint maddr_elements (l : list json) (acc : list Multiaddr) : list Multiaddr * outcome :=
  match l with
  | [] => (acc, Fits)
  | j :: l =>
      match maddr_field zeroMultiaddr j with
      | (ma, Fits) => maddr_elements l (acc ++ [ma])
      | (ma, o) => (acc ++ [ma], o)
      end
  end.

Definition maddrs_field (old : option (list Multiaddr)) (j : json) : option (list Multiaddr) * outcome :=
  match j with
  | JNull => (None, Fits)
  | JArr l => let '(l, o) := maddr_elements l [] in (Some l, o)
  | _ => (old, WrongKind)
  end.

Definition set_PeerListener (k : string) (j : json) (pl : PeerListener) : PeerListener * outcome :=
  if key_is "ListenAddr" k then
    let '(ma, o) := maddr_field (ListenAddr pl) j in (mkPeerListener ma (EffectiveAddrs pl) (ExternalAddrs pl), o)
  else if key_is "EffectiveAddrs" k then
    let '(l, o) := maddrs_field (EffectiveAddrs pl) j in (mkPeerListener (ListenAddr pl) l (ExternalAddrs pl), o)
  else if key_is "ExternalAddrs" k then
    let '(l, o) := maddrs_field (ExternalAddrs pl) j in (mkPeerListener (ListenAddr pl) (EffectiveAddrs pl) l, o)
  else (pl, Fits).

(** [struct{ Addr rovy.Multiaddr }], and a struct with one string field. *)
Definition addr_params (ma : Multiaddr) : json := JObj [("Addr"%string, maddr_json ma)].
Definition set_addr_params (k : string) (j : json) (ma : Multiaddr) : Multiaddr * outcome :=
  if key_is "Addr" k then maddr_field ma j else (ma, Fits).

Definition string_params (name : string) (s : string) : json := JObj [(name, JStr s)].
Definition set_string_params (name : string) (k : string) (j : json) (s : string) : string * outcome :=
  if key_is name k then string_field s j else (s, Fits).
End jsonforms.

(** ** api/server *)

Record response : Type := mkResponse { StatusCode : Z; Body : json_text }.

Definition StatusOK : Z := 200.
Definition StatusInternalServerError : Z := 500.
Definition StatusNotFound : Z := 404.

(** What [receiveFD] asks of the operating system and of golang.org/x/sys/unix
    for the socket at a path; [FileTUN] is the device of a descriptor. *)
Class FdEnv : Type := {
  ctrl_msg : Type;
  net_Dial : string -> bool;
  conn_File : string -> bool;
  unix_Recvmsg : string -> option (list Z);
  unix_ParseSocketControlMessage : list Z -> option (list ctrl_msg);
  unix_ParseUnixRights : ctrl_msg -> option (list Z);
  fcnet_FileTUN : Z -> bool
}.

Section server.
Context `{CidLib, MaddrLib, FdEnv} {S : Type}.

(** The node behind the server, which may be any implementation of the interface,
    and [fcnet.NewFcnet(node, tun).Start] on the device of a descriptor, for which
    the server takes the node out of the interface: [endpoint_Start] below. *)
Context (node : NodeAPI S) (fcnet_Start : Z -> M S (option error)).

Definition receiveFD (socket : string) : Z + error :=
  if negb (net_Dial socket) then inr EFile else
  if negb (conn_File socket) then inr EFile else
  match unix_Recvmsg socket with
  | None => inr EFile
  | Some oob =>
      match unix_ParseSocketControlMessage oob with
      | None => inr EFile
      | Some msgs =>
          match msgs with
          | [msg] =>
              match unix_ParseUnixRights msg with
              | None => inr EFile
              | Some [fd] => inl fd
              | Some _ => inr EFile
              end
          | _ => inr EFile
          end
      end
  end.

Definition writeError : response := mkResponse StatusInternalServerError NoData.
Definition ok_json (j : json) : response := mkResponse StatusOK (Doc j).
Definition ok_empty : response := mkResponse StatusOK NoData.

Definition serveInfo (body : json_text) : M S response :=
  '(ni, _) ← Info node; mret (ok_json (NodeInfo_json ni)).

Definition serveStart (body : json_text) : M S response :=
  '(ni, err) ← Start node;
  match err with Some _ => mret writeError | None => mret (ok_json (NodeInfo_json ni)) end.

Definition serveStop (body : json_text) : M S response :=
  '(ni, err) ← Stop node;
  match err with Some _ => mret writeError | None => mret (ok_json (NodeInfo_json ni)) end.

Definition servePeerStatus (body : json_text) : M S response := mret writeError.

Definition servePeerListen (body : json_text) : M S response :=
  match decode_struct set_addr_params zeroMultiaddr body with
  | (_, true) => mret writeError
  | (addr, false) =>
      '(pl, err) ← Peer_Listen node addr;
      match err with Some _ => mret writeError | None => mret (ok_json (PeerListener_json pl)) end
  end.

Definition servePeerConnect (body : json_text) : M S response := mret writeError.

Definition serveDiscoveryLinkLocalStart (body : json_text) : M S response :=
  match decode_struct (set_string_params "Interval") "" body with
  | (_, true) => mret writeError
  | (text, false) =>
      match Duration.ParseDuration text with
      | None => mret writeError
      | Some interval =>
          err ← Discovery_StartLinkLocal node (mkDiscoveryLinkLocal interval);
          match err with Some _ => mret writeError | None => mret ok_empty end
      end
  end.

Definition serveDiscoveryLinkLocalStop (body : json_text) : M S response :=
  err ← Discovery_StopLinkLocal node;
  match err with Some _ => mret writeError | None => mret ok_empty end.

Definition serveFcnetStart (body : json_text) : M S response :=
  match decode_struct (set_string_params "Socket") "" body with
  | (_, true) => mret writeError
  | (socket, false) =>
      match receiveFD socket with
      | inr _ => mret writeError
      | inl fd =>
          if negb (fcnet_FileTUN fd) then mret writeError else
          err ← fcnet_Start fd;
          match err with Some _ => mret writeError | None => mret ok_empty end
      end
  end.

(** [Serve]: the router. *)
Definition Serve (path : string) (body : json_text) : M S response :=
  if String.eqb path "/v0/info" then serveInfo body
  else if String.eqb path "/v0/start" then serveStart body
  else if String.eqb path "/v0/stop" then serveStop body
  else if String.eqb path "/v0/fcnet/start" then serveFcnetStart body
  else if String.eqb path "/v0/peer/status" then servePeerStatus body
  else if String.eqb path "/v0/peer/listen" then servePeerListen body
  else if String.eqb path "/v0/peer/connect" then servePeerConnect body
  else if String.eqb path "/v0/discovery/linklocal/start" then serveDiscoveryLinkLocalStart body
  else if String.eqb path "/v0/discovery/linklocal/stop" then serveDiscoveryLinkLocalStop body
  else mret (mkResponse StatusNotFound NoData).
End server.

(** ** api/client *)

Section client.
Context `{CidLib, MaddrLib} {S : Type}.

(** One request on the connection: the path, the body, and the response if one
    comes. *)
Context (http : string -> json_text -> M S (option response)).

(** [json.Unmarshal(body, &ni)] into a zero value; what was stored before an
    error is returned beside it. *)
Definition read_NodeInfo (res : option response) : NodeInfo * option error :=
  match res with
  | None => (zeroNodeInfo, Some EHttp)
  | Some res =>
      let '(ni, err) := decode_struct set_NodeInfo zeroNodeInfo (Body res) in
      (ni, if err : bool then Some EDecode else None)
  end.

Definition Client_Info : M S (NodeInfo * option error) :=
  res ← http "/v0/info" NoData; mret (read_NodeInfo res).
Definition Client_Start : M S (NodeInfo * option error) :=
  res ← http "/v0/start" NoData; mret (read_NodeInfo res).
Definition Client_Stop : M S (NodeInfo * option error) :=
  res ← http "/v0/stop" NoData; mret (read_NodeInfo res).

Definition DiscoveryClient_Status : M S (DiscoveryStatus * option error) := mret (zeroDiscoveryStatus, None).

Definition check_status (res : option response) : option error :=
  match res with
  | None => Some EHttp
  | Some res => if negb (StatusCode res =? StatusOK) then Some (EStatus (StatusCode res)) else None
  end.

Definition DiscoveryClient_StartLinkLocal (opts : DiscoveryLinkLocal) : M S (option error) :=
  res ← http "/v0/discovery/linklocal/start" (Doc (string_params "Interval" (Duration.String_ (Interval opts))));
  mret (check_status res).

Definition DiscoveryClient_StopLinkLocal : M S (option error) :=
  res ← http "/v0/discovery/linklocal/stop" (Doc (JObj []));
  mret (check_status res).

Definition PeerClient_Status : M S (PeerStatus * option error) := mret (mkPeerStatus [] [], None).

Definition PeerClient_Listen (ma : Multiaddr) : M S (PeerListener * option error) :=
  res ← http "/v0/peer/listen" (Doc (addr_params ma));
  match res with
  | None => mret (zeroPeerListener, Some EHttp)
  | Some r =>
      if negb (StatusCode r =? StatusOK) then mret (zeroPeerListener, Some (EStatus (StatusCode r))) else
      let '(pl, err) := decode_struct set_PeerListener zeroPeerListener (Body r) in
      mret (pl, if err : bool then Some EDecode else None)
  end.

Definition PeerClient_Connect (ma : Multiaddr) : M S (PeerInfo * option error) := mret (zeroPeerInfo, None).

(** [FcnetClient.Start]: the descriptor is offered on a socket in a new
    directory [dir], which may not be created; the status code is not looked
    at. *)
Definition FcnetClient_Start (dir : option string) (tunfd : Z) : M S (option error) :=
  match dir with
  | None => mret (Some EFile)
  | Some dir =>
      res ← http "/v0/fcnet/start" (Doc (string_params "Socket" (dir +:+ "/v0-fcnet-start.sock")));
      mret (match res with None => Some EHttp | Some _ => None end)
  end.

(** [NewClient]. *)
Definition Client (dir : option string) : NodeAPI S :=
  mkNodeAPI S Client_Info Client_Start Client_Stop (FcnetClient_Start dir) PeerClient_Status PeerClient_Listen
    PeerClient_Connect DiscoveryClient_Status DiscoveryClient_StartLinkLocal DiscoveryClient_StopLinkLocal.
End client.

(** ** The node's own implementation (node/api.go, node/peer.go,
    node/discovery.go) *)

(** The sockets: [conn.LocalAddr().String()], for a port that was left open the
    one the kernel chose. *)
Class SocketEnv `{MaddrLib} : Type := { conn_LocalAddr : Node.Transport -> string }.

Section node.
Context `{Crypto, MaddrLib, !SocketEnv} {UH LH : Type}.

(** A node with its services and with the endpoints that were started on it, each
    with the descriptor of its device; [sockets] are the outcomes of the calls of
    [net.ListenUDP] to come, which fail when none are left. *)
Record process : Type := mkProcess {
  p_node : Node.Node UH LH;
  p_services : gmap string nat;
  p_objects : list LinkLocal.LinkLocal;
  sockets : list bool;
  p_endpoints : list (Z * Fcnet.Fcnet.Fcnet)
}.

Definition on_node {A} (m : M (Node.Node UH LH) A) : M process A := fun p =>
  match m (p_node p) with
  | Ok (a, n) => Ok (a, mkProcess n (p_services p) (p_objects p) (sockets p) (p_endpoints p))
  | Panic => Panic
  | Block => Block
  end.

Definition on_services {A} (m : M (gmap string nat * list LinkLocal.LinkLocal) A) : M process A := fun p =>
  match m (p_services p, p_objects p) with
  | Ok (a, (s, o)) => Ok (a, mkProcess (p_node p) s o (sockets p) (p_endpoints p))
  | Panic => Panic
  | Block => Block
  end.

Definition ListenUDP : M process bool := fun p =>
  Ok (match sockets p with b :: _ => b | [] => false end,
      mkProcess (p_node p) (p_services p) (p_objects p) (tail (sockets p)) (p_endpoints p)).

Definition node_Info : M process (NodeInfo * option error) :=
  n ← gets p_node;
  mret (mkNodeInfo (Node.peerid n) (Key.IPAddr (PeerID.PublicKey_ (Node.peerid n))) (Node.Running n), None).

Definition node_Start : M process (NodeInfo * option error) :=
  err ← on_node Node.Start;
  match err with Some e => mret (zeroNodeInfo, Some (ENode e)) | None => node_Info end.

Definition node_Stop : M process (NodeInfo * option error) :=
  err ← on_node Node.Stop;
  match err with Some e => mret (zeroNodeInfo, Some (ENode e)) | None => node_Info end.

(** [Transport.LocalMultiaddr]; a text that is no address panics. *)
Definition LocalMultiaddr (t : Node.Transport) : M process Multiaddr :=
  match NetipText.ParseAddrPort (conn_LocalAddr t) with
  | None => panic
  | Some ip => mret (FromAddrPort ip)
  end.

Fixpoint status_loop (tpts : list Node.Transport) : M process (list PeerListener) :=
  match tpts with
  | [] => mret []
  | tpt :: tpts =>
      ma ← LocalMultiaddr tpt;
      rest ← status_loop tpts;
      mret (mkPeerListener ma None None :: rest)
  end.

(** [Node.Addresses]. *)
Fixpoint addresses_loop (pid : PeerID) (tpts : list Node.Transport) : M process (list Multiaddr) :=
  match tpts with
  | [] => mret []
  | lis :: tpts =>
      ma ← LocalMultiaddr lis;
      rest ← addresses_loop pid tpts;
      mret (mkMultiaddr (IP ma) (Port ma) pid (More ma) :: rest)
  end.
Definition node_Addresses : M process (list Multiaddr) :=
  n ← gets p_node; addresses_loop (Node.peerid n) (Node.transports n).

Definition PeerAPI_Status : M process (PeerStatus * option error) :=
  n ← gets p_node;
  listeners ← status_loop (Node.transports n);
  mret (mkPeerStatus [] listeners, None).

(** [PeerAPI.Listen]: a socket is asked for only when the address is one to
    listen on. *)
Definition PeerAPI_Listen (ma : Multiaddr) : M process (PeerListener * option error) :=
  opened ← match Node.NewTransport ma true with inl _ => ListenUDP | inr _ => mret false end;
  err ← on_node (Node.Listen ma opened);
  match err with
  | Some e => mret (zeroPeerListener, Some (ENode e))
  | None => mret (mkPeerListener ma None None, None)
  end.

Definition PeerAPI_Connect (ma : Multiaddr) : M process (PeerInfo * option error) := mret (zeroPeerInfo, None).

Definition DiscoveryAPI_Status : M process (DiscoveryStatus * option error) := mret (zeroDiscoveryStatus, None).

Definition DiscoveryAPI_StartLinkLocal (opts : DiscoveryLinkLocal) : M process (option error) :=
  opened ← ListenUDP;
  err ← on_services (LinkLocal.StartLinkLocal (Interval opts) opened);
  mret (EService <$> err).

Definition DiscoveryAPI_StopLinkLocal : M process (option error) :=
  err ← on_services LinkLocal.StopLinkLocal; mret (EService <$> err).

(** [Node.Fcnet] returns nil: a call of one of its methods panics. *)
Definition nodeAPI : NodeAPI process :=
  mkNodeAPI process node_Info node_Start node_Stop (fun _ => panic) PeerAPI_Status PeerAPI_Listen PeerAPI_Connect
    DiscoveryAPI_Status DiscoveryAPI_StartLinkLocal DiscoveryAPI_StopLinkLocal.

(** What [serveFcnetStart] does with a device, on the node behind the server: the
    endpoint is made ([fcnet.NewFcnet]) and started. The handlers are closures
    over the endpoint; [ping] and [fcnet] name those of the [i]-th one. Whether
    the local network stack comes up and whether its port 53 can be opened is up
    to the environment. *)
Context (ping : nat -> LH) (fcnet : nat -> UH) (fcnet1_err dns_err : option Fcnet.Fcnet.error).

Definition endpoint_Start (fd : Z) : M process (option error) := fun p =>
  let i := List.length (p_endpoints p) in
  match Fcnet.Fcnet.Start (ping i) (fcnet i) fcnet1_err dns_err (Fcnet.Fcnet.NewFcnet (p_node p), p_node p) with
  | Ok (err, (fc, n)) => Ok (EEndpoint <$> err, mkProcess n (p_services p) (p_objects p) (sockets p) (p_endpoints p ++ [(fd, fc)]))
  | Panic => Panic
  | Block => Block
  end.
End node.
End Api.
Import Api.

(** ** Over the wire and directly *)

Section remote.
Context `{CidLib, MaddrLib, FdEnv, !CidLaws} {S : Type}.
Context (api : NodeAPI S) (fcnet_Start : Z -> M S (option error)) (dir : option string).

(** A client connected to a server in front of [api]. *)
Definition connected (path : string) (body : json_text) : M S (option response) :=
  r ← Serve api fcnet_Start path body; mret (Some r).
Definition remote : NodeAPI S := Client connected dir.

(** Values that survive being written as JSON. *)
Definition info_ok (ni : NodeInfo) : Prop :=
  peerid_ok (ni_PeerID ni) /\ ni_PeerID ni <> emptyPeerID /\ addr_ok (ni_IPAddress ni).
Definition wire_ok (ma : Multiaddr) : Prop :=
  MultiaddrText.ParseMultiaddr (MultiaddrText.String_ ma) = (ma, None).
Definition listener_ok (pl : PeerListener) : Prop :=
  wire_ok (ListenAddr pl) /\ Forall wire_ok (default [] (EffectiveAddrs pl)) /\
  Forall wire_ok (default [] (ExternalAddrs pl)).

(** What the client returns when the server's node returns [r]: the same value,
    or the error [e] in place of any error. *)
Definition seen {A} (zero : A) (e : error) (r : res ((A * option error) * S)) : res ((A * option error) * S) :=
  match r with
  | Ok ((a, None), s) => Ok ((a, None), s)
  | Ok ((_, Some _), s) => Ok ((zero, Some e), s)
  | Panic => Panic
  | Block => Block
  end.
Definition seen_err (e : error) (r : res (option error * S)) : res (option error * S) :=
  match r with
  | Ok (None, s) => Ok (None, s)
  | Ok (Some _, s) => Ok (Some e, s)
  | Panic => Panic
  | Block => Block
  end.

Lemma NodeInfo_decode ni :
  info_ok ni -> read_NodeInfo (Some (ok_json (NodeInfo_json ni))) = (ni, None).
Proof.
  intros (Hp & He & Ha). unfold read_NodeInfo, ok_json, NodeInfo_json. cbn [Body decode_struct decode_fields].
  unfold set_NodeInfo. cbn [ni_PeerID ni_IPAddress ni_Running zeroNodeInfo].
  pose proof (PeerID_json (ni_PeerID ni) emptyPeerID Hp He) as Ep. unfold PeerID_MarshalJSON in Ep.
  replace (key_is "PeerID" "PeerID") with true by reflexivity. rewrite Ep. cbn [method_field].
  replace (key_is "PeerID" "IPAddress") with false by reflexivity.
  replace (key_is "IPAddress" "IPAddress") with true by reflexivity.
  cbn [addr_field ni_PeerID ni_IPAddress ni_Running]. rewrite addr_of_text_text by done.
  replace (key_is "PeerID" "Running") with false by reflexivity.
  replace (key_is "IPAddress" "Running") with false by reflexivity.
  replace (key_is "Running" "Running") with true by reflexivity. by destruct ni.
Qed.

Lemma maddr_field_ok ma old : wire_ok ma -> maddr_field old (maddr_json ma) = (ma, Fits).
Proof.
  intros Hw. unfold maddr_field, maddr_json.
  pose proof (Multiaddr_json ma old Hw) as E. unfold Multiaddr_MarshalJSON in E. by rewrite E.
Qed.

Lemma maddr_elements_ok l acc : Forall wire_ok l -> maddr_elements (map maddr_json l) acc = (acc ++ l, Fits).
Proof.
  intros Hl. revert acc. induction Hl as [|ma l Hm Hl IH]; intros acc; cbn [map maddr_elements]; [by rewrite app_nil_r|].
  rewrite maddr_field_ok by done. rewrite IH. by rewrite <- app_assoc.
Qed.

Lemma maddrs_field_ok l old : Forall wire_ok (default [] l) -> maddrs_field old (maddrs_json l) = (l, Fits).
Proof.
  intros Hl. destruct l as [l|]; [|done]. cbn [maddrs_json maddrs_field]. cbn in Hl.
  by rewrite maddr_elements_ok.
Qed.

Lemma PeerListener_decode pl :
  listener_ok pl -> decode_struct set_PeerListener zeroPeerListener (Doc (PeerListener_json pl)) = (pl, false).
Proof.
  intros (Hl & He & Hx). unfold PeerListener_json. cbn [decode_struct decode_fields]. unfold set_PeerListener.
  replace (key_is "ListenAddr" "ListenAddr") with true by reflexivity. rewrite maddr_field_ok by done.
  replace (key_is "ListenAddr" "EffectiveAddrs") with false by reflexivity.
  replace (key_is "EffectiveAddrs" "EffectiveAddrs") with true by reflexivity. rewrite maddrs_field_ok by done.
  replace (key_is "ListenAddr" "ExternalAddrs") with false by reflexivity.
  replace (key_is "EffectiveAddrs" "ExternalAddrs") with false by reflexivity.
  replace (key_is "ExternalAddrs" "ExternalAddrs") with true by reflexivity. rewrite maddrs_field_ok by done.
  by destruct pl.
Qed.

Lemma addr_params_decode ma :
  wire_ok ma -> decode_struct set_addr_params zeroMultiaddr (Doc (addr_params ma)) = (ma, false).
Proof.
  intros Hw. unfold addr_params. cbn [decode_struct decode_fields]. unfold set_addr_params.
  replace (key_is "Addr" "Addr") with true by reflexivity. by rewrite maddr_field_ok.
Qed.

(** One request and its answer. *)
Lemma connected_eq path body s :
  connected path body s =
  match Serve api fcnet_Start path body s with
  | Ok (r, s') => Ok (Some r, s') | Panic => Panic | Block => Block
  end.
Proof. unfold connected, mbind, M_bind. by destruct (Serve api fcnet_Start path body s) as [[r s']| |]. Qed.

Lemma remote_Info s ni e s' :
  Info api s = Ok ((ni, e), s') -> info_ok ni -> Info remote s = Ok ((ni, None), s').
Proof.
  intros E Hok. cbn [remote Client Info]. unfold Client_Info. unfold mbind, M_bind. rewrite connected_eq.
  cbn [Serve String.eqb Ascii.eqb Bool.eqb]. unfold serveInfo, mbind, M_bind. rewrite E. cbn [mret M_ret].
  unfold mret, M_ret. by rewrite NodeInfo_decode.
Qed.

Lemma remote_Start s :
  (forall ni s', Start api s = Ok ((ni, None), s') -> info_ok ni) ->
  Start remote s = seen zeroNodeInfo EDecode (Start api s).
Proof.
  intros Hok. cbn [remote Client Start]. unfold Client_Start. unfold mbind, M_bind. rewrite connected_eq.
  cbn [Serve String.eqb Ascii.eqb Bool.eqb]. unfold serveStart, mbind, M_bind.
  destruct (Start api s) as [[[ni [e|]] s']| |] eqn:E; try done. unfold mret, M_ret.
  by rewrite NodeInfo_decode by (by eapply Hok).
Qed.

Lemma remote_Stop s :
  (forall ni s', Stop api s = Ok ((ni, None), s') -> info_ok ni) ->
  Stop remote s = seen zeroNodeInfo EDecode (Stop api s).
Proof.
  intros Hok. cbn [remote Client Stop]. unfold Client_Stop. unfold mbind, M_bind. rewrite connected_eq.
  cbn [Serve String.eqb Ascii.eqb Bool.eqb]. unfold serveStop, mbind, M_bind.
  destruct (Stop api s) as [[[ni [e|]] s']| |] eqn:E; try done. unfold mret, M_ret.
  by rewrite NodeInfo_decode by (by eapply Hok).
Qed.

Lemma remote_Listen s ma :
  wire_ok ma -> (forall pl s', Peer_Listen api ma s = Ok ((pl, None), s') -> listener_ok pl) ->
  Peer_Listen remote ma s = seen zeroPeerListener (EStatus 500) (Peer_Listen api ma s).
Proof.
  intros Hw Hok. cbn [remote Client Peer_Listen]. unfold PeerClient_Listen. unfold mbind, M_bind.
  rewrite connected_eq. cbn [Serve String.eqb Ascii.eqb Bool.eqb]. unfold servePeerListen.
  rewrite addr_params_decode by done. unfold mbind, M_bind.
  destruct (Peer_Listen api ma s) as [[[pl [e|]] s']| |] eqn:E; try done. unfold mret, M_ret, ok_json.
  cbn [StatusCode Body Z.eqb StatusOK Pos.eqb negb]. by rewrite PeerListener_decode by (by eapply Hok).
Qed.

Lemma remote_StartLinkLocal s k :
  0 <= k -> k * Duration.Second < 2 ^ 63 ->
  Discovery_StartLinkLocal remote (mkDiscoveryLinkLocal (k * Duration.Second)) s =
    seen_err (EStatus 500) (Discovery_StartLinkLocal api (mkDiscoveryLinkLocal (k * Duration.Second)) s).
Proof.
  intros Hk Hm. cbn [remote Client Discovery_StartLinkLocal]. unfold DiscoveryClient_StartLinkLocal. unfold mbind, M_bind.
  rewrite connected_eq. cbn [Serve String.eqb Ascii.eqb Bool.eqb Interval]. unfold serveDiscoveryLinkLocalStart.
  unfold string_params. cbn [decode_struct decode_fields]. unfold set_string_params.
  replace (key_is "Interval" "Interval") with true by reflexivity. cbn [string_field string_of_json].
  rewrite ParseDuration_seconds by done. unfold mbind, M_bind.
  destruct (Discovery_StartLinkLocal api _ s) as [[[e|] s']| |] eqn:E; done.
Qed.

Lemma remote_StopLinkLocal s :
  Discovery_StopLinkLocal remote s = seen_err (EStatus 500) (Discovery_StopLinkLocal api s).
Proof.
  cbn [remote Client Discovery_StopLinkLocal]. unfold DiscoveryClient_StopLinkLocal. unfold mbind, M_bind.
  rewrite connected_eq. cbn [Serve String.eqb Ascii.eqb Bool.eqb]. unfold serveDiscoveryLinkLocalStop, mbind, M_bind.
  destruct (Discovery_StopLinkLocal api s) as [[[e|] s']| |] eqn:E; done.
Qed.

(** C17: controlling a node over HTTP is controlling it directly: start, stop,
    listen and both discovery calls have the same effect on the node and return
    the same value, errors apart, which the client replaces by its own; the
    information is the same. This needs results that can be written as JSON,
    addresses that are their own text, and intervals of whole seconds. *)
Theorem client_server (s : S) :
  (forall ni e s', Info api s = Ok ((ni, e), s') -> info_ok ni -> Info remote s = Ok ((ni, None), s')) /\
  ((forall ni s', Start api s = Ok ((ni, None), s') -> info_ok ni) ->
    Start remote s = seen zeroNodeInfo EDecode (Start api s)) /\
  ((forall ni s', Stop api s = Ok ((ni, None), s') -> info_ok ni) ->
    Stop remote s = seen zeroNodeInfo EDecode (Stop api s)) /\
  (forall ma, wire_ok ma ->
    (forall pl s', Peer_Listen api ma s = Ok ((pl, None), s') -> listener_ok pl) ->
    Peer_Listen remote ma s = seen zeroPeerListener (EStatus 500) (Peer_Listen api ma s)) /\
  (forall k, 0 <= k -> k * Duration.Second < 2 ^ 63 ->
    Discovery_StartLinkLocal remote (mkDiscoveryLinkLocal (k * Duration.Second)) s =
      seen_err (EStatus 500) (Discovery_StartLinkLocal api (mkDiscoveryLinkLocal (k * Duration.Second)) s)) /\
  Discovery_StopLinkLocal remote s = seen_err (EStatus 500) (Discovery_StopLinkLocal api s).
Proof.
  split_and!.
  - intros. by eapply remote_Info.
  - apply remote_Start.
  - apply remote_Stop.
  - apply remote_Listen.
  - apply remote_StartLinkLocal.
  - apply remote_StopLinkLocal.
Qed.

(** Only the start, stop, information, listen and discovery calls exist behind
    the interface: connecting and asking for the peers through a client returns
    success without a request, and a request made by hand is refused. *)
Theorem client_stubs (ma : Multiaddr) (body : json_text) (s : S) :
  Peer_Connect remote ma s = Ok ((zeroPeerInfo, None), s) /\
  Peer_Status remote s = Ok ((mkPeerStatus [] [], None), s) /\
  Discovery_Status remote s = Ok ((zeroDiscoveryStatus, None), s) /\
  Serve api fcnet_Start "/v0/peer/connect" body s = Ok (mkResponse 500 NoData, s) /\
  Serve api fcnet_Start "/v0/peer/status" body s = Ok (mkResponse 500 NoData, s).
Proof. done. Qed.

Lemma Fcnet_Start_any (d : string) (fd : Z) (s : S) (r : response) (s' : S) :
  dir = Some d ->
  Serve api fcnet_Start "/v0/fcnet/start" (Doc (string_params "Socket" (d +:+ "/v0-fcnet-start.sock"))) s = Ok (r, s') ->
  Fcnet_Start remote fd s = Ok (None, s').
Proof.
  intros Hd E. cbn [remote Client Fcnet_Start]. rewrite Hd. unfold FcnetClient_Start. unfold mbind, M_bind.
  rewrite connected_eq, E. done.
Qed.
(** Starting the endpoint through a client reports success whatever the server
    answers. *)
Theorem FcnetClient_Start_ignores_status (d : string) (fd : Z) (s : S) (r : response) (s' : S) :
  dir = Some d ->
  Serve api fcnet_Start "/v0/fcnet/start" (Doc (string_params "Socket" (d +:+ "/v0-fcnet-start.sock"))) s = Ok (r, s') ->
  Fcnet_Start remote fd s = Ok (None, s').
Proof. apply Fcnet_Start_any. Qed.
End remote.

(** ** Descriptors *)

(** A descriptor is taken over exactly when one control message with one
    descriptor arrives. *)
Theorem receiveFD_spec `{FdEnv} (socket : string) (fd : Z) :
  receiveFD socket = inl fd <->
  net_Dial socket = true /\ conn_File socket = true /\
  exists oob m, unix_Recvmsg socket = Some oob /\ unix_ParseSocketControlMessage oob = Some [m] /\
    unix_ParseUnixRights m = Some [fd].
Proof.
  unfold receiveFD. split.
  - destruct (net_Dial socket), (conn_File socket); try done. cbn [negb].
    destruct (unix_Recvmsg socket) as [oob|]; [|done].
    destruct (unix_ParseSocketControlMessage oob) as [[|m [|]]|] eqn:Em; try done.
    destruct (unix_ParseUnixRights m) as [[|x [|]]|] eqn:Er; try done. injection 1 as ->.
    split; [done|]. split; [done|]. by exists oob, m.
  - intros (-> & -> & oob & m & -> & -> & ->). done.
Qed.

(** ** The node behind the server *)

Section node_remote.
Context `{CryptoLaws, CidLib, MaddrLib, !SocketEnv, FdEnv, !CidLaws, !CidFormLaws, !MaddrLaws} {UH LH : Type}.
Context (fcnet_Start : Z -> M (process (UH := UH) (LH := LH)) (option error)) (dir : option string).

Lemma IPAddr_ok k : addr_ok (Key.IPAddr k).
Proof.
  rewrite IPAddr_Addr6. cbn [addr_ok]. eapply array_sub; [apply Sum256_array|lia..].
Qed.

(** The information a node gives about itself can be sent. *)
Lemma node_Info_ok (p : process (UH := UH) (LH := LH)) :
  peerid_ok (Node.peerid (p_node p)) -> Node.peerid (p_node p) <> emptyPeerID ->
  exists ni, node_Info p = Ok ((ni, None), p) /\ info_ok ni /\ ni_Running ni = Node.Running (p_node p).
Proof.
  intros Hp He. eexists. split; [reflexivity|]. split; [|done]. split; [done|]. split; [done|]. apply IPAddr_ok.
Qed.

(** Starting and stopping keep the identity, so their answers can be sent too. *)
Lemma node_Start_info (p : process (UH := UH) (LH := LH)) ni s' :
  peerid_ok (Node.peerid (p_node p)) -> Node.peerid (p_node p) <> emptyPeerID ->
  node_Start p = Ok ((ni, None), s') -> info_ok ni.
Proof.
  intros Hp He (err & p1 & E1 & E2)%bind_inv. destruct err as [e|]; [done|].
  unfold on_node, Node.Start in E1. unfold mbind, M_bind, gets, modify, id in E1.
  destruct (Node.Running (p_node p)); injection E1 as E1; [done|]. subst p1.
  injection E2 as <- <-. split; [done|]. split; [done|]. apply IPAddr_ok.
Qed.

Lemma node_Stop_info (p : process (UH := UH) (LH := LH)) ni s' :
  peerid_ok (Node.peerid (p_node p)) -> Node.peerid (p_node p) <> emptyPeerID ->
  node_Stop p = Ok ((ni, None), s') -> info_ok ni.
Proof.
  intros Hp He (err & p1 & E1 & E2)%bind_inv. destruct err as [e|]; [done|].
  unfold on_node, Node.Stop in E1. unfold mbind, M_bind, gets, modify, id in E1.
  destruct (negb (Node.Running (p_node p))); injection E1 as E1; [done|]. subst p1.
  injection E2 as <- <-. split; [done|]. split; [done|]. apply IPAddr_ok.
Qed.

(** *** The endpoint *)

(** The node when an endpoint has been started on it, and that endpoint: its
    handlers are registered, and the loops of the local network stack, of the DNS
    server and of the device run. *)
Definition endpoint_node (ping : nat -> LH) (fcnet : nat -> UH) (i : nat) (n : Node.Node UH LH) : Node.Node UH LH :=
  Node.Handle Fcnet.Fcnet.FcnetMulticodec (fcnet i) (Node.HandleLower Fcnet.Fcnet.PingMulticodec (ping i) n).
Definition running_endpoint (n : Node.Node UH LH) : Fcnet.Fcnet.Fcnet :=
  Fcnet.Fcnet.mkFcnet (Key.IPAddr (PeerID.PublicKey_ (Node.peerid n))) [] []
    [Fcnet.Fcnet.LoopFc1; Fcnet.Fcnet.LoopDns (Node.peerid n); Fcnet.Fcnet.LoopTun].

Lemma endpoint_handlers ping fcnet i (n : Node.Node UH LH) :
  Node.upperHandlers n !! Fcnet.Fcnet.FcnetMulticodec = None -> Node.lowerHandlers n !! Fcnet.Fcnet.PingMulticodec = None ->
  Node.upperHandlers (endpoint_node ping fcnet i n) = <[Fcnet.Fcnet.FcnetMulticodec := fcnet i]> (Node.upperHandlers n) /\
  Node.lowerHandlers (endpoint_node ping fcnet i n) = <[Fcnet.Fcnet.PingMulticodec := ping i]> (Node.lowerHandlers n).
Proof. intros Hu Hl. unfold endpoint_node, Node.Handle, Node.HandleLower. rewrite Hl. cbn. by rewrite Hu. Qed.

(** All an endpoint changes of the node are the handlers. *)
Lemma endpoint_node_same ping fcnet i (n : Node.Node UH LH) :
  Node.peerid (endpoint_node ping fcnet i n) = Node.peerid n /\ Node.transports (endpoint_node ping fcnet i n) = Node.transports n /\
  Node.running (endpoint_node ping fcnet i n) = Node.running n.
Proof. unfold endpoint_node, Node.Handle, Node.HandleLower. by repeat case_match. Qed.

(** The request, when the descriptor arrives and is that of a device. *)
Lemma serve_endpoint ping fcnet (socket : string) (fd : Z) (p : process (UH := UH) (LH := LH)) :
  receiveFD socket = inl fd -> fcnet_FileTUN fd = true ->
  Serve nodeAPI (endpoint_Start ping fcnet None None) "/v0/fcnet/start" (Doc (string_params "Socket" socket)) p =
    Ok (ok_empty, mkProcess (endpoint_node ping fcnet (List.length (p_endpoints p)) (p_node p)) (p_services p) (p_objects p) (sockets p)
      (p_endpoints p ++ [(fd, running_endpoint (p_node p))])).
Proof.
  intros Hfd Htun. cbn [Serve String.eqb Ascii.eqb Bool.eqb]. unfold serveFcnetStart, string_params. cbn [decode_struct decode_fields].
  unfold set_string_params. replace (key_is "Socket" "Socket") with true by reflexivity. unfold string_field. cbn [string_of_json].
  rewrite Hfd, Htun. cbn [negb]. erewrite bind_ok by reflexivity.
  unfold endpoint_node, running_endpoint, Node.Handle, Node.HandleLower. cbn. by repeat case_match.
Qed.

(** An address that can be listened on. *)
Definition listenable (ma : Multiaddr) : Prop :=
  IsValid (IP ma) = true /\ More ma = None /\ PeerID_ ma = emptyPeerID.

Lemma NewTransport_listenable ma :
  listenable ma ->
  Node.NewTransport ma true =
    inl (Node.mkTransport ma Node.RNil (RingBuf.RingBuf.mkRing [] Node.TransportBufferSize 0) []).
Proof.
  intros (Hv & Hm & Hp). unfold Node.NewTransport, Protocols. rewrite Hv, Hm, (bool_decide_eq_true_2 _ Hp).
  unfold udp4protocols, udp6protocols.
  destruct (Is4 (IP ma)); rewrite !ProtocolWithCode_Code
    by (unfold IP4MultiaddrCodec, IP6MultiaddrCodec, UDPMultiaddrCodec; auto); done.
Qed.

Lemma PeerAPI_Listen_refused ma (p : process (UH := UH) (LH := LH)) e :
  (forall o, Node.NewTransport ma o = inr e) ->
  PeerAPI_Listen ma p = Ok ((zeroPeerListener, Some (ENode e)), p).
Proof.
  intros Hc. unfold PeerAPI_Listen. rewrite Hc. erewrite bind_ok by reflexivity.
  erewrite bind_ok by (unfold on_node, Node.Listen; rewrite Hc; reflexivity). by destruct p.
Qed.

(** Listening directly, when the socket opens. *)
Lemma PeerAPI_Listen_opens ma (p : process (UH := UH) (LH := LH)) socks :
  listenable ma -> sockets p = true :: socks ->
  exists t, Node.listenAddr t = ma /\ Node.Running_ (Node.t_running t) = Node.Running (p_node p) /\
    PeerAPI_Listen ma p = Ok ((mkPeerListener ma None None, None),
      mkProcess (over Node.l_transports (Node.transports (p_node p) ++ [t]) (p_node p))
        (p_services p) (p_objects p) socks (p_endpoints p)).
Proof.
  intros Hl Hs. pose proof (NewTransport_listenable ma Hl) as Hn.
  unfold PeerAPI_Listen. rewrite Hn. unfold mbind, M_bind, ListenUDP. rewrite Hs. cbn [tail p_node p_services p_objects sockets].
  unfold on_node, Node.Listen. rewrite Hn. cbn [p_node]. unfold mbind, M_bind, gets, modify, id.
  eexists. split; [|split; [|reflexivity]]; destruct (Node.Running (p_node p)) eqn:Er; cbn; by rewrite ?Er.
Qed.

Lemma listen_opens (ma : Multiaddr) (p : process (UH := UH) (LH := LH)) (socks : list bool) :
  printable ma -> listenable ma -> sockets p = true :: socks ->
  exists t, Node.listenAddr t = ma /\ Node.Running_ (Node.t_running t) = Node.Running (p_node p) /\
    Peer_Listen (remote nodeAPI fcnet_Start dir) ma p = Ok ((mkPeerListener ma None None, None),
      mkProcess (over Node.l_transports (Node.transports (p_node p) ++ [t]) (p_node p))
        (p_services p) (p_objects p) socks (p_endpoints p)).
Proof.
  intros Hp Hl Hs. destruct (PeerAPI_Listen_opens ma p socks Hl Hs) as (t & Ht & Hr & E). exists t.
  split; [done|]. split; [done|].
  assert (Hw : wire_ok ma) by (apply Parse_String; [done|left; apply Hl]).
  rewrite remote_Listen; [|done|].
  - cbn [nodeAPI Peer_Listen]. by rewrite E.
  - cbn [nodeAPI Peer_Listen]. intros pl s'. rewrite E. injection 1 as <- <-. split; [done|]. by split.
Qed.

(** A listener asked for over HTTP is there afterwards: when the address has
    an IP address and a port and the socket opens, the call returns the
    address, and the node has one more transport, on that address, which runs
    if the node does; nothing else of the node changes. *)
Theorem remote_listen (ma : Multiaddr) (p : process (UH := UH) (LH := LH)) (socks : list bool) :
  printable ma -> listenable ma -> sockets p = true :: socks ->
  exists t, Node.listenAddr t = ma /\ Node.Running_ (Node.t_running t) = Node.Running (p_node p) /\
    Peer_Listen (remote nodeAPI fcnet_Start dir) ma p = Ok ((mkPeerListener ma None None, None),
      mkProcess (over Node.l_transports (Node.transports (p_node p) ++ [t]) (p_node p))
        (p_services p) (p_objects p) socks (p_endpoints p)).
Proof. apply listen_opens. Qed.

(** Port 0, which asks for any free port, cannot be listened on over HTTP:
    the direct call opens a transport, the same call through a client is
    refused and changes nothing. The library must not read an IP address alone
    as two protocols. *)
Theorem remote_listen_port0 (ma : Multiaddr) (p : process (UH := UH) (LH := LH)) (socks : list bool) :
  multiaddr_ok ma -> zone_ok (IP ma) = true -> listenable ma -> Port ma = 0 -> sockets p = true :: socks ->
  (forall m, maddr_NewMultiaddr (MultiaddrText.String_ ma) = Some m -> List.length (maddr_Protocols m) <> 2%nat) ->
  (exists p', PeerAPI_Listen ma p = Ok ((mkPeerListener ma None None, None), p')) /\
  Peer_Listen (remote nodeAPI fcnet_Start dir) ma p = Ok ((zeroPeerListener, Some (EStatus 500)), p).
Proof.
  intros Hok Hz Hl Hp0 Hs Hm.
  destruct (PeerAPI_Listen_opens ma p socks Hl Hs) as (t & _ & _ & E). split; [by eexists|].
  destruct Hl as (Hv & Hmo & Hpe). pose proof (Parse_no_port ma Hok Hz Hv Hp0 Hmo Hpe) as Hparse.
  cbn [remote Client Peer_Listen]. unfold PeerClient_Listen. unfold mbind, M_bind. rewrite connected_eq.
  cbn [Serve String.eqb Ascii.eqb Bool.eqb]. unfold servePeerListen, addr_params, maddr_json.
  cbn [decode_struct decode_fields]. unfold set_addr_params.
  replace (key_is "Addr" "Addr") with true by reflexivity.
  unfold maddr_field, Multiaddr_UnmarshalJSON. cbn [Unmarshal_string string_of_json]. rewrite Hparse.
  destruct (maddr_NewMultiaddr (MultiaddrText.String_ ma)) as [m|] eqn:En; [|done].
  specialize (Hm m eq_refl). cbn [method_field nodeAPI Peer_Listen].
  assert (Hc : forall o, Node.NewTransport (mkMultiaddr AddrZero 0 emptyPeerID (Some m)) o = inr Node.ECantListen).
  { intros o. unfold Node.NewTransport, Protocols. cbn [IP More PeerID_ IsValid app].
    rewrite bool_decide_eq_true_2 by done. by destruct (maddr_Protocols m) as [|? [|? [|]]]. }
  unfold mbind, M_bind. by rewrite (PeerAPI_Listen_refused _ p _ Hc).
Qed.
End node_remote.

(** *** Witnesses *)

#[export] Instance toy_fd : FdEnv := {
  ctrl_msg := list Z;
  net_Dial := fun _ => true;
  conn_File := fun _ => true;
  unix_Recvmsg := fun _ => Some [7];
  unix_ParseSocketControlMessage := fun oob => Some [oob];
  unix_ParseUnixRights := Some;
  fcnet_FileTUN := fun fd => fd =? 7
}.

(** Every socket is bound to the same address. *)
#[export] Instance toy_sockets : SocketEnv := { conn_LocalAddr := fun _ => "[::]:1312"%string }.

Definition proc0 : process (UH := unit) (LH := unit) := mkProcess nd_a ∅ [] [true] [].
Definition fc_fails (_ : Z) : M (process (UH := unit) (LH := unit)) (option error) := mret (Some EFile).
Definition remote0 : NodeAPI (process (UH := unit) (LH := unit)) := remote nodeAPI fc_fails (Some "/tmp/rovy0-1"%string).

Lemma client_server_witness :
  Start remote0 proc0 = seen zeroNodeInfo EDecode (Start nodeAPI proc0) /\
  Stop remote0 proc0 = seen zeroNodeInfo EDecode (Stop nodeAPI proc0) /\
  Discovery_StopLinkLocal remote0 proc0 = seen_err (EStatus 500) (Discovery_StopLinkLocal nodeAPI proc0).
Proof.
  split_and!; apply (client_server nodeAPI fc_fails (Some "/tmp/rovy0-1"%string) proc0); intros ni s'.
  - by apply node_Start_info; apply (bool_decide_unpack _).
  - by apply node_Stop_info; apply (bool_decide_unpack _).
Defined.

Lemma FcnetClient_Start_ignores_status_witness :
  Fcnet_Start remote0 7 proc0 = Ok (None, proc0).
Proof. by apply (FcnetClient_Start_ignores_status nodeAPI fc_fails _ "/tmp/rovy0-1" 7 proc0 writeError proc0). Defined.

Lemma remote_listen_witness :
  exists t, Node.listenAddr t = ma0 /\ Node.Running_ (Node.t_running t) = Node.Running nd_a /\
    Peer_Listen remote0 ma0 proc0 = Ok ((mkPeerListener ma0 None None, None),
      mkProcess (over Node.l_transports (Node.transports nd_a ++ [t]) nd_a) ∅ [] [] []).
Proof. apply (remote_listen _ _ ma0 proc0 []); [by apply (bool_decide_unpack _)|done|done]. Defined.

Definition ma_port0 : Multiaddr := mkMultiaddr (Addr4 [0; 0; 0; 0]) 0 emptyPeerID None.

Lemma remote_listen_port0_witness :
  (exists p', PeerAPI_Listen ma_port0 proc0 = Ok ((mkPeerListener ma_port0 None None, None), p')) /\
  Peer_Listen remote0 ma_port0 proc0 = Ok ((zeroPeerListener, Some (EStatus 500)), proc0).
Proof. by apply (remote_listen_port0 _ _ ma_port0 proc0 []); [apply (bool_decide_unpack _)|..]. Defined.
