(* ===== verification/FdPass.v ===== *)
(** * FdPass: handing a descriptor to the server
    (api/client/fcnet.go, api/server/fcnet.go)

    [FcnetClient.Start] runs on the client, [sendFD] in a goroutine of its own
    beside it, [serveFcnetStart] with [receiveFD] in the server. They meet at a
    Unix socket in a temporary directory that [Start] removes when it returns.
    Every call that can wait or fail is a step; the three interleave freely.
    What the calls of the operating system do is what unix(7) says: a connect
    fails when nobody listens, succeeds at once when somebody does, and a
    receive waits for a message or for the other end to close. *)

From S2P Require Import Prelude.

Module FdPass.

(** The statement each party is about to execute. *)
Inductive client_pc : Type :=
| CMkdir                       (* [os.MkdirTemp] *)
| CSpawn                       (* [go func() { sendFD(...) }()] *)
| CPost                        (* [c.http.Post] sends the request *)
| CWait                        (* [c.http.Post] waits for the answer *)
| CCleanup (failed : bool)     (* the deferred [os.RemoveAll] *)
| CReturned (failed : bool).

Inductive sender_pc : Type :=
| SNone                        (* not started *)
| SListen                      (* [net.Listen] *)
| SAccept                      (* [l.Accept] *)
| SSend                        (* [unix.Sendmsg] *)
| SClose (failed : bool)       (* the deferred [conn.Close] and [l.Close] *)
| SEnded (failed : bool).

Inductive server_pc : Type :=
| VIdle
| VDial                        (* [net.Dial] of [receiveFD] *)
| VRecv                        (* [unix.Recvmsg] *)
| VParse (fds : list Z)        (* the control messages that were read *)
| VStart (fd : Z)              (* [fcnet.FileTUN] and [fc.Start] *)
| VDone (status : Z).

#[export] Instance server_pc_eq_dec : EqDecision server_pc.
Proof. solve_decision. Defined.

(** The directory, the listening socket, and the one connection: not made,
    waiting to be accepted, accepted; with the descriptors in flight. *)
Inductive conn : Type := NoConn | Pending | Accepted.

Record sys : Type := mkSys {
  client : client_pc;
  sender : sender_pc;
  server : server_pc;
  dir : bool;
  listening : bool;
  link : conn;
  flight : list Z;
  closed : bool;               (* the sender's end is closed *)
  fcnet : option Z             (* the descriptor the endpoint was started on *)
}.

Definition set_client (c : client_pc) (s : sys) : sys :=
  mkSys c (sender s) (server s) (dir s) (listening s) (link s) (flight s) (closed s) (fcnet s).
Definition set_sender (c : sender_pc) (s : sys) : sys :=
  mkSys (client s) c (server s) (dir s) (listening s) (link s) (flight s) (closed s) (fcnet s).
Definition set_server (c : server_pc) (s : sys) : sys :=
  mkSys (client s) (sender s) c (dir s) (listening s) (link s) (flight s) (closed s) (fcnet s).

Section fdpass.
(** The descriptor of the TUN device. The server gets a descriptor of its own for
    the same open file; the number stands for that file, on either side. *)
Context (tunfd : Z).

(** [FcnetClient.Start]. *)
Inductive client_step : sys -> sys -> Prop :=
| c_mkdir_fails s : client s = CMkdir -> client_step s (set_client (CReturned true) s)
| c_mkdir s : client s = CMkdir ->
    client_step s (mkSys CSpawn (sender s) (server s) true (listening s) (link s) (flight s) (closed s) (fcnet s))
| c_spawn s : client s = CSpawn -> client_step s (set_client CPost (set_sender SListen s))
| c_post s : client s = CPost -> server s = VIdle -> client_step s (set_client CWait (set_server VDial s))
| c_post_fails s : client s = CPost -> client_step s (set_client (CCleanup true) s)
| c_answer s status : client s = CWait -> server s = VDone status -> client_step s (set_client (CCleanup false) s)
(* the connection breaks after the request was sent; the server goes on *)
| c_wait_fails s : client s = CWait -> client_step s (set_client (CCleanup true) s)
| c_cleanup s b : client s = CCleanup b ->
    client_step s (mkSys (CReturned b) (sender s) (server s) false (listening s) (link s) (flight s) (closed s) (fcnet s)).

(** [sendFD]. *)
Inductive sender_step : sys -> sys -> Prop :=
| s_listen_fails s : sender s = SListen -> sender_step s (set_sender (SEnded true) s)
| s_listen s : sender s = SListen -> dir s = true ->
    sender_step s (mkSys (client s) SAccept (server s) (dir s) true (link s) (flight s) (closed s) (fcnet s))
| s_accept s : sender s = SAccept -> link s = Pending ->
    sender_step s (mkSys (client s) SSend (server s) (dir s) (listening s) Accepted (flight s) (closed s) (fcnet s))
| s_accept_fails s : sender s = SAccept ->
    sender_step s (mkSys (client s) (SEnded true) (server s) (dir s) false (link s) (flight s) true (fcnet s))
| s_send s : sender s = SSend ->
    sender_step s (mkSys (client s) (SClose false) (server s) (dir s) (listening s) (link s) (flight s ++ [tunfd]) (closed s) (fcnet s))
(* [conn.File] or [unix.Sendmsg] fails *)
| s_send_fails s : sender s = SSend -> sender_step s (set_sender (SClose true) s)
| s_close s b : sender s = SClose b ->
    sender_step s (mkSys (client s) (SEnded b) (server s) (dir s) false (link s) (flight s) true (fcnet s)).

(** [serveFcnetStart] and [receiveFD]. Removing the directory removes the path
    of the socket. *)
Inductive server_step : sys -> sys -> Prop :=
| v_dial s : server s = VDial -> listening s = true -> dir s = true -> link s = NoConn ->
    server_step s (mkSys (client s) (sender s) VRecv (dir s) (listening s) Pending (flight s) (closed s) (fcnet s))
| v_dial_refused s : server s = VDial -> listening s = false \/ dir s = false -> server_step s (set_server (VDone 500) s)
| v_recv s : server s = VRecv -> flight s <> [] ->
    server_step s (mkSys (client s) (sender s) (VParse (flight s)) (dir s) (listening s) (link s) [] (closed s) (fcnet s))
| v_recv_eof s : server s = VRecv -> flight s = [] -> closed s = true -> server_step s (set_server (VParse []) s)
| v_recv_fails s : server s = VRecv -> server_step s (set_server (VDone 500) s)
| v_parse s fd : server s = VParse [fd] -> server_step s (set_server (VStart fd) s)
| v_parse_other s fds : server s = VParse fds -> length fds <> 1%nat -> server_step s (set_server (VDone 500) s)
| v_start s fd : server s = VStart fd ->
    server_step s (mkSys (client s) (sender s) (VDone 200) (dir s) (listening s) (link s) (flight s) (closed s) (Some fd))
| v_start_fails s fd : server s = VStart fd -> server_step s (set_server (VDone 500) s).

Inductive step (s s' : sys) : Prop :=
| by_client : client_step s s' -> step s s'
| by_sender : sender_step s s' -> step s s'
| by_server : server_step s s' -> step s s'.

Definition init : sys := mkSys CMkdir SNone VIdle false false NoConn [] false None.

Definition reachable (s : sys) : Prop := rtc step init s.

(** ** The invariant *)

(** The sender has executed [unix.Sendmsg]. *)
Definition past_send (c : sender_pc) : bool := match c with SClose _ | SEnded _ => true | _ => false end.

Record fd_inv (s : sys) : Prop := {
  fi_flight : flight s = [] \/ flight s = [tunfd];
  fi_spawn : client s = CMkdir \/ client s = CSpawn -> sender s = SNone;
  fi_early : past_send (sender s) = false -> flight s = [];
  fi_parse : forall fds, server s = VParse fds -> fds = [] \/ fds = [tunfd];
  fi_start : forall fd, server s = VStart fd -> fd = tunfd;
  fi_done : fcnet s = (if decide (server s = VDone 200) then Some tunfd else None);
  fi_answer : match client s with
              | CCleanup false | CReturned false => exists status, server s = VDone status
              | CCleanup true | CReturned true => True
              | CWait => server s <> VIdle
              | _ => server s = VIdle
              end
}.

Lemma client_step_inv s s' : fd_inv s -> client_step s s' -> fd_inv s'.
Proof.
  intros [Hf Hn He Hp Hs Hd Ha] Hst. destruct Hst as [s Hc|s Hc|s Hc|s Hc Hv|s Hc|s st Hc Hv|s Hc|s b Hc]; rewrite Hc in Ha;
    split; cbn; try done; try (by rewrite Ha in Hd); try (by eauto); try (by destruct b); try (by intros [[=]|[=]]).
  intros _. apply He. by rewrite Hn by (by right).
Qed.

Lemma sender_step_inv s s' : fd_inv s -> sender_step s s' -> fd_inv s'.
Proof.
  intros [Hf Hn He Hp Hs Hd Ha] Hst. destruct Hst as [s Hc|s Hc Hdir|s Hc Hl|s Hc|s Hc|s Hc|s b Hc]; rewrite Hc in He;
    split; cbn; try done; try (by intros Hx; specialize (Hn Hx); rewrite Hc in Hn); try (by intros; apply He).
  right. by rewrite He.
Qed.

Lemma server_step_inv s s' : fd_inv s -> server_step s s' -> fd_inv s'.
Proof.
  intros [Hf Hn He Hp Hs Hd Ha] Hst.
  assert (Hw : server s <> VIdle -> (forall st, server s <> VDone st) ->
    client s = CWait \/ client s = CCleanup true \/ client s = CReturned true).
  { intros H1 H2. destruct (client s) as [| | | |[]|[]]; auto; try done; destruct Ha as [st Hst']; by destruct (H2 st). }
  destruct Hst as [s Hc Hl Hdir Hk|s Hc Hl|s Hc Hl|s Hc Hl Hcl|s Hc|s fd Hc|s fds Hc Hl|s fd Hc|s fd Hc];
    rewrite Hc in *; specialize (Hw ltac:(done) ltac:(done)); cbn in Hd; split; cbn; try (destruct Hw as [Hw|[Hw|Hw]]; rewrite Hw); try done; try (by intros ? [= <-]);
    try (by intros [[=]|[=]]); eauto.
  - intros fds [= <-]. by left.
  - intros fd' [= <-]. destruct (Hp [fd] eq_refl) as [?|[= ->]]; done.
  - by rewrite (Hs fd eq_refl), decide_True.
Qed.

Lemma reachable_inv s : reachable s -> fd_inv s.
Proof.
  intros Hr. refine (rtc_ind_r fd_inv init _ _ s Hr).
  - split; cbn; eauto; done.
  - intros x y _ [Hst|Hst|Hst] Hx; [by eapply client_step_inv|by eapply sender_step_inv|by eapply server_step_inv].
Qed.

(** ** Properties *)

(** C28: handing over the descriptor of the TUN device, however the client, its
    sending goroutine and the server interleave and whichever of their system
    calls fail: the endpoint is started exactly when the server answers 200,
    and then on the very descriptor the client was given; and when the client's
    [Start] reports success the server has answered, whatever it answered. *)
Theorem fd_handover s :
  reachable s ->
  (server s = VDone 200 <-> fcnet s = Some tunfd) /\ (forall fd, fcnet s = Some fd -> fd = tunfd) /\
  (client s = CReturned false -> exists status, server s = VDone status).
Proof.
  intros [_ _ _ _ _ Hd Ha]%reachable_inv. rewrite Hd. split; [|split].
  - split; [by intros ->; rewrite decide_True|]. by case_decide.
  - intros fd. case_decide; [by intros [= <-]|done].
  - intros Hc. by rewrite Hc in Ha.
Qed.

(** One step of a run, and the state it leads to. *)
Ltac go by_ rule := eapply rtc_l; [apply by_; eapply rule; first [reflexivity|discriminate|left; reflexivity]|]; cbn.

(** The order the code hopes for: the goroutine listens before the server
    dials. *)
Lemma handover_succeeds :
  exists s, reachable s /\ client s = CReturned false /\ server s = VDone 200 /\ fcnet s = Some tunfd /\ sender s = SEnded false.
Proof.
  eexists. split.
  - unfold reachable, init. go by_client c_mkdir. go by_client c_spawn. go by_sender s_listen. go by_client c_post.
    go by_server v_dial. go by_sender s_accept. go by_sender s_send. go by_server v_recv. go by_server v_parse.
    go by_server v_start. go by_client c_answer. go by_client c_cleanup. go by_sender s_close. apply rtc_refl.
  - by split_and!.
Qed.

(** The server has refused, the client has returned, nobody will dial. *)
Definition missed (s : sys) : Prop :=
  client s = CReturned false /\ server s = VDone 500 /\ fcnet s = None /\ link s = NoConn /\
  (sender s = SAccept \/ sender s = SEnded true).

Lemma missed_forever s s' : missed s -> rtc step s s' -> missed s'.
Proof.
  intros Hs Hr. revert Hs. induction Hr as [|s s1 s2 Hst _ IH]; [done|]. intros (Hc & Hv & Hf & Hl & Hsn). apply IH.
  destruct Hst as [Hst|Hst|Hst]; inversion Hst; subst; try congruence; destruct Hsn; try congruence.
  split_and!; cbn; auto.
Qed.

(** Nothing makes the server wait for the socket. When the request reaches
    it before the goroutine listens, the dial is refused and the server answers
    500; the client, which does not look at the status, reports success, the
    goroutine is left in [Accept], and whatever happens from then on no
    endpoint is ever started. *)
Theorem dial_before_listen :
  exists s, reachable s /\ client s = CReturned false /\ server s = VDone 500 /\ sender s = SAccept /\
    forall s', rtc step s s' -> fcnet s' = None.
Proof.
  eexists. split; [|split; [|split; [|split]]].
  - unfold reachable, init. go by_client c_mkdir. go by_client c_spawn. go by_client c_post. go by_server v_dial_refused.
    go by_sender s_listen. go by_client c_answer. go by_client c_cleanup. apply rtc_refl.
  - done.
  - done.
  - done.
  - intros s' Hs'%missed_forever; [by destruct Hs' as (_ & _ & ? & _)|]. split_and!; cbn; auto.
Qed.
End fdpass.
End FdPass.

Import FdPass.

Lemma fd_handover_witness : exists s, reachable 7 s /\ fcnet s = Some 7 /\ server s = VDone 200.
Proof.
  destruct (handover_succeeds 7) as (s & Hr & _ & _ & Hf & _). exists s. split; [exact Hr|]. split; [exact Hf|].
  apply (fd_handover 7 s Hr). exact Hf.
Defined.
