(* ===== verification/Announce.v ===== *)
(** * Announce: what link-local discovery sends and finds
    (node/discovery/linklocal.go)

    The two routines of the service, one turn of the loop at a time: the ticker
    of announceRoutine fires, a datagram reaches receiveRoutine. The routines
    see the node through [NodeAPI], so the theorems combine this file with the
    node's own implementation of it. CBOR is a parameter, and so is the order in
    which Go ranges over a map. *)

From S2P Require Import Prelude GoMem Ext NetipText Toy Key PeerID Multiaddr MultiaddrText Packet Session Node Fcnet Discovery Api.
Import NetIP PeerID Multiaddr.

Module Announce.

Definition LinkLocalPort : Z := 12344.

Section types.
Context `{MaddrLib}.
Record LinkLocalPacket : Type := mkLinkLocalPacket { pkt_PeerID : PeerID; pkt_Addrs : list Multiaddr }.
End types.

(** Package cbor, on the packets of this file. *)
Class Cbor `{MaddrLib} : Type := {
  cbor_Marshal : LinkLocalPacket -> option (list Z);
  cbor_Unmarshal : list Z -> option LinkLocalPacket
}.

(** Ranging over a map visits every entry once, in some order. *)
Class MapRange : Type := {
  range_map : gmap string Addr -> list (string * Addr);
  range_map_perm : forall m, range_map m ≡ₚ map_to_list m
}.

(** [Addr.WithZone] and [Addr.Zone]. *)
Definition WithZone (a : Addr) (zone : string) : Addr :=
  match a with Addr6 b _ => Addr6 b zone | _ => a end.
Definition Zone (a : Addr) : string :=
  match a with Addr6 _ z => z | _ => ""%string end.

(** [netip.IPv6LinkLocalAllNodes], ff02::1. *)
Definition IPv6LinkLocalAllNodes : Addr := Addr6 ([0xff; 0x02] ++ zeros 13 ++ [1]) "".

Section receive.
Context `{Cbor}.

(** What [ReadFromUDPAddrPort] gives: the socket is closed, another error, or a
    datagram and where it came from. *)
Inductive read_result : Type :=
| ReadClosed
| ReadError
| ReadFrom (datagram : list Z) (raddr : Addr).

(** Whether the routine goes round again. *)
Inductive loop : Type := Return | Continue.

Definition find_addr (zone : string) (pid : PeerID) (a : Multiaddr) : Multiaddr :=
  mkMultiaddr (WithZone (IP a) zone) (Port a) pid (More a).

(** One turn of [receiveRoutine]; a datagram is cut off at 1280 bytes. What it
    finds is logged. *)
Definition receive_turn (ll : LinkLocal.LinkLocal) (read : read_result) : loop * list Multiaddr :=
  if negb (LinkLocal.Running ll) then (Return, []) else
  match read with
  | ReadClosed => (Return, [])
  | ReadError => (Continue, [])
  | ReadFrom datagram raddr =>
      let b := take (Z.to_nat 1280) datagram in
      if negb (Is6 raddr) || negb (LinkLocal.IsLinkLocalUnicast raddr) then (Continue, []) else
      match cbor_Unmarshal b with
      | None => (Continue, [])
      | Some pkt => (Continue, map (find_addr (Zone raddr) (pkt_PeerID pkt)) (pkt_Addrs pkt))
      end
  end.
End receive.

Section announce.
Context `{Cbor, MapRange} {S : Type}.
Context (API : Api.NodeAPI S).

(** The loop over the interfaces: the datagrams written and where to. *)
Fixpoint announce_loop (ourport : Z) (ifaces : list (string * Addr)) : M S (list (list Z * AddrPort_)) :=
  match ifaces with
  | [] => mret []
  | (ifname, ouraddr) :: ifaces =>
      '(ni, _) ← Api.Info API;
      match cbor_Marshal (mkLinkLocalPacket (Api.ni_PeerID ni) [mkMultiaddr ouraddr ourport emptyPeerID None]) with
      | None => mret []
      | Some buf =>
          rest ← announce_loop ourport ifaces;
          mret ((buf, (WithZone IPv6LinkLocalAllNodes ifname, LinkLocalPort)) :: rest)
      end
  end.

(** One turn of [announceRoutine], when the ticker fires: [ifaces] is what
    [net.Interfaces] returns. *)
Definition announce_turn (ifaces : option (list LinkLocal.iface)) : M S (list (list Z * AddrPort_)) :=
  match LinkLocal.linklocalCapableInterfaces ifaces with
  | (_, Some _) => mret []
  | (ifs, None) =>
      '(status, err) ← Api.Peer_Status API;
      match err with
      | Some _ => mret []
      | None =>
          let ourport := LinkLocal.announced_port (map Api.ListenAddr (Api.Listeners status)) in
          announce_loop ourport (range_map ifs)
      end
  end.
End announce.
End Announce.
Import Announce.

(** ** Announcing with the node's own API *)

(** The addresses of an interface have no zone. *)
Definition plain_addr (a : Addr) : Prop := addr_ok a /\ Zone a = ""%string.

(** The packet with one address survives encoding and fits into the receive
    buffer. *)
Definition packet (pid : PeerID) `{MaddrLib} (ip : Addr) (port : Z) : LinkLocalPacket :=
  mkLinkLocalPacket pid [mkMultiaddr ip port emptyPeerID None].

Class CborLaws `{Cbor} : Prop := {
  cbor_packet : forall pid ip port, peerid_ok pid -> plain_addr ip -> 0 <= port < 2 ^ 16 ->
    exists b, cbor_Marshal (packet pid ip port) = Some b /\ zlen b <= 1280 /\ cbor_Unmarshal b = Some (packet pid ip port)
}.

Section announce_spec.
Context `{Crypto, Cbor, !Api.SocketEnv, MapRange, !CborLaws} {UH LH : Type}.
Implicit Types (p : Api.process (UH := UH) (LH := LH)).

(** Where the node's sockets are bound, and the port that is announced. *)
Definition bound p (locals : list AddrPort_) : Prop :=
  Forall2 (fun t ap => NetipText.ParseAddrPort (Api.conn_LocalAddr t) = Some ap) (Node.transports (Api.p_node p)) locals.
Definition our_port (locals : list AddrPort_) : Z := LinkLocal.announced_port (map FromAddrPort locals).

Lemma Status_bound p locals :
  bound p locals ->
  exists ls, Api.PeerAPI_Status p = Ok ((Api.mkPeerStatus [] ls, None), p) /\
    map Api.ListenAddr ls = map FromAddrPort locals.
Proof.
  intros Hb. unfold Api.PeerAPI_Status, bound in *. erewrite bind_ok by reflexivity.
  assert (E : exists ls, Api.status_loop (Node.transports (Api.p_node p)) p = Ok (ls, p) /\
    map Api.ListenAddr ls = map FromAddrPort locals).
  { induction Hb as [|t ap ts aps Ht _ (ls & E & IH)]; [by exists []|]. cbn [Api.status_loop].
    erewrite bind_ok by (unfold Api.LocalMultiaddr; rewrite Ht; reflexivity). erewrite bind_ok by exact E.
    eexists. split; [reflexivity|]. cbn [map Api.ListenAddr]. by rewrite IH. }
  destruct E as (ls & E & Hls). exists ls. split; [by erewrite bind_ok by exact E|done].
Qed.

Lemma our_port_range p locals : bound p locals -> 0 <= our_port locals < 2 ^ 16.
Proof.
  unfold bound, our_port. induction 1 as [|t [a port] ts aps Ht _ IH]; cbn [map LinkLocal.announced_port FromAddrPort IP Port fst snd]; [lia|].
  destruct (Is6 a); [|done]. by apply NetipText.ParseAddrPort_ok in Ht as [_ ?].
Qed.

(** The datagram for one interface. *)
Definition announcement p (locals : list AddrPort_) (x : string * Addr) (d : list Z * AddrPort_) : Prop :=
  d.2 = (WithZone IPv6LinkLocalAllNodes x.1, LinkLocalPort) /\
  cbor_Unmarshal d.1 = Some (packet (Node.peerid (Api.p_node p)) x.2 (our_port locals)) /\ zlen d.1 <= 1280.

Lemma announce_loop_spec p locals ifs :
  peerid_ok (Node.peerid (Api.p_node p)) -> bound p locals -> Forall (fun x => plain_addr x.2) ifs ->
  exists sent, announce_loop Api.nodeAPI (our_port locals) ifs p = Ok (sent, p) /\ Forall2 (announcement p locals) ifs sent.
Proof.
  intros Hp Hb. induction 1 as [|[name a] ifs Ha _ (sent & E & IH)]; [by exists []|]. cbn [announce_loop].
  erewrite bind_ok by reflexivity. cbv iota beta. cbn [Api.ni_PeerID].
  destruct (cbor_packet _ a _ Hp Ha (our_port_range p locals Hb)) as (b & Eb & Hl & Hu). unfold packet in Eb. rewrite Eb.
  erewrite bind_ok by exact E. eexists. split; [reflexivity|]. by constructor.
Qed.

Lemma announce_turn_spec p locals ifs out :
  peerid_ok (Node.peerid (Api.p_node p)) -> bound p locals -> (forall name a, out !! name = Some a -> plain_addr a) ->
  LinkLocal.linklocalCapableInterfaces ifs = (out, None) ->
  exists sent, announce_turn Api.nodeAPI ifs p = Ok (sent, p) /\ Forall2 (announcement p locals) (range_map out) sent.
Proof.
  intros Hp Hb Ha E. destruct (Status_bound p locals Hb) as (ls & Els & Hls).
  unfold announce_turn. rewrite E. erewrite bind_ok by exact Els. cbv iota beta zeta. cbn [Api.Listeners]. rewrite Hls.
  apply announce_loop_spec; [done|done|]. rewrite range_map_perm. apply list.Forall_forall. intros [name a] Hx%elem_of_map_to_list.
  by eapply Ha.
Qed.

Lemma receive_announcement p locals x d (ll : LinkLocal.LinkLocal) (src : list Z) (zone : string) :
  announcement p locals x d -> LinkLocal.Running ll = true -> LinkLocal.IsLinkLocalUnicast (Addr6 src zone) = true ->
  receive_turn ll (ReadFrom d.1 (Addr6 src zone)) =
    (Continue, [mkMultiaddr (WithZone x.2 zone) (our_port locals) (Node.peerid (Api.p_node p)) None]).
Proof.
  intros (_ & Hu & Hl) Hr Hs. unfold receive_turn. rewrite Hr, Hs. cbn [negb Is6 orb].
  rewrite take_ge by (unfold zlen in Hl; lia). by rewrite Hu.
Qed.

Lemma last_elem_of {A} (l : list A) (x : A) : list.last l = Some x -> x ∈ l.
Proof. intros (l' & ->)%last_Some. apply elem_of_app. right. apply list_elem_of_here. Qed.

Lemma announces_plain (ifs : list (string * list Addr)) name l a :
  Forall (fun i => Forall plain_addr i.2) ifs -> (name, l) ∈ ifs -> announces l a -> plain_addr a.
Proof.
  intros Hall Hl [Ha _]. rewrite list.Forall_forall in Hall. specialize (Hall _ Hl). rewrite list.Forall_forall in Hall. apply Hall.
  apply last_elem_of in Ha. apply list_elem_of_In, filter_In in Ha as [Ha _]. by apply list_elem_of_In.
Qed.

(** C32: what a node announces on a link is found by its neighbours there. One
    datagram goes to all nodes of each interface that has a link-local address
    and is not the tunnel, and a neighbour whose discovery runs, and who gets it
    from a link-local source address, finds exactly that address, in the zone it
    came from, with the node's peer ID and the port of the node's first socket
    on IPv6. *)
Theorem announced_is_found p (locals : list AddrPort_) (ifs : list (string * list Addr)) :
  peerid_ok (Node.peerid (Api.p_node p)) -> bound p locals ->
  NoDup ifs.*1 -> Forall (fun i => Forall plain_addr i.2) ifs ->
  exists sent, announce_turn Api.nodeAPI (Some (map readable ifs)) p = Ok (sent, p) /\
    (forall d dst port, (d, (dst, port)) ∈ sent -> port = LinkLocalPort /\ exists name l,
      (name, l) ∈ ifs /\ dst = WithZone IPv6LinkLocalAllNodes name /\ existsb in_fc00 l = false) /\
    forall name l a, (name, l) ∈ ifs -> list.last (List.filter linklocal6 l) = Some a -> existsb in_fc00 l = false ->
      exists d, (d, (WithZone IPv6LinkLocalAllNodes name, LinkLocalPort)) ∈ sent /\
        forall ll src zone, LinkLocal.Running ll = true -> LinkLocal.IsLinkLocalUnicast (Addr6 src zone) = true ->
          receive_turn ll (ReadFrom d (Addr6 src zone)) =
            (Continue, [mkMultiaddr (WithZone a zone) (our_port locals) (Node.peerid (Api.p_node p)) None]).
Proof.
  intros Hp Hb Hnd Hall. destruct (collect_spec ifs Hnd ∅) as (out & E & Hs); [intros; apply lookup_empty|].
  assert (Hs' : forall name a, out !! name = Some a <-> exists l, (name, l) ∈ ifs /\ announces l a).
  { intros name a. rewrite Hs, lookup_empty. naive_solver. }
  destruct (announce_turn_spec p locals (Some (map readable ifs)) out Hp Hb) as (sent & Es & Hsent); [|exact E|].
  { intros name a (l & Hl & Ha)%Hs'. by eapply announces_plain. }
  exists sent. split; [exact Es|]. split.
  - intros d dst port [i Hi]%list_elem_of_lookup.
    destruct (Forall2_lookup_r _ _ _ _ _ Hsent Hi) as ([name a] & Hx & [= -> ->] & _). split; [done|].
    apply list_elem_of_lookup_2 in Hx. rewrite range_map_perm, elem_of_map_to_list, Hs' in Hx.
    destruct Hx as (l & Hl & Ha). exists name, l. split; [done|]. split; [done|]. apply Ha.
  - intros name l a Hl Ha Hf.
    assert (Hx : (name, a) ∈ range_map out) by (rewrite range_map_perm, elem_of_map_to_list, Hs'; by exists l).
    apply list_elem_of_lookup in Hx as [i Hi]. destruct (Forall2_lookup_l _ _ _ _ _ Hsent Hi) as ([d dst] & Hd & Hann).
    destruct Hann as [Edst Hann]. cbn in Edst. subst dst. exists d. split; [by eapply list_elem_of_lookup_2|].
    intros ll src zone Hr Hlu. by apply (receive_announcement p locals (name, a) (d, (WithZone IPv6LinkLocalAllNodes name, LinkLocalPort))).
Qed.
End announce_spec.

(** A source outside the link, or one that does not decode, is passed over. *)
Theorem receive_ignores `{Cbor} (ll : LinkLocal.LinkLocal) (d : list Z) (raddr : Addr) :
  LinkLocal.Running ll = true -> linklocal6 raddr = false -> receive_turn ll (ReadFrom d raddr) = (Continue, []).
Proof.
  intros Hr Hl. unfold receive_turn, linklocal6 in *. rewrite Hr. cbn [negb].
  by destruct (Is6 raddr), (LinkLocal.IsLinkLocalUnicast raddr).
Qed.

(** *** Witnesses *)

#[export] Instance toy_range : MapRange := { range_map := map_to_list; range_map_perm := fun m => reflexivity _ }.

(** A stand-in for CBOR on packets with one address. *)
#[export] Instance toy_cbor : Cbor := {
  cbor_Marshal := fun p =>
    match pkt_Addrs p with
    | [ma] => let id := pkt_PeerID p in Some [Zpos (encode (b1 id, b2 id, b3 id, b4 id, IP ma, Port ma))]
    | _ => None
    end;
  cbor_Unmarshal := fun b =>
    match b with
    | [Zpos c] =>
        '(x1, x2, x3, x4, ip, port) ← (decode c : option (Z * Z * Z * Z * Addr * Z));
        Some (packet (mkPeerID x1 x2 x3 x4) ip port)
    | _ => None
    end
}.

#[export] Instance toy_cbor_laws : CborLaws.
Proof.
  constructor. intros [x1 x2 x3 x4] ip port _ _ _. eexists. split; [reflexivity|]. split; [done|].
  cbn [cbor_Unmarshal toy_cbor]. by rewrite decode_encode.
Qed.

Definition fe80_1 : Addr := Addr6 ([0xfe; 0x80] ++ zeros 13 ++ [1]) "".
Definition eth0 : list (string * list Addr) := [("eth0"%string, [fe80_1])].

Lemma announced_is_found_witness :
  exists sent d, announce_turn Api.nodeAPI (Some (map readable eth0)) Api.proc0 = Ok (sent, Api.proc0) /\
    (d, (WithZone IPv6LinkLocalAllNodes "eth0", LinkLocalPort)) ∈ sent /\
    receive_turn (LinkLocal.mkLinkLocal 5 Node.ROpen) (ReadFrom d (WithZone fe80_1 "wlan0")) =
      (Continue, [mkMultiaddr (WithZone fe80_1 "wlan0") 1312 (Node.peerid (Api.p_node Api.proc0)) None]).
Proof.
  destruct (announced_is_found Api.proc0 [(Addr6 (zeros 16) "", 1312)] eth0) as (sent & E & _ & Hf).
  - by apply (bool_decide_unpack _).
  - by repeat constructor.
  - apply (bool_decide_unpack _). by vm_compute.
  - repeat constructor; by apply (bool_decide_unpack _).
  - destruct (Hf "eth0"%string [fe80_1] fe80_1) as (d & Hd & Hr); [apply list_elem_of_here|done|done|].
    exists sent, d. split; [exact E|]. split; [exact Hd|]. by apply Hr.
Defined.
