(* ===== verification/Config.v ===== *)
(** * Config: key file and configuration (api/config/config.go,
    api/config/nodecfg/nodecfg.go)

    The key file holds the private key with the identity and address derived
    from it; the configuration says what to listen on and what to start. Files
    are a map from paths to contents. The TOML package is a parameter: its laws
    say that literal strings are taken as they stand and that a written
    configuration is read back. *)

From S2P Require Import Prelude GoMem Text Duration Route Ext NetipText Toy Key PeerID Multiaddr MultiaddrText Json Packet RingBuf Routing Forwarder SessionPacket Ikpsk2 Session Node Ping Fcnet Discovery Api.
From Stdlib Require Import Ascii String.
Import NetIP Key PeerID Multiaddr Json Api.

Module Config.

Record Keyfile : Type := mkKeyfile {
  kf_PrivateKey : PrivateKey;
  kf_PeerID : PeerID;
  kf_IPAddr : Addr
}.

Section types.
Context `{MaddrLib}.

Record Peer : Type := mkPeer { Listen : list Multiaddr; Connect : list Multiaddr }.
Record Fcnet : Type := mkFcnet { fc_Enabled : bool; Ifname : string }.
Record LinkLocal : Type := mkLinkLocal { ll_Enabled : bool; ll_Interval : string }.
Record Discovery : Type := mkDiscovery { LinkLocal_ : LinkLocal }.
Record Config : Type := mkConfig { Peer_ : Peer; Fcnet_ : Fcnet; Discovery_ : Discovery }.
End types.

Inductive error : Type :=
| ERead
| EWrite
| EToml
| EKey
| ECid
| EPeerID (e : peerid_err)
| EAddr
| EWrongPeerID
| EWrongIPAddr.

(** ** github.com/pelletier/go-toml *)

(** Decoding into a struct of three strings, decoding and encoding a
    configuration. *)
Class TomlLib `{MaddrLib} : Type := {
  toml_Decode_keyfile : string -> option (string * string * string);
  toml_Decode_config : string -> option Config;
  toml_Marshal : Config -> option string
}.

Definition newline : string := String "010" "".

Definition comment_line (s : string) : bool := HasPrefix s "#" && free "010" s.

(** Text that a literal string can hold: no quote, no control character. *)
Definition literal (s : string) : bool := allc (fun c => (32 <=? code c) && negb (Ascii.eqb c "'")) s.

(** The lines of a document. *)
Definition document (ls : list string) : string := Join newline (ls ++ [EmptyString]).

Definition wire_config `{CidLib, MaddrLib} (cfg : Config) : Prop :=
  Forall wire_ok (Listen (Peer_ cfg)) /\ Forall wire_ok (Connect (Peer_ cfg)).

Class TomlLaws `{CidLib, MaddrLib, !TomlLib} : Prop := {
  (* comments are skipped, literal strings are taken as they stand *)
  toml_literals : forall cs p q r,
    Forall (fun l => comment_line l = true) cs -> literal p = true -> literal q = true -> literal r = true ->
    toml_Decode_keyfile (document (cs ++ ["PrivateKey = '" +:+ p +:+ "'"; "PeerID = '" +:+ q +:+ "'";
                                          "IPAddr = '" +:+ r +:+ "'"])) = Some (p, q, r);
  (* a configuration whose addresses are their own text is read back *)
  toml_roundtrip : forall cfg, wire_config cfg ->
    exists t, toml_Marshal cfg = Some t /\ toml_Decode_config t = Some cfg
}.

(** ** Files *)

Abbreviation files := (gmap string string).

(** [os.WriteFile] succeeds on the paths that can be written. *)
Definition WriteFile (writable : string -> bool) (path data : string) (fs : files) : files * option error :=
  if writable path then (<[path := data]> fs, None) else (fs, Some EWrite).

Section keyfile.
Context `{Crypto, CidLib, MaddrLib, Multibase, !TomlLib}.

Definition NewKeyfile (r : string) : M heap (Keyfile + error) :=
  match toml_Decode_keyfile r with
  | None => mret (inr EToml)
  | Some (sk, pid, ip) =>
      k ← ParsePrivateKey sk;
      match k with
      | ParseErr => mret (inr EKey)
      | ParsedKey k =>
          match cid_Decode pid with
          | None => mret (inr ECid)
          | Some c =>
              match PeerIDFromCid c with
              | inr e => mret (inr (EPeerID e))
              | inl pid =>
                  match NetipText.ParseAddr ip with
                  | None => mret (inr EAddr)
                  | Some ip =>
                      if negb (bool_decide (pid = NewPeerID (Key.PublicKey_ k))) then mret (inr EWrongPeerID) else
                      if negb (bool_decide (ip = IPAddr (Key.PublicKey_ k))) then mret (inr EWrongIPAddr) else
                      mret (inl (mkKeyfile k pid ip))
                  end
              end
          end
      end
  end.

Definition LoadKeyfile (fs : files) (path : string) : M heap (Keyfile + error) :=
  match fs !! path with
  | None => mret (inr ERead)
  | Some b => NewKeyfile b
  end.

(** The comment at the top of the file, and the three lines of data. *)
Definition keyfile_comments : list string :=
  ["#"; "# Rovy Keyfile"; "#";
   "# Privatekey is base64-encoded with a Multibase header.";
   "# PeerID is the base32-encoded public key, prefixed with the " +:+ String "034" ("bafzqai" +:+ String "034" " CID header.");
   "# IPAddr is bytes 16 to 31 of the public key's double Blake2s-256 hash.";
   "#";
   "# For a PrivateKey and PeerID to be valid, their IPAddr must be within fc00::/8.";
   "#"]%string.

Definition keyfile_text (kf : Keyfile) : string :=
  document (keyfile_comments ++
    ["PrivateKey = '" +:+ Key.String_ (kf_PrivateKey kf) +:+ "'";
     "PeerID = '" +:+ PeerID.String_ (kf_PeerID kf) +:+ "'";
     "IPAddr = '" +:+ NetipText.String_ (kf_IPAddr kf) +:+ "'"]).

Definition SaveKeyfile (writable : string -> bool) (path : string) (kf : Keyfile) (fs : files) : files * option error :=
  WriteFile writable path (keyfile_text kf) fs.

Definition LoadConfig (fs : files) (path : string) : Config + error :=
  match fs !! path with
  | None => inr ERead
  | Some b => match toml_Decode_config b with None => inr EToml | Some cfg => inl cfg end
  end.

Definition SaveConfig (writable : string -> bool) (path : string) (cfg : Config) (fs : files) : files * option error :=
  match toml_Marshal cfg with
  | None => (fs, Some EToml)
  | Some b => WriteFile writable path b fs
  end.

Definition DefaultConfig : res Config :=
  match MultiaddrText.MustParseMultiaddr "/ip6/::/udp/1312", MultiaddrText.MustParseMultiaddr "/ip4/0.0.0.0/udp/1312" with
  | Ok a, Ok b =>
      Ok (mkConfig (mkPeer [a; b] []) (mkFcnet true "rovy0") (mkDiscovery (mkLinkLocal true "5s")))
  | _, _ => Panic
  end.
End keyfile.

(** ** nodecfg *)

Section nodecfg.
Context `{MaddrLib} {S : Type}.

(** The API the configuration is applied to, and the TUN device that
    NetworkManager sets up: a descriptor, or an error. *)
Context (api : NodeAPI S) (nm_Start : string -> M S (option Z)).

Inductive cfg_error : Type :=
| EPeering (e : Api.error)
| ENetworkManager
| EFcnet (e : Api.error)
| EInterval
| EDiscovery (e : Api.error).

Fixpoint each {A} (call : A -> M S (option cfg_error)) (l : list A) : M S (option cfg_error) :=
  match l with
  | [] => mret None
  | a :: l =>
      err ← call a;
      match err with Some e => mret (Some e) | None => each call l end
  end.

Definition ConfigurePeering (cfg : Config) : M S (option cfg_error) :=
  err ← each (fun addr => '(_, err) ← Peer_Listen api addr; mret (EPeering <$> err)) (Listen (Peer_ cfg));
  match err with
  | Some e => mret (Some e)
  | None => each (fun addr => '(_, err) ← Peer_Connect api addr; mret (EPeering <$> err)) (Connect (Peer_ cfg))
  end.

Definition ConfigureFcnet (cfg : Config) : M S (option cfg_error) :=
  if negb (fc_Enabled (Fcnet_ cfg)) then mret None else
  fd ← nm_Start (Ifname (Fcnet_ cfg));
  match fd with
  | None => mret (Some ENetworkManager)
  | Some tunfd => err ← Fcnet_Start api tunfd; mret (EFcnet <$> err)
  end.

Definition ConfigureDiscoveryLinkLocal (cfg : Config) : M S (option cfg_error) :=
  if negb (ll_Enabled (LinkLocal_ (Discovery_ cfg))) then mret None else
  match Duration.ParseDuration (ll_Interval (LinkLocal_ (Discovery_ cfg))) with
  | None => mret (Some EInterval)
  | Some interval =>
      err ← Discovery_StartLinkLocal api (mkDiscoveryLinkLocal (Duration.Abs interval));
      mret (EDiscovery <$> err)
  end.

Definition ConfigureAll (cfg : Config) : M S (option cfg_error) :=
  err ← ConfigurePeering cfg;
  match err with
  | Some e => mret (Some e)
  | None =>
      err ← ConfigureFcnet cfg;
      match err with
      | Some e => mret (Some e)
      | None => ConfigureDiscoveryLinkLocal cfg
      end
  end.
End nodecfg.
End Config.
Import Config.

Section keyfile_spec.
Context `{CryptoLaws, CidLib, MaddrLib, MultibaseLaws, !TomlLib}.

(** The key file of a private key. *)
Definition keyfile_of (k : PrivateKey) : Keyfile :=
  mkKeyfile k (NewPeerID (Key.PublicKey_ k)) (IPAddr (Key.PublicKey_ k)).

(** A key file that is accepted is consistent: the identity and the address
    in it are those of the private key in it. *)
Theorem NewKeyfile_consistent (r : string) (h h' : heap) (kf : Keyfile) :
  NewKeyfile r h = Ok (inl kf, h') -> kf = keyfile_of (kf_PrivateKey kf).
Proof.
  unfold NewKeyfile. destruct (toml_Decode_keyfile r) as [[[sk pid] ip]|]; [|done].
  intros (k & h1 & Hk & E)%bind_inv. destruct k as [k|]; [|done].
  destruct (cid_Decode pid) as [c|]; [|done]. destruct (PeerIDFromCid c) as [p|]; [|done].
  destruct (NetipText.ParseAddr ip) as [a|]; [|done].
  case_bool_decide as Hp; [|done]. cbn [negb] in E. case_bool_decide as Ha; [|done].
  injection E as <- <-. cbn. by subst.
Qed.

Lemma literal_class (P : ascii -> bool) s :
  (forall c, P c = true -> (32 <=? code c) && negb (Ascii.eqb c "'") = true) -> allc P s = true -> literal s = true.
Proof. intros Hc. by apply allc_impl. Qed.

Lemma b64_literal c : is_b64 c = true -> (32 <=? code c) && negb (Ascii.eqb c "'") = true.
Proof.
  intros Hc. rewrite andb_true_iff, negb_true_iff, eqb_char. split.
  - unfold is_b64, is_digit in Hc. rewrite !orb_true_iff, !andb_true_iff in Hc. lia.
  - apply bool_decide_eq_false_2. by intros ->.
Qed.

Lemma b32_literal c : is_b32 c = true -> (32 <=? code c) && negb (Ascii.eqb c "'") = true.
Proof.
  intros Hc. rewrite andb_true_iff, negb_true_iff, eqb_char. split.
  - unfold is_b32, b32_value in Hc. destruct ((97 <=? code c) && (code c <=? 122)) eqn:E1; [lia|].
    destruct ((50 <=? code c) && (code c <=? 55)) eqn:E2; [lia|done].
  - apply bool_decide_eq_false_2. by intros ->.
Qed.

Lemma v6_literal c : v6_char c = true -> (32 <=? code c) && negb (Ascii.eqb c "'") = true.
Proof.
  intros Hc. rewrite andb_true_iff, negb_true_iff, eqb_char. split.
  - unfold v6_char, NetipText.hex_value, is_digit in Hc.
    destruct (_ && _) eqn:E1 in Hc; [lia|]. destruct ((97 <=? code c) && (code c <=? 102)) eqn:E2; [lia|].
    destruct ((65 <=? code c) && (code c <=? 70)) eqn:E3; [lia|]. rewrite orb_true_iff, !eqb_char in Hc.
    by destruct Hc as [Hc%bool_decide_eq_true_1|Hc%bool_decide_eq_true_1]; subst c.
  - apply bool_decide_eq_false_2. by intros ->.
Qed.

Lemma keyfile_literals `{!CidFormLaws, !MultibaseFormLaws} k :
  NewPeerID (Key.PublicKey_ k) <> emptyPeerID ->
  literal (Key.String_ k) = true /\ literal (PeerID.String_ (NewPeerID (Key.PublicKey_ k))) = true /\
  literal (NetipText.String_ (IPAddr (Key.PublicKey_ k))) = true.
Proof.
  intros Hp. split_and!.
  - apply (literal_class is_b64); [apply b64_literal|apply multibase_Encode64_chars].
  - rewrite String_base32 by done. apply (literal_class is_b32); [apply b32_literal|].
    change ("b" +:+ ?s) with (String "b" s). cbn [allc]. by rewrite base32_chars.
  - pose proof (IPAddr_ok (Key.PublicKey_ k)) as Ha. rewrite IPAddr_Addr6 in *. cbn [NetipText.String_ addr_ok] in *.
    cbn [String.eqb]. rewrite string_app_nil.
    apply (literal_class v6_char); [apply v6_literal|by apply string6_chars].
Qed.

Lemma NewKeyfile_text `{!CidLaws, !CidFormLaws, !MultibaseFormLaws, !TomlLaws} k h :
  privkey_ok k -> NewPeerID (Key.PublicKey_ k) <> emptyPeerID ->
  exists h', NewKeyfile (keyfile_text (keyfile_of k)) h = Ok (inl (keyfile_of k), h').
Proof.
  intros Hk Hp. destruct (keyfile_literals k Hp) as (L1 & L2 & L3).
  unfold NewKeyfile, keyfile_text. cbn [kf_PrivateKey kf_PeerID kf_IPAddr keyfile_of].
  rewrite toml_literals by (try done; by apply (bool_decide_unpack _)).
  destruct (ParsePrivateKey_String k h Hk) as [h' E]. exists h'. erewrite bind_ok by exact E.
  unfold PeerID.String_, PeerID.Empty. rewrite bool_decide_eq_false_2 by done. rewrite cid_Decode_String.
  rewrite PeerIDFromCid_Cid by apply NewPeerID_ok, PublicKey_ok.
  pose proof (IPAddr_ok (Key.PublicKey_ k)) as Ha.
  assert (Hip : NetipText.ParseAddr (NetipText.String_ (IPAddr (Key.PublicKey_ k))) = Some (IPAddr (Key.PublicKey_ k))).
  { rewrite IPAddr_Addr6 in *. by apply ParseAddr_String6. }
  rewrite Hip, !bool_decide_eq_true_2 by done. done.
Qed.

(** A key file that was saved loads: for every private key, whatever its
    address, the file written for it gives back the key, its identity and its
    address. *)
Theorem keyfile_roundtrip `{!CidLaws, !CidFormLaws, !MultibaseFormLaws, !TomlLaws}
    (writable : string -> bool) (path : string) (k : PrivateKey) (fs : files) (h : heap) :
  privkey_ok k -> NewPeerID (Key.PublicKey_ k) <> emptyPeerID -> writable path = true ->
  exists fs' h', SaveKeyfile writable path (keyfile_of k) fs = (fs', None) /\
    LoadKeyfile fs' path h = Ok (inl (keyfile_of k), h').
Proof.
  intros Hk Hp Hw. destruct (NewKeyfile_text k h Hk Hp) as [h' E].
  unfold SaveKeyfile, WriteFile. rewrite Hw. eexists _, h'. split; [done|].
  unfold LoadKeyfile. rewrite lookup_insert_eq. exact E.
Qed.
End keyfile_spec.

(** ** The configuration *)

Section config_spec.
Context `{CidLib, MaddrLib, !TomlLib}.

Definition any6 : Multiaddr := mkMultiaddr (Addr6 (zeros 16) "") 1312 emptyPeerID None.
Definition any4 : Multiaddr := mkMultiaddr (Addr4 [0; 0; 0; 0]) 1312 emptyPeerID None.
Definition default_cfg : Config :=
  mkConfig (mkPeer [any6; any4] []) (mkFcnet true "rovy0") (mkDiscovery (mkLinkLocal true "5s")).

(** The addresses of the default configuration parse: it does not panic. *)
Lemma DefaultConfig_eq : DefaultConfig = Ok default_cfg.
Proof. reflexivity. Qed.

Lemma any_printable : printable any6 /\ printable any4.
Proof. split; by apply (bool_decide_unpack _). Qed.

Lemma default_wire `{!CidLaws, !CidFormLaws, !MaddrLaws} : wire_config default_cfg.
Proof.
  destruct any_printable as [P6 P4]. split; [|constructor]. cbn.
  constructor; [apply Parse_String; [done|by left]|].
  constructor; [apply Parse_String; [done|by left]|constructor].
Qed.

(** The default configuration is what a fresh installation loads. *)
Theorem config_default_roundtrip `{!CidLaws, !CidFormLaws, !MaddrLaws, !TomlLaws}
    (writable : string -> bool) (path : string) (fs : files) :
  writable path = true ->
  exists cfg fs', DefaultConfig = Ok cfg /\ SaveConfig writable path cfg fs = (fs', None) /\
    LoadConfig fs' path = inl cfg.
Proof.
  intros Hw. destruct (toml_roundtrip default_cfg default_wire) as (t & Ht & Hd).
  exists default_cfg. unfold SaveConfig. rewrite Ht. unfold WriteFile. rewrite Hw. eexists.
  split; [apply DefaultConfig_eq|]. split; [done|]. unfold LoadConfig. by rewrite lookup_insert_eq, Hd.
Qed.
End config_spec.

(** ** Applying a configuration *)

Section nodecfg_spec.
Context `{CryptoLaws, CidLib, MaddrLib, !SocketEnv, FdEnv, !CidLaws, !CidFormLaws, !MaddrLaws} {UH LH : Type}.
Abbreviation proc := (process (UH := UH) (LH := LH)).
Context (dir : option string) (nm_Start : string -> M proc (option Z)).

(** Nothing else of the process changes when listeners are added. *)
Definition add_transports (ts : list Node.Transport) (socks : list bool) (p : proc) : proc :=
  mkProcess (over Node.l_transports (Node.transports (p_node p) ++ ts) (p_node p)) (p_services p) (p_objects p) socks (p_endpoints p).

(** A transport that [Listen] makes for an address. *)
Definition transport_for (p : proc) (ma : Multiaddr) (t : Node.Transport) : Prop :=
  Node.listenAddr t = ma /\ Node.Running_ (Node.t_running t) = Node.Running (p_node p).

(** Listening on a list of addresses through the client. *)
Lemma each_listen (fcnet_Start : Z -> M proc (option Api.error)) mas p socks :
  Forall printable mas -> Forall listenable mas -> sockets p = map (fun _ => true) mas ++ socks ->
  exists ts, Forall2 (transport_for p) mas ts /\
    each (fun addr => '(_, err) ← Peer_Listen (remote nodeAPI fcnet_Start dir) addr; mret (EPeering <$> err)) mas p =
      Ok (None, add_transports ts socks p).
Proof.
  revert p. induction mas as [|ma mas IH]; intros p Hp Hl Hs; cbn [map app] in Hs.
  - exists []. split; [constructor|]. cbn [each]. unfold add_transports. rewrite app_nil_r.
    destruct p as [n s o k ep]. cbn in Hs |- *. subst k. do 3 f_equal. by destruct n.
  - inversion_clear Hp as [|? ? Hp0 Hp1]. inversion_clear Hl as [|? ? Hl0 Hl1].
    destruct (listen_opens fcnet_Start dir ma p _ Hp0 Hl0 Hs) as (t & Ht & Hr & E).
    destruct (IH (add_transports [t] (map (fun _ => true) mas ++ socks) p) Hp1 Hl1 eq_refl) as (ts & Hts & Ets).
    exists (t :: ts). split; [constructor; [done|]; eapply Forall2_impl; [|exact Hts]; by intros x y [? ?]|].
    cbn [each]. erewrite bind_ok; [|erewrite bind_ok by exact E; reflexivity]. cbn [fmap option_fmap option_map].
    fold (add_transports [t] (map (fun _ => true) mas ++ socks) p). rewrite Ets.
    unfold add_transports. cbn. by rewrite <- app_assoc.
Qed.

(** A node that applies the default configuration through its own HTTP
    interface ends up listening on port 1312 of both unspecified addresses, with
    the IPv6 endpoint running and announcing itself: given that the three
    sockets open, that NetworkManager yields a device whose descriptor reaches
    the server, and that the local network stack comes up, the whole
    configuration is applied without an error. Two transports are added in
    order and the handlers of the endpoint registered, and nothing else of the
    node changes; the endpoint has the node's address, and its three loops run;
    the discovery service runs. *)
Theorem configure_default (ping : nat -> LH) (fcnet : nat -> UH) (p : proc) (socks : list bool) (fd fd' : Z) (d : string) :
  dir = Some d -> sockets p = true :: true :: true :: socks -> disc_ok (p_services p, p_objects p) ->
  (forall q, nm_Start "rovy0" q = Ok (Some fd, q)) ->
  receiveFD (d +:+ "/v0-fcnet-start.sock") = inl fd' -> fcnet_FileTUN fd' = true ->
  exists t6 t4 p' ll, ConfigureAll (remote nodeAPI (endpoint_Start ping fcnet None None) dir) nm_Start default_cfg p = Ok (None, p') /\
    Node.listenAddr t6 = any6 /\ Node.listenAddr t4 = any4 /\
    p_node p' = endpoint_node ping fcnet (List.length (p_endpoints p))
      (over Node.l_transports (Node.transports (p_node p) ++ [t6; t4]) (p_node p)) /\
    p_endpoints p' = p_endpoints p ++ [(fd', running_endpoint (p_node p))] /\
    p_objects p' !! List.length (p_objects p) = Some ll /\ LinkLocal.Running ll = true /\
    p_services p' !! LinkLocal.ServiceTagLinkLocal = Some (List.length (p_objects p)) /\ sockets p' = socks.
Proof.
  intros Hd Hs Hdisc Hnm Hfd Htun. unfold ConfigureAll. set (start := endpoint_Start ping fcnet None None).
  destruct (each_listen start [any6; any4] p (true :: socks)) as (ts & Hts & E); [| |done|].
  { destruct any_printable. by repeat constructor. }
  { by repeat constructor. }
  inversion Hts as [|? t6 ? ts1 [L6 _] Hts1]; subst. inversion Hts1 as [|? t4 ? ts2 [L4 _] Hts2]; subst.
  inversion Hts2; subst. set (p1 := add_transports [t6; t4] (true :: socks) p) in *.
  erewrite bind_ok; [|unfold ConfigurePeering; erewrite bind_ok by exact E; reflexivity].
  pose proof (serve_endpoint ping fcnet _ fd' p1 Hfd Htun) as Hr. set (p2 := mkProcess _ _ _ _ _) in Hr. cbv iota. erewrite bind_ok.
  2: { unfold ConfigureFcnet. cbn [default_cfg fc_Enabled Fcnet_ negb Ifname]. erewrite bind_ok by apply Hnm. cbv iota.
       erewrite bind_ok by (eapply (Fcnet_Start_any _ _ _ d); [done|exact Hr]). reflexivity. }
  unfold ConfigureDiscoveryLinkLocal. cbn [default_cfg ll_Enabled LinkLocal_ Discovery_ negb ll_Interval].
  replace (Duration.ParseDuration "5s") with (Some (5 * Duration.Second)) by reflexivity.
  change (Duration.Abs (5 * Duration.Second)) with (5 * Duration.Second).
  destruct (StartLinkLocal_spec (5 * Duration.Second) true (p_services p) (p_objects p) Hdisc)
    as (os' & ll & El & _ & Hll & Hrun & _).
  assert (Ed : DiscoveryAPI_StartLinkLocal (mkDiscoveryLinkLocal (5 * Duration.Second)) p2 =
    Ok (None, mkProcess (p_node p2) (<[LinkLocal.ServiceTagLinkLocal := List.length (p_objects p)]> (p_services p)) os' socks (p_endpoints p2))).
  { unfold DiscoveryAPI_StartLinkLocal.
    erewrite (bind_ok ListenUDP _ p2 true (mkProcess (p_node p2) (p_services p) (p_objects p) socks (p_endpoints p2))) by reflexivity.
    erewrite bind_ok; [|unfold on_services; cbn [p_services p_objects Interval]; rewrite El; reflexivity]. done. }
  eexists t6, t4, _, ll. split.
  { cbn [fmap option_fmap option_map]. erewrite bind_ok;
      [|rewrite remote_StartLinkLocal by (unfold Duration.Second; lia); cbn [nodeAPI Discovery_StartLinkLocal];
        rewrite Ed; reflexivity]. reflexivity. }
  cbn. split_and!; try done. apply lookup_insert_eq.
Qed.
End nodecfg_spec.

(** *** Witnesses *)

(** TOML for the two kinds of document: lines of literal strings, and a coding
    of the configuration with its addresses as text. *)
Fixpoint strip_prefix (p s : string) : option string :=
  match p, s with
  | EmptyString, _ => Some s
  | String c p, String d s => if Ascii.eqb c d then strip_prefix p s else None
  | _, _ => None
  end.

Fixpoint toy_field (name : string) (ls : list string) : option string :=
  match ls with
  | [] => None
  | l :: ls => match strip_prefix name l with Some r => trim_last "'" r | None => toy_field name ls end
  end.

Definition toy_Decode_keyfile (s : string) : option (string * string * string) :=
  let ls := Split "010" s in
  p ← toy_field "PrivateKey = '" ls; q ← toy_field "PeerID = '" ls; r ← toy_field "IPAddr = '" ls; Some (p, q, r).

Definition toy_cfg_code : Type := list string * list string * (bool * string) * (bool * string).
Definition toy_Marshal (cfg : Config) : option string :=
  Some (pos_to_string (encode ((map MultiaddrText.String_ (Listen (Peer_ cfg)), map MultiaddrText.String_ (Connect (Peer_ cfg)),
    (fc_Enabled (Fcnet_ cfg), Ifname (Fcnet_ cfg)),
    (ll_Enabled (LinkLocal_ (Discovery_ cfg)), ll_Interval (LinkLocal_ (Discovery_ cfg)))) : toy_cfg_code))).
Definition toy_Decode_config (s : string) : option Config :=
  match decode (string_to_pos s) : option toy_cfg_code with
  | Some (l, c, (fe, fi), (de, di)) =>
      let parse s := (MultiaddrText.ParseMultiaddr s).1 in
      Some (mkConfig (mkPeer (map parse l) (map parse c)) (mkFcnet fe fi) (mkDiscovery (mkLinkLocal de di)))
  | None => None
  end.

#[export] Instance toy_toml : TomlLib := {
  toml_Decode_keyfile := toy_Decode_keyfile;
  toml_Decode_config := toy_Decode_config;
  toml_Marshal := toy_Marshal
}.

Lemma strip_prefix_app p s : strip_prefix p (p +:+ s) = Some s.
Proof. induction p as [|c p IH]; cbn; [done|]. by rewrite Ascii.eqb_refl. Qed.

Lemma toy_field_comments name cs ls :
  Forall (fun l => comment_line l = true) cs -> HasPrefix name "P" || HasPrefix name "I" = true ->
  toy_field name (cs ++ ls) = toy_field name ls.
Proof.
  intros Hc Hn. induction Hc as [|l cs Hl Hcs IH]; [done|]. cbn [app toy_field].
  unfold comment_line in Hl. apply andb_true_iff in Hl as [Hl _]. apply HasPrefix_iff in Hl as [t ->].
  destruct name as [|c name]; [done|]. cbn [strip_prefix String.append].
  destruct (Ascii.eqb_spec c "#") as [->|]; [done|]. exact IH.
Qed.

Lemma literal_free s : literal s = true -> free "010" s = true.
Proof. by apply (allc_free (fun c => (32 <=? code c) && negb (Ascii.eqb c "'"))). Qed.

Lemma wire_parse mas :
  Forall wire_ok mas -> map (fun s => (MultiaddrText.ParseMultiaddr s).1) (map MultiaddrText.String_ mas) = mas.
Proof. induction 1 as [|ma mas Hm Hms IH]; cbn; [done|]. by rewrite Hm, IH. Qed.

#[export] Instance toy_toml_laws : TomlLaws.
Proof.
  constructor.
  - intros cs p q r Hc Hp Hq Hr. cbn [toml_Decode_keyfile toy_toml]. unfold toy_Decode_keyfile, document.
    assert (Hlit : forall a s, free "010" a = true -> literal s = true -> free "010" (a +:+ s +:+ "'") = true).
    { intros a s Ha Hs. by rewrite !free_app, Ha, (literal_free s Hs). }
    unfold newline. rewrite Split_Join.
    + rewrite <- app_assoc, !(toy_field_comments _ cs) by done. cbn [toy_field app].
      cbn -[trim_last]. rewrite !trim_last_app. done.
    + by destruct cs.
    + rewrite !Forall_app. split_and!; [|repeat constructor; by apply Hlit|by repeat constructor].
      eapply Forall_impl; [|exact Hc]. intros l Hl. by apply andb_true_iff in Hl as [_ Hl].
  - intros cfg [Hl Hc]. eexists. split; [reflexivity|]. cbn [toml_Decode_config toy_toml].
    unfold toy_Decode_config. rewrite string_to_pos_inv, decode_encode. cbv zeta. rewrite !wire_parse by done.
    by destruct cfg as [[] [] [[]]].
Qed.

Definition key0 : PrivateKey := key_of [1; 2].
Definition anywhere (_ : string) : bool := true.

Lemma NewKeyfile_consistent_witness :
  exists kf h', NewKeyfile (keyfile_text (keyfile_of key0)) [] = Ok (inl kf, h') /\ kf = keyfile_of (kf_PrivateKey kf).
Proof.
  destruct (NewKeyfile_text key0 []) as [h' E]; [by apply (bool_decide_unpack _)..|].
  exists (keyfile_of key0), h'. split; [done|]. by apply (NewKeyfile_consistent _ _ _ _ E).
Defined.

Lemma keyfile_roundtrip_witness :
  exists fs' h', SaveKeyfile anywhere "keyfile.toml" (keyfile_of key0) ∅ = (fs', None) /\
    LoadKeyfile fs' "keyfile.toml" [] = Ok (inl (keyfile_of key0), h').
Proof. by apply keyfile_roundtrip; [apply (bool_decide_unpack _)..|]. Defined.

Lemma config_default_roundtrip_witness :
  exists cfg fs', DefaultConfig = Ok cfg /\ SaveConfig anywhere "config.toml" cfg ∅ = (fs', None) /\
    LoadConfig fs' "config.toml" = inl cfg.
Proof. by apply config_default_roundtrip. Defined.

Definition proc1 : process (UH := unit) (LH := unit) := mkProcess nd_a ∅ [] [true; true; true] [].
Definition nm_ok (_ : string) : M (process (UH := unit) (LH := unit)) (option Z) := mret (Some 7).

Definition fc_unit (_ : nat) : unit := tt.

Lemma configure_default_witness :
  exists t6 t4 p' ll, ConfigureAll (remote nodeAPI (endpoint_Start fc_unit fc_unit None None) (Some "/tmp/rovy0-1"%string)) nm_ok default_cfg proc1 =
      Ok (None, p') /\
    Node.listenAddr t6 = any6 /\ Node.listenAddr t4 = any4 /\
    p_endpoints p' = [(7, running_endpoint (p_node proc1))] /\
    p_objects p' !! List.length (p_objects proc1) = Some ll /\ LinkLocal.Running ll = true.
Proof.
  destruct (configure_default (Some "/tmp/rovy0-1"%string) nm_ok fc_unit fc_unit proc1 [] 7 7 "/tmp/rovy0-1")
    as (t6 & t4 & p' & ll & E & E1 & E2 & _ & E3 & E4 & E5 & _);
    [reflexivity|reflexivity| |reflexivity|reflexivity|reflexivity|].
  - split; intros i; cbn; [by rewrite lookup_empty|by rewrite lookup_nil].
  - exists t6, t4, p', ll. exact (conj E (conj E1 (conj E2 (conj E3 (conj E4 E5))))).
Defined.
