(* ===== verification/Cmd.v ===== *)
(** * Cmd: the commands of the rovy program (cmd/rovy/)

    init writes a fresh key file and the default configuration; start reads
    them, opens the API socket, builds a node and configures it through its own
    API; info, stop and peer are clients of a running node. Flags, files, the
    random source, standard input and what the operating system answers are
    explicit; what is printed is not. *)

From S2P Require Import Prelude GoMem Text Duration Route Ext NetipText Toy Key PeerID Multiaddr MultiaddrText Json Packet RingBuf Routing Forwarder SessionPacket Ikpsk2 Session Node Ping Fcnet Discovery Api Config.
From Stdlib Require Import Ascii String.
Import NetIP Key PeerID Multiaddr Json Api Config.

(** ** path/filepath on Unix *)

Definition clean_step (rooted : bool) (acc : list string) (c : string) : list string :=
  if String.eqb c "" || String.eqb c "." then acc
  else if String.eqb c ".." then
    match acc with
    | h :: t => if String.eqb h ".." then c :: acc else t
    | [] => if rooted then [] else [c]
    end
  else c :: acc.

Definition Clean (s : string) : string :=
  let rooted := HasPrefix s "/" in
  let l := rev (fold_left (clean_step rooted) (Split "/" s) []) in
  if rooted then "/" +:+ Join "/" l
  else match l with [] => "." | _ => Join "/" l end.

Definition PathJoin (a b : string) : string :=
  if String.eqb a "" then (if String.eqb b "" then "" else Clean b)
  else Clean (if String.eqb b "" then a else a +:+ "/" +:+ b).

Definition Dir (path : string) : string :=
  match split_last "/" path with
  | Some (a, _) => Clean (a +:+ "/")
  | None => "."
  end.

Fixpoint Contains (s sub : string) : bool :=
  HasPrefix s sub || match s with EmptyString => false | String _ t => Contains t sub end.

(** ** github.com/mitchellh/go-homedir *)

Class Homedir : Type := { homedir_Expand : string -> option string }.

Module Cmd.

Definition DefaultDirectory : string := "~/.rovy".
Definition SocketName : string := "api.sock".
Definition KeyfileName : string := "keyfile.toml".
Definition ConfigName : string := "config.toml".

(** The flags of a command: whether each was given, and its value. *)
Record flags : Type := mkFlags {
  set_directory : bool;
  set_socket : bool;
  set_keyfile : bool;
  set_config : bool;
  directory : string;
  socket : string;
  keyfile : string;
  config : string
}.

(** No flag given: the defaults of the declarations. *)
Definition default_flags : flags :=
  mkFlags false false false false DefaultDirectory (PathJoin DefaultDirectory SocketName)
    (PathJoin DefaultDirectory KeyfileName) (PathJoin DefaultDirectory ConfigName).

Inductive exit_error : Type :=
| EFlags
| EHomedir
| EExists (path : string)
| EMkdir
| EConfig (e : Config.error)
| EPrivkey
| EApiSocket
| EConfigure (e : cfg_error)
| ENodeStart
| EMultiaddr
| EApi (e : Api.error)
| ENoArgument
| ENotImplemented.

Section paths.
Context `{Homedir}.

Definition getSocket (c : flags) : string + exit_error :=
  match homedir_Expand (directory c) with
  | None => inr EHomedir
  | Some dir =>
      if set_directory c then inl (PathJoin dir SocketName)
      else match homedir_Expand (socket c) with Some s => inl s | None => inr EHomedir end
  end.

(** The paths of the key file and the configuration that init writes. *)
Definition init_paths (c : flags) : (string * string) + exit_error :=
  if set_directory c && (set_keyfile c || set_config c) then inr EFlags else
  match homedir_Expand (directory c) with
  | None => inr EHomedir
  | Some dir =>
      if set_directory c then inl (PathJoin dir KeyfileName, PathJoin dir ConfigName) else
      match homedir_Expand (keyfile c) with
      | None => inr EHomedir
      | Some kfpath =>
          match homedir_Expand (config c) with
          | None => inr EHomedir
          | Some cfgpath => inl (kfpath, cfgpath)
          end
      end
  end.

(** The socket, key file and configuration that start uses; the key file may be
    @ or -, which are not paths. *)
Definition start_paths (c : flags) : (string * string * string) + exit_error :=
  if set_directory c && (set_socket c || set_keyfile c || set_config c) then inr EFlags else
  match homedir_Expand (directory c) with
  | None => inr EHomedir
  | Some dir =>
      if set_directory c
      then inl (PathJoin dir SocketName, PathJoin dir KeyfileName, PathJoin dir ConfigName) else
      match homedir_Expand (socket c) with
      | None => inr EHomedir
      | Some sock =>
          let special := String.eqb (keyfile c) "@" || String.eqb (keyfile c) "-" in
          match (if special then Some (keyfile c) else homedir_Expand (keyfile c)) with
          | None => inr EHomedir
          | Some kf =>
              match homedir_Expand (config c) with
              | None => inr EHomedir
              | Some cfg => inl (sock, kf, cfg)
              end
          end
      end
  end.
End paths.

(** The machine a command runs on. *)
Record machine : Type := mkMachine {
  m_files : gmap string string;
  m_entropy : entropy;
  m_heap : heap;
  m_removed : list string      (* sockets taken away *)
}.

Definition set_files (fs : gmap string string) (m : machine) : machine :=
  mkMachine fs (m_entropy m) (m_heap m) (m_removed m).

Definition on_heap {A} (f : M heap A) : M machine A := fun m =>
  match f (m_heap m) with
  | Ok (a, h) => Ok (a, mkMachine (m_files m) (m_entropy m) h (m_removed m))
  | Panic => Panic
  | Block => Block
  end.

Definition on_entropy {A} (f : entropy -> res (A * entropy)) : M machine A := fun m =>
  match f (m_entropy m) with
  | Ok (a, e) => Ok (a, mkMachine (m_files m) e (m_heap m) (m_removed m))
  | Panic => Panic
  | Block => Block
  end.

Definition on_files {A} (f : gmap string string -> gmap string string * A) : M machine A := fun m =>
  let '(fs, a) := f (m_files m) in Ok (a, set_files fs m).

Section commands.
Context `{Crypto, CidLib, MaddrLib, !SocketEnv, Multibase, !TomlLib, Homedir, FdEnv} {UH LH : Type}.
Abbreviation proc := (process (UH := UH) (LH := LH)).

(** What the file system allows. *)
Context (writable mkdir_ok : string -> bool).

Definition exists_ (path : string) (m : machine) : bool := bool_decide (is_Some (m_files m !! path)).

Definition initCmdFunc (c : flags) : M machine (option exit_error) :=
  match init_paths c with
  | inr e => mret (Some e)
  | inl (kfpath, cfgpath) =>
      m ← gets id;
      if exists_ kfpath m then mret (Some (EExists kfpath)) else
      if exists_ cfgpath m then mret (Some (EExists cfgpath)) else
      match DefaultConfig with
      | Panic => panic
      | Block => block
      | Ok cfg =>
          k ← on_entropy MustGeneratePrivateKey;
          let kf := mkKeyfile k (NewPeerID (Key.PublicKey_ k)) (IPAddr (Key.PublicKey_ k)) in
          if negb (mkdir_ok (Dir kfpath)) then mret (Some EMkdir) else
          err ← on_files (SaveKeyfile writable kfpath kf);
          match err with
          | Some e => mret (Some (EConfig e))
          | None =>
              if negb (mkdir_ok (Dir cfgpath)) then mret (Some EMkdir) else
              err ← on_files (SaveConfig writable cfgpath cfg);
              match err with Some e => mret (Some (EConfig e)) | None => mret None end
          end
      end
  end.

(** [stdin] is what can be read from standard input; a line ends with a
    newline, which stays part of it. *)
Definition readPrivateKey (kf stdin : string) : M machine (PrivateKey + exit_error) :=
  if String.eqb kf "@" then
    r ← on_entropy GeneratePrivateKey;
    match r with GenKey k => mret (inl k) | GenErr => mret (inr EPrivkey) end
  else if String.eqb kf "-" then
    match split_first "010" stdin with
    | None => mret (inr EPrivkey)
    | Some (line, _) =>
        r ← on_heap (ParsePrivateKey (line +:+ newline));
        match r with ParsedKey k => mret (inl k) | ParseErr => mret (inr EPrivkey) end
    end
  else
    m ← gets id;
    r ← on_heap (LoadKeyfile (m_files m) kf);
    match r with inl f => mret (inl (kf_PrivateKey f)) | inr e => mret (inr EPrivkey) end.

(** [os.Stat] on the API socket. *)
Inductive stat_result : Type := StatOk | StatNotExist | StatErr.

(** The API socket: its state, the error text of dialling it, whether it can be
    removed and listened on. *)
Context (stat : string -> stat_result) (dial : string -> option string) (removable listen_ok : string -> bool).

Definition checkSocket (sock : string) : M machine (option exit_error) :=
  match stat sock with
  | StatNotExist => mret None
  | StatErr => mret (Some EApiSocket)
  | StatOk =>
      match dial sock with
      | Some msg =>
          if Contains msg "refused" then
            if removable sock
            then _ ← modify (fun m => mkMachine (m_files m) (m_entropy m) (m_heap m) (m_removed m ++ [sock])); mret None
            else mret (Some EApiSocket)
          else mret (Some EApiSocket)
      | None => mret (Some EApiSocket)
      end
  end.

Definition startAPI (sock : string) : M machine (option exit_error) :=
  err ← checkSocket sock;
  match err with
  | Some e => mret (Some e)
  | None => if listen_ok sock then mret None else mret (Some EApiSocket)
  end.

(** The node's surroundings: the endpoint and TUN device, the directory for
    passing descriptors, the clock, map order, and sockets to come. *)
Context (fcnet_Start : Z -> M proc (option Api.error)) (nm_Start : string -> M proc (option Z)) (dir : option string).
Context (clock : list Z) (ord : Session.Session.map_order) (socks : list bool).

Definition client : NodeAPI proc := remote nodeAPI fcnet_Start dir.

Definition configureNode (fs : gmap string string) (cfgpath : string) : M proc (option exit_error) :=
  match LoadConfig fs cfgpath with
  | inr e => mret (Some (EConfig e))
  | inl cfg => err ← ConfigureAll client nm_Start cfg; mret (EConfigure <$> err)
  end.

Definition configureNodeDefault : M proc (option exit_error) :=
  match DefaultConfig with
  | Ok cfg => err ← ConfigureAll client nm_Start cfg; mret (EConfigure <$> err)
  | Panic => panic
  | Block => block
  end.

(** [start] ends with an error or leaves a node running for ever. *)
Inductive start_result : Type :=
| Exited (e : exit_error)
| Serving (p : proc).

(** The part of [startCmdFunc] that works on the new node. *)
Definition bring_up (c : flags) (fs : gmap string string) (cfgpath : string) : M proc (option exit_error) :=
  let ephemeral := negb (set_directory c) && String.eqb (keyfile c) "@" in
  let stdin := negb (set_directory c) && String.eqb (keyfile c) "-" in
  err ← (if negb stdin
         then if negb ephemeral then configureNode fs cfgpath else configureNodeDefault
         else mret None);
  match err with
  | Some e => mret (Some e)
  | None =>
      '(_, err) ← node_Start;
      match err with Some _ => mret (Some ENodeStart) | None => mret None end
  end.

Definition startCmdFunc (c : flags) (stdin : string) : M machine start_result :=
  match start_paths c with
  | inr e => mret (Exited e)
  | inl (sock, kf, cfgpath) =>
      r ← readPrivateKey kf stdin;
      match r with
      | inr e => mret (Exited e)
      | inl k =>
          m ← gets id;
          match Node.NewNode k (m_entropy m) clock ord (m_heap m) with
          | Panic => panic
          | Block => block
          | Ok n =>
              err ← startAPI sock;
              match err with
              | Some e => mret (Exited e)
              | None =>
                  match bring_up c (m_files m) cfgpath (mkProcess n ∅ [] socks []) with
                  | Panic => panic
                  | Block => block
                  | Ok (Some e, _) => mret (Exited e)
                  | Ok (None, p) => mret (Serving p)
                  end
              end
          end
      end
  end.

(** ** The commands that talk to a running node *)

Definition infoCmdFunc (c : flags) : M proc (option exit_error) :=
  match getSocket c with
  | inr e => mret (Some e)
  | inl _ =>
      '(_, err) ← Info client;
      match err with Some e => mret (Some (EApi e)) | None => mret None end
  end.

Definition stopCmdFunc (c : flags) : M proc (option exit_error) :=
  match getSocket c with
  | inr e => mret (Some e)
  | inl _ =>
      '(_, err) ← Stop client;
      match err with Some e => mret (Some (EApi e)) | None => mret (Some ENotImplemented) end
  end.

Definition peerStatusCmdFunc (c : flags) : M proc (option exit_error) :=
  match getSocket c with
  | inr e => mret (Some e)
  | inl _ =>
      '(_, err) ← Peer_Status client;
      match err with Some e => mret (Some (EApi e)) | None => mret None end
  end.

Fixpoint listen_args (args : list string) : M proc (option exit_error) :=
  match args with
  | [] => mret None
  | a :: args =>
      match MultiaddrText.ParseMultiaddr a with
      | (_, Some _) => mret (Some EMultiaddr)
      | (maddr, None) =>
          '(_, err) ← Peer_Listen client maddr;
          match err with Some e => mret (Some (EApi e)) | None => listen_args args end
      end
  end.

Definition peerListenCmdFunc (c : flags) (args : list string) : M proc (option exit_error) :=
  match getSocket c with
  | inr e => mret (Some e)
  | inl _ => match args with [] => mret (Some ENoArgument) | _ => listen_args args end
  end.

Definition peerConnectCmdFunc (c : flags) : M proc (option exit_error) := mret (Some ENotImplemented).
Definition peerPolicyCmdFunc (c : flags) : M proc (option exit_error) := mret (Some ENotImplemented).
End commands.
End Cmd.
Import Cmd.

(** ** init *)

Section init_spec.
Context `{CryptoLaws, CidLib, MaddrLib, MultibaseLaws, !TomlLib, Homedir}.
Context (writable mkdir_ok : string -> bool).

(** Init never overwrites: when the key file or the configuration is
    already there the command fails and the machine is as it was. *)
Theorem init_keeps (c : flags) (m : machine) (kfpath cfgpath : string) :
  init_paths c = inl (kfpath, cfgpath) ->
  is_Some (m_files m !! kfpath) \/ is_Some (m_files m !! cfgpath) ->
  exists path, initCmdFunc writable mkdir_ok c m = Ok (Some (EExists path), m).
Proof.
  intros Hp Hex. unfold initCmdFunc. rewrite Hp. erewrite bind_ok by reflexivity. unfold exists_, id.
  case_bool_decide as H1'; [by eexists|]. case_bool_decide as H2'; [by eexists|]. by destruct Hex.
Qed.

(** What init leaves behind. *)
Lemma init_files `{!CidLaws, !CidFormLaws, !MaddrLaws, !MultibaseFormLaws, !TomlLaws} c m kfpath cfgpath k e' :
  init_paths c = inl (kfpath, cfgpath) -> kfpath <> cfgpath ->
  m_files m !! kfpath = None -> m_files m !! cfgpath = None ->
  MustGeneratePrivateKey (m_entropy m) = Ok (k, e') ->
  writable kfpath = true -> writable cfgpath = true -> mkdir_ok (Dir kfpath) = true -> mkdir_ok (Dir cfgpath) = true ->
  exists t m', initCmdFunc writable mkdir_ok c m = Ok (None, m') /\
    m_files m' = <[cfgpath := t]> (<[kfpath := keyfile_text (keyfile_of k)]> (m_files m)) /\
    toml_Decode_config t = Some default_cfg.
Proof.
  intros Hp Hne Hk Hc He Wk Wc Dk Dc. unfold initCmdFunc. rewrite Hp. erewrite bind_ok by reflexivity.
  unfold exists_, id. rewrite !bool_decide_eq_false_2 by (rewrite ?Hk, ?Hc; apply is_Some_None).
  rewrite DefaultConfig_eq. erewrite bind_ok by (unfold on_entropy; rewrite He; reflexivity). cbv zeta.
  rewrite Dk, Dc. cbn [negb]. fold (keyfile_of k).
  erewrite bind_ok by (unfold on_files, SaveKeyfile, WriteFile; rewrite Wk; reflexivity).
  destruct (toml_roundtrip default_cfg default_wire) as (t & Ht & Hd).
  erewrite bind_ok by (unfold on_files, SaveConfig; rewrite Ht; unfold WriteFile; rewrite Wc; reflexivity).
  exists t. eexists. split; [reflexivity|]. done.
Qed.

(** C24: what init writes, start can use: on a machine without the two files, init
    succeeds and leaves every other file alone; afterwards the key file gives
    the key that was generated, and the configuration is the default one. *)
Theorem init_then_load `{!CidLaws, !CidFormLaws, !MaddrLaws, !MultibaseFormLaws, !TomlLaws}
    (c : flags) (m : machine) (kfpath cfgpath : string) (k : PrivateKey) (e' : entropy) (stdin : string) :
  init_paths c = inl (kfpath, cfgpath) -> kfpath <> cfgpath -> kfpath <> "@"%string -> kfpath <> "-"%string ->
  m_files m !! kfpath = None -> m_files m !! cfgpath = None ->
  MustGeneratePrivateKey (m_entropy m) = Ok (k, e') -> privkey_ok k ->
  NewPeerID (Key.PublicKey_ k) <> emptyPeerID ->
  writable kfpath = true -> writable cfgpath = true -> mkdir_ok (Dir kfpath) = true -> mkdir_ok (Dir cfgpath) = true ->
  exists m' m'', initCmdFunc writable mkdir_ok c m = Ok (None, m') /\
    (forall path, path <> kfpath -> path <> cfgpath -> m_files m' !! path = m_files m !! path) /\
    readPrivateKey kfpath stdin m' = Ok (inl k, m'') /\
    LoadConfig (m_files m') cfgpath = inl default_cfg.
Proof.
  intros Hp Hne Ha Hd Hk Hc He Hok Hpid Wk Wc Dk Dc.
  destruct (init_files c m kfpath cfgpath k e') as (t & m' & E & Ef & Et); [done..|].
  destruct (NewKeyfile_text k (m_heap m') Hok Hpid) as [h' En].
  exists m', (mkMachine (m_files m') (m_entropy m') h' (m_removed m')). split; [done|]. split_and!.
  - intros path P1 P2. by rewrite Ef, !lookup_insert_ne by done.
  - unfold readPrivateKey. apply String.eqb_neq in Ha, Hd. rewrite Ha, Hd. erewrite bind_ok by reflexivity.
    unfold id. erewrite bind_ok; [|unfold on_heap, LoadKeyfile; rewrite Ef, lookup_insert_ne, lookup_insert_eq by done;
      rewrite En; reflexivity]. by rewrite Ef.
  - unfold LoadConfig. by rewrite Ef, lookup_insert_eq, Et.
Qed.
End init_spec.

(** ** The API socket *)

Section socket_spec.
Context (stat : string -> stat_result) (dial : string -> option string) (removable : string -> bool).

(** A socket that someone answers on is never removed: the only socket that
    is taken away is one that exists, refuses connections, and is ours to
    open. *)
Theorem checkSocket_spec (sock : string) (m : machine) :
  exists err m', checkSocket stat dial removable sock m = Ok (err, m') /\
    (m_removed m' = m_removed m \/
     m_removed m' = m_removed m ++ [sock] /\ stat sock = StatOk /\ err = None /\
       exists msg, dial sock = Some msg /\ Contains msg "refused" = true) /\
    (err = None -> stat sock = StatNotExist \/ m_removed m' = m_removed m ++ [sock]).
Proof.
  assert (K : forall e : option exit_error, (e = None -> stat sock = StatNotExist) -> exists err m', Ok (e, m) = Ok (err, m') /\
    (m_removed m' = m_removed m \/
     m_removed m' = m_removed m ++ [sock] /\ stat sock = StatOk /\ err = None /\
       exists msg, dial sock = Some msg /\ Contains msg "refused" = true) /\
    (err = None -> stat sock = StatNotExist \/ m_removed m' = m_removed m ++ [sock])) by eauto 10.
  unfold checkSocket. destruct (stat sock) eqn:Es; [|by apply K..].
  destruct (dial sock) as [msg|] eqn:Ed; [|by apply K].
  destruct (Contains msg "refused") eqn:Ec; [|by apply K]. destruct (removable sock); [|by apply K].
  eexists _, _. split; [reflexivity|]. cbn. split; [|auto]. right. split_and!; try done. eauto.
Qed.
End socket_spec.

(** ** start *)

Section start_spec.
Context `{CryptoLaws, CidLib, MaddrLib, !SocketEnv, Multibase, !TomlLib, Homedir, FdEnv, !CidLaws, !CidFormLaws, !MaddrLaws} {UH LH : Type}.
Abbreviation proc := (process (UH := UH) (LH := LH)).
Context (stat : string -> stat_result) (dial : string -> option string) (removable listen_ok : string -> bool).
Context (ping : nat -> LH) (fcnet : nat -> UH) (nm_Start : string -> M proc (option Z)) (d : string).
Context (clock : list Z) (ord : Session.Session.map_order).

(** A new node: its identity is that of the key, it has no transports, does not
    run, and has no handlers. *)
Lemma NewNode_spec k e h :
  exists n, Node.NewNode (UH := UH) (LH := LH) k e clock ord h = Ok n /\
    Node.peerid n = NewPeerID (Key.PublicKey_ k) /\ Node.transports n = [] /\ Node.running n = Node.RNil /\
    Node.upperHandlers n = ∅ /\ Node.lowerHandlers n = ∅.
Proof.
  unfold Node.NewNode. cbv zeta. set (n0 := Node.mkNode _ _ _ _ _ _ _ _ _ _ _ _ _ _ _ _ _ _).
  unfold zoom. cbn [view Node.l_fwd].
  destruct (Attach_cases (NewPeerID (Key.PublicKey_ k)) Node.RecvUpper (Node.fwd n0) (Session.Session.mem (Node.sess n0)) NewForwarder_ok)
    as [(i & r & h' & _ & _ & -> & _)|[_ ->]]; by eexists.
Qed.

(** The server starts an endpoint in earnest. *)
Abbreviation endpoint := (endpoint_Start ping fcnet None None).

(** The environment that lets everything start: NetworkManager, which is outside
    of the process, yields the descriptor of a device, and the server gets it
    as [fd]. *)
Definition smooth (fd : Z) : Prop :=
  (exists nmfd, forall q, nm_Start "rovy0" q = Ok (Some nmfd, q)) /\
  receiveFD (d +:+ "/v0-fcnet-start.sock") = inl fd /\ fcnet_FileTUN fd = true.

(** A node that has come up: it runs, and so do its listeners, its endpoint and
    its discovery. *)
Record up (n : Node.Node UH LH) (fd : Z) (p : proc) : Prop := {
  up_peerid : Node.peerid (p_node p) = Node.peerid n;
  up_running : Node.Running (p_node p) = true;
  up_listens : map Node.listenAddr (Node.transports (p_node p)) = [any6; any4];
  up_transports : Forall (fun t => Node.Running_ (Node.t_running t) = true) (Node.transports (p_node p));
  up_endpoint : p_endpoints p = [(fd, running_endpoint n)];
  up_handlers : Node.upperHandlers (p_node p) = {[Fcnet.Fcnet.FcnetMulticodec := fcnet 0]} /\
    Node.lowerHandlers (p_node p) = {[Fcnet.Fcnet.PingMulticodec := ping 0]};
  up_discovery : exists ll, p_services p !! LinkLocal.ServiceTagLinkLocal = Some 0%nat /\ p_objects p !! 0%nat = Some ll /\
    LinkLocal.Running ll = true
}.

(** Bringing up a new node with the default configuration. *)
Lemma bring_up_default c fs cfgpath n rest fd :
  set_directory c = false -> keyfile c = "@"%string -> smooth fd ->
  Node.transports n = [] -> Node.running n = Node.RNil -> Node.upperHandlers n = ∅ -> Node.lowerHandlers n = ∅ ->
  exists p, bring_up endpoint nm_Start (Some d) c fs cfgpath (mkProcess n ∅ [] (true :: true :: true :: rest) []) = Ok (None, p) /\ up n fd p.
Proof.
  intros Hd Hk ((nmfd & Hnm) & Hfd & Htun) Ht Hr Hu Hl. set (p0 := mkProcess n ∅ [] (true :: true :: true :: rest) []).
  destruct (configure_default (Some d) nm_Start ping fcnet p0 rest nmfd fd d eq_refl eq_refl) as
    (t6 & t4 & p1 & ll & E & L6 & L4 & Hn & Hep & Hobj & Hrun & Hsvc & _); [|done|done|done|].
  { split; cbn; intros p; [by rewrite lookup_empty|by rewrite lookup_nil]. }
  unfold bring_up. rewrite Hd, Hk. cbn [negb andb String.eqb Ascii.eqb Bool.eqb].
  erewrite bind_ok by (unfold configureNodeDefault; rewrite DefaultConfig_eq; erewrite bind_ok by exact E; reflexivity).
  cbn [fmap option_fmap option_map]. set (n1 := over Node.l_transports (Node.transports (p_node p0) ++ [t6; t4]) (p_node p0)) in Hn.
  destruct (endpoint_node_same ping fcnet 0 n1) as (Q1 & Q2 & Q3). destruct (endpoint_handlers ping fcnet 0 n1) as [Q4 Q5];
    [cbn; by rewrite Hu|cbn; by rewrite Hl|]. cbn [p0 p_endpoints List.length] in Hn, Hep. rewrite <- Hn in Q1, Q2, Q3, Q4, Q5.
  assert (Es : on_node Node.Start p1 = Ok (None, mkProcess
    (over Node.l_transports (map (fun t => fst (Node.TStart t)) [t6; t4]) (Node.set_running Node.ROpen (p_node p1)))
    (p_services p1) (p_objects p1) (sockets p1) (p_endpoints p1))).
  { assert (Ht' : Node.transports (p_node p1) = [t6; t4]) by (rewrite Q2; cbn; by rewrite Ht).
    assert (Hr' : Node.running (p_node p1) = Node.RNil) by (by rewrite Q3).
    clear - Ht' Hr'. destruct p1 as [n2 ? ? ? ?]. cbn in Ht', Hr'. unfold on_node, Node.Start, mbind, M_bind. cbn.
    unfold Node.Running. rewrite Hr'. cbn. by rewrite Ht'. }
  eexists. split.
  { erewrite bind_ok; [|unfold node_Start; erewrite bind_ok by exact Es; reflexivity]. reflexivity. }
  assert (T : forall t, Node.listenAddr (fst (Node.TStart t)) = Node.listenAddr t /\
    Node.Running_ (Node.t_running (fst (Node.TStart t))) = true).
  { intros t. unfold Node.TStart. by destruct (Node.Running_ (Node.t_running t)) eqn:Et. }
  destruct (T t6) as [T6 R6], (T t4) as [T4 R4].
  split; cbn [p_node p_services p_objects p_endpoints].
  - exact Q1.
  - done.
  - cbn. by rewrite T6, T4, L6, L4.
  - by repeat constructor.
  - exact Hep.
  - split; cbn; [by rewrite Q4; cbn; rewrite Hu|by rewrite Q5; cbn; rewrite Hl].
  - by exists ll.
Qed.

(** C16: the command start with an ephemeral key ends with a running node: the
    node has the identity of the key that was generated, listens on port 1312 of
    both unspecified addresses with transports that run, has its IPv6 endpoint
    started on the device, with its handlers registered and its three loops
    running, and announces itself; no file is touched. This is the default
    configuration applied through the API client, the JSON encoding, the server
    and the node, given an API socket that is free, three sockets that open, a
    TUN device from NetworkManager whose descriptor reaches the server, and a
    local network stack that comes up. *)
Theorem start_ephemeral (c : flags) (m : machine) (stdin sock cfgpath : string) (k : PrivateKey) (e' : entropy)
    (rest : list bool) (fd : Z) :
  set_directory c = false -> keyfile c = "@"%string -> start_paths c = inl (sock, "@"%string, cfgpath) ->
  GeneratePrivateKey (m_entropy m) = Ok (GenKey k, e') ->
  stat sock = StatNotExist -> listen_ok sock = true -> smooth fd ->
  exists p m' n, startCmdFunc stat dial removable listen_ok endpoint nm_Start (Some d) clock ord
      (true :: true :: true :: rest) c stdin m = Ok (Serving p, m') /\
    m_files m' = m_files m /\ Node.peerid n = NewPeerID (Key.PublicKey_ k) /\ up n fd p.
Proof.
  intros Hd Hk Hp Hg Hst Hlis Hsm. unfold startCmdFunc. rewrite Hp.
  erewrite bind_ok; [|unfold readPrivateKey; cbn [String.eqb Ascii.eqb Bool.eqb];
    erewrite bind_ok by (unfold on_entropy; rewrite Hg; reflexivity); reflexivity].
  cbv iota. erewrite bind_ok by reflexivity. unfold id. cbn [m_entropy m_heap m_files].
  destruct (NewNode_spec k e' (m_heap m)) as (n & -> & Hpid & Ht & Hr & Hu & Hl).
  erewrite bind_ok; [|unfold startAPI, checkSocket; rewrite Hst; erewrite bind_ok by reflexivity; cbv iota; rewrite Hlis; reflexivity].
  destruct (bring_up_default c (m_files m) cfgpath n rest fd Hd Hk Hsm Ht Hr Hu Hl) as (p & E & Hup).
  rewrite E. exists p. eexists _, n. by split; [reflexivity|].
Qed.
End start_spec.

(** *** Witnesses *)

#[export] Instance toy_homedir : Homedir := { homedir_Expand := Some }.

Definition m0 : machine := mkMachine ∅ [Some [1; 2]] [] [].
Definition m1 : machine := mkMachine {["~/.rovy/keyfile.toml"%string := "#"%string]} [Some [1; 2]] [] [].

Lemma init_keeps_witness :
  exists path, initCmdFunc anywhere anywhere default_flags m1 = Ok (Some (EExists path), m1).
Proof.
  eapply (init_keeps _ _ default_flags m1); [reflexivity|]. left. by eexists.
Defined.

Lemma init_then_load_witness :
  exists m' m'', initCmdFunc anywhere anywhere default_flags m0 = Ok (None, m') /\
    (forall path, path <> "~/.rovy/keyfile.toml"%string -> path <> "~/.rovy/config.toml"%string ->
      m_files m' !! path = m_files m0 !! path) /\
    readPrivateKey "~/.rovy/keyfile.toml" "" m' = Ok (inl key0, m'') /\
    LoadConfig (m_files m') "~/.rovy/config.toml" = inl default_cfg.
Proof.
  apply (init_then_load _ _ default_flags m0 _ _ key0 []); try done; by apply (bool_decide_unpack _).
Defined.

Definition start_flags : flags := mkFlags false false true false "~/.rovy" "~/.rovy/api.sock" "@" "~/.rovy/config.toml".
Definition no_socket (_ : string) : stat_result := StatNotExist.

Lemma start_ephemeral_witness :
  exists p m' n, startCmdFunc no_socket (fun _ => None) anywhere anywhere (endpoint_Start fc_unit fc_unit None None) nm_ok
      (Some "/tmp/rovy0-1"%string) [] sw_order [true; true; true] start_flags "" m0 = Ok (Serving p, m') /\
    m_files m' = m_files m0 /\ Node.peerid n = NewPeerID (Key.PublicKey_ key0) /\ up fc_unit fc_unit n 7 p.
Proof.
  eapply (start_ephemeral _ _ _ _ fc_unit fc_unit _ "/tmp/rovy0-1" _ _ start_flags m0 "" _ _ key0 [] [] 7); try done.
  split; [by exists 7|done].
Defined.
